(* ===== verification/_CoqProject ===== *)
-Q . S2P
Prelude.v
CMem.v
Printf.v
Prog.v
Pool.v
Json.v
WifiScan.v
Ext.v
WifiState.v
WifiJson.v
WifiNvs.v
Led.v
WifiManager.v
JsonDoc.v
HttpServer.v
HttpSpec.v
WifiTyped.v
Station.v
WifiRound.v
WifiTasks.v
WifiBoot.v
WifiRaces.v
Float32.v
Rounding.v
Atof.v
Pm.v
Ota.v
Gps.v
IspInfo.v
Sd.v
HttpUpload.v
TimeIf.v
Sensors.v
AppUtils.v
Mqtt.v
MqttTasks.v
HttpClient.v
FmtFloat.v
Main.v
Packets.v
Telemetry.v
