(* ===== verification/Prelude.v ===== *)
(** * AirU v2 firmware: a verification library

    ** The program

    The firmware (src/main/, C on ESP-IDF and FreeRTOS) runs an air-quality
    sensor.  [app_main] starts the drivers and the tasks, which interact
    through static variables, FreeRTOS event groups and callbacks:
    - the Wi-Fi manager (wifi_manager.c) keeps the network; the other tasks ask
      it for things by setting bits of its event group;
    - the HTTP server (http_server_if.c) serves the configuration pages from
      the Wi-Fi manager's statics, under its mutex, and posts requests to it;
    - the sensors (pm_if.c, gps_if.c, hdc1080_if.c, mics4514_if.c) are polled by
      the data task (main.c), which publishes a packet over MQTT (mqtt_if.c) and
      stores another on the SD card (sd_if.c);
    - an MQTT message names a firmware image, which the OTA task (ota_if.c)
      downloads and boots;
    - the rest: the clock (time_if.c), the LEDs (led_if.c), the upload of a file
      of the card (http_file_upload.c), JSON strings (json.c), the device's name
      and the start of the storage (app_utils.c), an unused FTP login
      (http_client_if.c).

    ** How it is modelled

    A function is a program of [Prog.prog]: it reads and updates the statics of
    its component (a Record), calls the functions outside the repository
    ([Ext.ext], each with an [Ext.answer]) and returns, or stops with
    undefined behaviour ([UB]: an access outside an object, a NULL pointer),
    abort or restart.  Nothing is assumed about an answer unless a theorem says
    so.  [Prog.exec R] lets other tasks change the statics as [R] allows between
    any two actions; [R = eq] is a run without interference; [run] is the
    executable form on given answers.  Theorems are proved with [wp] (any
    interference, a discipline for every call), [wpa] (given answers, no
    interference), [only] (the calls a program can make) and [safe].
    Parts of a component are composed with [zoom], which runs a program on one
    part of the statics.

    The tasks together are a pool ([Pool.pool]): the statics, the owner of a
    mutex and what is left of every task; a step is one action of one task.
    [Pool.lwp] says what a task may do on its own (change what the mutex
    protects only while it owns it, give it back only when that is whole, keep
    an invariant of the statics at every update); if every function of every
    task does, every reachable pool is in order ([Pool.pool_steps_ok]).
    [Pool.pool_run] runs a pool on a schedule.

    Memory areas are lists of their exact size (CMem), text is a list of bytes,
    machine integers are Z with their wrap written out ([u8], [u16], [u32],
    [s32], [uwrap], [swrap]); [float] and [double] are the Standard Library's
    IEEE 754 specification floats (Float32).  What is handed to the network
    stack with NETCONN_NOCOPY is a piece ([Ext.piece]): a constant, or a pointer
    to a shared document, of which a theorem can say what it held at the call
    and what it holds later.  The storage of a world whose calls succeed has a
    working copy and the flash ([WifiNvs.nvs]): only nvs_commit brings one into
    the other, and only the flash survives a power cycle.  The platform is the ESP32: 32-bit
    int, pointer, time_t and clock_t, unsigned char, 100 ticks a second.

    ** The files

    - Prelude: this file; generic lemmas, tactics, the hint database [airu].
    - CMem, Printf, Float32, Atof, FmtFloat: memory areas and string.h, printf and
      atol of integers, floating-point arithmetic, atof, "%.nf".  Rounding: each
      floating-point operation is the nearest float of its exact result, a real
      number.
    - Prog, Ext: programs and their logic; the outside, with the classes of what
      is relied on: [EventGroup], [Storage], [FileSystem], each with laws and an
      instance.
    - Pool: tasks that share statics and a mutex.
    - Json: json.c.
    - WifiState, WifiScan, WifiJson, WifiNvs, WifiManager: wifi_manager.c and its
      header: statics; the scan filter; the JSON documents and the mutex; the
      storage; events, timers, ping, the task with its start and its end.
    - JsonDoc: a reader of JSON, and the three documents as a browser reads them.
    - HttpServer, IspInfo: http_server_if.c; HttpSpec: the server seen from a
      browser, a table of routes and the responses of each, which it refines.
    - WifiTyped, WifiTasks: the tasks around the Wi-Fi manager together (its
      rounds, the server's connections, the driver's events, the ping callback,
      the reconnect timer): the type of the statics, and the pool.  WifiRaces:
      its runs in which two tasks get in each other's way.  MqttTasks: the same
      for the tasks around the MQTT client.
    - Station: the Wi-Fi manager task seen from outside, a station with its
      network, storage, timer and two texts, and its rounds.  WifiRound: the code
      refines them.  WifiBoot: its start after a power cycle, of which only the
      storage is left.
    - Led: led_if.c.  Pm: pm_if.c.  Gps: gps_if.c.  Ota: ota_if.c.  Sd: sd_if.c.
    - HttpUpload: http_file_upload.c.  TimeIf: time_if.c.
    - Sensors: hdc1080_if.c and mics4514_if.c.  AppUtils: app_utils.c.
    - Mqtt: mqtt_if.c.  HttpClient: http_client_if.c.
    - Main: main.c and the packets of mqtt_if.h and sd_if.h.
    - Packets: readers of comma-separated tables, of InfluxDB's line protocol and
      of decimals, and what they make of the packets.  Telemetry: a whole round
      of the data task, from the sensors to those readers.

    A definition has the name of the function, variable or constant it models;
    a part of a function that is a definition of its own says which.  PROJECT.json
    gives the lines of every definition.

    ** What is proved

    - Interleavings: whatever the order of the steps of the Wi-Fi manager's tasks,
      as long as nobody asks for /register.json, the documents are whole when
      they are handed to the stack, the mutex protects them and is given back;
      and where the code takes no lock or releases one it does not have:
      accepted credentials are erased untried, the networks saved are mixed,
      /register.json releases another task's mutex and a document is served
      half printed, a document is printed anew while the stack may still send
      it, a destroyed MQTT client is published on.
    - Disciplines over whole runs, whatever the calls answer: the station's
      configuration is saved only after a connection, the JSON mutex is
      balanced, only a complete image becomes the boot partition, nothing is
      published by a step begun without a connection, the start uses the event
      groups it makes after they were made, the storage is erased only when its
      format is another.
    - Refinement and equivalence: what is written on a connection is a response
      of the server's specification, whatever the other tasks do; the rounds of
      the Wi-Fi manager do to its variables, storage, bits and timer what the
      rounds of a station do ([Station.station_round]), so a network the user
      left is not joined again, and one that was joined survives a power cycle;
      the driver's events act on the event group as sets of bits; the in-place
      scan filter is the reference filter.
    - Functional behaviour: the routes of the server, the documents, GGA and RMC
      sentences (the position to 0.00003 degrees), dust packets from the UART to
      the averages of a poll, the humidity sensor without rounding error, the
      received provider's description, the packets of the data task, the messages of
      MQTT, the time between two updates.
    - Round trips: the stored configuration over a power cycle, JSON strings and the JSON documents,
      the chunked body of an upload, the daily file as a table and the published
      packet as a point (decimals to the nearest), the device's name, a digest.
    - Memory: an upload, a JSON string and a round of the data task stay within
      their buffers, under the conditions each theorem names, or exactly when
      they do not.
    - Termination: the tries for the time; and the loops that do not end (the
      sentence checksum, an upload of a file that is shorter than it said).
    - Errors: what every failure of the storage leaves, races, leaks; the
      findings of PROJECT.json name the theorems that show them.

    ** Fuel

    Loops without a structural bound take fuel and stop with [OutOfFuel].  Two
    have theirs built in: the tries for the time 26 (24 are made,
    [TimeIf.obtain_time_ends]), and the shift of the logs 256, of an 8-bit
    counter.  The others (the connections of the server, the pieces received or
    sent by Ota, IspInfo, HttpUpload and HttpClient, the sentence checksum, the
    rounds of the data task) depend on the outside and take theirs as an
    argument; the theorems hold for every fuel, or name the pieces and the fuel
    that is enough for them.  A task's endless loop is its round; [iterates]
    repeats it.

    ** Not modelled

    Logging, except where it reads memory that may not be a string
    (HttpClient) or prints a description behind a pointer (AppUtils); the text
    of a log message is an argument of [Sd.esp_sd_log_write].  The event handler
    of the registration's HTTP client and [print_char_val_type], which only log;
    [getMQTT_Config], which only fills in configured constants.  ESP-IDF,
    FreeRTOS, lwIP, the C library's files and sockets and the MQTT client are
    outside: calls of [Ext.ext].  [Main] composes the components without the
    statics of the Wi-Fi manager, which the data task and the start reach only
    through its event group; the interference of other tasks is the relation
    [R], except in the theorems stated for [R = eq].  In the pools an update of
    the statics is one step, also where it is a loop over a buffer; the bits of
    the event groups are answers there, not part of the pool; a mutex that is
    given back by a task that does not own it may be in any state afterwards.
    In the world of [WifiRound] the driver's events come while the task waits for
    them, the driver's calls succeed, and a ping without a reply is reported
    after the wait (to [pingResults], a task of the pool). *)

From stdpp Require Export base numbers list option strings gmap.
From Stdlib Require Export ZArith Lia.


Declare Scope airu_scope.
Delimit Scope airu_scope with airu.

(** ** Bytes and C string literals

    A byte is a [Z] in [0, 256); a C string or a memory area is a [list Z]. *)

Definition is_byte (c : Z) : Prop := (0 <= c < 256)%Z.

#[export] Instance is_byte_dec (c : Z) : Decision (is_byte c).
Proof. unfold is_byte. apply _. Defined.

(** The characters of a literal: escapes [\n \r \t \b \f \\] as in C, and the
    apostrophe stands for the double quote. *)
Definition ascii_code (a : Ascii.ascii) : Z := Z.of_N (Ascii.N_of_ascii a).

Definition escape_code (c : Z) : Z :=
  if Z.eqb c 110 then 10          (* \n *)
  else if Z.eqb c 114 then 13     (* \r *)
  else if Z.eqb c 116 then 9      (* \t *)
  else if Z.eqb c 98 then 8       (* \b *)
  else if Z.eqb c 102 then 12     (* \f *)
  else c.

Fixpoint lit (s : string) : list Z :=
  match s with
  | EmptyString => []
  | String a s' =>
      if Z.eqb (ascii_code a) 92 then
        match s' with
        | String b s'' => escape_code (ascii_code b) :: lit s''
        | EmptyString => [92%Z]
        end
      else (if Z.eqb (ascii_code a) 39 then 34%Z else ascii_code a) :: lit s'
  end.

(** ** Machine integers: wrap-around at a width *)

Definition uwrap (w : Z) (x : Z) : Z := (x mod 2 ^ w)%Z.
Definition swrap (w : Z) (x : Z) : Z :=
  let y := uwrap w x in if Z.ltb y (2 ^ (w - 1)) then y else (y - 2 ^ w)%Z.

Abbreviation u8 := (uwrap 8).
Abbreviation u16 := (uwrap 16).
Abbreviation u32 := (uwrap 32).
Abbreviation s32 := (swrap 32).

(** The result of signed 32-bit arithmetic, undefined on overflow. *)
Definition int32 (z : Z) : option Z :=
  if Z.leb (- 2 ^ 31) z && Z.ltb z (2 ^ 31) then Some z else None.

Section wrap.
Local Open Scope Z_scope.

Lemma int32_small z : - 2 ^ 31 <= z < 2 ^ 31 -> int32 z = Some z.
Proof.
  intros H. unfold int32. by rewrite (proj2 (Z.leb_le _ _)), (proj2 (Z.ltb_lt _ _)) by lia.
Qed.

Lemma uwrap_small w x : 0 <= x < 2 ^ w -> uwrap w x = x.
Proof. apply Z.mod_small. Qed.

Lemma uwrap_range w x : 0 <= w -> 0 <= uwrap w x < 2 ^ w.
Proof. intros. apply Z.mod_pos_bound. lia. Qed.

Lemma uwrap_idemp w x : uwrap w (uwrap w x) = uwrap w x.
Proof. unfold uwrap. apply Zmod_mod. Qed.

Lemma uwrap_add_l w x y : uwrap w (uwrap w x + y) = uwrap w (x + y).
Proof. unfold uwrap. by rewrite Zplus_mod_idemp_l. Qed.

Lemma swrap_small w x : 0 < w -> - 2 ^ (w - 1) <= x < 2 ^ (w - 1) -> swrap w x = x.
Proof.
  intros Hw Hx. unfold swrap, uwrap.
  assert (2 ^ w = 2 * 2 ^ (w - 1)) as E.
  { rewrite <- Z.pow_succ_r by lia. f_equal. lia. }
  destruct (decide (0 <= x)) as [Hp|Hn].
  - rewrite Z.mod_small by lia. destruct (Z.ltb_spec x (2 ^ (w - 1))); lia.
  - replace (x mod 2 ^ w) with (x + 2 ^ w).
    + destruct (Z.ltb_spec (x + 2 ^ w) (2 ^ (w - 1))); lia.
    + symmetry. rewrite <- (Z.mod_small (x + 2 ^ w) (2 ^ w)) by lia.
      replace (x + 2 ^ w) with (x + 1 * 2 ^ w) by lia. by rewrite Z_mod_plus_full.
Qed.
End wrap.

(** Two bytes put together with a shift and an or. *)
Lemma lor_shiftl_byte (h l : Z) :
  (0 <= l < 256)%Z -> Z.lor (Z.shiftl h 8) l = (256 * h + l)%Z.
Proof.
  intros Hl. rewrite <- Z.add_nocarry_lor; [rewrite Z.shiftl_mul_pow2; lia|].
  apply Z.bits_inj'. intros n Hn. rewrite Z.land_spec, Z.bits_0.
  destruct (decide (n < 8)%Z) as [H8|H8].
  - by rewrite Z.shiftl_spec_low.
  - rewrite <- (Z.mod_small l (2 ^ 8)) by lia. rewrite Z.mod_pow2_bits_high by lia.
    apply andb_false_r.
Qed.

(** ** Automation *)

Create HintDb airu discriminated.
#[export] Hint Extern 1 (_ <= _) => lia : airu.
#[export] Hint Extern 1 (_ < _) => lia : airu.
#[export] Hint Resolve Forall_nil_2 Forall_cons_2 Forall_app_2 : airu.

(** [inv_opt]: invert [option] binds and guards in the hypotheses. *)
Ltac inv_opt :=
  repeat match goal with
  | H : Some _ = Some _ |- _ => injection H as H; try subst
  | H : Some _ = None |- _ => discriminate H
  | H : None = Some _ |- _ => discriminate H
  | H : (?m ≫= _) = Some _ |- _ =>
      let E := fresh "E" in destruct m eqn:E; cbn [mbind option_bind] in H; [|discriminate H]
  end.

(** [split_ifs]: case analysis on every boolean test of the goal. *)
Ltac split_ifs :=
  repeat match goal with
  | |- context [if ?b then _ else _] =>
      match type of b with bool => destruct b eqn:? end
  end.

(** [zify_bool]: boolean comparisons on [Z] and [nat] to propositions. *)
Ltac zify_bool :=
  repeat match goal with
  | H : andb _ _ = true |- _ => apply andb_prop in H as [? ?]
  | H : orb _ _ = false |- _ => apply orb_false_elim in H as [? ?]
  | H : negb _ = true |- _ => apply negb_true_iff in H
  | H : negb _ = false |- _ => apply negb_false_iff in H
  | H : Z.eqb _ _ = true |- _ => apply Z.eqb_eq in H
  | H : Z.eqb _ _ = false |- _ => apply Z.eqb_neq in H
  | H : Z.ltb _ _ = true |- _ => apply Z.ltb_lt in H
  | H : Z.ltb _ _ = false |- _ => apply Z.ltb_ge in H
  | H : Z.leb _ _ = true |- _ => apply Z.leb_le in H
  | H : Z.leb _ _ = false |- _ => apply Z.leb_gt in H
  | H : Z.gtb _ _ = true |- _ => rewrite Z.gtb_ltb in H; apply Z.ltb_lt in H
  | H : Z.gtb _ _ = false |- _ => rewrite Z.gtb_ltb in H; apply Z.ltb_ge in H
  | H : Z.geb _ _ = true |- _ => rewrite Z.geb_leb in H; apply Z.leb_le in H
  | H : Z.geb _ _ = false |- _ => rewrite Z.geb_leb in H; apply Z.leb_gt in H
  | H : Nat.eqb _ _ = true |- _ => apply Nat.eqb_eq in H
  | H : Nat.eqb _ _ = false |- _ => apply Nat.eqb_neq in H
  | H : Nat.ltb _ _ = true |- _ => apply Nat.ltb_lt in H
  | H : Nat.ltb _ _ = false |- _ => apply Nat.ltb_ge in H
  | H : Nat.leb _ _ = true |- _ => apply Nat.leb_le in H
  | H : Nat.leb _ _ = false |- _ => apply Nat.leb_gt in H
  end.

(** [test_simpl]: decide the comparisons of the goal that [lia] can decide. *)
Ltac test_simpl :=
  repeat match goal with
  | |- context [Z.eqb ?a ?b] =>
      first [rewrite (proj2 (Z.eqb_neq a b)) by lia | rewrite (proj2 (Z.eqb_eq a b)) by lia]
  | |- context [Z.ltb ?a ?b] =>
      first [rewrite (proj2 (Z.ltb_ge a b)) by lia | rewrite (proj2 (Z.ltb_lt a b)) by lia]
  | |- context [Z.leb ?a ?b] =>
      first [rewrite (proj2 (Z.leb_gt a b)) by lia | rewrite (proj2 (Z.leb_le a b)) by lia]
  | |- context [Nat.eqb ?a ?b] =>
      first [rewrite (proj2 (Nat.eqb_neq a b)) by lia | rewrite (proj2 (Nat.eqb_eq a b)) by lia]
  | |- context [Nat.ltb ?a ?b] =>
      first [rewrite (proj2 (Nat.ltb_ge a b)) by lia | rewrite (proj2 (Nat.ltb_lt a b)) by lia]
  | |- context [Nat.leb ?a ?b] =>
      first [rewrite (proj2 (Nat.leb_gt a b)) by lia | rewrite (proj2 (Nat.leb_le a b)) by lia]
  end; cbn [andb orb negb].

(** [forall_list]: a bound on every element of a list of constants. *)
Ltac forall_list :=
  match goal with |- Forall ?P ?l => let l' := eval vm_compute in l in change (Forall P l') end;
  repeat (apply Forall_cons_2; [first [lia | unfold is_byte; lia]|]); apply Forall_nil_2.

(** [solve_len]: arithmetic on lengths of appended lists. *)
Ltac solve_len := rewrite ?length_app, ?length_replicate in *; simpl in *; lia.

(** [lit_len]: the lengths of literals as numbers. *)
Ltac lit_len :=
  repeat match goal with
  | |- context [length (lit ?s)] =>
      let n := eval vm_compute in (length (lit s)) in change (length (lit s)) with n
  | H : context [length (lit ?s)] |- _ =>
      let n := eval vm_compute in (length (lit s)) in change (length (lit s)) with n in H
  end.

(** ** Generic list lemmas *)

Section lists.
Context {A : Type}.
Implicit Types l k : list A.

Lemma take_app_exact l k n : n = length l -> take n (l ++ k) = l.
Proof. intros ->. apply take_app_length. Qed.

Lemma drop_app_exact l k n : n = length l -> drop n (l ++ k) = k.
Proof. intros ->. apply drop_app_length. Qed.

Lemma split_at l n : n <= length l -> exists p q, l = p ++ q /\ length p = n.
Proof.
  intros. exists (take n l), (drop n l). rewrite take_drop, length_take. split; [done|lia].
Qed.

Lemma insert_app_exact l k n (x y : A) :
  n = length l -> <[n := x]> (l ++ y :: k) = l ++ x :: k.
Proof. intros ->. rewrite insert_app_r_alt by lia. by rewrite Nat.sub_diag. Qed.

Lemma lookup_app_exact l k n (x : A) : n = length l -> (l ++ x :: k) !! n = Some x.
Proof. intros ->. by rewrite list_lookup_middle. Qed.
End lists.
