(* ===== verification/CMem.v ===== *)
(** * C memory areas and the string.h functions the firmware uses

    A memory area (array, heap block) is a [list Z] of its exact size.  An
    operation that would touch a byte outside the area is [None]: that is
    undefined behaviour in C.  A NUL-terminated string inside an area is read
    by [cstr]. *)

From S2P Require Import Prelude.

Local Open Scope Z_scope.

(** The bytes before the first NUL; [None] when the area holds no NUL (the C
    function would read past the end). *)
Fixpoint cstr (b : list Z) : option (list Z) :=
  match b with
  | [] => None
  | c :: b' => if Z.eqb c 0 then Some [] else s ← cstr b'; Some (c :: s)
  end.

Definition strlen (b : list Z) : option nat := length <$> cstr b.

(** Write [vs] at offset [off] of the area [b]. *)
Definition write (b : list Z) (off : nat) (vs : list Z) : option (list Z) :=
  if Nat.leb (off + length vs) (length b)
  then Some (take off b ++ vs ++ drop (off + length vs) b)
  else None.

Definition store (b : list Z) (off : nat) (v : Z) : option (list Z) := write b off [v].

Definition memset (b : list Z) (off : nat) (v : Z) (n : nat) : option (list Z) :=
  write b off (replicate n v).

(** [memcpy (b + off, src, n)]: reads [n] bytes of [src] and writes them. *)
Definition memcpy (b : list Z) (off : nat) (src : list Z) (n : nat) : option (list Z) :=
  if Nat.leb n (length src) then write b off (take n src) else None.

(** [strcpy (b + off, s)] for the C string contents [s]. *)
Definition strcpy (b : list Z) (off : nat) (s : list Z) : option (list Z) :=
  write b off (s ++ [0]).

Definition strcat (b : list Z) (s : list Z) : option (list Z) :=
  n ← strlen b; strcpy b n s.

(** [snprintf (b + off, size, ...)] for the formatted text [s]: at most [size]
    bytes including the terminating NUL; the value returned in C is
    [length s]. *)
Definition snprintf (b : list Z) (off size : nat) (s : list Z) : option (list Z) :=
  match size with
  | O => Some b
  | S n => write b off (take n s ++ [0])
  end.

(** [strncpy (b + off, src, n)] from the memory [src]: up to the NUL, filled up
    with NULs to [n] bytes. *)
Definition strncpy (b : list Z) (off : nat) (src : list Z) (n : nat) : option (list Z) :=
  match cstr (take n src) with
  | Some s => write b off (s ++ replicate (n - length s) 0)
  | None => if Nat.leb n (length src) then write b off (take n src) else None
  end.

(** [strcmp] of two string contents (a list end reads as the NUL). *)
Fixpoint strcmp (s t : list Z) : Z :=
  match s, t with
  | [], [] => 0
  | [], d :: _ => 0 - d
  | c :: _, [] => c - 0
  | c :: s', d :: t' => if Z.eqb c d then (if Z.eqb c 0 then 0 else strcmp s' t') else c - d
  end.

Fixpoint is_prefix (p s : list Z) : bool :=
  match p, s with
  | [], _ => true
  | c :: p', d :: s' => Z.eqb c d && is_prefix p' s'
  | _ :: _, [] => false
  end.

(** [strstr]: the offset of the first occurrence. *)
Fixpoint strstr (s p : list Z) : option nat :=
  if is_prefix p s then Some 0%nat
  else match s with
       | [] => None
       | _ :: s' => S <$> strstr s' p
       end.

(** [strchr] for a character other than NUL. *)
Fixpoint strchr (s : list Z) (c : Z) : option nat :=
  match s with
  | [] => None
  | d :: s' => if Z.eqb d c then Some 0%nat else S <$> strchr s' c
  end.

(** ** Reading and writing *)

Definition nonzero (s : list Z) : Prop := Forall (fun c => c <> 0) s.

#[export] Instance nonzero_dec s : Decision (nonzero s).
Proof. unfold nonzero. apply _. Defined.

Lemma cstr_app s r : nonzero s -> cstr (s ++ 0 :: r) = Some s.
Proof.
  induction 1 as [|c s Hc _ IH]; simpl; [done|].
  destruct (Z.eqb_spec c 0); [done|]. by rewrite IH.
Qed.

Lemma cstr_inv b s : cstr b = Some s -> nonzero s /\ exists r, b = s ++ 0 :: r.
Proof.
  revert s. induction b as [|c b IH]; simpl; intros s H; [done|].
  destruct (Z.eqb_spec c 0) as [->|Hc].
  - inv_opt. split; [constructor|by exists b].
  - destruct (cstr b) as [s'|]; simpl in H; [|done]. inv_opt.
    destruct (IH s' eq_refl) as [Hn [r ->]].
    split; [by constructor|by exists r].
Qed.

Lemma cstr_none b : cstr b = None <-> Forall (fun c => c <> 0) b.
Proof.
  induction b as [|c b IH]; simpl; [done|].
  destruct (Z.eqb_spec c 0) as [->|Hc].
  - split; [done|]. intros H. by inversion H.
  - destruct (cstr b); simpl.
    + split; [done|]. intros H. inversion H. by apply IH in H3.
    + split; [|done]. constructor; [done|by apply IH].
Qed.

Lemma strlen_app s r : nonzero s -> strlen (s ++ 0 :: r) = Some (length s).
Proof. intros H. unfold strlen. by rewrite cstr_app. Qed.

Lemma write_spec p q r vs :
  length q = length vs -> write (p ++ q ++ r) (length p) vs = Some (p ++ vs ++ r).
Proof.
  intros Hl. unfold write. rewrite !length_app.
  destruct (Nat.leb_spec (length p + length vs) (length p + (length q + length r))); [|lia].
  rewrite take_app_length. f_equal. f_equal. f_equal.
  rewrite app_assoc. apply drop_app_exact. rewrite length_app. lia.
Qed.

Lemma write_length b off vs b' : write b off vs = Some b' -> length b' = length b.
Proof.
  unfold write. destruct (Nat.leb_spec (off + length vs) (length b)); [|done].
  intros H'. inv_opt. rewrite !length_app, length_take, length_drop. lia.
Qed.

Lemma write_some b off vs :
  (off + length vs <= length b)%nat ->
  write b off vs = Some (take off b ++ vs ++ drop (off + length vs) b).
Proof. intros. unfold write. by rewrite (proj2 (Nat.leb_le _ _)). Qed.

Lemma write_none b off vs : write b off vs = None <-> (length b < off + length vs)%nat.
Proof.
  unfold write. destruct (Nat.leb_spec (off + length vs) (length b)); split; (done || lia).
Qed.

(** The workhorse: writing a terminated string at the end of a prefix. *)
Lemma strcpy_end p s b :
  (length p + length s + 1 <= length b)%nat -> take (length p) b = p ->
  exists r, strcpy b (length p) s = Some (p ++ s ++ 0 :: r) /\
            length (p ++ s ++ 0 :: r) = length b.
Proof.
  intros Hl Hp. unfold strcpy. rewrite write_some by (rewrite length_app; simpl; lia).
  rewrite Hp. eexists. split; [by rewrite <- !app_assoc|].
  rewrite !length_app. simpl. rewrite length_drop. lia.
Qed.

Lemma strcat_spec p s r :
  nonzero p -> (length s <= length r)%nat ->
  exists r', strcat (p ++ 0 :: r) s = Some (p ++ s ++ 0 :: r') /\
             length r' = (length r - length s)%nat.
Proof.
  intros Hp Hl. unfold strcat. rewrite strlen_app by done. simpl.
  destruct (strcpy_end p s (p ++ 0 :: r)) as (r' & -> & HL).
  - rewrite length_app. simpl. lia.
  - apply take_app_length.
  - exists r'. split; [done|]. rewrite !length_app in HL. simpl in HL. lia.
Qed.

Lemma snprintf_fits b off size s :
  (length s < size)%nat -> snprintf b off size s = strcpy b off s.
Proof.
  intros H. destruct size as [|n]; [lia|]. simpl. unfold strcpy. by rewrite take_ge by lia.
Qed.

(** Two writes in a row, the second over the terminator of the first. *)
Lemma write_app b off t x w :
  (1 <= length w)%nat ->
  (b1 ← write b off (t ++ [x]); write b1 (off + length t) w) = write b off (t ++ w).
Proof.
  intros Hw. destruct (decide (off + (length t + length w) <= length b)%nat) as [Hl|Hl].
  - destruct (split_at b off) as (p & b1 & -> & <-); [lia|]. rewrite length_app in Hl.
    destruct (split_at b1 (length t)) as (m & b2 & -> & Hm); [lia|]. rewrite length_app in Hl.
    destruct (split_at b2 (length w)) as (k & q & -> & Hk); [lia|].
    destruct k as [|y k]; [simpl in Hk; lia|].
    replace (p ++ m ++ (y :: k) ++ q) with (p ++ (m ++ [y]) ++ k ++ q) at 1
      by (by rewrite <- app_assoc).
    rewrite write_spec by (rewrite !length_app; simpl; lia). cbn [mbind option_bind].
    replace (p ++ (t ++ [x]) ++ k ++ q) with ((p ++ t) ++ (x :: k) ++ q)
      by (by rewrite <- !app_assoc).
    rewrite <- (length_app p t), write_spec by done.
    replace (p ++ m ++ (y :: k) ++ q) with (p ++ (m ++ y :: k) ++ q)
      by (by rewrite <- app_assoc).
    rewrite write_spec by (rewrite !length_app; simpl in *; lia). by rewrite <- !app_assoc.
  - rewrite (proj2 (write_none b off (t ++ w))) by (rewrite length_app; lia).
    destruct (write b off (t ++ [x])) as [b1|] eqn:E; simpl; [|done].
    apply write_none. apply write_length in E. lia.
Qed.

Lemma strcat_at b p t : cstr b = Some p -> strcat b t = strcpy b (length p) t.
Proof. intros Hb. unfold strcat, strlen. by rewrite Hb. Qed.

Lemma strcat_cstr b p t b1 :
  cstr b = Some p -> nonzero t -> strcat b t = Some b1 -> cstr b1 = Some (p ++ t).
Proof.
  intros Hb Ht E. unfold strcat, strlen in E. rewrite Hb in E. cbn in E.
  apply cstr_inv in Hb as [Hp [r ->]]. unfold strcpy, write in E.
  destruct (Nat.leb _ _); [|done]. injection E as <-. rewrite take_app_length.
  rewrite <- !app_assoc, app_assoc. cbn [app]. apply cstr_app. by apply Forall_app.
Qed.

Lemma strcat_nil b p : cstr b = Some p -> strcat b [] = Some b.
Proof.
  intros Hb. rewrite (strcat_at b p) by done. apply cstr_inv in Hb as [_ [r ->]].
  unfold strcpy. cbn [app]. exact (write_spec p [0] r [0] eq_refl).
Qed.

(** Appending twice is appending the concatenation, also when it does not
    fit. *)
Lemma strcat_strcat b p t u :
  cstr b = Some p -> nonzero t -> (b1 ← strcat b t; strcat b1 u) = strcat b (t ++ u).
Proof.
  intros Hb Ht. rewrite (strcat_at b p (t ++ u)) by done.
  unfold strcpy. rewrite <- app_assoc, <- (write_app b (length p) t 0 (u ++ [0])) by solve_len.
  destruct (strcat b t) as [b1|] eqn:E.
  - pose proof (strcat_cstr b p t b1 Hb Ht E) as Hb1. rewrite (strcat_at b p t) in E by done.
    unfold strcpy in E. rewrite E. cbn [mbind option_bind].
    rewrite (strcat_at b1 _ u Hb1). by rewrite length_app.
  - rewrite (strcat_at b p t) in E by done. unfold strcpy in E. by rewrite E.
Qed.

Lemma strcpy_strcat b t u :
  nonzero t -> (b1 ← strcpy b 0 t; strcat b1 u) = strcpy b 0 (t ++ u).
Proof.
  intros Ht. unfold strcpy. rewrite <- app_assoc, <- (write_app b 0 t 0 (u ++ [0])) by solve_len.
  destruct (write b 0 (t ++ [0])) as [b1|] eqn:E; cbn [mbind option_bind]; [|done].
  assert (exists r1, b1 = t ++ 0 :: r1) as [r1 ->].
  { unfold write in E. destruct (Nat.leb _ _); [|done]. injection E as <-.
    eexists. cbn. by rewrite <- app_assoc. }
  unfold strcat. by rewrite strlen_app.
Qed.

Lemma strcpy_cstr b t b1 : nonzero t -> strcpy b 0 t = Some b1 -> cstr b1 = Some t.
Proof.
  intros Ht E. unfold strcpy, write in E. destruct (Nat.leb _ _); [|done]. injection E as <-.
  cbn. rewrite <- app_assoc. by apply cstr_app.
Qed.

Lemma strcpy_none b off t : strcpy b off t = None <-> (length b <= off + length t)%nat.
Proof. unfold strcpy. rewrite write_none, length_app. simpl. lia. Qed.

Lemma strcpy_room n t : nonzero t -> (length t < n)%nat ->
  (b ← strcpy (replicate n 0) 0 t; cstr b) = Some t.
Proof.
  intros Hn Hl. destruct (strcpy (replicate n 0) 0 t) as [b|] eqn:E; cbn [mbind option_bind].
  - by apply strcpy_cstr in E.
  - apply strcpy_none in E. rewrite length_replicate in E. lia.
Qed.

Lemma strcpy_length b off t b1 : strcpy b off t = Some b1 -> length b1 = length b.
Proof. apply write_length. Qed.

Lemma strncpy_text b off s q n : nonzero s -> length s = n ->
  strncpy b off (s ++ q) n = write b off s.
Proof.
  intros Hs Hl. unfold strncpy. rewrite take_app_exact by done.
  rewrite (proj2 (cstr_none s)) by done.
  by rewrite (proj2 (Nat.leb_le _ _)) by solve_len.
Qed.

Lemma strncpy_some b off src n : (off + n <= length b)%nat -> (n <= length src)%nat ->
  is_Some (strncpy b off src n).
Proof.
  intros Hb Hs. unfold strncpy. destruct (cstr (take n src)) as [s|] eqn:E.
  - assert (length s <= n)%nat as Hl.
    { apply cstr_inv in E as [_ [r E]]. apply (f_equal length) in E.
      rewrite length_take, length_app in E. cbn [length] in E. lia. }
    rewrite write_some by (rewrite length_app, length_replicate; lia). by eexists.
  - rewrite (proj2 (Nat.leb_le _ _)) by done. rewrite write_some by (rewrite length_take; lia). by eexists.
Qed.

(** Copying a text that fits into a cleared array. *)
Lemma strncpy_zeros n s q : nonzero s -> (length s < n)%nat ->
  (b ← strncpy (replicate n 0) 0 (s ++ q) (length s); cstr b) = Some s.
Proof.
  intros Hs Hl. rewrite strncpy_text by done. rewrite write_some by (rewrite length_replicate; lia).
  cbn [mbind option_bind Nat.add]. rewrite take_0, drop_replicate. cbn [app].
  replace (n - length s)%nat with (S (n - length s - 1)) by lia. by apply cstr_app.
Qed.

Lemma strchr_app f c t : Forall (fun d => d <> c) f -> strchr (f ++ c :: t) c = Some (length f).
Proof.
  induction 1 as [|d f Hd _ IH]; cbn [app strchr length].
  - by rewrite Z.eqb_refl.
  - by rewrite (proj2 (Z.eqb_neq _ _)), IH.
Qed.

Lemma strchr_none f c : Forall (fun d => d <> c) f -> strchr f c = None.
Proof.
  induction 1 as [|d f Hd _ IH]; cbn [strchr]; [done|].
  by rewrite (proj2 (Z.eqb_neq _ _)), IH.
Qed.

(** ** Comparison *)

Lemma strcmp_eq s t :
  nonzero s -> nonzero t -> strcmp s t = 0 <-> s = t.
Proof.
  intros Hs. revert t. induction Hs as [|c s Hc _ IH]; intros t Ht;
    destruct Ht as [|d t Hd Ht]; simpl.
  - done.
  - split; [lia|done].
  - split; [lia|done].
  - destruct (Z.eqb_spec c d) as [->|Hne].
    + destruct (Z.eqb_spec d 0); [done|]. rewrite IH by done. split; [by intros ->|by intros [= ->]].
    + split; [lia|congruence].
Qed.

(** The contents of an array up to its first NUL. *)
Fixpoint cut0 (s : list Z) : list Z :=
  match s with
  | [] => []
  | c :: s' => if Z.eqb c 0 then [] else c :: cut0 s'
  end.

Lemma strcmp_cut0 s t : strcmp s t = 0 <-> cut0 s = cut0 t.
Proof.
  revert t. induction s as [|c s IH]; intros [|d t]; cbn [strcmp cut0].
  - done.
  - destruct (Z.eqb_spec d 0); split; (lia || done).
  - destruct (Z.eqb_spec c 0); split; (lia || done).
  - destruct (Z.eqb_spec c d) as [->|Hne].
    + destruct (Z.eqb_spec d 0) as [->|]; [done|]. rewrite IH.
      split; [by intros ->|by intros [= ->]].
    + destruct (Z.eqb_spec c 0), (Z.eqb_spec d 0); split; intros; simplify_eq; lia.
Qed.

Lemma is_prefix_app p s : is_prefix p (p ++ s) = true.
Proof. induction p as [|c p IH]; simpl; [done|]. by rewrite Z.eqb_refl, IH. Qed.

Lemma is_prefix_true p s : is_prefix p s = true <-> exists r, s = p ++ r.
Proof.
  split.
  - revert s. induction p as [|c p IH]; intros s H; [by exists s|].
    destruct s as [|d s]; simpl in H; [done|]. zify_bool. subst.
    destruct (IH s) as [r ->]; [done|]. by exists r.
  - intros [r ->]. apply is_prefix_app.
Qed.

Lemma strstr_some s p n :
  strstr s p = Some n -> exists a r, s = a ++ p ++ r /\ length a = n.
Proof.
  revert n. induction s as [|c s IH]; intros n H; simpl in H.
  - destruct (is_prefix p []) eqn:E; [|done]. inv_opt.
    apply is_prefix_true in E as [r Hr]. by exists [], r.
  - destruct (is_prefix p (c :: s)) eqn:E.
    + inv_opt. apply is_prefix_true in E as [r Hr]. by exists [], r.
    + destruct (strstr s p) as [m|] eqn:Em; simpl in H; [|done]. inv_opt.
      destruct (IH m eq_refl) as (a & r & -> & <-). by exists (c :: a), r.
Qed.

Lemma strstr_none s p a r : strstr s p = None -> s <> a ++ p ++ r.
Proof.
  revert a. induction s as [|c s IH]; intros a H E; simpl in H.
  - destruct (is_prefix p []) eqn:Ep; [done|].
    destruct a; [|done]. simpl in E. rewrite E, is_prefix_app in Ep. done.
  - destruct (is_prefix p (c :: s)) eqn:Ep; [done|].
    destruct (strstr s p) eqn:Es; [done|].
    destruct a as [|d a]; simpl in E.
    + rewrite E, is_prefix_app in Ep. done.
    + injection E as -> E. by apply (IH a).
Qed.

Lemma strstr_absent s c p : Forall (fun d => d <> c) s -> strstr s (c :: p) = None.
Proof.
  induction 1 as [|d s Hd _ IH]; cbn [strstr is_prefix]; [done|].
  rewrite (proj2 (Z.eqb_neq c d)) by done. cbn [andb]. by rewrite IH.
Qed.

(** The occurrence found is the first. *)
Lemma strstr_first s p n b a :
  strstr s p = Some n -> s = b ++ p ++ a -> (n <= length b)%nat.
Proof.
  revert n b. induction s as [|c s IH]; intros n b H E; simpl in H.
  - destruct (is_prefix p []); [|done]. injection H as <-. lia.
  - destruct (is_prefix p (c :: s)) eqn:Ep.
    + injection H as <-. lia.
    + destruct (strstr s p) as [m|] eqn:Em; simpl in H; [|done]. injection H as <-.
      destruct b as [|d b].
      * simpl in E. rewrite E in Ep. by rewrite is_prefix_app in Ep.
      * simpl in E. injection E as -> ->. specialize (IH m b eq_refl eq_refl). simpl. lia.
Qed.

(** ** Texts without NUL *)

Lemma nonzero_app s t : nonzero s -> nonzero t -> nonzero (s ++ t).
Proof. intros. by apply Forall_app. Qed.

Lemma nonzero_const s : forallb (fun c => negb (Z.eqb c 0)) s = true -> nonzero s.
Proof.
  intros H. apply Forall_forall. intros c Hc. rewrite forallb_forall in H.
  apply list_elem_of_In, H in Hc. zify_bool. done.
Qed.

#[export] Hint Extern 2 (nonzero (_ ++ _)) => apply nonzero_app : airu.
#[export] Hint Extern 1 (nonzero (lit _)) => apply nonzero_const; reflexivity : airu.
#[export] Hint Extern 1 (nonzero [_]) => apply nonzero_const; reflexivity : airu.
