(* ===== verification/Printf.v ===== *)
(** * Number conversions of printf and atoi

    The conversions [%d], [%u], [%x], [%0nd], [%0nX] the firmware uses, as
    functions to the bytes written, and [atoi]/[atol] as their readers. *)

From S2P Require Import Prelude.

Local Open Scope Z_scope.

(** Digit values, most significant first. *)
Fixpoint digits (fuel : nat) (base n : Z) (acc : list Z) : list Z :=
  match fuel with
  | O => acc
  | S f =>
      let acc' := (n mod base) :: acc in
      if Z.eqb (n / base) 0 then acc' else digits f base (n / base) acc'
  end.

Definition udigits (base n : Z) : list Z := digits (S (Z.to_nat (Z.log2 n))) base n [].

Definition digit_char (upper : bool) (d : Z) : Z :=
  if Z.ltb d 10 then 48 + d else (if upper then 55 else 87) + d.

Definition fmt_u (n : Z) : list Z := digit_char false <$> udigits 10 n.
Definition fmt_d (n : Z) : list Z := if Z.ltb n 0 then 45 :: fmt_u (- n) else fmt_u n.
Definition fmt_x (n : Z) : list Z := digit_char false <$> udigits 16 n.
Definition fmt_X (n : Z) : list Z := digit_char true <$> udigits 16 n.

(** [%0wd]-style zero padding of a non-negative number. *)
Definition pad0 (w : nat) (s : list Z) : list Z := replicate (w - length s) 48 ++ s.

(** ** Reading numbers: atoi / atol *)

Definition is_space (c : Z) : bool := Z.eqb c 32 || (Z.leb 9 c && Z.leb c 13).
Definition is_digit (c : Z) : bool := Z.leb 48 c && Z.leb c 57.

Fixpoint skip_space (s : list Z) : list Z :=
  match s with
  | c :: s' => if is_space c then skip_space s' else s
  | [] => []
  end.

Fixpoint read_digits (acc : Z) (s : list Z) : Z :=
  match s with
  | c :: s' => if is_digit c then read_digits (acc * 10 + (c - 48)) s' else acc
  | [] => acc
  end.

Definition atol (s : list Z) : Z :=
  match skip_space s with
  | c :: s' =>
      if Z.eqb c 45 then - read_digits 0 s'
      else if Z.eqb c 43 then read_digits 0 s'
      else read_digits 0 (c :: s')
  | [] => 0
  end.

(** The values of the leading digits, and what follows them. *)
Fixpoint span_digits (t : list Z) : list Z * list Z :=
  match t with
  | c :: t' => if is_digit c then let '(ds, r) := span_digits t' in (c - 48 :: ds, r) else ([], t)
  | [] => ([], [])
  end.

(** ** Properties *)

(** What ends a number. *)
Definition no_digit (r : list Z) : Prop := forall c r', r = c :: r' -> is_digit c = false.

Lemma span_digits_fmt ds r :
  Forall (fun d => 0 <= d < 10) ds -> no_digit r ->
  span_digits ((digit_char false <$> ds) ++ r) = (ds, r).
Proof.
  intros Hds Hr. induction Hds as [|d ds Hd _ IH].
  - destruct r as [|c r]; [done|]. cbn [fmap list_fmap app span_digits]. by rewrite (Hr c r).
  - cbn [fmap list_fmap app span_digits]. unfold is_digit, digit_char in *. test_simpl. cbn [andb].
    rewrite IH. do 3 f_equal. lia.
Qed.

Definition of_digits (base : Z) (ds : list Z) : Z := foldl (fun a d => a * base + d) 0 ds.

Lemma foldl_digits base a ds :
  foldl (fun x d => x * base + d) a ds = a * base ^ Z.of_nat (length ds) + of_digits base ds.
Proof.
  unfold of_digits. revert a. induction ds as [|d ds IH]; intros a; simpl.
  - lia.
  - rewrite IH, (IH (0 * base + d)).
    replace (Z.of_nat (S (length ds))) with (Z.succ (Z.of_nat (length ds))) by lia.
    rewrite Z.pow_succ_r by lia. ring.
Qed.

Lemma digits_spec fuel base n acc :
  2 <= base -> 0 <= n < base ^ Z.of_nat fuel -> (0 < fuel)%nat ->
  of_digits base (digits fuel base n acc) = n * base ^ Z.of_nat (length acc) + of_digits base acc.
Proof.
  intros Hb. revert n acc. induction fuel as [|f IH]; intros n acc Hn Hf; [lia|]. simpl.
  pose proof (Z.div_mod n base ltac:(lia)) as Hdm.
  assert (of_digits base (n mod base :: acc)
          = n mod base * base ^ Z.of_nat (length acc) + of_digits base acc) as Hc.
  { unfold of_digits at 1. simpl. rewrite foldl_digits. lia. }
  destruct (Z.eqb_spec (n / base) 0) as [E|E].
  - rewrite Hc. rewrite E in Hdm. replace (n mod base) with n by lia. done.
  - rewrite Nat2Z.inj_succ, Z.pow_succ_r in Hn by lia.
    assert (0 <= n / base < base ^ Z.of_nat f).
    { split; [apply Z.div_pos; lia|apply Z.div_lt_upper_bound; lia]. }
    destruct f as [|f']; [change (base ^ Z.of_nat 0) with 1 in *; lia|].
    rewrite IH by (done || lia). rewrite Hc.
    change (length (n mod base :: acc)) with (S (length acc)).
    rewrite Nat2Z.inj_succ, Z.pow_succ_r by lia.
    transitivity ((base * (n / base) + n mod base) * base ^ Z.of_nat (length acc)
                  + of_digits base acc); [ring|]. by rewrite <- Hdm.
Qed.

Lemma log2_fuel base n : 2 <= base -> 0 <= n -> n < base ^ Z.of_nat (S (Z.to_nat (Z.log2 n))).
Proof.
  intros Hb Hn. rewrite Nat2Z.inj_succ, Z2Nat.id by apply Z.log2_nonneg.
  destruct (decide (n = 0)) as [->|]; [simpl; lia|].
  eapply Z.lt_le_trans; [apply Z.log2_spec; lia|].
  apply Z.pow_le_mono_l. lia.
Qed.

Lemma udigits_value base n : 2 <= base -> 0 <= n -> of_digits base (udigits base n) = n.
Proof.
  intros. unfold udigits. rewrite digits_spec; [|done| |lia].
  - simpl. unfold of_digits. simpl. lia.
  - split; [done|by apply log2_fuel].
Qed.

Lemma digits_bounds fuel base n acc :
  2 <= base -> Forall (fun d => 0 <= d < base) acc ->
  Forall (fun d => 0 <= d < base) (digits fuel base n acc).
Proof.
  intros Hb. revert n acc. induction fuel as [|f IH]; intros n acc Ha; simpl; [done|].
  assert (Forall (fun d => 0 <= d < base) (n mod base :: acc)).
  { constructor; [apply Z.mod_pos_bound; lia|done]. }
  destruct (Z.eqb (n / base) 0); [done|by apply IH].
Qed.

Lemma udigits_bounds base n : 2 <= base -> Forall (fun d => 0 <= d < base) (udigits base n).
Proof. intros. by apply digits_bounds. Qed.

(** A number below [base ^ k] has at most [k] digits. *)
Lemma digits_length fuel base n acc k :
  2 <= base -> (0 < k)%nat -> 0 <= n < base ^ Z.of_nat k ->
  (length (digits fuel base n acc) <= k + length acc)%nat.
Proof.
  intros Hb. revert n acc k. induction fuel as [|f IH]; intros n acc k Hk Hn; simpl; [lia|].
  destruct (Z.eqb_spec (n / base) 0) as [E|E]; simpl; [lia|].
  destruct k as [|[|k]]; [lia| |].
  - change (Z.of_nat 1) with 1 in Hn. rewrite Z.pow_1_r in Hn.
    rewrite Z.div_small in E by lia. done.
  - specialize (IH (n / base) (n mod base :: acc) (S k)). simpl in IH.
    assert (0 <= n / base < base ^ Z.of_nat (S k)).
    { rewrite (Nat2Z.inj_succ (S k)), Z.pow_succ_r in Hn by lia.
      split; [apply Z.div_pos; lia|apply Z.div_lt_upper_bound; lia]. }
    specialize (IH ltac:(lia) ltac:(done)). lia.
Qed.

Lemma udigits_length base n k :
  2 <= base -> (0 < k)%nat -> 0 <= n < base ^ Z.of_nat k -> (length (udigits base n) <= k)%nat.
Proof.
  intros. unfold udigits.
  pose proof (digits_length (S (Z.to_nat (Z.log2 n))) base n [] k) as HL.
  simpl length in HL at 2. rewrite Nat.add_0_r in HL. by apply HL.
Qed.

Lemma digit_char_byte up d : 0 <= d < 16 -> 48 <= digit_char up d < 127.
Proof. intros. unfold digit_char. destruct (Z.ltb_spec d 10), up; lia. Qed.

Lemma fmt_u_length n k : (0 < k)%nat -> 0 <= n < 10 ^ Z.of_nat k -> (length (fmt_u n) <= k)%nat.
Proof. intros. unfold fmt_u. rewrite length_fmap. by apply udigits_length. Qed.

Lemma fmt_u_digits n : Forall (fun c => 48 <= c < 58) (fmt_u n).
Proof.
  unfold fmt_u. apply Forall_fmap. eapply Forall_impl; [by apply udigits_bounds|].
  intros d Hd. simpl in Hd. unfold digit_char. simpl. destruct (Z.ltb_spec d 10); lia.
Qed.

Lemma fmt_d_length n k :
  (0 < k)%nat -> - 10 ^ Z.of_nat k < n < 10 ^ Z.of_nat k -> (length (fmt_d n) <= S k)%nat.
Proof.
  intros. unfold fmt_d. destruct (Z.ltb_spec n 0); simpl.
  - apply le_n_S, fmt_u_length; lia.
  - apply le_S, fmt_u_length; lia.
Qed.

Lemma fmt_d_chars n : Forall (fun c => 45 <= c < 58) (fmt_d n).
Proof.
  assert (forall m, Forall (fun c => 45 <= c < 58) (fmt_u m)) as H.
  { intros m. eapply Forall_impl; [apply fmt_u_digits|]. simpl. lia. }
  unfold fmt_d. destruct (Z.ltb n 0); [constructor; [lia|]|]; apply H.
Qed.

(** The first digit of a positive number is not zero. *)
Lemma digits_head fuel n acc :
  0 < n < 10 ^ Z.of_nat fuel -> exists d ds, digits fuel 10 n acc = d :: ds /\ d <> 0.
Proof.
  revert n acc. induction fuel as [|f IH]; intros n acc Hn; [simpl in Hn; lia|]. cbn [digits].
  pose proof (Z.div_mod n 10 ltac:(lia)) as Hdm. pose proof (Z.mod_pos_bound n 10 ltac:(lia)) as Hmod.
  destruct (Z.eqb_spec (n / 10) 0) as [E|E].
  - do 2 eexists. split; [done|]. lia.
  - apply IH. split; [pose proof (Z.div_pos n 10); lia|].
    replace (Z.of_nat (S f)) with (Z.succ (Z.of_nat f)) in Hn by lia. rewrite Z.pow_succ_r in Hn by lia.
    apply Z.div_lt_upper_bound; lia.
Qed.

Lemma udigits_head n :
  0 <= n -> exists d ds, udigits 10 n = d :: ds /\ (d = 0 -> ds = []).
Proof.
  intros Hn. destruct (decide (n = 0)) as [->|Hz]; [by exists 0, []|].
  destruct (digits_head (S (Z.to_nat (Z.log2 n))) n []) as (d & ds & E & Hd).
  - split; [lia|]. apply log2_fuel; lia.
  - exists d, ds. split; [exact E|done].
Qed.

Lemma fmt_u_head n : 0 <= n -> exists c t, fmt_u n = c :: t /\ 48 <= c < 58.
Proof.
  intros Hn. pose proof (fmt_u_digits n) as Hd. unfold fmt_u in *.
  destruct (udigits_head n Hn) as (d & ds & E & _). rewrite E in *. cbn [fmap list_fmap] in *.
  apply Forall_cons_1 in Hd as [Hc _]. by do 2 eexists.
Qed.

Lemma fmt_d_head n : exists c t, fmt_d n = c :: t /\ 45 <= c < 58.
Proof.
  unfold fmt_d. destruct (Z.ltb_spec n 0); [by do 2 eexists|].
  destruct (fmt_u_head n) as (c & t & E & Hc); [lia|]. exists c, t. split; [done|lia].
Qed.

Lemma pad0_length w s : length (pad0 w s) = max w (length s).
Proof. unfold pad0. rewrite length_app, length_replicate. lia. Qed.

Lemma read_digits_map acc ds rest :
  Forall (fun d => 0 <= d < 10) ds ->
  match rest with [] => True | c :: _ => is_digit c = false end ->
  read_digits acc ((digit_char false <$> ds) ++ rest)
  = foldl (fun a d => a * 10 + d) acc ds.
Proof.
  intros Hd Hr. revert acc. induction Hd as [|d ds Hd _ IH]; intros acc; simpl.
  - destruct rest as [|c r]; simpl; [done|by rewrite Hr].
  - unfold digit_char at 1 2. rewrite (proj2 (Z.ltb_lt d 10)) by lia. unfold is_digit.
    rewrite (proj2 (Z.leb_le 48 (48 + d))), (proj2 (Z.leb_le (48 + d) 57)) by lia. simpl.
    rewrite IH. f_equal. lia.
Qed.

(** Reading back what [%u] printed. *)
Lemma atol_fmt_u n rest :
  0 <= n -> match rest with [] => True | c :: _ => is_digit c = false end ->
  atol (fmt_u n ++ rest) = n.
Proof.
  intros Hn Hr.
  pose proof (fmt_u_digits n) as Hc.
  assert (read_digits 0 (fmt_u n ++ rest) = n) as Hv.
  { unfold fmt_u. rewrite read_digits_map; [|by apply udigits_bounds|done].
    by apply (udigits_value 10). }
  destruct (fmt_u n) as [|c s] eqn:E.
  - exfalso. unfold fmt_u in E. apply fmap_nil_inv in E.
    pose proof (udigits_value 10 n ltac:(lia) Hn) as Hu. rewrite E in Hu.
    change (0 = n) in Hu. rewrite <- Hu in E. vm_compute in E. discriminate E.
  - inversion Hc as [|? ? Hcc _]; subst.
    unfold atol. simpl. unfold is_space.
    destruct (Z.eqb_spec c 32); [lia|]. destruct (Z.leb_spec 9 c); [|lia].
    destruct (Z.leb_spec c 13); [lia|]. simpl.
    destruct (Z.eqb_spec c 45); [lia|]. destruct (Z.eqb_spec c 43); [lia|]. done.
Qed.

(** ** Hexadecimal *)

Lemma fmt_x_length n k : (0 < k)%nat -> 0 <= n < 16 ^ Z.of_nat k -> (length (fmt_x n) <= k)%nat.
Proof. intros. unfold fmt_x. rewrite length_fmap. by apply udigits_length. Qed.

Definition hex_value (c : Z) : option Z :=
  if is_digit c then Some (c - 48)
  else if Z.leb 97 c && Z.leb c 102 then Some (c - 87)
  else if Z.leb 65 c && Z.leb c 70 then Some (c - 55) else None.

Fixpoint read_hex (acc : Z) (s : list Z) : Z * list Z :=
  match s with
  | c :: s' => match hex_value c with Some v => read_hex (acc * 16 + v) s' | None => (acc, s) end
  | [] => (acc, [])
  end.

Lemma hex_digit d : 0 <= d < 16 -> hex_value (digit_char false d) = Some d.
Proof.
  intros Hd. unfold hex_value, is_digit, digit_char. destruct (Z.ltb_spec d 10); test_simpl; f_equal; lia.
Qed.

(** Reading back what [%x] printed. *)
Lemma read_hex_fmt_x n rest : 0 <= n ->
  match rest with [] => True | c :: _ => hex_value c = None end ->
  read_hex 0 (fmt_x n ++ rest) = (n, rest).
Proof.
  intros Hn Hr. unfold fmt_x.
  assert (forall ds acc, Forall (fun d => 0 <= d < 16) ds ->
    read_hex acc ((digit_char false <$> ds) ++ rest) = (foldl (fun a d => a * 16 + d) acc ds, rest)) as H.
  { intros ds acc Hds. revert acc. induction Hds as [|d ds Hd _ IH]; intros acc; cbn [fmap list_fmap app read_hex].
    - destruct rest as [|c r]; [done|]. cbn [read_hex]. by rewrite Hr.
    - by rewrite hex_digit, IH by done. }
  rewrite H by (by apply udigits_bounds). f_equal. by apply (udigits_value 16).
Qed.
