(* ===== verification/Prog.v ===== *)
(** * Programs with external calls

    A firmware function is a [prog]: it reads and updates the static
    variables of its component (a record [S]), calls functions outside the
    repository (constructors of [E], each answered by an [A]) and returns or
    stops.  Nothing is assumed about the answers: [exec] lets every call
    return anything and, through the relation [R], lets other tasks change
    the statics between two actions of this one.  [R = eq] is a run without
    interference. *)

From S2P Require Import Prelude.

(** Ways a function does not return. *)
Inductive stop :=
  | UB          (** undefined behaviour: an access outside an object *)
  | Abort       (** abort(), a failed assert or ESP_ERROR_CHECK *)
  | Restart     (** esp_restart() *)
  | OutOfFuel.  (** the bound given to a loop of the model was reached *)

#[export] Instance stop_eq_dec : EqDecision stop.
Proof. solve_decision. Defined.

Inductive outcome (X : Type) :=
  | Done (x : X)
  | Stopped (o : stop)
  | Running.    (** blocked or preempted: the trace is a prefix of a run *)
Arguments Done {X} _.
Arguments Stopped {X} _.
Arguments Running {X}.

Section prog.
Context {E A S : Type}.

Inductive prog (X : Type) : Type :=
  | Ret (x : X)
  | Stop (o : stop)
  | Get (k : S -> prog X)
  | Upd (f : S -> option S) (k : prog X)
  | Call (e : E) (k : A -> prog X).
Arguments Ret {X} _.
Arguments Stop {X} _.
Arguments Get {X} _.
Arguments Upd {X} _ _.
Arguments Call {X} _ _.

Fixpoint bind {X Y} (f : X -> prog Y) (p : prog X) : prog Y :=
  match p with
  | Ret x => f x
  | Stop o => Stop o
  | Get k => Get (fun s => bind f (k s))
  | Upd g k => Upd g (bind f k)
  | Call e k => Call e (fun a => bind f (k a))
  end.

(** ** Executions *)

Definition trace := list (E * A).

Inductive exec (R : S -> S -> Prop) {X} :
    prog X -> S -> trace -> outcome X -> S -> Prop :=
  | exec_ret x s : exec R (Ret x) s [] (Done x) s
  | exec_stop o s : exec R (Stop o) s [] (Stopped o) s
  | exec_cut p s : exec R p s [] Running s
  | exec_get k s s1 tr o s' :
      R s s1 -> exec R (k s1) s1 tr o s' -> exec R (Get k) s tr o s'
  | exec_upd f k s s1 s2 tr o s' :
      R s s1 -> f s1 = Some s2 -> exec R k s2 tr o s' -> exec R (Upd f k) s tr o s'
  | exec_upd_ub f k s s1 :
      R s s1 -> f s1 = None -> exec R (Upd f k) s [] (Stopped UB) s1
  | exec_call e k s a s1 tr o s' :
      R s s1 -> exec R (k a) s1 tr o s' -> exec R (Call e k) s ((e, a) :: tr) o s'.

(** The run without interference on given answers; it is [Running] when the
    answers are used up. *)
Fixpoint run {X} (p : prog X) (s : S) (ans : list A) : trace * outcome X * S :=
  match p with
  | Ret x => ([], Done x, s)
  | Stop o => ([], Stopped o, s)
  | Get k => run (k s) s ans
  | Upd f k =>
      match f s with
      | Some s1 => run k s1 ans
      | None => ([], Stopped UB, s)
      end
  | Call e k =>
      match ans with
      | [] => ([], Running, s)
      | a :: ans' => let '(tr, o, s') := run (k a) s ans' in ((e, a) :: tr, o, s')
      end
  end.

(** The run against a deterministic outside world. *)
Fixpoint run_world {W X} (h : E -> W -> A * W) (p : prog X) (s : S) (w : W) :
    outcome X * S * W :=
  match p with
  | Ret x => (Done x, s, w)
  | Stop o => (Stopped o, s, w)
  | Get k => run_world h (k s) s w
  | Upd f k =>
      match f s with
      | Some s1 => run_world h k s1 w
      | None => (Stopped UB, s, w)
      end
  | Call e k => let '(a, w') := h e w in run_world h (k a) s w'
  end.

(** A run that uses no answer. *)
Lemma run_world_nil {W X} (h : E -> W -> A * W) (p : prog X) s w o s' :
  run p s [] = ([], o, s') -> o <> Running -> run_world h p s w = (o, s', w).
Proof.
  revert s. induction p as [x|r|k IH|g k IH|e k IH]; intros s; cbn [run run_world].
  - by intros [= <- <-].
  - by intros [= <- <-].
  - apply IH.
  - destruct (g s); [apply IH|]. by intros [= <- <-].
  - by intros [= <- <-].
Qed.

(** ** Weakest preconditions

    [wp R G Q p h s]: from the statics [s] and after the calls [h], every
    call [p] makes satisfies [G], and it ends only as [Q] says. *)
Fixpoint wp {X} (R : S -> S -> Prop) (G : trace -> S -> E -> Prop)
    (Q : trace -> outcome X -> S -> Prop) (p : prog X) (h : trace) (s : S) : Prop :=
  match p with
  | Ret x => Q h (Done x) s
  | Stop o => Q h (Stopped o) s
  | Get k => forall s1, R s s1 -> wp R G Q (k s1) h s1
  | Upd f k =>
      forall s1, R s s1 ->
      match f s1 with
      | Some s2 => wp R G Q k h s2
      | None => Q h (Stopped UB) s1
      end
  | Call e k => G h s e /\ forall a s1, R s s1 -> wp R G Q (k a) (h ++ [(e, a)]) s1
  end.

Lemma wp_exec {X} R G Q (p : prog X) h s tr o s' :
  wp R G Q p h s -> exec R p s tr o s' ->
  (o <> Running -> Q (h ++ tr) o s') /\
  (forall t1 e a t2, tr = t1 ++ (e, a) :: t2 -> exists s0, G (h ++ t1) s0 e).
Proof.
  intros Hw He. revert h Hw.
  induction He as [x s|o s|p s|k s s1 tr o s' HR _ IH|f k s s1 s2 tr o s' HR Hf _ IH
                  |f k s s1 HR Hf|e k s a s1 tr o s' HR _ IH]; intros h Hw; simpl in Hw.
  - rewrite app_nil_r. split; [done|]. by intros [].
  - rewrite app_nil_r. split; [done|]. by intros [].
  - split; [done|]. by intros [].
  - apply IH. by apply Hw.
  - apply IH. specialize (Hw s1 HR). by rewrite Hf in Hw.
  - rewrite app_nil_r. specialize (Hw s1 HR). rewrite Hf in Hw. split; [done|]. by intros [].
  - destruct Hw as [HG Hk]. destruct (IH (h ++ [(e, a)])) as [HQ HT]; [by apply Hk|].
    rewrite <- app_assoc in HQ. split; [done|].
    intros t1 e' a' t2 Ht. destruct t1 as [|c t1]; simpl in Ht; injection Ht as.
    + simplify_eq. rewrite app_nil_r. by eexists.
    + simplify_eq. destruct (HT t1 e' a' t2 eq_refl) as [s0 H0].
      rewrite <- app_assoc in H0. by exists s0.
Qed.

Lemma wp_mono {X} R G (Q Q' : trace -> outcome X -> S -> Prop) p h s :
  (forall h o s, Q h o s -> Q' h o s) -> wp R G Q p h s -> wp R G Q' p h s.
Proof.
  intros HQ. revert h s.
  induction p as [x|o|k IH|f k IH|e k IH]; intros h s; simpl; auto.
  - intros Hw s1 HR. specialize (Hw s1 HR). destruct (f s1); auto.
  - intros [HG Hk]. split; auto.
Qed.

(** Outcomes of a first part seen from the whole. *)
Definition wp_then {X Y} R G (Q : trace -> outcome Y -> S -> Prop) (f : X -> prog Y) :
    trace -> outcome X -> S -> Prop :=
  fun h o s => match o with
               | Done x => wp R G Q (f x) h s
               | Stopped r => Q h (Stopped r) s
               | Running => True
               end.

Lemma wp_bind {X Y} R G Q (f : X -> prog Y) p h s :
  wp R G (wp_then R G Q f) p h s <-> wp R G Q (bind f p) h s.
Proof.
  revert h s. induction p as [x|o|k IH|g k IH|e k IH]; intros h s; simpl; try done.
  - split; intros H s1 HR; apply IH; auto.
  - split; intros H s1 HR; specialize (H s1 HR); destruct (g s1); try done; by apply IH.
  - split; intros [HG H]; (split; [done|]); intros a s1 HR; apply IH; auto.
Qed.

Lemma run_exec {X} (p : prog X) s ans tr o s' :
  run p s ans = (tr, o, s') -> exec eq p s tr o s'.
Proof.
  revert s ans tr. induction p as [x|r|k IH|f k IH|e k IH]; intros s ans tr; simpl.
  - intros [= <- <- <-]. constructor.
  - intros [= <- <- <-]. constructor.
  - intros H. econstructor; [done|]. by eapply IH.
  - destruct (f s) as [s1|] eqn:Ef; intros H.
    + econstructor; [done|done|]. by eapply IH.
    + injection H as <- <- <-. by econstructor.
  - destruct ans as [|a ans]; [intros [= <- <- <-]; constructor|].
    destruct (run (k a) s ans) as [[tr0 o0] s0] eqn:Er. intros [= <- <- <-].
    econstructor; [done|]. by eapply IH.
Qed.

(** Answers that are not used. *)
Lemma run_more {X} (p : prog X) s ans tr x s' ans2 :
  run p s ans = (tr, Done x, s') -> run p s (ans ++ ans2) = (tr, Done x, s').
Proof.
  revert s ans tr. induction p as [y|r|k IH|g k IH|e k IH]; intros s ans tr; simpl; try done.
  - intros H. by apply IH.
  - destruct (g s); [apply IH|done].
  - destruct ans as [|a ans]; [done|]. simpl. destruct (run (k a) s ans) as [[t o] s1] eqn:Er.
    intros [= <- -> ->]. by rewrite (IH _ _ _ _ Er).
Qed.

(** Without interference the answers decide. *)
Lemma exec_run {X} (p : prog X) s tr x s' :
  exec eq p s tr (Done x) s' -> run p s (map snd tr) = (tr, Done x, s').
Proof.
  intros He. remember (Done x) as o eqn:Eo.
  induction He as [| | |k s s1 tr o s' <- _ IH|f k s s1 s2 tr o s' <- Ef _ IH| |e k s a s1 tr o s' <- _ IH];
    simpl; try congruence; auto.
  - by rewrite Ef, IH.
  - by rewrite IH.
Qed.

Lemma run_world_bind {W X Y} (h : E -> W -> A * W) (f : X -> prog Y) p s w :
  run_world h (bind f p) s w =
  match run_world h p s w with
  | (Done x, s', w') => run_world h (f x) s' w'
  | (Stopped o, s', w') => (Stopped o, s', w')
  | (Running, s', w') => (Running, s', w')
  end.
Proof.
  revert s w. induction p as [x|r|k IH|g k IH|e k IH]; intros s w; simpl; auto.
  - destruct (g s); auto.
  - destruct (h e w); auto.
Qed.

Lemma run_bind {X Y} (f : X -> prog Y) p s ans tr x s' ans2 :
  run p s ans = (tr, Done x, s') ->
  run (bind f p) s (ans ++ ans2) =
  let '(tr2, o, s2) := run (f x) s' (drop (length tr) (ans ++ ans2)) in (tr ++ tr2, o, s2).
Proof.
  revert s ans tr. induction p as [y|r|k IH|g k IH|e k IH]; intros s ans tr; simpl.
  - intros [= <- <- <-]. simpl. by destruct (run _ _ _) as [[? ?] ?].
  - done.
  - intros H. by apply IH.
  - destruct (g s); [|done]. intros H. by apply IH.
  - destruct ans as [|a ans]; [done|]. simpl.
    destruct (run (k a) s ans) as [[tr0 o0] s0] eqn:Er. intros [= <- -> ->].
    rewrite (IH _ _ _ _ Er). simpl. by destruct (run (f x) s' _) as [[? ?] ?].
Qed.

(** A first part that stops. *)
Lemma run_bind_stop {X Y} (f : X -> prog Y) p s ans tr o s' :
  run p s ans = (tr, Stopped o, s') -> run (bind f p) s ans = (tr, Stopped o, s').
Proof.
  revert s ans tr. induction p as [y|r|k IH|g k IH|e k IH]; intros s ans tr; simpl; try done.
  - by intros [= <- <- <-].
  - intros H. by apply IH.
  - destruct (g s); [apply IH|]. by intros [= <- <- <-].
  - destruct ans as [|a ans]; [done|].
    destruct (run (k a) s ans) as [[tr0 o0] s0] eqn:Er. intros [= <- -> ->].
    by rewrite (IH _ _ _ _ Er).
Qed.

Lemma run_bind_assoc {X Y Z} (f : Y -> prog Z) (g : X -> prog Y) p s ans :
  run (bind f (bind g p)) s ans = run (bind (fun x => bind f (g x)) p) s ans.
Proof.
  revert s ans. induction p as [x|r|k IH|g' k IH|e k IH]; intros s ans; cbn [bind run]; auto.
  - destruct (g' s); auto.
  - destruct ans as [|a ans]; [done|]. by rewrite IH.
Qed.

Lemma exec_bind_assoc {X Y Z} R (f : Y -> prog Z) (g : X -> prog Y) p s tr o s' :
  exec R (bind f (bind g p)) s tr o s' -> exec R (bind (fun x => bind f (g x)) p) s tr o s'.
Proof.
  revert s tr. induction p as [x|r|k IH|g' k IH|e k IH]; cbn [bind]; intros s tr He; try done;
    inversion He; subst; eauto using exec.
Qed.

(** A first part that makes no call. *)
Lemma run_bind_nil {X Y} (f : X -> prog Y) p s ans x s' :
  run p s ans = ([], Done x, s') -> run (bind f p) s ans = run (f x) s' ans.
Proof.
  intros H. pose proof (run_bind f p s ans [] x s' [] H) as Hb. rewrite app_nil_r in Hb. rewrite Hb.
  cbn [length app]. rewrite drop_0. by destruct (run (f x) s' ans) as [[? ?] ?].
Qed.

(** A first part whose calls are the first ones answered. *)
Lemma run_bind_app {X Y} (f : X -> prog Y) p s tr x s' ans :
  run p s ((snd <$> tr) ++ ans) = (tr, Done x, s') ->
  run (bind f p) s ((snd <$> tr) ++ ans) =
  let '(tr2, o, s2) := run (f x) s' ans in (tr ++ tr2, o, s2).
Proof.
  intros H. pose proof (run_bind f p s _ tr x s' [] H) as Hb. rewrite app_nil_r in Hb. rewrite Hb.
  by rewrite drop_app_exact by by rewrite length_fmap.
Qed.

(** ** The calls a program can make *)

(** Whatever is answered and whatever the statics hold, every call of [p]
    satisfies [P] and every value it returns satisfies [Q]. *)
Fixpoint only {X} (P : E -> Prop) (Q : X -> Prop) (p : prog X) : Prop :=
  match p with
  | Ret x => Q x
  | Stop _ => True
  | Get k => forall s, only P Q (k s)
  | Upd _ k => only P Q k
  | Call e k => P e /\ forall a, only P Q (k a)
  end.

Definition any {X} (x : X) : Prop := True.

Lemma only_bind {X Y} P Q1 Q2 (f : X -> prog Y) p :
  only P Q1 p -> (forall x, Q1 x -> only P Q2 (f x)) -> only P Q2 (bind f p).
Proof. induction p; simpl; intros; intuition auto. Qed.

Lemma only_mono {X} (P P' : E -> Prop) (Q Q' : X -> Prop) (p : prog X) :
  (forall e, P e -> P' e) -> (forall x, Q x -> Q' x) -> only P Q p -> only P' Q' p.
Proof. intros HP HQ. induction p; simpl; intuition auto. Qed.

Lemma only_all {X} (p : prog X) : only (fun _ => True) any p.
Proof. induction p; simpl; intros; auto. done. Qed.

(** A world of which a part answers the calls the program makes. *)
Lemma run_world_part {W V X} (h : E -> W -> A * W) (g : E -> V -> A * V) (proj : V -> W) (inj : W -> V -> V)
    (P : E -> Prop) Q (p : prog X) s v :
  (forall w v, proj (inj w v) = w) -> (forall v, inj (proj v) v = v) ->
  (forall w w' v, inj w (inj w' v) = inj w v) ->
  (forall e v, P e -> g e v = let '(a, w) := h e (proj v) in (a, inj w v)) ->
  only P Q p ->
  run_world g p s v = let '(o, s', w) := run_world h p s (proj v) in (o, s', inj w v).
Proof.
  intros H1 H2 H3 Hg. revert s v. induction p as [x|r|k IH|f k IH|e k IH]; intros s v; cbn [only run_world].
  - by rewrite H2.
  - by rewrite H2.
  - intros Hp. by apply IH.
  - intros Hp. destruct (f s); [by apply IH|]. by rewrite H2.
  - intros [He Hp]. rewrite Hg by done. destruct (h e (proj v)) as [a w].
    rewrite IH by done. rewrite H1. destruct (run_world h (k a) s w) as [[o s'] w']. by rewrite H3.
Qed.

Lemma wp_only {X} R P Q0 (G : trace -> S -> E -> Prop) (Q : trace -> outcome X -> S -> Prop)
    p h s :
  only P Q0 p ->
  (forall t s e, Forall (fun c => P (fst c)) t -> P e -> G (h ++ t) s e) ->
  (forall t o s, Forall (fun c => P (fst c)) t -> (forall x, o = Done x -> Q0 x) ->
     Q (h ++ t) o s) ->
  wp R G Q p h s.
Proof.
  revert h s. induction p as [x|o|k IH|f k IH|e k IH]; intros h s; simpl; intros Ho HG HQ.
  - rewrite <- (app_nil_r h). apply HQ; [done|]. by intros ? [= <-].
  - rewrite <- (app_nil_r h). by apply HQ.
  - intros s1 _. by apply IH.
  - intros s1 _. destruct (f s1); [by apply IH|]. rewrite <- (app_nil_r h). by apply HQ.
  - destruct Ho as [He Ho]. split.
    + rewrite <- (app_nil_r h). by apply HG.
    + intros a s1 _. apply IH; [done|..]; intros t ? ? ?;
        rewrite <- app_assoc; [intros ?; apply HG|intros ?; apply HQ]; simpl; auto.
Qed.

(** A first part that makes only such calls, then the rest. *)
Lemma wp_only_bind {X Y} R P Q0 (G : trace -> S -> E -> Prop)
    (Q : trace -> outcome Y -> S -> Prop) (f : X -> prog Y) p h s :
  only P Q0 p ->
  (forall t s e, Forall (fun c => P (fst c)) t -> P e -> G (h ++ t) s e) ->
  (forall t o s, Forall (fun c => P (fst c)) t -> Q (h ++ t) (Stopped o) s) ->
  (forall t x s, Forall (fun c => P (fst c)) t -> Q0 x -> wp R G Q (f x) (h ++ t) s) ->
  wp R G Q (bind f p) h s.
Proof.
  intros Ho HG HS HK. apply wp_bind. eapply wp_only; [done|done|].
  intros t [x|o|] s' Ht Hx; simpl; auto.
Qed.

Lemma only_exec {X} R P Q (p : prog X) s tr o s' :
  only P Q p -> exec R p s tr o s' ->
  Forall (fun c => P (fst c)) tr /\ forall x, o = Done x -> Q x.
Proof.
  intros Ho He. induction He; simpl in Ho; try (split; [constructor|done]); auto.
  - split; [constructor|]. by intros ? [= <-].
  - destruct Ho as [He' Hk]. destruct (IHHe (Hk _)). split; [by constructor|done].
Qed.

(** ** Runs on the answers one relies on

    [wpa A Q p h s]: without interference, and as long as every call [e] is
    answered by an [a] with [A e a], [p] ends only as [Q] says. *)
Fixpoint wpa {X} (P : E -> A -> Prop) (Q : trace -> outcome X -> S -> Prop) (p : prog X)
    (h : trace) (s : S) : Prop :=
  match p with
  | Ret x => Q h (Done x) s
  | Stop o => Q h (Stopped o) s
  | Get k => wpa P Q (k s) h s
  | Upd f k => match f s with Some s1 => wpa P Q k h s1 | None => Q h (Stopped UB) s end
  | Call e k => forall a, P e a -> wpa P Q (k a) (h ++ [(e, a)]) s
  end.

Lemma wpa_exec {X} P Q (p : prog X) h s tr o s' :
  wpa P Q p h s -> exec eq p s tr o s' -> Forall (fun c => P (fst c) (snd c)) tr ->
  o <> Running -> Q (h ++ tr) o s'.
Proof.
  intros Hw He. revert h Hw.
  induction He as [x s|o s|p s|k s s1 tr o s' HR _ IH|f k s s1 s2 tr o s' HR Hf _ IH
                  |f k s s1 HR Hf|e k s a s1 tr o s' HR _ IH]; intros h Hw HA Ho; cbn [wpa] in Hw;
    rewrite ?app_nil_r; subst; try (destruct (f _); simplify_eq/=); auto; try done.
  - inversion HA; subst. specialize (IH (h ++ [(e, a)])). rewrite <- app_assoc in IH. by apply IH; auto.
Qed.

Lemma wpa_mono {X} P (Q Q' : trace -> outcome X -> S -> Prop) p h s :
  (forall h o s, Q h o s -> Q' h o s) -> wpa P Q p h s -> wpa P Q' p h s.
Proof.
  intros HQ. revert h s. induction p as [x|o|k IH|f k IH|e k IH]; intros h s; cbn [wpa]; auto.
  destruct (f s); auto.
Qed.

Lemma wpa_always {X} P (Q : trace -> outcome X -> S -> Prop) p h s : (forall h o s, Q h o s) -> wpa P Q p h s.
Proof.
  intros HQ. revert h s. induction p as [x|o|k IH|f k IH|e k IH]; intros h s; cbn [wpa]; auto.
  destruct (f s); auto.
Qed.

Lemma wpa_and {X} P (Q Q' : trace -> outcome X -> S -> Prop) p h s :
  wpa P Q p h s -> wpa P Q' p h s -> wpa P (fun h o s => Q h o s /\ Q' h o s) p h s.
Proof.
  revert h s. induction p as [x|o|k IH|f k IH|e k IH]; intros h s; cbn [wpa]; auto.
  destruct (f s); auto.
Qed.

Lemma wpa_bind {X Y} P Q (f : X -> prog Y) p h s :
  wpa P (fun h o s => match o with
                      | Done x => wpa P Q (f x) h s
                      | Stopped r => Q h (Stopped r) s
                      | Running => True
                      end) p h s <-> wpa P Q (bind f p) h s.
Proof.
  revert h s. induction p as [x|o|k IH|g k IH|e k IH]; intros h s; cbn [wpa bind]; auto; try done.
  - by destruct (g s).
  - split; intros H a Ha; apply IH; auto.
Qed.

(** The calls of [p] are added to the history, and never one outside [C]. *)
Lemma wpa_only {X} P (C : E -> Prop) Q0 (p : prog X) h s :
  only C Q0 p ->
  wpa P (fun h' o _ => (exists t, h' = h ++ t /\ Forall (fun c => C (fst c)) t) /\
                       forall x, o = Done x -> Q0 x) p h s.
Proof.
  revert h s. induction p as [x|o|k IH|f k IH|e k IH]; intros h s; cbn [wpa only]; auto.
  - intros Hx. split; [exists []; by rewrite app_nil_r|by intros ? [= <-]].
  - intros _. split; [exists []; by rewrite app_nil_r|done].
  - intros Hk. destruct (f s); [by apply IH|]. split; [exists []; by rewrite app_nil_r|done].
  - intros [He Hk] a _. eapply wpa_mono; [|by apply IH].
    intros h' o s' [(t & -> & Ht) HQ]. split; [|done]. exists ((e, a) :: t). rewrite <- app_assoc.
    split; [done|by constructor].
Qed.

(** [p] never reaches undefined behaviour; what it returns, with the calls so
    far and the statics, satisfies [P]. *)
Definition ending {X} (P : trace -> X -> S -> Prop) : trace -> outcome X -> S -> Prop :=
  fun h o s => match o with Done x => P h x s | Stopped UB => False | _ => True end.

Definition ends {X} (P : X -> S -> Prop) : trace -> outcome X -> S -> Prop := ending (fun _ => P).

Lemma ending_bind {X Y} A0 (P : trace -> X -> S -> Prop) (P' : trace -> Y -> S -> Prop)
    (f : X -> prog Y) p h s :
  wpa A0 (ending P) p h s -> (forall h x s, P h x s -> wpa A0 (ending P') (f x) h s) ->
  wpa A0 (ending P') (bind f p) h s.
Proof.
  intros Hp Hf. apply wpa_bind. eapply wpa_mono; [|exact Hp].
  intros h' [x|[]|] s'; cbn [ending]; auto.
Qed.

Lemma ending_mono {X} A0 (P P' : trace -> X -> S -> Prop) (p : prog X) h s :
  (forall h x s, P h x s -> P' h x s) -> wpa A0 (ending P) p h s -> wpa A0 (ending P') p h s.
Proof. intros HP. apply wpa_mono. intros h' [x|[]|] s'; cbn [ending]; auto. Qed.

Lemma ends_bind {X Y} A0 (P : X -> S -> Prop) (P' : Y -> S -> Prop) (f : X -> prog Y) p h s :
  wpa A0 (ends P) p h s -> (forall h x s, P x s -> wpa A0 (ends P') (f x) h s) ->
  wpa A0 (ends P') (bind f p) h s.
Proof. intros Hp Hf. eapply ending_bind; [exact Hp|]. auto. Qed.

Lemma wpa_answers {X} (P P' : E -> A -> Prop) Q (p : prog X) h s :
  (forall e a, P' e a -> P e a) -> wpa P Q p h s -> wpa P' Q p h s.
Proof.
  intros HP. revert h s. induction p as [x|o|k IH|f k IH|e k IH]; intros h s; cbn [wpa]; auto.
  destruct (f s); auto.
Qed.
(** ** Disciplines on calls

    [safe R G J p]: from any history that satisfies [J], every call of [p]
    satisfies [G] for the history so far, and [J] holds again when [p]
    returns. *)
Definition safe {X} (R : S -> S -> Prop) (G : trace -> E -> Prop) (J : trace -> Prop)
    (p : prog X) : Prop :=
  forall h s, J h ->
  wp R (fun h _ e => G h e) (fun h o _ => match o with Done _ => J h | _ => True end) p h s.

Lemma safe_ret {X} R G J (x : X) : safe R G J (Ret x).
Proof. by intros h s. Qed.

Lemma safe_bind {X Y} R G J (f : X -> prog Y) p :
  safe R G J p -> (forall x, safe R G J (f x)) -> safe R G J (bind f p).
Proof.
  intros Hp Hf h s Hh. apply wp_bind. eapply wp_mono; [|by apply Hp].
  intros h' [x|o|] s' HJ; simpl; [|done..]. by apply Hf.
Qed.

Lemma safe_only {X} R (G : trace -> E -> Prop) (J : trace -> Prop) P Q (p : prog X) :
  only P Q p -> (forall h e, P e -> G h e) ->
  (forall h t, J h -> Forall (fun c => P (fst c)) t -> J (h ++ t)) -> safe R G J p.
Proof.
  intros Ho HG HJ h s Hh. eapply wp_only; [exact Ho|auto|].
  intros t [x|o|] s' Ht _; auto.
Qed.

Lemma safe_exec {X} R G J (p : prog X) s tr o s' :
  J [] -> safe R G J p -> exec R p s tr o s' ->
  (forall t1 e a t2, tr = t1 ++ (e, a) :: t2 -> G t1 e) /\ (forall x, o = Done x -> J tr).
Proof.
  intros HJ Hp He. destruct (wp_exec _ _ _ _ _ _ _ _ _ (Hp [] s HJ) He) as [HQ HT].
  split.
  - intros t1 e a t2 Ht. by destruct (HT _ _ _ _ Ht).
  - intros x ->. by apply HQ.
Qed.

(** The two parts of a run of a sequence. *)
Lemma exec_bind_done {X Y} R (f : X -> prog Y) p s tr y s' :
  exec R (bind f p) s tr (Done y) s' ->
  exists t1 x s1 t2, tr = t1 ++ t2 /\ exec R p s t1 (Done x) s1 /\ exec R (f x) s1 t2 (Done y) s'.
Proof.
  revert s tr. induction p as [x|o|k IH|g k IH|e k IH]; simpl; intros s tr He.
  - exists [], x, s, tr. repeat split; [constructor|done].
  - inversion He.
  - inversion He; subst. edestruct IH as (t1 & x & s2 & t2 & -> & Ha & Hb); [done|].
    exists t1, x, s2, t2. repeat split; [|done]. by econstructor.
  - inversion He; subst. edestruct IH as (t1 & x & s3 & t2 & -> & Ha & Hb); [done|].
    exists t1, x, s3, t2. repeat split; [|done]. by econstructor.
  - inversion He as [| | | | | |? ? ? a s1 tr' ? ? HR Hk]; subst.
    destruct (IH a s1 tr' Hk) as (t1 & x & s2 & t2 & -> & Ha & Hb).
    exists ((e, a) :: t1), x, s2, t2. repeat split; [|done]. by econstructor.
Qed.

(** [p] updates no static. *)
Fixpoint reads_only {X} (p : prog X) : Prop :=
  match p with
  | Ret _ | Stop _ => True
  | Get k => forall s, reads_only (k s)
  | Upd _ _ => False
  | Call _ k => forall a, reads_only (k a)
  end.

Lemma reads_only_bind {X Y} (f : X -> prog Y) p :
  reads_only p -> (forall x, reads_only (f x)) -> reads_only (bind f p).
Proof. induction p; simpl; intros; intuition auto. Qed.

Lemma reads_only_exec {X} (p : prog X) s tr o s' :
  reads_only p -> exec eq p s tr o s' -> s' = s.
Proof.
  intros Hp He. induction He; simpl in Hp; subst; try done; auto.
Qed.

(** Every run of [p] that returns makes the call [e]. *)
Definition does {X} (e : E) (p : prog X) : Prop :=
  forall R s tr x s', exec R p s tr (Done x) s' -> In e (map fst tr).

Lemma does_here {X} e (k : A -> prog X) : does e (Call e k).
Proof. intros R s tr x s' He. inversion He; subst. by left. Qed.

Lemma does_bind_l {X Y} e (f : X -> prog Y) p : does e p -> does e (bind f p).
Proof.
  intros Hp R s tr y s' He. apply exec_bind_done in He as (t1 & x & s1 & t2 & -> & H1 & _).
  rewrite map_app. apply in_or_app. left. by eapply Hp.
Qed.

Lemma does_bind_r {X Y} e (f : X -> prog Y) p : (forall x, does e (f x)) -> does e (bind f p).
Proof.
  intros Hf R s tr y s' He. apply exec_bind_done in He as (t1 & x & s1 & t2 & -> & _ & H2).
  rewrite map_app. apply in_or_app. right. by eapply Hf.
Qed.

(** ** Repetition of a task body *)

Inductive iterates (R : S -> S -> Prop) (body : prog unit) : S -> trace -> S -> Prop :=
  | iter_zero s : iterates R body s [] s
  | iter_part s tr s' : exec R body s tr Running s' -> iterates R body s tr s'
  | iter_more s tr1 s1 tr2 s2 :
      exec R body s tr1 (Done tt) s1 -> iterates R body s1 tr2 s2 ->
      iterates R body s (tr1 ++ tr2) s2.

(** A guarantee on every call of the body, relative to the calls of the
    current round, holds of every round of the task. *)
Lemma iterates_calls R (G : trace -> E -> Prop) body :
  (forall s, wp R (fun h _ e => G h e) (fun _ _ _ => True) body [] s) ->
  forall s tr s', iterates R body s tr s' ->
  forall t1 e a t2, tr = t1 ++ (e, a) :: t2 -> exists t0 t1', t1 = t0 ++ t1' /\ G t1' e.
Proof.
  intros Hw s tr s' Hi.
  induction Hi as [s|s tr s' He|s tr1 s1 tr2 s2 He _ IH]; intros t1 e a t2 Ht.
  - by destruct t1.
  - destruct (wp_exec _ _ _ _ _ _ _ _ _ (Hw s) He) as [_ HT].
    destruct (HT _ _ _ _ Ht) as [_ HG]. by exists [], t1.
  - destruct (wp_exec _ _ _ _ _ _ _ _ _ (Hw s) He) as [_ HT].
    apply app_eq_app in Ht as [l [[-> Ht]|[-> Ht]]].
    + destruct l as [|c l].
      * simpl in Ht. destruct (IH [] e a t2) as (t0 & t1' & H0 & HG); [done|].
        exists (t1 ++ t0), t1'. by rewrite <- app_assoc, <- H0, app_nil_r.
      * simplify_eq/=. destruct (HT t1 e a l) as [_ HG]; [done|]. by exists [], t1.
    + destruct (IH l e a t2) as (t0 & t1' & -> & HG); [done|].
      exists (tr1 ++ t0), t1'. by rewrite app_assoc.
Qed.
End prog.

Arguments prog E A S X : clear implicits.
Arguments trace E A : clear implicits.
Arguments Ret {E A S X} _.
Arguments Stop {E A S X} _.
Arguments Get {E A S X} _.
Arguments Upd {E A S X} _ _.
Arguments Call {E A S X} _ _.

#[export] Instance prog_ret {E A S} : MRet (prog E A S) := fun X x => Ret x.
#[export] Instance prog_bind {E A S} : MBind (prog E A S) := fun X Y f p => bind f p.

(** [call e]: make the call and keep its answer; [get f]: read the statics;
    [modify f]: update them; [try o]: a computation that may be undefined. *)
Definition call {E A S} (e : E) : prog E A S A := Call e Ret.
Definition call_ {E A S} (e : E) : prog E A S unit := Call e (fun _ => Ret tt).
Definition get {E A S X} (f : S -> X) : prog E A S X := Get (fun s => Ret (f s)).
Definition modify {E A S} (f : S -> S) : prog E A S unit := Upd (fun s => Some (f s)) (Ret tt).
Definition update {E A S} (f : S -> option S) : prog E A S unit := Upd f (Ret tt).
Definition try {E A S X} (o : option X) : prog E A S X :=
  match o with Some x => Ret x | None => Stop UB end.
Definition when {E A S} (b : bool) (p : prog E A S unit) : prog E A S unit :=
  if b then p else Ret tt.

(** A program on one component of the statics, run on all of them. *)
Fixpoint zoom {E A S T X} (proj : S -> T) (inj : T -> S -> S) (p : prog E A T X) : prog E A S X :=
  match p with
  | Ret x => Ret x
  | Stop o => Stop o
  | Get k => Get (fun s => zoom proj inj (k (proj s)))
  | Upd f k => Upd (fun s => t ← f (proj s); Some (inj t s)) (zoom proj inj k)
  | Call e k => Call e (fun a => zoom proj inj (k a))
  end.

Lemma zoom_run {E A S T X} (proj : S -> T) (inj : T -> S -> S) (p : prog E A T X) s ans :
  (forall t s, proj (inj t s) = t) -> (forall s, inj (proj s) s = s) ->
  (forall t u s, inj t (inj u s) = inj t s) ->
  run (zoom proj inj p) s ans =
  let '(tr, o, t) := run p (proj s) ans in (tr, o, inj t s).
Proof.
  intros H1 H2 H3. revert s ans. induction p as [x|r|k IH|f k IH|e k IH]; intros s ans; cbn [zoom run].
  - by rewrite H2.
  - by rewrite H2.
  - apply IH.
  - destruct (f (proj s)) as [t|]; cbn [mbind option_bind]; [|by rewrite H2].
    rewrite IH, H1. destruct (run k t ans) as [[tr o] u]. by rewrite H3.
  - destruct ans as [|a ans]; [by rewrite H2|]. rewrite IH.
    by destruct (run (k a) (proj s) ans) as [[tr o] u].
Qed.

Lemma zoom_bind {E A S T X Y} (proj : S -> T) (inj : T -> S -> S) (f : X -> prog E A T Y) p :
  forall R G Q h s, wp R G Q (zoom proj inj (bind f p)) h s <->
    wp R G Q (bind (fun x => zoom proj inj (f x)) (zoom proj inj p)) h s.
Proof.
  intros R G Q. induction p as [x|r|k IH|g k IH|e k IH]; intros h s; cbn [zoom bind wp]; try done.
  - split; intros H s1 HR; apply IH; auto.
  - split; intros H s1 HR; specialize (H s1 HR); destruct (g (proj s1)); cbn [mbind option_bind] in *;
      try done; by apply IH.
  - split; intros [HG H]; (split; [done|]); intros a s1 HR; apply IH; auto.
Qed.

Lemma zoom_only {E A S T X} (proj : S -> T) (inj : T -> S -> S) P Q (p : prog E A T X) :
  only P Q p -> only P Q (zoom proj inj p).
Proof. induction p; cbn [only zoom]; intuition auto. Qed.

Lemma zoom_wpa {E A S T X} (proj : S -> T) (inj : T -> S -> S) (p : prog E A T X) P Q h s :
  (forall t s, proj (inj t s) = t) -> (forall s, inj (proj s) s = s) ->
  (forall t u s, inj t (inj u s) = inj t s) ->
  wpa P (fun h o t => Q h o (inj t s)) p h (proj s) -> wpa P Q (zoom proj inj p) h s.
Proof.
  intros H1 H2 H3. revert h s. induction p as [x|r|k IH|f k IH|e k IH]; intros h s; cbn [zoom wpa].
  - by rewrite H2.
  - by rewrite H2.
  - apply IH.
  - destruct (f (proj s)) as [t|]; cbn [mbind option_bind]; [|by rewrite H2].
    intros Hw. apply IH. rewrite H1. eapply wpa_mono; [|exact Hw]. intros h' o u. by rewrite H3.
  - intros Hw a Ha. apply IH. by apply Hw.
Qed.

(** Unfolds one bind of the monad instances to [bind], then computes. *)
Ltac prog_simpl :=
  cbn [mbind mret prog_bind prog_ret bind call call_ get modify update try when wp run run_world].

(** [solve_only]: symbolic execution of a program without its answers; what is
    left are the calls and values it cannot decide by computation. *)
Ltac only_step :=
  cbv beta iota;
  lazymatch goal with
  | |- any _ => exact I
  | |- True => exact I
  | |- _ /\ _ => split; [try done|intros ?]
  | |- forall _, _ => intros ?
  | |- only _ _ (Ret _) => cbn [only]; first [exact I | done | idtac]
  | |- only _ _ (Stop _) => exact I
  | |- only _ _ (Get _) => cbn [only]; intros ?
  | |- only _ _ (Upd _ _) => cbn [only]
  | |- only _ _ (Call _ _) => cbn [only]; split; [try done|intros ?]
  | |- only _ _ (bind _ _) => apply (only_bind _ any); [|intros ? _]
  | |- only _ _ (mbind _ _) => apply (only_bind _ any); [|intros ? _]
  | |- only _ _ (match ?x with _ => _ end) => destruct x
  | |- only _ _ (let '_ := ?x in _) => destruct x
  | |- only ?P ?Q ?p => let p' := eval red in p in change (only P Q p')
  end.
Ltac solve_only := repeat first [solve [eauto 2 with airu] | only_step].

(** [solve_reads]: a program without updates. *)
Ltac reads_step :=
  cbv beta iota;
  lazymatch goal with
  | |- True => exact I
  | |- forall _, _ => intros ?
  | |- reads_only (Ret _) => exact I
  | |- reads_only (Stop _) => exact I
  | |- reads_only (Get _) => cbn [reads_only]; intros ?
  | |- reads_only (Call _ _) => cbn [reads_only]; intros ?
  | |- reads_only (bind _ _) => apply reads_only_bind; [|intros ?]
  | |- reads_only (mbind _ _) => apply reads_only_bind; [|intros ?]
  | |- reads_only (match ?x with _ => _ end) => destruct x
  | |- reads_only ?p => let p' := eval red in p in change (reads_only p')
  end.
Ltac solve_reads := repeat reads_step.
