(* ===== verification/Pool.v ===== *)
(** * Tasks that share statics and a mutex

    The firmware's tasks run at the same time on one processor: a pool is the
    statics, the owner of a mutex and what is left of every task, and a step
    of the pool is one action of one of them.  The mutex is FreeRTOS's: a take
    succeeds only when no task owns it.  [lwp] is what a task may do on its
    own: change the protected part of the statics only while it owns the
    mutex, leave it well formed, keep the invariant of the rest at every
    update.  If every task does, every reachable pool is in order. *)

From S2P Require Import Prelude.
From S2P Require Export Prog.

Section pool.
Context {E A S L : Type}.

(** The call [e] answered by [a] takes the mutex; [e] gives it back. *)
Context (takes : E -> A -> bool) (gives : E -> bool).
(** The answers the outside can give. *)
Context (valid : E -> A -> bool).
(** The functions a task can run next, by their labels, and their bodies. *)
Context (runs : nat -> L -> bool) (body : L -> prog E A S unit).

(** ** Pools and their steps *)

(** A task: the function it runs, the calls it made since it entered it, and
    what is left of it. *)
Record task := Task { t_job : L; t_calls : trace E A; t_rest : prog E A S unit }.

Record pool := Pool { p_statics : S; p_owner : option nat; p_tasks : list task }.

(** What the call [e] of task [i] does to the owner.  Giving back a mutex one
    does not own may do anything to it. *)
Inductive mutex_step (i : nat) (e : E) (a : A) : option nat -> option nat -> Prop :=
  | mutex_take : takes e a = true -> mutex_step i e a None (Some i)
  | mutex_give : takes e a = false -> gives e = true -> mutex_step i e a (Some i) None
  | mutex_misuse w w' : takes e a = false -> gives e = true -> w <> Some i -> mutex_step i e a w w'
  | mutex_other w : takes e a = false -> gives e = false -> mutex_step i e a w w.

Inductive task_step (i : nat) : task -> S -> option nat -> task -> S -> option nat -> Prop :=
  | task_next l h s w l' :
      runs i l' = true -> task_step i (Task l h (Ret tt)) s w (Task l' [] (body l')) s w
  | task_get l h k s w : task_step i (Task l h (Get k)) s w (Task l h (k s)) s w
  | task_upd l h f k s w s' :
      f s = Some s' -> task_step i (Task l h (Upd f k)) s w (Task l h k) s' w
  | task_ub l h f k s w :
      f s = None -> task_step i (Task l h (Upd f k)) s w (Task l h (Stop UB)) s w
  | task_call l h e k s w a w' :
      valid e a = true -> mutex_step i e a w w' ->
      task_step i (Task l h (Call e k)) s w (Task l (h ++ [(e, a)]) (k a)) s w'.

Inductive pool_step : pool -> pool -> Prop :=
  | pool_step_at i s w ts t t' s' w' :
      ts !! i = Some t -> task_step i t s w t' s' w' ->
      pool_step (Pool s w ts) (Pool s' w' (<[i := t']> ts)).

(** ** Pools on a schedule *)

(** What the scheduler and the outside choose: a task that is done enters its
    next function, or a task runs until it needs an answer beyond these. *)
Inductive turn :=
  | Begin (l : L)
  | Go (answers : list A).

(** A mutex given back by anyone is free. *)
Definition mutex_next (i : nat) (e : E) (a : A) (w : option nat) : option (option nat) :=
  if takes e a then match w with None => Some (Some i) | Some _ => None end
  else if gives e then Some None
  else Some w.

Definition set_task (i : nat) (P : pool) (s : S) (w : option nat) (t : task) : pool :=
  Pool s w (<[i := t]> (p_tasks P)).

(** The rest [p] of task [i], which made the calls [h], on [answers]. *)
Fixpoint go (i : nat) (l : L) (p : prog E A S unit) (h : trace E A) (answers : list A) (P : pool)
    : option pool :=
  match p with
  | Ret _ | Stop _ => Some (set_task i P (p_statics P) (p_owner P) (Task l h p))
  | Get k => go i l (k (p_statics P)) h answers P
  | Upd f k =>
      match f (p_statics P) with
      | Some s => go i l k h answers (Pool s (p_owner P) (p_tasks P))
      | None => Some (set_task i P (p_statics P) (p_owner P) (Task l h (Stop UB)))
      end
  | Call e k =>
      match answers with
      | [] => Some (set_task i P (p_statics P) (p_owner P) (Task l h p))
      | a :: answers =>
          if valid e a then
            w ← mutex_next i e a (p_owner P);
            go i l (k a) (h ++ [(e, a)]) answers (Pool (p_statics P) w (p_tasks P))
          else None
      end
  end.

Definition take_turn (i : nat) (c : turn) (P : pool) : option pool :=
  t ← p_tasks P !! i;
  match c with
  | Begin l =>
      match t_rest t with
      | Ret tt => if runs i l then Some (set_task i P (p_statics P) (p_owner P) (Task l [] (body l))) else None
      | _ => None
      end
  | Go answers => go i (t_job t) (t_rest t) (t_calls t) answers P
  end.

Fixpoint pool_run (schedule : list (nat * turn)) (P : pool) : option pool :=
  match schedule with
  | [] => Some P
  | (i, c) :: schedule => P ← take_turn i c P; pool_run schedule P
  end.

Lemma mutex_next_step i e a w w' : mutex_next i e a w = Some w' -> mutex_step i e a w w'.
Proof.
  unfold mutex_next. destruct (takes e a) eqn:Et; [|destruct (gives e) eqn:Eg].
  - destruct w; [done|]. intros [= <-]. by constructor.
  - intros [= <-]. destruct (decide (w = Some i)) as [->|]; by constructor.
  - intros [= <-]. by constructor.
Qed.

Lemma pool_step_set i P t t' s w :
  p_tasks P !! i = Some t -> task_step i t (p_statics P) (p_owner P) t' s w ->
  pool_step P (set_task i P s w t').
Proof. destruct P. by apply pool_step_at. Qed.

Lemma set_task_same i P t : p_tasks P !! i = Some t -> set_task i P (p_statics P) (p_owner P) t = P.
Proof. destruct P. cbn. intros H. unfold set_task. cbn. by rewrite list_insert_id. Qed.

(** One step of task [i], then what [go] does from there. *)
Lemma go_next i P s w t t' P1 :
  p_tasks P !! i = Some t -> task_step i t (p_statics P) (p_owner P) t' s w ->
  (p_tasks (set_task i P s w t') !! i = Some t' -> rtc pool_step (set_task i P s w t') P1) ->
  rtc pool_step P P1.
Proof.
  intros Ht Hs Hr. eapply rtc_l; [by eapply pool_step_set|]. apply Hr. unfold set_task. cbn.
  apply list_lookup_insert_eq. by eapply lookup_lt_Some.
Qed.

(** [go] looks only at the other tasks of the pool. *)
Lemma go_frame i l p h answers s w ts t :
  go i l p h answers (Pool s w (<[i := t]> ts)) = go i l p h answers (Pool s w ts).
Proof.
  revert h answers s w. induction p as [x|o|k IH|f k IH|e k IH]; intros h answers s w; cbn [go p_statics p_owner p_tasks].
  - unfold set_task. cbn. by rewrite list_insert_insert_eq.
  - unfold set_task. cbn. by rewrite list_insert_insert_eq.
  - apply IH.
  - destruct (f s); [apply IH|]. unfold set_task. cbn. by rewrite list_insert_insert_eq.
  - destruct answers as [|a answers]; [unfold set_task; cbn; by rewrite list_insert_insert_eq|].
    destruct (valid e a); [|done]. destruct (mutex_next i e a w); [|done]. apply IH.
Qed.

Lemma go_steps i l p h answers P P1 :
  p_tasks P !! i = Some (Task l h p) -> go i l p h answers P = Some P1 -> rtc pool_step P P1.
Proof.
  revert h answers P. induction p as [x|o|k IH|f k IH|e k IH]; intros h answers P Ht; cbn [go].
  - intros [= <-]. by rewrite set_task_same.
  - intros [= <-]. by rewrite set_task_same.
  - intros Hg. eapply go_next; [exact Ht|constructor|]. intros Ht'. eapply IH; [exact Ht'|].
    destruct P. unfold set_task. cbn in *. by rewrite go_frame.
  - destruct (f (p_statics P)) as [s|] eqn:Ef.
    + intros Hg. eapply go_next; [exact Ht|by constructor|]. intros Ht'. eapply IH; [exact Ht'|].
      unfold set_task. by rewrite go_frame.
    + intros [= <-]. eapply go_next; [exact Ht|by constructor|]. intros _. apply rtc_refl.
  - destruct answers as [|a answers]; [intros [= <-]; by rewrite set_task_same|].
    destruct (valid e a) eqn:Ev; [|done]. destruct (mutex_next i e a (p_owner P)) as [w|] eqn:Em; [|done].
    cbn [mbind option_bind]. intros Hg.
    eapply go_next; [exact Ht|by constructor; [|apply mutex_next_step]|]. intros Ht'. eapply IH; [exact Ht'|].
    unfold set_task. by rewrite go_frame.
Qed.

Lemma pool_run_steps schedule P P' : pool_run schedule P = Some P' -> rtc pool_step P P'.
Proof.
  revert P. induction schedule as [|[i c] schedule IH]; intros P; cbn [pool_run]; [by intros [= <-]|].
  unfold take_turn. destruct (p_tasks P !! i) as [t|] eqn:Et; [|done]. cbn [mbind option_bind].
  intros H. destruct (match c with Begin l => _ | Go answers => _ end) as [P1|] eqn:Hgo; [|done].
  transitivity P1; [|by apply IH]. destruct c as [l|answers].
  - destruct t as [l0 h [[]|o|k|f k|e k]]; try done. cbn [t_rest] in Hgo. destruct (runs i l) eqn:Er; [|done].
    injection Hgo as <-. eapply rtc_once, pool_step_set; [exact Et|by constructor].
  - destruct t as [l0 h p]. by eapply go_steps.
Qed.

(** ** What a task may do on its own *)

Section lwp.
(** The part of the statics the mutex protects, what it satisfies while the
    mutex is free, and what the statics satisfy at all times. *)
Context {D : Type} (prot : S -> D) (J : D -> Prop) (I : S -> Prop).

(** [held] is the protected part of a task that owns the mutex. *)
Definition agrees (held : option D) (s : S) : Prop := forall d, held = Some d -> prot s = d.

(** After the calls [h], every call of [p] satisfies [G], what it returns
    satisfies [Q], the invariant [I] is kept, and the protected part is
    changed only by the owner, who gives the mutex back only with [J]. *)
Fixpoint lwp {X} (G : option D -> trace E A -> E -> Prop) (Q : option D -> trace E A -> X -> Prop)
    (p : prog E A S X) (held : option D) (h : trace E A) : Prop :=
  match p with
  | Ret x => Q held h x
  | Stop _ => True
  | Get k => forall s, I s -> agrees held s -> lwp G Q (k s) held h
  | Upd f k => forall s s', I s -> agrees held s -> f s = Some s' ->
      I s' /\ match held with
              | None => prot s' = prot s /\ lwp G Q k None h
              | Some _ => lwp G Q k (Some (prot s')) h
              end
  | Call e k =>
      G held h e /\
      (gives e = true -> exists d, held = Some d /\ J d) /\
      forall a, valid e a = true ->
        if takes e a then held = None -> forall d, J d -> lwp G Q (k a) (Some d) (h ++ [(e, a)])
        else if gives e then lwp G Q (k a) None (h ++ [(e, a)])
        else lwp G Q (k a) held (h ++ [(e, a)])
  end.

Lemma lwp_mono {X} (G G' : option D -> trace E A -> E -> Prop) (Q Q' : option D -> trace E A -> X -> Prop)
    p held h :
  (forall d h e, G d h e -> G' d h e) -> (forall d h x, Q d h x -> Q' d h x) ->
  lwp G Q p held h -> lwp G' Q' p held h.
Proof.
  intros HG HQ. revert held h. induction p as [x|o|k IH|f k IH|e k IH]; intros held h; cbn [lwp]; auto.
  - intros H s s' Hs Ha Hf. destruct (H s s' Hs Ha Hf) as [HI Hk]. split; [done|].
    destruct held; [auto|]. destruct Hk. auto.
  - intros (H1 & H2 & H3). split; [auto|]. split; [done|]. intros a Ha. specialize (H3 a Ha).
    destruct (takes e a); [auto|]. destruct (gives e); auto.
Qed.

Lemma lwp_bind {X Y} G (Q : option D -> trace E A -> Y -> Prop) (f : X -> prog E A S Y) p held h :
  lwp G (fun d h x => lwp G Q (f x) d h) p held h -> lwp G Q (bind f p) held h.
Proof.
  revert held h. induction p as [x|o|k IH|g k IH|e k IH]; intros held h; cbn [lwp bind]; auto.
  - intros H s s' Hs Ha Hf. destruct (H s s' Hs Ha Hf) as [HI Hk]. split; [done|].
    destruct held; [auto|]. destruct Hk. auto.
  - intros (H1 & H2 & H3). split; [done|]. split; [done|]. intros a Ha. specialize (H3 a Ha).
    destruct (takes e a); [auto|]. destruct (gives e); auto.
Qed.

(** A part whose result and calls the rest does not depend on. *)
Lemma lwp_seq {X Y} G (P : option D -> trace E A -> X -> Prop) (Q : option D -> trace E A -> Y -> Prop)
    (f : X -> prog E A S Y) p held h :
  lwp G P p held h -> (forall d h x, P d h x -> lwp G Q (f x) d h) -> lwp G Q (bind f p) held h.
Proof. intros Hp Hf. apply lwp_bind. by eapply lwp_mono; [..|exact Hp]. Qed.

(** The calls of the past stay. *)
Lemma lwp_grows {X} G (Q : option D -> trace E A -> X -> Prop) p held h :
  lwp G Q p held h -> lwp G (fun d h' x => Q d h' x /\ exists t, h' = h ++ t) p held h.
Proof.
  revert held h. induction p as [x|o|k IH|g k IH|e k IH]; intros held h; cbn [lwp]; auto.
  - intros HQ. split; [done|]. exists []. by rewrite app_nil_r.
  - intros H s s' Hs Ha Hf. destruct (H s s' Hs Ha Hf) as [HI Hk]. split; [done|].
    destruct held; [auto|]. destruct Hk. auto.
  - intros (H1 & H2 & H3). split; [done|]. split; [done|]. intros a Ha. specialize (H3 a Ha).
    assert (forall d, lwp G Q (k a) d (h ++ [(e, a)]) ->
      lwp G (fun d h' x => Q d h' x /\ exists t, h' = h ++ t) (k a) d (h ++ [(e, a)])) as Hgo.
    { intros d Hd. eapply lwp_mono; [done| |by apply IH]. intros d' h' x [HQ (t & ->)].
      split; [done|]. exists ((e, a) :: t). by rewrite <- app_assoc. }
    destruct (takes e a); [|destruct (gives e)]; auto.
Qed.

(** A run of one task alone that never touches the mutex. *)
Lemma lwp_exec {X} G (Q : option D -> trace E A -> X -> Prop) p h s tr x s' :
  lwp G Q p None h -> I s -> exec eq p s tr (Done x) s' ->
  Forall (fun c => valid (fst c) (snd c) = true /\ takes (fst c) (snd c) = false /\ gives (fst c) = false) tr ->
  I s' /\ prot s' = prot s /\ Q None (h ++ tr) x.
Proof.
  intros Hp Hs He Htr. remember (Done x) as o eqn:Ho. revert h Hp Hs Htr.
  induction He as [y s|o s|p s|k s s1 tr o s' HR _ IH|f k s s1 s2 tr o s' HR Hf _ IH|f k s s1 HR Hf
                  |e k s a s1 tr o s' HR _ IH]; intros h Hp Hs Htr; subst; try done; cbn [lwp] in Hp.
  - injection Ho as ->. by rewrite app_nil_r.
  - apply IH; [done| |done|done]. by apply Hp.
  - destruct (Hp s1 s2 Hs ltac:(done) Hf) as (HI & Hpr & Hk). rewrite <- Hpr. by apply IH.
  - inversion Htr as [|? ? (Hv & Ht & Hg) Htr']; subst. cbn [fst snd] in *.
    destruct Hp as (_ & _ & Hk). specialize (Hk a Hv). rewrite Ht, Hg in Hk.
    destruct (IH eq_refl _ Hk Hs Htr') as (? & ? & HQ). split_and!; [done|done|].
    by rewrite <- app_assoc in HQ.
Qed.

(** ** Pools of such tasks *)

Context (G : L -> option D -> trace E A -> E -> Prop) (post : L -> trace E A -> Prop).

(** A function that returns has given the mutex back. *)
Definition returns (l : L) (held : option D) (h : trace E A) (_ : unit) : Prop :=
  held = None /\ post l h.

(** What the owner of the mutex knows of the statics. *)
Definition held_by (P : pool) (i : nat) : option D :=
  if decide (p_owner P = Some i) then Some (prot (p_statics P)) else None.

Record pool_ok (P : pool) : Prop := {
  ok_statics : I (p_statics P);
  ok_free : p_owner P = None -> J (prot (p_statics P));
  ok_owner i : p_owner P = Some i -> is_Some (p_tasks P !! i);
  ok_task i t : p_tasks P !! i = Some t ->
    lwp (G (t_job t)) (returns (t_job t)) (t_rest t) (held_by P i) (t_calls t)
}.

Lemma held_by_owner s i ts : held_by (Pool s (Some i) ts) i = Some (prot s).
Proof. unfold held_by. cbn. by rewrite decide_True. Qed.

Lemma held_by_other s w i ts : w <> Some i -> held_by (Pool s w ts) i = None.
Proof. intros. unfold held_by. cbn. by rewrite decide_False. Qed.

Lemma agrees_held P i : agrees (held_by P i) (p_statics P).
Proof. unfold held_by. intros d. case_decide; [by intros [= <-]|done]. Qed.

(** A step of task [i] is seen by task [j]: nothing changes for it. *)
Lemma held_by_frame s w s' w' ts ts' j :
  (w = Some j -> w' = Some j /\ prot s' = prot s) -> (w <> Some j -> w' <> Some j) ->
  held_by (Pool s' w' ts') j = held_by (Pool s w ts) j.
Proof.
  intros H1 H2. unfold held_by. cbn. destruct (decide (w = Some j)) as [->|Hw].
  - destruct (H1 eq_refl) as [-> ->]. by rewrite decide_True.
  - rewrite decide_False by auto. done.
Qed.

Lemma pool_ok_step s w ts i t t' s' w' :
  pool_ok (Pool s w ts) -> ts !! i = Some t ->
  I s' -> (w' = None -> J (prot s')) -> (w' = None \/ w' = Some i \/ w' = w) ->
  (forall j, j <> i -> held_by (Pool s' w' ts) j = held_by (Pool s w ts) j) ->
  lwp (G (t_job t')) (returns (t_job t')) (t_rest t') (held_by (Pool s' w' ts) i) (t_calls t') ->
  pool_ok (Pool s' w' (<[i := t']> ts)).
Proof.
  intros [HI HJ HO HT] Ht HI' HJ' Hw Hj Hi. split; [done|done| |].
  { cbn [p_tasks p_owner] in *. intros j Hj'. apply lookup_lt_is_Some_2. rewrite length_insert.
    destruct Hw as [->|[->| ->]]; [done| |by apply lookup_lt_is_Some_1, HO].
    injection Hj' as <-. by eapply lookup_lt_Some. }
  cbn [p_tasks]. intros j u Hu.
  change (held_by (Pool s' w' (<[i := t']> ts)) j) with (held_by (Pool s' w' ts) j).
  destruct (decide (j = i)) as [->|Hn].
  - rewrite list_lookup_insert_eq in Hu by (by eapply lookup_lt_Some). by injection Hu as <-.
  - rewrite list_lookup_insert_ne in Hu by done. rewrite Hj by done. by apply HT.
Qed.

(** The functions of every task, from the start. *)
Context (body_ok : forall i l, runs i l = true -> lwp (G l) (returns l) (body l) None []).

Lemma pool_ok_call s w ts i l h e k a w' :
  pool_ok (Pool s w ts) -> ts !! i = Some (Task l h (Call e k)) ->
  valid e a = true -> mutex_step i e a w w' ->
  pool_ok (Pool s w' (<[i := Task l (h ++ [(e, a)]) (k a)]> ts)).
Proof.
  intros Hok Ht Hv Hm. pose proof (ok_task _ Hok i _ Ht) as (_ & Hg & Hk).
  cbn [t_job t_calls] in *. specialize (Hk a Hv). pose proof (ok_statics _ Hok) as HI. cbn [p_statics] in HI.
  inversion Hm as [Htk|Htk Hgv|w1 w2 Htk Hgv Hw|w1 Htk Hgv]; subst; rewrite Htk in Hk.
  - eapply pool_ok_step; [exact Hok|done|done|done|by auto| |].
    + intros j Hj. rewrite !held_by_other; congruence.
    + rewrite held_by_owner. apply Hk; [by apply held_by_other|]. by apply Hok.
  - destruct (Hg Hgv) as (d & Hd & HJ). rewrite held_by_owner in Hd. injection Hd as <-.
    eapply pool_ok_step; [exact Hok|done|done|done|by auto| |].
    + intros j Hj. rewrite !held_by_other; congruence.
    + rewrite held_by_other by done. by rewrite Hgv in Hk.
  - destruct (Hg Hgv) as (d & Hd & HJ). by rewrite held_by_other in Hd.
  - rewrite Hgv in Hk. eapply pool_ok_step; [exact Hok|done|done|by apply Hok|by auto|done|done].
Qed.

Lemma pool_ok_upd s w ts i l h f k s' :
  pool_ok (Pool s w ts) -> ts !! i = Some (Task l h (Upd f k)) -> f s = Some s' ->
  pool_ok (Pool s' w (<[i := Task l h k]> ts)).
Proof.
  intros Hok Ht Hf. pose proof (ok_task _ Hok i _ Ht) as Hk. cbn [t_job t_rest t_calls lwp] in Hk.
  destruct (Hk s s' (ok_statics _ Hok) (agrees_held _ i) Hf) as [HI Hl].
  destruct (decide (w = Some i)) as [->|Hw].
  - rewrite held_by_owner in Hl. eapply pool_ok_step; [exact Hok|done|done|done|by auto| |].
    + intros j Hj. rewrite !held_by_other; congruence.
    + by rewrite held_by_owner.
  - rewrite held_by_other in Hl by done. destruct Hl as [Hp Hl].
    eapply pool_ok_step; [exact Hok|done|done| |by auto| |].
    + intros ->. rewrite Hp. by apply Hok.
    + intros j Hj. by apply held_by_frame.
    + by rewrite held_by_other.
Qed.

Lemma pool_step_ok P P' : pool_ok P -> pool_step P P' -> pool_ok P'.
Proof.
  intros Hok Hs. destruct Hs as [i s w ts t t' s' w' Ht Hstep].
  destruct Hstep as [l h s w l' Hr|l h k s w|l h f k s w s' Hf|l h f k s w Hf|l h e k s w a w' Hv Hm].
  - eapply pool_ok_step; [exact Hok|done|by apply Hok|by apply Hok|by auto|done|].
    pose proof (ok_task _ Hok i _ Ht) as [Hn _]. rewrite Hn. by eapply body_ok.
  - eapply pool_ok_step; [exact Hok|done|by apply Hok|by apply Hok|by auto|done|].
    apply (ok_task _ Hok i _ Ht); [by apply Hok|apply agrees_held].
  - by eapply pool_ok_upd.
  - eapply pool_ok_step; [exact Hok|done|by apply Hok|by apply Hok|by auto|done|done].
  - by eapply pool_ok_call.
Qed.

Lemma pool_steps_ok P P' : pool_ok P -> rtc pool_step P P' -> pool_ok P'.
Proof. intros Hok Hs. induction Hs; [done|]. eauto using pool_step_ok. Qed.

(** ** A pool at rest *)

Lemma pool_ok_start s ts :
  I s -> J (prot s) -> Forall (fun t => t_rest t = Ret tt /\ post (t_job t) (t_calls t)) ts ->
  pool_ok (Pool s None ts).
Proof.
  intros HI HJ Hts. split; [done|done|done|]. intros i t Ht. cbn [p_tasks] in Ht.
  rewrite Forall_lookup in Hts. destruct (Hts i t Ht) as [-> Hp]. by split.
Qed.

(** The call a task is about to make, and the calls of a function that is done. *)
Lemma pool_ok_calling P i t e k :
  pool_ok P -> p_tasks P !! i = Some t -> t_rest t = Call e k ->
  G (t_job t) (held_by P i) (t_calls t) e.
Proof. intros Hok Ht He. pose proof (ok_task _ Hok i t Ht) as H. rewrite He in H. apply H. Qed.

Lemma pool_ok_done P i t :
  pool_ok P -> p_tasks P !! i = Some t -> t_rest t = Ret tt ->
  held_by P i = None /\ post (t_job t) (t_calls t).
Proof. intros Hok Ht He. pose proof (ok_task _ Hok i t Ht) as H. by rewrite He in H. Qed.

(** A step of task [i] whose call, if it makes one, is answered by [ans]. *)
Definition moves (i : nat) (ans : trace E A -> E -> A) (P P' : pool) : Prop :=
  exists t t' s w, p_tasks P !! i = Some t /\ task_step i t (p_statics P) (p_owner P) t' s w /\
    P' = set_task i P s w t' /\
    forall e k, t_rest t = Call e k -> t_calls t' = t_calls t ++ [(e, ans (t_calls t) e)].

Definition stopped (i : nat) (P : pool) : Prop := exists l h o, p_tasks P !! i = Some (Task l h (Stop o)).

Lemma moves_step i ans P P' : moves i ans P P' -> pool_step P P'.
Proof. intros (t & t' & s & w & Ht & Hs & -> & _). by eapply pool_step_set. Qed.

(** The owner of the mutex needs no other task to give it back. *)
Lemma pool_ok_released i ans P :
  (forall l d h e a, G l (Some d) h e -> takes e a = false) ->
  (forall h e, valid e (ans h e) = true) ->
  pool_ok P -> p_owner P = Some i ->
  exists P', rtc (moves i ans) P P' /\ (p_owner P' = None \/ stopped i P').
Proof.
  intros HG Hv Hok Ho. destruct (ok_owner _ Hok i Ho) as [[l h p] Ht]. revert h P Hok Ho Ht.
  induction p as [x|o|k IH|f k IH|e k IH]; intros h P Hok Ho Ht.
  - pose proof (pool_ok_done P i _ Hok Ht) as Hd. destruct x. specialize (Hd eq_refl) as [Hd _].
    unfold held_by in Hd. by rewrite decide_True in Hd.
  - exists P. split; [done|]. right. by exists l, h, o.
  - eassert (moves i ans P _) as Hm.
    { eexists _, _, _, _. split; [exact Ht|]. split; [constructor|]. split; [reflexivity|done]. }
    edestruct (IH (p_statics P) h) as (P' & Hr & HP'); [eapply pool_step_ok, moves_step, Hm; exact Hok|exact Ho| |].
    { cbn. apply list_lookup_insert_eq. by eapply lookup_lt_Some. }
    exists P'. split; [|done]. by eapply rtc_l.
  - destruct (f (p_statics P)) as [s|] eqn:Ef.
    + eassert (moves i ans P _) as Hm.
      { eexists _, _, _, _. split; [exact Ht|]. split; [by constructor|]. split; [reflexivity|done]. }
      edestruct (IH h) as (P' & Hr & HP'); [eapply pool_step_ok, moves_step, Hm; exact Hok|exact Ho| |].
      { cbn. apply list_lookup_insert_eq. by eapply lookup_lt_Some. }
      exists P'. split; [|done]. by eapply rtc_l.
    + eexists. split.
      * apply rtc_once. eexists _, _, _, _. split; [exact Ht|]. split; [by apply task_ub|].
        split; [reflexivity|done].
      * right. exists l, h, UB. cbn. apply list_lookup_insert_eq. by eapply lookup_lt_Some.
  - pose proof (pool_ok_calling P i _ e k Hok Ht eq_refl) as Hc. cbn [t_job t_calls] in Hc.
    unfold held_by in Hc. rewrite decide_True in Hc by done.
    pose proof (HG _ _ _ _ (ans h e) Hc) as Htk.
    assert (exists w, mutex_step i e (ans h e) (Some i) w /\ (w = None \/ w = Some i)) as (w & Hmx & Hw).
    { destruct (gives e) eqn:Eg; [exists None|exists (Some i)]; (split; [by constructor|auto]). }
    assert (moves i ans P (set_task i P (p_statics P) w (Task l (h ++ [(e, ans h e)]) (k (ans h e))))) as Hm.
    { eexists _, _, _, _. split; [exact Ht|]. split; [constructor; [by apply Hv|rewrite Ho; exact Hmx]|].
      split; [reflexivity|]. by intros e' k' [= <- _]. }
    destruct Hw as [->| ->].
    + eexists. split; [by apply rtc_once|]. by left.
    + edestruct (IH (ans h e) (h ++ [(e, ans h e)])) as (P' & Hr & HP');
        [eapply pool_step_ok, moves_step, Hm; exact Hok|done| |].
      { cbn. apply list_lookup_insert_eq. by eapply lookup_lt_Some. }
      exists P'. split; [|done]. by eapply rtc_l.
Qed.

(** Only the owner changes the protected part. *)
Lemma pool_ok_changes P P' :
  pool_ok P -> pool_step P P' -> prot (p_statics P') <> prot (p_statics P) ->
  exists i, p_owner P = Some i /\ p_owner P' = Some i /\
    forall j, j <> i -> p_tasks P' !! j = p_tasks P !! j.
Proof.
  intros Hok Hs Hn. destruct Hs as [i s w ts t t' s' w' Ht Hstep]. cbn [p_statics] in Hn.
  inversion Hstep; subst; try done. pose proof (ok_task _ Hok i _ Ht) as Hk. cbn [t_job t_rest t_calls lwp] in Hk.
  destruct (Hk s s' (ok_statics _ Hok) (agrees_held _ i) ltac:(done)) as [_ Hl].
  destruct (decide (w' = Some i)) as [->|Hw].
  - exists i. split_and!; [done|done|]. intros j Hj. cbn. by rewrite list_lookup_insert_ne.
  - rewrite held_by_other in Hl by done. by destruct Hl.
Qed.
End lwp.
End pool.
