(* ===== verification/Json.v ===== *)
(** * json.c: printing a string as JSON

    [json_print_string] as the two passes of the source (count, then copy),
    on the memory it writes; its specification [json_escape]; a reader of
    JSON strings for the round trip. *)

From S2P Require Import Prelude CMem Printf.

Local Open Scope Z_scope.

(** ** The code *)

(** [strchr (special, c)] for the literal of the counting loop. *)
Definition json_specials : list Z := lit "'\\\b\f\n\r\t".

(** The counting loop: what one byte adds to [escape_characters]. *)
Fixpoint json_escape_count (s : list Z) : nat :=
  match s with
  | [] => 0
  | c :: s' =>
      (if strchr json_specials c is Some _ then 1
       else if Z.ltb c 32 then 5
       else 0) + json_escape_count s'
  end%nat.

(** The letter of a one-character escape, or [None] for the [default] case. *)
Definition json_switch (c : Z) : option Z :=
  if Z.eqb c 92 then Some 92
  else if Z.eqb c 34 then Some 34
  else if Z.eqb c 8 then Some 98
  else if Z.eqb c 12 then Some 102
  else if Z.eqb c 10 then Some 110
  else if Z.eqb c 13 then Some 114
  else if Z.eqb c 9 then Some 116
  else None.

(** The copying loop: [b] is the output area and [p] [output_pointer]. *)
Fixpoint json_copy (s : list Z) (b : list Z) (p : nat) : option (list Z * nat) :=
  match s with
  | [] => Some (b, p)
  | c :: s' =>
      if Z.gtb c 31 && negb (Z.eqb c 34) && negb (Z.eqb c 92) then
        b ← store b p c;
        json_copy s' b (p + 1)
      else
        b ← store b p 92;
        match json_switch c with
        | Some l => b ← store b (p + 1) l; json_copy s' b (p + 1 + 1)
        | None =>
            b ← strcpy b (p + 1) (117 :: pad0 4 (fmt_x c));
            json_copy s' b (p + 1 + 4 + 1)
        end
  end.

(** [json_print_string (input, output_buffer + off)]: the returned boolean and
    the output area afterwards; a null pointer is [None]. *)
Definition json_print_string (input output_buffer : option (list Z)) (off : nat)
    : option (bool * option (list Z)) :=
  match output_buffer with
  | None => Some (false, None)
  | Some output =>
      match input with
      | None => Some (false, Some output)
      | Some input =>
          s ← cstr input;
          let escape_characters := json_escape_count s in
          let output_length := (length s + escape_characters)%nat in
          if Nat.eqb escape_characters 0 then
            b ← store output off 34;
            b ← memcpy b (off + 1) input output_length;
            b ← store b (off + (output_length + 1)) 34;
            b ← store b (off + (output_length + 2)) 0;
            Some (true, Some b)
          else
            b ← store output off 34;
            '(b, _) ← json_copy s b (off + 1);
            b ← store b (off + (output_length + 1)) 34;
            b ← store b (off + (output_length + 2)) 0;
            Some (true, Some b)
      end
  end.

(** ** The specification *)

Definition json_escape_char (c : Z) : list Z :=
  match json_switch c with
  | Some l => [92; l]
  | None => if Z.ltb c 32 then 92 :: 117 :: pad0 4 (fmt_x c) else [c]
  end.

Definition json_escape (s : list Z) : list Z := s ≫= json_escape_char.

Definition json_string (s : list Z) : list Z := 34 :: json_escape s ++ [34].

Definition hex_value (c : Z) : option Z :=
  if Z.leb 48 c && Z.leb c 57 then Some (c - 48)
  else if Z.leb 97 c && Z.leb c 102 then Some (c - 87)
  else if Z.leb 65 c && Z.leb c 70 then Some (c - 55)
  else None.

Definition unescape_letter (c : Z) : option Z :=
  if Z.eqb c 92 then Some 92
  else if Z.eqb c 34 then Some 34
  else if Z.eqb c 47 then Some 47
  else if Z.eqb c 98 then Some 8
  else if Z.eqb c 102 then Some 12
  else if Z.eqb c 110 then Some 10
  else if Z.eqb c 114 then Some 13
  else if Z.eqb c 116 then Some 9
  else None.

(** A reader of JSON strings, from after the opening quote: the contents and
    what follows the closing quote.  Raw control characters are refused. *)
Fixpoint json_read (t : list Z) : option (list Z * list Z) :=
  match t with
  | [] => None
  | c :: t1 =>
      if Z.eqb c 34 then Some ([], t1)
      else if Z.eqb c 92 then
        match t1 with
        | [] => None
        | d :: t2 =>
            if Z.eqb d 117 then
              match t2 with
              | h1 :: h2 :: h3 :: h4 :: t3 =>
                  v1 ← hex_value h1; v2 ← hex_value h2; v3 ← hex_value h3; v4 ← hex_value h4;
                  '(s, r) ← json_read t3;
                  Some (v1 * 4096 + v2 * 256 + v3 * 16 + v4 :: s, r)
              | _ => None
              end
            else
              v ← unescape_letter d;
              '(s, r) ← json_read t2;
              Some (v :: s, r)
        end
      else if Z.ltb c 32 then None
      else '(s, r) ← json_read t1; Some (c :: s, r)
  end.

(** ** Lemmas *)

(** A property of the 32 control codes is checked on each of them. *)
Lemma control_cases (P : Z -> bool) c :
  0 <= c < 32 -> forallb P (seqZ 0 32) = true -> P c = true.
Proof.
  intros Hc HP. rewrite forallb_forall in HP. apply HP, list_elem_of_In, elem_of_seqZ. lia.
Qed.

Lemma json_switch_control c l : json_switch c = Some l -> c < 32 \/ c = 34 \/ c = 92.
Proof. unfold json_switch. split_ifs; zify_bool; intros; simplify_eq; lia. Qed.

(** Both passes classify a byte alike. *)
Lemma json_plain_test c :
  Z.gtb c 31 && negb (Z.eqb c 34) && negb (Z.eqb c 92) = true <-> 31 < c /\ c <> 34 /\ c <> 92.
Proof.
  rewrite !andb_true_iff, !negb_true_iff, !Z.eqb_neq, Z.gtb_lt. lia.
Qed.

Lemma json_escape_char_plain c : 31 < c -> c <> 34 -> c <> 92 -> json_escape_char c = [c].
Proof.
  intros. unfold json_escape_char, json_switch. by test_simpl.
Qed.

Lemma json_escape_char_length c :
  0 <= c ->
  length (json_escape_char c)
  = (1 + (if strchr json_specials c is Some _ then 1 else if Z.ltb c 32 then 5 else 0))%nat.
Proof.
  intros Hc. destruct (decide (c < 32)).
  - apply Nat.eqb_eq, (control_cases (fun c => Nat.eqb (length (json_escape_char c))
      (1 + (if strchr json_specials c is Some _ then 1 else if Z.ltb c 32 then 5 else 0)))); [lia|].
    by vm_compute.
  - destruct (decide (c = 34)) as [->|]; [done|]. destruct (decide (c = 92)) as [->|]; [done|].
    rewrite json_escape_char_plain by lia.
    assert (strchr json_specials c = None) as ->.
    { change json_specials with [34; 92; 8; 12; 10; 13; 9]. cbn [strchr]. by test_simpl. }
    by test_simpl.
Qed.

Lemma json_escape_cons c s : json_escape (c :: s) = json_escape_char c ++ json_escape s.
Proof. done. Qed.

Lemma json_escape_length s :
  Forall (fun c => 0 <= c) s ->
  length (json_escape s) = (length s + json_escape_count s)%nat.
Proof.
  induction 1 as [|c s Hc _ IH]; [done|].
  rewrite json_escape_cons, length_app, IH, json_escape_char_length by done. simpl. lia.
Qed.

Lemma json_escape_plain s :
  Forall (fun c => 0 <= c) s -> json_escape_count s = 0%nat -> json_escape s = s.
Proof.
  induction 1 as [|c s Hc _ IH]; [done|]. intros H.
  pose proof (json_escape_char_length c Hc) as HL. cbn [json_escape_count] in H.
  rewrite json_escape_cons, IH by lia.
  destruct (strchr json_specials c) eqn:Es; [lia|]. destruct (Z.ltb_spec c 32) as [|H32]; [lia|].
  rewrite json_escape_char_plain; [done|lia| |]; intros ->; vm_compute in Es; done.
Qed.

Lemma store_split p c q v : store (p ++ c :: q) (length p) v = Some (p ++ v :: q).
Proof. apply (write_spec p [c] q [v]). done. Qed.

Lemma store_length b off v b' : store b off v = Some b' -> length b' = length b.
Proof. apply write_length. Qed.

Lemma store_none b off v : store b off v = None <-> (length b <= off)%nat.
Proof. unfold store. rewrite write_none. simpl. lia. Qed.

(** One step of the copying loop emits the escape of the byte; a numeric
    escape also leaves sprintf's NUL one byte further. *)
Lemma json_copy_step c s pre rest :
  0 <= c -> (length (json_escape_char c) + 1 <= length rest)%nat ->
  exists rest', length rest' = (length rest - length (json_escape_char c))%nat /\
    drop 1 rest' = drop (length (json_escape_char c) + 1) rest /\
    json_copy (c :: s) (pre ++ rest) (length pre)
    = json_copy s ((pre ++ json_escape_char c) ++ rest') (length (pre ++ json_escape_char c)).
Proof.
  intros Hc HL. cbn [json_copy]. rewrite length_app.
  destruct (Z.gtb c 31 && negb (Z.eqb c 34) && negb (Z.eqb c 92)) eqn:Hp.
  - apply json_plain_test in Hp as (? & ? & ?).
    rewrite json_escape_char_plain in * by lia. destruct rest as [|x rest]; [simpl in HL; lia|].
    rewrite store_split. exists rest. cbn. split; [lia|]. split; [done|].
    by rewrite <- app_assoc.
  - assert (c < 32 \/ c = 34 \/ c = 92) as Hcc.
    { destruct (decide (31 < c /\ c <> 34 /\ c <> 92)) as [H|]; [|lia].
      apply json_plain_test in H. congruence. }
    unfold json_escape_char in *. destruct (json_switch c) as [l|] eqn:Ej.
    + destruct rest as [|x [|y rest]]; simpl in HL; [lia..|].
      rewrite store_split. cbn [mbind option_bind].
      replace (pre ++ 92 :: y :: rest) with ((pre ++ [92]) ++ y :: rest) by by rewrite <- app_assoc.
      replace (length pre + 1)%nat with (length (pre ++ [92])) by (rewrite length_app; simpl; lia).
      rewrite store_split. cbn [mbind option_bind]. exists rest. cbn. split; [lia|].
      split; [done|]. rewrite length_app. simpl. rewrite <- !app_assoc. simpl.
      by replace (length pre + 1 + 1)%nat with (length pre + 2)%nat by lia.
    + assert (Z.ltb c 32 = true) as H32.
      { apply Z.ltb_lt. destruct Hcc as [|[->| ->]]; [done|vm_compute in Ej; done..]. }
      rewrite H32 in *.
      assert (length (pad0 4 (fmt_x c)) = 4%nat) as Hx.
      { apply Nat.eqb_eq, (control_cases (fun c => Nat.eqb (length (pad0 4 (fmt_x c))) 4)); [lia|].
        by vm_compute. }
      cbn [length] in HL |- *. rewrite Hx in *.
      destruct rest as [|x rest]; [simpl in HL; lia|]. simpl in HL.
      rewrite store_split. cbn [mbind option_bind].
      destruct (split_at rest 6) as (q & r & -> & Hq); [lia|].
      replace (pre ++ 92 :: q ++ r) with ((pre ++ [92]) ++ q ++ r) by by rewrite <- app_assoc.
      replace (length pre + 1)%nat with (length (pre ++ [92])) by (rewrite length_app; simpl; lia).
      unfold strcpy. rewrite write_spec by (rewrite length_app; simpl; lia).
      cbn [mbind option_bind]. exists (0 :: r). split; [simpl; rewrite !length_app; lia|].
      split; [simpl; by rewrite drop_app_exact|].
      rewrite length_app. simpl. rewrite <- ?app_assoc. simpl. rewrite <- ?app_assoc. simpl.
      by replace (length pre + 1 + 4 + 1)%nat with (length pre + 6)%nat by lia.
Qed.

Lemma json_copy_spec s pre rest :
  Forall (fun c => 0 <= c) s -> (length (json_escape s) + 1 <= length rest)%nat ->
  exists x, json_copy s (pre ++ rest) (length pre)
  = Some (pre ++ json_escape s ++ x :: drop (length (json_escape s) + 1) rest,
          (length pre + length (json_escape s))%nat).
Proof.
  intros Hs. revert pre rest. induction Hs as [|c s Hc _ IH]; intros pre rest HL.
  - destruct rest as [|x rest]; [simpl in HL; lia|]. exists x. simpl.
    by rewrite Nat.add_0_r, drop_0.
  - rewrite json_escape_cons, length_app in HL.
    destruct (json_copy_step c s pre rest Hc) as (rest' & HL' & Hd & ->); [lia|].
    destruct (IH (pre ++ json_escape_char c) rest') as [x ->]; [lia|]. exists x.
    rewrite json_escape_cons, !length_app, <- !app_assoc.
    replace (drop (length (json_escape_char c) + length (json_escape s) + 1) rest)
      with (drop (length (json_escape s) + 1) rest').
    + do 2 f_equal. lia.
    + replace (length (json_escape s) + 1)%nat with (1 + length (json_escape s))%nat by lia.
      rewrite <- drop_drop, Hd, drop_drop. f_equal. lia.
Qed.

Lemma json_copy_length s b p b' p' : json_copy s b p = Some (b', p') -> length b' = length b.
Proof.
  revert b p. induction s as [|c s IH]; intros b p H; simpl in H; [by simplify_eq|].
  destruct (_ && _ && _).
  - destruct (store b p c) eqn:E; simpl in H; [|done].
    apply IH in H. apply store_length in E. lia.
  - destruct (store b p 92) as [b1|] eqn:E; simpl in H; [|done]. apply store_length in E.
    destruct (json_switch c).
    + destruct (store b1 _ _) eqn:E2; simpl in H; [|done].
      apply IH in H. apply store_length in E2. lia.
    + destruct (strcpy b1 _ _) eqn:E2; simpl in H; [|done].
      apply IH in H. apply write_length in E2. lia.
Qed.

(** ** Theorems *)

(** The closing quote and NUL complete the copied text. *)
Lemma json_close pre t x r off :
  off = length pre ->
  (b ← store (pre ++ 34 :: t ++ x :: r) (off + (length t + 1)) 34;
   store b (off + (length t + 2)) 0)
  = match r with [] => None | _ :: r' => Some (pre ++ (34 :: t ++ [34; 0]) ++ r') end.
Proof.
  intros ->.
  replace (pre ++ 34 :: t ++ x :: r) with ((pre ++ 34 :: t) ++ x :: r)
    by (rewrite <- app_assoc; done).
  replace (length pre + (length t + 1))%nat with (length (pre ++ 34 :: t))
    by (rewrite length_app; simpl; lia).
  rewrite store_split. cbn [mbind option_bind].
  destruct r as [|y r].
  - apply store_none. rewrite !length_app. simpl. lia.
  - replace ((pre ++ 34 :: t) ++ 34 :: y :: r) with ((pre ++ 34 :: t ++ [34]) ++ y :: r)
      by (rewrite <- !app_assoc; simpl; by rewrite <- app_assoc).
    replace (length pre + (length t + 2))%nat with (length (pre ++ 34 :: t ++ [34]))
      by (rewrite !length_app; simpl; rewrite length_app; simpl; lia).
    rewrite store_split. rewrite <- !app_assoc. simpl. by rewrite <- !app_assoc.
Qed.

Lemma is_byte_nonneg s : Forall is_byte s -> Forall (fun c => 0 <= c) s.
Proof. intros H. eapply Forall_impl; [exact H|]. unfold is_byte. lia. Qed.

(** Without room for the closing quote and the NUL, the closing stores fail. *)
Lemma json_close_short b off n :
  (length b <= off + (n + 2))%nat ->
  (b1 ← store b (off + (n + 1)) 34; store b1 (off + (n + 2)) 0) = None.
Proof.
  intros HL. destruct (store b (off + (n + 1)) 34) as [b1|] eqn:E; simpl; [|done].
  apply store_none. apply store_length in E. lia.
Qed.

(** The body of the function after the counting loop, in both branches. *)
Lemma json_print_body s rest pre x q :
  nonzero s -> Forall is_byte s ->
  (length (json_escape s) + 2 <= length q)%nat ->
  json_print_string (Some (s ++ 0 :: rest)) (Some (pre ++ x :: q)) (length pre)
  = Some (true, Some (pre ++ (34 :: json_escape s ++ [34; 0])
                      ++ drop (length (json_escape s) + 2) q)).
Proof.
  intros Hnz Hb HL. pose proof (is_byte_nonneg s Hb) as Hpos.
  unfold json_print_string. rewrite cstr_app by done. cbn [mbind option_bind].
  rewrite <- json_escape_length by done. rewrite store_split. cbn [mbind option_bind].
  assert (exists y, drop (length (json_escape s)) q
                    = y :: drop (length (json_escape s) + 1) q) as [y Hy].
  { destruct (drop (length (json_escape s)) q) as [|y r] eqn:E.
    - apply (f_equal length) in E. rewrite length_drop in E. simpl in E. lia.
    - exists y. by rewrite <- drop_drop, E. }
  assert (exists z, drop (length (json_escape s) + 1) q
                    = z :: drop (length (json_escape s) + 2) q) as [z Hz].
  { destruct (drop (length (json_escape s) + 1) q) as [|z r] eqn:E.
    - apply (f_equal length) in E. rewrite length_drop in E. simpl in E. lia.
    - exists z. replace (length (json_escape s) + 2)%nat
        with (length (json_escape s) + 1 + 1)%nat by lia. by rewrite <- drop_drop, E. }
  replace (pre ++ 34 :: q) with ((pre ++ [34]) ++ q) by (by rewrite <- app_assoc).
  replace (length pre + 1)%nat with (length (pre ++ [34])) by (rewrite length_app; simpl; lia).
  destruct (Nat.eqb_spec (json_escape_count s) 0) as [E0|E0].
  - unfold memcpy. pose proof (json_escape_plain s Hpos E0) as Hplain. rewrite Hplain in *.
    rewrite (proj2 (Nat.leb_le _ _)) by (rewrite length_app; simpl; lia).
    rewrite take_app_length.
    rewrite <- (take_drop (length s) q) at 1. rewrite write_spec by (rewrite length_take; lia).
    cbn [mbind option_bind]. rewrite Hy, <- app_assoc. cbn [app].
    pose proof (json_close pre s y (drop (length s + 1) q) (length pre) eq_refl) as Hc.
    destruct (store _ _ 34) as [b1|]; cbn [mbind option_bind] in *;
      [rewrite Hc|]; rewrite Hz in *; [done|congruence].
  - destruct (json_copy_spec s (pre ++ [34]) q Hpos) as [c ->]; [lia|].
    cbn [mbind option_bind]. rewrite <- app_assoc. cbn [app].
    pose proof (json_close pre (json_escape s) c (drop (length (json_escape s) + 1) q)
                  (length pre) eq_refl) as Hc.
    destruct (store _ _ 34) as [b1|]; cbn [mbind option_bind] in *;
      [rewrite Hc|]; rewrite Hz in *; [done|congruence].
Qed.

Lemma json_print_short s rest b off :
  nonzero s -> Forall is_byte s ->
  (length b < off + (length (json_escape s) + 3))%nat ->
  json_print_string (Some (s ++ 0 :: rest)) (Some b) off = None.
Proof.
  intros Hnz Hb HL. pose proof (is_byte_nonneg s Hb) as Hpos.
  unfold json_print_string. rewrite cstr_app by done. cbn [mbind option_bind].
  rewrite <- json_escape_length by done.
  destruct (Nat.eqb_spec (json_escape_count s) 0) as [E0|E0];
    (destruct (store b off 34) as [b1|] eqn:E1; cbn [mbind option_bind]; [|done]);
    apply store_length in E1.
  - destruct (memcpy b1 _ _ _) as [b2|] eqn:E2; cbn [mbind option_bind]; [|done].
    unfold memcpy in E2. destruct (Nat.leb _ _); [|done]. apply write_length in E2.
    pose proof (json_close_short b2 off (length (json_escape s))) as Hs.
    destruct (store b2 _ _); cbn [mbind option_bind] in *; [|done]. rewrite Hs by lia. done.
  - destruct (json_copy s b1 _) as [[b2 p2]|] eqn:E2; cbn [mbind option_bind]; [|done].
    apply json_copy_length in E2.
    pose proof (json_close_short b2 off (length (json_escape s))) as Hs.
    destruct (store b2 _ _); cbn [mbind option_bind] in *; [|done]. rewrite Hs by lia. done.
Qed.

(** [json_print_string] on an in-memory C string writes exactly the opening
    quote, the escaped text, the closing quote and a NUL at the output pointer,
    and returns true; when the area has not [length + 3] bytes left, a store
    leaves it. *)
Lemma json_print_string_write s rest b off :
  nonzero s -> Forall is_byte s ->
  json_print_string (Some (s ++ 0 :: rest)) (Some b) off
  = (fun b' => (true, Some b')) <$> write b off (json_string s ++ [0]).
Proof.
  intros Hnz Hb. unfold json_string.
  destruct (decide (off + (length (json_escape s) + 3) <= length b)%nat) as [Hl|Hl].
  - destruct (split_at b off) as (pre & r & -> & <-); [lia|].
    rewrite length_app in Hl. destruct r as [|x q]; [simpl in Hl; lia|]. simpl in Hl.
    rewrite json_print_body by (done || lia).
    rewrite write_some by (rewrite length_app; simpl; rewrite !length_app; simpl; lia).
    cbn [fmap option_fmap option_map]. rewrite take_app_length. do 3 f_equal.
    simpl. rewrite <- !app_assoc. simpl. do 4 f_equal.
    rewrite drop_app_ge by lia. rewrite !length_app. simpl.
    replace (length pre + S (length (json_escape s) + 2) - length pre)%nat
      with (S (length (json_escape s) + 2)) by lia. done.
  - rewrite json_print_short by (done || lia).
    rewrite (proj2 (write_none _ _ _)); [done|]. simpl. rewrite !length_app. simpl. lia.
Qed.

(** Reading an escaped byte back. *)
Lemma json_read_char c t :
  is_byte c ->
  json_read (json_escape_char c ++ t) = ('(s, r) ← json_read t; Some (c :: s, r)).
Proof.
  intros Hc. destruct (decide (31 < c /\ c <> 34 /\ c <> 92)) as [(?&?&?)|Hs].
  - rewrite json_escape_char_plain by lia. cbn [app json_read]. by test_simpl.
  - assert (c = 34 \/ c = 92 \/ 0 <= c < 32) as [->|[->|H]] by (unfold is_byte in Hc; lia);
      [done..|].
    assert (In c (seqZ 0 32)) as Hin by (apply list_elem_of_In, elem_of_seqZ; lia).
    vm_compute in Hin. destruct_or!; subst; done.
Qed.

Lemma json_read_escape s t :
  Forall is_byte s -> json_read (json_escape s ++ 34 :: t) = Some (s, t).
Proof.
  induction 1 as [|c s Hc _ IH]; [done|].
  rewrite json_escape_cons, <- app_assoc, json_read_char by done. by rewrite IH.
Qed.

Lemma json_escape_char_visible c :
  is_byte c -> Forall (fun d => 32 <= d < 256) (json_escape_char c).
Proof.
  intros Hc. destruct (decide (31 < c /\ c <> 34 /\ c <> 92)) as [(?&?&?)|Hs].
  - rewrite json_escape_char_plain by lia. repeat constructor; unfold is_byte in Hc; lia.
  - assert (c = 34 \/ c = 92 \/ 0 <= c < 32) as [->|[->|H]] by (unfold is_byte in Hc; lia);
      [by forall_list..|].
    assert (In c (seqZ 0 32)) as Hin by (apply list_elem_of_In, elem_of_seqZ; lia).
    vm_compute in Hin. destruct_or!; subst; by forall_list.
Qed.

Lemma json_escape_visible s :
  Forall is_byte s -> Forall (fun d => 32 <= d < 256) (json_escape s).
Proof.
  induction 1 as [|c s Hc _ IH]; [constructor|].
  rewrite json_escape_cons. apply Forall_app. split; [by apply json_escape_char_visible|done].
Qed.

Lemma json_string_nonzero s : Forall is_byte s -> nonzero (json_string s).
Proof.
  intros Hs. unfold json_string, nonzero. constructor; [done|]. apply Forall_app. split.
  - eapply Forall_impl; [by apply json_escape_visible|]. simpl. lia.
  - by repeat constructor.
Qed.

(** A byte costs at most six output bytes, and at most two when no byte needs
    a numeric escape. *)
Lemma json_escape_length_le s :
  Forall is_byte s -> (length (json_escape s) <= 6 * length s)%nat.
Proof.
  induction 1 as [|c s Hc _ IH]; [simpl; lia|].
  rewrite json_escape_cons, length_app, json_escape_char_length by (unfold is_byte in Hc; lia).
  cbn [length]. destruct (strchr json_specials c); [lia|]. destruct (Z.ltb c 32); lia.
Qed.

Lemma json_string_length s : length (json_string s) = (length (json_escape s) + 2)%nat.
Proof. unfold json_string. simpl. rewrite length_app. simpl. lia. Qed.

(** Two strings that print alike are equal. *)
Lemma json_string_inj s t : Forall is_byte s -> Forall is_byte t ->
  json_string s = json_string t -> s = t.
Proof.
  intros Hs Ht E. injection E as E.
  pose proof (json_read_escape s [] Hs) as Rs. rewrite E in Rs.
  rewrite json_read_escape in Rs by done. by injection Rs.
Qed.

(** ** Main theorems *)

(** C32: [json_print_string] on a C string with enough room returns true, changes
    only the bytes from the output pointer on, leaves there the C string
    [json_string s], and a JSON reader recovers the input from it. *)
Theorem json_print_string_correct s rest b off :
  nonzero s -> Forall is_byte s -> (off + length (json_escape s) + 3 <= length b)%nat ->
  exists b', json_print_string (Some (s ++ 0 :: rest)) (Some b) off = Some (true, Some b') /\
    length b' = length b /\ take off b' = take off b /\
    cstr (drop off b') = Some (json_string s) /\
    (exists r, json_read (drop (off + 1) b') = Some (s, 0 :: r)) /\
    drop (off + length (json_escape s) + 3) b' = drop (off + length (json_escape s) + 3) b.
Proof.
  intros Hnz Hb HL. rewrite json_print_string_write by done.
  assert (length (json_string s ++ [0%Z]) = length (json_escape s) + 3)%nat as HJ
    by (rewrite length_app, json_string_length; simpl; lia).
  destruct (split_at b off) as (p & q & -> & Hp); [lia|]. rewrite length_app in HL.
  rewrite write_some by (rewrite (length_app p); lia). cbn [fmap option_fmap option_map].
  eexists. split; [done|]. rewrite (take_app_exact p q off) by done.
  rewrite HJ, drop_app_ge by lia.
  replace (off + (length (json_escape s) + 3) - length p)%nat
    with (length (json_escape s) + 3)%nat by lia.
  set (r := drop (length (json_escape s) + 3) q).
  assert (length r = length q - (length (json_escape s) + 3))%nat as Hr by apply length_drop.
  rewrite <- (app_assoc (json_string s)). cbn [app].
  split; [rewrite !length_app; rewrite json_string_length; cbn [length]; lia|].
  split; [by rewrite take_app_exact|].
  split; [rewrite drop_app_exact by done; apply cstr_app; by apply json_string_nonzero|].
  split.
  - exists r. rewrite drop_app_ge by lia. replace (off + 1 - length p)%nat with 1%nat by lia.
    unfold json_string. cbn [app drop]. rewrite <- app_assoc. cbn [app].
    rewrite drop_0. by apply json_read_escape.
  - rewrite !drop_app_ge by lia. replace (off + length (json_escape s) + 3 - length p)%nat
      with (length (json_escape s) + 3)%nat by lia.
    replace (json_string s ++ 0 :: r) with ((json_string s ++ [0]) ++ r)
      by (by rewrite <- app_assoc).
    rewrite drop_app_exact by (by rewrite HJ).
    rewrite (drop_app_ge p q) by lia. unfold r. f_equal. lia.
Qed.

(** [json_print_string] checks no size: it leaves the output area exactly when
    fewer than the escaped length plus three bytes remain. *)
Theorem json_print_string_overflow s rest b off :
  nonzero s -> Forall is_byte s ->
  json_print_string (Some (s ++ 0 :: rest)) (Some b) off = None
  <-> (length b < off + length (json_escape s) + 3)%nat.
Proof.
  intros Hnz Hb. rewrite json_print_string_write by done. rewrite fmap_None, write_none.
  rewrite length_app, json_string_length. simpl. lia.
Qed.

Lemma json_print_string_correct_witness :
  exists b', json_print_string (Some (lit "a'\n" ++ [0])) (Some (replicate 12 7)) 2
             = Some (true, Some b') /\
    length b' = length (replicate 12 7) /\ take 2 b' = take 2 (replicate 12 7) /\
    cstr (drop 2 b') = Some (json_string (lit "a'\n")) /\
    (exists r, json_read (drop (2 + 1) b') = Some (lit "a'\n", 0 :: r)) /\
    drop (2 + length (json_escape (lit "a'\n")) + 3) b'
    = drop (2 + length (json_escape (lit "a'\n")) + 3) (replicate 12 7).
Proof.
  apply (json_print_string_correct (lit "a'\n") [] (replicate 12 7) 2).
  - by vm_compute; repeat constructor.
  - forall_list.
  - vm_compute. lia.
Defined.

Lemma json_print_string_overflow_witness :
  json_print_string (Some (lit "a'" ++ [0])) (Some (replicate 5 7)) 0 = None
  <-> (length (replicate 5 7) < 0 + length (json_escape (lit "a'")) + 3)%nat.
Proof.
  apply (json_print_string_overflow (lit "a'") [] (replicate 5 7) 0).
  - by vm_compute; repeat constructor.
  - forall_list.
Defined.
