(* ===== verification/WifiScan.v ===== *)
(** * wifi_manager_filter_unique: one entry per network of a scan

    The in-place filter of wifi_manager.c on the array of access-point
    records, and what it leaves in the array. *)

From S2P Require Import Prelude CMem.

Local Open Scope Z_scope.

(** The fields of ESP-IDF's [wifi_ap_record_t] the firmware reads; [ap_rest]
    stands for the bytes of the others, which are only copied and cleared.
    [ap_ssid] holds the contents of the [ssid] array up to its NUL. *)
Record wifi_ap_record := ApRecord {
  ap_ssid : list Z;
  ap_primary : Z;
  ap_rssi : Z;
  ap_authmode : Z;
  ap_rest : list Z
}.

#[export] Instance wifi_ap_record_eq_dec : EqDecision wifi_ap_record.
Proof. solve_decision. Defined.

(** A record cleared by memset. *)
Definition ap_zero : wifi_ap_record := ApRecord [] 0 0 0 [].

#[export] Instance ap_inhabited : Inhabited wifi_ap_record := populate ap_zero.

(** [ap->ssid[0] == 0] *)
Definition ap_unnamed (a : wifi_ap_record) : bool :=
  match ap_ssid a with [] => true | c :: _ => Z.eqb c 0 end.

(** [strcmp (ap->ssid, ap1->ssid) == 0 && ap->authmode == ap1->authmode] *)
Definition ap_same (a b : wifi_ap_record) : bool :=
  Z.eqb (strcmp (ap_ssid a) (ap_ssid b)) 0 && Z.eqb (ap_authmode a) (ap_authmode b).

Definition ap_set_rssi (a : wifi_ap_record) (r : Z) : wifi_ap_record :=
  ApRecord (ap_ssid a) (ap_primary a) r (ap_authmode a) (ap_rest a).

(** ** The code *)

(** The body of the inner loop for the pair [i < j]: save the stronger rssi,
    clear the duplicate. *)
Definition filter_pair (i : nat) (l : list wifi_ap_record) (j : nat) : list wifi_ap_record :=
  let ap := l !!! i in
  let ap1 := l !!! j in
  if ap_same ap ap1 then
    let l := if Z.gtb (ap_rssi ap1) (ap_rssi ap)
             then <[i := ap_set_rssi ap (ap_rssi ap1)]> l else l in
    <[j := ap_zero]> l
  else l.

(** [for (int j = i + 1; j < *aps; j++)] *)
Definition filter_inner (n i : nat) (l : list wifi_ap_record) : list wifi_ap_record :=
  foldl (filter_pair i) l (seq (i + 1) (n - (i + 1))).

Definition filter_outer_body (n : nat) (l : list wifi_ap_record) (i : nat) : list wifi_ap_record :=
  if ap_unnamed (l !!! i) then l else filter_inner n i l.

(** [for (int i = 0; i < *aps - 1; i++)] *)
Definition filter_outer (n : nat) (l : list wifi_ap_record) : list wifi_ap_record :=
  foldl (filter_outer_body n) l (seq 0 (n - 1)).

(** The index of the first unnamed record among the first [n]. *)
Fixpoint find_free (l : list wifi_ap_record) (n : nat) : option nat :=
  match n, l with
  | S n', a :: l' => if ap_unnamed a then Some 0%nat else S <$> find_free l' n'
  | _, _ => None
  end.

Record reorder := Reorder {
  ro_list : list wifi_ap_record;
  ro_free : option nat;      (* first_free, NULL as None *)
  ro_unique : Z              (* total_unique *)
}.

(** The body of the reordering loop at index [i]. *)
Definition reorder_body (n : nat) (st : reorder) (i : nat) : reorder :=
  let '(Reorder l free uniq) := st in
  let ap := l !!! i in
  if ap_unnamed ap then
    Reorder l (match free with None => Some i | Some _ => free end) (uniq - 1)
  else
    match free with
    | None => st
    | Some f =>
        let l := <[i := ap_zero]> (<[f := ap]> l) in
        Reorder l (match find_free l n with Some j => Some j | None => free end) uniq
    end.

(** [wifi_manager_filter_unique (aplist, &aps)]: the array and the count
    afterwards; [None] when [aps] exceeds the array (an access outside it).
    The closing call of esp_wifi_deinit() touches neither. *)
Definition wifi_manager_filter_unique (aplist : list wifi_ap_record) (aps : nat)
    : option (list wifi_ap_record * Z) :=
  if Nat.leb aps (length aplist) then
    let l := filter_outer aps aplist in
    let st := foldl (reorder_body aps) (Reorder l None (Z.of_nat aps)) (seq 0 aps) in
    Some (ro_list st, ro_unique st)
  else None.

(** ** Reference definition

    The networks of a scan in order of first appearance, each with the best
    signal of its duplicates. *)

(** The strongest signal from [r] on among the records [l] that are the same
    network as [a]. *)
Definition best_rssi (a : wifi_ap_record) (l : list wifi_ap_record) : Z :=
  foldl (fun r b => if ap_same a b then Z.max r (ap_rssi b) else r) (ap_rssi a) l.

(** [n] bounds the length of [l]. *)
Fixpoint unique_aps (n : nat) (l : list wifi_ap_record) : list wifi_ap_record :=
  match n, l with
  | S n', a :: l' =>
      if ap_unnamed a then unique_aps n' l'
      else ap_set_rssi a (best_rssi a l')
           :: unique_aps n' (filter (fun b => ap_same a b = false) l')
  | _, _ => []
  end.

(** ** Networks *)

(** What identifies a network: the name and the authentication mode. *)
Definition ap_key (a : wifi_ap_record) : list Z * Z := (cut0 (ap_ssid a), ap_authmode a).

Lemma ap_same_key a b : ap_same a b = true <-> ap_key a = ap_key b.
Proof.
  unfold ap_same, ap_key. rewrite andb_true_iff, !Z.eqb_eq, strcmp_cut0.
  split; [by intros [-> ->]|by intros [= -> ->]].
Qed.

Lemma ap_same_false a b : ap_same a b = false <-> ap_key a <> ap_key b.
Proof. rewrite <- ap_same_key. by destruct (ap_same a b). Qed.

Lemma ap_unnamed_key a : ap_unnamed a = true <-> fst (ap_key a) = [].
Proof.
  unfold ap_unnamed, ap_key. simpl. destruct (ap_ssid a) as [|c s]; [done|]. simpl.
  by destruct (Z.eqb c 0).
Qed.

Lemma ap_unnamed_congr a b : ap_key a = ap_key b -> ap_unnamed a = ap_unnamed b.
Proof.
  intros H. apply eq_true_iff_eq. rewrite !ap_unnamed_key. by rewrite H.
Qed.

Lemma ap_key_set_rssi a r : ap_key (ap_set_rssi a r) = ap_key a.
Proof. done. Qed.

Lemma ap_same_unnamed a b : ap_unnamed a = false -> ap_unnamed b = true -> ap_same a b = false.
Proof. intros Ha Hb. apply ap_same_false. intros E. apply ap_unnamed_congr in E. congruence. Qed.

Lemma ap_set_rssi_id a : ap_set_rssi a (ap_rssi a) = a.
Proof. by destruct a. Qed.

(** ** The first loop *)

Definition blank (a : wifi_ap_record) (l : list wifi_ap_record) : list wifi_ap_record :=
  (fun b => if ap_same a b then ap_zero else b) <$> l.

(** The first loop on the list of scanned records. *)
Fixpoint mark_dups (n : nat) (l : list wifi_ap_record) : list wifi_ap_record :=
  match n, l with
  | S n', a :: l' =>
      if ap_unnamed a then a :: mark_dups n' l'
      else ap_set_rssi a (best_rssi a l') :: mark_dups n' (blank a l')
  | _, _ => l
  end.

Lemma blank_length a l : length (blank a l) = length l.
Proof. apply length_fmap. Qed.

Lemma mark_dups_length n l : length (mark_dups n l) = length l.
Proof.
  revert l. induction n as [|n IH]; intros [|a l]; simpl; try done.
  destruct (ap_unnamed a); simpl; rewrite IH; [done|]. by rewrite blank_length.
Qed.

Lemma lookup_total_mid {A} `{Inhabited A} (p q : list A) x n :
  n = length p -> (p ++ x :: q) !!! n = x.
Proof. intros ->. rewrite list_lookup_total_alt, list_lookup_middle by done. done. Qed.

(** One pair: the record at [i] keeps the stronger rssi, a duplicate is
    cleared. *)
Lemma filter_pair_mid pre a dn b mid i j :
  i = length pre -> j = (i + 1 + length dn)%nat ->
  filter_pair i (pre ++ a :: dn ++ b :: mid) j
  = pre ++ ap_set_rssi a (if ap_same a b then Z.max (ap_rssi a) (ap_rssi b) else ap_rssi a)
      :: dn ++ (if ap_same a b then ap_zero else b) :: mid.
Proof.
  intros Hi Hj. unfold filter_pair. rewrite (lookup_total_mid pre _ a) by done.
  assert (forall a', (pre ++ a' :: dn ++ b :: mid) = (pre ++ a' :: dn) ++ b :: mid) as Hs
    by (intros; by rewrite <- app_assoc).
  assert (forall a', j = length (pre ++ a' :: dn)) as Hlen
    by (intros; rewrite length_app; simpl; lia).
  rewrite (Hs a), (lookup_total_mid _ mid b) by apply Hlen.
  destruct (ap_same a b); [|by rewrite ap_set_rssi_id].
  destruct (Z.gtb_spec (ap_rssi b) (ap_rssi a)).
  - rewrite <- Hs, insert_app_exact by done. rewrite Hs, insert_app_exact by apply Hlen.
    rewrite Z.max_r by lia. by rewrite <- app_assoc.
  - rewrite insert_app_exact by apply Hlen. rewrite Z.max_l, ap_set_rssi_id by lia.
    by rewrite <- app_assoc.
Qed.

Lemma filter_inner_mid pre a dn mid post i :
  i = length pre ->
  foldl (filter_pair i) (pre ++ a :: dn ++ mid ++ post) (seq (i + 1 + length dn) (length mid))
  = pre ++ ap_set_rssi a (best_rssi a mid) :: dn ++ blank a mid ++ post.
Proof.
  intros Hi. revert a dn. induction mid as [|b mid IH]; intros a dn; cbn [length seq foldl].
  - cbn. by rewrite ap_set_rssi_id.
  - cbn [app]. rewrite filter_pair_mid by done.
    set (a' := ap_set_rssi a _). set (b' := if ap_same a b then ap_zero else b).
    replace (pre ++ a' :: dn ++ b' :: mid ++ post)
      with (pre ++ a' :: (dn ++ [b']) ++ mid ++ post) by (by rewrite <- (app_assoc dn)).
    replace (S (i + 1 + length dn)) with (i + 1 + length (dn ++ [b']))%nat
      by (rewrite length_app; simpl; lia).
    rewrite IH. by rewrite <- (app_assoc dn).
Qed.

Lemma filter_inner_spec pre a mid post n i :
  i = length pre -> (n - (i + 1))%nat = length mid ->
  filter_inner n i (pre ++ a :: mid ++ post)
  = pre ++ ap_set_rssi a (best_rssi a mid) :: blank a mid ++ post.
Proof.
  intros Hi Hn. unfold filter_inner. rewrite Hn.
  pose proof (filter_inner_mid pre a [] mid post i Hi) as H. simpl in H.
  by rewrite Nat.add_0_r in H.
Qed.

Lemma filter_outer_mid pre mid post n i :
  i = length pre -> length mid = (n - i)%nat ->
  foldl (filter_outer_body n) (pre ++ mid ++ post) (seq i (n - 1 - i))
  = pre ++ mark_dups (length mid) mid ++ post.
Proof.
  revert pre i. remember (length mid) as k eqn:Hk.
  revert mid Hk. induction k as [|k IH]; intros mid Hk pre i Hi Hn.
  - destruct mid; [|done]. by replace (n - 1 - i)%nat with 0%nat by lia.
  - destruct mid as [|a mid]; [done|]. simpl in Hk. injection Hk as Hk.
    destruct k as [|k'].
    + destruct mid; [|done]. replace (n - 1 - i)%nat with 0%nat by lia. simpl.
      destruct (ap_unnamed a); [done|]. unfold best_rssi. simpl. by rewrite ap_set_rssi_id.
    + replace (n - 1 - i)%nat with (S (n - 1 - S i)) by lia.
      cbn [seq foldl app]. unfold filter_outer_body at 2.
      rewrite lookup_total_mid by done. cbn [mark_dups].
      destruct (ap_unnamed a).
      * replace (pre ++ a :: mid ++ post) with ((pre ++ [a]) ++ mid ++ post)
          by (by rewrite <- app_assoc).
        rewrite IH; [by rewrite <- app_assoc|done|rewrite length_app; simpl; lia|lia].
      * rewrite filter_inner_spec by (done || lia).
        set (a' := ap_set_rssi a _).
        replace (pre ++ a' :: blank a mid ++ post) with ((pre ++ [a']) ++ blank a mid ++ post)
          by (by rewrite <- app_assoc).
        rewrite IH; [by rewrite <- app_assoc|by rewrite blank_length
                    |rewrite length_app; simpl; lia|lia].
Qed.

Lemma filter_outer_spec l n :
  (n <= length l)%nat -> filter_outer n l = mark_dups n (take n l) ++ drop n l.
Proof.
  intros Hn. unfold filter_outer.
  pose proof (filter_outer_mid [] (take n l) (drop n l) n 0 eq_refl) as H.
  simpl in H. rewrite take_drop, !Nat.sub_0_r, length_take in H. rewrite H by lia.
  by rewrite Nat.min_l by lia.
Qed.

(** ** The second loop *)

Definition named (l : list wifi_ap_record) : list wifi_ap_record :=
  filter (fun a => ap_unnamed a = false) l.

Lemma named_cons a l :
  named (a :: l) = if ap_unnamed a then named l else a :: named l.
Proof. unfold named. rewrite filter_cons. destruct (ap_unnamed a); by case_decide. Qed.

Lemma find_free_app p u q n :
  Forall (fun a => ap_unnamed a = false) p -> ap_unnamed u = true -> (length p < n)%nat ->
  find_free (p ++ u :: q) n = Some (length p).
Proof.
  intros Hp Hu. revert n. induction Hp as [|a p Ha _ IH]; intros [|n] Hn; simpl in *; try lia.
  - by rewrite Hu.
  - rewrite Ha, IH by lia. done.
Qed.

Definition free_slot (nm un : list wifi_ap_record) : option nat :=
  match un with [] => None | _ :: _ => Some (length nm) end.

Lemma reorder_mid nm un rest post n i c :
  Forall (fun a => ap_unnamed a = false) nm -> Forall (fun a => ap_unnamed a = true) un ->
  i = (length nm + length un)%nat -> n = (i + length rest)%nat ->
  c = Z.of_nat n - Z.of_nat (length un) ->
  exists tl, Forall (fun a => ap_unnamed a = true) tl /\
    length tl = (n - length (nm ++ named rest))%nat /\
    foldl (reorder_body n) (Reorder (nm ++ un ++ rest ++ post) (free_slot nm un) c)
      (seq i (length rest))
    = Reorder ((nm ++ named rest) ++ tl ++ post) (free_slot (nm ++ named rest) tl)
        (Z.of_nat (length (nm ++ named rest))).
Proof.
  revert nm un i c. induction rest as [|a rest IH]; intros nm un i c Hnm Hun Hi Hn Hc.
  - exists un. change (named []) with (@nil wifi_ap_record). rewrite app_nil_r in *. simpl in *.
    split; [done|]. split; [lia|]. f_equal. lia.
  - cbn [length seq foldl]. unfold reorder_body at 2. cbn [app].
    rewrite (app_assoc nm un), lookup_total_mid by (rewrite length_app; lia).
    rewrite named_cons. destruct (ap_unnamed a) eqn:Ea.
    + destruct (IH nm (un ++ [a]) (S i) (c - 1)) as (tl & Htl & Hlen & Hf);
        [done|apply Forall_app; by repeat constructor|solve_len..|].
      exists tl. split; [done|]. split; [done|].
      rewrite <- Hf. f_equal. rewrite <- !app_assoc. cbn. f_equal.
      destruct un; simpl in *; [|done]. f_equal. lia.
    + assert (forall k, (nm ++ [a]) ++ k = nm ++ a :: k) as Ena by (intros; by rewrite <- app_assoc).
      destruct un as [|u un].
      * simpl in Hi. destruct (IH (nm ++ [a]) [] (S i) c) as (tl & Htl & Hlen & Hf);
          [apply Forall_app; by repeat constructor|done|solve_len..|].
        exists tl. rewrite !Ena in *. rewrite app_nil_r.
        split; [done|]. split; [done|]. exact Hf.
      * cbn [free_slot]. simpl in Hi. inversion Hun as [|? ? Hu Hun']; subst x l.
        rewrite <- app_assoc. cbn [app]. rewrite insert_app_exact by done.
        replace (nm ++ a :: un ++ a :: rest ++ post) with ((nm ++ a :: un) ++ a :: rest ++ post)
          by (by rewrite <- app_assoc).
        rewrite insert_app_exact by (rewrite length_app; simpl; lia).
        destruct (IH (nm ++ [a]) (un ++ [ap_zero]) (S i) c) as (tl & Htl & Hlen & Hf);
          [apply Forall_app; by repeat constructor|apply Forall_app; by repeat constructor
          |solve_len..|].
        exists tl. rewrite !(Ena (named _)) in *.
        split; [done|]. split; [done|].
        rewrite <- Hf. f_equal.
        assert ((nm ++ a :: un) ++ ap_zero :: rest ++ post
                = (nm ++ [a]) ++ (un ++ [ap_zero]) ++ rest ++ post) as El
          by (rewrite <- !app_assoc; done).
        rewrite El.
        assert (exists v w, un ++ [ap_zero] = v :: w /\ ap_unnamed v = true) as (v & w & Ev & Hv).
        { destruct un as [|v un]; [by exists ap_zero, []|].
          exists v, (un ++ [ap_zero]). split; [done|]. by inversion Hun'. }
        rewrite Ev. cbn [app]. rewrite find_free_app; [done| |done|].
        -- apply Forall_app. by repeat constructor.
        -- solve_len.
Qed.

(** ** The list of networks *)

Lemma named_blank a l :
  ap_unnamed a = false ->
  named (blank a l) = named (filter (fun b => ap_same a b = false) l).
Proof.
  intros Ha. induction l as [|b l IH]; [done|]. cbn [blank fmap list_fmap].
  rewrite named_cons, filter_cons. fold (blank a l).
  destruct (ap_same a b) eqn:E; case_decide; try done.
  rewrite named_cons, IH. done.
Qed.

Lemma best_rssi_named a l :
  ap_unnamed a = false -> best_rssi a (named l) = best_rssi a l.
Proof.
  intros Ha. unfold best_rssi. generalize (ap_rssi a). induction l as [|b l IH]; intros r; [done|].
  rewrite named_cons. destruct (ap_unnamed b) eqn:Eb; cbn [foldl].
  - rewrite (ap_same_unnamed a b) by done. apply IH.
  - apply IH.
Qed.

Lemma filter_length_le {A} (P : A -> Prop) `{forall x, Decision (P x)} (l : list A) :
  (length (filter P l) <= length l)%nat.
Proof. apply length_filter. Qed.

(** Unnamed records play no part, and the bound only has to be large enough. *)
Lemma unique_aps_named k k' l :
  (length l <= k)%nat -> (length (named l) <= k')%nat ->
  unique_aps k l = unique_aps k' (named l).
Proof.
  revert k' l. induction k as [|k IH]; intros k' l Hl Hk'.
  - destruct l; [|simpl in Hl; lia]. by destruct k'.
  - destruct l as [|b l]; [by destruct k'|]. simpl in Hl. cbn [unique_aps].
    rewrite named_cons in *. destruct (ap_unnamed b) eqn:Eb.
    + apply IH; [lia|done].
    + destruct k' as [|k']; [simpl in Hk'; lia|]. simpl in Hk'. cbn [unique_aps]. rewrite Eb.
      rewrite best_rssi_named by done. f_equal.
      assert (filter (fun c => ap_same b c = false) (named l)
              = named (filter (fun c => ap_same b c = false) l)) as ->.
      { unfold named. rewrite !list_filter_filter. apply list_filter_iff. intros x. tauto. }
      apply IH.
      * etransitivity; [apply filter_length_le|lia].
      * unfold named. rewrite list_filter_filter, (list_filter_iff _
          (fun x => ap_same b x = false /\ ap_unnamed x = false)) by (intros; tauto).
        rewrite <- list_filter_filter. etransitivity; [apply filter_length_le|].
        unfold named in Hk'. lia.
Qed.

Lemma named_mark_dups k l :
  (length l <= k)%nat -> named (mark_dups k l) = unique_aps k l.
Proof.
  revert l. induction k as [|k IH]; intros l Hl.
  - by destruct l; [|simpl in Hl; lia].
  - destruct l as [|a l]; [done|]. simpl in Hl. cbn [mark_dups unique_aps].
    destruct (ap_unnamed a) eqn:Ea; rewrite named_cons.
    + rewrite Ea. apply IH. lia.
    + change (ap_unnamed (ap_set_rssi a _)) with (ap_unnamed a). rewrite Ea. f_equal.
      rewrite IH by (rewrite blank_length; lia).
      rewrite (unique_aps_named k k (blank a l)).
      * rewrite named_blank by done. symmetry. apply unique_aps_named.
        -- etransitivity; [apply filter_length_le|lia].
        -- etransitivity; [apply filter_length_le|]. etransitivity; [apply filter_length_le|lia].
      * rewrite blank_length. lia.
      * etransitivity; [apply filter_length_le|]. rewrite blank_length. lia.
Qed.

(** The array after the call: the networks, then unnamed records, then the
    part beyond [aps] unchanged. *)
Lemma filter_unique_result l n :
  (n <= length l)%nat ->
  exists tl, Forall (fun a => ap_unnamed a = true) tl /\
    length tl = (n - length (unique_aps n (take n l)))%nat /\
    wifi_manager_filter_unique l n
    = Some (unique_aps n (take n l) ++ tl ++ drop n l,
            Z.of_nat (length (unique_aps n (take n l)))).
Proof.
  intros Hn. unfold wifi_manager_filter_unique. rewrite (proj2 (Nat.leb_le _ _)) by done.
  rewrite filter_outer_spec by done. rewrite <- named_mark_dups by (rewrite length_take; lia).
  assert (length (mark_dups n (take n l)) = n) as HL
    by (rewrite mark_dups_length, length_take; lia).
  destruct (reorder_mid [] [] (mark_dups n (take n l)) (drop n l) n 0 (Z.of_nat n))
    as (tl & Htl & Hlen & Hf); [done..|simpl; lia|simpl; lia|].
  rewrite HL in Hf. simpl in Hf, Hlen.
  exists tl. split; [done|]. split; [done|]. by rewrite Hf.
Qed.

Lemma best_rssi_ge a l : ap_rssi a <= best_rssi a l.
Proof.
  unfold best_rssi. generalize (ap_rssi a). induction l as [|b l IH]; intros r; cbn [foldl]; [lia|].
  destruct (ap_same a b); [|done]. etransitivity; [|apply IH]. lia.
Qed.

Lemma foldl_best_mono a l r r' :
  r <= r' ->
  foldl (fun r b => if ap_same a b then Z.max r (ap_rssi b) else r) r l
  <= foldl (fun r b => if ap_same a b then Z.max r (ap_rssi b) else r) r' l.
Proof.
  revert r r'. induction l as [|b l IH]; intros r r' Hr; cbn [foldl]; [done|].
  apply IH. destruct (ap_same a b); lia.
Qed.

Lemma best_rssi_upper a b l : b ∈ l -> ap_same a b = true -> ap_rssi b <= best_rssi a l.
Proof.
  unfold best_rssi. generalize (ap_rssi a).
  induction l as [|c l IH]; intros r Hin Hs; [by apply not_elem_of_nil in Hin|].
  cbn [foldl]. apply elem_of_cons in Hin as [<-|Hin]; [|by apply IH].
  rewrite Hs. etransitivity; [|apply (foldl_best_mono a l (ap_rssi b)); lia].
  clear. generalize (ap_rssi b). induction l as [|c l IH]; intros r; cbn [foldl]; [lia|].
  destruct (ap_same a c); [|done]. etransitivity; [|apply IH]. lia.
Qed.

Lemma best_rssi_attained a l :
  best_rssi a l = ap_rssi a \/ exists b, b ∈ l /\ ap_same a b = true /\ best_rssi a l = ap_rssi b.
Proof.
  unfold best_rssi. generalize (ap_rssi a). induction l as [|c l IH]; intros r; cbn [foldl]; [by left|].
  set (r' := if ap_same a c then Z.max r (ap_rssi c) else r).
  destruct (IH r') as [->|(b & Hb & Hs & ->)].
  - unfold r'. destruct (ap_same a c) eqn:E; [|by left].
    destruct (Z.max_spec r (ap_rssi c)) as [[_ ->]|[_ ->]]; [|by left].
    right. exists c. split; [apply elem_of_cons; by left|done].
  - right. exists b. split; [apply elem_of_cons; by right|done].
Qed.

(** Every record of the reference list comes from a scanned record of that
    network, with a signal that was scanned for the network. *)
Lemma unique_aps_sound k l x :
  x ∈ unique_aps k l ->
  ap_unnamed x = false /\
  exists a b, a ∈ l /\ b ∈ l /\ ap_key b = ap_key a /\ x = ap_set_rssi a (ap_rssi b).
Proof.
  revert l. induction k as [|k IH]; intros l Hx; [by destruct l; apply not_elem_of_nil in Hx|].
  destruct l as [|a l]; [by apply not_elem_of_nil in Hx|]. cbn [unique_aps] in Hx.
  assert (forall l', l' ⊆ a :: l -> x ∈ unique_aps k l' ->
    ap_unnamed x = false /\
    exists a0 b, a0 ∈ a :: l /\ b ∈ a :: l /\ ap_key b = ap_key a0 /\ x = ap_set_rssi a0 (ap_rssi b))
    as Hrec.
  { intros l' Hsub Hx'. destruct (IH l' Hx') as (Hu & c & b & Hc & Hb & Hk & ->).
    split; [done|]. exists c, b. auto. }
  destruct (ap_unnamed a) eqn:Ea.
  - apply (Hrec l); [intros y Hy; apply elem_of_cons; by right|done].
  - apply elem_of_cons in Hx as [->|Hx].
    + split; [done|]. destruct (best_rssi_attained a l) as [->|(b & Hb & Hs & ->)].
      * exists a, a. repeat split; apply elem_of_cons; by left.
      * exists a, b. split; [apply elem_of_cons; by left|].
        split; [apply elem_of_cons; by right|]. split; [|done].
        by apply ap_same_key in Hs.
    + apply (Hrec (filter (fun b => ap_same a b = false) l)); [|done].
      intros y Hy. apply list_elem_of_filter in Hy as [_ Hy]. apply elem_of_cons. by right.
Qed.

Lemma unique_aps_complete k l a :
  (length l <= k)%nat -> a ∈ l -> ap_unnamed a = false ->
  exists x, x ∈ unique_aps k l /\ ap_key x = ap_key a /\ ap_rssi a <= ap_rssi x.
Proof.
  revert l. induction k as [|k IH]; intros l Hl Ha Hn.
  - destruct l; [by apply not_elem_of_nil in Ha|simpl in Hl; lia].
  - destruct l as [|b l]; [by apply not_elem_of_nil in Ha|]. simpl in Hl. cbn [unique_aps].
    destruct (ap_unnamed b) eqn:Eb.
    + apply elem_of_cons in Ha as [->|Ha]; [congruence|]. apply IH; [lia|done..].
    + destruct (ap_same b a) eqn:Es.
      * exists (ap_set_rssi b (best_rssi b l)). split; [apply elem_of_cons; by left|].
        split; [by apply ap_same_key in Es|]. cbn.
        apply elem_of_cons in Ha as [->|Ha]; [apply best_rssi_ge|by apply best_rssi_upper].
      * apply elem_of_cons in Ha as [->|Ha]; [by apply ap_same_false in Es|].
        destruct (IH (filter (fun c => ap_same b c = false) l)) as (x & Hx & Hkx & Hr); [| |done|].
        -- etransitivity; [apply filter_length_le|lia].
        -- by apply list_elem_of_filter.
        -- exists x. split; [apply elem_of_cons; by right|done].
Qed.

Lemma unique_aps_length k l : (length (unique_aps k l) <= k)%nat.
Proof.
  revert l. induction k as [|k IH]; intros [|a l]; cbn [unique_aps length]; try lia.
  destruct (ap_unnamed a); [specialize (IH l); lia|]. cbn [length]. apply le_n_S, IH.
Qed.

Lemma unique_aps_nodup k l : NoDup (ap_key <$> unique_aps k l).
Proof.
  revert l. induction k as [|k IH]; intros l; [destruct l; constructor|].
  destruct l as [|a l]; [constructor|]. cbn [unique_aps].
  destruct (ap_unnamed a); [apply IH|]. cbn. apply NoDup_cons. split; [|apply IH].
  intros Hin. apply list_elem_of_fmap in Hin as (x & Hk & Hx).
  apply unique_aps_sound in Hx as (_ & c & b & Hc & _ & _ & ->).
  apply list_elem_of_filter in Hc as [Hs _]. by apply ap_same_false in Hs.
Qed.

(** ** Theorems *)

(** C33: [wifi_manager_filter_unique] implements the reference [unique_aps]: the
    front of the array is the list of networks, in order of first appearance
    and with their best signal, the count is its length, the rest of the
    scanned part has no name and the array beyond [aps] is untouched. *)
Theorem filter_unique_reference l n :
  (n <= length l)%nat ->
  exists tl, Forall (fun a => ap_unnamed a = true) tl /\
    length tl = (n - length (unique_aps n (take n l)))%nat /\
    wifi_manager_filter_unique l n
    = Some (unique_aps n (take n l) ++ tl ++ drop n l,
            Z.of_nat (length (unique_aps n (take n l)))).
Proof. apply filter_unique_result. Qed.

(** After [wifi_manager_filter_unique] the counted entries are pairwise
    different networks; every named record of the scan is one of them with at
    least its signal; each is a scanned record of its network with a signal
    that was scanned for it. *)
Theorem filter_unique_networks l n l' m :
  wifi_manager_filter_unique l n = Some (l', m) ->
  let nets := take (Z.to_nat m) l' in
  0 <= m <= Z.of_nat n /\ length l' = length l /\
  NoDup (ap_key <$> nets) /\
  (forall a, a ∈ take n l -> ap_unnamed a = false ->
     exists x, x ∈ nets /\ ap_key x = ap_key a /\ ap_rssi a <= ap_rssi x) /\
  (forall x, x ∈ nets -> ap_unnamed x = false /\
     exists a b, a ∈ take n l /\ b ∈ take n l /\ ap_key b = ap_key a /\
                 x = ap_set_rssi a (ap_rssi b)).
Proof.
  intros H. assert (n <= length l)%nat as Hn.
  { unfold wifi_manager_filter_unique in H. destruct (Nat.leb_spec n (length l)); done. }
  destruct (filter_unique_result l n Hn) as (tl & _ & Hlen & E).
  rewrite E in H. injection H as <- <-. rewrite Nat2Z.id.
  pose proof (unique_aps_length n (take n l)) as Hle.
  cbv zeta. rewrite take_app_length. split; [lia|].
  split; [rewrite !length_app, length_drop; lia|].
  split; [apply unique_aps_nodup|]. split.
  - intros a Ha Hu. apply unique_aps_complete; [rewrite length_take; lia|done..].
  - intros x Hx. by apply unique_aps_sound in Hx.
Qed.

(** A scan with a duplicate, a hidden and a second network. *)
Definition demo_scan : list wifi_ap_record :=
  [ ApRecord (lit "home") 1 (-70) 3 []; ApRecord [] 6 (-40) 3 [];
    ApRecord (lit "home") 11 (-52) 3 []; ApRecord (lit "guest") 6 (-80) 0 [] ].

Lemma filter_unique_reference_witness :
  (4 <= length demo_scan)%nat /\
  exists tl, Forall (fun a => ap_unnamed a = true) tl /\
    length tl = (4 - length (unique_aps 4 (take 4 demo_scan)))%nat /\
    wifi_manager_filter_unique demo_scan 4
    = Some (unique_aps 4 (take 4 demo_scan) ++ tl ++ drop 4 demo_scan,
            Z.of_nat (length (unique_aps 4 (take 4 demo_scan)))).
Proof. split; [simpl; lia|]. apply (filter_unique_reference demo_scan 4). simpl. lia. Defined.

Lemma filter_unique_networks_witness :
  NoDup (ap_key <$> [ApRecord (lit "home") 1 (-52) 3 []; ApRecord (lit "guest") 6 (-80) 0 []]).
Proof.
  assert (wifi_manager_filter_unique demo_scan 4
    = Some ([ApRecord (lit "home") 1 (-52) 3 []; ApRecord (lit "guest") 6 (-80) 0 [];
             ap_zero; ap_zero], 2)) as H by (vm_compute; reflexivity).
  exact (proj1 (proj2 (proj2 (filter_unique_networks _ _ _ _ H)))).
Defined.
