(* ===== verification/Ext.v ===== *)
(** * The outside of the firmware

    The functions of FreeRTOS, ESP-IDF, lwIP and the C file and socket API the
    firmware calls, as the calls of [Prog.prog], and the answer of a call.
    Nothing is said here of what they do: a theorem either holds for every
    answer or names what it relies on through the classes at the end. *)

From S2P Require Import Prelude WifiScan.
From S2P Require Export Prog.

Local Open Scope Z_scope.

(** ** Constants of the public headers *)

Definition ESP_OK : Z := 0.
Definition ESP_FAIL : Z := -1.
Definition pdTRUE : Z := 1.
Definition pdFALSE : Z := 0.

(** CONFIG_FREERTOS_HZ is 100. *)
Definition portTICK_PERIOD_MS : Z := 10.

Definition BIT (n : Z) : Z := Z.shiftl 1 n.

(** ** Calls *)

Inductive event_group := WIFI_EG | LED_EG | HTTP_EG | OTA_EG | NTP_EG.
Inductive semaphore := JSON_MUTEX | LOG_MUTEX.
Inductive timer := WIFI_RECONNECT_TIMER | PM_TIMER.

#[export] Instance event_group_eq_dec : EqDecision event_group.
Proof. solve_decision. Defined.
#[export] Instance semaphore_eq_dec : EqDecision semaphore.
Proof. solve_decision. Defined.
#[export] Instance timer_eq_dec : EqDecision timer.
Proof. solve_decision. Defined.

(** The options of [esp_ping_set_target] with their values; the result
    function the firmware installs is [pingResults]. *)
Inductive ping_target :=
  | PING_TARGET_IP_ADDRESS_COUNT (n : Z)
  | PING_TARGET_RCV_TIMEO (ms : Z)
  | PING_TARGET_IP_ADDRESS (addr : list Z)
  | PING_TARGET_RES_FN.

(** What [netconn_write] is given: a pointer and a length.  The memory is either
    constant (a header, an embedded file) or one of the shared buffers of the
    Wi-Fi manager, and the bytes are those it holds at the call.  With
    NETCONN_NOCOPY the stack keeps the pointer: it may read the memory again
    until the peer has acknowledged it. *)
Inductive json_document := AccessPoints | IpInfo | RegInfo.
Inductive memory := Constant | Document (d : json_document).

Abbreviation piece := (memory * list Z)%type.
Abbreviation constant d := (Constant, d).

Definition NETCONN_NOCOPY : Z := 0.

(** Timeouts are in ticks; [None] is portMAX_DELAY. *)
Inductive ext :=
  (* FreeRTOS *)
  | xEventGroupCreate (g : event_group)
  | xEventGroupSetBits (g : event_group) (bits : Z)
  | xEventGroupClearBits (g : event_group) (bits : Z)
  | xEventGroupGetBits (g : event_group)
  | xEventGroupWaitBits (g : event_group) (bits : Z) (clear all : bool) (ticks : option Z)
  | xSemaphoreCreateMutex (m : semaphore)
  | xSemaphoreTake (m : semaphore) (ticks : option Z)
  | xSemaphoreGive (m : semaphore)
  | vSemaphoreDelete (m : semaphore)
  | vEventGroupDelete (g : event_group)
  | xTimerCreate (t : timer) (ticks : Z)
  | xTimerStart (t : timer)
  | xTimerStop (t : timer)
  | xTimerReset (t : timer)
  | xTimerIsTimerActive (t : timer)
  | vTaskDelay (ticks : Z)
  | vTaskDelete
  (* non-volatile storage *)
  | nvs_open (namespace : list Z) (readwrite : bool)
  | nvs_set_blob (handle : Z) (key : list Z) (value : list Z)
  | nvs_get_blob (handle : Z) (key : list Z) (length : nat)
  | nvs_commit (handle : Z)
  | nvs_close (handle : Z)
  (* Wi-Fi driver and TCP/IP adapter *)
  | esp_wifi_disconnect
  | esp_wifi_connect
  | esp_wifi_set_config_sta (config : option (list Z))     (* None: a NULL pointer *)
  | esp_wifi_set_config_ap (ssid password : list Z) (channel ssid_hidden : Z)
  | esp_wifi_init
  | esp_wifi_set_storage
  | esp_wifi_set_mode
  | esp_wifi_set_bandwidth (bandwidth : Z)
  | esp_wifi_set_ps (mode : Z)
  | esp_wifi_start
  | esp_event_loop_init
  | tcpip_adapter_init
  | tcpip_adapter_dhcps_stop
  | tcpip_adapter_dhcps_start
  | tcpip_adapter_set_ip_info (station : bool) (info : list Z)
  | tcpip_adapter_dhcpc_stop
  | tcpip_adapter_dhcpc_start
  | tcpip_adapter_dhcpc_get_status
  | esp_ping_set_target (target : ping_target)
  | esp_wifi_scan_start
  | esp_wifi_scan_get_ap_records (max : Z)
  | esp_wifi_deinit
  | esp_efuse_mac_get_default
  | tcpip_adapter_get_ip_info
  | ip4addr_ntoa (addr : list Z)
  | ping_init
  (* LED controller *)
  | ledc_timer_config
  | ledc_channel_config (channel duty gpio : Z)
  | ledc_set_duty (channel duty : Z)
  | ledc_update_duty (channel : Z)
  (* lwIP netconn *)
  | netconn_recv
  | netconn_write (data : piece) (flags : Z)
  | netbuf_delete
  | netconn_new
  | netconn_bind
  | netconn_listen
  | netconn_accept
  | netconn_close
  | netconn_delete
  | time
  (* UART and GPIO *)
  | uart_read_bytes (uart : Z) (length : Z) (ticks : option Z)
  | uart_flush_input (uart : Z)
  | uart_queue_receive (uart : Z)
  | uart_queue_reset (uart : Z)
  | uart_param_config (uart baud : Z)
  | uart_set_pin (uart tx rx : Z)
  | uart_driver_install (uart rx_size tx_size queue : Z)
  | xTaskCreate (name : list Z) (stack prio : Z)
  | uart_get_buffered_data_len (uart : Z)
  | uart_pattern_pop_pos (uart : Z)
  | uart_enable_pattern_det_intr (uart char : Z)
  | uart_pattern_queue_reset (uart length : Z)
  | uart_flush (uart : Z)
  | uart_write_bytes (uart : Z) (data : list Z)
  | gpio_config (mask : Z)
  | gpio_set_level (pin level : Z)
  | gpio_set_pull_mode (pin : Z)
  (* I2C and ADC *)
  | i2c_param_config (port sda scl freq : Z)
  | i2c_driver_install (port : Z)
  | i2c_cmd_link_create
  | i2c_master_start (cmd : Z)
  | i2c_master_write_byte (cmd byte ack : Z)
  | i2c_master_read_byte (cmd ack : Z)       (* one more byte of the next answer *)
  | i2c_master_stop (cmd : Z)
  | i2c_master_cmd_begin (port cmd ticks : Z)
  | i2c_cmd_link_delete (cmd : Z)
  | esp_adc_cal_check_efuse (value : Z)
  | adc1_config_width
  | adc1_config_channel_atten (channel : Z)
  | calloc_adc_chars
  | esp_adc_cal_characterize (vref : Z)
  | adc1_get_raw (channel : Z)
  (* clock *)
  | clock
  | localtime_r (now : Z)
  | strftime_c
  | esp_timer_get_time
  | setenv_tz (zone : list Z)
  | tzset
  | sntp_stop
  | sntp_setoperatingmode_poll
  | sntp_setservername (i : Z) (name : list Z)
  | sntp_init
  (* MQTT *)
  | esp_mqtt_client_init
  | esp_mqtt_client_start (client : Z)
  | esp_mqtt_client_destroy (client : Z)
  | esp_mqtt_client_subscribe (client : Z) (topic : list Z) (qos : Z)
  | esp_mqtt_client_publish (client : Z) (topic msg : list Z) (qos : Z)
  (* system *)
  | nvs_flash_init
  | nvs_flash_erase
  | esp_ota_get_app_description
  (* OTA and its HTTP client *)
  | esp_ota_get_boot_partition
  | esp_ota_get_running_partition
  | esp_ota_get_next_update_partition
  | esp_http_client_init (url : list Z)
  | esp_http_client_open (client : Z)
  | esp_http_client_fetch_headers (client : Z)
  | esp_http_client_read (client : Z) (length : nat)
  | esp_http_client_close (client : Z)
  | esp_http_client_cleanup (client : Z)
  | esp_http_client_set_method_post (client : Z)
  | esp_http_client_set_header (client : Z) (key value : list Z)
  | esp_http_client_set_post_field (client : Z) (data : list Z)
  | esp_http_client_perform (client : Z)
  | esp_http_client_is_chunked_response (client : Z)
  | esp_ota_begin (partition : Z)
  | esp_ota_write (handle : Z) (data : list Z)
  | esp_ota_end (handle : Z)
  | esp_partition_check_identity (p q : Z)
  | esp_ota_set_boot_partition (partition : Z)
  (* sockets, files and heap *)
  | heap_caps_get_largest_free_block
  | malloc (size : Z)
  | malloc_wifi_config       (* malloc (sizeof (wifi_config_t)), a size of ESP-IDF *)
  | malloc_ap_records       (* malloc of MAX_AP_NUM records *)
  | free (ptr : Z)
  | free_var (name : list Z)  (* free of the block a static pointer holds *)
  | stat_size (path : list Z)
  | fopen (path mode : list Z)
  | fclose (fp : Z)
  | fread (fp : Z) (size : Z)
  | fprintf (fp : Z) (text : list Z)
  | fflush (fp : Z)
  | remove (path : list Z)
  | rename (old new : list Z)
  | esp_vfs_fat_sdmmc_mount (max_files unit_size : Z)
  | esp_vfs_fat_sdmmc_unmount
  | esp_log_set_vprintf
  | getaddrinfo (host port : list Z)
  | freeaddrinfo
  | socket
  | connect (sock : Z)
  | sock_write (sock : Z) (data : list Z)
  | sock_read (sock : Z) (size : Z)
  | setsockopt_rcvtimeo (sock : Z) (seconds : Z)
  | sock_send (sock : Z) (data : list Z)
  | sock_recv (sock : Z) (size : Z) (peek : bool)
  | close (fd : Z).

(** The answer of a call: the returned integer (a handle or pointer is a
    number, NULL is 0), a second integer stored through a pointer, the bytes
    and the access-point records it filled in. *)
Record answer := Answer {
  a_ret : Z;
  a_val : Z;
  a_bytes : list Z;
  a_aps : list wifi_ap_record
}.

Definition ret_ (z : Z) : answer := Answer z 0 [] [].
Definition ret_val (z v : Z) : answer := Answer z v [] [].
Definition ret_bytes (z : Z) (bs : list Z) : answer := Answer z 0 bs [].
Definition ret_aps (z v : Z) (l : list wifi_ap_record) : answer := Answer z v [] l.

Abbreviation cprog := (prog ext answer).
Abbreviation ctrace := (trace ext answer).

(** [esp_err = call; if (esp_err != ESP_OK) return esp_err;] *)
Definition checked {S} (e : ext) (k : answer -> cprog S Z) : cprog S Z :=
  Call e (fun a => if Z.eqb (a_ret a) ESP_OK then k a else Ret (a_ret a)).

Notation "a <-? e ; k" := (checked e (fun a => k))
  (at level 100, e at next level, k at level 200, right associativity) : airu_scope.

(** Inversion of executions. *)
Lemma exec_get_inv {S X} (k : S -> cprog S X) s tr r s' :
  exec eq (Get k) s tr (Done r) s' -> exec eq (k s) s tr (Done r) s'.
Proof. intros H. by inversion H; subst. Qed.

Lemma exec_ret_inv {S X} (R : S -> S -> Prop) (x : X) (s : S) (tr : ctrace) r s' :
  exec R (Ret x) s tr (Done r) s' -> tr = [] /\ r = x /\ s' = s.
Proof. intros H. by inversion H; subst. Qed.

Lemma exec_upd_inv {S X} f (k : cprog S X) s tr r s' :
  exec eq (Upd f k) s tr (Done r) s' -> exists s1, f s = Some s1 /\ exec eq k s1 tr (Done r) s'.
Proof. intros H. inversion H; subst. by eexists. Qed.

Lemma exec_call_inv {S X} e (k : answer -> cprog S X) s tr r s' :
  exec eq (Call e k) s tr (Done r) s' -> exists a t, tr = (e, a) :: t /\ exec eq (k a) s t (Done r) s'.
Proof. intros H. inversion H; subst. by do 2 eexists. Qed.

(** A heap block: its address (0 is NULL) and what it holds; the contents of a
    fresh block are whatever the allocator left there. *)
Definition heap_block : Type := Z * option (list Z).

Definition heap_alloc {S} (size : nat) : cprog S heap_block :=
  Call (malloc (Z.of_nat size)) (fun a =>
    Ret (a_ret a, if Z.eqb (a_ret a) 0 then None else Some (resize size 0 (a_bytes a)))).

(** [ESP_ERROR_CHECK (call)]: abort unless the call returns ESP_OK. *)
Definition esp_error_check {S} (e : ext) : cprog S answer :=
  Call e (fun a => if Z.eqb (a_ret a) ESP_OK then Ret a else Stop Abort).

(** ** FreeRTOS event groups

    What the firmware relies on: a group holds a set of bits, changed only by
    setting and clearing them. *)

Class EventGroup (G : Type) := {
  eg_create : G;
  eg_set : Z -> G -> G;
  eg_clear : Z -> G -> G;
  eg_bit : Z -> G -> bool
}.

Class EventGroupLaws (G : Type) `{EventGroup G} : Prop := {
  eg_bit_create i : eg_bit i eg_create = false;
  eg_bit_set m i g : eg_bit i (eg_set m g) = Z.testbit m i || eg_bit i g;
  eg_bit_clear m i g : eg_bit i (eg_clear m g) = negb (Z.testbit m i) && eg_bit i g
}.

#[export] Instance Z_event_group : EventGroup Z := {
  eg_create := 0;
  eg_set m g := Z.lor g m;
  eg_clear m g := Z.ldiff g m;
  eg_bit i g := Z.testbit g i
}.

#[export] Instance Z_event_group_laws : EventGroupLaws Z.
Proof.
  split; intros; cbn.
  - apply Z.bits_0.
  - by rewrite Z.lor_spec, orb_comm.
  - rewrite Z.ldiff_spec. apply andb_comm.
Qed.

Section event_groups.
Context {G} `{EventGroupLaws G}.

(** Two groups with the same bits cannot be told apart. *)
#[export] Instance eg_equiv : Equiv G := fun g1 g2 => forall i, eg_bit i g1 = eg_bit i g2.

#[export] Instance eg_equivalence : Equivalence (≡@{G}).
Proof.
  split.
  - by intros g i.
  - intros g1 g2 E i. symmetry. apply E.
  - intros g1 g2 g3 E1 E2 i. etransitivity; [apply E1|apply E2].
Qed.

#[export] Instance eg_set_proper m : Proper ((≡) ==> (≡)) (eg_set (G := G) m).
Proof. intros g1 g2 E i. rewrite !eg_bit_set. by rewrite (E i). Qed.

#[export] Instance eg_clear_proper m : Proper ((≡) ==> (≡)) (eg_clear (G := G) m).
Proof. intros g1 g2 E i. rewrite !eg_bit_clear. by rewrite (E i). Qed.

Lemma eg_set_set m n (g : G) : eg_set m (eg_set n g) ≡ eg_set (Z.lor m n) g.
Proof. intros i. rewrite !eg_bit_set, Z.lor_spec. apply orb_assoc. Qed.

Lemma eg_clear_clear m n (g : G) : eg_clear m (eg_clear n g) ≡ eg_clear (Z.lor m n) g.
Proof.
  intros i. rewrite !eg_bit_clear, Z.lor_spec, negb_orb. apply andb_assoc.
Qed.

(** What the calls of a trace do to one group. *)
Definition eg_call (k : event_group) (e : ext) (g : G) : G :=
  match e with
  | xEventGroupCreate k' => if decide (k = k') then eg_create else g
  | xEventGroupSetBits k' m => if decide (k = k') then eg_set m g else g
  | xEventGroupClearBits k' m => if decide (k = k') then eg_clear m g else g
  | xEventGroupWaitBits k' m true _ None => if decide (k = k') then eg_clear m g else g
  | _ => g
  end.

Definition eg_trace (k : event_group) (tr : ctrace) (g : G) : G :=
  foldl (fun g c => eg_call k (fst c) g) g tr.

#[export] Instance eg_call_proper k e : Proper ((≡) ==> (≡)) (eg_call k e).
Proof.
  intros g1 g2 E. destruct e; simpl; repeat case_match; try done; by f_equiv.
Qed.

Lemma eg_trace_app k t1 t2 g : eg_trace k (t1 ++ t2) g = eg_trace k t2 (eg_trace k t1 g).
Proof. apply foldl_app. Qed.

#[export] Instance eg_trace_proper k tr : Proper ((≡) ==> (≡)) (eg_trace k tr).
Proof.
  induction tr as [|c tr IH]; intros g1 g2 E; [done|]. cbn. apply IH. by f_equiv.
Qed.
End event_groups.

(** ** Non-volatile storage

    What the firmware relies on: a blob that was set is what the next get of
    its key returns. *)

Class Storage (W : Type) := {
  st_get : W -> list Z -> list Z -> option (list Z);   (* namespace, key *)
  st_set : W -> list Z -> list Z -> list Z -> W
}.

Class StorageLaws (W : Type) `{Storage W} : Prop := {
  st_get_set_eq w ns k v : st_get (st_set w ns k v) ns k = Some v;
  st_get_set_ne w ns k ns' k' v :
    (ns, k) <> (ns', k') -> st_get (st_set w ns k v) ns' k' = st_get w ns' k'
}.

#[export] Instance gmap_storage : Storage (gmap (list Z * list Z) (list Z)) := {
  st_get w ns k := w !! (ns, k);
  st_set w ns k v := <[(ns, k) := v]> w
}.

#[export] Instance gmap_storage_laws : StorageLaws (gmap (list Z * list Z) (list Z)).
Proof.
  split; intros; cbn.
  - apply lookup_insert_eq.
  - by apply lookup_insert_ne.
Qed.

(** ** Files

    What the firmware relies on when it appends to files: the files of the
    card by their path, the path a FILE pointer appends to, and what the calls
    do as long as writing does not fail (the code does not look). *)

Class FileSystem (W : Type) := {
  fs_file : W -> list Z -> option (list Z);
  fs_open : W -> Z -> option (list Z);
  fs_step : ext -> W -> answer * W
}.

Definition same_files {W} `{FileSystem W} (w w' : W) : Prop := forall p, fs_file w' p = fs_file w p.

Definition only_file {W} `{FileSystem W} (p c : list Z) (w w' : W) : Prop :=
  fs_file w' p = Some c /\ forall q, q <> p -> fs_file w' q = fs_file w q.

Class FileSystemLaws (W : Type) `{FileSystem W} : Prop := {
  fs_stat_law w p :
    let '(a, w') := fs_step (stat_size p) w in
    same_files w w' /\ (a_ret a = 0 <-> is_Some (fs_file w p));
  fs_append_law w p :
    let '(a, w') := fs_step (fopen p (lit "a")) w in
    (a_ret a = 0 /\ same_files w w') \/
    (a_ret a <> 0 /\ fs_open w' (a_ret a) = Some p /\ only_file p (default [] (fs_file w p)) w w');
  fs_fprintf_law w fp p c text :
    fs_open w fp = Some p -> fs_file w p = Some c ->
    let '(a, w') := fs_step (fprintf fp text) w in
    fs_open w' fp = Some p /\ only_file p (c ++ text) w w';
  fs_fclose_law w fp : let '(a, w') := fs_step (fclose fp) w in same_files w w'
}.

(** A card with [room] FILE pointers to give out. *)
Record card := Card {
  card_files : gmap (list Z) (list Z); card_open : gmap Z (list Z); card_next : Z; card_room : Z
}.

Definition card_step (e : ext) (w : card) : answer * card :=
  match e with
  | stat_size p =>
      match card_files w !! p with
      | Some c => (ret_val 0 (Z.of_nat (length c)), w)
      | None => (ret_ (-1), w)
      end
  | fopen p mode =>
      if Z.ltb 0 (card_room w) && Z.ltb 0 (card_next w) then
        (ret_ (card_next w),
         Card (<[p := default [] (card_files w !! p)]> (card_files w))
           (<[card_next w := p]> (card_open w)) (card_next w + 1) (card_room w - 1))
      else (ret_ 0, w)
  | fprintf fp text =>
      match card_open w !! fp with
      | Some p => (ret_ (Z.of_nat (length text)),
          Card (<[p := default [] (card_files w !! p) ++ text]> (card_files w)) (card_open w)
            (card_next w) (card_room w))
      | None => (ret_ (-1), w)
      end
  | fclose fp => (ret_ 0, Card (card_files w) (delete fp (card_open w)) (card_next w) (card_room w + 1))
  | _ => (ret_ 0, w)
  end.

#[export] Instance card_fs : FileSystem card := {
  fs_file w p := card_files w !! p;
  fs_open w fp := card_open w !! fp;
  fs_step := card_step
}.

#[export] Instance card_laws : FileSystemLaws card.
Proof.
  split.
  - intros w p. cbn. destruct (card_files w !! p) as [c|] eqn:E; cbn; (split; [done|]).
    + split; [intros _; by eexists|done].
    + split; [done|by intros []].
  - intros w p. cbn [fs_step card_fs card_step].
    destruct (Z.ltb 0 (card_room w)) eqn:E1, (Z.ltb 0 (card_next w)) eqn:E2; cbn [andb];
      try (by left). right. zify_bool. cbn. split; [lia|]. split; [by rewrite lookup_insert_eq|].
    split; [by apply lookup_insert_eq|]. intros q Hq. by apply lookup_insert_ne.
  - intros w fp p c text. cbn. intros Ho Hc. rewrite Ho. cbn. split; [done|].
    split; [cbn; rewrite lookup_insert_eq; cbn in Hc; by rewrite Hc|]. intros q Hq. by apply lookup_insert_ne.
  - by intros w fp p.
Qed.
