(* ===== verification/WifiState.v ===== *)
(** * The static variables of wifi_manager.c

    They are shared by the wifi_manager task and the HTTP server task. *)

From S2P Require Import Prelude CMem WifiScan.
From S2P Require Export Ext.

Local Open Scope Z_scope.

(** ** Sizes of wifi_manager.h *)

Definition MAX_SSID_SIZE : nat := 32.
Definition MAX_PASSWORD_SIZE : nat := 64.
Definition MAX_AP_NUM : nat := 15.
Definition JSON_ONE_APP_SIZE : nat := 99.
Definition JSON_IP_INFO_SIZE : nat := 150.
Definition JSON_REG_NAME_SIZE : nat := 64.
Definition JSON_REG_EMAIL_SIZE : nat := 254.
Definition JSON_MAP_VIS_SIZE : nat := 22.
Definition JSON_MAC_ADR_SIZE : nat := 29.
Definition JSON_REG_INFO_SIZE : nat :=
  JSON_REG_NAME_SIZE + JSON_REG_EMAIL_SIZE + JSON_MAP_VIS_SIZE + JSON_MAC_ADR_SIZE.
Definition ERR_WIFI_DISCONECTED : Z := -2.

Inductive update_reason_code :=
  | UPDATE_CONNECTION_OK
  | UPDATE_FAILED_ATTEMPT
  | UPDATE_USER_DISCONNECT
  | UPDATE_LOST_CONNECTION.

Definition update_reason_int (c : update_reason_code) : Z :=
  match c with
  | UPDATE_CONNECTION_OK => 0
  | UPDATE_FAILED_ATTEMPT => 1
  | UPDATE_USER_DISCONNECT => 2
  | UPDATE_LOST_CONNECTION => 3
  end.

#[export] Instance update_reason_code_eq_dec : EqDecision update_reason_code.
Proof. solve_decision. Defined.

(** ** Structures *)

(** The station part of ESP-IDF's [wifi_config_t]: [ssid\[32\]], then
    [password\[64\]], then the fields the firmware only clears. *)
Record sta_config := StaConfig {
  sta_ssid : list Z;
  sta_password : list Z;
  sta_rest : list Z
}.

#[export] Instance sta_config_eq_dec : EqDecision sta_config.
Proof. solve_decision. Defined.

(** The memory a pointer to [sta.ssid] leads to. *)
Definition sta_memory (c : sta_config) : list Z := sta_ssid c ++ sta_password c ++ sta_rest c.

(** [memset (config, 0, sizeof (wifi_config_t))] *)
Definition sta_zero (c : sta_config) : sta_config :=
  StaConfig (replicate 32 0) (replicate 64 0) (replicate (length (sta_rest c)) 0).

(** [struct wifi_settings_t] as its bytes: ap_ssid\[32\] at 0, ap_pwd\[64\] at
    32, ap_channel at 96, ap_ssid_hidden at 97, ap_bandwidth (an int) at 100,
    sta_only at 104, sta_power_save (an int) at 108, sta_static_ip at 112 and
    sta_static_ip_config (three addresses) at 116. *)
Definition sizeof_wifi_settings : nat := 128.
Definition ws_ap_ssid : nat := 0.
Definition ws_ap_pwd : nat := 32.
Definition ws_ap_channel : nat := 96.
Definition ws_ap_ssid_hidden : nat := 97.
Definition ws_sta_static_ip : nat := 112.
Definition ws_sta_static_ip_config : nat := 116.

(** [struct registration_info_t] as its bytes: name\[64\], email\[254\],
    mac\[12\], hidden. *)
Definition sizeof_registration_info : nat := 331.
Definition ri_name : nat := 0.
Definition ri_email : nat := 64.
Definition ri_mac : nat := 318.
Definition ri_hidden : nat := 330.

(** The static variables; a pointer that may be NULL is an [option]. *)
Record wm := Wm {
  json_mutex : bool;                       (* wifi_manager_json_mutex != NULL *)
  ap_num : Z;
  accessp_records : list wifi_ap_record;
  accessp_json : option (list Z);
  ip_info_json : option (list Z);
  reg_info_json : option (list Z);
  config_sta : option sta_config;          (* wifi_manager_config_sta *)
  wifi_settings : list Z;
  reg_info : list Z
}.

Definition set_json_mutex (b : bool) (s : wm) : wm :=
  Wm b (ap_num s) (accessp_records s) (accessp_json s) (ip_info_json s) (reg_info_json s)
    (config_sta s) (wifi_settings s) (reg_info s).
Definition set_ap_num (n : Z) (s : wm) : wm :=
  Wm (json_mutex s) n (accessp_records s) (accessp_json s) (ip_info_json s) (reg_info_json s)
    (config_sta s) (wifi_settings s) (reg_info s).
Definition set_accessp_records (l : list wifi_ap_record) (s : wm) : wm :=
  Wm (json_mutex s) (ap_num s) l (accessp_json s) (ip_info_json s) (reg_info_json s)
    (config_sta s) (wifi_settings s) (reg_info s).
Definition set_accessp_json (b : option (list Z)) (s : wm) : wm :=
  Wm (json_mutex s) (ap_num s) (accessp_records s) b (ip_info_json s) (reg_info_json s)
    (config_sta s) (wifi_settings s) (reg_info s).
Definition set_ip_info_json (b : option (list Z)) (s : wm) : wm :=
  Wm (json_mutex s) (ap_num s) (accessp_records s) (accessp_json s) b (reg_info_json s)
    (config_sta s) (wifi_settings s) (reg_info s).
Definition set_reg_info_json (b : option (list Z)) (s : wm) : wm :=
  Wm (json_mutex s) (ap_num s) (accessp_records s) (accessp_json s) (ip_info_json s) b
    (config_sta s) (wifi_settings s) (reg_info s).
Definition set_config_sta (c : option sta_config) (s : wm) : wm :=
  Wm (json_mutex s) (ap_num s) (accessp_records s) (accessp_json s) (ip_info_json s)
    (reg_info_json s) c (wifi_settings s) (reg_info s).
Definition set_wifi_settings (b : list Z) (s : wm) : wm :=
  Wm (json_mutex s) (ap_num s) (accessp_records s) (accessp_json s) (ip_info_json s)
    (reg_info_json s) (config_sta s) b (reg_info s).
Definition set_reg_info (b : list Z) (s : wm) : wm :=
  Wm (json_mutex s) (ap_num s) (accessp_records s) (accessp_json s) (ip_info_json s)
    (reg_info_json s) (config_sta s) (wifi_settings s) b.

Abbreviation wprog := (cprog wm).

(** Operations on a buffer behind a pointer: NULL or out of bounds is
    undefined. *)
Definition on_accessp_json (f : list Z -> option (list Z)) (s : wm) : option wm :=
  b ← accessp_json s; b ← f b; Some (set_accessp_json (Some b) s).
Definition on_ip_info_json (f : list Z -> option (list Z)) (s : wm) : option wm :=
  b ← ip_info_json s; b ← f b; Some (set_ip_info_json (Some b) s).
Definition on_reg_info_json (f : list Z -> option (list Z)) (s : wm) : option wm :=
  b ← reg_info_json s; b ← f b; Some (set_reg_info_json (Some b) s).
Definition on_reg_info (f : list Z -> option (list Z)) (s : wm) : option wm :=
  b ← f (reg_info s); Some (set_reg_info b s).
Definition on_wifi_settings (f : list Z -> option (list Z)) (s : wm) : option wm :=
  b ← f (wifi_settings s); Some (set_wifi_settings b s).

(** The variables as the linker lays them out: buffers of their declared or
    allocated size. *)
Record wm_ok (s : wm) : Prop := {
  ok_records : length (accessp_records s) = MAX_AP_NUM;
  ok_settings : length (wifi_settings s) = sizeof_wifi_settings;
  ok_reg_info : length (reg_info s) = sizeof_registration_info;
  ok_ap_json b : accessp_json s = Some b -> length b = (MAX_AP_NUM * JSON_ONE_APP_SIZE + 4)%nat;
  ok_ip_json b : ip_info_json s = Some b -> length b = JSON_IP_INFO_SIZE;
  ok_reg_json b : reg_info_json s = Some b -> length b = JSON_REG_INFO_SIZE;
  ok_config c : config_sta s = Some c ->
    length (sta_ssid c) = 32%nat /\ length (sta_password c) = 64%nat
}.

(** ** A concrete state

    The variables after [wifi_manager] allocated them, with the network [ssid]
    and the registration of [name] and [email], padded with zeros. *)
Definition field (n : nat) (s : list Z) : list Z := s ++ replicate (n - length s) 0.

Definition demo_wm (ssid password name email : list Z) : wm :=
  Wm true 0 (replicate MAX_AP_NUM ap_zero) (Some (replicate (MAX_AP_NUM * JSON_ONE_APP_SIZE + 4) 0))
    (Some (replicate JSON_IP_INFO_SIZE 0)) (Some (replicate JSON_REG_INFO_SIZE 0))
    (Some (StaConfig (field 32 ssid) (field 64 password) (replicate 40 0)))
    (replicate sizeof_wifi_settings 0)
    (field 64 name ++ field 254 email ++ replicate 13 0).

Lemma field_length n s : (length s <= n)%nat -> length (field n s) = n.
Proof. intros. unfold field. rewrite length_app, length_replicate. lia. Qed.

Lemma demo_wm_ok ssid password name email :
  (length ssid <= 32)%nat -> (length password <= 64)%nat -> (length name <= 64)%nat ->
  (length email <= 254)%nat -> wm_ok (demo_wm ssid password name email).
Proof.
  intros. split; cbn; try (by intros ? [= <-]); try done.
  - change (length (field 64 name ++ field 254 email ++ replicate 13 0) = 331%nat).
    by rewrite !length_app, !field_length, length_replicate by done.
  - intros c [= <-]. cbn. by rewrite !field_length.
Qed.
