(* ===== verification/WifiJson.v ===== *)
(** * The JSON documents of wifi_manager.c

    Status, registration and access-point list: the functions that print them
    into the shared buffers, the text they print and the room it needs. *)

From S2P Require Import Prelude CMem Printf Json WifiScan WifiState.

Local Open Scope Z_scope.

(** ** The lock of the buffers *)

Definition wifi_manager_lock_json_buffer (xTicksToWait : option Z) : wprog bool :=
  created ← get json_mutex;
  if created : bool then
    a ← call (xSemaphoreTake JSON_MUTEX xTicksToWait);
    mret (Z.eqb (a_ret a) pdTRUE)
  else mret false.

Definition wifi_manager_unlock_json_buffer : wprog unit := call_ (xSemaphoreGive JSON_MUTEX).

(** ** The documents *)

Definition wifi_manager_clear_reg_info_json : wprog unit :=
  update (on_reg_info_json (fun b => strcpy b 0 (lit "{}\n"))).
Definition wifi_manager_clear_ip_info_json : wprog unit :=
  update (on_ip_info_json (fun b => strcpy b 0 (lit "{}\n"))).
Definition wifi_manager_clear_access_points_json : wprog unit :=
  update (on_accessp_json (fun b => strcpy b 0 (lit "[]\n"))).

(** [json_print_string (input, buf + strlen (buf))] *)
Definition json_append (input : list Z) (b : list Z) : option (list Z) :=
  n ← strlen b;
  '(_, b) ← json_print_string (Some input) (Some b) n;
  b.

Definition mac_text (mac : list Z) : list Z :=
  let x i := pad0 2 (fmt_X (mac !!! i)) in
  x 0%nat ++ lit ":" ++ x 1%nat ++ lit ":" ++ x 2%nat ++ lit ":" ++ x 3%nat ++ lit ":"
  ++ x 4%nat ++ lit ":" ++ x 5%nat.

Definition map_visibility_text (hidden : Z) : list Z :=
  lit ",'mapVisibility':" ++ fmt_d (if Z.eqb hidden 0 then 1 else 0).
Definition mac_address_text (mac : list Z) : list Z :=
  lit ",'macAddress':'" ++ mac_text mac ++ lit "'}".

Definition wifi_manager_generate_reg_info_json : wprog unit :=
  update (on_reg_info_json (fun b => memset b 0 0 JSON_REG_INFO_SIZE));;
  update (on_reg_info_json (fun b => strcat b (lit "{'name':")));;
  r ← get reg_info;
  update (on_reg_info_json (json_append (drop ri_name r)));;
  update (on_reg_info_json (fun b => strcat b (lit ",'email':")));;
  r ← get reg_info;
  update (on_reg_info_json (json_append (drop ri_email r)));;
  json ← get reg_info_json;
  len ← try (b ← json; strlen b);
  r ← get reg_info;
  hidden ← try (r !! ri_hidden);
  update (on_reg_info_json (fun b => strcpy b len (map_visibility_text hidden)));;
  let len := (len + length (map_visibility_text hidden))%nat in
  a ← call esp_efuse_mac_get_default;
  update (on_reg_info_json (fun b => strcpy b len (mac_address_text (a_bytes a)))).

(** [ip_info_json_format] with its arguments *)
Definition ip_info_text (ip netmask gw : list Z) (code : Z) : list Z :=
  lit ",'ip':'" ++ ip ++ lit "','netmask':'" ++ netmask ++ lit "','gw':'" ++ gw
  ++ lit "','urc':" ++ fmt_d code ++ lit "}\n".

(** [snprintf (buf + strlen (buf), JSON_IP_INFO_SIZE, ...)] *)
Definition ip_info_append (text b : list Z) : option (list Z) :=
  n ← strlen b; snprintf b n JSON_IP_INFO_SIZE text.

(** IP4ADDR_STRLEN_MAX of lwIP: the size of the local [ip], [gw], [netmask]. *)
Definition IP4ADDR_STRLEN_MAX : nat := 16.

(** [strcpy (local, ip4addr_ntoa (addr))]: what the local array then holds. *)
Definition ntoa_local (addr : list Z) : wprog (list Z) :=
  a ← call (ip4addr_ntoa addr);
  try (b ← strcpy (replicate IP4ADDR_STRLEN_MAX 0) 0 (a_bytes a); cstr b).

Definition wifi_manager_generate_ip_info_json (update_reason_code : update_reason_code)
    : wprog unit :=
  config ← get config_sta;
  if config is Some _ then
    update (on_ip_info_json (fun b => memset b 0 0 JSON_IP_INFO_SIZE));;
    update (on_ip_info_json (fun b => strcpy b 0 (lit "{'ssid':")));;
    update (fun s => c ← config_sta s; on_ip_info_json (json_append (sta_memory c)) s);;
    if decide (update_reason_code = UPDATE_CONNECTION_OK) then
      info ← esp_error_check tcpip_adapter_get_ip_info;
      let ip_info := a_bytes info in
      ip ← ntoa_local (take 4 ip_info);
      netmask ← ntoa_local (take 4 (drop 4 ip_info));
      gw ← ntoa_local (take 4 (drop 8 ip_info));
      update (on_ip_info_json (ip_info_append
        (ip_info_text ip netmask gw (update_reason_int update_reason_code))))
    else
      update (on_ip_info_json (ip_info_append
        (ip_info_text (lit "0") (lit "0") (lit "0") (update_reason_int update_reason_code))))
  else wifi_manager_clear_ip_info_json.

(** [oneap_str] with its arguments *)
Definition one_ap_text (ap : wifi_ap_record) (last : bool) : list Z :=
  lit ",'chan':" ++ fmt_d (ap_primary ap) ++ lit ",'rssi':" ++ fmt_d (ap_rssi ap)
  ++ lit ",'auth':" ++ fmt_d (ap_authmode ap) ++ lit "}" ++ [if last then 93 else 44] ++ lit "\n".

(** The body of the loop over the records, on the buffer. *)
Definition ap_json_body (ap : wifi_ap_record) (last : bool) (b : list Z) : option (list Z) :=
  b ← strcat b (lit "{'ssid':");
  b ← json_append (ap_ssid ap ++ [0]) b;
  one_ap ← snprintf (replicate JSON_ONE_APP_SIZE 0) 0 JSON_ONE_APP_SIZE (one_ap_text ap last);
  one_ap ← cstr one_ap;
  strcat b one_ap.

(** [for (int i = 0; i < ap_num; i++)], from [i] on, [k] rounds. *)
Fixpoint ap_json_loop (records : list wifi_ap_record) (ap_num : Z) (k i : nat) (b : list Z)
    : option (list Z) :=
  match k with
  | O => Some b
  | S k =>
      ap ← records !! i;
      b ← ap_json_body ap (Z.eqb (Z.of_nat i) (ap_num - 1)) b;
      ap_json_loop records ap_num k (i + 1) b
  end.

Definition access_points_json (records : list wifi_ap_record) (ap_num : Z) (b : list Z)
    : option (list Z) :=
  b ← strcpy b 0 (lit "[");
  ap_json_loop records ap_num (Z.to_nat ap_num) 0 b.

Definition wifi_manager_generate_acess_points_json : wprog unit :=
  update (fun s => on_accessp_json (access_points_json (accessp_records s) (ap_num s)) s).

Definition wifi_manager_get_ap_list_json : wprog (option (list Z)) := get accessp_json.
Definition wifi_manager_get_ip_info_json : wprog (option (list Z)) := get ip_info_json.
Definition wifi_manager_get_reg_info_json : wprog (option (list Z)) := get reg_info_json.
Definition wifi_manager_get_wifi_sta_config : wprog (option sta_config) := get config_sta.

(** [wifi_manager_json_status_update] *)
Definition wifi_manager_json_status_update (statusCode : update_reason_code) : wprog unit :=
  locked ← wifi_manager_lock_json_buffer None;
  if locked : bool then
    wifi_manager_generate_ip_info_json statusCode;;
    wifi_manager_unlock_json_buffer
  else Stop Abort.

(** ** The texts printed *)

Definition reg_info_text (name email : list Z) (hidden : Z) (mac : list Z) : list Z :=
  lit "{'name':" ++ json_string name ++ lit ",'email':" ++ json_string email
  ++ map_visibility_text hidden ++ mac_address_text mac.

Definition status_text (ssid ip netmask gw : list Z) (code : Z) : list Z :=
  lit "{'ssid':" ++ json_string ssid ++ ip_info_text ip netmask gw code.

Definition ap_text (ap : wifi_ap_record) (last : bool) : list Z :=
  lit "{'ssid':" ++ json_string (ap_ssid ap) ++ one_ap_text ap last.

(** The entries of the list; the last one closes it. *)
Fixpoint ap_entries_text (aps : list wifi_ap_record) : list Z :=
  match aps with
  | [] => []
  | [ap] => ap_text ap true
  | ap :: aps' => ap_text ap false ++ ap_entries_text aps'
  end.

Definition ap_list_text (aps : list wifi_ap_record) : list Z := lit "[" ++ ap_entries_text aps.

(** ** Appending a JSON string *)

Lemma json_append_strcat input s b :
  cstr input = Some s -> Forall is_byte s -> json_append input b = strcat b (json_string s).
Proof.
  intros Hi Hs. apply cstr_inv in Hi as [Hn [r ->]].
  unfold json_append, strcat. destruct (strlen b) as [n|]; cbn [mbind option_bind]; [|done].
  rewrite json_print_string_write by done. unfold strcpy.
  by destruct (write b n (json_string s ++ [0])).
Qed.

(** Numbers contain no NUL. *)
Lemma nonzero_fmt_d n : nonzero (fmt_d n).
Proof. eapply Forall_impl; [apply fmt_d_chars|]. simpl. lia. Qed.

Lemma nonzero_fmt_X n : nonzero (fmt_X n).
Proof.
  unfold fmt_X. apply Forall_fmap. eapply Forall_impl; [apply (udigits_bounds 16); lia|].
  intros d Hd. cbn. pose proof (digit_char_byte true d Hd). lia.
Qed.

#[export] Hint Resolve nonzero_fmt_d json_string_nonzero : airu.

Lemma one_ap_text_nonzero ap last : nonzero (one_ap_text ap last).
Proof. unfold one_ap_text. destruct last; auto 20 with airu. Qed.

Lemma map_visibility_text_nonzero h : nonzero (map_visibility_text h).
Proof. unfold map_visibility_text. auto with airu. Qed.

Lemma ip_info_text_nonzero ip netmask gw c :
  nonzero ip -> nonzero netmask -> nonzero gw -> nonzero (ip_info_text ip netmask gw c).
Proof. intros. unfold ip_info_text. auto 20 with airu. Qed.

#[export] Hint Resolve one_ap_text_nonzero map_visibility_text_nonzero ip_info_text_nonzero : airu.

(** The room an entry takes beside its name. *)
Definition ap_ok (ap : wifi_ap_record) : Prop :=
  nonzero (ap_ssid ap) /\ Forall is_byte (ap_ssid ap) /\
  0 <= ap_primary ap < 256 /\ -128 <= ap_rssi ap < 128 /\ 0 <= ap_authmode ap < 256.

(** The networks of a scan are networks. *)
Lemma unique_aps_ok k l : Forall ap_ok l -> Forall ap_ok (unique_aps k l).
Proof.
  intros Hl. apply Forall_forall. intros x Hx. apply unique_aps_sound in Hx as (_ & a & b & Ha & Hb & _ & ->).
  rewrite Forall_forall in Hl. destruct (Hl a Ha) as (? & ? & ? & _ & ?). destruct (Hl b Hb) as (_ & _ & _ & ? & _).
  unfold ap_ok. cbn [ap_ssid ap_primary ap_rssi ap_authmode ap_set_rssi]. tauto.
Qed.

Lemma one_ap_text_length ap last :
  ap_ok ap -> (length (one_ap_text ap last) <= 37)%nat.
Proof.
  intros (_ & _ & Hp & Hr & Ha). unfold one_ap_text. rewrite !length_app.
  pose proof (fmt_u_length (ap_primary ap) 3 ltac:(lia) ltac:(simpl; lia)) as H1.
  pose proof (fmt_d_length (ap_rssi ap) 3 ltac:(lia) ltac:(simpl; lia)) as H2.
  pose proof (fmt_u_length (ap_authmode ap) 3 ltac:(lia) ltac:(simpl; lia)) as H3.
  unfold fmt_d at 1 3.
  rewrite (proj2 (Z.ltb_ge (ap_primary ap) 0)), (proj2 (Z.ltb_ge (ap_authmode ap) 0)) by lia.
  lit_len. cbn [length]. lia.
Qed.

(** One round of the loop appends the entry. *)
Lemma ap_json_body_strcat ap last b p :
  ap_ok ap -> cstr b = Some p -> ap_json_body ap last b = strcat b (ap_text ap last).
Proof.
  intros Hok Hb. pose proof Hok as (Hn & Hs & _).
  unfold ap_json_body, ap_text.
  assert (snprintf (replicate JSON_ONE_APP_SIZE 0) 0 JSON_ONE_APP_SIZE (one_ap_text ap last)
          = strcpy (replicate JSON_ONE_APP_SIZE 0) 0 (one_ap_text ap last)) as ->.
  { apply snprintf_fits. pose proof (one_ap_text_length ap last Hok).
    unfold JSON_ONE_APP_SIZE. lia. }
  destruct (strcpy (replicate JSON_ONE_APP_SIZE 0) 0 (one_ap_text ap last)) as [o|] eqn:Eo.
  2: { apply strcpy_none in Eo. rewrite length_replicate in Eo.
       pose proof (one_ap_text_length ap last Hok). unfold JSON_ONE_APP_SIZE in *. lia. }
  apply strcpy_cstr in Eo; [|auto with airu].
  rewrite <- (strcat_strcat b p) by auto with airu.
  destruct (strcat b (lit "{'ssid':")) as [b1|] eqn:E1; cbn [mbind option_bind]; [|done].
  assert (cstr b1 = Some (p ++ lit "{'ssid':")) as Hb1.
  { eapply strcat_cstr; [exact Hb| |exact E1]. auto with airu. }
  rewrite (json_append_strcat _ (ap_ssid ap)); [|by apply cstr_app|done].
  rewrite <- (strcat_strcat b1 _ _ _ Hb1) by auto with airu.
  destruct (strcat b1 _) as [b2|]; cbn [mbind option_bind]; [|done].
  by rewrite Eo.
Qed.

Lemma ap_text_nonzero ap last : ap_ok ap -> nonzero (ap_text ap last).
Proof. intros (_ & Hs & _). unfold ap_text. auto with airu. Qed.

Lemma ap_entries_text_cons ap ap' aps :
  ap_entries_text (ap :: ap' :: aps) = ap_text ap false ++ ap_entries_text (ap' :: aps).
Proof. done. Qed.

Lemma ap_json_loop_strcat records n aps rest k i b p :
  drop i records = aps ++ rest -> length aps = k -> n = Z.of_nat (i + k) ->
  Forall ap_ok aps -> cstr b = Some p ->
  ap_json_loop records n k i b = strcat b (ap_entries_text aps).
Proof.
  revert i b p aps. induction k as [|k IH]; intros i b p aps Hd Hk Hn Hok Hb.
  - destruct aps; [|done]. symmetry. by eapply strcat_nil.
  - destruct aps as [|ap aps]; [done|]. simpl in Hk. injection Hk as Hk.
    inversion Hok as [|? ? Ha Hok']; subst x l. cbn [ap_json_loop].
    assert (records !! i = Some ap) as ->.
    { rewrite <- (Nat.add_0_r i), <- lookup_drop, Hd. done. }
    cbn [mbind option_bind]. rewrite (ap_json_body_strcat ap _ b p) by done.
    assert (drop (i + 1) records = aps ++ rest) as Hd'.
    { rewrite <- drop_drop, Hd. done. }
    destruct aps as [|ap' aps].
    + simpl in Hk. subst k.
      assert (Z.eqb (Z.of_nat i) (n - 1) = true) as -> by (apply Z.eqb_eq; lia).
      cbn [ap_json_loop ap_entries_text]. by destruct (strcat b _).
    + rewrite ap_entries_text_cons, <- (strcat_strcat b p) by (done || by apply ap_text_nonzero).
      assert (Z.eqb (Z.of_nat i) (n - 1) = false) as -> by (simpl in Hk; apply Z.eqb_neq; lia).
      destruct (strcat b (ap_text ap false)) as [b1|] eqn:E; cbn [mbind option_bind]; [|done].
      eapply IH; [done..|lia|done|]. eapply strcat_cstr; [exact Hb| |exact E].
      by apply ap_text_nonzero.
Qed.

Lemma access_points_json_strcpy records n b :
  (n <= length records)%nat -> Forall ap_ok (take n records) ->
  access_points_json records (Z.of_nat n) b = strcpy b 0 (ap_list_text (take n records)).
Proof.
  intros Hn Hok. unfold access_points_json, ap_list_text. rewrite Nat2Z.id.
  rewrite <- strcpy_strcat by auto with airu.
  destruct (strcpy b 0 (lit "[")) as [b1|] eqn:E; cbn [mbind option_bind]; [|done].
  eapply (ap_json_loop_strcat _ _ _ (drop n records)).
  - by rewrite drop_0, take_drop.
  - rewrite length_take. lia.
  - done.
  - done.
  - eapply strcpy_cstr; [|exact E]. auto with airu.
Qed.

Lemma ap_list_text_nonzero aps : Forall ap_ok aps -> nonzero (ap_list_text aps).
Proof.
  intros Hok. unfold ap_list_text. apply nonzero_app; [auto with airu|].
  induction Hok as [|ap aps Ha Hok IH]; [constructor|].
  destruct aps; [by apply ap_text_nonzero|]. rewrite ap_entries_text_cons.
  apply nonzero_app; [by apply ap_text_nonzero|done].
Qed.

Lemma ap_entries_text_length aps m :
  Forall (fun ap => ap_ok ap /\ (length (json_escape (ap_ssid ap)) <= m)%nat) aps ->
  (length (ap_entries_text aps) <= length aps * (m + 47))%nat.
Proof.
  assert (forall ap last, ap_ok ap -> (length (json_escape (ap_ssid ap)) <= m)%nat ->
    (length (ap_text ap last) <= m + 47)%nat) as H1.
  { intros ap last Hok Hm. unfold ap_text. rewrite !length_app, json_string_length.
    pose proof (one_ap_text_length ap last Hok). lit_len. lia. }
  induction 1 as [|ap aps [Hok Hm] _ IH]; [simpl; lia|].
  destruct aps as [|ap' aps].
  - pose proof (H1 ap true Hok Hm). cbn [ap_entries_text length]. lia.
  - rewrite ap_entries_text_cons, length_app. pose proof (H1 ap false Hok Hm).
    cbn [length] in *. lia.
Qed.

(** ** The status document *)

Lemma snprintf_ip_info b p text :
  cstr b = Some p -> (length text < JSON_IP_INFO_SIZE)%nat ->
  ip_info_append text b = strcat b text.
Proof.
  intros Hb Ht. unfold ip_info_append, strlen. rewrite Hb. cbn [fmap option_fmap option_map mbind option_bind].
  rewrite snprintf_fits by done. by rewrite (strcat_at b p).
Qed.

Lemma ip_info_text_length ip netmask gw c :
  (length ip <= 15)%nat -> (length netmask <= 15)%nat -> (length gw <= 15)%nat ->
  (length (ip_info_text ip netmask gw (update_reason_int c)) <= 84)%nat.
Proof.
  intros. unfold ip_info_text. rewrite !length_app. lit_len.
  assert (length (fmt_d (update_reason_int c)) = 1%nat) as -> by by destruct c. lia.
Qed.

Lemma memset_all b n : length b = n -> memset b 0 0 n = Some (replicate n 0).
Proof.
  intros Hn. unfold memset. rewrite write_some by (rewrite length_replicate; lia).
  rewrite length_replicate. cbn. by rewrite drop_ge, app_nil_r by lia.
Qed.

(** The buffer after the start of the document, the SSID and the rest. *)
Lemma status_buffer n c ssid rest :
  cstr (sta_memory c) = Some ssid -> Forall is_byte ssid ->
  (length rest < JSON_IP_INFO_SIZE)%nat ->
  (b ← strcpy (replicate n 0) 0 (lit "{'ssid':");
   b ← json_append (sta_memory c) b;
   ip_info_append rest b)
  = strcpy (replicate n 0) 0 (lit "{'ssid':" ++ json_string ssid ++ rest).
Proof.
  intros Hc Hs Hr. rewrite <- strcpy_strcat by auto with airu.
  destruct (strcpy (replicate n 0) 0 (lit "{'ssid':")) as [b|] eqn:E;
    cbn [mbind option_bind]; [|done].
  apply strcpy_cstr in E; [|auto with airu].
  rewrite (json_append_strcat _ ssid) by done.
  rewrite <- (strcat_strcat b _ _ rest E) by auto with airu.
  destruct (strcat b (json_string ssid)) as [b1|] eqn:E1; cbn [mbind option_bind]; [|done].
  eapply snprintf_ip_info; [|done]. eapply strcat_cstr; [exact E| |exact E1]. auto with airu.
Qed.

Lemma on_ip_info_json_set f b s :
  on_ip_info_json f (set_ip_info_json (Some b) s)
  = (b1 ← f b; Some (set_ip_info_json (Some b1) s)).
Proof. unfold on_ip_info_json. cbn. by destruct (f b). Qed.

Lemma on_ip_info_json_at f b s :
  ip_info_json s = Some b ->
  on_ip_info_json f s = (b1 ← f b; Some (set_ip_info_json (Some b1) s)).
Proof. intros Hb. unfold on_ip_info_json. by rewrite Hb. Qed.

Lemma on_reg_info_json_set f b s :
  on_reg_info_json f (set_reg_info_json (Some b) s)
  = (b1 ← f b; Some (set_reg_info_json (Some b1) s)).
Proof. unfold on_reg_info_json. cbn. by destruct (f b). Qed.

Lemma on_reg_info_json_at f b s :
  reg_info_json s = Some b ->
  on_reg_info_json f s = (b1 ← f b; Some (set_reg_info_json (Some b1) s)).
Proof. intros Hb. unfold on_reg_info_json. by rewrite Hb. Qed.

Lemma ntoa_local_run addr ip s a ans :
  nonzero ip -> (length ip < IP4ADDR_STRLEN_MAX)%nat -> a_bytes a = ip ->
  run (ntoa_local addr) s (a :: ans) = ([(ip4addr_ntoa addr, a)], Done ip, s).
Proof.
  intros Hn Hl Ha. unfold ntoa_local. prog_simpl. rewrite Ha.
  destruct (strcpy (replicate IP4ADDR_STRLEN_MAX 0) 0 ip) as [b|] eqn:E.
  - cbn [mbind option_bind]. rewrite (strcpy_cstr _ _ _ Hn E). done.
  - apply strcpy_none in E. rewrite length_replicate in E. lia.
Qed.

(** The document being built: the buffer holds the text up to the SSID, or the
    run has already left the buffer. *)
Definition status_start (s : wm) (c : sta_config) : option wm :=
  b ← strcpy (replicate JSON_IP_INFO_SIZE 0) 0 (lit "{'ssid':");
  b ← json_append (sta_memory c) b;
  Some (set_ip_info_json (Some b) s).

Definition status_finish (s : wm) (c : sta_config) (text : list Z) : option wm :=
  s1 ← status_start s c; on_ip_info_json (ip_info_append text) s1.

Lemma status_finish_strcpy s c ssid text :
  cstr (sta_memory c) = Some ssid -> Forall is_byte ssid ->
  (length text < JSON_IP_INFO_SIZE)%nat ->
  status_finish s c text
  = (fun b => set_ip_info_json (Some b) s) <$>
    strcpy (replicate JSON_IP_INFO_SIZE 0) 0 (lit "{'ssid':" ++ json_string ssid ++ text).
Proof.
  intros Hc Hs Ht. rewrite <- (status_buffer _ c ssid text) by done.
  unfold status_finish, status_start.
  destruct (strcpy _ 0 (lit "{'ssid':")) as [b|]; cbn [mbind option_bind]; [|done].
  destruct (json_append _ b) as [b1|]; cbn [mbind option_bind]; [|done].
  rewrite on_ip_info_json_set. by destruct (ip_info_append text b1).
Qed.

(** ** Theorems *)

(** The room the buffer offers decides between the document and a store
    outside of it. *)
Lemma status_finish_cases s c ssid text :
  cstr (sta_memory c) = Some ssid -> Forall is_byte ssid -> nonzero text ->
  (length text < JSON_IP_INFO_SIZE)%nat ->
  let doc := lit "{'ssid':" ++ json_string ssid ++ text in
  ((length doc < JSON_IP_INFO_SIZE)%nat ->
    exists b', status_finish s c text = Some (set_ip_info_json (Some b') s) /\
               cstr b' = Some doc) /\
  ((JSON_IP_INFO_SIZE <= length doc)%nat -> status_finish s c text = None).
Proof.
  intros Hc Hs Hn Ht doc. rewrite (status_finish_strcpy s c ssid) by done. fold doc. split.
  - intros Hl. destruct (strcpy _ 0 doc) as [b'|] eqn:E.
    + exists b'. split; [done|]. eapply strcpy_cstr; [|exact E]. unfold doc. auto with airu.
    + apply strcpy_none in E. rewrite length_replicate in E. lia.
  - intros Hl. rewrite (proj2 (strcpy_none _ _ _)); [done|]. rewrite length_replicate. lia.
Qed.

(** Without a connection the function is the pure update [status_finish]. *)
Lemma generate_ip_info_json_fail_run s b c code :
  ip_info_json s = Some b -> length b = JSON_IP_INFO_SIZE -> config_sta s = Some c ->
  code <> UPDATE_CONNECTION_OK ->
  exists s1, run (wifi_manager_generate_ip_info_json code) s [] =
    match status_finish s c (ip_info_text (lit "0") (lit "0") (lit "0") (update_reason_int code)) with
    | Some s2 => ([], Done tt, s2)
    | None => ([], Stopped UB, s1)
    end.
Proof.
  intros Hb Hl Hc Hcode. unfold wifi_manager_generate_ip_info_json, status_finish, status_start.
  prog_simpl. rewrite Hc. prog_simpl. rewrite (on_ip_info_json_at _ b) by done.
  rewrite memset_all by done. cbn [mbind option_bind]. rewrite on_ip_info_json_set.
  destruct (strcpy _ 0 (lit "{'ssid':")) as [b1|]; cbn [mbind option_bind]; [|by eexists].
  cbn [config_sta set_ip_info_json]. rewrite Hc. cbn [mbind option_bind].
  change (Wm _ _ _ _ _ _ _ _ _) with (set_ip_info_json (Some b1) s).
  rewrite on_ip_info_json_set.
  destruct (json_append _ b1) as [b2|]; cbn [mbind option_bind]; [|by eexists].
  rewrite decide_False by done. prog_simpl. rewrite !on_ip_info_json_set.
  destruct (ip_info_append _ b2) as [b3|]; cbn [mbind option_bind]; by eexists.
Qed.

Lemma generate_ip_info_json_ok_run s b c info ip netmask gw :
  ip_info_json s = Some b -> length b = JSON_IP_INFO_SIZE -> config_sta s = Some c ->
  nonzero ip -> nonzero netmask -> nonzero gw ->
  (length ip <= 15)%nat -> (length netmask <= 15)%nat -> (length gw <= 15)%nat ->
  exists tr s1,
  run (wifi_manager_generate_ip_info_json UPDATE_CONNECTION_OK) s
    [ret_bytes ESP_OK info; ret_bytes 0 ip; ret_bytes 0 netmask; ret_bytes 0 gw] =
    match status_finish s c (ip_info_text ip netmask gw 0) with
    | Some s2 => (tr, Done tt, s2)
    | None => (tr, Stopped UB, s1)
    end.
Proof.
  intros Hb Hl Hc Hni Hnn Hng Hli Hln Hlg.
  unfold wifi_manager_generate_ip_info_json, status_finish, status_start.
  prog_simpl. rewrite Hc. prog_simpl. rewrite (on_ip_info_json_at _ b) by done.
  rewrite memset_all by done. cbn [mbind option_bind]. rewrite on_ip_info_json_set.
  destruct (strcpy _ 0 (lit "{'ssid':")) as [b1|]; cbn [mbind option_bind]; [|by do 2 eexists].
  cbn [config_sta set_ip_info_json]. rewrite Hc. cbn [mbind option_bind].
  change (Wm _ _ _ _ _ _ _ _ _) with (set_ip_info_json (Some b1) s).
  rewrite on_ip_info_json_set.
  destruct (json_append _ b1) as [b2|]; cbn [mbind option_bind]; [|by do 2 eexists].
  rewrite decide_True by done. unfold esp_error_check. prog_simpl. cbn [a_ret ret_bytes].
  change (ESP_OK =? ESP_OK) with true. cbn [bind a_bytes ret_bytes].
  unfold ntoa_local. prog_simpl. cbn [a_bytes ret_bytes].
  assert (forall t, nonzero t -> (length t <= 15)%nat ->
    (b0 ← strcpy (replicate IP4ADDR_STRLEN_MAX 0) 0 t; cstr b0) = Some t) as Hloc.
  { intros t Hn Ht. destruct (strcpy (replicate IP4ADDR_STRLEN_MAX 0) 0 t) as [b0|] eqn:E.
    - cbn [mbind option_bind]. by eapply strcpy_cstr.
    - apply strcpy_none in E. rewrite length_replicate in E. unfold IP4ADDR_STRLEN_MAX in E. lia. }
  rewrite (Hloc ip) by done. cbn [bind run try update a_bytes ret_bytes].
  rewrite (Hloc netmask) by done. cbn [bind run try update a_bytes ret_bytes].
  rewrite (Hloc gw) by done. cbn [bind run try update update_reason_int]. rewrite !on_ip_info_json_set.
  destruct (ip_info_append _ b2) as [b3|]; cbn [mbind option_bind]; by do 2 eexists.
Qed.

(** ** The registration document *)

Lemma mac_text_nonzero mac : Forall is_byte mac -> nonzero (mac_text mac).
Proof.
  intros Hm. assert (forall i, nonzero (pad0 2 (fmt_X (mac !!! i)))) as H.
  { intros i. unfold pad0. apply nonzero_app.
    - apply Forall_forall. intros c Hc. apply elem_of_replicate in Hc as [-> _]. lia.
    - apply nonzero_fmt_X. }
  unfold mac_text. auto 20 with airu.
Qed.

Lemma mac_address_text_nonzero mac : Forall is_byte mac -> nonzero (mac_address_text mac).
Proof. intros Hm. pose proof (mac_text_nonzero mac Hm). unfold mac_address_text. auto with airu. Qed.

(** [len] of the source is where [strcat] would append. *)
Lemma reg_info_tail b p hidden mac :
  cstr b = Some p -> Forall is_byte mac ->
  (b ← strcpy b (length p) (map_visibility_text hidden);
   strcpy b (length p + length (map_visibility_text hidden))%nat (mac_address_text mac))
  = strcat b (map_visibility_text hidden ++ mac_address_text mac).
Proof.
  intros Hb Hm. rewrite <- (strcat_strcat b p) by auto using mac_address_text_nonzero with airu.
  rewrite (strcat_at b p) by done.
  destruct (strcpy b (length p) (map_visibility_text hidden)) as [b1|] eqn:E;
    cbn [mbind option_bind]; [|done].
  rewrite <- strcat_at with (b := b) in E by done.
  eapply strcat_cstr in E; [|done|auto with airu].
  rewrite (strcat_at b1 _ _ E). by rewrite length_app.
Qed.

Lemma generate_reg_info_json_run s b name email hidden e mac :
  reg_info_json s = Some b -> length b = JSON_REG_INFO_SIZE ->
  cstr (drop ri_name (reg_info s)) = Some name -> Forall is_byte name ->
  cstr (drop ri_email (reg_info s)) = Some email -> Forall is_byte email ->
  reg_info s !! ri_hidden = Some hidden -> Forall is_byte mac ->
  exists tr s1, run wifi_manager_generate_reg_info_json s [ret_bytes e mac] =
    match strcpy (replicate JSON_REG_INFO_SIZE 0) 0 (reg_info_text name email hidden mac) with
    | Some b' => (tr, Done tt, set_reg_info_json (Some b') s)
    | None => (tr, Stopped UB, s1)
    end.
Proof.
  intros Hb Hl Hn Hnb He Heb Hh Hm. unfold wifi_manager_generate_reg_info_json, reg_info_text.
  prog_simpl. rewrite (on_reg_info_json_at _ b) by done.
  rewrite memset_all by done. cbn [mbind option_bind]. rewrite on_reg_info_json_set.
  rewrite (strcat_at (replicate _ 0) []) by done. cbn [length].
  rewrite <- strcpy_strcat by auto with airu.
  destruct (strcpy _ 0 (lit "{'name':")) as [b1|] eqn:E1; cbn [mbind option_bind]; [|by do 2 eexists].
  apply strcpy_cstr in E1; [|auto with airu].
  cbn [reg_info set_reg_info_json]. change (Wm _ _ _ _ _ _ _ _ _) with (set_reg_info_json (Some b1) s).
  rewrite on_reg_info_json_set, (json_append_strcat _ name), <- (strcat_strcat b1 _ _ _ E1)
    by auto with airu.
  destruct (strcat b1 _) as [b2|] eqn:E2; cbn [mbind option_bind]; [|by do 2 eexists].
  apply (strcat_cstr _ _ _ _ E1) in E2; [|auto with airu].
  rewrite on_reg_info_json_set, <- (strcat_strcat b2 _ _ _ E2) by auto with airu.
  destruct (strcat b2 _) as [b3|] eqn:E3; cbn [mbind option_bind]; [|by do 2 eexists].
  apply (strcat_cstr _ _ _ _ E2) in E3; [|auto with airu].
  cbn [reg_info set_reg_info_json]. change (Wm _ _ _ _ _ _ _ _ _) with (set_reg_info_json (Some b3) s).
  rewrite on_reg_info_json_set, (json_append_strcat _ email), <- (strcat_strcat b3 _ _ _ E3)
    by auto with airu.
  destruct (strcat b3 _) as [b4|] eqn:E4; cbn [mbind option_bind]; [|by do 2 eexists].
  apply (strcat_cstr _ _ _ _ E3) in E4; [|auto with airu].
  cbn [reg_info_json set_reg_info_json mbind option_bind]. unfold strlen. rewrite E4.
  cbn [fmap option_fmap option_map mbind option_bind try prog_bind bind run].
  cbn [reg_info set_reg_info_json]. rewrite Hh. cbn [mbind try prog_bind bind run].
  rewrite <- (reg_info_tail b4 _ hidden mac E4) by done. rewrite on_reg_info_json_set.
  destruct (strcpy b4 _ _) as [b5|]; cbn [mbind option_bind]; [|by do 2 eexists].
  cbn [run update a_bytes ret_bytes]. change (Wm _ _ _ _ _ _ _ _ _) with (set_reg_info_json (Some b5) s).
  rewrite on_reg_info_json_set. destruct (strcpy b5 _ _) as [b6|]; by do 2 eexists.
Qed.

(** ** Main theorems *)

(** [wifi_manager_generate_acess_points_json] prints exactly [ap_list_text] of
    the scanned records, when each is a record of the driver; printing leaves
    the buffer exactly when the text and its NUL do not fit. *)
Theorem access_points_json_correct records n b :
  (n <= length records)%nat -> Forall ap_ok (take n records) ->
  let text := ap_list_text (take n records) in
  ((length text < length b)%nat ->
     exists b', access_points_json records (Z.of_nat n) b = Some b' /\ cstr b' = Some text) /\
  ((length b <= length text)%nat -> access_points_json records (Z.of_nat n) b = None).
Proof.
  intros Hn Hok text. rewrite access_points_json_strcpy by done. fold text. split; intros Hl.
  - destruct (strcpy b 0 text) as [b'|] eqn:E; [|apply strcpy_none in E; lia].
    exists b'. split; [done|]. eapply strcpy_cstr; [|exact E].
    by apply ap_list_text_nonzero.
  - apply strcpy_none. lia.
Qed.

(** The allocated size is enough for any scan whose names take at most 52
    bytes once escaped (every plain 32-byte name does). *)
Theorem access_points_json_fits records n b :
  (n <= MAX_AP_NUM)%nat -> (n <= length records)%nat ->
  length b = (MAX_AP_NUM * JSON_ONE_APP_SIZE + 4)%nat ->
  Forall (fun ap => ap_ok ap /\ (length (json_escape (ap_ssid ap)) <= 52)%nat) (take n records) ->
  exists b', access_points_json records (Z.of_nat n) b = Some b'.
Proof.
  intros Hn Hr Hb Hok. rewrite access_points_json_strcpy; [|done|].
  2: { eapply Forall_impl; [exact Hok|]. by intros ap [? _]. }
  destruct (strcpy b 0 (ap_list_text (take n records))) as [b'|] eqn:E; [by eexists|].
  apply strcpy_none in E. exfalso.
  pose proof (ap_entries_text_length (take n records) 52 Hok) as HL.
  rewrite length_take in HL. unfold ap_list_text in E. rewrite length_app in E.
  change (length (lit "[")) with 1%nat in E.
  unfold MAX_AP_NUM, JSON_ONE_APP_SIZE in *. nia.
Qed.

(** Fifteen networks named by 31 quotes and a letter: legal names of 32 bytes. *)
Definition quoted_scan : list wifi_ap_record :=
  (fun k => ApRecord (replicate 31 34 ++ [65 + Z.of_nat k]) 11 (-60) 3 []) <$> seq 0 15.

(** They are fifteen different networks for the filter, and printing their
    list writes outside the buffer allocated for it, whatever it held: one
    entry can take 109 bytes, JSON_ONE_APP_SIZE allows for 99. *)
Theorem access_points_json_overflow b :
  length b = (MAX_AP_NUM * JSON_ONE_APP_SIZE + 4)%nat ->
  Forall (fun ap => length (ap_ssid ap) = MAX_SSID_SIZE) quoted_scan /\
  wifi_manager_filter_unique quoted_scan 15 = Some (quoted_scan, 15) /\
  access_points_json quoted_scan 15 b = None.
Proof.
  intros Hb. split; [by repeat constructor|]. split; [by vm_compute|].
  change 15 with (Z.of_nat 15). rewrite access_points_json_strcpy.
  - apply strcpy_none. rewrite Hb. vm_compute. lia.
  - vm_compute. lia.
  - apply Forall_forall. intros ap Hap. apply list_elem_of_In in Hap.
    vm_compute in Hap. unfold ap_ok.
    repeat (destruct Hap as [<-|Hap];
      [split; [by apply nonzero_const|split; [forall_list|simpl; lia]]|]). done.
Qed.

(** A scan that found nothing leaves the text "[", which is not JSON. *)
Theorem access_points_json_empty records b :
  (1 < length b)%nat ->
  exists b', access_points_json records 0 b = Some b' /\ cstr b' = Some (lit "[").
Proof.
  intros Hb. pose proof (access_points_json_strcpy records 0 b) as E.
  change (Z.of_nat 0) with 0 in E. rewrite E; [|lia|constructor].
  change (ap_list_text (take 0 records)) with (lit "[").
  destruct (strcpy b 0 (lit "[")) as [b'|] eqn:Es.
  - exists b'. split; [done|]. eapply strcpy_cstr; [|exact Es]. auto with airu.
  - apply strcpy_none in Es. change (length (lit "[")) with 1%nat in Es. lia.
Qed.

(** The status after a failed attempt, a lost connection or a user disconnect:
    [ip_info_json] holds the document with zero addresses when the document is
    shorter than the buffer, and printing leaves the buffer when it is not. *)
Theorem status_json_offline s b c ssid code :
  wm_ok s -> ip_info_json s = Some b -> config_sta s = Some c ->
  cstr (sta_memory c) = Some ssid -> Forall is_byte ssid -> code <> UPDATE_CONNECTION_OK ->
  let doc := status_text ssid (lit "0") (lit "0") (lit "0") (update_reason_int code) in
  let '(tr, o, s') := run (wifi_manager_generate_ip_info_json code) s [] in
  ((length doc < JSON_IP_INFO_SIZE)%nat ->
     o = Done tt /\ exists b', s' = set_ip_info_json (Some b') s /\ cstr b' = Some doc) /\
  ((JSON_IP_INFO_SIZE <= length doc)%nat -> o = Stopped UB).
Proof.
  intros Hok Hb Hc Hs Hbs Hcode doc.
  destruct (generate_ip_info_json_fail_run s b c code) as [s1 ->]; [done|by eapply ok_ip_json|done..|].
  destruct (status_finish_cases s c ssid (ip_info_text (lit "0") (lit "0") (lit "0")
    (update_reason_int code))) as [H1 H2]; [done..|auto 10 with airu| |].
  { pose proof (ip_info_text_length (lit "0") (lit "0") (lit "0") code).
    unfold JSON_IP_INFO_SIZE. change (length (lit "0")) with 1%nat in *. lia. }
  destruct (status_finish _ _ _) as [s2|] eqn:E.
  - split; [|intros Hl; by apply H2 in Hl]. intros Hl. split; [done|].
    apply H1 in Hl as (b' & [= ->] & ?). by exists b'.
  - split; [|done]. intros Hl. by apply H1 in Hl as (b' & ? & ?).
Qed.

(** The same once connected, with the addresses as the adapter and
    [ip4addr_ntoa] give them: at most 15 characters each. *)
Theorem status_json_online s b c ssid info ip netmask gw :
  wm_ok s -> ip_info_json s = Some b -> config_sta s = Some c ->
  cstr (sta_memory c) = Some ssid -> Forall is_byte ssid ->
  nonzero ip -> nonzero netmask -> nonzero gw ->
  (length ip <= 15)%nat -> (length netmask <= 15)%nat -> (length gw <= 15)%nat ->
  let doc := status_text ssid ip netmask gw 0 in
  let '(tr, o, s') := run (wifi_manager_generate_ip_info_json UPDATE_CONNECTION_OK) s
    [ret_bytes ESP_OK info; ret_bytes 0 ip; ret_bytes 0 netmask; ret_bytes 0 gw] in
  ((length doc < JSON_IP_INFO_SIZE)%nat ->
     o = Done tt /\ exists b', s' = set_ip_info_json (Some b') s /\ cstr b' = Some doc) /\
  ((JSON_IP_INFO_SIZE <= length doc)%nat -> o = Stopped UB).
Proof.
  intros Hok Hb Hc Hs Hbs Hn1 Hn2 Hn3 Hl1 Hl2 Hl3 doc.
  destruct (generate_ip_info_json_ok_run s b c info ip netmask gw) as (tr & s1 & ->);
    [done|by eapply ok_ip_json|done..|].
  destruct (status_finish_cases s c ssid (ip_info_text ip netmask gw 0))
    as [H1 H2]; [done..|auto 10 with airu| |].
  { pose proof (ip_info_text_length ip netmask gw UPDATE_CONNECTION_OK Hl1 Hl2 Hl3).
    unfold JSON_IP_INFO_SIZE. cbn [update_reason_int] in *. lia. }
  destruct (status_finish _ _ _) as [s2|] eqn:E.
  - split; [|intros Hl; by apply H2 in Hl]. intros Hl. split; [done|].
    apply H1 in Hl as (b' & [= ->] & ?). by exists b'.
  - split; [|done]. intros Hl. by apply H1 in Hl as (b' & ? & ?).
Qed.

(** A network name of 32 bytes fills [ssid] and leaves it without a NUL: the
    document names the network by the name followed by the password. *)
Theorem status_json_leaks_password s b c pw r code :
  wm_ok s -> ip_info_json s = Some b -> config_sta s = Some c ->
  nonzero (sta_ssid c) -> nonzero pw -> sta_password c = pw ++ 0 :: r ->
  Forall is_byte (sta_ssid c) -> Forall is_byte pw -> code <> UPDATE_CONNECTION_OK ->
  (length (json_escape (sta_ssid c)) + length (json_escape pw) < 91)%nat ->
  exists b' s', run (wifi_manager_generate_ip_info_json code) s [] = ([], Done tt, s') /\
    ip_info_json s' = Some b' /\
    cstr b' = Some (status_text (sta_ssid c ++ pw) (lit "0") (lit "0") (lit "0")
                      (update_reason_int code)).
Proof.
  intros Hok Hb Hc Hs Hpw Hp Hbs Hbp Hcode Hl.
  destruct (generate_ip_info_json_fail_run s b c code) as [s1 ->]; [done|by eapply ok_ip_json|done..|].
  set (text := ip_info_text (lit "0") (lit "0") (lit "0") (update_reason_int code)).
  assert (length text = 42%nat) as Ht by (unfold text; by destruct code).
  destruct (status_finish_cases s c (sta_ssid c ++ pw) text) as [H1 _].
  - unfold sta_memory. rewrite Hp, <- app_assoc. cbn [app]. rewrite app_assoc.
    apply cstr_app. auto with airu.
  - by apply Forall_app.
  - unfold text. auto 10 with airu.
  - rewrite Ht. unfold JSON_IP_INFO_SIZE. lia.
  - destruct H1 as (b' & -> & Hd).
    + rewrite !length_app, json_string_length, Ht. unfold json_escape in *.
      rewrite bind_app, length_app. lit_len. unfold JSON_IP_INFO_SIZE. lia.
    + by exists b', (set_ip_info_json (Some b') s).
Qed.

(** [wifi_manager_generate_reg_info_json] prints the registration (name, email,
    whether the sensor is on the map, MAC address) exactly when the document
    is shorter than the 369 bytes of the buffer, and leaves the buffer
    otherwise: a name and an email that fit their fields may not fit it. *)
Theorem reg_info_json_correct s b name email hidden e mac :
  wm_ok s -> reg_info_json s = Some b ->
  cstr (drop ri_name (reg_info s)) = Some name -> Forall is_byte name ->
  cstr (drop ri_email (reg_info s)) = Some email -> Forall is_byte email ->
  reg_info s !! ri_hidden = Some hidden -> Forall is_byte mac ->
  let doc := reg_info_text name email hidden mac in
  let '(tr, o, s') := run wifi_manager_generate_reg_info_json s [ret_bytes e mac] in
  ((length doc < JSON_REG_INFO_SIZE)%nat ->
     o = Done tt /\ exists b', s' = set_reg_info_json (Some b') s /\ cstr b' = Some doc) /\
  ((JSON_REG_INFO_SIZE <= length doc)%nat -> o = Stopped UB).
Proof.
  intros Hok Hb Hn Hnb He Heb Hh Hm doc.
  destruct (generate_reg_info_json_run s b name email hidden e mac) as (tr & s1 & ->);
    [done|by eapply ok_reg_json|done..|]. fold doc.
  destruct (strcpy _ 0 doc) as [b'|] eqn:E.
  - pose proof (strcpy_none (replicate JSON_REG_INFO_SIZE 0) 0 doc) as HN.
    rewrite length_replicate in HN. split; [|intros Hl; apply HN in Hl; congruence].
    intros _. split; [done|]. exists b'. split; [done|]. eapply strcpy_cstr; [|exact E].
    unfold doc, reg_info_text. auto 20 using mac_address_text_nonzero with airu.
  - apply strcpy_none in E. rewrite length_replicate in E. split; [|done]. lia.
Qed.

(** ** Instances *)

Lemma access_points_json_correct_witness :
  access_points_json [ApRecord (lit "lab") 6 (-40) 3 []] 1 (replicate 60 7)
  = Some (lit "[{'ssid':'lab','chan':6,'rssi':-40,'auth':3}]\n" ++ [0] ++ replicate 13 7) /\
  (exists b', access_points_json [ApRecord (lit "lab") 6 (-40) 3 []] (Z.of_nat 1) (replicate 60 7)
    = Some b' /\ cstr b' = Some (ap_list_text (take 1 [ApRecord (lit "lab") 6 (-40) 3 []]))).
Proof.
  split; [by vm_compute|].
  refine (proj1 (access_points_json_correct [ApRecord (lit "lab") 6 (-40) 3 []] 1 _ _ _) _).
  - vm_compute. lia.
  - constructor; [|constructor]. split; [by apply nonzero_const|split; [forall_list|cbn; lia]].
  - vm_compute. lia.
Defined.

Lemma access_points_json_fits_witness :
  exists b', access_points_json (replicate 15 (ApRecord (replicate 32 65) 11 (-100) 10 []))
    (Z.of_nat 15) (replicate (MAX_AP_NUM * JSON_ONE_APP_SIZE + 4) 0) = Some b'.
Proof.
  apply access_points_json_fits; [vm_compute; lia..|by rewrite length_replicate|].
  rewrite take_ge by done. apply Forall_forall. intros ap Hap.
  apply elem_of_replicate in Hap as [-> _]. split; [|vm_compute; lia].
  split; [by apply nonzero_const|split; [forall_list|cbn; lia]].
Defined.

Lemma access_points_json_overflow_witness :
  access_points_json quoted_scan 15 (replicate 1489 0) = None.
Proof. exact (proj2 (proj2 (access_points_json_overflow (replicate 1489 0) eq_refl))). Defined.

Lemma access_points_json_empty_witness :
  exists b', access_points_json [] 0 (replicate 1489 0) = Some b' /\ cstr b' = Some (lit "[").
Proof. apply (access_points_json_empty [] (replicate 1489 0)). vm_compute. lia. Defined.

Definition demo : wm := demo_wm (lit "home") (lit "secret") (lit "Ann") (lit "a@b.c").

Lemma status_json_offline_witness :
  let '(tr, o, s') := run (wifi_manager_generate_ip_info_json UPDATE_LOST_CONNECTION) demo [] in
  o = Done tt /\ exists b', ip_info_json s' = Some b' /\
    cstr b' = Some (lit "{'ssid':'home','ip':'0','netmask':'0','gw':'0','urc':3}\n").
Proof.
  pose proof (status_json_offline demo (replicate JSON_IP_INFO_SIZE 0)
    (StaConfig (field 32 (lit "home")) (field 64 (lit "secret")) (replicate 40 0)) (lit "home")
    UPDATE_LOST_CONNECTION) as H.
  destruct (run _ demo []) as [[tr o] s'].
  destruct H as [H _]; [apply demo_wm_ok; vm_compute; lia|done|done|done|forall_list|done|].
  destruct H as (-> & b' & -> & Hb); [vm_compute; lia|]. split; [done|]. by exists b'.
Defined.

Lemma status_json_online_witness :
  let '(tr, o, s') := run (wifi_manager_generate_ip_info_json UPDATE_CONNECTION_OK) demo
    [ret_bytes ESP_OK []; ret_bytes 0 (lit "10.0.0.7"); ret_bytes 0 (lit "255.0.0.0");
     ret_bytes 0 (lit "10.0.0.1")] in
  o = Done tt /\ exists b', ip_info_json s' = Some b' /\ cstr b' =
    Some (lit "{'ssid':'home','ip':'10.0.0.7','netmask':'255.0.0.0','gw':'10.0.0.1','urc':0}\n").
Proof.
  pose proof (status_json_online demo (replicate JSON_IP_INFO_SIZE 0)
    (StaConfig (field 32 (lit "home")) (field 64 (lit "secret")) (replicate 40 0)) (lit "home")
    [] (lit "10.0.0.7") (lit "255.0.0.0") (lit "10.0.0.1")) as H.
  destruct (run _ demo _) as [[tr o] s'].
  destruct H as [H _]; [apply demo_wm_ok; vm_compute; lia|done|done|done
    |forall_list|by apply nonzero_const|by apply nonzero_const|by apply nonzero_const
    |vm_compute; lia|vm_compute; lia|vm_compute; lia|].
  destruct H as (-> & b' & -> & Hb); [vm_compute; lia|]. split; [done|]. by exists b'.
Defined.

Lemma status_json_leaks_password_witness :
  exists b' s', run (wifi_manager_generate_ip_info_json UPDATE_FAILED_ATTEMPT)
    (demo_wm (replicate 32 65) (lit "secret") [] []) [] = ([], Done tt, s') /\
    ip_info_json s' = Some b' /\
    cstr b' = Some (status_text (replicate 32 65 ++ lit "secret") (lit "0") (lit "0") (lit "0") 1).
Proof.
  apply (status_json_leaks_password (demo_wm (replicate 32 65) (lit "secret") [] [])
    (replicate JSON_IP_INFO_SIZE 0)
    (StaConfig (replicate 32 65) (field 64 (lit "secret")) (replicate 40 0))
    (lit "secret") (replicate 57 0) UPDATE_FAILED_ATTEMPT);
    [apply demo_wm_ok; vm_compute; lia|done|done|by apply nonzero_const|by apply nonzero_const
    |done|forall_list|forall_list|done|vm_compute; lia].
Defined.

Lemma reg_info_json_correct_witness :
  let '(tr, o, s') := run wifi_manager_generate_reg_info_json demo
    [ret_bytes 0 [0x24; 0x0a; 0xc4; 1; 2; 3]] in
  o = Done tt /\ exists b', reg_info_json s' = Some b' /\ cstr b' =
    Some (lit "{'name':'Ann','email':'a@b.c','mapVisibility':1,'macAddress':'24:0A:C4:01:02:03'}").
Proof.
  pose proof (reg_info_json_correct demo (replicate JSON_REG_INFO_SIZE 0) (lit "Ann")
    (lit "a@b.c") 0 0 [0x24; 0x0a; 0xc4; 1; 2; 3]) as H.
  destruct (run _ demo _) as [[tr o] s'].
  destruct H as [H _]; [apply demo_wm_ok; vm_compute; lia|done|done|forall_list|done|forall_list
    |done|forall_list|].
  destruct H as (-> & b' & -> & Hb); [vm_compute; lia|]. split; [done|]. by exists b'.
Defined.
