(* ===== verification/WifiNvs.v ===== *)
(** * Saving to and loading from non-volatile storage (wifi_manager.c)

    The registration, the station configuration and the access point settings
    in the NVS namespace "espwifimgr": what is written, what is read back, and
    what every error leaves behind. *)

From S2P Require Import Prelude CMem WifiScan WifiState WifiJson.

Local Open Scope Z_scope.
Local Open Scope airu_scope.

(** ** The operations *)

Definition wifi_manager_nvs_namespace : list Z := lit "espwifimgr".

Definition wifi_manager_save_reg_config : wprog Z :=
  (opened <-? nvs_open wifi_manager_nvs_namespace true;
  let handle := a_val opened in
  Get (fun s =>
  _ <-? nvs_set_blob handle (lit "name") (take JSON_REG_NAME_SIZE (drop ri_name (reg_info s)));
  Get (fun s =>
  _ <-? nvs_set_blob handle (lit "email") (take JSON_REG_EMAIL_SIZE (drop ri_email (reg_info s)));
  _ <-? nvs_commit handle;
  Call (nvs_close handle) (fun _ => Ret ESP_OK)))).

Definition wifi_manager_save_wifi_settings : wprog Z :=
  (opened <-? nvs_open wifi_manager_nvs_namespace true;
  let handle := a_val opened in
  Get (fun s =>
  _ <-? nvs_set_blob handle (lit "settings") (wifi_settings s);
  _ <-? nvs_commit handle;
  Call (nvs_close handle) (fun _ => Ret ESP_OK))).

(** The pointer is read for every blob: another task may replace the
    configuration in between, and NULL is then undefined behaviour. *)
Definition with_config (k : sta_config -> wprog Z) : wprog Z :=
  Get (fun s => match config_sta s with Some c => k c | None => Stop UB end).

Definition wifi_manager_save_sta_config : wprog Z :=
  Get (fun s =>
  if config_sta s is Some _ then
    (opened <-? nvs_open wifi_manager_nvs_namespace true;
    let handle := a_val opened in
    with_config (fun c =>
    _ <-? nvs_set_blob handle (lit "ssid") (sta_ssid c);
    with_config (fun c =>
    _ <-? nvs_set_blob handle (lit "password") (sta_password c);
    Get (fun s =>
    _ <-? nvs_set_blob handle (lit "settings") (wifi_settings s);
    _ <-? nvs_commit handle;
    Call (nvs_close handle) (fun _ => Ret ESP_OK)))))
  else Ret ESP_OK).

(** [nvs_get_blob (handle, key, buff, &sz)] into a heap block: the blob the
    call wrote at its start, and its length. *)
Definition block_read (buff : heap_block) (a : answer) : option (list Z * nat) :=
  b ← snd buff;
  b ← memcpy b 0 (a_bytes a) (length (a_bytes a));
  Some (b, length (a_bytes a)).

(** [buff\[sz\] = '\0'; memcpy (reg_info.field, buff, sz)] *)
Definition store_field (off : nat) (buff : heap_block) (a : answer) (s : wm) : option wm :=
  '(b, sz) ← block_read buff a;
  b ← store b sz 0;
  on_reg_info (fun r => memcpy r off b sz) s.

Definition wifi_manager_fetch_reg_config : wprog bool :=
  update (on_reg_info (fun r => store r ri_name 0));;
  update (on_reg_info (fun r => store r ri_email 0));;
  opened ← call (nvs_open wifi_manager_nvs_namespace false);
  if Z.eqb (a_ret opened) ESP_OK then
    let handle := a_val opened in
    buff ← heap_alloc JSON_REG_EMAIL_SIZE;
    a ← call (nvs_get_blob handle (lit "name") JSON_REG_EMAIL_SIZE);
    if negb (Z.eqb (a_ret a) ESP_OK) then call_ (free (fst buff));; mret false else
    update (store_field ri_name buff a);;
    a ← call (nvs_get_blob handle (lit "email") JSON_REG_EMAIL_SIZE);
    if negb (Z.eqb (a_ret a) ESP_OK) then call_ (free (fst buff));; mret false else
    update (store_field ri_email buff a);;
    call_ (free (fst buff));;
    call_ (nvs_close handle);;
    mret true
  else mret false.

(** A fresh [wifi_config_t] as its three parts. *)
Definition fresh_config (a : answer) : option sta_config :=
  if Z.eqb (a_ret a) 0 then None
  else Some (StaConfig (resize 32 0 (take 32 (a_bytes a)))
                       (resize 64 0 (take 64 (drop 32 (a_bytes a)))) (drop 96 (a_bytes a))).

(** [memset (wifi_manager_config_sta, 0, sizeof (wifi_config_t))] *)
Definition erase_config (s : wm) : option wm :=
  c ← config_sta s; Some (set_config_sta (Some (sta_zero c)) s).

Definition on_config (f : sta_config -> option sta_config) (s : wm) : option wm :=
  c ← config_sta s; c ← f c; Some (set_config_sta (Some c) s).

Definition store_ssid (buff : heap_block) (a : answer) : wm -> option wm :=
  on_config (fun c => '(b, sz) ← block_read buff a;
    ssid ← memcpy (sta_ssid c) 0 b sz; Some (StaConfig ssid (sta_password c) (sta_rest c))).
Definition store_password (buff : heap_block) (a : answer) : wm -> option wm :=
  on_config (fun c => '(b, sz) ← block_read buff a;
    pw ← memcpy (sta_password c) 0 b sz; Some (StaConfig (sta_ssid c) pw (sta_rest c))).
Definition store_settings (buff : heap_block) (a : answer) (s : wm) : option wm :=
  '(b, sz) ← block_read buff a; on_wifi_settings (fun w => memcpy w 0 b sz) s.

(** Both destinations are cleared before the first blob is read. *)
Definition fetch_prepare (config : option sta_config) : wprog unit :=
  match config with
  | None => a ← call malloc_wifi_config; modify (set_config_sta (fresh_config a))
  | Some _ => mret tt
  end;;
  update erase_config;;
  update (on_wifi_settings (fun b => memset b 0 0 sizeof_wifi_settings)).

(** sizeof (size_t): the initial [memset] of the buffer clears that much. *)
Definition sizeof_size_t : nat := 4.

(** The three blobs, read through the buffer. *)
Definition fetch_blobs (handle : Z) (buff : heap_block) : wprog bool :=
  a ← call (nvs_get_blob handle (lit "ssid") 32);
  if negb (Z.eqb (a_ret a) ESP_OK) then call_ (free (fst buff));; mret false else
  update (store_ssid buff a);;
  a ← call (nvs_get_blob handle (lit "password") 64);
  if negb (Z.eqb (a_ret a) ESP_OK) then call_ (free (fst buff));; mret false else
  update (store_password buff a);;
  a ← call (nvs_get_blob handle (lit "settings") sizeof_wifi_settings);
  if negb (Z.eqb (a_ret a) ESP_OK) then call_ (free (fst buff));; mret false else
  update (store_settings buff a);;
  call_ (free (fst buff));;
  call_ (nvs_close handle);;
  config ← get config_sta;
  match config with
  | Some c => first ← try (sta_ssid c !! 0%nat); mret (negb (Z.eqb first 0))
  | None => Stop UB
  end.

Definition wifi_manager_fetch_wifi_sta_config : wprog bool :=
  opened ← call (nvs_open wifi_manager_nvs_namespace false);
  if Z.eqb (a_ret opened) ESP_OK then
    config ← get config_sta;
    fetch_prepare config;;
    block ← heap_alloc sizeof_wifi_settings;
    contents ← try (b ← snd block; memset b 0 0 sizeof_size_t);
    fetch_blobs (a_val opened) (fst block, Some contents)
  else mret false.

(** ** Reading blocks *)

Lemma memcpy_full b v : length b = length v -> memcpy b 0 v (length v) = Some v.
Proof.
  intros Hl. unfold memcpy. rewrite firstn_all, Nat.leb_refl.
  rewrite write_some by lia. cbn. by rewrite drop_ge, app_nil_r by lia.
Qed.

Lemma memcpy_prefix b v rest :
  length b = length v -> memcpy b 0 (v ++ rest) (length v) = Some v.
Proof.
  intros Hl. pose proof (memcpy_full b v Hl) as E. unfold memcpy in *.
  rewrite length_app, take_app_length. rewrite (proj2 (Nat.leb_le _ _)) by lia.
  by rewrite Nat.leb_refl, firstn_all in E.
Qed.

Lemma block_read_some p b a :
  (length (a_bytes a) <= length b)%nat ->
  block_read (p, Some b) a
  = Some (a_bytes a ++ drop (length (a_bytes a)) b, length (a_bytes a)).
Proof.
  intros Hl. unfold block_read. cbn [snd mbind option_bind]. unfold memcpy.
  rewrite firstn_all, Nat.leb_refl, write_some by lia. done.
Qed.

Lemma resize_some n (l : list Z) : length (resize n 0 l) = n.
Proof. apply length_resize. Qed.

(** A blob of the field's size read into a large enough block replaces it. *)
Lemma store_ssid_full p b v s c :
  config_sta s = Some c -> length (sta_ssid c) = length v -> (length v <= length b)%nat ->
  store_ssid (p, Some b) (ret_bytes ESP_OK v) s
  = Some (set_config_sta (Some (StaConfig v (sta_password c) (sta_rest c))) s).
Proof.
  intros Hc Hl Hb. unfold store_ssid, on_config. rewrite Hc. cbn [mbind option_bind].
  rewrite block_read_some by done. cbn [mbind option_bind a_bytes ret_bytes].
  by rewrite memcpy_prefix.
Qed.

Lemma store_password_full p b v s c :
  config_sta s = Some c -> length (sta_password c) = length v -> (length v <= length b)%nat ->
  store_password (p, Some b) (ret_bytes ESP_OK v) s
  = Some (set_config_sta (Some (StaConfig (sta_ssid c) v (sta_rest c))) s).
Proof.
  intros Hc Hl Hb. unfold store_password, on_config. rewrite Hc. cbn [mbind option_bind].
  rewrite block_read_some by done. cbn [mbind option_bind a_bytes ret_bytes].
  by rewrite memcpy_prefix.
Qed.

Lemma store_settings_full p b v s :
  length (wifi_settings s) = length v -> (length v <= length b)%nat ->
  store_settings (p, Some b) (ret_bytes ESP_OK v) s = Some (set_wifi_settings v s).
Proof.
  intros Hl Hb. unfold store_settings. rewrite block_read_some by done.
  cbn [mbind option_bind a_bytes ret_bytes]. unfold on_wifi_settings. by rewrite memcpy_prefix.
Qed.

Lemma on_reg_info_store off s :
  (off < length (reg_info s))%nat -> exists r, length r = length (reg_info s) /\
    on_reg_info (fun r => store r off 0) s = Some (set_reg_info r s).
Proof.
  intros Hl. unfold on_reg_info. destruct (store (reg_info s) off 0) as [r|] eqn:E.
  - exists r. split; [by eapply write_length|done].
  - apply write_none in E. cbn in E. lia.
Qed.

(** Loading a registration field: the terminator goes after the blob. *)
Lemma store_field_some off p b v s :
  (length v < length b)%nat -> (off + length v <= length (reg_info s))%nat ->
  exists r, length r = length (reg_info s) /\
    store_field off (p, Some b) (ret_bytes ESP_OK v) s = Some (set_reg_info r s).
Proof.
  intros Hv Hr. unfold store_field. rewrite block_read_some by (cbn; lia).
  cbn [mbind option_bind a_bytes ret_bytes]. unfold store.
  rewrite write_some by (rewrite length_app, length_drop; cbn; lia). cbn [mbind option_bind].
  rewrite take_app_exact by done. unfold on_reg_info, memcpy.
  assert (length (v ++ [0] ++ drop (length v + length [0%Z]) (v ++ drop (length v) b))
          = length b) as Hl.
  { rewrite !length_app, length_drop, length_app, length_drop. cbn. lia. }
  rewrite Hl, (proj2 (Nat.leb_le _ _)) by lia. rewrite (take_app_exact v) by done.
  rewrite write_some by done. cbn [mbind option_bind]. eexists. split; [|done].
  rewrite !length_app, length_take, length_drop. lia.
Qed.

Lemma store_field_none off p b v s :
  length b = length v -> store_field off (p, Some b) (ret_bytes ESP_OK v) s = None.
Proof.
  intros Hv. unfold store_field. rewrite block_read_some by (cbn; lia).
  cbn [mbind option_bind a_bytes ret_bytes]. unfold store.
  destruct (write _ _ _) as [b'|] eqn:E; [|done].
  rewrite (proj2 (write_none _ _ _)) in E; [done|]. rewrite length_app, length_drop. cbn. lia.
Qed.

(** ** A world with a storage

    What is in the flash, the storage as the calls see it, which also has what
    was set since the last commit, the namespace last opened and whether it was
    opened for writing.  Only [nvs_commit] brings what was set into the flash,
    and only the flash survives a power cycle.  [junk] answers the allocations:
    any nonzero address and any contents. *)

Definition ESP_ERR_NVS_NOT_FOUND : Z := 0x1102.
Definition ESP_ERR_NVS_READ_ONLY : Z := 0x1104.
Definition ESP_ERR_NVS_INVALID_LENGTH : Z := 0x110c.

Record nvs (W : Type) := Nvs { nvs_flash : W; nvs_store : W; nvs_ns : list Z; nvs_rw : bool }.
Arguments Nvs {W} _ _ _ _.
Arguments nvs_flash {W} _.
Arguments nvs_store {W} _.
Arguments nvs_ns {W} _.
Arguments nvs_rw {W} _.

Definition nvs_answer {W} `{Storage W} (junk : answer) (e : ext) (w : nvs W) : answer * nvs W :=
  match e with
  | nvs_open ns rw => (ret_val ESP_OK 1, Nvs (nvs_flash w) (nvs_store w) ns rw)
  | nvs_set_blob _ key v =>
      if nvs_rw w then (ret_ ESP_OK, Nvs (nvs_flash w) (st_set (nvs_store w) (nvs_ns w) key v) (nvs_ns w) true)
      else (ret_ ESP_ERR_NVS_READ_ONLY, w)
  | nvs_get_blob _ key len =>
      match st_get (nvs_store w) (nvs_ns w) key with
      | Some v => if Nat.leb (length v) len then (ret_bytes ESP_OK v, w)
                  else (ret_ ESP_ERR_NVS_INVALID_LENGTH, w)
      | None => (ret_ ESP_ERR_NVS_NOT_FOUND, w)
      end
  | nvs_commit _ => (ret_ ESP_OK, Nvs (nvs_store w) (nvs_store w) (nvs_ns w) (nvs_rw w))
  | malloc _ | malloc_wifi_config => (junk, w)
  | _ => (ret_ 0, w)
  end.

(** What was not committed is lost. *)
Definition nvs_power_cycle {W} (w : nvs W) : nvs W := Nvs (nvs_flash w) (nvs_flash w) [] false.

Section nvs_world.
Context {W : Type} `{StorageLaws W} (junk : answer) (Hjunk : a_ret junk <> 0).
Implicit Types w : nvs W.

Definition save_sta_world (s : wm) (c : sta_config) (st : W) : W :=
  let set k v st := st_set st wifi_manager_nvs_namespace k v in
  set (lit "settings") (wifi_settings s)
    (set (lit "password") (sta_password c) (set (lit "ssid") (sta_ssid c) st)).

Definition save_reg_world (s : wm) (st : W) : W :=
  let set k v st := st_set st wifi_manager_nvs_namespace k v in
  set (lit "email") (take JSON_REG_EMAIL_SIZE (drop ri_email (reg_info s)))
    (set (lit "name") (take JSON_REG_NAME_SIZE (drop ri_name (reg_info s))) st).

(** All of the storage is in the flash. *)
Definition committed (n : W) : nvs W := Nvs n n wifi_manager_nvs_namespace true.

Lemma save_sta_config_world s c w :
  config_sta s = Some c ->
  run_world (nvs_answer junk) wifi_manager_save_sta_config s w
  = (Done ESP_OK, s, committed (save_sta_world s c (nvs_store w))).
Proof. intros Hc. cbn. rewrite Hc. cbn. rewrite Hc. cbn. by rewrite Hc. Qed.

Lemma save_reg_config_world s w :
  run_world (nvs_answer junk) wifi_manager_save_reg_config s w
  = (Done ESP_OK, s, committed (save_reg_world s (nvs_store w))).
Proof. done. Qed.

(** What [fetch_prepare] leaves. *)
Definition cleared (n : nat) (s : wm) : wm :=
  set_wifi_settings (replicate sizeof_wifi_settings 0)
    (set_config_sta (Some (StaConfig (replicate 32 0) (replicate 64 0) (replicate n 0))) s).

Lemma fetch_prepare_world s w :
  wm_ok s -> exists n, (forall c, config_sta s = Some c -> n = length (sta_rest c)) /\
    run_world (nvs_answer junk) (fetch_prepare (config_sta s)) s w = (Done tt, cleared n s, w).
Proof.
  intros Hok. pose proof (ok_settings s Hok) as Hs. unfold fetch_prepare.
  destruct (config_sta s) as [c|] eqn:Hc.
  - exists (length (sta_rest c)). split; [by intros ? [= <-]|]. prog_simpl. unfold erase_config. rewrite Hc.
    cbn [mbind option_bind]. unfold on_wifi_settings. cbn [wifi_settings set_config_sta].
    by rewrite memset_all.
  - exists (length (drop 96 (a_bytes junk))). split; [done|]. prog_simpl. cbn [nvs_answer run_world].
    unfold fresh_config, erase_config. rewrite (proj2 (Z.eqb_neq _ _)) by done.
    cbn [config_sta set_config_sta mbind option_bind]. unfold on_wifi_settings.
    cbn [wifi_settings set_config_sta]. by rewrite memset_all.
Qed.

Lemma fetch_start_world s w :
  wm_ok s -> exists n b, length b = sizeof_wifi_settings /\
    (forall c, config_sta s = Some c -> n = length (sta_rest c)) /\
  run_world (nvs_answer junk) wifi_manager_fetch_wifi_sta_config s w =
  run_world (nvs_answer junk) (fetch_blobs 1 (a_ret junk, Some b)) (cleared n s)
    (Nvs (nvs_flash w) (nvs_store w) wifi_manager_nvs_namespace false).
Proof.
  intros Hok. set (w1 := Nvs (nvs_flash w) (nvs_store w) wifi_manager_nvs_namespace false).
  destruct (fetch_prepare_world s w1 Hok) as (n & Hn & En). exists n.
  unfold wifi_manager_fetch_wifi_sta_config. prog_simpl. cbn [nvs_answer run_world ret_val a_ret a_val].
  change (ESP_OK =? ESP_OK) with true. cbn [bind run_world]. fold w1.
  unfold mbind, prog_bind. rewrite run_world_bind, En. cbn [bind heap_alloc run_world nvs_answer fst snd].
  rewrite (proj2 (Z.eqb_neq _ _)) by done. cbn [mbind option_bind try].
  assert (length (resize sizeof_wifi_settings 0 (a_bytes junk)) = sizeof_wifi_settings) as Hl
    by apply length_resize.
  destruct (memset _ 0 0 sizeof_size_t) as [b|] eqn:E.
  - exists b. split_and!; [|done..]. apply write_length in E. by rewrite E.
  - apply write_none in E. rewrite Hl, length_replicate in E. vm_compute in E. lia.
Qed.

Lemma fetch_sta_found s w v1 v2 v3 :
  wm_ok s -> length v1 = 32%nat -> length v2 = 64%nat -> length v3 = sizeof_wifi_settings ->
  let lookup key := st_get (nvs_store w) wifi_manager_nvs_namespace key in
  lookup (lit "ssid") = Some v1 -> lookup (lit "password") = Some v2 ->
  lookup (lit "settings") = Some v3 ->
  exists n, (forall c, config_sta s = Some c -> n = length (sta_rest c)) /\
  run_world (nvs_answer junk) wifi_manager_fetch_wifi_sta_config s w =
  (Done (negb (Z.eqb (v1 !!! 0%nat) 0)),
   set_wifi_settings v3 (set_config_sta (Some (StaConfig v1 v2 (replicate n 0))) s),
   Nvs (nvs_flash w) (nvs_store w) wifi_manager_nvs_namespace false).
Proof.
  intros Hok H1 H2 H3 lookup E1 E2 E3. unfold lookup in *.
  destruct (fetch_start_world s w Hok) as (n & b & Hb & Hn & ->). exists n. split; [done|].
  unfold fetch_blobs. prog_simpl. cbn [nvs_answer nvs_store nvs_flash nvs_power_cycle committed nvs_ns].
  rewrite E1, H1. cbn [Nat.leb a_ret ret_bytes run_world]. 
  change (ESP_OK =? ESP_OK) with true. cbn [negb bind run_world].
  erewrite store_ssid_full; [|done|by rewrite H1|rewrite Hb, H1; vm_compute; lia].
  cbn [nvs_answer nvs_store nvs_flash nvs_power_cycle committed nvs_ns run_world]. rewrite E2, H2.
  change (Nat.leb 64 64) with true. cbn [a_ret ret_bytes].
  change (ESP_OK =? ESP_OK) with true. cbn [negb bind run_world].
  erewrite store_password_full; [|done|by rewrite H2|rewrite Hb, H2; vm_compute; lia].
  cbn [nvs_answer nvs_store nvs_flash nvs_power_cycle committed nvs_ns run_world]. rewrite E3, H3.
  change (Nat.leb sizeof_wifi_settings sizeof_wifi_settings) with true. cbn [a_ret ret_bytes].
  change (ESP_OK =? ESP_OK) with true. cbn [negb bind run_world].
  rewrite store_settings_full; [|by rewrite H3|by rewrite H3, Hb].
  cbn. destruct v1 as [|x v1]; [done|]. done.
Qed.

Lemma fetch_sta_missing s w :
  wm_ok s -> st_get (nvs_store w) wifi_manager_nvs_namespace (lit "ssid") = None ->
  exists n, (forall c, config_sta s = Some c -> n = length (sta_rest c)) /\
  run_world (nvs_answer junk) wifi_manager_fetch_wifi_sta_config s w =
  (Done false, cleared n s, Nvs (nvs_flash w) (nvs_store w) wifi_manager_nvs_namespace false).
Proof.
  intros Hok E1. destruct (fetch_start_world s w Hok) as (n & b & Hb & Hn & ->). exists n. split; [done|].
  unfold fetch_blobs. prog_simpl. cbn [nvs_answer nvs_store nvs_flash nvs_power_cycle committed nvs_ns]. by rewrite E1.
Qed.
End nvs_world.

(** ** Theorems *)

Section nvs_theorems.
Context {W : Type} `{StorageLaws W} (junk : answer).

(** C10: What [wifi_manager_save_sta_config] writes is what
    [wifi_manager_fetch_wifi_sta_config] loads after a power cycle, which loses
    the variables and all that was not committed to the flash: when the calls
    succeed, name, password and settings come back whole, whatever the variables
    and the storage were, and the result says whether the name is empty. *)
Theorem sta_config_roundtrip s s' c (w : nvs W) :
  a_ret junk <> 0 -> wm_ok s -> wm_ok s' -> config_sta s = Some c ->
  let '(o1, s1, w1) := run_world (nvs_answer junk) wifi_manager_save_sta_config s w in
  let '(o2, s2, _) := run_world (nvs_answer junk) wifi_manager_fetch_wifi_sta_config s' (nvs_power_cycle w1) in
  o1 = Done ESP_OK /\ s1 = s /\ o2 = Done (negb (Z.eqb (sta_ssid c !!! 0%nat) 0)) /\
  exists n, s2 = set_wifi_settings (wifi_settings s)
    (set_config_sta (Some (StaConfig (sta_ssid c) (sta_password c) (replicate n 0))) s').
Proof.
  intros Hj Hok Hok' Hc. rewrite (save_sta_config_world junk s c) by done.
  destruct (ok_config s Hok c Hc) as [H1 H2].
  edestruct (fetch_sta_found junk Hj s') as (n & _ & E); cycle 7.
  - rewrite E. by repeat eexists.
  - done.
  - exact H1.
  - exact H2.
  - by apply ok_settings.
  - cbn [nvs_store nvs_flash nvs_power_cycle committed]. unfold save_sta_world. rewrite !st_get_set_ne by done. apply st_get_set_eq.
  - cbn [nvs_store nvs_flash nvs_power_cycle committed]. unfold save_sta_world. rewrite st_get_set_ne by done. apply st_get_set_eq.
  - apply st_get_set_eq.
Qed.

(** A registration saved before any network was: the namespace now exists, so
    the next start clears the access point settings and keeps them cleared,
    although it finds no saved network. *)
Theorem registration_clears_settings s s' (w : nvs W) :
  a_ret junk <> 0 -> wm_ok s' ->
  st_get (nvs_store w) wifi_manager_nvs_namespace (lit "ssid") = None ->
  let '(o1, _, w1) := run_world (nvs_answer junk) wifi_manager_save_reg_config s w in
  let '(o2, s2, _) := run_world (nvs_answer junk) wifi_manager_fetch_wifi_sta_config s' (nvs_power_cycle w1) in
  o1 = Done ESP_OK /\ o2 = Done false /\
  wifi_settings s2 = replicate sizeof_wifi_settings 0.
Proof.
  intros Hj Hok' Hw. rewrite save_reg_config_world.
  edestruct (fetch_sta_missing junk Hj s') as (n & _ & E); cycle 2.
  - rewrite E. done.
  - done.
  - cbn [nvs_store nvs_flash nvs_power_cycle committed]. unfold save_reg_world. by rewrite !st_get_set_ne by done.
Qed.

(** The registration cannot be loaded back: the email blob is as long as the
    buffer it is read into, and its terminator is stored one byte past it. *)
Theorem reg_config_refetch_overflows s s' (w : nvs W) :
  wm_ok s -> wm_ok s' ->
  let '(o1, _, w1) := run_world (nvs_answer junk) wifi_manager_save_reg_config s w in
  let '(o2, _, _) := run_world (nvs_answer junk) wifi_manager_fetch_reg_config s' (nvs_power_cycle w1) in
  o1 = Done ESP_OK /\ o2 = Stopped UB.
Proof.
  intros Hok Hok'. rewrite save_reg_config_world.
  pose proof (ok_reg_info s Hok) as Hr. pose proof (ok_reg_info s' Hok') as Hr'.
  set (st := save_reg_world s (nvs_store w)).
  set (name := take JSON_REG_NAME_SIZE (drop ri_name (reg_info s))).
  set (email := take JSON_REG_EMAIL_SIZE (drop ri_email (reg_info s))).
  assert (st_get st wifi_manager_nvs_namespace (lit "name") = Some name) as En.
  { unfold st, save_reg_world. rewrite st_get_set_ne by done. apply st_get_set_eq. }
  assert (st_get st wifi_manager_nvs_namespace (lit "email") = Some email) as Ee
    by apply st_get_set_eq.
  assert (length name = JSON_REG_NAME_SIZE) as Ln.
  { unfold name. rewrite length_take, length_drop, Hr. done. }
  assert (length email = JSON_REG_EMAIL_SIZE) as Le.
  { unfold email. rewrite length_take, length_drop, Hr. done. }
  destruct (run_world _ _ s' _) as [[o2 s2] w2] eqn:E. split; [done|].
  revert E. unfold wifi_manager_fetch_reg_config. prog_simpl.
  destruct (on_reg_info_store ri_name s') as (r1 & L1 & ->); [rewrite Hr'; vm_compute; lia|].
  destruct (on_reg_info_store ri_email (set_reg_info r1 s')) as (r2 & L2 & ->);
    [cbn [reg_info set_reg_info]; rewrite L1, Hr'; vm_compute; lia|].
  cbn [reg_info set_reg_info] in L2. cbn [nvs_answer nvs_store nvs_flash nvs_power_cycle committed nvs_ns ret_val a_ret a_val].
  change (ESP_OK =? ESP_OK) with true. unfold mbind, prog_bind. cbn [bind heap_alloc run_world].
  cbn [nvs_answer nvs_store nvs_flash nvs_power_cycle committed nvs_ns]. fold st. rewrite En, Ln.
  change (Nat.leb JSON_REG_NAME_SIZE JSON_REG_EMAIL_SIZE) with true. cbn [a_ret ret_bytes].
  change (ESP_OK =? ESP_OK) with true. cbn [negb bind run_world].
  destruct (a_ret junk =? 0) eqn:Hj; [by intros [= <- _ _]|].
  assert (length (resize JSON_REG_EMAIL_SIZE 0 (a_bytes junk)) = JSON_REG_EMAIL_SIZE) as Lb
    by apply length_resize.
  destruct (store_field_some ri_name (a_ret junk) (resize JSON_REG_EMAIL_SIZE 0 (a_bytes junk))
    name (set_reg_info r2 (set_reg_info r1 s'))) as (r3 & L3 & ->).
  { rewrite Ln, Lb. vm_compute. lia. }
  { cbn [reg_info set_reg_info]. rewrite Ln, L2, L1, Hr'. vm_compute. lia. }
  cbn [nvs_answer nvs_store nvs_flash nvs_power_cycle committed nvs_ns run_world]. fold st. rewrite Ee, Le.
  change (Nat.leb JSON_REG_EMAIL_SIZE JSON_REG_EMAIL_SIZE) with true. cbn [a_ret ret_bytes].
  change (ESP_OK =? ESP_OK) with true. cbn [negb bind run_world].
  rewrite store_field_none by (rewrite Lb, Le; done). by intros [= <- _ _].
Qed.
End nvs_theorems.

(** The calls of a complete save. *)
Definition save_sta_calls (h : Z) (c : sta_config) (ws : list Z) : list ext :=
  [nvs_open wifi_manager_nvs_namespace true; nvs_set_blob h (lit "ssid") (sta_ssid c);
   nvs_set_blob h (lit "password") (sta_password c); nvs_set_blob h (lit "settings") ws;
   nvs_commit h; nvs_close h].

(** One checked call: it fails and its error is the result, or the rest runs. *)
Lemma exec_checked {S} (R : S -> S -> Prop) e (k : answer -> cprog S Z) s tr r s' :
  exec R (checked e k) s tr (Done r) s' ->
  exists a tr' s1, tr = (e, a) :: tr' /\ R s s1 /\
    ((a_ret a <> ESP_OK /\ r = a_ret a /\ tr' = [] /\ s' = s1) \/
     (a_ret a = ESP_OK /\ exec R (k a) s1 tr' (Done r) s')).
Proof.
  intros H. inversion H as [| | | | | |? ? ? a s1 tr' ? ? HR Hk]; subst.
  exists a, tr', s1. split; [done|]. split; [done|].
  destruct (Z.eqb_spec (a_ret a) ESP_OK) as [E|E]; [by right|].
  left. inversion Hk; subst. done.
Qed.

(** The last call of [tr] failed with [r], all the others succeeded, and none
    closed the handle. *)
Definition failed_at_last (tr : ctrace) (r : Z) : Prop :=
  r <> ESP_OK /\ exists tr0 e a, tr = tr0 ++ [(e, a)] /\ a_ret a = r /\
    Forall (fun c => a_ret (snd c) = ESP_OK /\ forall h, fst c <> nvs_close h) tr0.

Lemma failed_last e a : a_ret a <> ESP_OK -> failed_at_last [(e, a)] (a_ret a).
Proof. intros Ha. split; [done|]. by exists [], e, a. Qed.

Lemma failed_cons e a tr r :
  a_ret a = ESP_OK -> (forall h, e <> nvs_close h) -> failed_at_last tr r ->
  failed_at_last ((e, a) :: tr) r.
Proof.
  intros Ha He (Hr & tr0 & e' & a' & -> & ? & ?). split; [done|].
  exists ((e, a) :: tr0), e', a'. split_and!; [done..|]. by constructor.
Qed.

(** [save_step H]: one checked call of a save; its failing branch is closed. *)
Ltac save_step H :=
  apply exec_checked in H as (? & ? & ? & -> & <- & [(? & -> & -> & ->)|[? H]]);
  [right; split; [repeat (apply failed_cons; [done|done|]); by apply failed_last|done]|].

(** C34: [wifi_manager_save_sta_config] returns ESP_OK only after every blob was
    written, the writes committed and the handle closed; any other result is
    the error of the last call made, all calls before it succeeded, and the
    handle stays open. *)
Theorem save_sta_config_outcome s tr r s' :
  exec eq wifi_manager_save_sta_config s tr (Done r) s' ->
  ((r = ESP_OK /\
     (config_sta s = None /\ tr = [] \/
      exists h c, config_sta s = Some c /\ fst <$> tr = save_sta_calls h c (wifi_settings s))) \/
   failed_at_last tr r) /\ s' = s.
Proof.
  intros H. apply exec_get_inv in H.
  destruct (config_sta s) as [c|] eqn:Hc.
  2: { apply exec_ret_inv in H as (-> & -> & ->). auto 10. }
  enough ((r = ESP_OK /\ exists h, fst <$> tr = save_sta_calls h c (wifi_settings s)) /\ s' = s \/
          failed_at_last tr r /\ s' = s) as [[[-> [h Hh]] ->]|[? ->]]
    by (split; [|done]; first [by right|left; split; [done|]; right; by exists h, c]).
  save_step H. apply exec_get_inv in H. rewrite Hc in H.
  save_step H. apply exec_get_inv in H. rewrite Hc in H.
  save_step H. apply exec_get_inv in H.
  save_step H. save_step H.
  inversion H as [| | | | | |? ? ? ? ? ? ? ? HR Hk]; subst.
  apply exec_ret_inv in Hk as (-> & -> & ->). left. split; [|done]. split; [done|]. by eexists.
Qed.

(** ** Instances *)

Definition demo_saved : wm := demo_wm (lit "home") (lit "secret") (lit "Ann") (lit "a@b.c").
Definition demo_blank : wm := demo_wm [] [] [] [].
Definition demo_nvs : nvs (gmap (list Z * list Z) (list Z)) := Nvs ∅ ∅ [] false.

Lemma demo_saved_ok : wm_ok demo_saved.
Proof. apply demo_wm_ok; vm_compute; lia. Qed.
Lemma demo_blank_ok : wm_ok demo_blank.
Proof. apply demo_wm_ok; vm_compute; lia. Qed.

Lemma sta_config_roundtrip_witness :
  let '(_, _, w1) := run_world (nvs_answer (ret_bytes 4096 [1; 2; 3])) wifi_manager_save_sta_config
    demo_saved demo_nvs in
  let '(o2, s2, _) := run_world (nvs_answer (ret_bytes 4096 [1; 2; 3]))
    wifi_manager_fetch_wifi_sta_config demo_blank (nvs_power_cycle w1) in
  o2 = Done true /\ exists n, config_sta s2 =
    Some (StaConfig (field 32 (lit "home")) (field 64 (lit "secret")) (replicate n 0)).
Proof.
  pose proof (sta_config_roundtrip (ret_bytes 4096 [1; 2; 3]) demo_saved demo_blank
    (StaConfig (field 32 (lit "home")) (field 64 (lit "secret")) (replicate 40 0)) demo_nvs
    ltac:(done) demo_saved_ok demo_blank_ok eq_refl) as H.
  destruct (run_world _ _ demo_saved _) as [[o1 s1] w1].
  destruct (run_world _ _ demo_blank _) as [[o2 s2] w2].
  destruct H as (_ & _ & -> & n & ->). split; [done|]. by exists n.
Defined.

Lemma registration_clears_settings_witness :
  let '(_, _, w1) := run_world (nvs_answer (ret_ 4096)) wifi_manager_save_reg_config
    demo_saved demo_nvs in
  let '(o2, s2, _) := run_world (nvs_answer (ret_ 4096))
    wifi_manager_fetch_wifi_sta_config demo_blank (nvs_power_cycle w1) in
  o2 = Done false /\ wifi_settings s2 = replicate sizeof_wifi_settings 0.
Proof.
  pose proof (registration_clears_settings (ret_ 4096) demo_saved demo_blank demo_nvs
    ltac:(done) demo_blank_ok eq_refl) as H.
  destruct (run_world _ _ demo_saved _) as [[o1 s1] w1].
  destruct (run_world _ _ demo_blank _) as [[o2 s2] w2]. apply H.
Defined.

Lemma reg_config_refetch_overflows_witness :
  let '(_, _, w1) := run_world (nvs_answer (ret_ 4096)) wifi_manager_save_reg_config
    demo_saved demo_nvs in
  let '(o2, _, _) := run_world (nvs_answer (ret_ 4096)) wifi_manager_fetch_reg_config
    demo_blank (nvs_power_cycle w1) in
  o2 = Stopped UB.
Proof.
  pose proof (reg_config_refetch_overflows (ret_ 4096) demo_saved demo_blank demo_nvs
    demo_saved_ok demo_blank_ok) as H.
  destruct (run_world _ _ demo_saved _) as [[o1 s1] w1].
  destruct (run_world _ _ demo_blank _) as [[o2 s2] w2]. apply H.
Defined.

Lemma save_sta_config_outcome_witness :
  let ans := [ret_val ESP_OK 5; ret_ ESP_OK; ret_ 0x1105] in
  let '(tr, _, _) := run wifi_manager_save_sta_config demo_saved ans in
  failed_at_last tr 0x1105.
Proof.
  cbn zeta.
  destruct (run wifi_manager_save_sta_config demo_saved _) as [[tr o] s'] eqn:E.
  assert (o = Done 0x1105) as -> by (vm_compute in E; congruence).
  destruct (save_sta_config_outcome _ _ _ _ (run_exec _ _ _ _ _ _ E)) as [[[Hr _]|H] _]; done.
Defined.
