(* ===== verification/Led.v ===== *)
(** * The LED task (led_if.c)

    The other tasks post events to the LED by setting bits; the LED task shows
    what was posted since its last round. *)

From S2P Require Import Prelude Ext.

Local Open Scope Z_scope.

Definition LED_EVENT_WIFI_DISCONNECTED_BIT : Z := BIT 0.
Definition LED_EVENT_WIFI_CONNECTED_BIT : Z := BIT 1.
Definition LED_EVENT_GPS_RTC_NOT_SET_BIT : Z := BIT 2.
Definition LED_EVENT_GPS_RTC_SET_BIT : Z := BIT 3.
Definition LED_EVENT_ALL_BITS : Z :=
  Z.lor (Z.lor (BIT 0) (BIT 1)) (Z.lor (BIT 2) (BIT 3)).

Definition STAT1_CH : Z := 0.
Definition STAT2_CH : Z := 1.
Definition STAT3_CH : Z := 2.
Definition LEDC_TIMER_8_BIT : Z := 8.
Definition LEDC_DUTY : Z := Z.shiftl 1 (LEDC_TIMER_8_BIT - 2).

(** [ledc_channel\[\]]: channel, duty, GPIO number *)
Definition ledc_channel : list (Z * Z * Z) :=
  [(STAT1_CH, LEDC_DUTY, 21); (STAT2_CH, 0, 19); (STAT3_CH, 0, 18)].

(** [bits & mask] is not zero *)
Definition has (bits mask : Z) : bool := negb (Z.eqb (Z.land bits mask) 0).

Section led.
Context {S : Type}.

Definition LED_SetEventBit (bit : Z) : cprog S unit := call_ (xEventGroupSetBits LED_EG bit).

Fixpoint led_configure (l : list (Z * Z * Z)) : cprog S unit :=
  match l with
  | [] => mret tt
  | (ch, duty, gpio) :: l => call_ (ledc_channel_config ch duty gpio);; led_configure l
  end.

Definition LED_Initialize : cprog S unit :=
  call_ ledc_timer_config;;
  led_configure ledc_channel;;
  call_ (xEventGroupCreate LED_EG);;
  call_ (xEventGroupClearBits LED_EG LED_EVENT_ALL_BITS).

Definition led_set (ch duty : Z) : cprog S unit :=
  call_ (ledc_set_duty ch duty);; call_ (ledc_update_duty ch).

(** One round of [led_task]. *)
Definition led_task_round : cprog S unit :=
  a ← call (xEventGroupWaitBits LED_EG LED_EVENT_ALL_BITS true false None);
  let uxBits := a_ret a in
  when (has uxBits LED_EVENT_WIFI_DISCONNECTED_BIT) (led_set STAT1_CH LEDC_DUTY);;
  when (has uxBits LED_EVENT_WIFI_CONNECTED_BIT) (led_set STAT1_CH 0);;
  when (has uxBits LED_EVENT_GPS_RTC_NOT_SET_BIT) (led_set STAT3_CH LEDC_DUTY);;
  when (has uxBits LED_EVENT_GPS_RTC_SET_BIT) (led_set STAT3_CH 0).
End led.

(** ** What the LEDs show

    The duty staged and the duty in effect of every channel, after a sequence
    of calls: [ledc_set_duty] stages, [ledc_update_duty] puts in effect. *)
Record leds := Leds { led_staged : Z -> Z; led_shown : Z -> Z }.

Definition leds_call (l : leds) (e : ext) : leds :=
  match e with
  | ledc_set_duty ch duty => Leds (fun c => if Z.eqb c ch then duty else led_staged l c) (led_shown l)
  | ledc_update_duty ch =>
      Leds (led_staged l) (fun c => if Z.eqb c ch then led_staged l c else led_shown l c)
  | _ => l
  end.

Definition leds_after (tr : ctrace) (l : leds) : leds :=
  foldl (fun l c => leds_call l (fst c)) l tr.

(** The WiFi light is on when a disconnection was posted and no connection, off
    when a connection was; the GPS light likewise for "not set" and "set". *)
Definition light (bits on off old : Z) : Z :=
  if has bits off then 0 else if has bits on then LEDC_DUTY else old.

(** What a round that waited and got [bits] leaves. *)
Definition shown_for (bits : Z) (l l' : leds) : Prop :=
  led_shown l' STAT1_CH = light bits LED_EVENT_WIFI_DISCONNECTED_BIT LED_EVENT_WIFI_CONNECTED_BIT
                            (led_shown l STAT1_CH) /\
  led_shown l' STAT3_CH = light bits LED_EVENT_GPS_RTC_NOT_SET_BIT LED_EVENT_GPS_RTC_SET_BIT
                            (led_shown l STAT3_CH) /\
  forall ch, ch <> STAT1_CH -> ch <> STAT3_CH -> led_shown l' ch = led_shown l ch.

Lemma led_round_wp {S} R (s : S) l :
  wp R (fun _ _ _ => True)
    (fun tr o _ => o = Done tt -> exists a tr',
       tr = (xEventGroupWaitBits LED_EG LED_EVENT_ALL_BITS true false None, a) :: tr' /\
       shown_for (a_ret a) l (leds_after tr l)) led_task_round [] s.
Proof.
  unfold led_task_round, led_set. prog_simpl. split; [done|]. intros a s1 _.
  destruct (has (a_ret a) LED_EVENT_WIFI_DISCONNECTED_BIT) eqn:E1;
  destruct (has (a_ret a) LED_EVENT_WIFI_CONNECTED_BIT) eqn:E2;
  destruct (has (a_ret a) LED_EVENT_GPS_RTC_NOT_SET_BIT) eqn:E3;
  destruct (has (a_ret a) LED_EVENT_GPS_RTC_SET_BIT) eqn:E4;
  cbn [bind wp]; repeat (split; [done|intros ? ? _]); intros _;
  exists a; eexists; (split; [reflexivity|]); unfold shown_for, light; rewrite E1, E2, E3, E4;
  (split_and!; [reflexivity..|]); intros ch H1 H3; cbn;
  rewrite ?(proj2 (Z.eqb_neq ch _)) by (exact H1 || exact H3); reflexivity.
Qed.

(** A round of [led_task] shows exactly what was posted since the last one,
    whatever the driver answers, and consumes it: the wait clears the bits it
    returns. Of a connection and a disconnection posted in the same round the
    connection is shown, whichever came last. *)
Theorem led_round_shows {S} R (s s' : S) tr l :
  exec R led_task_round s tr (Done tt) s' ->
  exists a tr', tr = (xEventGroupWaitBits LED_EG LED_EVENT_ALL_BITS true false None, a) :: tr' /\
    shown_for (a_ret a) l (leds_after tr l).
Proof.
  intros He. by apply (wp_exec _ _ _ _ _ _ _ _ _ (led_round_wp R s l) He).
Qed.

Lemma led_round_shows_witness :
  let '(tr, _, _) := run led_task_round tt (ret_ 1 :: replicate 2 (ret_ 0)) in
  led_shown (leds_after tr (Leds (fun _ => 0) (fun _ => 0))) STAT1_CH = 64.
Proof.
  destruct (run led_task_round tt _) as [[tr o] s'] eqn:E.
  assert (o = Done tt) as -> by (vm_compute in E; congruence).
  destruct (led_round_shows _ _ _ _ (Leds (fun _ => 0) (fun _ => 0)) (run_exec _ _ _ _ _ _ E))
    as (a & tr' & Htr & H1 & _).
  rewrite H1. vm_compute in E. injection E as <- _. injection Htr as <- _. reflexivity.
Defined.
