(* ===== verification/WifiManager.v ===== *)
(** * The Wi-Fi manager task (wifi_manager.c)

    Requests are bits of an event group: the HTTP server, the ping callback,
    the reconnect timer and the driver's event handler set them, the task
    serves them one round at a time. *)

From S2P Require Import Prelude CMem Printf WifiScan WifiState WifiJson WifiNvs Led.

Local Open Scope Z_scope.

(** ** Event bits *)

Definition WIFI_MANAGER_WIFI_CONNECTED_BIT : Z := BIT 0.
Definition WIFI_MANAGER_AP_STA_CONNECTED_BIT : Z := BIT 1.
Definition WIFI_MANAGER_AP_STARTED : Z := BIT 2.
Definition WIFI_MANAGER_REQUEST_STA_CONNECT_BIT : Z := BIT 3.
Definition WIFI_MANAGER_STA_DISCONNECT_BIT : Z := BIT 4.
Definition WIFI_MANAGER_REQUEST_WIFI_SCAN : Z := BIT 5.
Definition WIFI_MANAGER_REQUEST_WIFI_DISCONNECT : Z := BIT 6.
Definition WIFI_MANAGER_REQUEST_RECONNECT : Z := BIT 7.
Definition WIFI_MANAGER_HAVE_INTERNET_BIT : Z := BIT 8.
Definition WIFI_MANAGER_REQUEST_PING_TEST : Z := BIT 9.

Definition ONE_SECOND_DELAY : Z := 1000 / portTICK_PERIOD_MS.
Definition RECONNECT_RETRY_PERIOD : Z := 30 * ONE_SECOND_DELAY.
Definition PING_TEST_TIMEOUT_MS : Z := 3000.
Definition MS2TICK (ms : Z) : Z := ms / portTICK_PERIOD_MS.

(** ** Requests and waits of other tasks

    They touch no static variable, so any task can make them. *)

Section requests.
Context {S : Type}.

Definition wifi_set (bits : Z) : cprog S unit := call_ (xEventGroupSetBits WIFI_EG bits).
Definition wifi_clear (bits : Z) : cprog S unit := call_ (xEventGroupClearBits WIFI_EG bits).

Definition wifi_manager_wait_connect : cprog S Z :=
  a ← call (xEventGroupWaitBits WIFI_EG WIFI_MANAGER_WIFI_CONNECTED_BIT false true None);
  mret (a_ret a).
Definition wifi_manager_wait_internet_access : cprog S Z :=
  a ← call (xEventGroupWaitBits WIFI_EG WIFI_MANAGER_HAVE_INTERNET_BIT false true None);
  mret (a_ret a).
Definition wifi_manager_wait_disconnect : cprog S Z :=
  a ← call (xEventGroupWaitBits WIFI_EG WIFI_MANAGER_STA_DISCONNECT_BIT false true None);
  mret (a_ret a).
Definition wifi_manager_scan_async : cprog S unit := wifi_set WIFI_MANAGER_REQUEST_WIFI_SCAN.
Definition wifi_manager_disconnect_async : cprog S unit :=
  wifi_set WIFI_MANAGER_REQUEST_WIFI_DISCONNECT.
Definition wifi_manager_check_connection_async : cprog S unit :=
  wifi_set WIFI_MANAGER_REQUEST_PING_TEST.
Definition wifi_manager_connected_to_access_point : cprog S bool :=
  a ← call (xEventGroupGetBits WIFI_EG);
  mret (has (a_ret a) WIFI_MANAGER_WIFI_CONNECTED_BIT).
End requests.

Definition wifi_manager_connect_async : wprog unit :=
  locked ← wifi_manager_lock_json_buffer None;
  when locked (wifi_manager_clear_ip_info_json;; wifi_manager_unlock_json_buffer);;
  wifi_set WIFI_MANAGER_REQUEST_STA_CONNECT_BIT.

Definition vTimerCallback : wprog unit :=
  call_ (xTimerStop WIFI_RECONNECT_TIMER);; wifi_set WIFI_MANAGER_REQUEST_PING_TEST.

(** ** The driver's events *)

Definition WIFI_REASON_ASSOC_LEAVE : Z := 8.
Definition WIFI_REASON_4WAY_HANDSHAKE_TIMEOUT : Z := 15.
Definition WIFI_REASON_AUTH_FAIL : Z := 202.

Inductive system_event :=
  | SYSTEM_EVENT_AP_START
  | SYSTEM_EVENT_AP_STACONNECTED
  | SYSTEM_EVENT_AP_STADISCONNECTED
  | SYSTEM_EVENT_STA_START
  | SYSTEM_EVENT_STA_GOT_IP
  | SYSTEM_EVENT_STA_DISCONNECTED (reason : Z)
  | SYSTEM_EVENT_OTHER.

(** The reasons after which the station connects again by itself. *)
Definition reconnects (reason : Z) : bool :=
  negb (Z.eqb reason WIFI_REASON_ASSOC_LEAVE)
  && negb (Z.eqb reason WIFI_REASON_4WAY_HANDSHAKE_TIMEOUT)
  && negb (Z.eqb reason WIFI_REASON_AUTH_FAIL).

Definition wifi_manager_event_handler (event : system_event) : wprog Z :=
  match event with
  | SYSTEM_EVENT_AP_START => wifi_set WIFI_MANAGER_AP_STARTED
  | SYSTEM_EVENT_AP_STACONNECTED => wifi_set WIFI_MANAGER_AP_STA_CONNECTED_BIT
  | SYSTEM_EVENT_AP_STADISCONNECTED => wifi_clear WIFI_MANAGER_AP_STA_CONNECTED_BIT
  | SYSTEM_EVENT_STA_START => mret tt
  | SYSTEM_EVENT_STA_GOT_IP =>
      wifi_set WIFI_MANAGER_WIFI_CONNECTED_BIT;;
      wifi_clear WIFI_MANAGER_REQUEST_RECONNECT;;
      LED_SetEventBit LED_EVENT_WIFI_CONNECTED_BIT
  | SYSTEM_EVENT_STA_DISCONNECTED reason =>
      when (reconnects reason) (wifi_set WIFI_MANAGER_REQUEST_STA_CONNECT_BIT);;
      wifi_set WIFI_MANAGER_STA_DISCONNECT_BIT;;
      wifi_clear WIFI_MANAGER_WIFI_CONNECTED_BIT;;
      wifi_clear WIFI_MANAGER_HAVE_INTERNET_BIT;;
      LED_SetEventBit LED_EVENT_WIFI_DISCONNECTED_BIT
  | SYSTEM_EVENT_OTHER => mret tt
  end;;
  mret ESP_OK.

(** ** The ping test *)

Definition pingResults (recv_count : Z) : wprog Z :=
  (if Z.ltb 0 recv_count then
     wifi_set WIFI_MANAGER_HAVE_INTERNET_BIT;;
     LED_SetEventBit LED_EVENT_WIFI_CONNECTED_BIT;;
     call_ (xTimerStop WIFI_RECONNECT_TIMER)
   else wifi_manager_connect_async);;
  mret ESP_OK.

Definition wifi_manager_ping_test : wprog unit :=
  wifi_clear WIFI_MANAGER_HAVE_INTERNET_BIT;;
  LED_SetEventBit LED_EVENT_WIFI_DISCONNECTED_BIT;;
  call_ (esp_ping_set_target (PING_TARGET_IP_ADDRESS_COUNT 1));;
  call_ (esp_ping_set_target (PING_TARGET_RCV_TIMEO PING_TEST_TIMEOUT_MS));;
  call_ (esp_ping_set_target (PING_TARGET_IP_ADDRESS [8; 8; 8; 8]));;
  call_ (esp_ping_set_target PING_TARGET_RES_FN);;
  call_ ping_init.

(** [if (!xTimerIsTimerActive (timer)) xTimerStart (timer, 0)] *)
Definition start_reconnect_timer : wprog unit :=
  active ← call (xTimerIsTimerActive WIFI_RECONNECT_TIMER);
  when (Z.eqb (a_ret active) 0) (call_ (xTimerStart WIFI_RECONNECT_TIMER)).

Definition wifi_manager_check_connection : wprog Z :=
  connected ← wifi_manager_connected_to_access_point;
  if connected : bool then
    wifi_manager_ping_test;;
    a ← call (xEventGroupWaitBits WIFI_EG WIFI_MANAGER_HAVE_INTERNET_BIT false true
                (Some (MS2TICK PING_TEST_TIMEOUT_MS)));
    let ret := Z.land WIFI_MANAGER_HAVE_INTERNET_BIT (a_ret a) in
    when (Z.eqb ret 0)
      (LED_SetEventBit LED_EVENT_WIFI_DISCONNECTED_BIT;; start_reconnect_timer);;
    mret ret
  else mret ERR_WIFI_DISCONECTED.

(** ** One round of the task *)

Definition check_ {S} (e : ext) : cprog S unit := esp_error_check e;; mret tt.

(** [esp_wifi_disconnect] and the wait for the driver's event. *)
Definition disconnect_and_wait : wprog unit :=
  wifi_clear WIFI_MANAGER_STA_DISCONNECT_BIT;;
  check_ esp_wifi_disconnect;;
  call_ (xEventGroupWaitBits WIFI_EG WIFI_MANAGER_STA_DISCONNECT_BIT false true None).

Definition erase_config_if_any (s : wm) : option wm :=
  match config_sta s with Some _ => erase_config s | None => Some s end.

Definition serve_disconnect (uxBits : Z) : wprog unit :=
  wifi_clear WIFI_MANAGER_HAVE_INTERNET_BIT;;
  LED_SetEventBit LED_EVENT_WIFI_DISCONNECTED_BIT;;
  when (has uxBits WIFI_MANAGER_WIFI_CONNECTED_BIT) disconnect_and_wait;;
  wifi_clear WIFI_MANAGER_STA_DISCONNECT_BIT;;
  update erase_config_if_any;;
  wifi_manager_save_sta_config;;
  wifi_manager_json_status_update UPDATE_USER_DISCONNECT;;
  wifi_clear WIFI_MANAGER_REQUEST_WIFI_DISCONNECT.

(** The station got an address. *)
Definition connect_succeeded : wprog unit :=
  wifi_manager_json_status_update UPDATE_CONNECTION_OK;;
  LED_SetEventBit LED_EVENT_WIFI_CONNECTED_BIT;;
  wifi_manager_save_sta_config;;
  internet ← wifi_manager_check_connection;
  if Z.eqb internet 1 then wifi_clear WIFI_MANAGER_REQUEST_RECONNECT
  else start_reconnect_timer.

(** The driver reported a disconnection. *)
Definition connect_failed : wprog unit :=
  wifi_manager_json_status_update UPDATE_FAILED_ATTEMPT;;
  LED_SetEventBit LED_EVENT_WIFI_DISCONNECTED_BIT;;
  update erase_config;;
  wifi_set WIFI_MANAGER_STA_DISCONNECT_BIT.

Definition CONNECT_EVENTS : Z :=
  Z.lor WIFI_MANAGER_WIFI_CONNECTED_BIT WIFI_MANAGER_STA_DISCONNECT_BIT.

(** The new value of [uxBits]. *)
Definition serve_connect (uxBits : Z) : wprog Z :=
  when (Z.eqb (Z.land uxBits WIFI_MANAGER_WIFI_CONNECTED_BIT) WIFI_MANAGER_WIFI_CONNECTED_BIT)
    disconnect_and_wait;;
  wifi_clear WIFI_MANAGER_STA_DISCONNECT_BIT;;
  config ← wifi_manager_get_wifi_sta_config;
  call_ (esp_wifi_set_config_sta (sta_memory <$> config));;
  call_ esp_wifi_connect;;
  a ← call (xEventGroupWaitBits WIFI_EG CONNECT_EVENTS false false None);
  let uxBits := a_ret a in
  (if has uxBits CONNECT_EVENTS then
     if has uxBits WIFI_MANAGER_WIFI_CONNECTED_BIT then connect_succeeded else connect_failed
   else wifi_set WIFI_MANAGER_STA_DISCONNECT_BIT);;
  wifi_clear WIFI_MANAGER_REQUEST_STA_CONNECT_BIT;;
  mret uxBits.

(** [esp_wifi_scan_get_ap_records (&ap_num, accessp_records)] *)
Definition store_records (a : answer) (s : wm) : option wm :=
  if Nat.leb (length (a_aps a)) (length (accessp_records s)) then
    Some (set_ap_num (u16 (a_val a))
      (set_accessp_records (a_aps a ++ drop (length (a_aps a)) (accessp_records s)) s))
  else None.

(** [wifi_manager_filter_unique (accessp_records, &ap_num)] on the statics, with
    the driver call at its end. *)
Definition filter_records : wprog unit :=
  update (fun s => '(l, n) ← wifi_manager_filter_unique (accessp_records s) (Z.to_nat (ap_num s));
                   Some (set_ap_num n (set_accessp_records l s)));;
  call_ esp_wifi_deinit.

Definition serve_scan (uxBits : Z) : wprog unit :=
  modify (set_ap_num (Z.of_nat MAX_AP_NUM));;
  (if negb (has uxBits WIFI_MANAGER_REQUEST_STA_CONNECT_BIT) then
     check_ esp_wifi_scan_start;;
     num ← get ap_num;
     a ← esp_error_check (esp_wifi_scan_get_ap_records num);
     update (store_records a);;
     locked ← wifi_manager_lock_json_buffer (Some 20);
     when locked (filter_records;; wifi_manager_generate_acess_points_json;;
                  wifi_manager_unlock_json_buffer)
   else wifi_set WIFI_MANAGER_REQUEST_WIFI_DISCONNECT);;
  wifi_clear WIFI_MANAGER_REQUEST_WIFI_SCAN.

Definition serve_ping : wprog unit :=
  state ← wifi_manager_check_connection;
  when (Z.eqb state ERR_WIFI_DISCONECTED)
    (wifi_manager_fetch_wifi_sta_config;;
     config ← get config_sta;
     n ← try (c ← config; strlen (sta_memory c));
     when (Nat.ltb 0 n) wifi_manager_connect_async);;
  wifi_clear WIFI_MANAGER_REQUEST_PING_TEST.

Definition REQUESTS : Z :=
  Z.lor (Z.lor (Z.lor WIFI_MANAGER_REQUEST_STA_CONNECT_BIT WIFI_MANAGER_REQUEST_WIFI_SCAN)
    WIFI_MANAGER_REQUEST_WIFI_DISCONNECT) WIFI_MANAGER_REQUEST_PING_TEST.

(** The requests of [uxBits]. *)
Definition serve_requests (uxBits : Z) : wprog unit :=
  when (has uxBits WIFI_MANAGER_REQUEST_WIFI_DISCONNECT) (serve_disconnect uxBits);;
  if has uxBits WIFI_MANAGER_REQUEST_STA_CONNECT_BIT then serve_connect uxBits;; mret tt
  else if has uxBits WIFI_MANAGER_REQUEST_WIFI_SCAN then serve_scan uxBits
  else when (has uxBits WIFI_MANAGER_REQUEST_PING_TEST) serve_ping.

(** The light follows the internet bit. *)
Definition show_internet : wprog unit :=
  a ← call (xEventGroupGetBits WIFI_EG);
  when (Z.eqb (Z.land (a_ret a) WIFI_MANAGER_HAVE_INTERNET_BIT) 0)
    (LED_SetEventBit LED_EVENT_WIFI_DISCONNECTED_BIT).

Definition wifi_manager_round : wprog unit :=
  a ← call (xEventGroupWaitBits WIFI_EG REQUESTS false false None);
  serve_requests (a_ret a);;
  show_internet.

(** ** Start of the task *)

Definition HTTP_SERVER_START_BIT_0 : Z := BIT 0.
Definition http_server_set_event_start : wprog unit :=
  call_ (xEventGroupSetBits HTTP_EG HTTP_SERVER_START_BIT_0).

Definition DEFAULT_AP_SSID : list Z := lit "AirU".

(** [sprintf (ap_ssid, "%s-%02X%02X", DEFAULT_AP_SSID, mac\[4\], mac\[5\])] *)
Definition ap_ssid_text (mac : list Z) : list Z :=
  DEFAULT_AP_SSID ++ lit "-" ++ pad0 2 (fmt_X (mac !!! 4%nat)) ++ pad0 2 (fmt_X (mac !!! 5%nat)).

(** The three addresses of [tcpip_adapter_ip_info_t]: ip, netmask, gw. *)
Definition static_ip_info : list Z :=
  [192; 168; 0; 10] ++ [255; 255; 255; 0] ++ [192; 168; 0; 1].
Definition ap_ip_info : list Z :=
  [192; 168; 4; 1] ++ [255; 255; 255; 0] ++ [192; 168; 4; 1].

(** A little-endian int of a structure. *)
Definition int_at (off : nat) (b : list Z) : Z :=
  foldr (fun c n => c + 256 * n) 0 (take 4 (drop off b)).

Definition ws_ap_bandwidth : nat := 100.
Definition ws_sta_power_save : nat := 108.
Definition TCPIP_ADAPTER_DHCP_STARTED : Z := 1.

(** A fresh array of records: NULL is an array of no record. *)
Definition fresh_records (a : answer) : list wifi_ap_record :=
  if Z.eqb (a_ret a) 0 then [] else resize MAX_AP_NUM ap_zero (a_aps a).

Definition init_buffers : wprog unit :=
  mutex ← call (xSemaphoreCreateMutex JSON_MUTEX);
  modify (set_json_mutex (negb (Z.eqb (a_ret mutex) 0)));;
  records ← call malloc_ap_records;
  modify (set_accessp_records (fresh_records records));;
  block ← heap_alloc (MAX_AP_NUM * JSON_ONE_APP_SIZE + 4);
  modify (set_accessp_json (snd block));;
  wifi_manager_clear_access_points_json;;
  block ← heap_alloc JSON_IP_INFO_SIZE;
  modify (set_ip_info_json (snd block));;
  block ← heap_alloc JSON_REG_INFO_SIZE;
  modify (set_reg_info_json (snd block));;
  wifi_manager_clear_ip_info_json;;
  wifi_manager_clear_reg_info_json;;
  config ← call malloc_wifi_config;
  modify (set_config_sta (fresh_config config));;
  update erase_config;;
  update (on_wifi_settings (fun b => write b ws_sta_static_ip_config static_ip_info));;
  mac ← call esp_efuse_mac_get_default;
  update (on_wifi_settings (fun b => strcpy b ws_ap_ssid (ap_ssid_text (a_bytes mac)))).

(** The saved network, and the request to connect to it. *)
Definition init_saved_network : wprog unit :=
  call_ tcpip_adapter_init;;
  call_ (xEventGroupCreate WIFI_EG);;
  check_ esp_event_loop_init;;
  saved ← wifi_manager_fetch_wifi_sta_config;
  when saved (wifi_set WIFI_MANAGER_REQUEST_STA_CONNECT_BIT).

Definition init_addresses : wprog unit :=
  check_ tcpip_adapter_dhcps_stop;;
  check_ (tcpip_adapter_set_ip_info false ap_ip_info);;
  check_ tcpip_adapter_dhcps_start;;
  settings ← get wifi_settings;
  static ← try (settings !! ws_sta_static_ip);
  if negb (Z.eqb static 0) then
    check_ tcpip_adapter_dhcpc_stop;;
    settings ← get wifi_settings;
    check_ (tcpip_adapter_set_ip_info true (take 12 (drop ws_sta_static_ip_config settings)))
  else
    status ← esp_error_check tcpip_adapter_dhcpc_get_status;
    when (negb (Z.eqb (a_val status) TCPIP_ADAPTER_DHCP_STARTED)) (check_ tcpip_adapter_dhcpc_start).

Definition init_radio : wprog unit :=
  check_ esp_wifi_init;;
  check_ esp_wifi_set_storage;;
  check_ esp_wifi_set_mode;;
  settings ← get wifi_settings;
  check_ (esp_wifi_set_bandwidth (int_at ws_ap_bandwidth settings));;
  settings ← get wifi_settings;
  check_ (esp_wifi_set_ps (int_at ws_sta_power_save settings));;
  settings ← get wifi_settings;
  channel ← try (settings !! ws_ap_channel);
  hidden ← try (settings !! ws_ap_ssid_hidden);
  check_ (esp_wifi_set_config_ap (take MAX_SSID_SIZE (drop ws_ap_ssid settings))
            (take MAX_PASSWORD_SIZE (drop ws_ap_pwd settings)) channel hidden);;
  check_ esp_wifi_start.

(** [wifi_manager] up to its loop. *)
Definition wifi_manager_init : wprog unit :=
  init_buffers;;
  init_saved_network;;
  init_addresses;;
  init_radio;;
  call_ (xEventGroupWaitBits WIFI_EG WIFI_MANAGER_AP_STARTED false true None);;
  http_server_set_event_start;;
  call_ (xTimerCreate WIFI_RECONNECT_TIMER RECONNECT_RETRY_PERIOD);;
  wifi_set WIFI_MANAGER_REQUEST_WIFI_SCAN.

(** [wifi_manager_destroy] *)
Definition wifi_manager_destroy : wprog unit :=
  call_ (free_var (lit "accessp_records"));; modify (set_accessp_records []);;
  call_ (free_var (lit "accessp_json"));; modify (set_accessp_json None);;
  call_ (free_var (lit "ip_info_json"));; modify (set_ip_info_json None);;
  call_ (free_var (lit "reg_info_json"));; modify (set_reg_info_json None);;
  config ← get config_sta;
  (if config is Some _ then
     call_ (free_var (lit "wifi_manager_config_sta"));; modify (set_config_sta None)
   else mret tt);;
  call_ (vSemaphoreDelete JSON_MUTEX);;
  modify (set_json_mutex false);;
  call_ (vEventGroupDelete WIFI_EG);;
  call_ vTaskDelete.

(** ** When the configuration is saved *)

Definition is_save (e : ext) : bool :=
  match e with nvs_set_blob _ _ _ => true | _ => false end.

(** The calls of a round so far show a reason to write to the storage: the
    user asked to disconnect, or the wait for the outcome of a connection
    attempt returned the connected bit. *)
Definition may_save (h : ctrace) : Prop :=
  (exists a, In (xEventGroupWaitBits WIFI_EG REQUESTS false false None, a) h /\
     has (a_ret a) WIFI_MANAGER_REQUEST_WIFI_DISCONNECT = true) \/
  (exists a, In (xEventGroupWaitBits WIFI_EG CONNECT_EVENTS false false None, a) h /\
     has (a_ret a) WIFI_MANAGER_WIFI_CONNECTED_BIT = true).

Lemma may_save_app h t : may_save h -> may_save (h ++ t).
Proof.
  intros [(a & Ha & Hb)|(a & Ha & Hb)]; [left|right]; exists a; (split; [|done]);
    apply in_or_app; by left.
Qed.

Abbreviation quiet p := (only (fun e => is_save e = false) any p).

Definition save_discipline (h : ctrace) (e : ext) : Prop := is_save e = true -> may_save h.
Abbreviation save_safe R p := (safe R save_discipline (fun _ => True) p).

Lemma quiet_status_update c : quiet (wifi_manager_json_status_update c).
Proof. solve_only. Qed.
Lemma quiet_fetch : quiet wifi_manager_fetch_wifi_sta_config.
Proof. solve_only. Qed.
Lemma quiet_ping : quiet serve_ping.
Proof.
  apply (only_bind _ any); [solve_only|]. intros x _.
  apply (only_bind _ any); [|intros; solve_only].
  unfold when. case_match; [|done].
  apply (only_bind _ any); [exact quiet_fetch|]. intros; solve_only.
Qed.
Lemma quiet_scan b : quiet (serve_scan b).
Proof. solve_only. Qed.
Lemma quiet_disconnect_and_wait : quiet disconnect_and_wait.
Proof. solve_only. Qed.
Lemma quiet_connect_failed : quiet connect_failed.
Proof. solve_only. Qed.

#[export] Hint Resolve quiet_status_update quiet_ping quiet_scan quiet_disconnect_and_wait
  quiet_connect_failed : airu.

Lemma quiet_safe {X} R (p : wprog X) : quiet p -> save_safe R p.
Proof.
  intros Hq. eapply safe_only; [exact Hq|..]; [|done]. intros h e He Hs. congruence.
Qed.

Lemma may_save_wp {X} R Q (p : wprog X) h s : may_save h ->
  (forall h o s, Q h o s) -> wp R (fun h _ e => save_discipline h e) Q p h s.
Proof.
  intros Hm HQ. eapply wp_only; [apply only_all|..].
  - intros t s' e _ _ _. by apply may_save_app.
  - intros. apply HQ.
Qed.

#[export] Hint Resolve quiet_safe safe_ret : airu.

Lemma save_safe_connect R b : save_safe R (serve_connect b).
Proof.
  unfold serve_connect.
  apply safe_bind; [unfold when; case_match; auto with airu|]. intros _.
  do 4 (apply safe_bind; [apply quiet_safe; solve_only|]; intros ?).
  intros h s _. unfold mbind, prog_bind. cbn [bind call wp]. split; [done|]. intros a s6 _.
  destruct (has (a_ret a) WIFI_MANAGER_WIFI_CONNECTED_BIT) eqn:Hb.
  - apply may_save_wp; [|intros ? o ?; by destruct o]. right. exists a. split; [|done].
    apply in_or_app. right. by left.
  - assert (save_safe R (bind (fun _ : unit => bind (fun _ : unit => mret (a_ret a))
      (wifi_clear WIFI_MANAGER_REQUEST_STA_CONNECT_BIT))
      (if has (a_ret a) CONNECT_EVENTS then connect_failed
       else wifi_set WIFI_MANAGER_STA_DISCONNECT_BIT))) as Hs; [|by apply Hs].
    apply safe_bind; [case_match; auto with airu; apply quiet_safe; solve_only|]. intros _.
    apply quiet_safe. solve_only.
Qed.

Lemma save_round_wp R s :
  wp R (fun h _ e => save_discipline h e) (fun _ _ _ => True) wifi_manager_round [] s.
Proof.
  unfold wifi_manager_round. unfold mbind, prog_bind. cbn [bind call wp].
  split; [done|]. intros a s1 _. cbn [app].
  destruct (has (a_ret a) WIFI_MANAGER_REQUEST_WIFI_DISCONNECT) eqn:Hd.
  { apply may_save_wp; [|done]. left. exists a. split; [by left|done]. }
  assert (save_safe R (bind (fun _ : unit => show_internet) (serve_requests (a_ret a)))) as Hs.
  { apply safe_bind; [|intros _; apply quiet_safe; solve_only].
    unfold serve_requests. rewrite Hd. apply safe_bind; [apply safe_ret|]. intros _.
    case_match; [apply safe_bind; [apply save_safe_connect|intros; apply quiet_safe; solve_only]|].
    case_match; [auto with airu|]. unfold when. case_match; [auto with airu|].
    apply quiet_safe. solve_only. }
  eapply wp_mono; [|by apply Hs]. done.
Qed.

(** ** Lock and release of the JSON mutex *)

(** Successful takes minus gives. *)
Definition lock_step (n : Z) (c : ext * answer) : Z :=
  match fst c with
  | xSemaphoreTake JSON_MUTEX _ => if Z.eqb (a_ret (snd c)) pdTRUE then n + 1 else n
  | xSemaphoreGive JSON_MUTEX => n - 1
  | _ => n
  end.
Definition locks (tr : ctrace) : Z := foldl lock_step 0 tr.

Definition is_lock (e : ext) : bool :=
  match e with
  | xSemaphoreTake JSON_MUTEX _ | xSemaphoreGive JSON_MUTEX => true
  | _ => false
  end.

(** Takes only when free, gives only when taken. *)
Definition lock_discipline (h : ctrace) (e : ext) : Prop :=
  match e with
  | xSemaphoreTake JSON_MUTEX _ => locks h = 0
  | xSemaphoreGive JSON_MUTEX => locks h = 1
  | _ => True
  end.

Lemma locks_snoc h e a : locks (h ++ [(e, a)]) = lock_step (locks h) (e, a).
Proof. unfold locks. by rewrite foldl_app. Qed.

Lemma locks_unlocked h t : Forall (fun c => is_lock (fst c) = false) t -> locks (h ++ t) = locks h.
Proof.
  intros Ht. unfold locks. rewrite foldl_app. generalize (foldl lock_step 0 h). intros n.
  induction Ht as [|[e a] t He _ IH]; [done|]. cbn [foldl]. rewrite <- IH. f_equal.
  unfold lock_step. cbn [fst snd] in *. by destruct e; try done; destruct m.
Qed.

Abbreviation unlocked p := (only (fun e => is_lock e = false) any p).
Abbreviation lock_safe R p := (safe R lock_discipline (fun h => locks h = 0) p).

Lemma unlocked_discipline h e : is_lock e = false -> lock_discipline h e.
Proof. by destruct e; try done; destruct m. Qed.

Lemma unlocked_safe {X} R (p : wprog X) : unlocked p -> lock_safe R p.
Proof.
  intros Hp. eapply safe_only; [exact Hp|apply unlocked_discipline|].
  intros h t Hh Ht. by rewrite locks_unlocked.
Qed.

(** From the lock held to the lock released. *)
Definition releases {X} (R : wm -> wm -> Prop) (p : wprog X) : Prop :=
  forall h s, locks h = 1 ->
  wp R (fun h _ e => lock_discipline h e)
    (fun h o _ => match o with Done _ => locks h = 0 | _ => True end) p h s.

Lemma releases_bind {X Y} R (f : X -> wprog Y) p :
  unlocked p -> (forall x, releases R (f x)) -> releases R (bind f p).
Proof.
  intros Hp Hf h s Hh. eapply wp_only_bind; [exact Hp|..].
  - intros. by apply unlocked_discipline.
  - done.
  - intros t x s' Ht _. apply Hf. by rewrite locks_unlocked.
Qed.

Lemma releases_unlock R : releases R wifi_manager_unlock_json_buffer.
Proof.
  intros h s Hh. cbn. split; [done|]. intros a s1 _. rewrite locks_snoc. unfold lock_step. cbn. lia.
Qed.

Lemma releases_then {X Y} R (f : X -> wprog Y) p :
  releases R p -> (forall x, lock_safe R (f x)) -> releases R (bind f p).
Proof.
  intros Hp Hf h s Hh. apply wp_bind. eapply wp_mono; [|by apply Hp].
  intros h' [x|o|] s' HJ; simpl; [|done..]. by apply Hf.
Qed.

(** Code that runs knowing whether the lock was taken. *)
Lemma lock_section {X} R ticks (k : bool -> wprog X) :
  releases R (k true) -> lock_safe R (k false) ->
  lock_safe R (bind k (wifi_manager_lock_json_buffer ticks)).
Proof.
  intros Hp Hq h s Hh. unfold wifi_manager_lock_json_buffer, mbind, prog_bind. cbn [get bind wp].
  intros s1 _. destruct (json_mutex s1); [|by apply Hq]. cbn [call bind wp].
  split; [done|]. intros a s2 _. cbn [mret prog_ret bind].
  destruct (Z.eqb (a_ret a) pdTRUE) eqn:E; [apply Hp|apply Hq];
    rewrite locks_snoc; unfold lock_step; cbn [fst snd]; rewrite E, Hh; done.
Qed.

Lemma lock_safe_status_update R c : lock_safe R (wifi_manager_json_status_update c).
Proof.
  unfold wifi_manager_json_status_update. apply lock_section.
  - apply releases_bind; [solve_only|]. intros _. apply releases_unlock.
  - by intros h s.
Qed.

Lemma lock_safe_connect_async R : lock_safe R wifi_manager_connect_async.
Proof.
  unfold wifi_manager_connect_async. apply lock_section; cbn [when].
  - apply releases_then; [|intros _; by apply unlocked_safe].
    apply releases_bind; [solve_only|]. intros _. apply releases_unlock.
  - by apply unlocked_safe.
Qed.

Lemma lock_safe_scan R b : lock_safe R (serve_scan b).
Proof.
  unfold serve_scan. apply safe_bind; [apply unlocked_safe; solve_only|]. intros _.
  apply safe_bind; [|intros _; by apply unlocked_safe].
  case_match; [|by apply unlocked_safe].
  do 4 (apply safe_bind; [apply unlocked_safe; solve_only|intros ?]).
  apply lock_section; cbn [when]; [|apply safe_ret].
  do 2 (apply releases_bind; [solve_only|intros _]). apply releases_unlock.
Qed.

#[export] Hint Resolve lock_safe_status_update lock_safe_connect_async lock_safe_scan
  unlocked_safe : airu.

(** [solve_safe lem]: a sequence whose parts the hints know or that do not
    touch the lock. *)
Ltac solve_lock :=
  repeat first
    [ solve [eauto 2 with airu]
    | apply safe_bind; [|intros ?]
    | case_match
    | solve [apply unlocked_safe; solve_only] ].

Lemma lock_safe_ping R : lock_safe R serve_ping.
Proof. unfold serve_ping, when. solve_lock. Qed.

Lemma lock_safe_disconnect R b : lock_safe R (serve_disconnect b).
Proof. unfold serve_disconnect. solve_lock. Qed.

Lemma lock_safe_connect R b : lock_safe R (serve_connect b).
Proof. unfold serve_connect, connect_succeeded, connect_failed. solve_lock. Qed.

#[export] Hint Resolve lock_safe_ping lock_safe_disconnect lock_safe_connect : airu.

Lemma lock_safe_round R : lock_safe R wifi_manager_round.
Proof. unfold wifi_manager_round, serve_requests, when. solve_lock. Qed.

(** ** Theorems *)

(** C5: Over any number of rounds of the task, with any answers and whatever the
    other tasks do to the statics in between: the configuration is written to
    the storage only in a round where the user asked to disconnect or where the
    wait for the outcome of a connection attempt reported the connection. *)
Theorem config_saved_only_when R s tr s' t1 h k v a t2 :
  iterates R wifi_manager_round s tr s' ->
  tr = t1 ++ (nvs_set_blob h k v, a) :: t2 ->
  exists t0 round, t1 = t0 ++ round /\ may_save round.
Proof.
  intros Hi Ht.
  destruct (iterates_calls R save_discipline wifi_manager_round (save_round_wp R) s tr s' Hi
    t1 _ a t2 Ht) as (t0 & round & -> & Hd).
  exists t0, round. split; [done|]. by apply Hd.
Qed.

(** A round takes the JSON mutex only when it does not hold it, gives it only
    when it does, and holds it no more when the round ends; so does
    [wifi_manager_connect_async], which other tasks call. *)
Theorem json_mutex_balanced R s tr o s' :
  exec R wifi_manager_round s tr o s' \/ exec R wifi_manager_connect_async s tr o s' ->
  (forall t1 e a t2, tr = t1 ++ (e, a) :: t2 -> lock_discipline t1 e) /\
  (o = Done tt -> locks tr = 0).
Proof.
  intros [He|He]; eapply safe_exec in He as [H1 H2];
    [| |apply lock_safe_round| | |apply lock_safe_connect_async]; eauto; done.
Qed.

(** What the driver's events do to the bits of the manager: sets, then clears. *)
Definition event_sets (event : system_event) : Z :=
  match event with
  | SYSTEM_EVENT_AP_START => WIFI_MANAGER_AP_STARTED
  | SYSTEM_EVENT_AP_STACONNECTED => WIFI_MANAGER_AP_STA_CONNECTED_BIT
  | SYSTEM_EVENT_STA_GOT_IP => WIFI_MANAGER_WIFI_CONNECTED_BIT
  | SYSTEM_EVENT_STA_DISCONNECTED reason =>
      Z.lor WIFI_MANAGER_STA_DISCONNECT_BIT
        (if reconnects reason then WIFI_MANAGER_REQUEST_STA_CONNECT_BIT else 0)
  | _ => 0
  end.

Definition event_clears (event : system_event) : Z :=
  match event with
  | SYSTEM_EVENT_AP_STADISCONNECTED => WIFI_MANAGER_AP_STA_CONNECTED_BIT
  | SYSTEM_EVENT_STA_GOT_IP => WIFI_MANAGER_REQUEST_RECONNECT
  | SYSTEM_EVENT_STA_DISCONNECTED _ =>
      Z.lor WIFI_MANAGER_HAVE_INTERNET_BIT WIFI_MANAGER_WIFI_CONNECTED_BIT
  | _ => 0
  end.

Section event_bits.
Context {G : Type} `{EventGroupLaws G}.

Lemma eg_set_0 (g : G) : eg_set 0 g ≡ g.
Proof. intros i. by rewrite eg_bit_set, Z.bits_0. Qed.
Lemma eg_clear_0 (g : G) : eg_clear 0 g ≡ g.
Proof. intros i. by rewrite eg_bit_clear, Z.bits_0. Qed.

Lemma event_handler_wp R event (g : G) s :
  wp R (fun _ _ _ => True)
    (fun tr o _ => o = Done ESP_OK /\
       eg_trace WIFI_EG tr g ≡ eg_clear (event_clears event) (eg_set (event_sets event) g))
    (wifi_manager_event_handler event) [] s.
Proof.
  destruct event as [| | | | |reason|]; unfold wifi_manager_event_handler, wifi_set, wifi_clear,
    LED_SetEventBit, event_sets, event_clears;
    try (prog_simpl; repeat (split; [done|intros ? ? _]); split; [done|];
         cbn; rewrite ?eg_set_0, ?eg_clear_0; reflexivity).
  destruct (reconnects reason); prog_simpl; repeat (split; [done|intros ? ? _]); (split; [done|]);
    intros i; unfold eg_trace; cbn [app foldl fst eg_call];
    rewrite !(decide_True (P := WIFI_EG = WIFI_EG)), ?(decide_False (P := WIFI_EG = LED_EG)) by done;
    rewrite ?eg_bit_clear, ?eg_bit_set, !Z.lor_spec, ?Z.bits_0;
    destruct (eg_bit i g); repeat destruct (Z.testbit _ i); reflexivity.
Qed.

End event_bits.

(** ** More of the task *)

(** What [wifi_manager_check_connection] returns: the bit HAVE_INTERNET (256)
    and not 1, or 0, or ERR_WIFI_DISCONECTED. *)
Lemma land_bit8 x : Z.land WIFI_MANAGER_HAVE_INTERNET_BIT x = 0 \/
  Z.land WIFI_MANAGER_HAVE_INTERNET_BIT x = 256.
Proof.
  change WIFI_MANAGER_HAVE_INTERNET_BIT with (2 ^ 8). destruct (Z.testbit x 8) eqn:E; [right|left];
    apply Z.bits_inj'; intros n Hn; rewrite Z.land_spec, Z.pow2_bits_eqb by lia.
  - change 256 with (2 ^ 8). rewrite Z.pow2_bits_eqb by lia.
    destruct (Z.eqb_spec 8 n) as [<-|]; [by rewrite E|done].
  - rewrite Z.bits_0. destruct (Z.eqb_spec 8 n) as [<-|]; [by rewrite E|done].
Qed.

Definition connection_state (r : Z) : Prop := r = 256 \/ r = 0 \/ r = ERR_WIFI_DISCONECTED.

(** Two calls the source has but no round makes. *)
Definition dead_call (e : ext) : bool :=
  match e with
  | xEventGroupClearBits WIFI_EG m => Z.eqb m WIFI_MANAGER_REQUEST_RECONNECT
  | xEventGroupSetBits WIFI_EG m => Z.eqb m WIFI_MANAGER_REQUEST_WIFI_DISCONNECT
  | _ => false
  end.

Abbreviation alive Q p := (only (fun e => dead_call e = false) Q p).

Lemma alive_check_connection : alive connection_state wifi_manager_check_connection.
Proof.
  unfold wifi_manager_check_connection. apply (only_bind _ any); [solve_only|]. intros [] _.
  2: { cbn. right. by right. }
  apply (only_bind _ any); [solve_only|]. intros _ _.
  apply (only_bind _ any); [solve_only|]. intros a _. cbv zeta.
  apply (only_bind _ any); [solve_only|]. intros _ _. cbn [only].
  destruct (land_bit8 (a_ret a)) as [E|E]; rewrite E; cbn; unfold connection_state; auto.
Qed.

Lemma alive_check_connection_any : alive any wifi_manager_check_connection.
Proof. eapply only_mono; [| |apply alive_check_connection]; done. Qed.

Lemma alive_save : alive any wifi_manager_save_sta_config.
Proof. unfold wifi_manager_save_sta_config, with_config, checked. solve_only. Qed.

Lemma alive_status c : alive any (wifi_manager_json_status_update c).
Proof. solve_only. Qed.

Lemma alive_fetch : alive any wifi_manager_fetch_wifi_sta_config.
Proof. solve_only. Qed.

#[export] Hint Resolve alive_check_connection_any alive_save alive_status alive_fetch : airu.

Lemma alive_disconnect b : alive any (serve_disconnect b).
Proof. unfold serve_disconnect, when. solve_only. Qed.

Lemma alive_succeeded : alive any connect_succeeded.
Proof.
  unfold connect_succeeded. do 3 (apply (only_bind _ any); [solve_only|intros _ _]).
  apply (only_bind _ connection_state); [apply alive_check_connection|].
  intros r [->|[->| ->]]; match goal with |- context [Z.eqb ?a 1] => change (Z.eqb a 1) with false end;
    solve_only.
Qed.

#[export] Hint Resolve alive_disconnect alive_succeeded : airu.

Lemma alive_connect b : alive any (serve_connect b).
Proof. unfold serve_connect. solve_only. Qed.

Lemma alive_scan b : has b WIFI_MANAGER_REQUEST_STA_CONNECT_BIT = false ->
  alive any (serve_scan b).
Proof. intros Hb. unfold serve_scan. rewrite Hb. cbn [negb]. solve_only. Qed.

Lemma alive_ping : alive any serve_ping.
Proof. unfold serve_ping, when. solve_only. Qed.

#[export] Hint Resolve alive_connect alive_scan alive_ping : airu.

Lemma alive_round : alive any wifi_manager_round.
Proof.
  unfold wifi_manager_round. apply (only_bind _ any); [solve_only|]. intros a _.
  apply (only_bind _ any); [|intros _ _; solve_only]. unfold serve_requests.
  apply (only_bind _ any); [unfold when; solve_only|]. intros _ _.
  destruct (has (a_ret a) WIFI_MANAGER_REQUEST_STA_CONNECT_BIT) eqn:Hb; [solve_only|].
  destruct (has (a_ret a) WIFI_MANAGER_REQUEST_WIFI_SCAN); [auto with airu|].
  unfold when. solve_only.
Qed.

(** Two branches of the loop never run. No round clears the reconnect request,
    which the code does when the ping test succeeds: the test's success value
    is the event bit (256) and the code compares it with 1. And no round
    requests a disconnection, which the code means to do when a scan comes
    while a connection is attempted: that branch is under the [else] of the
    very test it repeats. *)
Theorem dead_branches R s tr o s' :
  exec R wifi_manager_round s tr o s' -> Forall (fun c => dead_call (fst c) = false) tr.
Proof. intros He. by eapply only_exec in He as [H _]; [|apply alive_round]. Qed.

(** So every successful connection ends by asking for the reconnect timer,
    with or without internet access. *)
Theorem connection_checks_timer R s tr s' :
  exec R connect_succeeded s tr (Done tt) s' ->
  In (xTimerIsTimerActive WIFI_RECONNECT_TIMER) (map fst tr).
Proof.
  intros He. unfold connect_succeeded, mbind, prog_bind in He.
  apply exec_bind_done in He as (t1 & [] & s1 & t2 & -> & _ & He).
  apply exec_bind_done in He as (t3 & [] & s2 & t4 & -> & _ & He).
  apply exec_bind_done in He as (t5 & ? & s3 & t6 & -> & _ & He).
  apply exec_bind_done in He as (t7 & r & s4 & t8 & -> & Hc & He).
  eapply only_exec in Hc as [_ Hr]; [|apply alive_check_connection].
  assert (Z.eqb r 1 = false) as E by (destruct (Hr r eq_refl) as [->|[->| ->]]; done).
  rewrite E in He. apply does_bind_l with (e := xTimerIsTimerActive WIFI_RECONNECT_TIMER) in He;
    [|apply does_here].
  rewrite !map_app, !in_app_iff. auto.
Qed.

Lemma does_wifi_clear {S} bits : does (xEventGroupClearBits WIFI_EG bits) (wifi_clear (S := S) bits).
Proof. apply does_here. Qed.

#[export] Hint Resolve does_wifi_clear : airu.

(** [solve_does]: the call is one of the last of a sequence. *)
Ltac solve_does :=
  repeat first [solve [auto 2 with airu] | apply does_bind_r; intros ?
               | solve [apply does_bind_l; auto 2 with airu] ].

Lemma does_release_disconnect b :
  does (xEventGroupClearBits WIFI_EG WIFI_MANAGER_REQUEST_WIFI_DISCONNECT) (serve_disconnect b).
Proof. unfold serve_disconnect. solve_does. Qed.
Lemma does_release_connect b :
  does (xEventGroupClearBits WIFI_EG WIFI_MANAGER_REQUEST_STA_CONNECT_BIT) (serve_connect b).
Proof. unfold serve_connect. do 6 (apply does_bind_r; intros ?). apply does_bind_r. intros ?.
  apply does_bind_l. auto with airu. Qed.
Lemma does_release_scan b :
  does (xEventGroupClearBits WIFI_EG WIFI_MANAGER_REQUEST_WIFI_SCAN) (serve_scan b).
Proof. unfold serve_scan. solve_does. Qed.
Lemma does_release_ping :
  does (xEventGroupClearBits WIFI_EG WIFI_MANAGER_REQUEST_PING_TEST) serve_ping.
Proof. unfold serve_ping. solve_does. Qed.

(** The request a round releases, besides that of a disconnection. *)
Definition released (bits : Z) : option Z :=
  if has bits WIFI_MANAGER_REQUEST_STA_CONNECT_BIT then Some WIFI_MANAGER_REQUEST_STA_CONNECT_BIT
  else if has bits WIFI_MANAGER_REQUEST_WIFI_SCAN then Some WIFI_MANAGER_REQUEST_WIFI_SCAN
  else if has bits WIFI_MANAGER_REQUEST_PING_TEST then Some WIFI_MANAGER_REQUEST_PING_TEST
  else None.

(** C9: A round that ends has cleared the bits of the requests it served, so the
    next wait does not return for them: the disconnection, and the first of
    connection, scan and ping test that was requested. *)
Theorem served_requests_released R s tr s' :
  exec R wifi_manager_round s tr (Done tt) s' ->
  exists a tr', tr = (xEventGroupWaitBits WIFI_EG REQUESTS false false None, a) :: tr' /\
  (has (a_ret a) WIFI_MANAGER_REQUEST_WIFI_DISCONNECT = true ->
     In (xEventGroupClearBits WIFI_EG WIFI_MANAGER_REQUEST_WIFI_DISCONNECT) (map fst tr')) /\
  (forall bit, released (a_ret a) = Some bit -> In (xEventGroupClearBits WIFI_EG bit) (map fst tr')).
Proof.
  intros He. unfold wifi_manager_round, mbind, prog_bind in He. cbn [call bind] in He.
  inversion He as [| | | | | |? ? ? a s1 tr' ? ? HR Hk]; subst. exists a, tr'. split; [done|].
  apply exec_bind_done in Hk as (t1 & [] & s2 & t2 & -> & Hs & _).
  rewrite map_app. split.
  - intros Hd. apply in_or_app. left. unfold serve_requests in Hs. rewrite Hd in Hs.
    eapply (does_bind_l _ _ _ (does_release_disconnect _)), Hs.
  - intros bit Hb. apply in_or_app. left. unfold released in Hb. unfold serve_requests in Hs.
    revert Hs. apply (does_bind_r (xEventGroupClearBits WIFI_EG bit)). intros _.
    repeat case_match; simplify_eq; cbn [when].
    + apply does_bind_l, does_release_connect.
    + apply does_release_scan.
    + apply does_release_ping.
Qed.

(** The blobs a save may write for the configuration [c]. *)
Definition saves_blob (c : sta_config) (e : ext) : Prop :=
  match e with
  | nvs_set_blob _ k v =>
      (k = lit "ssid" /\ v = sta_ssid c) \/ (k = lit "password" /\ v = sta_password c)
      \/ k = lit "settings"
  | _ => True
  end.

Lemma save_blobs_wp s c : config_sta s = Some c ->
  wp eq (fun _ _ e => saves_blob c e) (fun _ _ _ => True) wifi_manager_save_sta_config [] s.
Proof.
  intros Hc. unfold wifi_manager_save_sta_config, with_config, checked. cbn [wp].
  intros ? <-. rewrite Hc. cbn [wp]. split; [done|]. intros a ? <-.
  case_match; [|done]. cbn [wp]. intros ? <-. rewrite Hc. cbn [wp].
  split; [cbn; auto|]. intros a1 ? <-.
  case_match; [|done]. cbn [wp]. intros ? <-. rewrite Hc. cbn [wp].
  split; [cbn; auto|]. intros a2 ? <-.
  case_match; [|done]. cbn [wp]. intros ? <-. split; [cbn; auto|]. intros a3 ? <-.
  case_match; [|done]. cbn [wp]. split; [done|]. intros a4 ? <-.
  case_match; [|done]. cbn [wp]. by split.
Qed.

Lemma reads_only_disconnect_and_wait : reads_only disconnect_and_wait.
Proof. cbn. intros _ a. by destruct (Z.eqb _ _). Qed.

(** A disconnection on request erases the network from the storage: every name
    and password the round writes is all zeros. *)
Theorem disconnect_forgets_network s c b tr s' :
  config_sta s = Some c -> exec eq (serve_disconnect b) s tr (Done tt) s' ->
  forall h k v a, In (nvs_set_blob h k v, a) tr ->
  k = lit "settings" \/ Forall (fun x => x = 0) v.
Proof.
  intros Hc He h k v a Hin. unfold serve_disconnect, mbind, prog_bind in He.
  assert (forall X (p : wprog X) s t x s', quiet p -> exec eq p s t (Done x) s' ->
    ~ In (nvs_set_blob h k v, a) t) as Hquiet.
  { intros X p s0 t x s1 Hq Hp Hi. eapply only_exec in Hp as [Hf _]; [|exact Hq].
    rewrite Forall_forall in Hf. apply list_elem_of_In, Hf in Hi. done. }
  apply exec_bind_done in He as (t1 & [] & s1 & t1' & -> & H1 & He).
  apply exec_bind_done in He as (t2 & [] & s2 & t2' & -> & H2 & He).
  apply exec_bind_done in He as (t3 & [] & s3 & t3' & -> & H3 & He).
  apply exec_bind_done in He as (t4 & [] & s4 & t4' & -> & H4 & He).
  apply exec_bind_done in He as (t5 & [] & s5 & t5' & -> & H5 & He).
  apply exec_bind_done in He as (t6 & r6 & s6 & t6' & -> & H6 & He).
  assert (s4 = s) as ->.
  { transitivity s3; [by eapply reads_only_exec, H4|].
    transitivity s2; [eapply reads_only_exec, H3; unfold when; case_match;
      [apply reads_only_disconnect_and_wait|done]|].
    transitivity s1; [by eapply reads_only_exec, H2|by eapply reads_only_exec, H1]. }
  assert (config_sta s5 = Some (sta_zero c)) as Hc5.
  { inversion H5 as [| | |? ? ? ? ? ? ? ? HR Hk|? ? ? s0 ? ? ? ? HR Hf Hk| |]; subst.
    unfold erase_config_if_any, erase_config in Hf. rewrite Hc in Hf. simplify_eq/=.
    by inversion Hk; subst. }
  destruct (wp_exec _ _ _ _ _ _ _ _ _ (save_blobs_wp s5 _ Hc5) H6) as [_ HB].
  rewrite !in_app_iff in Hin.
  destruct Hin as [Hin|[Hin|[Hin|[Hin|[Hin|[Hin|Hin]]]]]].
  - by eapply Hquiet in H1.
  - by eapply Hquiet in H2.
  - eapply Hquiet in H3; [done|]. unfold when. case_match; [auto with airu|done].
  - by eapply Hquiet in H4.
  - by eapply Hquiet in H5.
  - apply in_split in Hin as (l1 & l2 & ->). destruct (HB _ _ _ _ eq_refl) as [_ [[_ ->]|[[_ ->]| ->]]];
      [right|right|by left]; by apply Forall_replicate.
  - eapply Hquiet in He; [done|]. solve_only.
Qed.

(** ** Instances *)

(** A connection request served on [demo_saved]: the attempt succeeds. *)
Definition connect_answers : list answer :=
  [ret_ 8; ret_ 0; ret_ 0; ret_ 0; ret_ 1; ret_ pdTRUE; ret_ 0] ++
  replicate 3 (ret_bytes 0 (lit "10.0.0.2")) ++ [ret_ 0; ret_ 0; ret_val 0 1; ret_ 0].

Definition connect_run := run wifi_manager_round demo_saved connect_answers.

Lemma connect_run_exec : exec eq wifi_manager_round demo_saved (fst (fst connect_run)) Running
  (snd connect_run).
Proof. apply (run_exec _ _ connect_answers). by vm_compute. Qed.

Lemma config_saved_only_when_witness :
  exists t0 round, take 13 (fst (fst connect_run)) = t0 ++ round /\ may_save round.
Proof.
  eapply (config_saved_only_when eq demo_saved _ _ _ 1 (lit "ssid") (field 32 (lit "home")) (ret_ 0) []).
  - apply iter_part, connect_run_exec.
  - by vm_compute.
Defined.

Lemma json_mutex_balanced_witness :
  lock_discipline (take 10 (fst (fst connect_run))) (xSemaphoreGive JSON_MUTEX).
Proof.
  apply (proj1 (json_mutex_balanced eq demo_saved _ _ _ (or_introl connect_run_exec))
    _ _ (ret_ 0) (drop 11 (fst (fst connect_run)))). by vm_compute.
Defined.


Lemma dead_branches_witness :
  Forall (fun c => dead_call (fst c) = false) (fst (fst connect_run)).
Proof. exact (dead_branches _ _ _ _ _ connect_run_exec). Defined.

Definition succeeded_answers : list answer :=
  [ret_ pdTRUE; ret_ 0] ++ replicate 3 (ret_bytes 0 (lit "10.0.0.2")) ++ [ret_ 0; ret_ 0; ret_val 0 1]
  ++ replicate 5 (ret_ 0) ++ [ret_ 1] ++ replicate 7 (ret_ 0) ++ [ret_ 256; ret_ 0; ret_ 0].

Lemma connection_checks_timer_witness :
  let '(tr, _, _) := run connect_succeeded demo_saved succeeded_answers in
  In (xTimerIsTimerActive WIFI_RECONNECT_TIMER) (map fst tr).
Proof.
  destruct (run connect_succeeded demo_saved _) as [[tr o] s'] eqn:E.
  assert (o = Done tt) as -> by (vm_compute in E; congruence).
  exact (connection_checks_timer eq _ _ _ (run_exec _ _ _ _ _ _ E)).
Defined.

(** A ping request while not connected, nothing saved. *)
Definition ping_answers : list answer :=
  [ret_ 0x200; ret_ 0; ret_ ESP_ERR_NVS_NOT_FOUND; ret_ 0; ret_ 0; ret_ 0].

Lemma served_requests_released_witness :
  let '(tr, _, _) := run wifi_manager_round (demo_wm [] [] [] []) ping_answers in
  In (xEventGroupClearBits WIFI_EG WIFI_MANAGER_REQUEST_PING_TEST) (map fst tr).
Proof.
  destruct (run wifi_manager_round _ _) as [[tr o] s'] eqn:E.
  assert (o = Done tt) as -> by (vm_compute in E; congruence).
  destruct (served_requests_released eq _ _ _ (run_exec _ _ _ _ _ _ E)) as (a & tr' & -> & _ & H).
  cbn [map fst]. right. apply H. vm_compute in E. injection E as <- _ _. reflexivity.
Defined.

Definition forget_answers : list answer :=
  [ret_ 0; ret_ 0; ret_ 0; ret_val 0 1] ++ replicate 5 (ret_ 0) ++ [ret_ pdTRUE; ret_ 0; ret_ 0].

Lemma disconnect_forgets_network_witness :
  let '(tr, o, _) := run (serve_disconnect 64) demo_saved forget_answers in
  o = Done tt /\ forall h v a, In (nvs_set_blob h (lit "ssid") v, a) tr -> Forall (fun x => x = 0) v.
Proof.
  destruct (run (serve_disconnect 64) demo_saved _) as [[tr o] s'] eqn:E.
  assert (o = Done tt) as -> by (vm_compute in E; congruence).
  split; [done|]. intros h v a Hin.
  by destruct (disconnect_forgets_network demo_saved _ _ _ _ eq_refl (run_exec _ _ _ _ _ _ E)
    _ _ _ _ Hin) as [?|?].
Defined.
