(* ===== verification/JsonDoc.v ===== *)
(** * The documents of wifi_manager.c as a browser reads them

    A reader of JSON (objects, arrays, strings, integers; what it reads is
    JSON) and what it makes of the texts the printing functions leave in the
    shared buffers. *)

From S2P Require Import Prelude CMem Printf Json WifiScan WifiState WifiJson WifiManager.

Local Open Scope Z_scope.

(** ** JSON values and their reader *)

#[warnings="-register-all"]
Inductive json :=
  | JNum (n : Z)
  | JStr (s : list Z)
  | JArr (l : list json)
  | JObj (members : list (list Z * json)).

Definition json_space (c : Z) : bool := Z.eqb c 32 || Z.eqb c 9 || Z.eqb c 10 || Z.eqb c 13.

Fixpoint json_skip (t : list Z) : list Z :=
  match t with
  | c :: t' => if json_space c then json_skip t' else t
  | [] => []
  end.

(** A character, with space before it. *)
Definition json_char (c : Z) (t : list Z) : option (list Z) :=
  match json_skip t with
  | d :: r => if Z.eqb d c then Some r else None
  | [] => None
  end.

(** At least one digit, and no zero before another digit. *)
Definition json_natural (t : list Z) : option (Z * list Z) :=
  let '(ds, r) := span_digits t in
  match ds with
  | [] => None
  | d :: ds' => if Z.eqb d 0 && negb (Nat.eqb (length ds') 0) then None else Some (of_digits 10 ds, r)
  end.

Definition json_integer (t : list Z) : option (Z * list Z) :=
  match t with
  | c :: t' => if Z.eqb c 45 then '(n, r) ← json_natural t'; Some (- n, r) else json_natural t
  | [] => None
  end.

(** A name, a colon and a value. *)
Definition json_member (value : list Z -> option (json * list Z)) (t : list Z)
    : option ((list Z * json) * list Z) :=
  r ← json_char 34 t; '(k, r) ← json_read r; r ← json_char 58 r; '(v, r) ← value r; Some ((k, v), r).

(** A value, the rest of an array, the rest of an object. The fuel bounds the
    values and members read. *)
Fixpoint json_value (fuel : nat) (t : list Z) : option (json * list Z) :=
  match fuel with
  | O => None
  | S fuel =>
      match json_skip t with
      | [] => None
      | c :: t1 =>
          if Z.eqb c 34 then '(s, r) ← json_read t1; Some (JStr s, r)
          else if Z.eqb c 91 then
            match json_char 93 t1 with
            | Some r => Some (JArr [], r)
            | None => '(l, r) ← json_items fuel t1; Some (JArr l, r)
            end
          else if Z.eqb c 123 then
            match json_char 125 t1 with
            | Some r => Some (JObj [], r)
            | None => '(m, r) ← json_members fuel t1; Some (JObj m, r)
            end
          else '(n, r) ← json_integer (c :: t1); Some (JNum n, r)
      end
  end
with json_items (fuel : nat) (t : list Z) : option (list json * list Z) :=
  match fuel with
  | O => None
  | S fuel =>
      '(v, r) ← json_value fuel t;
      match json_char 93 r with
      | Some r => Some ([v], r)
      | None => r ← json_char 44 r; '(l, r) ← json_items fuel r; Some (v :: l, r)
      end
  end
with json_members (fuel : nat) (t : list Z) : option (list (list Z * json) * list Z) :=
  match fuel with
  | O => None
  | S fuel =>
      '(p, r) ← json_member (json_value fuel) t;
      match json_char 125 r with
      | Some r => Some ([p], r)
      | None => r ← json_char 44 r; '(m, r) ← json_members fuel r; Some (p :: m, r)
      end
  end.

(** A text that is one value. *)
Definition json_parse (t : list Z) : option json :=
  '(v, r) ← json_value (S (length t)) t;
  match json_skip r with [] => Some v | _ => None end.

(** ** What the documents say *)

Definition status_value (name ip netmask gw : list Z) (code : Z) : json :=
  JObj [(lit "ssid", JStr name); (lit "ip", JStr ip); (lit "netmask", JStr netmask); (lit "gw", JStr gw);
        (lit "urc", JNum code)].

Definition ap_value (ap : wifi_ap_record) : json :=
  JObj [(lit "ssid", JStr (ap_ssid ap)); (lit "chan", JNum (ap_primary ap)); (lit "rssi", JNum (ap_rssi ap));
        (lit "auth", JNum (ap_authmode ap))].

Definition reg_info_value (name email : list Z) (hidden : Z) (mac : list Z) : json :=
  JObj [(lit "name", JStr name); (lit "email", JStr email);
        (lit "mapVisibility", JNum (if Z.eqb hidden 0 then 1 else 0)); (lit "macAddress", JStr (mac_text mac))].

(** ** Reading what is printed *)

(** A character that stands for itself in a JSON string. *)
Definition plain_char (c : Z) : Prop := 31 < c < 256 /\ c <> 34 /\ c <> 92.

Lemma json_escape_plain_text s : Forall plain_char s -> json_escape s = s.
Proof.
  induction 1 as [|c s (? & ? & ?) _ IH]; [done|]. rewrite json_escape_cons, IH.
  by rewrite json_escape_char_plain by lia.
Qed.

Lemma json_string_plain s : Forall plain_char s -> json_string s = 34 :: s ++ [34].
Proof. intros Hs. unfold json_string. by rewrite json_escape_plain_text. Qed.

Lemma plain_bytes s : Forall plain_char s -> Forall is_byte s.
Proof. intros H. eapply Forall_impl; [exact H|]. unfold plain_char, is_byte. lia. Qed.

Lemma json_natural_fmt n r : 0 <= n -> no_digit r -> json_natural (fmt_u n ++ r) = Some (n, r).
Proof.
  intros Hn Hr. unfold json_natural, fmt_u. rewrite span_digits_fmt; [|by apply udigits_bounds|done].
  pose proof (udigits_value 10 n ltac:(lia) Hn) as Hv.
  destruct (udigits_head n Hn) as (d & ds & E & Hd). rewrite E in Hv |- *. rewrite Hv.
  destruct (Z.eqb_spec d 0) as [E0|]; [|done]. by rewrite (Hd E0).
Qed.

Lemma json_integer_fmt n r : no_digit r -> json_integer (fmt_d n ++ r) = Some (n, r).
Proof.
  intros Hr. unfold fmt_d. destruct (Z.ltb_spec n 0).
  - cbn [app json_integer]. change (45 =? 45) with true. rewrite json_natural_fmt by (lia || done).
    cbn [mbind option_bind]. do 2 f_equal. lia.
  - destruct (fmt_u_head n) as (c & t & E & Hc); [lia|]. rewrite <- (json_natural_fmt n r) by (lia || done).
    rewrite E. cbn [app json_integer]. by test_simpl.
Qed.

(** [t] reads as [v] before a character that is no digit, with fuel [n]. *)
Definition reads (n : nat) (v : json) (t : list Z) : Prop :=
  forall f r, (n <= f)%nat -> no_digit r -> json_value f (t ++ r) = Some (v, r).

Lemma reads_string s : Forall is_byte s -> reads 1 (JStr s) (json_string s).
Proof.
  intros Hs [|f] r Hf _; [lia|]. unfold json_string. cbn [app json_value]. cbn [json_skip]. cbn.
  rewrite <- app_assoc. cbn [app]. by rewrite json_read_escape.
Qed.

Lemma reads_number n : reads 1 (JNum n) (fmt_d n).
Proof.
  intros [|f] r Hf Hr; [lia|]. pose proof (json_integer_fmt n r Hr) as E.
  destruct (fmt_d_head n) as (c & t & Et & Hc). rewrite Et in E |- *.
  cbn [app json_value json_skip] in E |- *. unfold json_space. test_simpl. cbn [orb]. test_simpl.
  by rewrite E.
Qed.

(** *** Objects *)

(** The members as printed: name, colon, value, without space. *)
Fixpoint members_text (m : list (list Z * list Z)) : list Z :=
  match m with
  | [] => []
  | [(k, t)] => json_string k ++ 58 :: t
  | (k, t) :: m => json_string k ++ 58 :: t ++ 44 :: members_text m
  end.

Lemma json_char_here c r : json_space c = false -> json_char c (c :: r) = Some r.
Proof. intros Hc. unfold json_char. cbn [json_skip]. by rewrite Hc, Z.eqb_refl. Qed.

Lemma json_char_not c d r : json_space d = false -> d <> c -> json_char c (d :: r) = None.
Proof. intros Hd Hc. unfold json_char. cbn [json_skip]. rewrite Hd. by rewrite (proj2 (Z.eqb_neq _ _)). Qed.

Lemma no_digit_cons c r : is_digit c = false -> no_digit (c :: r).
Proof. by intros Hc ? ? [= <- _]. Qed.

(** A member and its text: the same name, a value that reads. *)
Definition member_reads (p : list Z * json) (q : list Z * list Z) : Prop :=
  fst p = fst q /\ Forall is_byte (fst q) /\ reads 1 (snd p) (snd q).

Lemma json_member_read f k v t r :
  Forall is_byte k -> reads 1 v t -> (1 <= f)%nat -> no_digit r ->
  json_member (json_value f) (json_string k ++ 58 :: t ++ r) = Some ((k, v), r).
Proof.
  intros Hk Hv Hf Hr. unfold json_member, json_string. cbn [app].
  rewrite json_char_here by done. cbn [mbind option_bind].
  rewrite <- app_assoc. cbn [app]. rewrite json_read_escape by done. cbn [mbind option_bind].
  rewrite json_char_here by done. cbn [mbind option_bind]. by rewrite Hv.
Qed.

Lemma json_members_read m q f r :
  Forall2 member_reads m q -> m <> [] -> (length m < f)%nat ->
  json_members f (members_text q ++ 125 :: r) = Some (m, r).
Proof.
  intros Hm. revert f. induction Hm as [|[k v] [k' t] m q (Hk & Hb & Hv) Hm IH]; intros f Hne Hf; [done|].
  cbn [fst snd] in Hk, Hb, Hv. subst k'. destruct f as [|f]; [lia|]. cbn [length] in Hf.
  cbn [json_members]. destruct Hm as [|p [k2 t2] m q Hp Hm].
  - cbn [members_text]. rewrite <- app_assoc. cbn [app].
    rewrite (json_member_read f k v) by (done || lia || by apply no_digit_cons). cbn [mbind option_bind].
    by rewrite json_char_here.
  - change (members_text ((k, t) :: (k2, t2) :: q)) with (json_string k ++ 58 :: t ++ 44 :: members_text ((k2, t2) :: q)).
    rewrite <- app_assoc. cbn [app]. rewrite <- app_assoc. cbn [app].
    rewrite (json_member_read f k v) by (done || lia || by apply no_digit_cons). cbn [mbind option_bind].
    rewrite json_char_not by done. rewrite json_char_here by done. cbn [mbind option_bind].
    rewrite IH; [done|done|]. cbn [length] in *. lia.
Qed.

Lemma reads_object m q :
  Forall2 member_reads m q -> m <> [] -> reads (length m + 2) (JObj m) (123 :: members_text q ++ [125]).
Proof.
  intros Hm Hne [|f] r Hf Hr; [lia|]. cbn [app json_value json_skip]. cbn.
  rewrite <- app_assoc. cbn [app].
  assert (json_char 125 (members_text q ++ 125 :: r) = None) as ->.
  { destruct Hm as [|[k v] [k' t] m q]; [done|]. destruct q as [|[]]; cbn [members_text];
      unfold json_string; cbn [app]; by rewrite json_char_not. }
  rewrite (json_members_read m) by (done || lia). done.
Qed.

(** ** The texts *)

Lemma json_parse_object m q tl :
  Forall2 member_reads m q -> m <> [] -> (length m <= length (members_text q))%nat ->
  tl = [] \/ tl = [10] ->
  json_parse (123 :: members_text q ++ 125 :: tl) = Some (JObj m).
Proof.
  intros Hm Hne Hl Htl. unfold json_parse.
  pose proof (reads_object m q Hm Hne (S (length (123 :: members_text q ++ 125 :: tl))) tl) as E.
  cbn [app] in E. rewrite <- app_assoc in E. cbn [app] in E. rewrite E.
  - cbn [mbind option_bind]. by destruct Htl as [-> | ->].
  - cbn [length]. rewrite length_app. cbn [length]. lia.
  - destruct Htl as [-> | ->]; [done|by apply no_digit_cons].
Qed.

(** [text_eq]: two texts of the same pieces, differently cut. *)
Ltac text_eq :=
  unfold json_string;
  repeat match goal with
  | |- context [json_escape (lit ?s)] =>
      let v := eval vm_compute in (json_escape (lit s)) in change (json_escape (lit s)) with v
  | |- context [lit ?s] => let v := eval vm_compute in (lit s) in change (lit s) with v
  end;
  repeat (progress cbn [app] || rewrite <- app_assoc); reflexivity.

Definition status_members (name ip netmask gw : list Z) (code : Z) : list (list Z * list Z) :=
  [(lit "ssid", json_string name); (lit "ip", json_string ip); (lit "netmask", json_string netmask);
   (lit "gw", json_string gw); (lit "urc", fmt_d code)].

Lemma status_text_members name ip netmask gw code :
  Forall plain_char ip -> Forall plain_char netmask -> Forall plain_char gw ->
  status_text name ip netmask gw code = 123 :: members_text (status_members name ip netmask gw code) ++ [125; 10].
Proof.
  intros H1 H2 H3. unfold status_text, ip_info_text, status_members. cbn [members_text].
  rewrite (json_string_plain ip), (json_string_plain netmask), (json_string_plain gw) by done. text_eq.
Qed.

Definition reg_members (name email : list Z) (hidden : Z) (mac : list Z) : list (list Z * list Z) :=
  [(lit "name", json_string name); (lit "email", json_string email);
   (lit "mapVisibility", fmt_d (if Z.eqb hidden 0 then 1 else 0)); (lit "macAddress", json_string (mac_text mac))].

Lemma digit_char_plain up d : 0 <= d < 16 -> plain_char (digit_char up d) /\ 48 <= digit_char up d.
Proof. intros Hd. unfold plain_char, digit_char. destruct up; split_ifs; zify_bool; lia. Qed.

Lemma mac_text_plain mac : Forall plain_char (mac_text mac).
Proof.
  assert (forall i, Forall plain_char (pad0 2 (fmt_X (mac !!! i)))) as H.
  { intros i. unfold pad0. apply Forall_app. split; [by apply Forall_replicate|].
    unfold fmt_X. apply Forall_fmap. eapply Forall_impl; [apply (udigits_bounds 16); lia|].
    intros d Hd. by apply digit_char_plain. }
  assert (Forall plain_char (lit ":")) as Hc by (constructor; [done|constructor]).
  unfold mac_text. rewrite !Forall_app. auto 20.
Qed.

Lemma reg_text_members name email hidden mac :
  reg_info_text name email hidden mac = 123 :: members_text (reg_members name email hidden mac) ++ [125].
Proof.
  unfold reg_info_text, map_visibility_text, mac_address_text, reg_members. cbn [members_text].
  rewrite (json_string_plain (mac_text mac)) by apply mac_text_plain. text_eq.
Qed.

Lemma status_text_parse name ip netmask gw code :
  Forall is_byte name -> Forall plain_char ip -> Forall plain_char netmask -> Forall plain_char gw ->
  json_parse (status_text name ip netmask gw code) = Some (status_value name ip netmask gw code).
Proof.
  intros Hn H1 H2 H3. rewrite status_text_members by done. apply json_parse_object; [|done| |by right].
  - unfold status_members. repeat (constructor; [split_and!; [done|forall_list|]|]); [..|constructor];
      first [apply reads_string; auto using plain_bytes|apply reads_number].
  - unfold status_members. cbn [members_text]. unfold json_string. cbn [app length].
    repeat (rewrite length_app; cbn [app length]). lia.
Qed.

Lemma reg_info_text_parse name email hidden mac :
  Forall is_byte name -> Forall is_byte email ->
  json_parse (reg_info_text name email hidden mac) = Some (reg_info_value name email hidden mac).
Proof.
  intros Hn He. rewrite reg_text_members. apply json_parse_object; [|done| |by left].
  - unfold reg_members. repeat (constructor; [split_and!; [done|forall_list|]|]); [..|constructor];
      first [apply reads_string; auto using plain_bytes, mac_text_plain|apply reads_number].
  - unfold reg_members. cbn [members_text]. unfold json_string. cbn [app length].
    repeat (rewrite length_app; cbn [app length]). lia.
Qed.

(** *** The list of networks *)

Definition ap_members (ap : wifi_ap_record) : list (list Z * list Z) :=
  [(lit "ssid", json_string (ap_ssid ap)); (lit "chan", fmt_d (ap_primary ap));
   (lit "rssi", fmt_d (ap_rssi ap)); (lit "auth", fmt_d (ap_authmode ap))].

Definition ap_object (ap : wifi_ap_record) : list Z := 123 :: members_text (ap_members ap) ++ [125].

Lemma ap_text_object ap last : ap_text ap last = ap_object ap ++ [if last then 93 else 44; 10].
Proof. unfold ap_text, one_ap_text, ap_object, ap_members. cbn [members_text]. text_eq. Qed.

Lemma reads_ap ap : Forall is_byte (ap_ssid ap) -> reads 6 (ap_value ap) (ap_object ap).
Proof.
  intros Hs. apply (reads_object [_; _; _; _]); [|done]. unfold ap_members.
  repeat (constructor; [split_and!; [done|forall_list|]|]); [..|constructor];
    first [by apply reads_string|apply reads_number].
Qed.

Lemma json_items_newline f t : json_items f (10 :: t) = json_items f t.
Proof. destruct f as [|[|f]]; done. Qed.

Lemma ap_entries_read aps f :
  Forall (fun ap => Forall is_byte (ap_ssid ap)) aps -> aps <> [] -> (length aps + 6 <= f)%nat ->
  json_items f (ap_entries_text aps) = Some (ap_value <$> aps, [10]).
Proof.
  intros Haps. revert f. induction Haps as [|ap aps Hs Haps IH]; intros f Hne Hf; [done|].
  destruct f as [|f]; [simpl in Hf; lia|]. cbn [length] in Hf. cbn [json_items].
  destruct aps as [|ap' aps].
  - cbn [ap_entries_text]. rewrite ap_text_object.
    rewrite (reads_ap ap Hs f) by (lia || by apply no_digit_cons). cbn [mbind option_bind].
    by rewrite json_char_here.
  - rewrite ap_entries_text_cons, ap_text_object, <- app_assoc. cbn [app].
    rewrite (reads_ap ap Hs f) by (lia || by apply no_digit_cons). cbn [mbind option_bind].
    rewrite json_char_not, json_char_here by done. cbn [mbind option_bind].
    rewrite json_items_newline, IH; [done|done|cbn [length] in *; lia].
Qed.

Lemma ap_entries_length aps : (8 * length aps <= length (ap_entries_text aps))%nat.
Proof.
  induction aps as [|ap aps IH]; [done|].
  assert (forall last, 8 <= length (ap_text ap last))%nat as Ha.
  { intros last. unfold ap_text. rewrite length_app. lit_len. lia. }
  destruct aps as [|ap' aps]; [cbn [ap_entries_text length]; specialize (Ha true); lia|].
  rewrite ap_entries_text_cons, length_app. specialize (Ha false). cbn [length] in *. lia.
Qed.

(** Without a network the text is not JSON. *)
Lemma ap_list_text_parse aps :
  Forall (fun ap => Forall is_byte (ap_ssid ap)) aps ->
  json_parse (ap_list_text aps) = if bool_decide (aps = []) then None else Some (JArr (ap_value <$> aps)).
Proof.
  intros Haps. destruct aps as [|ap aps]; [by vm_compute|]. set (l := ap :: aps) in *.
  rewrite bool_decide_false by done. unfold json_parse, ap_list_text. change (lit "[") with [91]. cbn [app].
  pose proof (ap_entries_length l) as Hl. remember (ap_entries_text l) as t eqn:Et.
  change (json_value (S (length (91 :: t))) (91 :: t)) with
    (match json_char 93 t with
     | Some r => Some (JArr [], r)
     | None => '(l, r) ← json_items (length (91 :: t)) t; Some (JArr l, r)
     end).
  assert (json_char 93 t = None) as ->.
  { rewrite Et. unfold l. destruct aps; [cbn [ap_entries_text]|rewrite ap_entries_text_cons];
      rewrite ap_text_object; by apply json_char_not. }
  rewrite Et, ap_entries_read; [done|done|done|]. rewrite <- Et. cbn [length] in *. unfold l in *. cbn [length] in *. lia.
Qed.

Lemma plain_nonzero s : Forall plain_char s -> nonzero s.
Proof. intros H. eapply Forall_impl; [exact H|]. unfold plain_char. cbn. lia. Qed.

(** ** Theorems *)

(** The network's name as it is printed: the ssid field up to its NUL; a name
    that fills the 32 bytes has none, and the password follows it. *)
Definition shown_name (c : sta_config) : option (list Z) :=
  match cstr (sta_ssid c) with
  | Some name => Some name
  | None => app (sta_ssid c) <$> cstr (sta_password c ++ sta_rest c)
  end.

Lemma cstr_join a b : cstr (a ++ b) =
  match cstr a with Some n => Some n | None => app a <$> cstr b end.
Proof.
  induction a as [|x a IH]; cbn [app cstr]; [by destruct (cstr b)|].
  destruct (Z.eqb x 0); [done|]. rewrite IH. by destruct (cstr a), (cstr b).
Qed.

(** C23: What a browser reads from /status.json. [wifi_manager_generate_ip_info_json]
    leaves in the buffer a text that reads, as JSON, as the object of the
    network's name ([shown_name]: for a name of 32 bytes it is that name with
    the password behind it), the three addresses (the adapter's when the update
    is for a connection, "0" otherwise) and the reason of the update, when the
    text is shorter than the buffer; and leaves the buffer when it is not.  The
    addresses are texts of at most 15 plain characters. *)
Theorem status_document_read s b c name code info ip netmask gw :
  wm_ok s -> ip_info_json s = Some b -> config_sta s = Some c ->
  shown_name c = Some name -> Forall is_byte name ->
  Forall plain_char ip -> Forall plain_char netmask -> Forall plain_char gw ->
  (length ip <= 15)%nat -> (length netmask <= 15)%nat -> (length gw <= 15)%nat ->
  let online := bool_decide (code = UPDATE_CONNECTION_OK) in
  let shown (x : list Z) := if online then x else lit "0" in
  let answers := if online
    then [ret_bytes ESP_OK info; ret_bytes 0 ip; ret_bytes 0 netmask; ret_bytes 0 gw] else [] in
  let room := length (status_text name (shown ip) (shown netmask) (shown gw) (update_reason_int code)) in
  let '(_, o, s') := run (wifi_manager_generate_ip_info_json code) s answers in
  ((room < JSON_IP_INFO_SIZE)%nat ->
     o = Done tt /\ exists b' text, ip_info_json s' = Some b' /\ cstr b' = Some text /\
     json_parse text = Some (status_value name (shown ip) (shown netmask) (shown gw) (update_reason_int code))) /\
  ((JSON_IP_INFO_SIZE <= room)%nat -> o = Stopped UB).
Proof.
  intros Hok Hb Hc Hshown Hbytes P1 P2 P3 L1 L2 L3. cbv zeta.
  assert (cstr (sta_memory c) = Some name) as Hname by (unfold sta_memory; by rewrite cstr_join).
  destruct (decide (code = UPDATE_CONNECTION_OK)) as [->|Hcode].
  - rewrite bool_decide_true by done.
    pose proof (status_json_online s b c name info ip netmask gw Hok Hb Hc Hname Hbytes
      (plain_nonzero _ P1) (plain_nonzero _ P2) (plain_nonzero _ P3) L1 L2 L3) as Hx.
    destruct (run _ s _) as [[tr o] s']. destruct Hx as [H1 H2]. split; [|exact H2].
    intros Hl. destruct (H1 Hl) as (-> & b' & -> & Ht). split; [done|]. do 2 eexists. split; [done|].
    split; [exact Ht|]. by apply status_text_parse.
  - rewrite bool_decide_false by done.
    pose proof (status_json_offline s b c name code Hok Hb Hc Hname Hbytes Hcode) as Hx.
    destruct (run _ s _) as [[tr o] s']. destruct Hx as [H1 H2]. split; [|exact H2].
    intros Hl. destruct (H1 Hl) as (-> & b' & -> & Ht). split; [done|]. do 2 eexists. split; [done|].
    split; [exact Ht|]. apply status_text_parse; [done|by repeat constructor..].
Qed.

(** C22: What a browser reads from /ap.json after a scan: each named network of the
    scan once, in order of appearance and with its best signal, as an array of
    objects; and no JSON at all when there is none. *)
Theorem scan_document_read s b n a :
  wm_ok s -> accessp_json s = Some b -> ap_num s = Z.of_nat n -> (n <= MAX_AP_NUM)%nat ->
  Forall ap_ok (take n (accessp_records s)) ->
  let nets := unique_aps n (take n (accessp_records s)) in
  let room := length (ap_list_text nets) in
  let '(_, o, s') := run (filter_records;; wifi_manager_generate_acess_points_json) s [a] in
  ((room < length b)%nat ->
     o = Done tt /\ exists b' text, accessp_json s' = Some b' /\ cstr b' = Some text /\
     json_parse text = if bool_decide (nets = []) then None else Some (JArr (ap_value <$> nets))) /\
  ((length b <= room)%nat -> o = Stopped UB).
Proof.
  intros Hok Hb Hnum Hn Haps nets room.
  destruct (filter_unique_result (accessp_records s) n) as (tl & _ & _ & E);
    [by rewrite (ok_records s Hok)|]. fold nets in E.
  assert (Forall ap_ok nets) as Hnets by by apply unique_aps_ok.
  unfold filter_records. prog_simpl. rewrite Hnum, Nat2Z.id, E. cbn [mbind option_bind run].
  unfold wifi_manager_generate_acess_points_json. prog_simpl.
  unfold on_accessp_json. cbn [accessp_json accessp_records ap_num set_ap_num set_accessp_records].
  rewrite Hb. cbn [mbind option_bind].
  rewrite access_points_json_strcpy; rewrite ?take_app_length; [|rewrite length_app; lia|done].
  pose proof (strcpy_none b 0 (ap_list_text nets)) as Ho. fold room in Ho.
  destruct (strcpy b 0 (ap_list_text nets)) as [b1|] eqn:Es; cbn [mbind option_bind].
  - split; [|intros Hl; by apply Ho in Hl]. intros _. split; [done|]. exists b1, (ap_list_text nets).
    split; [done|]. split; [eapply strcpy_cstr; [|exact Es]; by apply ap_list_text_nonzero|].
    apply ap_list_text_parse. eapply Forall_impl; [exact Hnets|]. by intros ap (_ & ? & _).
  - split; [|done]. intros Hl. destruct Ho as [Ho _]. specialize (Ho eq_refl). lia.
Qed.

(** What a browser reads from /register.json: the name, the email, whether the
    sensor is on the map and the MAC address. *)
Theorem registration_document_read s b name email hidden e mac :
  wm_ok s -> reg_info_json s = Some b ->
  cstr (drop ri_name (reg_info s)) = Some name -> Forall is_byte name ->
  cstr (drop ri_email (reg_info s)) = Some email -> Forall is_byte email ->
  reg_info s !! ri_hidden = Some hidden -> Forall is_byte mac ->
  let room := length (reg_info_text name email hidden mac) in
  let '(_, o, s') := run wifi_manager_generate_reg_info_json s [ret_bytes e mac] in
  ((room < JSON_REG_INFO_SIZE)%nat ->
     o = Done tt /\ exists b' text, reg_info_json s' = Some b' /\ cstr b' = Some text /\
     json_parse text = Some (reg_info_value name email hidden mac)) /\
  ((JSON_REG_INFO_SIZE <= room)%nat -> o = Stopped UB).
Proof.
  intros Hok Hb Hn Hnb He Heb Hh Hm. cbv zeta.
  pose proof (reg_info_json_correct s b name email hidden e mac Hok Hb Hn Hnb He Heb Hh Hm) as Hx.
  destruct (run _ s _) as [[tr o] s']. destruct Hx as [H1 H2]. split; [|exact H2].
  intros Hl. destruct (H1 Hl) as (-> & b' & -> & Ht). split; [done|]. do 2 eexists. split; [done|].
  split; [exact Ht|]. by apply reg_info_text_parse.
Qed.

(** ** Instances *)

Lemma status_document_read_witness :
  let '(_, o, s') := run (wifi_manager_generate_ip_info_json UPDATE_CONNECTION_OK) demo
    [ret_bytes ESP_OK []; ret_bytes 0 (lit "10.0.0.7"); ret_bytes 0 (lit "255.0.0.0"); ret_bytes 0 (lit "10.0.0.1")] in
  o = Done tt /\ exists b' text, ip_info_json s' = Some b' /\ cstr b' = Some text /\
  json_parse text = Some (status_value (lit "home") (lit "10.0.0.7") (lit "255.0.0.0") (lit "10.0.0.1") 0).
Proof.
  pose proof (status_document_read demo (replicate JSON_IP_INFO_SIZE 0)
    (StaConfig (field 32 (lit "home")) (field 64 (lit "secret")) (replicate 40 0)) (lit "home")
    UPDATE_CONNECTION_OK [] (lit "10.0.0.7") (lit "255.0.0.0") (lit "10.0.0.1")) as H. cbv zeta in H.
  rewrite bool_decide_true in H by done.
  destruct (run _ demo _) as [[tr o] s'].
  destruct H as [H _]; [apply demo_wm_ok; vm_compute; lia|done|done|done|forall_list| | |
    |vm_compute; lia|vm_compute; lia|vm_compute; lia|].
  1-3: apply (bool_decide_unpack _); by vm_compute.
  apply H. vm_compute. lia.
Defined.

(** Two entries for one network, and another network. *)
Definition demo_found : list wifi_ap_record :=
  [ApRecord (lit "home") 6 (-70) 3 []; ApRecord (lit "cafe") 1 (-80) 0 []; ApRecord (lit "home") 11 (-50) 3 []].

Definition demo_scanned : wm :=
  set_ap_num 3 (set_accessp_records (demo_found ++ replicate 12 ap_zero) demo).

Lemma scan_document_read_witness :
  let '(_, o, s') := run (filter_records;; wifi_manager_generate_acess_points_json) demo_scanned [ret_ 0] in
  o = Done tt /\ exists b' text, accessp_json s' = Some b' /\ cstr b' = Some text /\
  json_parse text =
  Some (JArr [ap_value (ApRecord (lit "home") 6 (-50) 3 []); ap_value (ApRecord (lit "cafe") 1 (-80) 0 [])]).
Proof.
  pose proof (scan_document_read demo_scanned (replicate (MAX_AP_NUM * JSON_ONE_APP_SIZE + 4) 0) 3 (ret_ 0)) as H.
  cbv zeta in H. destruct (run _ demo_scanned _) as [[tr o] s'].
  destruct H as [H _]; [|done|done|vm_compute; lia| |].
  - destruct (demo_wm_ok (lit "home") (lit "secret") (lit "Ann") (lit "a@b.c")); [vm_compute; lia..|].
    by split.
  - change (Forall ap_ok demo_found). repeat (constructor; [unfold ap_ok; cbn; split_and!; (lia || (by apply nonzero_const) || forall_list)|]).
    constructor.
  - destruct H as (-> & b' & text & Hb & Ht & Hp); [vm_compute; lia|]. split; [done|].
    exists b', text. split; [done|]. split; [done|]. rewrite Hp. by vm_compute.
Defined.

Lemma registration_document_read_witness :
  let '(_, o, s') := run wifi_manager_generate_reg_info_json demo [ret_bytes 0 [0x24; 0x0a; 0xc4; 1; 2; 3]] in
  o = Done tt /\ exists b' text, reg_info_json s' = Some b' /\ cstr b' = Some text /\
  json_parse text = Some (reg_info_value (lit "Ann") (lit "a@b.c") 0 [0x24; 0x0a; 0xc4; 1; 2; 3]).
Proof.
  pose proof (registration_document_read demo (replicate JSON_REG_INFO_SIZE 0) (lit "Ann")
    (lit "a@b.c") 0 0 [0x24; 0x0a; 0xc4; 1; 2; 3]) as H. cbv zeta in H.
  destruct (run _ demo _) as [[tr o] s'].
  destruct H as [H _]; [apply demo_wm_ok; vm_compute; lia|done|done|forall_list|done|forall_list
    |done|forall_list|].
  apply H. vm_compute. lia.
Defined.
