(* ===== verification/HttpServer.v ===== *)
(** * The HTTP server (http_server_if.c)

    One request at a time: the first line selects the route; the routes read
    and write the statics of the Wi-Fi manager and post requests to its task. *)

From S2P Require Import Prelude CMem Printf WifiScan WifiState WifiJson WifiNvs Led WifiManager.

Local Open Scope Z_scope.

(** ** Reading the request *)

(** [strtok_r (s, "\n", &s)] on the text [s]: the token and the text after it, to
    which [save_ptr] points; newlib leaves NULL there when the token ends with
    the text. *)
Fixpoint skip_newlines (s : list Z) : list Z :=
  match s with
  | c :: s' => if Z.eqb c 10 then skip_newlines s' else s
  | [] => []
  end.

Fixpoint token (s : list Z) : list Z * option (list Z) :=
  match s with
  | [] => ([], None)
  | c :: s' => if Z.eqb c 10 then ([], Some s') else let '(t, r) := token s' in (c :: t, r)
  end.

Definition strtok_line (s : list Z) : option (list Z * option (list Z)) :=
  match skip_newlines s with
  | [] => None
  | s' => Some (token s')
  end.

(** The counting loop of [http_server_get_header]. *)
Fixpoint header_length (s : list Z) : nat :=
  match s with
  | c :: s' => if Z.eqb c 10 || Z.eqb c 13 then 0 else S (header_length s')
  | [] => 0
  end.

(** The pointer returned is the text from there on; [len] is 0 for NULL. *)
Definition http_server_get_header (request header_name : list Z) : option (list Z) * nat :=
  match strstr request header_name with
  | Some n =>
      let ret := drop (n + length header_name) request in
      (Some ret, header_length ret)
  | None => (None, 0%nat)
  end.

(** ** Responses *)

Definition http_html_hdr : list Z := lit "HTTP/1.1 200 OK\nContent-type: text/html\n\n".
Definition http_css_hdr : list Z :=
  lit "HTTP/1.1 200 OK\nContent-type: text/css\nCache-Control: public, max-age=31536000\n\n".
Definition http_js_hdr : list Z := lit "HTTP/1.1 200 OK\nContent-type: text/javascript\n\n".
Definition http_jquery_gz_hdr : list Z :=
  lit "HTTP/1.1 200 OK\nContent-type: text/javascript\nAccept-Ranges: bytes\nContent-Length: 29995\nContent-Encoding: gzip\n\n".
Definition http_400_hdr : list Z := lit "HTTP/1.1 400 Bad Request\nContent-Length: 0\n\n".
Definition http_404_hdr : list Z := lit "HTTP/1.1 404 Not Found\nContent-Length: 0\n\n".
Definition http_503_hdr : list Z := lit "HTTP/1.1 503 Service Unavailable\nContent-Length: 0\n\n".
Definition http_ok_json_no_cache_hdr : list Z :=
  lit "HTTP/1.1 200 OK\nContent-type: application/json\nCache-Control: no-store, no-cache, must-revalidate, max-age=0\nPragma: no-cache\n\n".

(** [netconn_write (conn, data, sizeof (data) - 1, NETCONN_NOCOPY)] of a constant *)
Definition send (data : list Z) : wprog unit := call_ (netconn_write (constant data) NETCONN_NOCOPY).

(** [netconn_write (conn, buff, strlen (buff), NETCONN_NOCOPY)] of a shared buffer *)
Definition send_string (d : json_document) (buff : option (list Z)) : wprog unit :=
  text ← try (b ← buff; cstr b); call_ (netconn_write (Document d, text) NETCONN_NOCOPY).

(** ** The registration of the sensor *)

Definition registration_url : list Z := lit "http://air.eng.utah.edu/dbapi/api/registerSensor".

Definition http_server_post_registration : wprog unit :=
  client ← call (esp_http_client_init registration_url);
  buff ← wifi_manager_get_reg_info_json;
  match buff with
  | Some b =>
      call_ (esp_http_client_set_method_post (a_ret client));;
      call_ (esp_http_client_set_header (a_ret client) (lit "Content-Type") (lit "application/json"));;
      text ← try (cstr b);
      call_ (esp_http_client_set_post_field (a_ret client) text);;
      call_ (esp_http_client_perform (a_ret client));;
      call_ (esp_http_client_cleanup (a_ret client))
  | None => mret tt
  end.

(** ** Routes *)

(** The files embedded in the firmware. *)
Record embedded := Embedded {
  index_html : list Z;
  jquery_gz : list Z;
  code_js : list Z;
  style_css : list Z
}.

Definition serve_ap_json : wprog unit :=
  locked ← wifi_manager_lock_json_buffer (Some 10);
  (if locked : bool then
     send http_ok_json_no_cache_hdr;;
     buff ← wifi_manager_get_ap_list_json;
     send_string AccessPoints buff;;
     wifi_manager_unlock_json_buffer
   else send http_503_hdr);;
  wifi_manager_scan_async.

Definition serve_status_json : wprog unit :=
  locked ← wifi_manager_lock_json_buffer (Some 10);
  if locked : bool then
    buff ← wifi_manager_get_ip_info_json;
    if buff is Some _ then
      send http_ok_json_no_cache_hdr;;
      send_string IpInfo buff;;
      wifi_manager_unlock_json_buffer
    else send http_503_hdr
  else send http_503_hdr.

Definition serve_register_json : wprog unit :=
  locked ← wifi_manager_lock_json_buffer (Some 10);
  (if locked : bool then
     wifi_manager_fetch_reg_config;;
     wifi_manager_generate_reg_info_json;;
     buff ← wifi_manager_get_reg_info_json;
     if buff is Some _ then
       send http_ok_json_no_cache_hdr;;
       send_string RegInfo buff;;
       wifi_manager_unlock_json_buffer
     else send http_503_hdr
   else mret tt);;
  wifi_manager_unlock_json_buffer.

Definition serve_delete_connect : wprog unit :=
  wifi_manager_disconnect_async;;
  send http_ok_json_no_cache_hdr.

(** [memset (config, 0, ...)], then both [memcpy]. *)
Definition store_credentials (ssid : list Z) (lenS : nat) (password : list Z) (lenP : nat)
    (s : wm) : option wm :=
  s ← erase_config s;
  on_config (fun c =>
    sta_ssid' ← memcpy (sta_ssid c) 0 ssid lenS;
    sta_password' ← memcpy (sta_password c) 0 password lenP;
    Some (StaConfig sta_ssid' sta_password' (sta_rest c))) s.

Definition post_connect (request : list Z) : wprog unit :=
  let '(ssid, lenS) := http_server_get_header request (lit "x-custom-ssid: ") in
  let '(password, lenP) := http_server_get_header request (lit "x-custom-pwd: ") in
  match ssid, password with
  | Some ssid, Some password =>
      if Nat.leb lenS MAX_SSID_SIZE && Nat.leb lenP MAX_PASSWORD_SIZE then
        update (store_credentials ssid lenS password lenP);;
        wifi_manager_connect_async;;
        send http_ok_json_no_cache_hdr
      else send http_400_hdr
  | _, _ => send http_400_hdr
  end.

(** The registration copied into [reg_info]. *)
Definition store_registration (name : list Z) (lenN : nat) (email : list Z) (lenE : nat)
    (hidden : list Z) : wm -> option wm :=
  on_reg_info (fun r =>
    r ← memset r ri_name 0 JSON_REG_NAME_SIZE;
    r ← memset r ri_email 0 JSON_REG_EMAIL_SIZE;
    r ← memcpy r ri_name name lenN;
    r ← memcpy r ri_email email lenE;
    store r ri_hidden (if Z.eqb (default 0 (head hidden)) 116 then 1 else 0)).

Definition post_register (request : list Z) : wprog unit :=
  let '(name, lenN) := http_server_get_header request (lit "X-Custom-name: ") in
  let '(email, lenE) := http_server_get_header request (lit "X-Custom-email: ") in
  let '(hidden, lenV) := http_server_get_header request (lit "X-Custom-hidden: ") in
  when (Nat.ltb JSON_REG_NAME_SIZE lenN || Nat.ltb JSON_REG_EMAIL_SIZE lenE) (send http_400_hdr);;
  match name, email, hidden with
  | Some name, Some email, Some hidden =>
      update (store_registration name lenN email lenE hidden);;
      wifi_manager_save_reg_config;;
      send http_ok_json_no_cache_hdr;;
      connected ← wifi_manager_connected_to_access_point;
      when connected http_server_post_registration
  | _, _, _ => send http_400_hdr
  end.

Definition starts (line route : list Z) : bool :=
  match strstr line route with Some _ => true | None => false end.

(** The dispatch on the first line; [rest] is [save_ptr], the request after it,
    which [strstr] is not given as NULL without harm. *)
Definition serve_line (files : embedded) (line : list Z) (rest : option (list Z)) : wprog unit :=
  if starts line (lit "GET / ") then send http_html_hdr;; send (index_html files)
  else if starts line (lit "GET /jquery.js ") then send http_jquery_gz_hdr;; send (jquery_gz files)
  else if starts line (lit "GET /code.js ") then send http_js_hdr;; send (code_js files)
  else if starts line (lit "GET /ap.json ") then serve_ap_json
  else if starts line (lit "GET /style.css ") then send http_css_hdr;; send (style_css files)
  else if starts line (lit "GET /status.json ") then serve_status_json
  else if starts line (lit "GET /register.json ") then serve_register_json
  else if starts line (lit "DELETE /connect.json ") then serve_delete_connect
  else if starts line (lit "POST /connect.json ") then request ← try rest; post_connect request
  else if starts line (lit "POST /register.json ") then request ← try rest; post_register request
  else send http_400_hdr.

Definition ERR_OK : Z := 0.

(** The bytes of the answer of [netconn_recv] are the memory from [buf] on: the
    code does not look at [buflen]. *)
Definition http_server_netconn_serve (files : embedded) : wprog unit :=
  a ← call netconn_recv;
  when (Z.eqb (a_ret a) ERR_OK)
    (text ← try (cstr (a_bytes a));
     match strtok_line text with
     | Some (line, rest) => serve_line files line rest
     | None => send http_404_hdr
     end);;
  call_ netbuf_delete.

(** One turn of the accept loop: does it go on? *)
Definition http_server_round (files : embedded) : wprog bool :=
  a ← call netconn_accept;
  when (Z.eqb (a_ret a) ERR_OK) (http_server_netconn_serve files;; call_ netconn_delete);;
  call_ (vTaskDelay 10);;
  mret (Z.eqb (a_ret a) ERR_OK).

Definition http_server_start : wprog unit :=
  call_ (xEventGroupCreate HTTP_EG);;
  call_ (xEventGroupWaitBits HTTP_EG HTTP_SERVER_START_BIT_0 false true None);;
  call_ netconn_new;; call_ netconn_bind;; call_ netconn_listen.

(** [do ... while (err == ERR_OK)] for at most [fuel] connections. *)
Fixpoint http_server_loop (fuel : nat) (files : embedded) : wprog unit :=
  match fuel with
  | O => Stop OutOfFuel
  | S fuel =>
      more ← http_server_round files;
      if more : bool then http_server_loop fuel files
      else call_ netconn_close;; call_ netconn_delete
  end.

Definition http_server (fuel : nat) (files : embedded) : wprog unit :=
  http_server_start;; http_server_loop fuel files.

(** ** Headers *)

(** The value of a header: up to the end of its line. *)
Definition line_end (s : list Z) : Prop :=
  match s with [] => True | c :: _ => c = 10 \/ c = 13 end.

Lemma header_length_spec s :
  exists v r, s = v ++ r /\ length v = header_length s /\ line_end r /\
    Forall (fun c => c <> 10 /\ c <> 13) v.
Proof.
  induction s as [|c s IH]; [by exists [], []|]. cbn [header_length].
  destruct (Z.eqb c 10 || Z.eqb c 13) eqn:E.
  - exists [], (c :: s). apply orb_prop in E. rewrite !Z.eqb_eq in E. by repeat split.
  - apply orb_false_elim in E as [E1 E2]. rewrite Z.eqb_neq in E1, E2.
    destruct IH as (v & r & -> & Hl & He & Hv). exists (c :: v), r. cbn.
    split_and!; [done|by rewrite Hl|done|by constructor].
Qed.

Lemma header_length_le s : (header_length s <= length s)%nat.
Proof. induction s as [|c s IH]; cbn; [lia|]. case_match; lia. Qed.

(** [http_server_get_header] finds the first occurrence of the name; what it
    returns is the value that follows it, and its length up to the end of the
    line; without the name it returns NULL and 0. *)
Theorem get_header_correct request name :
  match http_server_get_header request name with
  | (Some ret, len) => exists before value after,
      request = before ++ name ++ value ++ after /\ ret = value ++ after /\
      length value = len /\ line_end after /\ Forall (fun c => c <> 10 /\ c <> 13) value /\
      forall b a, request = b ++ name ++ a -> (length before <= length b)%nat
  | (None, len) => len = 0%nat /\ forall b a, request <> b ++ name ++ a
  end.
Proof.
  unfold http_server_get_header. destruct (strstr request name) as [n|] eqn:E.
  - pose proof E as E1. apply strstr_some in E1 as (a & r & -> & Hn).
    replace (drop (n + length name) (a ++ name ++ r)) with r.
    2: { rewrite app_assoc, drop_app_exact; [done|]. rewrite length_app. lia. }
    destruct (header_length_spec r) as (v & r' & -> & Hl & He & Hv).
    exists a, v, r'. split_and!; [done..|]. intros b a' Hb. rewrite Hn. by eapply strstr_first.
  - split; [done|]. intros b a. by apply strstr_none.
Qed.

(** ** The credentials of POST /connect.json *)

(** The request holds the header: [value] is what stands between the first
    occurrence of [name] and the end of that line. *)
Definition posted (request name value : list Z) : Prop :=
  exists before after, request = before ++ name ++ value ++ after /\
    (after = [] \/ exists c r, after = c :: r /\ (c = 10 \/ c = 13)) /\
    Forall (fun c => c <> 10 /\ c <> 13) value /\
    forall b a, request = b ++ name ++ a -> (length before <= length b)%nat.

(** What a request asks to store, if it is to be accepted. *)
Definition credentials (request ssid password : list Z) : Prop :=
  posted request (lit "x-custom-ssid: ") ssid /\ (length ssid <= 32)%nat /\
  posted request (lit "x-custom-pwd: ") password /\ (length password <= 64)%nat.

Lemma line_value_unique v a v' a' :
  v ++ a = v' ++ a' ->
  (a = [] \/ exists c r, a = c :: r /\ (c = 10 \/ c = 13)) ->
  (a' = [] \/ exists c r, a' = c :: r /\ (c = 10 \/ c = 13)) ->
  Forall (fun c => c <> 10 /\ c <> 13) v -> Forall (fun c => c <> 10 /\ c <> 13) v' -> v = v'.
Proof.
  intros E Ha Ha' Hv. revert v' E. induction Hv as [|c v Hc Hv IH]; intros v' E Hv'.
  - destruct Hv' as [|c' v' Hc']; [done|]. cbn [app] in E. destruct Ha as [->|(c & r & -> & Hc)]; [done|].
    injection E as -> _. lia.
  - destruct Hv' as [|c' v' Hc' Hv'].
    + cbn [app] in E. destruct Ha' as [->|(c' & r & -> & Hc')]; [done|]. injection E as -> _. lia.
    + injection E as -> E. f_equal. by apply IH.
Qed.

Lemma posted_unique request name v v' : posted request name v -> posted request name v' -> v = v'.
Proof.
  intros (b & a & E & Ha & Hv & Hf) (b' & a' & E' & Ha' & Hv' & Hf').
  assert (length b = length b') as Hl by (apply Nat.le_antisymm; [by eapply Hf|by eapply Hf']).
  rewrite E in E'. apply app_inj_1 in E' as [_ E']; [|done]. apply app_inv_head in E'.
  by apply (line_value_unique _ _ _ _ E').
Qed.

(** The code's reading of a header, and the header. *)
Lemma posted_read request name ret len :
  http_server_get_header request name = (Some ret, len) -> posted request name (take len ret) /\ (len <= length ret)%nat.
Proof.
  intros E. pose proof (get_header_correct request name) as H. rewrite E in H.
  destruct H as (b & v & a & E1 & -> & Hl & He & Hv & Hf). split; [|rewrite length_app; lia].
  rewrite take_app_length' by done. exists b, a. split_and!; [done| |done|done].
  destruct a as [|c r]; [by left|right]. by exists c, r.
Qed.

Lemma posted_absent request name len v : http_server_get_header request name = (None, len) -> ~ posted request name v.
Proof.
  intros E (b & a & E1 & _). pose proof (get_header_correct request name) as H. rewrite E in H.
  by destruct H as [_ H]; apply H in E1.
Qed.

Lemma memcpy_zero n src k :
  (k <= n)%nat -> (k <= length src)%nat ->
  memcpy (replicate n 0) 0 src k = Some (field n (take k src)).
Proof.
  intros Hk Hs. unfold memcpy. rewrite (proj2 (Nat.leb_le _ _)) by done.
  rewrite write_some by (rewrite length_take, length_replicate; lia). f_equal. unfold field.
  cbn [take app]. by rewrite drop_replicate.
Qed.

Lemma http_header_length request name ret len :
  http_server_get_header request name = (Some ret, len) -> (len <= length ret)%nat.
Proof.
  unfold http_server_get_header. case_match; [|done]. intros [= <- <-]. apply header_length_le.
Qed.

Lemma store_credentials_some ssid lenS password lenP s c :
  config_sta s = Some c -> (lenS <= 32)%nat -> (lenP <= 64)%nat ->
  (lenS <= length ssid)%nat -> (lenP <= length password)%nat ->
  store_credentials ssid lenS password lenP s = Some (set_config_sta (Some (StaConfig
    (field 32 (take lenS ssid)) (field 64 (take lenP password))
    (replicate (length (sta_rest c)) 0))) s).
Proof.
  intros Hc HS HP HlS HlP. unfold store_credentials, erase_config. rewrite Hc.
  cbn [mbind option_bind]. unfold on_config. cbn [config_sta set_config_sta mbind option_bind sta_zero
    sta_ssid sta_password sta_rest].
  rewrite (memcpy_zero 32) by done. cbn [mbind option_bind].
  rewrite (memcpy_zero 64) by done. done.
Qed.

Lemma credentials_some request ssid password :
  credentials request ssid password ->
  forall s c, config_sta s = Some c -> exists ssid' lenS password' lenP,
    post_connect request = (update (store_credentials ssid' lenS password' lenP);;
        wifi_manager_connect_async;; send http_ok_json_no_cache_hdr) /\
    store_credentials ssid' lenS password' lenP s = Some (set_config_sta (Some (StaConfig
      (field 32 ssid) (field 64 password) (replicate (length (sta_rest c)) 0))) s).
Proof.
  intros (HS & HlS & HP & HlP) s c Hc. unfold post_connect.
  destruct (http_server_get_header request (lit "x-custom-ssid: ")) as [[ssid'|] lenS] eqn:E1;
    [|by apply (posted_absent _ _ _ ssid) in E1].
  destruct (http_server_get_header request (lit "x-custom-pwd: ")) as [[password'|] lenP] eqn:E2;
    [|by apply (posted_absent _ _ _ password) in E2].
  apply posted_read in E1 as [E1 L1], E2 as [E2 L2].
  pose proof (posted_unique _ _ _ _ HS E1) as ->. pose proof (posted_unique _ _ _ _ HP E2) as ->.
  rewrite length_take in HlS, HlP.
  assert ((lenS <= 32)%nat /\ (lenP <= 64)%nat) as [H1 H2] by lia.
  change MAX_SSID_SIZE with 32%nat. change MAX_PASSWORD_SIZE with 64%nat.
  rewrite (proj2 (Nat.leb_le _ _) H1), (proj2 (Nat.leb_le _ _) H2).
  exists ssid', lenS, password', lenP. split; [done|]. by apply store_credentials_some.
Qed.

Lemma credentials_none request :
  (forall ssid password, ~ credentials request ssid password) -> post_connect request = send http_400_hdr.
Proof.
  intros Hn. unfold post_connect.
  destruct (http_server_get_header request (lit "x-custom-ssid: ")) as [[ssid'|] lenS] eqn:E1;
    [|by destruct (http_server_get_header request (lit "x-custom-pwd: "))].
  destruct (http_server_get_header request (lit "x-custom-pwd: ")) as [[password'|] lenP] eqn:E2; [|done].
  destruct (Nat.leb lenS MAX_SSID_SIZE && Nat.leb lenP MAX_PASSWORD_SIZE) eqn:E; [|done]. exfalso.
  apply andb_prop in E as [HS HP]. apply Nat.leb_le in HS, HP. unfold MAX_SSID_SIZE, MAX_PASSWORD_SIZE in *.
  apply posted_read in E1 as [E1 _], E2 as [E2 _]. apply (Hn (take lenS ssid') (take lenP password')). unfold credentials. rewrite !length_take.
  split_and!; [exact E1|lia|exact E2|lia].
Qed.

Lemma on_ip_info_json_config f s s1 :
  on_ip_info_json f s = Some s1 -> config_sta s1 = config_sta s.
Proof. unfold on_ip_info_json. intros H. inv_opt. done. Qed.

(** The configuration is [c], and if the request was served to its end, it
    closed with the connection request and the 200 response. *)
Definition connect_accepted (c : sta_config) (tr : ctrace) (o : outcome unit) (s : wm) : Prop :=
  config_sta s = Some c /\
  (o = Done tt -> exists tr0, map fst tr = tr0 ++
     [xEventGroupSetBits WIFI_EG WIFI_MANAGER_REQUEST_STA_CONNECT_BIT;
      netconn_write (constant http_ok_json_no_cache_hdr) NETCONN_NOCOPY]).

Lemma connect_accepted_wp c h s :
  config_sta s = Some c ->
  wp eq (fun _ _ _ => True) (connect_accepted c)
    (wifi_manager_connect_async;; send http_ok_json_no_cache_hdr) h s.
Proof.
  intros Hc.
  assert (forall h s, config_sta s = Some c -> wp eq (fun _ _ _ => True) (connect_accepted c)
    (Call (xEventGroupSetBits WIFI_EG WIFI_MANAGER_REQUEST_STA_CONNECT_BIT)
      (fun _ => Call (netconn_write (constant http_ok_json_no_cache_hdr) NETCONN_NOCOPY) (fun _ => Ret tt))) h s) as Hend.
  { intros h0 s0 Hs0. cbn [wp]. split; [done|]. intros a ? <-. split; [done|]. intros a0 ? <-.
    split; [done|]. intros _. exists (map fst h0). by rewrite <- app_assoc, map_app. }
  unfold wifi_manager_connect_async, wifi_manager_lock_json_buffer, wifi_manager_clear_ip_info_json,
    wifi_manager_unlock_json_buffer, wifi_set, send. prog_simpl. intros ? <-.
  destruct (json_mutex s); [|by apply Hend]. prog_simpl. split; [done|]. intros a ? <-.
  destruct (Z.eqb (a_ret a) pdTRUE); [|by apply Hend]. prog_simpl. intros ? <-.
  destruct (on_ip_info_json _ s) as [s1|] eqn:E; [|done].
  split; [done|]. intros a1 ? <-. apply Hend. by rewrite (on_ip_info_json_config _ _ _ E).
Qed.

(** C14: [POST /connect.json]: with both headers, of sizes that fit, the values that
    stand on their lines become the configuration, padded with zeros and with
    everything else cleared, a connection is requested and 200 is answered;
    otherwise 400 is answered and nothing changes.  No request makes it write
    outside the fields. *)
Theorem post_connect_correct s c request tr o s' :
  config_sta s = Some c -> exec eq (post_connect request) s tr o s' -> o <> Running ->
  (forall ssid password, credentials request ssid password ->
     connect_accepted (StaConfig (field 32 ssid) (field 64 password)
                              (replicate (length (sta_rest c)) 0)) tr o s') /\
  ((forall ssid password, ~ credentials request ssid password) ->
     o = Done tt /\ s' = s /\ map fst tr = [netconn_write (constant http_400_hdr) NETCONN_NOCOPY]).
Proof.
  intros Hc He Ho. split.
  - intros ssid password Hcred. destruct (credentials_some _ _ _ Hcred s c Hc) as (? & ? & ? & ? & Hpost & Hst).
    rewrite Hpost in He.
    refine (proj1 (wp_exec eq (fun _ _ _ => True) (connect_accepted _) _ [] s tr o s' _ He) Ho).
    unfold mbind, prog_bind, update. cbn [bind wp]. intros ? <-. rewrite Hst.
    by apply connect_accepted_wp.
  - intros Hn. rewrite (credentials_none _ Hn) in He.
    assert (wp eq (fun _ _ _ => True)
      (fun tr o s' => o = Done tt /\ s' = s /\ map fst tr = [netconn_write (constant http_400_hdr) NETCONN_NOCOPY])
      (send http_400_hdr) [] s) as Hw by (cbn [send call_ wp]; split; [done|]; by intros a ? <-).
    exact (proj1 (wp_exec _ _ _ _ _ _ _ _ _ Hw He) Ho).
Qed.

(** ** The JSON mutex and the routes *)

Lemma unlocked_send data : unlocked (send data).
Proof. solve_only. Qed.
Lemma unlocked_send_string d b : unlocked (send_string d b).
Proof. solve_only. Qed.
Lemma unlocked_save_reg : unlocked wifi_manager_save_reg_config.
Proof. unfold wifi_manager_save_reg_config, checked. solve_only. Qed.
Lemma unlocked_post_registration : unlocked http_server_post_registration.
Proof. solve_only. Qed.
Lemma unlocked_fetch_reg : unlocked wifi_manager_fetch_reg_config.
Proof. solve_only. Qed.
Lemma unlocked_generate_reg : unlocked wifi_manager_generate_reg_info_json.
Proof. solve_only. Qed.

#[export] Hint Resolve unlocked_send unlocked_send_string unlocked_save_reg
  unlocked_post_registration unlocked_fetch_reg unlocked_generate_reg : airu.

Lemma lock_safe_ap_json R : lock_safe R serve_ap_json.
Proof.
  unfold serve_ap_json. apply lock_section.
  - apply releases_then; [|intros _; solve_lock].
    do 3 (apply releases_bind; [solve_only|intros ?]). apply releases_unlock.
  - solve_lock.
Qed.

Lemma lock_safe_post_connect R request : lock_safe R (post_connect request).
Proof. unfold post_connect. solve_lock. Qed.

Lemma lock_safe_post_register R request : lock_safe R (post_register request).
Proof. unfold post_register, when. solve_lock. Qed.

#[export] Hint Resolve lock_safe_ap_json lock_safe_post_connect lock_safe_post_register : airu.

(** The routes that take the JSON mutex and may leave it unbalanced. *)
Definition unbalanced_route (line : list Z) : bool :=
  starts line (lit "GET /status.json ") || starts line (lit "GET /register.json ").

(** Every other route takes the mutex only when it is free, gives it only when
    it is held and leaves it free. *)
Theorem routes_balance_mutex R files line rest s tr o s' :
  unbalanced_route line = false -> exec R (serve_line files line rest) s tr o s' ->
  (forall t1 e a t2, tr = t1 ++ (e, a) :: t2 -> lock_discipline t1 e) /\
  (o = Done tt -> locks tr = 0).
Proof.
  intros Hl He. apply orb_false_elim in Hl as [H1 H2].
  eapply (safe_exec R lock_discipline (fun h => locks h = 0)) in He as [HG HJ]; [|done|].
  - split; [exact HG|]. intros ->. by apply (HJ tt).
  - unfold serve_line. rewrite H1, H2.
    repeat (case_match; [solve [solve_lock]|]). solve_lock.
Qed.

Lemma exec_locks {X} R (p : wprog X) s tr o s' :
  unlocked p -> exec R p s tr o s' -> forall h, locks (h ++ tr) = locks h.
Proof.
  intros Hp He h. destruct (only_exec _ _ _ _ _ _ _ _ Hp He) as [H _]. by apply locks_unlocked.
Qed.

Lemma exec_unlock R s tr s' :
  exec R wifi_manager_unlock_json_buffer s tr (Done tt) s' -> forall h, locks (h ++ tr) = locks h - 1.
Proof.
  intros He h. inversion He as [| | | | | |? ? ? a s1 tr' ? ? HR Hk]; subst.
  inversion Hk; subst. by rewrite locks_snoc.
Qed.

Lemma exec_lock R ticks s tr (b : bool) s' :
  exec R (wifi_manager_lock_json_buffer ticks) s tr (Done b) s' ->
  forall h, locks (h ++ tr) = locks h + (if b then 1 else 0).
Proof.
  intros He h.
  assert (wp R (fun _ _ _ => True) (fun tr (o : outcome bool) (_ : wm) => forall b : bool, o = Done b ->
    locks (h ++ tr) = locks h + (if b then 1 else 0)) (wifi_manager_lock_json_buffer ticks) [] s) as Hw.
  { unfold wifi_manager_lock_json_buffer. prog_simpl. intros s1 _. destruct (json_mutex s1); prog_simpl.
    - split; [done|]. intros a s2 _ b' [= <-]. cbn [app]. rewrite locks_snoc. unfold lock_step. cbn.
      case_match; lia.
    - intros b' [= <-]. rewrite app_nil_r. lia. }
  by apply (wp_exec _ _ _ _ _ _ _ _ _ Hw He).
Qed.

(** [GET /register.json] gives the mutex once more than it takes it: twice
    after a successful take, once after a failed one. *)
Theorem register_json_double_unlock s tr s' :
  exec eq serve_register_json s tr (Done tt) s' -> reg_info_json s' <> None -> locks tr = -1.
Proof.
  intros He Hr. unfold serve_register_json, mbind, prog_bind in He.
  apply exec_bind_done in He as (t1 & b & s1 & t2 & -> & H1 & He).
  apply exec_bind_done in He as (t3 & [] & s2 & t4 & -> & H2 & H3).
  assert (s2 = s') as -> by (symmetry; by eapply reads_only_exec, H3).
  pose proof (exec_lock _ _ _ _ _ _ H1 []) as L1. cbn [app] in L1.
  pose proof (exec_unlock _ _ _ _ H3 (t1 ++ t3)) as L3. rewrite app_assoc, L3.
  change (locks []) with 0 in L1. destruct b.
  - apply exec_bind_done in H2 as (t5 & r & s3 & t6 & -> & H4 & H2).
    apply exec_bind_done in H2 as (t7 & r1 & s4 & t8 & -> & H5 & H2).
    apply exec_bind_done in H2 as (t9 & r2 & s5 & t10 & -> & H6 & H2).
    pose proof (exec_locks _ _ _ _ _ _ unlocked_fetch_reg H4 t1) as L4.
    pose proof (exec_locks _ _ _ _ _ _ unlocked_generate_reg H5 (t1 ++ t5)) as L5.
    apply exec_get_inv, exec_ret_inv in H6 as (-> & -> & ->).
    assert (s' = s4) as ->.
    { eapply reads_only_exec, H2. destruct (reg_info_json s4) as [x|]; [|done].
      cbn [send send_string call_ try mbind prog_bind option_bind bind reads_only]. intros _.
      unfold send_string; cbn [mbind option_bind try bind]; by destruct (cstr x). }
    destruct (reg_info_json s4) as [x|]; [|done].
    apply exec_bind_done in H2 as (t11 & r3 & s6 & t12 & -> & H7 & H2).
    apply exec_bind_done in H2 as (t13 & r4 & s7 & t14 & -> & H8 & H2).
    destruct r3.
    pose proof (exec_locks _ _ _ _ _ _ (unlocked_send _) H7 ((t1 ++ t5) ++ t7)) as L7.
    pose proof (exec_locks _ _ _ _ _ _ (unlocked_send_string _ _) H8
      (((t1 ++ t5) ++ t7) ++ t11)) as L8.
    pose proof (exec_unlock _ _ _ _ H2 ((((t1 ++ t5) ++ t7) ++ t11) ++ t13)) as L9.
    cbn [app] in L3 |- *.
    rewrite !app_assoc. lia.
  - apply exec_ret_inv in H2 as (-> & _). rewrite app_nil_r in L3 |- *. lia.
Qed.

(** ** The registration *)

(** The three headers of POST /register.json. *)
Definition registration (request : list Z) : option (list Z * nat * (list Z * nat) * list Z) :=
  match http_server_get_header request (lit "X-Custom-name: "),
        http_server_get_header request (lit "X-Custom-email: "),
        http_server_get_header request (lit "X-Custom-hidden: ") with
  | (Some name, lenN), (Some email, lenE), (Some hidden, _) =>
      Some (name, lenN, (email, lenE), hidden)
  | _, _, _ => None
  end.

(** What follows the optional 400. *)
Definition register_steps (name : list Z) (lenN : nat) (email : list Z) (lenE : nat)
    (hidden : list Z) : wprog unit :=
  update (store_registration name lenN email lenE hidden);;
  wifi_manager_save_reg_config;;
  send http_ok_json_no_cache_hdr;;
  connected ← wifi_manager_connected_to_access_point;
  when connected http_server_post_registration.

Lemma post_register_some request name lenN email lenE hidden :
  registration request = Some (name, lenN, (email, lenE), hidden) ->
  post_register request =
  (when (Nat.ltb JSON_REG_NAME_SIZE lenN || Nat.ltb JSON_REG_EMAIL_SIZE lenE) (send http_400_hdr);;
   register_steps name lenN email lenE hidden).
Proof.
  unfold registration, post_register.
  destruct (http_server_get_header request (lit "X-Custom-name: ")) as [[n|] ln]; [|done].
  destruct (http_server_get_header request (lit "X-Custom-email: ")) as [[e|] le]; [|done].
  destruct (http_server_get_header request (lit "X-Custom-hidden: ")) as [[h|] lh]; [|done].
  by intros [= <- <- <- <- <-].
Qed.

Lemma post_register_none request :
  registration request = None -> exists b, post_register request =
  (when b (send http_400_hdr);; send http_400_hdr).
Proof.
  unfold registration, post_register.
  destruct (http_server_get_header request (lit "X-Custom-name: ")) as [[n|] ln];
  destruct (http_server_get_header request (lit "X-Custom-email: ")) as [[e|] le];
  destruct (http_server_get_header request (lit "X-Custom-hidden: ")) as [[h|] lh];
    intros; try done; by eexists.
Qed.

Lemma exec_update_done {S} (f : S -> option S) s tr s' :
  exec eq (update f : cprog S unit) s tr (Done tt) s' -> tr = [] /\ f s = Some s'.
Proof.
  intros He. inversion He as [| | | |? ? ? ? ? ? ? ? HR Hf Hk| |]; subst.
  apply exec_ret_inv in Hk as (-> & _ & ->). done.
Qed.

Lemma on_reg_info_some f s s1 :
  on_reg_info f s = Some s1 -> s1 = set_reg_info (reg_info s1) s.
Proof. unfold on_reg_info. intros H. inv_opt. done. Qed.

Lemma does_send data : does (netconn_write (constant data) NETCONN_NOCOPY) (send data).
Proof. apply does_here. Qed.

(** An over-long name or email is answered with 400 and stored all the same:
    the request gets both responses, and the bytes past the fields are written
    over what follows them. *)
Theorem register_overlong request name lenN email lenE hidden s tr s' :
  registration request = Some (name, lenN, (email, lenE), hidden) ->
  (JSON_REG_NAME_SIZE < lenN \/ JSON_REG_EMAIL_SIZE < lenE)%nat ->
  exec eq (post_register request) s tr (Done tt) s' ->
  In (netconn_write (constant http_400_hdr) NETCONN_NOCOPY) (map fst tr) /\
  In (netconn_write (constant http_ok_json_no_cache_hdr) NETCONN_NOCOPY) (map fst tr) /\
  exists r, store_registration name lenN email lenE hidden s = Some (set_reg_info r s) /\
    reg_info s' = r.
Proof.
  intros Hreg Hlen He. rewrite (post_register_some _ _ _ _ _ _ Hreg) in He.
  assert (Nat.ltb JSON_REG_NAME_SIZE lenN || Nat.ltb JSON_REG_EMAIL_SIZE lenE = true) as Hb.
  { apply orb_true_intro. destruct Hlen; [left|right]; by apply Nat.ltb_lt. }
  rewrite Hb in He. cbn [when] in He. unfold mbind, prog_bind in He.
  apply exec_bind_done in He as (t1 & [] & s1 & t2 & -> & H1 & He).
  assert (s1 = s) as -> by by eapply reads_only_exec, H1.
  pose proof (does_send http_400_hdr _ _ _ _ _ H1) as D1. unfold register_steps in He.
  apply exec_bind_done in He as (t3 & [] & s2 & t4 & -> & H2 & He).
  apply exec_update_done in H2 as [-> H2].
  apply exec_bind_done in He as (t5 & r5 & s3 & t6 & -> & H3 & He).
  apply exec_bind_done in He as (t7 & [] & s4 & t8 & -> & H4 & He).
  pose proof (does_send http_ok_json_no_cache_hdr _ _ _ _ _ H4) as D2.
  assert (s3 = s2) as -> by (eapply reads_only_exec, H3; solve_reads).
  assert (s4 = s2) as -> by by eapply reads_only_exec, H4.
  assert (s' = s2) as -> by (eapply reads_only_exec, He; solve_reads).
  split; [rewrite map_app, in_app_iff; auto|].
  split; [rewrite !map_app, !in_app_iff; auto 10|].
  exists (reg_info s2). split; [|done]. rewrite H2. by rewrite (on_reg_info_some _ _ _ H2) at 1.
Qed.

(** The registration sent to the server is the text [GET /register.json] last
    generated, not the one the request has just brought. *)
Theorem register_posts_stale_document request s tr s' client d :
  exec eq (post_register request) s tr (Done tt) s' ->
  In (esp_http_client_set_post_field client d) (map fst tr) ->
  (reg_info_json s ≫= cstr) = Some d.
Proof.
  intros He Hin. destruct (registration request) as [[[[name lenN] [email lenE]] hidden]|] eqn:Hreg.
  2: { destruct (post_register_none _ Hreg) as [b Eb]. rewrite Eb in He. exfalso.
       assert (only (fun e => e <> esp_http_client_set_post_field client d) any
         (when b (send http_400_hdr);; send http_400_hdr)) as Ho by (unfold when; solve_only).
       destruct (only_exec _ _ _ _ _ _ _ _ Ho He) as [Hf _].
       rewrite Forall_forall in Hf. apply in_map_iff in Hin as (c & Hc & Hi).
       apply list_elem_of_In, Hf in Hi. done. }
  rewrite (post_register_some _ _ _ _ _ _ Hreg) in He. unfold register_steps in He.
  unfold mbind, prog_bind in He.
  assert (forall X (p : wprog X) s t x s', only (fun e => e <> esp_http_client_set_post_field client d)
    any p -> exec eq p s t (Done x) s' -> ~ In (esp_http_client_set_post_field client d) (map fst t))
    as Hno.
  { intros X p s0 t x s1 Hp Hx Hi. destruct (only_exec _ _ _ _ _ _ _ _ Hp Hx) as [Hf _].
    rewrite Forall_forall in Hf. apply in_map_iff in Hi as (c & Hc & Hi).
    by apply list_elem_of_In, Hf in Hi. }
  apply exec_bind_done in He as (t1 & [] & s1 & t2 & -> & H1 & He).
  assert (s1 = s) as -> by (eapply reads_only_exec, H1; unfold when; solve_reads).
  apply exec_bind_done in He as (t3 & [] & s2 & t4 & -> & H2 & He).
  apply exec_update_done in H2 as [-> H2].
  assert (reg_info_json s2 = reg_info_json s) as <-.
  { by rewrite (on_reg_info_some _ _ _ H2). }
  apply exec_bind_done in He as (t5 & r5 & s3 & t6 & -> & H3 & He).
  assert (s3 = s2) as -> by (eapply reads_only_exec, H3; solve_reads).
  apply exec_bind_done in He as (t7 & [] & s4 & t8 & -> & H4 & He).
  assert (s4 = s2) as -> by by eapply reads_only_exec, H4.
  apply exec_bind_done in He as (t9 & b & s5 & t10 & -> & H5 & He).
  assert (s5 = s2) as -> by (eapply reads_only_exec, H5; solve_reads).
  rewrite !map_app, !in_app_iff in Hin. destruct Hin as [Hin|[Hin|[Hin|[Hin|[Hin|Hin]]]]].
  - eapply Hno in H1; [done|]. unfold when. solve_only.
  - done.
  - eapply Hno in H3; [done|]. unfold wifi_manager_save_reg_config, checked. solve_only.
  - eapply Hno in H4; [done|]. solve_only.
  - eapply Hno in H5; [done|]. solve_only.
  - destruct b; [|by apply exec_ret_inv in He as (-> & _)]. cbn [when] in He.
    assert (wp eq (fun _ _ e => forall c d, e = esp_http_client_set_post_field c d ->
      (reg_info_json s2 ≫= cstr) = Some d) (fun _ _ s' => s' = s2) http_server_post_registration [] s2) as Hw.
    { unfold http_server_post_registration, wifi_manager_get_reg_info_json. prog_simpl.
      split; [done|]. intros a ? <- ? <-. destruct (reg_info_json s2) as [b2|]; [|done].
      split; [done|]. intros ? ? <-. split; [done|]. intros ? ? <-.
      destruct (cstr b2) as [t|] eqn:Et; [|done]. cbn [try bind wp].
      split; [by intros ? ? [= _ <-]|]. intros ? ? <-. split; [done|]. intros ? ? <-.
      split; [done|]. by intros ? ? <-. }
    apply in_map_iff in Hin as ([e a] & Hc & Hi). cbn [fst] in Hc. subst e.
    apply in_split in Hi as (l1 & l2 & ->).
    destruct (wp_exec _ _ _ _ _ _ _ _ _ Hw He) as [_ HG].
    destruct (HG _ _ _ _ eq_refl) as [s0 Hs0]. by eapply Hs0.
Qed.

(** ** Instances *)

Definition connect_request : list Z :=
  lit "Host: 192.168.4.1\r\nx-custom-ssid: home\r\nx-custom-pwd: secret\r\n\r\n".

Lemma demo_credentials : credentials connect_request (lit "home") (lit "secret").
Proof.
  split_and!; [|vm_compute; lia| |vm_compute; lia].
  - apply (posted_read _ _ (lit "home\r\nx-custom-pwd: secret\r\n\r\n") 4). vm_compute. reflexivity.
  - apply (posted_read _ _ (lit "secret\r\n\r\n") 6). vm_compute. reflexivity.
Qed.

Lemma post_connect_correct_witness :
  let '(tr, o, s') := run (post_connect connect_request) (demo_wm [] [] [] [])
    [ret_ pdTRUE; ret_ 0; ret_ 0; ret_ 0] in
  o = Done tt /\ config_sta s' = Some (StaConfig (field 32 (lit "home")) (field 64 (lit "secret"))
                                         (replicate 40 0)).
Proof.
  destruct (run (post_connect connect_request) _ _) as [[tr o] s'] eqn:E.
  assert (o = Done tt) as -> by (vm_compute in E; congruence). split; [done|].
  pose proof (post_connect_correct (demo_wm [] [] [] [])
    (StaConfig (field 32 []) (field 64 []) (replicate 40 0)) connect_request _ _ _ eq_refl (run_exec _ _ _ _ _ _ E)
    ltac:(done)) as [H _].
  apply (H _ _ demo_credentials).
Defined.

Definition demo_files : embedded := Embedded (lit "<html>") [31; 139] (lit "x") (lit "y").

Lemma routes_balance_mutex_witness :
  let '(tr, o, _) := run (serve_line demo_files (lit "GET /ap.json HTTP/1.1\r") None)
    demo_saved [ret_ pdTRUE; ret_ 0] in
  exists a, nth_error tr 0 = Some (xSemaphoreTake JSON_MUTEX (Some 10), a) /\
  lock_discipline [] (xSemaphoreTake JSON_MUTEX (Some 10)).
Proof.
  destruct (run _ demo_saved _) as [[tr o] s'] eqn:E.
  pose proof (routes_balance_mutex eq demo_files (lit "GET /ap.json HTTP/1.1\r") None _ _ _ _
    ltac:(by vm_compute) (run_exec _ _ _ _ _ _ E)) as [H _].
  vm_compute in E. injection E as <- _ _. eexists. split; [reflexivity|].
  by eapply (H [] (xSemaphoreTake JSON_MUTEX (Some 10))).
Defined.

Lemma register_json_double_unlock_witness :
  let '(tr, o, _) := run serve_register_json demo_saved
    ([ret_ pdTRUE; ret_ ESP_ERR_NVS_NOT_FOUND; ret_bytes 0 [1; 2; 3; 4; 5; 6]] ++ replicate 4 (ret_ 0)) in
  o = Done tt /\ locks tr = -1.
Proof.
  destruct (run serve_register_json demo_saved _) as [[tr o] s'] eqn:E.
  assert (o = Done tt) as -> by (vm_compute in E; congruence). split; [done|].
  apply (register_json_double_unlock _ _ _ (run_exec _ _ _ _ _ _ E)).
  vm_compute in E. by injection E as _ <-.
Defined.

(** A registration whose name has 65 letters. *)
Definition long_name_request : list Z :=
  lit "X-Custom-name: " ++ replicate 65 65 ++ lit "\nX-Custom-email: a@b.c\nX-Custom-hidden: f\n".

Definition register_answers (connected : Z) : list answer :=
  [ret_ 0; ret_val 0 1] ++ replicate 5 (ret_ 0) ++ [ret_ connected] ++ replicate 6 (ret_ 0).

Lemma register_overlong_witness :
  let '(tr, o, _) := run (post_register long_name_request) demo_saved (register_answers 0) in
  o = Done tt /\ In (netconn_write (constant http_400_hdr) NETCONN_NOCOPY) (map fst tr) /\
  In (netconn_write (constant http_ok_json_no_cache_hdr) NETCONN_NOCOPY) (map fst tr).
Proof.
  destruct (run (post_register long_name_request) demo_saved _) as [[tr o] s'] eqn:E.
  assert (o = Done tt) as -> by (vm_compute in E; congruence). split; [done|].
  destruct (registration long_name_request) as [[[[name lenN] [email lenE]] hidden]|] eqn:Hr;
    [|by vm_compute in Hr].
  assert (JSON_REG_NAME_SIZE < lenN)%nat as Hl.
  { vm_compute in Hr. injection Hr as _ <- _ _ _. vm_compute. lia. }
  destruct (register_overlong long_name_request name lenN email lenE hidden demo_saved tr s' Hr
    (or_introl Hl) (run_exec _ _ _ _ _ _ E)) as (H1 & H2 & _). exact (conj H1 H2).
Defined.

Definition register_request : list Z :=
  lit "X-Custom-name: Bob\nX-Custom-email: b@b.c\nX-Custom-hidden: f\n".

Lemma register_posts_stale_document_witness :
  let '(tr, o, _) := run (post_register register_request)
    (set_reg_info_json (Some (lit "{}\n" ++ [0])) demo_saved) (tl (register_answers 1)) in
  forall client d, In (esp_http_client_set_post_field client d) (map fst tr) -> d = lit "{}\n".
Proof.
  destruct (run (post_register register_request) _ _) as [[tr o] s'] eqn:E. intros client d Hin.
  assert (o = Done tt) as -> by (vm_compute in E; congruence).
  pose proof (register_posts_stale_document _ _ _ _ _ _ (run_exec _ _ _ _ _ _ E) Hin) as H.
  vm_compute in H. injection H as <-. by vm_compute.
Defined.
