(* ===== verification/HttpSpec.v ===== *)
(** * What the HTTP server promises (http_server_if.c)

    The server seen from the network: a table of routes, and for each of them the
    pieces a request can be answered with.  [HttpServer] refines it, whatever the other
    tasks do to the documents meanwhile. *)

From S2P Require Import Prelude CMem Ext WifiScan WifiState WifiJson WifiNvs WifiManager HttpServer.

Local Open Scope Z_scope.

(** ** The specification *)

Inductive route :=
  | Page (hdr file : list Z)
  | ApList
  | Status
  | Register
  | Disconnect
  | Connect
  | Registration
  | Unknown.

Definition routes (files : embedded) : list (list Z * route) := [
  (lit "GET / ", Page http_html_hdr (index_html files));
  (lit "GET /jquery.js ", Page http_jquery_gz_hdr (jquery_gz files));
  (lit "GET /code.js ", Page http_js_hdr (code_js files));
  (lit "GET /ap.json ", ApList);
  (lit "GET /style.css ", Page http_css_hdr (style_css files));
  (lit "GET /status.json ", Status);
  (lit "GET /register.json ", Register);
  (lit "DELETE /connect.json ", Disconnect);
  (lit "POST /connect.json ", Connect);
  (lit "POST /register.json ", Registration)].

(** The first route the line contains. *)
Definition route_of (files : embedded) (line : list Z) : route :=
  match find (fun r => starts line (fst r)) (routes files) with
  | Some (_, r) => r
  | None => Unknown
  end.

(** The shared buffer a route answers with. *)
Definition document_of (r : route) : option json_document :=
  match r with ApList => Some AccessPoints | Status => Some IpInfo | Register => Some RegInfo | _ => None end.

(** The pieces handed to the stack in answer to a request. *)
Inductive response : route -> list piece -> Prop :=
  | page hdr file : response (Page hdr file) [constant hdr; constant file]
  | document r d text : document_of r = Some d -> nonzero text ->
      response r [constant http_ok_json_no_cache_hdr; (Document d, text)]
  | busy r : document_of r <> None -> response r [constant http_503_hdr]
  | silent : response Register []
  | accepted r : In r [Disconnect; Connect; Registration] -> response r [constant http_ok_json_no_cache_hdr]
  | refused r : In r [Connect; Registration; Unknown] -> response r [constant http_400_hdr]
  | refused_then w : In w [http_ok_json_no_cache_hdr; http_400_hdr] ->
      response Registration [constant http_400_hdr; constant w].

(** ** What a run writes *)

Definition written (c : ext * answer) : list piece :=
  match fst c with netconn_write data _ => [data] | _ => [] end.

Definition writes (tr : ctrace) : list piece := concat (written <$> tr).

Definition not_write (e : ext) : bool := match e with netconn_write _ _ => false | _ => true end.

Abbreviation mute p := (only (fun e => not_write e = true) any p).

(** Every run of [p] that returns writes pieces with [W]. *)
Definition emits (W : list piece -> Prop) (p : wprog unit) : Prop :=
  forall R s tr s', exec R p s tr (Done tt) s' -> W (writes tr).

Lemma writes_app t1 t2 : writes (t1 ++ t2) = writes t1 ++ writes t2.
Proof. unfold writes. by rewrite fmap_app, concat_app. Qed.

Lemma mute_writes {X} R (p : wprog X) s tr o s' : mute p -> exec R p s tr o s' -> writes tr = [].
Proof.
  intros Hp He. apply (only_exec _ _ _ _ _ _ _ _ Hp) in He as [Ht _].
  induction Ht as [|[e a] tr Hc _ IH]; [reflexivity|]. unfold writes in *. rewrite fmap_cons. cbn [concat].
  rewrite IH. unfold written. cbn [fst] in *. by destruct e.
Qed.

Lemma emits_mute W p : mute p -> W [] -> emits W p.
Proof. intros Hp HW R s tr s' He. by rewrite (mute_writes R p s tr _ s' Hp He). Qed.

Lemma emits_mute_then {X} W (f : X -> wprog unit) p : mute p -> (forall x, emits W (f x)) -> emits W (bind f p).
Proof.
  intros Hp Hf R s tr s' He. apply exec_bind_done in He as (t1 & x & s1 & t2 & -> & H1 & H2).
  rewrite writes_app, (mute_writes _ _ _ _ _ _ Hp H1). by eapply Hf.
Qed.

Lemma emits_send_then W (f : unit -> wprog unit) d : emits (fun w => W (constant d :: w)) (f tt) -> emits W (bind f (send d)).
Proof.
  intros Hf R s tr s' He. apply exec_bind_done in He as (t1 & [] & s1 & t2 & -> & H1 & H2).
  inversion H1 as [| | | | | |? ? ? a s2 tr' ? ? HR Hk]; subst. inversion Hk; subst. by apply (Hf R s1 t2 s').
Qed.

Lemma emits_send (W : list piece -> Prop) d : W [constant d] -> emits W (send d).
Proof.
  intros HW R s tr s' He. inversion He as [| | | | | |? ? ? a s2 tr' ? ? HR Hk]; subst. by inversion Hk; subst.
Qed.

Lemma emits_try_then {X} W (f : X -> wprog unit) (o : option X) :
  (forall x, o = Some x -> emits W (f x)) -> emits W (bind f (try o)).
Proof. destruct o as [x|]; intros Hf; [by apply Hf|]. intros R s tr s' He. inversion He. Qed.

Lemma emits_send_string_then W (f : unit -> wprog unit) d b :
  (forall text, nonzero text -> emits (fun w => W ((Document d, text) :: w)) (f tt)) -> emits W (bind f (send_string d b)).
Proof.
  intros Hf. unfold send_string, mbind, prog_bind. destruct b as [b|]; cbn [option_bind].
  - destruct (cstr b) as [text|] eqn:E; cbn [try bind]; [|by intros R s tr s' He; inversion He].
    apply cstr_inv in E as [Hn _]. intros R s tr s' He. apply exec_bind_done in He as (t1 & [] & s1 & t2 & -> & H1 & H2).
    inversion H1 as [| | | | | |? ? ? a s2 tr' ? ? HR Hk]; subst. inversion Hk; subst. by apply (Hf text Hn R s1 t2 s').
  - cbn [try bind]. intros R s tr s' He. inversion He.
Qed.

Lemma emits_assoc {X Y} W (f : Y -> wprog unit) (g : X -> wprog Y) p :
  emits W (bind (fun x => bind f (g x)) p) -> emits W (bind f (bind g p)).
Proof. intros H R s tr s' He. eapply H, exec_bind_assoc, He. Qed.

(** ** The routes *)

Lemma mute_lock t : mute (wifi_manager_lock_json_buffer t).
Proof. solve_only. Qed.
Lemma mute_save_reg : mute wifi_manager_save_reg_config.
Proof. unfold wifi_manager_save_reg_config, checked. solve_only. Qed.
Lemma mute_post_registration : mute http_server_post_registration.
Proof. solve_only. Qed.
Lemma mute_fetch_reg : mute wifi_manager_fetch_reg_config.
Proof. solve_only. Qed.
Lemma mute_generate_reg : mute wifi_manager_generate_reg_info_json.
Proof. solve_only. Qed.

#[local] Hint Resolve mute_lock mute_save_reg mute_post_registration mute_fetch_reg mute_generate_reg : airu.

(** One piece after another; [mute_then] for the parts between. *)
Ltac emit_step :=
  cbv beta iota;
  lazymatch goal with
  | |- emits _ (bind _ (send_string _ _)) => apply emits_send_string_then; intros ? ?
  | |- emits _ (bind _ (send _)) => apply emits_send_then
  | |- emits _ (bind _ (bind _ _)) => apply emits_assoc
  | |- emits _ (send _) => apply emits_send
  | |- emits ?W (bind ?f (Ret ?x)) => change (emits W (f x))
  | |- emits _ (bind _ (try _)) => apply emits_try_then; intros ? _
  | |- emits _ (if ?b then _ else _) => destruct b
  | |- emits _ (match ?x with _ => _ end) => destruct x
  | |- emits _ (bind _ (if ?b then _ else _)) => destruct b
  | |- emits _ (bind _ (match ?x with _ => _ end)) => destruct x
  | |- emits _ (bind _ _) => apply emits_mute_then; [solve [solve_only]|intros ?]
  | |- emits _ _ => apply emits_mute; [solve [solve_only]|]
  end.

Ltac respond :=
  lazymatch goal with
  | |- response _ [] => apply silent
  | |- response _ [constant http_503_hdr] => apply busy
  | |- response _ [constant http_400_hdr] => apply refused
  | |- response _ [constant http_ok_json_no_cache_hdr] => apply accepted
  | |- response _ [constant http_400_hdr; constant http_400_hdr] => apply refused_then; right; by left
  | |- response _ [constant http_400_hdr; _] => apply refused_then; by left
  | |- response _ [_; _] => apply document; [reflexivity|assumption]
  end; try done; cbn [In]; tauto.

Ltac solve_emits := unfold mbind, prog_bind; repeat emit_step; respond.

Lemma ap_json_responds : emits (response ApList) serve_ap_json.
Proof. unfold serve_ap_json. solve_emits. Qed.

Lemma status_json_responds : emits (response Status) serve_status_json.
Proof. unfold serve_status_json. solve_emits. Qed.

Lemma register_json_responds : emits (response Register) serve_register_json.
Proof. unfold serve_register_json. solve_emits. Qed.

Lemma delete_connect_responds : emits (response Disconnect) serve_delete_connect.
Proof. unfold serve_delete_connect. solve_emits. Qed.

Lemma post_connect_responds request : emits (response Connect) (post_connect request).
Proof. unfold post_connect. solve_emits. Qed.

Lemma post_register_responds request : emits (response Registration) (post_register request).
Proof. unfold post_register, when. solve_emits. Qed.

Lemma serve_line_responds files line rest : emits (response (route_of files line)) (serve_line files line rest).
Proof.
  unfold serve_line, route_of, routes. cbn [find fst].
  repeat (match goal with |- context [starts line ?r] => destruct (starts line r) end;
    [first [apply ap_json_responds | apply status_json_responds | apply register_json_responds
           | apply delete_connect_responds
           | apply emits_try_then; intros ? _; first [apply post_connect_responds | apply post_register_responds]
           | apply emits_send_then, emits_send, page]|]).
  apply emits_send, refused. cbn [In]. tauto.
Qed.

(** What is written on a connection: nothing when there is no request, "not
    found" for a request without a line, and otherwise one of the responses of
    its route; then the request is freed. *)
Definition answered (files : embedded) (a : answer) (w : list piece) : Prop :=
  if Z.eqb (a_ret a) ERR_OK then
    exists text, cstr (a_bytes a) = Some text /\
      match strtok_line text with
      | Some (line, _) => response (route_of files line) w
      | None => w = [constant http_404_hdr]
      end
  else w = [].


(** ** Instances *)

Definition page_request : list Z := lit "GET /style.css HTTP/1.1\r\nHost: 10.10.0.1\r\n\r\n" ++ [0].

Definition page_run := run (http_server_netconn_serve demo_files) demo_saved [ret_bytes 0 page_request; ret_ 0; ret_ 0; ret_ 0].

Example page_sent : writes (fst (fst page_run)) = [constant http_css_hdr; constant (style_css demo_files)].
Proof. vm_compute. reflexivity. Qed.

