(* ===== verification/WifiTyped.v ===== *)
(** * The variables of wifi_manager.c at all times

    A type for the statics the tasks share: the size of every buffer, what the
    printed fields hold, the two documents the mutex protects; and the updates
    of the code that keep it. *)

From S2P Require Import Prelude CMem Printf Json WifiScan WifiState WifiJson WifiNvs WifiManager HttpServer.

Local Open Scope Z_scope.

#[export] Instance ap_ok_dec ap : Decision (ap_ok ap).
Proof. unfold ap_ok. apply _. Defined.

(** ** What the mutex protects *)

(** The texts /status.json and /ap.json can have. *)
Inductive status_document : list Z -> Prop :=
  | status_cleared : status_document (lit "{}\n")
  | status_printed ssid ip netmask gw code :
      status_document (status_text ssid ip netmask gw (update_reason_int code)).

Inductive ap_document : list Z -> Prop :=
  | ap_cleared : ap_document (lit "[]\n")
  | ap_printed aps : (length aps <= MAX_AP_NUM)%nat -> ap_document (ap_list_text aps).

Definition holds (P : list Z -> Prop) (b : option (list Z)) : Prop :=
  exists m text, b = Some m /\ cstr m = Some text /\ P text.

Definition documents (s : wm) : option (list Z) * option (list Z) := (ip_info_json s, accessp_json s).

Definition whole (d : option (list Z) * option (list Z)) : Prop :=
  holds status_document (fst d) /\ holds ap_document (snd d).

(** ** The variables at all times *)

Definition config_bytes (c : sta_config) : Prop :=
  length (sta_ssid c) = 32%nat /\ length (sta_password c) = 64%nat /\ Forall is_byte (sta_memory c).

(** Every buffer has its declared size, the documents exist, what is printed
    are bytes and scanned networks, the count of networks is not negative. *)
Record wm_typed (s : wm) : Prop := {
  typed_ok : wm_ok s;
  typed_status : is_Some (ip_info_json s);
  typed_aps : is_Some (accessp_json s);
  typed_config c : config_sta s = Some c -> config_bytes c;
  typed_records : Forall ap_ok (accessp_records s);
  typed_num : 0 <= ap_num s
}.

(** An update that keeps the variables typed and the documents as they are. *)
Definition typed_update (f : wm -> option wm) : Prop :=
  forall s s', wm_typed s -> f s = Some s' -> wm_typed s' /\ documents s' = documents s.

(** ** Updates of the variables *)

Definition sized (f : list Z -> option (list Z)) : Prop :=
  forall b b', f b = Some b' -> length b' = length b.

Lemma typed_reg_info f : sized f -> typed_update (on_reg_info f).
Proof.
  intros Hf s s' [[] ? ? ? ? ?] H. unfold on_reg_info in H.
  destruct (f (reg_info s)) as [b|] eqn:E; [|done]. injection H as <-. apply Hf in E.
  split; [|done]. split; [|done..]. split; try done. cbn. congruence.
Qed.

Lemma typed_wifi_settings f : sized f -> typed_update (on_wifi_settings f).
Proof.
  intros Hf s s' [[] ? ? ? ? ?] H. unfold on_wifi_settings in H.
  destruct (f (wifi_settings s)) as [b|] eqn:E; [|done]. injection H as <-. apply Hf in E.
  split; [|done]. split; [|done..]. split; try done. cbn. congruence.
Qed.

Lemma typed_reg_info_json f : sized f -> typed_update (on_reg_info_json f).
Proof.
  intros Hf s s' [[] ? ? ? ? ?] H. unfold on_reg_info_json in H.
  destruct (reg_info_json s) as [r|] eqn:Er; [|done]. cbn [mbind option_bind] in H.
  destruct (f r) as [b|] eqn:E; [|done]. injection H as <-. apply Hf in E.
  split; [|done]. split; [|done..]. split; try done. cbn. intros b' [= <-]. rewrite E. auto.
Qed.

Lemma typed_set_config c s :
  wm_typed s -> (forall c', c = Some c' -> config_bytes c') ->
  wm_typed (set_config_sta c s) /\ documents (set_config_sta c s) = documents s.
Proof.
  intros [[] ? ? ? ? ?] Hc. split; [|done]. split; [|done|done|exact Hc|done..].
  split; try done. intros c' E. by destruct (Hc c' E) as (? & ? & _).
Qed.

Lemma typed_on_config f :
  (forall c c', config_bytes c -> f c = Some c' -> config_bytes c') -> typed_update (on_config f).
Proof.
  intros Hf s s' Hs H. unfold on_config in H. destruct (config_sta s) as [c|] eqn:Ec; [|done].
  cbn [mbind option_bind] in H. destruct (f c) as [c'|] eqn:E; [|done]. injection H as <-.
  apply typed_set_config; [done|]. intros ? [= <-]. eapply Hf; [|done]. by eapply typed_config.
Qed.

Lemma typed_scan n l s :
  wm_typed s -> 0 <= n -> length l = length (accessp_records s) -> Forall ap_ok l ->
  wm_typed (set_ap_num n (set_accessp_records l s)) /\
  documents (set_ap_num n (set_accessp_records l s)) = documents s.
Proof.
  intros [[] ? ? ? ? ?] Hn Hl Ha. split; [|done]. split; [|done..]. split; try done. cbn. congruence.
Qed.

(** *** Sizes *)

Lemma sized_write off vs : sized (fun b => write b off vs).
Proof. intros b b'. apply write_length. Qed.

Lemma sized_memcpy off src n : sized (fun b => memcpy b off src n).
Proof. intros b b'. unfold memcpy. case_match; [apply write_length|done]. Qed.

Lemma sized_strcat t : sized (fun b => strcat b t).
Proof. intros b b'. unfold strcat. destruct (strlen b); [apply write_length|done]. Qed.

Lemma sized_snprintf off n t : sized (fun b => snprintf b off n t).
Proof. intros b b'. unfold snprintf. case_match; [by intros [= <-]|apply write_length]. Qed.

Lemma sized_bind f g : sized f -> (forall b, sized (g b)) -> sized (fun b => b1 ← f b; g b b1).
Proof.
  intros Hf Hg b b'. destruct (f b) as [b1|] eqn:E; [|done]. cbn [mbind option_bind].
  intros H. apply Hg in H. apply Hf in E. congruence.
Qed.

Lemma sized_json_append input : sized (json_append input).
Proof.
  intros b b'. unfold json_append. destruct (strlen b) as [n|]; [|done]. cbn [mbind option_bind].
  unfold json_print_string. destruct (cstr input) as [t|]; [|done]. cbn [mbind option_bind].
  destruct (store b n 34) as [b1|] eqn:E1; [|by case_match]. apply write_length in E1. cbn [mbind option_bind].
  case_match.
  - destruct (memcpy b1 _ input _) as [b2|] eqn:E2; [|done]. apply sized_memcpy in E2. cbn [mbind option_bind].
    destruct (store b2 _ 34) as [b3|] eqn:E3; [|done]. apply write_length in E3. cbn [mbind option_bind].
    destruct (store b3 _ 0) as [b4|] eqn:E4; [|done]. apply write_length in E4. cbn. intros [= <-]. lia.
  - destruct (json_copy t b1 _) as [[b2 p2]|] eqn:E2; [|done]. apply json_copy_length in E2. cbn [mbind option_bind].
    destruct (store b2 _ 34) as [b3|] eqn:E3; [|done]. apply write_length in E3. cbn [mbind option_bind].
    destruct (store b3 _ 0) as [b4|] eqn:E4; [|done]. apply write_length in E4. cbn. intros [= <-]. lia.
Qed.

Lemma sized_ip_info_append t : sized (ip_info_append t).
Proof.
  intros b b'. unfold ip_info_append. destruct (strlen b); [|done]. apply sized_snprintf.
Qed.

#[export] Hint Resolve sized_write sized_memcpy sized_strcat sized_snprintf sized_json_append
  sized_ip_info_append : airu.

Lemma sized_ap_json_loop records n k i : sized (ap_json_loop records n k i).
Proof.
  revert i. induction k as [|k IH]; intros i b b'; cbn [ap_json_loop]; [by intros [= <-]|].
  destruct (records !! i) as [ap|]; [|done]. cbn [mbind option_bind].
  destruct (ap_json_body ap _ b) as [b1|] eqn:E; [|done]. cbn [mbind option_bind].
  intros H. apply IH in H. rewrite H. revert E. unfold ap_json_body.
  destruct (strcat b _) as [b2|] eqn:E2; [|done]. apply sized_strcat in E2. cbn [mbind option_bind].
  destruct (json_append _ b2) as [b3|] eqn:E3; [|done]. apply sized_json_append in E3. cbn [mbind option_bind].
  destruct (snprintf _ _ _ _); [|done]. cbn [mbind option_bind].
  destruct (cstr _); [|done]. cbn [mbind option_bind]. intros E4. apply sized_strcat in E4. congruence.
Qed.

Lemma sized_access_points_json records n : sized (access_points_json records n).
Proof.
  apply (sized_bind (fun b => strcpy b 0 (lit "[")) (fun _ => ap_json_loop records n _ 0)); [apply sized_write|].
  intros _. apply sized_ap_json_loop.
Qed.

(** *** Contents *)

Lemma write_forall (P : Z -> Prop) b off vs b' :
  write b off vs = Some b' -> Forall P b -> Forall P vs -> Forall P b'.
Proof.
  unfold write. case_match; [|done]. intros [= <-] Hb Hv. rewrite !Forall_app.
  split_and!; [by apply Forall_take|done|by apply Forall_drop].
Qed.

Lemma memcpy_forall (P : Z -> Prop) b off src n b' :
  memcpy b off src n = Some b' -> Forall P b -> Forall P src -> Forall P b'.
Proof.
  unfold memcpy. case_match; [|done]. intros E Hb Hs. eapply write_forall; [exact E|done|].
  by apply Forall_take.
Qed.

Lemma resize_forall (P : Z -> Prop) n l : P 0 -> Forall P l -> Forall P (resize n 0 l).
Proof. intros H0 Hl. apply Forall_resize; done. Qed.

Lemma is_byte_0 : is_byte 0.
Proof. unfold is_byte. lia. Qed.

Lemma replicate_bytes n : Forall is_byte (replicate n 0).
Proof. apply Forall_replicate, is_byte_0. Qed.

#[export] Hint Resolve is_byte_0 replicate_bytes resize_forall Forall_take Forall_drop : airu.

Lemma config_zero c : config_bytes c -> config_bytes (sta_zero c).
Proof.
  intros (_ & _ & H). unfold config_bytes, sta_memory, sta_zero. cbn [sta_ssid sta_password sta_rest].
  rewrite !length_replicate, !Forall_app. auto with airu.
Qed.

(** A byte-for-byte copy into the name or the password. *)
Lemma config_set_ssid c b src n :
  memcpy (sta_ssid c) 0 src n = Some b -> Forall is_byte src -> config_bytes c ->
  config_bytes (StaConfig b (sta_password c) (sta_rest c)).
Proof.
  intros E Hs (H1 & H2 & H3). unfold config_bytes, sta_memory in *. cbn [sta_ssid sta_password sta_rest].
  rewrite !Forall_app in *. split_and!; try apply H3; [|done|].
  - apply sized_memcpy in E. congruence.
  - eapply memcpy_forall; [exact E|apply H3|done].
Qed.

Lemma config_set_password c b src n :
  memcpy (sta_password c) 0 src n = Some b -> Forall is_byte src -> config_bytes c ->
  config_bytes (StaConfig (sta_ssid c) b (sta_rest c)).
Proof.
  intros E Hs (H1 & H2 & H3). unfold config_bytes, sta_memory in *. cbn [sta_ssid sta_password sta_rest].
  rewrite !Forall_app in *. split_and!; try apply H3; [done| |].
  - apply sized_memcpy in E. congruence.
  - eapply memcpy_forall; [exact E|apply H3|done].
Qed.

Lemma config_fresh a c : Forall is_byte (a_bytes a) -> fresh_config a = Some c -> config_bytes c.
Proof.
  intros Ha. unfold fresh_config. case_match; [done|]. intros [= <-].
  unfold config_bytes, sta_memory. cbn [sta_ssid sta_password sta_rest]. rewrite !length_resize, !Forall_app.
  split_and!; auto with airu.
Qed.

Definition block_bytes (buff : heap_block) : Prop := forall b, snd buff = Some b -> Forall is_byte b.

Lemma block_read_bytes buff a b n :
  block_bytes buff -> Forall is_byte (a_bytes a) -> block_read buff a = Some (b, n) -> Forall is_byte b.
Proof.
  intros Hb Ha. unfold block_read. destruct (snd buff) as [b0|] eqn:E0; [|done]. cbn [mbind option_bind].
  destruct (memcpy b0 _ _ _) as [b1|] eqn:E; [|done]. cbn [mbind option_bind]. intros [= <- _].
  eapply memcpy_forall; [exact E|by apply Hb|done].
Qed.

(** ** The updates of the code *)

Lemma typed_erase : typed_update erase_config.
Proof.
  intros s s' Hs H. unfold erase_config in H. destruct (config_sta s) as [c|] eqn:E; [|done].
  cbn in H. injection H as <-. apply typed_set_config; [done|]. intros ? [= <-].
  apply config_zero. by eapply typed_config.
Qed.

Lemma typed_id s : wm_typed s -> wm_typed s /\ documents s = documents s.
Proof. done. Qed.

Lemma typed_erase_if_any : typed_update erase_config_if_any.
Proof.
  intros s s' Hs. unfold erase_config_if_any. case_match; [by apply typed_erase|]. by intros [= <-].
Qed.

Lemma typed_store_ssid buff a : block_bytes buff -> Forall is_byte (a_bytes a) -> typed_update (store_ssid buff a).
Proof.
  intros Hb Ha. apply typed_on_config. intros c c' Hc.
  destruct (block_read buff a) as [[b n]|] eqn:E; [|done]. cbn [mbind option_bind].
  destruct (memcpy (sta_ssid c) 0 b n) as [r|] eqn:Em; [|done]. intros [= <-].
  eapply config_set_ssid; [exact Em|by eapply block_read_bytes|done].
Qed.

Lemma typed_store_password buff a :
  block_bytes buff -> Forall is_byte (a_bytes a) -> typed_update (store_password buff a).
Proof.
  intros Hb Ha. apply typed_on_config. intros c c' Hc.
  destruct (block_read buff a) as [[b n]|] eqn:E; [|done]. cbn [mbind option_bind].
  destruct (memcpy (sta_password c) 0 b n) as [r|] eqn:Em; [|done]. intros [= <-].
  eapply config_set_password; [exact Em|by eapply block_read_bytes|done].
Qed.

Lemma typed_store_settings buff a : typed_update (store_settings buff a).
Proof.
  intros s s' Hs. unfold store_settings. destruct (block_read buff a) as [[b n]|]; [|done].
  apply typed_wifi_settings; auto with airu.
Qed.

Lemma typed_store_field off buff a : typed_update (store_field off buff a).
Proof.
  intros s s' Hs. unfold store_field. destruct (block_read buff a) as [[b n]|]; [|done].
  cbn [mbind option_bind]. destruct (store b n 0); [|done]. apply typed_reg_info; auto with airu.
Qed.

Lemma typed_store_credentials ssid lenS password lenP :
  Forall is_byte ssid -> Forall is_byte password ->
  typed_update (store_credentials ssid lenS password lenP).
Proof.
  intros H1 H2 s s' Hs. unfold store_credentials. destruct (erase_config s) as [s1|] eqn:E; [|done].
  cbn [mbind option_bind]. destruct (typed_erase s s1 Hs E) as [Hs1 <-]. apply typed_on_config; [|done].
  intros c c' Hc. destruct (memcpy (sta_ssid c) 0 ssid lenS) as [b1|] eqn:E1; [|done]. cbn [mbind option_bind].
  destruct (memcpy (sta_password c) 0 password lenP) as [b2|] eqn:E2; [|done]. intros [= <-].
  apply (config_set_ssid _ _ _ _ E1 H1) in Hc.
  by apply (config_set_password (StaConfig b1 (sta_password c) (sta_rest c)) b2 password lenP).
Qed.

Lemma typed_store_registration name lenN email lenE hidden :
  typed_update (store_registration name lenN email lenE hidden).
Proof.
  apply typed_reg_info. unfold memset, store. apply (sized_bind (fun b => write b _ _)); [auto with airu|].
  intros _ b b'. destruct (write b _ _) as [b1|] eqn:E1; [|done]. apply write_length in E1. cbn [mbind option_bind].
  destruct (memcpy b1 _ _ _) as [b2|] eqn:E2; [|done]. apply sized_memcpy in E2. cbn [mbind option_bind].
  destruct (memcpy b2 _ _ _) as [b3|] eqn:E3; [|done]. apply sized_memcpy in E3. cbn [mbind option_bind].
  intros E4. apply write_length in E4. congruence.
Qed.

(** *** The scan *)

Lemma foldl_keeps {B C} (P : B -> Prop) (f : B -> C -> B) b l :
  (forall b c, P b -> P (f b c)) -> P b -> P (foldl f b l).
Proof. intros Hf. revert b. induction l as [|c l IH]; intros b Hb; cbn [foldl]; auto. Qed.

(** A list of [n] scanned networks. *)
Definition scanned (n : nat) (l : list wifi_ap_record) : Prop := length l = n /\ Forall ap_ok l.

Lemma ap_ok_zero : ap_ok ap_zero.
Proof. unfold ap_ok, nonzero. cbn. split_and!; try lia; constructor. Qed.

Lemma ap_ok_lookup l i : Forall ap_ok l -> ap_ok (l !!! i).
Proof.
  intros Hl. rewrite list_lookup_total_alt. destruct (l !! i) as [a|] eqn:E; [|apply ap_ok_zero].
  by eapply Forall_lookup_1.
Qed.

Lemma scanned_insert n i ap l : scanned n l -> ap_ok ap -> scanned n (<[i := ap]> l).
Proof. intros [Hl Hf] Ha. split; [by rewrite length_insert|]. by apply Forall_insert. Qed.

Lemma scanned_filter_pair n i l j : scanned n l -> scanned n (filter_pair i l j).
Proof.
  intros Hl. unfold filter_pair. cbv zeta. case_match; [|done].
  apply scanned_insert; [|apply ap_ok_zero]. case_match; [|done]. apply scanned_insert; [done|].
  destruct (ap_ok_lookup l i (proj2 Hl)) as (H1 & H2 & H3 & _ & H4).
  by destruct (ap_ok_lookup l j (proj2 Hl)) as (_ & _ & _ & H5 & _).
Qed.

Lemma scanned_filter_outer n k l : scanned n l -> scanned n (filter_outer k l).
Proof.
  intros Hl. unfold filter_outer. apply foldl_keeps; [|done]. intros l1 i H1.
  unfold filter_outer_body. case_match; [done|]. unfold filter_inner.
  apply foldl_keeps; [|done]. intros. by apply scanned_filter_pair.
Qed.

Lemma scanned_reorder_body n k st i : scanned n (ro_list st) -> scanned n (ro_list (reorder_body k st i)).
Proof.
  destruct st as [l free u]. unfold reorder_body. cbn [ro_list]. intros Hl. case_match; [done|].
  case_match; [|done]. cbn [ro_list]. apply scanned_insert; [|apply ap_ok_zero].
  apply scanned_insert; [done|]. apply ap_ok_lookup, Hl.
Qed.

Lemma scanned_filter_unique l n l' m :
  Forall ap_ok l -> wifi_manager_filter_unique l n = Some (l', m) ->
  0 <= m /\ length l' = length l /\ Forall ap_ok l'.
Proof.
  intros Hl H. assert (n <= length l)%nat as Hn.
  { unfold wifi_manager_filter_unique in H. destruct (Nat.leb_spec n (length l)); done. }
  destruct (filter_unique_result l n Hn) as (tl & _ & _ & E). split.
  { rewrite E in H. injection H as <- <-. lia. }
  unfold wifi_manager_filter_unique in H. rewrite (proj2 (Nat.leb_le _ _)) in H by done. injection H as <- _.
  change (scanned (length l) (ro_list (foldl (reorder_body n)
    (Reorder (filter_outer n l) None (Z.of_nat n)) (seq 0 n)))).
  apply (foldl_keeps (fun st => scanned (length l) (ro_list st))); [intros; by apply scanned_reorder_body|].
  by apply scanned_filter_outer.
Qed.

(** [filter_records]'s update. *)
Lemma typed_filter :
  typed_update (fun s => '(l, n) ← wifi_manager_filter_unique (accessp_records s) (Z.to_nat (ap_num s));
                         Some (set_ap_num n (set_accessp_records l s))).
Proof.
  intros s s' Hs. destruct (wifi_manager_filter_unique _ _) as [[l n]|] eqn:E; [|done].
  cbn [mbind option_bind]. intros [= <-]. apply scanned_filter_unique in E as (H1 & H2 & H3); [|apply Hs].
  by apply typed_scan.
Qed.

Lemma typed_store_records a : Forall ap_ok (a_aps a) -> typed_update (store_records a).
Proof.
  intros Ha s s' Hs. unfold store_records. case_match eqn:Hl; [|done]. intros [= <-].
  apply Nat.leb_le in Hl. apply typed_scan; [done|apply uwrap_range; lia| |].
  - rewrite length_app, length_drop. lia.
  - apply Forall_app. split; [done|]. apply Forall_drop, Hs.
Qed.

Lemma typed_set_num n : 0 <= n -> typed_update (fun s => Some (set_ap_num n s)).
Proof.
  intros Hn s s' [[] ? ? ? ? ?] [= <-]. split; [|done]. split; [|done..]. by split.
Qed.

(** ** Updates of the documents *)

(** An update that keeps the variables typed and takes the documents from [d]
    to some with [P]. *)
Definition document_update (d : option (list Z) * option (list Z))
    (P : option (list Z) * option (list Z) -> Prop) (f : wm -> option wm) : Prop :=
  forall s s', wm_typed s -> documents s = d -> f s = Some s' -> wm_typed s' /\ P (documents s').

Lemma typed_document d f : typed_update f -> document_update d (fun d' => d' = d) f.
Proof. intros Hf s s' Hs <- H. by apply Hf. Qed.

Lemma status_update b l f P :
  sized f -> (forall b', f b = Some b' -> P b') ->
  document_update (Some b, l) (fun d => exists b', d = (Some b', l) /\ P b') (on_ip_info_json f).
Proof.
  intros Hf HP s s' [[] ? ? ? ? ?] Hd H. unfold documents in *. injection Hd as Hb Hl.
  unfold on_ip_info_json in H. rewrite Hb in H. cbn [mbind option_bind] in H.
  destruct (f b) as [b'|] eqn:E; [|done]. cbn in H. injection H as <-.
  split; [|exists b'; split; [by rewrite <- Hl|auto]].
  split; [|done..]. split; try done. cbn. intros ? [= <-]. apply Hf in E. rewrite E. auto.
Qed.

(** The name printed is the text of the configuration's memory. *)
Lemma status_name_update b l p :
  cstr b = Some p ->
  document_update (Some b, l)
    (fun d => exists b' ssid, d = (Some b', l) /\ cstr b' = Some (p ++ json_string ssid))
    (fun s => c ← config_sta s; on_ip_info_json (json_append (sta_memory c)) s).
Proof.
  intros Hp s s' Hs Hd H. destruct (config_sta s) as [c|] eqn:Ec; [|done]. cbn [mbind option_bind] in H.
  eapply (status_update b l _ (fun b' => exists ssid, cstr b' = Some (p ++ json_string ssid))) in H as [H1 (b' & -> & ssid & H2)];
    [split; [done|by exists b', ssid]|auto with airu| |done|done].
  intros b' E. destruct (typed_config s Hs c Ec) as (_ & _ & Hb).
  destruct (cstr (sta_memory c)) as [ssid|] eqn:Et.
  - pose proof (cstr_inv _ _ Et) as [_ [r Hr]]. rewrite Hr in Hb. apply Forall_app in Hb as [Hb _].
    rewrite (json_append_strcat _ ssid) in E by done. exists ssid. eapply strcat_cstr; [exact Hp| |exact E].
    auto with airu.
  - unfold json_append in E. destruct (strlen b); [|done]. cbn [mbind option_bind] in E.
    unfold json_print_string in E. by rewrite Et in E.
Qed.

Lemma status_text_update b l ssid ip netmask gw code :
  cstr b = Some (lit "{'ssid':" ++ json_string ssid) ->
  nonzero ip -> nonzero netmask -> nonzero gw ->
  (length ip <= 15)%nat -> (length netmask <= 15)%nat -> (length gw <= 15)%nat ->
  document_update (Some b, l)
    (fun d => exists b', d = (Some b', l) /\
       cstr b' = Some (status_text ssid ip netmask gw (update_reason_int code)))
    (on_ip_info_json (ip_info_append (ip_info_text ip netmask gw (update_reason_int code)))).
Proof.
  intros Hb H1 H2 H3 L1 L2 L3. apply status_update; [auto with airu|]. intros b' E.
  rewrite (snprintf_ip_info b _ _ Hb) in E.
  2: { pose proof (ip_info_text_length ip netmask gw code L1 L2 L3). unfold JSON_IP_INFO_SIZE. lia. }
  unfold status_text. rewrite app_assoc. eapply strcat_cstr; [exact Hb|auto with airu|exact E].
Qed.

Lemma status_start_update b l t :
  nonzero t ->
  document_update (Some b, l) (fun d => exists b', d = (Some b', l) /\ cstr b' = Some t)
    (on_ip_info_json (fun b => strcpy b 0 t)).
Proof.
  intros Ht. apply status_update; [apply sized_write|]. intros b' E. eapply strcpy_cstr; [done|exact E].
Qed.

(** The list of the networks in the array. *)
Lemma ap_json_loop_range records n k i b b' :
  ap_json_loop records n k i b = Some b' -> (k = 0 \/ i + k <= length records)%nat.
Proof.
  revert i b. induction k as [|k IH]; intros i b; [by left|]. cbn [ap_json_loop].
  destruct (records !! i) as [ap|] eqn:E; [|done]. apply lookup_lt_Some in E. cbn [mbind option_bind].
  destruct (ap_json_body _ _ b) as [b1|]; [|done]. cbn [mbind option_bind]. intros H. apply IH in H. lia.
Qed.

Lemma ap_list_update m l :
  document_update (m, Some l) (fun d => exists l', d = (m, Some l') /\ holds ap_document (Some l'))
    (fun s => on_accessp_json (access_points_json (accessp_records s) (ap_num s)) s).
Proof.
  intros s s' [[] ? ? ? Hrec Hnum] Hd H. unfold documents in *. injection Hd as Hm Hl.
  unfold on_accessp_json in H. rewrite Hl in H. cbn [mbind option_bind] in H.
  destruct (access_points_json _ _ l) as [l'|] eqn:E; [|done]. cbn in H. injection H as <-. split.
  - split; [|done..]. split; try done. cbn. intros ? [= <-]. apply sized_access_points_json in E. rewrite E. auto.
  - exists l'. cbn [accessp_json ip_info_json set_accessp_json]. split; [by rewrite <- Hm|].
    assert (exists k, ap_num s = Z.of_nat k /\ (k <= length (accessp_records s))%nat) as (k & Hk & Hle).
    { exists (Z.to_nat (ap_num s)). split; [lia|]. unfold access_points_json in E.
      destruct (strcpy l 0 (lit "[")); [|done]. cbn [mbind option_bind] in E. apply ap_json_loop_range in E. lia. }
    rewrite Hk in E. rewrite access_points_json_strcpy in E by (done || by apply Forall_take).
    eexists l', _. split; [done|]. split.
    + eapply strcpy_cstr; [|exact E]. by apply ap_list_text_nonzero, Forall_take.
    + constructor. rewrite length_take. lia.
Qed.
