(* ===== verification/Station.v ===== *)
(** * The Wi-Fi manager task seen from outside

    A station with its network, its documents as texts, the storage as a map,
    the bits of its event group and its timer; what it does with each request,
    and what that means for a network it left or joined.  [WifiRound] and
    [WifiBoot] show that wifi_manager.c refines it. *)

From S2P Require Import Prelude CMem Printf Json WifiScan WifiState WifiJson WifiNvs Led WifiManager.

Local Open Scope Z_scope.

(** ** The outside *)

(** What the driver meets in a round: the address the network gives (ip,
    netmask, gateway) or the reason it refuses the station; the networks a scan
    finds; whether the ping is answered. *)
Record driver := Driver {
  dr_address : option (list Z);
  dr_reason : Z;
  dr_records : list wifi_ap_record;
  dr_internet : bool
}.

Definition set_bits (m b : Z) : Z := Z.lor b m.
Definition clear_bits (m b : Z) : Z := Z.ldiff b m.

(** The bits after the driver's event ([event_handler_bits]). *)
Definition event_bits (e : system_event) (b : Z) : Z :=
  clear_bits (event_clears e) (set_bits (event_sets e) b).

Definition connect_event (d : driver) : system_event :=
  match dr_address d with
  | Some _ => SYSTEM_EVENT_STA_GOT_IP
  | None => SYSTEM_EVENT_STA_DISCONNECTED (dr_reason d)
  end.

(** What the driver reports are networks of the sizes of [wifi_ap_record_t]. *)
Definition driver_ok (d : driver) : Prop := Forall ap_ok (dr_records d).

Section station.
Context {W : Type} `{StorageLaws W}.
(** lwIP's text of an address. *)
Variable ntoa : list Z -> list Z.

(** ** The station *)

Record station := Station {
  st_bits : Z;
  st_timer : bool;
  st_network : sta_config;         (* name and password, as in memory *)
  st_settings : list Z;            (* of the access point *)
  st_storage : W;
  st_status : list Z;              (* the text /status.json serves *)
  st_aps : list Z                  (* the text /ap.json serves *)
}.

Definition with_bits (f : Z -> Z) (st : station) : station :=
  Station (f (st_bits st)) (st_timer st) (st_network st) (st_settings st) (st_storage st) (st_status st) (st_aps st).
Definition with_timer (t : bool) (st : station) : station :=
  Station (st_bits st) t (st_network st) (st_settings st) (st_storage st) (st_status st) (st_aps st).
Definition with_network (c : sta_config) (st : station) : station :=
  Station (st_bits st) (st_timer st) c (st_settings st) (st_storage st) (st_status st) (st_aps st).
Definition with_settings (b : list Z) (st : station) : station :=
  Station (st_bits st) (st_timer st) (st_network st) b (st_storage st) (st_status st) (st_aps st).
Definition with_storage (n : W) (st : station) : station :=
  Station (st_bits st) (st_timer st) (st_network st) (st_settings st) n (st_status st) (st_aps st).
Definition with_status (t : list Z) (st : station) : station :=
  Station (st_bits st) (st_timer st) (st_network st) (st_settings st) (st_storage st) t (st_aps st).
Definition with_aps (t : list Z) (st : station) : station :=
  Station (st_bits st) (st_timer st) (st_network st) (st_settings st) (st_storage st) (st_status st) t.

(** What the station does; [None] is a store outside a buffer. *)
Definition act (X : Type) : Type := station -> option (X * station).

#[export] Instance act_ret : MRet act := fun X x st => Some (x, st).
#[export] Instance act_bind : MBind act := fun X Y f m st => '(x, st) ← m st; f x st.

Definition now (f : station -> station) : act unit := fun st => Some (tt, f st).
Definition see {X} (f : station -> X) : act X := fun st => Some (f st, st).

(** *** The documents *)

(** The name of the network: its text in memory. *)
Definition name_of (c : sta_config) : option (list Z) := cstr (sta_memory c).

Definition show_status (code : update_reason_code) (ip netmask gw : list Z) : act unit := fun st =>
  name ← name_of (st_network st);
  let text := status_text name ip netmask gw (update_reason_int code) in
  if Nat.ltb (length text) JSON_IP_INFO_SIZE then Some (tt, with_status text st) else None.

(** Each network once, in order of appearance, with its best signal. *)
Definition show_networks (found : list wifi_ap_record) : act unit := fun st =>
  let text := ap_list_text (unique_aps (length found) found) in
  if Nat.ltb (length text) (MAX_AP_NUM * JSON_ONE_APP_SIZE + 4) then Some (tt, with_aps text st) else None.

(** *** The storage *)

Definition save : act unit := now (fun st =>
  with_storage
    (let set k v n := st_set n wifi_manager_nvs_namespace k v in
     set (lit "settings") (st_settings st)
       (set (lit "password") (sta_password (st_network st))
         (set (lit "ssid") (sta_ssid (st_network st)) (st_storage st)))) st).

Definition saved (n : W) : option (list Z * list Z * list Z) :=
  let get k := st_get n wifi_manager_nvs_namespace k in
  ssid ← get (lit "ssid"); password ← get (lit "password"); settings ← get (lit "settings");
  Some (ssid, password, settings).

(** Without a saved network both are cleared. *)
Definition restore : act unit := now (fun st =>
  let '(ssid, password, settings) :=
    default (replicate 32 0, replicate 64 0, replicate sizeof_wifi_settings 0) (saved (st_storage st)) in
  with_settings settings
    (with_network (StaConfig ssid password (replicate (length (sta_rest (st_network st))) 0)) st)).

(** *** The requests *)

Section requests.
Variable d : driver.

(** Wait for the driver's event after a disconnection. *)
Definition leave : act unit := now (fun st =>
  with_bits (fun b => event_bits (SYSTEM_EVENT_STA_DISCONNECTED WIFI_REASON_ASSOC_LEAVE)
    (clear_bits WIFI_MANAGER_STA_DISCONNECT_BIT b)) st).

Definition leave_if_connected (bits : Z) : act unit :=
  if has bits WIFI_MANAGER_WIFI_CONNECTED_BIT then leave else mret tt.

Definition forget (bits : Z) : act unit :=
  now (with_bits (clear_bits WIFI_MANAGER_HAVE_INTERNET_BIT));;
  leave_if_connected bits;;
  now (with_bits (clear_bits WIFI_MANAGER_STA_DISCONNECT_BIT));;
  now (fun st => with_network (sta_zero (st_network st)) st);;
  save;;
  show_status UPDATE_USER_DISCONNECT (lit "0") (lit "0") (lit "0");;
  now (with_bits (clear_bits WIFI_MANAGER_REQUEST_WIFI_DISCONNECT)).

(** Is the internet there?  Without it the reconnect timer runs. *)
Definition test : act bool :=
  now (with_bits (clear_bits WIFI_MANAGER_HAVE_INTERNET_BIT));;
  if dr_internet d then
    now (with_bits (set_bits WIFI_MANAGER_HAVE_INTERNET_BIT));; now (with_timer false);; mret true
  else now (with_timer true);; mret false.

Definition online (info : list Z) : act unit :=
  show_status UPDATE_CONNECTION_OK (ntoa (take 4 info)) (ntoa (take 4 (drop 4 info))) (ntoa (take 4 (drop 8 info)));;
  save;;
  test;;
  now (with_timer true).        (* with or without internet *)

Definition refused : act unit :=
  show_status UPDATE_FAILED_ATTEMPT (lit "0") (lit "0") (lit "0");;
  now (fun st => with_network (sta_zero (st_network st)) st);;
  now (with_bits (set_bits WIFI_MANAGER_STA_DISCONNECT_BIT)).

Definition join (bits : Z) : act unit :=
  leave_if_connected bits;;
  now (with_bits (clear_bits WIFI_MANAGER_STA_DISCONNECT_BIT));;
  now (with_bits (event_bits (connect_event d)));;
  match dr_address d with Some info => online info | None => refused end;;
  now (with_bits (clear_bits WIFI_MANAGER_REQUEST_STA_CONNECT_BIT)).

Definition look_around : act unit :=
  show_networks (take MAX_AP_NUM (dr_records d));;
  now (with_bits (clear_bits WIFI_MANAGER_REQUEST_WIFI_SCAN)).

(** Connected: the ping test.  Otherwise the saved network is asked for. *)
Definition try_again : act unit :=
  bits ← see st_bits;
  (if has bits WIFI_MANAGER_WIFI_CONNECTED_BIT then test;; mret tt
   else
     restore;;
     c ← see st_network;
     name ← (fun st => n ← name_of c; Some (n, st));
     if Nat.ltb 0 (length (name : list Z)) then
       now (with_status (lit "{}\n"));; now (with_bits (set_bits WIFI_MANAGER_REQUEST_STA_CONNECT_BIT))
     else mret tt);;
  now (with_bits (clear_bits WIFI_MANAGER_REQUEST_PING_TEST)).

(** A round: a disconnection first, then one of the other requests. *)
Definition station_round : act unit :=
  bits ← see st_bits;
  (if has bits WIFI_MANAGER_REQUEST_WIFI_DISCONNECT then forget bits else mret tt);;
  if has bits WIFI_MANAGER_REQUEST_STA_CONNECT_BIT then join bits
  else if has bits WIFI_MANAGER_REQUEST_WIFI_SCAN then look_around
  else if has bits WIFI_MANAGER_REQUEST_PING_TEST then try_again
  else mret tt.
End requests.

(** ** The loop of the task

    Before each round other tasks set request bits; each round meets its
    driver. *)

Fixpoint station_rounds (l : list (Z * driver)) : act unit :=
  match l with
  | [] => mret tt
  | (req, d) :: l => now (with_bits (set_bits req));; station_round d;; station_rounds l
  end.

(** ** Bits *)

Lemma land_set m b : Z.land m (set_bits m b) = m.
Proof.
  apply Z.bits_inj. intros i. unfold set_bits. rewrite Z.land_spec, Z.lor_spec.
  by destruct (Z.testbit m i), (Z.testbit b i).
Qed.

Lemma land_cleared m b : Z.land m (clear_bits m b) = 0.
Proof.
  apply Z.bits_inj. intros i. unfold clear_bits. rewrite Z.land_spec, Z.ldiff_spec, Z.bits_0.
  by destruct (Z.testbit m i), (Z.testbit b i).
Qed.

(** A bit of the mask is set. *)
Lemma has_testbit b m i : Z.testbit m i = true -> Z.testbit b i = true -> has b m = true.
Proof.
  intros Hm Hb. unfold has. destruct (Z.eqb_spec (Z.land b m) 0) as [E|]; [|done].
  apply (f_equal (fun z => Z.testbit z i)) in E. by rewrite Z.land_spec, Hm, Hb, Z.bits_0 in E.
Qed.

Lemma has_bit b k : 0 <= k -> has b (BIT k) = Z.testbit b k.
Proof.
  intros Hk. unfold BIT. rewrite Z.shiftl_1_l. destruct (Z.testbit b k) eqn:E.
  - apply (has_testbit _ _ k); [by apply Z.pow2_bits_true|done].
  - unfold has. assert (Z.land b (2 ^ k) = 0) as ->; [|done]. apply Z.bits_inj'. intros i Hi.
    rewrite Z.land_spec, Z.bits_0, Z.pow2_bits_eqb by done. destruct (Z.eqb_spec k i) as [<-|]; [by rewrite E|].
    apply andb_false_r.
Qed.

Lemma connected_testbit b : has b WIFI_MANAGER_WIFI_CONNECTED_BIT = Z.testbit b 0.
Proof. by apply (has_bit b 0). Qed.
Lemma request_connect_testbit b : has b WIFI_MANAGER_REQUEST_STA_CONNECT_BIT = Z.testbit b 3.
Proof. by apply (has_bit b 3). Qed.
Lemma request_scan_testbit b : has b WIFI_MANAGER_REQUEST_WIFI_SCAN = Z.testbit b 5.
Proof. by apply (has_bit b 5). Qed.
Lemma request_disconnect_testbit b : has b WIFI_MANAGER_REQUEST_WIFI_DISCONNECT = Z.testbit b 6.
Proof. by apply (has_bit b 6). Qed.

Lemma connected_eqb b :
  Z.eqb (Z.land b WIFI_MANAGER_WIFI_CONNECTED_BIT) WIFI_MANAGER_WIFI_CONNECTED_BIT
  = has b WIFI_MANAGER_WIFI_CONNECTED_BIT.
Proof.
  unfold has. change WIFI_MANAGER_WIFI_CONNECTED_BIT with 1.
  pose proof (Z.land_ones b 1 ltac:(done)) as E. change (Z.ones 1) with 1 in E. change (2 ^ 1) with 2 in E. rewrite E.
  pose proof (Z.mod_pos_bound b 2 ltac:(done)).
  assert (b mod 2 = 0 \/ b mod 2 = 1) as [-> | ->] by lia; done.
Qed.

(** The driver's answer to a connection attempt is one of the two events, and
    says whether there is an address. *)
Lemma connect_event_bits d b :
  has (event_bits (connect_event d) b) CONNECT_EVENTS = true /\
  has (event_bits (connect_event d) b) WIFI_MANAGER_WIFI_CONNECTED_BIT
  = bool_decide (is_Some (dr_address d)).
Proof.
  rewrite connected_testbit. unfold connect_event, event_bits, clear_bits, set_bits.
  destruct (dr_address d); cbn [event_sets event_clears].
  - assert (Z.testbit (Z.ldiff (Z.lor b WIFI_MANAGER_WIFI_CONNECTED_BIT) WIFI_MANAGER_REQUEST_RECONNECT) 0 = true)
      as Hb by (rewrite Z.ldiff_spec, Z.lor_spec; change (Z.testbit _ 0) with true at 2; by rewrite orb_true_r).
    split; [by apply (has_testbit _ _ 0)|done].
  - split.
    + apply (has_testbit _ _ 4); [done|]. rewrite Z.ldiff_spec, !Z.lor_spec.
      change (Z.testbit WIFI_MANAGER_STA_DISCONNECT_BIT 4) with true. by rewrite orb_true_r.
    + rewrite Z.ldiff_spec, (Z.lor_spec WIFI_MANAGER_HAVE_INTERNET_BIT). by rewrite andb_false_r.
Qed.

Lemma testbit_set m b i : Z.testbit (set_bits m b) i = Z.testbit b i || Z.testbit m i.
Proof. apply Z.lor_spec. Qed.
Lemma testbit_clear m b i : Z.testbit (clear_bits m b) i = Z.testbit b i && negb (Z.testbit m i).
Proof. apply Z.ldiff_spec. Qed.

(** ** Actions *)

Lemma bind_assoc {X Y Z} (m : act X) (f : X -> act Y) (g : Y -> act Z) st :
  ((m ≫= f) ≫= g) st = (m ≫= fun x => f x ≫= g) st.
Proof. unfold mbind, act_bind. by destruct (m st) as [[x st']|]. Qed.

Lemma now_bind {X} f (g : unit -> act X) st : (now f ≫= g) st = g tt (f st).
Proof. done. Qed.

Lemma show_status_bits code ip netmask gw st st' :
  show_status code ip netmask gw st = Some (tt, st') -> st_bits st' = st_bits st.
Proof.
  unfold show_status. destruct (name_of _); [|done]. cbn [mbind option_bind].
  destruct (Nat.ltb _ _); [|done]. by intros [= <-].
Qed.

(** What a save leaves saved. *)
Lemma saved_set n ssid password settings :
  let set k v st := st_set st wifi_manager_nvs_namespace k v in
  saved (set (lit "settings") settings (set (lit "password") password (set (lit "ssid") ssid n)))
  = Some (ssid, password, settings).
Proof.
  unfold saved. cbv zeta.
  by do 3 (rewrite ?st_get_set_ne by done; rewrite st_get_set_eq; cbn [mbind option_bind]).
Qed.

(** ** A network the user left *)

(** Nothing asks for the station to connect or scan: it is not connected, none
    of the requests but the ping test is pending. *)
Definition idle (b : Z) : Prop :=
  Z.testbit b 0 = false /\ Z.testbit b 3 = false /\ Z.testbit b 5 = false /\ Z.testbit b 6 = false.

(** No network, in memory or saved. *)
Definition forgotten (st : station) : Prop :=
  idle (st_bits st) /\
  (exists n, st_network st = StaConfig (replicate 32 0) (replicate 64 0) (replicate n 0)) /\
  exists settings, saved (st_storage st) = Some (replicate 32 0, replicate 64 0, settings).

Lemma forgotten_name n : name_of (StaConfig (replicate 32 0) (replicate 64 0) (replicate n 0)) = Some [].
Proof. done. Qed.

Lemma idle_clear m b : idle b -> idle (clear_bits m b).
Proof. unfold idle. rewrite !testbit_clear. by intros (-> & -> & -> & ->). Qed.

Lemma idle_ping b : idle b -> idle (set_bits WIFI_MANAGER_REQUEST_PING_TEST b).
Proof. unfold idle. rewrite !testbit_set. by intros (-> & -> & -> & ->). Qed.

Lemma forgotten_bits f st :
  (idle (st_bits st) -> idle (f (st_bits st))) -> forgotten st -> forgotten (with_bits f st).
Proof. intros Hf (Hi & Hr). split; [by apply Hf|done]. Qed.

Lemma try_again_forgotten d st :
  forgotten st -> exists st', try_again d st = Some (tt, st') /\ forgotten st'.
Proof.
  intros (Hi & (n & Hn) & settings & Hs). unfold try_again.
  change ((see st_bits ≫= ?k) st) with (k (st_bits st) st). cbv beta.
  rewrite connected_testbit, (proj1 Hi). unfold restore. eexists. split.
  - unfold mbind, act_bind, now, see. cbn [mbind option_bind]. rewrite Hs. cbn [default id].
    cbn [st_network with_settings with_network]. rewrite forgotten_name. cbn [mbind option_bind length].
    reflexivity.
  - split; [by apply idle_clear|]. split; [by eexists|]. by exists settings.
Qed.

(** The captured bits [b] of a round that serves at most the ping test. *)
Lemma rest_forgotten d b st :
  Z.testbit b 3 = false -> Z.testbit b 5 = false -> forgotten st ->
  exists st',
  (if has b WIFI_MANAGER_REQUEST_STA_CONNECT_BIT then join d b
   else if has b WIFI_MANAGER_REQUEST_WIFI_SCAN then look_around d
   else if has b WIFI_MANAGER_REQUEST_PING_TEST then try_again d else mret tt) st = Some (tt, st') /\
  forgotten st'.
Proof.
  intros B3 B5 Hf. rewrite request_connect_testbit, request_scan_testbit, B3, B5.
  destruct (has b _); [by apply try_again_forgotten|by exists st].
Qed.

Lemma station_round_forgotten d st :
  forgotten st ->
  exists st', station_round d (with_bits (set_bits WIFI_MANAGER_REQUEST_PING_TEST) st) = Some (tt, st') /\
  forgotten st'.
Proof.
  intros Hf. apply (forgotten_bits (set_bits WIFI_MANAGER_REQUEST_PING_TEST)) in Hf; [|apply idle_ping].
  destruct (proj1 Hf) as (_ & B3 & B5 & B6).
  destruct (rest_forgotten d _ _ B3 B5 Hf) as (st' & E & H').
  exists st'. split; [|done]. rewrite <- E. unfold station_round.
  change ((see st_bits ≫= ?k) ?st) with (k (st_bits st) st). cbv beta.
  by rewrite request_disconnect_testbit, B6.
Qed.

(** The name printed is empty, and the document fits. *)
Lemma forget_forgotten b st :
  Z.testbit (st_bits st) 3 = false -> Z.testbit (st_bits st) 5 = false ->
  (Z.testbit b 0 = Z.testbit (st_bits st) 0) ->
  exists st', forget b st = Some (tt, st') /\ forgotten st'.
Proof.
  intros B3 B5 B0. unfold forget, leave_if_connected. rewrite connected_testbit, B0.
  assert (exists st1, (if Z.testbit (st_bits st) 0 then leave else mret tt)
    (with_bits (clear_bits WIFI_MANAGER_HAVE_INTERNET_BIT) st) = Some (tt, st1) /\
    Z.testbit (st_bits st1) 0 = false /\ Z.testbit (st_bits st1) 3 = false /\ Z.testbit (st_bits st1) 5 = false /\
    st_network st1 = st_network st) as (st1 & E & C0 & C3 & C5 & Hn).
  { destruct (Z.testbit (st_bits st) 0) eqn:C; eexists; (split; [reflexivity|]);
      cbn [st_bits st_network with_bits leave event_bits]; unfold event_bits; cbn [event_clears event_sets];
      rewrite ?testbit_clear, ?testbit_set, ?testbit_clear, ?B3, ?B5, ?C; by rewrite ?andb_false_r. }
  rewrite now_bind. unfold mbind at 1, act_bind at 1. rewrite E. cbn [mbind option_bind].
  rewrite !now_bind. unfold save. rewrite now_bind. unfold mbind, act_bind, show_status.
  cbn [st_network with_bits with_network with_storage]. unfold sta_zero. rewrite forgotten_name. cbn [mbind option_bind].
  match goal with |- context [Nat.ltb ?x ?y] => change (Nat.ltb x y) with true end.
  cbn [mbind option_bind]. eexists. split; [reflexivity|].
  split; [|split].
  - unfold idle. cbn [st_bits with_bits with_status with_storage with_network].
    rewrite !testbit_clear, C0, C3, C5. split_and!; try done. apply andb_false_r.
  - by eexists.
  - exists (st_settings st1). cbn [st_storage with_bits with_status with_storage with_network st_network st_settings].
    apply saved_set.
Qed.

Lemma station_rounds_forgotten ds st :
  forgotten st ->
  exists st', station_rounds (pair WIFI_MANAGER_REQUEST_PING_TEST <$> ds) st = Some (tt, st') /\ forgotten st'.
Proof.
  revert st. induction ds as [|d ds IH]; intros st Hf; [by exists st|].
  destruct (station_round_forgotten d st Hf) as (st1 & E1 & Hf1).
  destruct (IH st1 Hf1) as (st2 & E2 & Hf2). exists st2. split; [|done].
  cbn [fmap list_fmap station_rounds]. rewrite now_bind. unfold mbind, act_bind. rewrite E1. exact E2.
Qed.

Lemma left_network_forgotten d st :
  Z.testbit (st_bits st) 3 = false -> Z.testbit (st_bits st) 5 = false ->
  exists st', station_round d (with_bits (set_bits WIFI_MANAGER_REQUEST_WIFI_DISCONNECT) st) = Some (tt, st') /\
  forgotten st'.
Proof.
  intros B3 B5. set (st0 := with_bits _ st).
  assert (Z.testbit (st_bits st0) 3 = false /\ Z.testbit (st_bits st0) 5 = false /\
          Z.testbit (st_bits st0) 6 = true) as (C3 & C5 & C6).
  { unfold st0. cbn [st_bits with_bits]. rewrite !testbit_set, B3, B5. split_and!; try done. apply orb_true_r. }
  destruct (forget_forgotten (st_bits st0) st0 C3 C5 eq_refl) as (st1 & E1 & Hf).
  destruct (rest_forgotten d (st_bits st0) st1 C3 C5 Hf) as (st2 & E2 & Hf2). exists st2. split; [|done].
  unfold station_round. change ((see st_bits ≫= ?k) ?st) with (k (st_bits st) st). cbv beta.
  rewrite request_disconnect_testbit, C6. unfold mbind, act_bind. rewrite E1. exact E2.
Qed.

(** ** A network that was joined *)

Definition addresses (info : list Z) : list Z * list Z * list Z :=
  (ntoa (take 4 info), ntoa (take 4 (drop 4 info)), ntoa (take 4 (drop 8 info))).

(** The document of the connection fits its buffer. *)
Definition document_fits (c : sta_config) (info : list Z) : Prop :=
  exists name, name_of c = Some name /\
  let '(ip, netmask, gw) := addresses info in
  (length (status_text name ip netmask gw (update_reason_int UPDATE_CONNECTION_OK)) < JSON_IP_INFO_SIZE)%nat.

Lemma join_saves d b (st : station) info :
  dr_address d = Some info -> document_fits (st_network st) info ->
  exists st', join d b st = Some (tt, st') /\
  saved (st_storage st') = Some (sta_ssid (st_network st), sta_password (st_network st), st_settings st).
Proof.
  intros Hd (name & Hname & Hfit). unfold join, leave_if_connected. rewrite Hd.
  assert (exists st1, (if has b WIFI_MANAGER_WIFI_CONNECTED_BIT then leave else mret tt) st = Some (tt, st1) /\
    st_network st1 = st_network st /\ st_settings st1 = st_settings st) as (st1 & E1 & Hn & Hs).
  { destruct (has b _); by eexists. }
  unfold mbind at 1, act_bind at 1. rewrite E1. cbn [mbind option_bind]. rewrite !now_bind.
  unfold online, show_status, mbind at 1 2, act_bind at 1 2. cbn [st_network with_bits]. rewrite Hn, Hname.
  cbn [mbind option_bind]. cbv zeta. rewrite (proj2 (Nat.ltb_lt _ _) Hfit). cbn [mbind option_bind].
  unfold save. rewrite now_bind. unfold test.
  destruct (dr_internet d); eexists; (split; [reflexivity|]);
    cbn [st_storage st_network st_settings with_bits with_timer with_status with_storage];
    rewrite saved_set; by rewrite Hn, Hs.
Qed.

Lemma joined_round d st info :
  Z.testbit (st_bits st) 6 = false -> dr_address d = Some info -> document_fits (st_network st) info ->
  exists st', station_rounds [(WIFI_MANAGER_REQUEST_STA_CONNECT_BIT, d)] st = Some (tt, st') /\
  saved (st_storage st') = Some (sta_ssid (st_network st), sta_password (st_network st), st_settings st).
Proof.
  intros B6 Hd Hfit. set (st0 := with_bits (set_bits WIFI_MANAGER_REQUEST_STA_CONNECT_BIT) st).
  destruct (join_saves d (st_bits st0) st0 info Hd Hfit) as (st1 & E1 & Hs). exists st1. split; [|done].
  cbn [station_rounds]. rewrite now_bind. fold st0. unfold station_round.
  unfold mbind at 1, act_bind at 1.
  change ((see st_bits ≫= ?k) ?st) with (k (st_bits st) st). cbv beta.
  assert (Z.testbit (st_bits st0) 6 = false /\ Z.testbit (st_bits st0) 3 = true) as [C6 C3].
  { unfold st0. cbn [st_bits with_bits]. rewrite !testbit_set, B6. split; [done|]. apply orb_true_r. }
  rewrite request_disconnect_testbit, C6, request_connect_testbit, C3.
  unfold mbind at 2, act_bind at 1. cbn [mret act_ret mbind option_bind]. by rewrite E1.
Qed.
End station.
