(* ===== verification/WifiRound.v ===== *)
(** * The rounds of the Wi-Fi manager task (wifi_manager.c)

    A world in which FreeRTOS, the storage and the driver do what they
    document, what it means that the variables represent a station of
    [Station], and the proof that the rounds of the task do to them what the
    rounds of the station do. *)

From S2P Require Import Prelude CMem Printf Json WifiScan WifiState WifiJson WifiNvs Led WifiManager WifiTyped Station.

Local Open Scope Z_scope.

Section world.
Context {W : Type} `{StorageLaws W}.
(** What answers an allocation, and lwIP's text of an address. *)
Variables (junk : answer) (ntoa : list Z -> list Z).
Hypothesis junk_some : a_ret junk <> 0.
Hypothesis ntoa_text : forall a, nonzero (ntoa a) /\ (length (ntoa a) <= 15)%nat.

Record world := World { w_bits : Z; w_timer : bool; w_nvs : nvs W }.

(** The events that end a wait: the driver's answer to a connection attempt or
    to a disconnection, the answer to the ping. *)
Definition wait_bits (d : driver) (m b : Z) : Z :=
  if Z.eqb m CONNECT_EVENTS then event_bits (connect_event d) b
  else if Z.eqb m WIFI_MANAGER_STA_DISCONNECT_BIT then
    event_bits (SYSTEM_EVENT_STA_DISCONNECTED WIFI_REASON_ASSOC_LEAVE) b
  else if Z.eqb m WIFI_MANAGER_HAVE_INTERNET_BIT then
    if dr_internet d then set_bits WIFI_MANAGER_HAVE_INTERNET_BIT b else b
  else b.

(** The answered ping also stops the timer ([pingResults]). *)
Definition wait_timer (d : driver) (m : Z) (t : bool) : bool :=
  if Z.eqb m WIFI_MANAGER_HAVE_INTERNET_BIT && dr_internet d then false else t.

Definition wifi_answer (d : driver) (e : ext) (w : world) : answer * world :=
  let '(World b t n) := w in
  match e with
  | xEventGroupSetBits WIFI_EG m => (ret_ 0, World (set_bits m b) t n)
  | xEventGroupClearBits WIFI_EG m => (ret_ 0, World (clear_bits m b) t n)
  | xEventGroupGetBits WIFI_EG => (ret_ b, w)
  | xEventGroupWaitBits WIFI_EG m _ _ _ =>
      (ret_ (wait_bits d m b), World (wait_bits d m b) (wait_timer d m t) n)
  | xSemaphoreTake _ _ => (ret_ pdTRUE, w)
  | xTimerIsTimerActive _ => (ret_ (if t then 1 else 0), w)
  | xTimerStart _ => (ret_ 1, World b true n)
  | xTimerStop _ => (ret_ 1, World b false n)
  | tcpip_adapter_get_ip_info => (ret_bytes ESP_OK (default [] (dr_address d)), w)
  | ip4addr_ntoa a => (ret_bytes 0 (ntoa a), w)
  | esp_wifi_scan_get_ap_records max =>
      let l := take (Z.to_nat max) (dr_records d) in
      (ret_aps ESP_OK (Z.of_nat (length l)) l, w)
  | _ => let '(a, n) := nvs_answer junk e n in (a, World b t n)
  end.

(** ** The variables that represent a station *)

(** A saved network is saved whole. *)
Definition storage_ok (n : W) : Prop :=
  let get k := st_get n wifi_manager_nvs_namespace k in
  get (lit "ssid") = None \/
  exists ssid password settings,
    get (lit "ssid") = Some ssid /\ get (lit "password") = Some password /\
    get (lit "settings") = Some settings /\
    length ssid = 32%nat /\ length password = 64%nat /\ length settings = sizeof_wifi_settings /\
    Forall is_byte (ssid ++ password).

Record represents (s : wm) (w : world) (st : station) : Prop := {
  rp_ok : wm_ok s;
  rp_mutex : json_mutex s = true;
  rp_bits : w_bits w = st_bits st;
  rp_timer : w_timer w = st_timer st;
  rp_storage : nvs_store (w_nvs w) = st_storage st;
  rp_flash : nvs_flash (w_nvs w) = st_storage st;   (* nothing waits for a commit *)
  rp_network : config_sta s = Some (st_network st);
  rp_bytes : config_bytes (st_network st);
  rp_settings : wifi_settings s = st_settings st;
  rp_status : holds (eq (st_status st)) (ip_info_json s);
  rp_aps : holds (eq (st_aps st)) (accessp_json s);
  rp_saved : storage_ok (st_storage st)
}.

(** The result of a run and that of an action of the station. *)
Definition agree {X} (r : outcome X * wm * world) (o : option (X * station)) : Prop :=
  match o with
  | Some (x, st) => exists s w, r = (Done x, s, w) /\ represents s w st
  | None => exists s w, r = (Stopped UB, s, w)
  end.

Section simulation.
Variable d : driver.

Abbreviation runs p s w := (run_world (wifi_answer d) p s w).

(** The program [p] does what the action [m] says. *)
Definition sim {X} (p : wprog X) (m : act X) : Prop :=
  forall s w st, represents s w st -> agree (runs p s w) (m st).

Lemma agree_bind {X Y} (p : wprog X) (m : act X) (f : X -> wprog Y) g s w st :
  agree (runs p s w) (m st) ->
  (forall x s w st', m st = Some (x, st') -> represents s w st' -> agree (runs (f x) s w) (g x st')) ->
  agree (runs (p ≫= f) s w) ((m ≫= g) st).
Proof.
  intros Hp Hf. unfold mbind, prog_bind, act_bind. rewrite run_world_bind.
  destruct (m st) as [[x st']|] eqn:E; cbn [agree mbind option_bind] in *.
  - destruct Hp as (s' & w' & -> & Hr). by apply Hf.
  - destruct Hp as (s' & w' & ->). by do 2 eexists.
Qed.

Lemma sim_bind {X Y} (p : wprog X) (m : act X) (f : X -> wprog Y) g :
  sim p m -> (forall x, sim (f x) (g x)) -> sim (p ≫= f) (m ≫= g).
Proof. intros Hp Hf s w st Hr. apply agree_bind; [by apply Hp|]. intros x s' w' st' _. apply Hf. Qed.

Lemma sim_ret {X} (x : X) : sim (mret x) (mret x).
Proof. intros s w st Hr. by exists s, w. Qed.

Lemma sim_if {X} (b : bool) (p q : wprog X) (m n : act X) :
  (b = true -> sim p m) -> (b = false -> sim q n) ->
  sim (if b then p else q) (if b then m else n).
Proof. destruct b; auto. Qed.

(** A call the station does not see. *)
Lemma sim_silent {Y} e (k : answer -> wprog Y) a (m : act Y) :
  (forall w, wifi_answer d e w = (a, w)) -> sim (k a) m -> sim (Call e k) m.
Proof. intros He Hk s w st Hr. cbn [run_world]. rewrite He. by apply Hk. Qed.

(** A part the station does not see. *)
Lemma sim_pure {X Y} (p : wprog X) x (f : X -> wprog Y) (m : act Y) :
  sim p (mret x) -> sim (f x) m -> sim (p ≫= f) m.
Proof.
  intros Hp Hf s w st Hr. unfold mbind, prog_bind. rewrite run_world_bind. destruct (Hp s w st Hr) as (s' & w' & -> & Hr').
  by apply Hf.
Qed.

Lemma sim_skip {Y} (p : wprog unit) (q : wprog Y) (m : act Y) :
  sim p (mret tt) -> sim q m -> sim (p;; q) m.
Proof. intros Hp Hq. exact (sim_pure p tt (fun _ => q) m Hp Hq). Qed.

Lemma sim_ext {X} (p : wprog X) (m m' : act X) : (forall st, m st = m' st) -> sim p m -> sim p m'.
Proof. intros Hm Hp s w st Hr. rewrite <- Hm. by apply Hp. Qed.

Lemma runs_assoc {X Y Z} (p : wprog X) (f : X -> wprog Y) (g : Y -> wprog Z) s w :
  runs ((p ≫= f) ≫= g) s w = runs (p ≫= fun x => f x ≫= g) s w.
Proof.
  unfold mbind, prog_bind. rewrite !run_world_bind.
  destruct (runs p s w) as [[[x|o|] s'] w']; by rewrite ?run_world_bind.
Qed.

Lemma sim_assoc {X Y Z} (p : wprog X) (f : X -> wprog Y) (g : Y -> wprog Z) m :
  sim (p ≫= fun x => f x ≫= g) m -> sim ((p ≫= f) ≫= g) m.
Proof. intros Hp s w st Hr. rewrite runs_assoc. by apply Hp. Qed.

(** ** Bits, timer and light *)

Lemma represents_bits s b t n st f :
  represents s (World b t n) st -> represents s (World (f b) t n) (with_bits f st).
Proof. intros [? ? Hb ? ? ? ? ? ? ? ?]. split; try done. cbn in *. by rewrite Hb. Qed.

Lemma represents_timer s b t n st t' :
  represents s (World b t n) st -> represents s (World b t' n) (with_timer t' st).
Proof. by intros []. Qed.

Lemma sim_set m : sim (wifi_set m) (now (with_bits (set_bits m))).
Proof. intros s [b t n] st Hr. do 2 eexists. split; [done|]. by apply represents_bits. Qed.

Lemma sim_clear m : sim (wifi_clear m) (now (with_bits (clear_bits m))).
Proof. intros s [b t n] st Hr. do 2 eexists. split; [done|]. by apply represents_bits. Qed.

Lemma sim_quiet e :
  (forall w, exists a, wifi_answer d e w = (a, w)) -> sim (call_ e) (mret tt).
Proof. intros He s w st Hr. destruct (He w) as [a Ha]. exists s, w. cbn. by rewrite Ha. Qed.

Lemma sim_light bit : sim (LED_SetEventBit bit) (mret tt).
Proof. apply sim_quiet. intros []. by eexists. Qed.

Lemma sim_check e : (forall w, wifi_answer d e w = (ret_ 0, w)) -> sim (check_ e) (mret tt).
Proof. intros He s w st Hr. exists s, w. cbn. by rewrite He. Qed.

Lemma sim_timer : sim start_reconnect_timer (now (with_timer true)).
Proof. intros s [b [] n] st Hr; do 2 eexists; (split; [done|]); by eapply represents_timer. Qed.

Lemma sim_leave : sim disconnect_and_wait leave.
Proof.
  intros s [b t n] st Hr. do 2 eexists. split; [done|].
  apply (represents_bits _ _ _ _ _ (fun b => event_bits _ (clear_bits _ b))), Hr.
Qed.

Lemma sim_leave_if_connected bits :
  sim (when (has bits WIFI_MANAGER_WIFI_CONNECTED_BIT) disconnect_and_wait) (leave_if_connected bits).
Proof. apply sim_if; intros _; [apply sim_leave|apply sim_ret]. Qed.

(** ** The storage *)

(** The calls of the storage and the heap. *)
Definition nvs_call (e : ext) : Prop :=
  match e with
  | nvs_open _ _ | nvs_set_blob _ _ _ | nvs_get_blob _ _ _ | nvs_commit _ | nvs_close _
  | malloc _ | malloc_wifi_config | free _ => True
  | _ => False
  end.

Lemma run_world_nvs {X} (p : wprog X) s b t n :
  only nvs_call any p ->
  runs p s (World b t n) =
  let '(o, s', n') := run_world (nvs_answer junk) p s n in (o, s', World b t n').
Proof.
  apply (run_world_part _ _ w_nvs (fun n w => World (w_bits w) (w_timer w) n)); try done.
  - by intros [].
  - intros [] [b' t' n']; by intros.
Qed.

Lemma save_calls : only nvs_call any wifi_manager_save_sta_config.
Proof. unfold wifi_manager_save_sta_config, with_config, checked. solve_only. Qed.

Lemma fetch_calls : only nvs_call any wifi_manager_fetch_wifi_sta_config.
Proof. solve_only. Qed.

Lemma sim_save : sim wifi_manager_save_sta_config (save;; mret ESP_OK).
Proof.
  intros s [b t n] st Hr. rewrite run_world_nvs by apply save_calls.
  rewrite (save_sta_config_world _ _ (st_network st)) by apply Hr.
  do 2 eexists. split; [done|]. destruct Hr as [Hok ? ? ? Hn ? ? (H1 & H2 & H3) Hs ? ? ?].
  split; try done.
  - cbn in *. unfold save_sta_world. by rewrite Hn, Hs.
  - cbn in *. unfold save_sta_world. by rewrite Hn, Hs.
  - right. exists (sta_ssid (st_network st)), (sta_password (st_network st)), (st_settings st).
    cbn [st_storage with_storage].
    split_and!; [rewrite !st_get_set_ne by done; apply st_get_set_eq
                |rewrite st_get_set_ne by done; apply st_get_set_eq|apply st_get_set_eq|done|done| |].
    + rewrite <- Hs. by apply ok_settings.
    + unfold sta_memory in H3. rewrite !Forall_app in *. tauto.
Qed.

(** A part whose result is not used. *)
Lemma sim_then {X Y} (p : wprog X) x (m : act unit) (q : wprog Y) (m' : act Y) :
  sim p (m;; mret x) -> sim q m' -> sim (p;; q) (m;; m').
Proof.
  intros Hp Hq. apply (sim_ext _ ((m;; mret x) ≫= fun _ => m')); [|by apply sim_bind].
  intros st. unfold mbind, act_bind, mret, act_ret. by destruct (m st) as [[? ?]|].
Qed.

Lemma zero_bytes n : Forall is_byte (replicate n 0).
Proof. by apply Forall_replicate. Qed.

Lemma length_settings_zero : length (replicate sizeof_wifi_settings 0) = sizeof_wifi_settings.
Proof. by rewrite length_replicate. Qed.

(** Memory that holds another network and other settings. *)
Lemma represents_network s w st c v b t n :
  represents s w st -> config_bytes c -> length v = sizeof_wifi_settings ->
  b = w_bits w -> t = w_timer w -> nvs_store n = nvs_store (w_nvs w) -> nvs_flash n = nvs_flash (w_nvs w) ->
  represents (set_wifi_settings v (set_config_sta (Some c) s)) (World b t n)
    (with_settings v (with_network c st)).
Proof.
  intros [[] ? ? ? ? ? ? ? ? ? ? ?] Hc Hv -> -> Hn Hn'. destruct Hc as (H1 & H2 & H3).
  split; try done; [|cbn in *; by rewrite Hn|cbn in *; by rewrite Hn'].
  split; try done. cbn. by intros ? [= <-].
Qed.

Lemma config_zero_rest ssid password n :
  length ssid = 32%nat -> length password = 64%nat -> Forall is_byte (ssid ++ password) ->
  config_bytes (StaConfig ssid password (replicate n 0)).
Proof.
  intros H1 H2 Hb. split_and!; [done..|]. unfold sta_memory. cbn [sta_ssid sta_password sta_rest].
  rewrite !Forall_app in *. split_and!; [apply Hb..|apply zero_bytes].
Qed.

Lemma sim_restore : exists x : station -> bool,
  forall s w st, represents s w st ->
  agree (runs wifi_manager_fetch_wifi_sta_config s w) ((restore;; mret (x st)) st).
Proof.
  exists (fun st => match saved (st_storage st) with
                    | Some (ssid, _, _) => negb (Z.eqb (ssid !!! 0%nat) 0) | None => false end).
  intros s [b t n] st Hr. rewrite run_world_nvs by apply fetch_calls.
  pose proof (rp_storage _ _ _ Hr) as Hn. cbn [w_nvs] in Hn.
  unfold restore, mbind, act_bind, now. cbn [mbind option_bind mret act_ret agree].
  destruct (rp_saved _ _ _ Hr) as [E|(ssid & password & settings & E1 & E2 & E3 & L1 & L2 & L3 & HB)].
  - destruct (fetch_sta_missing junk junk_some s n) as (k & Hk & ->).
    { apply Hr. } { by rewrite Hn. }
    unfold saved. cbn zeta. rewrite E. cbn [mbind option_bind default].
    do 2 eexists. split; [done|]. rewrite (Hk (st_network st)) by apply Hr. unfold cleared.
    eapply represents_network; [done| |apply length_settings_zero|done..].
    apply config_zero_rest; [done..|]. apply Forall_app. auto using zero_bytes.
  - destruct (fetch_sta_found junk junk_some s n ssid password settings) as (k & Hk & ->);
      [apply Hr|done|done|done|by rewrite Hn..|].
    unfold saved. cbn zeta. rewrite E1, E2, E3. cbn [mbind option_bind default].
    do 2 eexists. split; [done|]. rewrite (Hk (st_network st)) by apply Hr.
    eapply represents_network; [done| |done..].
    by apply config_zero_rest.
Qed.

(** ** The documents *)

Lemma represents_status s w st m :
  represents s w st -> length m = JSON_IP_INFO_SIZE ->
  forall text, cstr m = Some text ->
  represents (set_ip_info_json (Some m) s) w (with_status text st).
Proof.
  intros [[] ? ? ? ? ? ? ? ? ? ?] Hm text Ht. split; try done.
  - split; try done. by intros ? [= <-].
  - by exists m, text.
Qed.

Lemma represents_aps s w st m :
  represents s w st -> length m = (MAX_AP_NUM * JSON_ONE_APP_SIZE + 4)%nat ->
  forall text, cstr m = Some text ->
  represents (set_accessp_json (Some m) s) w (with_aps text st).
Proof.
  intros [[] ? ? ? ? ? ? ? ? ? ?] Hm text Ht. split; try done.
  - split; try done. by intros ? [= <-].
  - by exists m, text.
Qed.

(** The printed document, or the store past the buffer. *)
Lemma agree_status s w st code ip netmask gw s1 r :
  represents s w st ->
  nonzero ip -> nonzero netmask -> nonzero gw ->
  (length ip <= 15)%nat -> (length netmask <= 15)%nat -> (length gw <= 15)%nat ->
  r = match status_finish s (st_network st) (ip_info_text ip netmask gw (update_reason_int code)) with
      | Some s2 => (Done tt, s2, w)
      | None => (Stopped UB, s1, w)
      end ->
  agree r (show_status code ip netmask gw st).
Proof.
  intros Hr N1 N2 N3 L1 L2 L3 ->. unfold show_status, name_of.
  destruct (rp_bytes _ _ _ Hr) as (_ & _ & Hb).
  destruct (cstr (sta_memory (st_network st))) as [name|] eqn:En; cbn [mbind option_bind].
  - assert (Forall is_byte name) as Hn.
    { apply cstr_inv in En as [_ [rest E]]. rewrite E in Hb. by apply Forall_app in Hb as [Hb _]. }
    assert (length (ip_info_text ip netmask gw (update_reason_int code)) < JSON_IP_INFO_SIZE)%nat as Ht.
    { pose proof (ip_info_text_length ip netmask gw code L1 L2 L3). unfold JSON_IP_INFO_SIZE. lia. }
    rewrite (status_finish_strcpy s (st_network st) name) by done. fold (status_text name ip netmask gw (update_reason_int code)).
    pose proof (strcpy_none (replicate JSON_IP_INFO_SIZE 0) 0 (status_text name ip netmask gw (update_reason_int code))) as Ho.
    rewrite length_replicate in Ho.
    destruct (strcpy _ 0 (status_text _ _ _ _ _)) as [m|] eqn:E; cbn [fmap option_fmap option_map].
    + rewrite (proj2 (Nat.ltb_lt _ _)) by (destruct Ho as [_ Ho]; apply Nat.nle_gt; intros Hl; by apply Ho in Hl).
      do 2 eexists. split; [done|]. pose proof (strcpy_length _ _ _ _ E) as Hm. rewrite length_replicate in Hm.
      eapply represents_status; [done|done|]. eapply strcpy_cstr; [|exact E].
      unfold status_text. auto with airu.
    + rewrite (proj2 (Nat.ltb_ge _ _)) by (by apply Ho). by do 2 eexists.
  - unfold status_finish, status_start, json_append, json_print_string. rewrite En.
    destruct (strcpy _ 0 _) as [m|]; cbn [mbind option_bind]; [|by do 2 eexists].
    destruct (strlen m); by do 2 eexists.
Qed.

Lemma represents_buffer s w st :
  represents s w st -> exists m, ip_info_json s = Some m /\ length m = JSON_IP_INFO_SIZE.
Proof.
  intros Hr. destruct (rp_status _ _ _ Hr) as (m & text & Hm & _). exists m.
  split; [done|]. by apply (ok_ip_json s (rp_ok _ _ _ Hr)).
Qed.

Lemma lock_world t s w :
  json_mutex s = true -> runs (wifi_manager_lock_json_buffer t) s w = (Done true, s, w).
Proof. intros Hm. unfold wifi_manager_lock_json_buffer. prog_simpl. rewrite Hm. by destruct w. Qed.

Lemma sim_lock t : sim (wifi_manager_lock_json_buffer t) (mret true).
Proof. intros s w st Hr. exists s, w. split; [|done]. by apply lock_world, Hr. Qed.

Lemma sim_unlock : sim wifi_manager_unlock_json_buffer (mret tt).
Proof. apply sim_quiet. intros []. by eexists. Qed.

Lemma agree_last (p q : wprog unit) (m : act unit) s w st :
  agree (runs p s w) (m st) -> sim q (mret tt) -> agree (runs (p;; q) s w) (m st).
Proof.
  intros Hp Hq. unfold mbind, prog_bind. rewrite run_world_bind.
  destruct (m st) as [[[] st']|]; cbn [agree] in *.
  - destruct Hp as (s' & w' & -> & Hp). destruct (Hq s' w' st' Hp) as (s2 & w2 & -> & H2). by eauto.
  - destruct Hp as (s' & w' & ->). by eauto.
Qed.

Lemma sim_last (p q : wprog unit) m : sim p m -> sim q (mret tt) -> sim (p;; q) m.
Proof. intros Hp Hq s w st Hr. apply agree_last; auto. Qed.

Lemma sim_locked code m :
  sim (wifi_manager_generate_ip_info_json code) m -> sim (wifi_manager_json_status_update code) m.
Proof.
  intros Hp. apply (sim_pure _ true); [apply sim_lock|]. apply sim_last; [done|apply sim_unlock].
Qed.

Lemma sim_status code :
  code <> UPDATE_CONNECTION_OK ->
  sim (wifi_manager_json_status_update code) (show_status code (lit "0") (lit "0") (lit "0")).
Proof.
  intros Hcode. apply sim_locked. intros s w st Hr. destruct (represents_buffer _ _ _ Hr) as (m & Hm & Hl).
  destruct (generate_ip_info_json_fail_run s m (st_network st) code) as [s1 E]; [done|done|apply Hr|done|].
  apply (agree_status s w st code _ _ _ s1); try done.
  1-3: by apply nonzero_const.
  1-3: lit_len; cbn [length]; lia.
  destruct (status_finish _ _ _) as [s2|]; by eapply run_world_nil in E.
Qed.

Lemma ntoa_world addr s w :
  runs (ntoa_local addr) s w = (Done (ntoa addr), s, w).
Proof.
  destruct (ntoa_text addr) as [Hn Hl], w as [b t n]. unfold ntoa_local. prog_simpl.
  cbn [wifi_answer run_world a_bytes ret_bytes].
  rewrite strcpy_room by (done || (unfold IP4ADDR_STRLEN_MAX; lia)). done.
Qed.

Lemma generate_ip_info_json_world s m c info w :
  ip_info_json s = Some m -> length m = JSON_IP_INFO_SIZE -> config_sta s = Some c ->
  dr_address d = Some info ->
  exists s1,
  runs (wifi_manager_generate_ip_info_json UPDATE_CONNECTION_OK) s w =
  match status_finish s c (ip_info_text (ntoa (take 4 info)) (ntoa (take 4 (drop 4 info)))
          (ntoa (take 4 (drop 8 info))) (update_reason_int UPDATE_CONNECTION_OK)) with
  | Some s2 => (Done tt, s2, w)
  | None => (Stopped UB, s1, w)
  end.
Proof.
  intros Hb Hl Hc Hd. destruct w as [b t n].
  unfold wifi_manager_generate_ip_info_json, status_finish, status_start.
  prog_simpl. rewrite Hc. prog_simpl. rewrite (on_ip_info_json_at _ m) by done.
  rewrite memset_all by done. cbn [mbind option_bind]. rewrite on_ip_info_json_set.
  destruct (strcpy _ 0 (lit "{'ssid':")) as [b1|]; cbn [mbind option_bind]; [|by eexists].
  cbn [config_sta set_ip_info_json]. rewrite Hc. cbn [mbind option_bind].
  change (Wm _ _ _ _ _ _ _ _ _) with (set_ip_info_json (Some b1) s).
  rewrite on_ip_info_json_set.
  destruct (json_append _ b1) as [b2|]; cbn [mbind option_bind]; [|by eexists].
  rewrite decide_True by done. unfold esp_error_check. prog_simpl. cbn [wifi_answer a_ret ret_bytes].
  change (ESP_OK =? ESP_OK) with true. cbn [bind a_bytes ret_bytes]. rewrite Hd. cbn [default id].
  unfold mbind, prog_bind. do 3 (rewrite run_world_bind, ntoa_world). cbn [update run_world].
  rewrite !on_ip_info_json_set.
  destruct (ip_info_append _ b2) as [b3|]; cbn [mbind option_bind]; by eexists.
Qed.

Lemma sim_status_online info :
  dr_address d = Some info ->
  sim (wifi_manager_json_status_update UPDATE_CONNECTION_OK)
    (show_status UPDATE_CONNECTION_OK (ntoa (take 4 info)) (ntoa (take 4 (drop 4 info))) (ntoa (take 4 (drop 8 info)))).
Proof.
  intros Hd. apply sim_locked. intros s w st Hr. destruct (represents_buffer _ _ _ Hr) as (m & Hm & Hl).
  destruct (generate_ip_info_json_world s m (st_network st) info w) as [s1 E]; [done|done|apply Hr|done|].
  by apply (agree_status s w st _ _ _ _ s1); try apply ntoa_text.
Qed.

(** ** The requests *)

Lemma represents_erased s w st :
  represents s w st ->
  represents (set_config_sta (Some (sta_zero (st_network st))) s) w (with_network (sta_zero (st_network st)) st).
Proof.
  intros [[] ? ? ? ? ? Hc ? ? ? ?]. split; try done; [|by apply config_zero].
  split; try done. cbn. by intros ? [= <-].
Qed.

Lemma sim_erase f :
  f = erase_config_if_any \/ f = erase_config ->
  sim (update f) (now (fun st => with_network (sta_zero (st_network st)) st)).
Proof.
  intros Hf s w st Hr. do 2 eexists. split; [|by apply represents_erased].
  unfold update. cbn [run_world]. pose proof (rp_network _ _ _ Hr) as E.
  destruct Hf as [-> | ->]; unfold erase_config_if_any, erase_config; rewrite E; cbn [mbind option_bind]; done.
Qed.

Lemma sim_forget bits : sim (serve_disconnect bits) (forget bits).
Proof.
  unfold serve_disconnect, forget.
  apply sim_bind; [apply sim_clear|intros _]. apply sim_skip; [apply sim_light|].
  apply sim_bind; [apply sim_leave_if_connected|intros _]. apply sim_bind; [apply sim_clear|intros _].
  apply sim_bind; [apply sim_erase; by left|intros _]. eapply sim_then; [apply sim_save|].
  apply sim_bind; [by apply sim_status|intros _]. apply sim_clear.
Qed.

Lemma sim_ping_test : sim wifi_manager_ping_test (now (with_bits (clear_bits WIFI_MANAGER_HAVE_INTERNET_BIT))).
Proof.
  unfold wifi_manager_ping_test. apply sim_last; [apply sim_clear|].
  apply sim_skip; [apply sim_light|]. do 4 (apply sim_skip; [apply sim_quiet; intros []; by eexists|]).
  apply sim_quiet. intros []. by eexists.
Qed.

(** The ping test of a connected station: the answer is the bit or 0. *)
Lemma sim_test s w st :
  has (st_bits st) WIFI_MANAGER_WIFI_CONNECTED_BIT = true -> represents s w st ->
  agree (runs wifi_manager_check_connection s w)
    ((test d ≫= fun ok => mret (if ok : bool then WIFI_MANAGER_HAVE_INTERNET_BIT else 0)) st).
Proof.
  intros Hc Hr. unfold wifi_manager_check_connection, wifi_manager_connected_to_access_point. prog_simpl.
  assert (wifi_answer d (xEventGroupGetBits WIFI_EG) w = (ret_ (st_bits st), w)) as ->.
  { destruct w as [b t n]. cbn. by rewrite <- (rp_bits _ _ _ Hr). }
  cbn [a_ret ret_]. rewrite Hc. unfold test. rewrite bind_assoc.
  apply agree_bind; [by apply sim_ping_test|]. intros [] s' w' st' E Hr'. injection E as <-.
  destruct w' as [b t n]. pose proof (rp_bits _ _ _ Hr') as Hb. cbn [w_bits st_bits with_bits] in Hb.
  unfold call. cbn [mbind prog_bind bind run_world wifi_answer].
  change (wait_bits d WIFI_MANAGER_HAVE_INTERNET_BIT b) with
    (if dr_internet d then set_bits WIFI_MANAGER_HAVE_INTERNET_BIT b else b).
  change (wait_timer d WIFI_MANAGER_HAVE_INTERNET_BIT t) with (if dr_internet d then false else t).
  cbv zeta. cbn [a_ret ret_]. destruct (dr_internet d).
  - rewrite land_set. do 2 eexists. split; [done|].
    by eapply represents_timer, (represents_bits _ _ _ _ _ (set_bits WIFI_MANAGER_HAVE_INTERNET_BIT)).
  - assert (Z.land WIFI_MANAGER_HAVE_INTERNET_BIT b = 0) as -> by (rewrite Hb; apply land_cleared).
    change (when _ ?p) with p.
    destruct (sim_skip _ _ _ (sim_light LED_EVENT_WIFI_DISCONNECTED_BIT) sim_timer _ _ _ Hr')
      as (s2 & w2 & E & H2).
    unfold mbind at 1, prog_bind at 1. rewrite run_world_bind, E. by do 2 eexists.
Qed.

Lemma sim_online info s w st :
  dr_address d = Some info -> has (st_bits st) WIFI_MANAGER_WIFI_CONNECTED_BIT = true ->
  represents s w st -> agree (runs connect_succeeded s w) (online ntoa d info st).
Proof.
  intros Hd Hc Hr. unfold connect_succeeded, online.
  apply agree_bind; [by apply sim_status_online|]. intros [] s1 w1 st1 E1 Hr1. apply show_status_bits in E1.
  rewrite <- E1 in Hc. clear E1.
  unfold mbind at 1, prog_bind at 1. rewrite run_world_bind.
  destruct (sim_light LED_EVENT_WIFI_CONNECTED_BIT _ _ _ Hr1) as (s2 & w2 & -> & Hr2).
  unfold mbind at 1, prog_bind at 1. rewrite run_world_bind.
  destruct (sim_save _ _ _ Hr2) as (s3 & w3 & -> & Hr3).
  set (st3 := with_storage _ st1) in *.
  change (agree (runs (wifi_manager_check_connection ≫= fun internet =>
      if Z.eqb internet 1 then wifi_clear WIFI_MANAGER_REQUEST_RECONNECT else start_reconnect_timer) s3 w3)
    ((test d ≫= fun _ => now (with_timer true)) st3)).
  pose proof (sim_test s3 w3 st3 Hc Hr3) as Ht.
  unfold mbind at 1, prog_bind at 1. rewrite run_world_bind. unfold mbind, act_bind in Ht |- *.
  destruct (test d st3) as [[ok st4]|]; cbn [mbind option_bind agree mret act_ret] in Ht |- *.
  - destruct Ht as (s4 & w4 & -> & Hr4).
    assert (Z.eqb (if ok : bool then WIFI_MANAGER_HAVE_INTERNET_BIT else 0) 1 = false) as -> by by destruct ok.
    by apply sim_timer.
  - destruct Ht as (s4 & w4 & ->). by do 2 eexists.
Qed.

Lemma sim_refused : sim connect_failed refused.
Proof.
  unfold connect_failed, refused. apply sim_bind; [by apply sim_status|intros _].
  apply sim_skip; [apply sim_light|]. apply sim_bind; [apply sim_erase; by right|intros _]. apply sim_set.
Qed.

Lemma sim_get {X Y} (f : wm -> X) (k : X -> wprog Y) (m : act Y) :
  (forall x, sim (k x) m) -> sim (get f ≫= k) m.
Proof. intros Hk s w st Hr. by apply Hk. Qed.

Lemma sim_join bits : sim (serve_connect bits;; mret tt) (join ntoa d bits).
Proof.
  unfold serve_connect, join. rewrite connected_eqb.
  apply sim_assoc, sim_bind; [apply sim_leave_if_connected|intros _].
  apply sim_assoc, sim_bind; [apply sim_clear|intros _].
  apply sim_assoc, sim_get. intros config.
  do 2 (apply sim_assoc, sim_skip; [apply sim_quiet; intros []; by eexists|]).
  intros s [b t n] st Hr. unfold call. cbn [mbind prog_bind bind run_world wifi_answer].
  change (wait_bits d CONNECT_EVENTS b) with (event_bits (connect_event d) b).
  change (wait_timer d CONNECT_EVENTS t) with t. cbv zeta. cbn [a_ret ret_].
  apply (represents_bits _ _ _ _ _ (event_bits (connect_event d))) in Hr.
  destruct (connect_event_bits d b) as [-> Hc]. rewrite Hc.
  change (bind ?f ?p) with (p ≫= f). rewrite runs_assoc.
  change ((now ?f ≫= ?g) st) with (g tt (f st)). cbv beta.
  apply agree_bind.
  - destruct (dr_address d) as [info|] eqn:Ed; [rewrite bool_decide_true by done|by apply sim_refused].
    apply (sim_online info); [done| |done]. pose proof (rp_bits _ _ _ Hr) as Hb.
    cbn [w_bits st_bits with_bits] in Hb |- *. rewrite <- Hb, Hc. by rewrite bool_decide_true.
  - intros [] s1 w1 st1 _ Hr1.
    by apply (sim_last (wifi_clear WIFI_MANAGER_REQUEST_STA_CONNECT_BIT) (mret tt) _ (sim_clear _) (sim_ret tt)).
Qed.

(** *** The scan *)

Lemma represents_scan s w st n l :
  represents s w st -> length l = MAX_AP_NUM ->
  represents (set_ap_num n (set_accessp_records l s)) w st.
Proof. intros [[] ? ? ? ? ? ? ? ? ? ?] Hl. by split. Qed.

(** The networks of a scan, with repetitions and without. *)
Definition found : list wifi_ap_record := take MAX_AP_NUM (dr_records d).
Definition nets : list wifi_ap_record := unique_aps (length found) found.

Section scan.
Variable s : wm.
Hypothesis Hs : wm_ok s.
Hypothesis records_ok : Forall ap_ok (dr_records d).
Lemma found_length : (length found <= MAX_AP_NUM)%nat.
Proof. unfold found. rewrite length_take. lia. Qed.

Lemma store_records_found :
  store_records (ret_aps ESP_OK (Z.of_nat (length found)) found) s
  = Some (set_ap_num (Z.of_nat (length found))
      (set_accessp_records (found ++ drop (length found) (accessp_records s)) s)).
Proof.
  unfold store_records. cbn [a_aps a_val ret_aps]. pose proof found_length as Hl.
  rewrite (ok_records s Hs), (proj2 (Nat.leb_le _ _)) by done.
  unfold u16. rewrite Z.mod_small; [done|]. unfold MAX_AP_NUM in Hl. lia.
Qed.

Lemma filter_found rest :
  exists rest', length (nets ++ rest') = length (found ++ rest) /\
  wifi_manager_filter_unique (found ++ rest) (length found) = Some (nets ++ rest', Z.of_nat (length nets)).
Proof.
  destruct (filter_unique_result (found ++ rest) (length found)) as (tl & _ & Hl & E);
    [rewrite length_app; lia|].
  rewrite take_app_length, drop_app_length in E. rewrite take_app_length in Hl. fold nets in E, Hl.
  exists (tl ++ rest). split; [|done]. pose proof (unique_aps_length (length found) found) as Hn.
  fold nets in Hn. rewrite !length_app, Hl. lia.
Qed.

(** The array with the networks found, then their document. *)
Lemma filter_records_world rest w :
  let s1 := set_ap_num (Z.of_nat (length found)) (set_accessp_records (found ++ rest) s) in
  exists rest', length (nets ++ rest') = length (found ++ rest) /\
  runs filter_records s1 w =
  (Done tt, set_ap_num (Z.of_nat (length nets)) (set_accessp_records (nets ++ rest') s), w).
Proof.
  destruct (filter_found rest) as (rest' & Hl & E). exists rest'. split; [done|].
  unfold filter_records. prog_simpl. cbn [accessp_records ap_num set_ap_num set_accessp_records].
  rewrite Nat2Z.id, E. cbn [mbind option_bind run_world]. by destruct w.
Qed.

Lemma sim_networks rest w st :
  represents s w st -> accessp_records s = nets ++ rest -> ap_num s = Z.of_nat (length nets) ->
  agree (runs wifi_manager_generate_acess_points_json s w) (show_networks found st).
Proof.
  intros Hr Hrec Hnum. destruct (rp_aps _ _ _ Hr) as (m & text & Hm & _).
  assert (length m = (MAX_AP_NUM * JSON_ONE_APP_SIZE + 4)%nat) as Hl by by apply (ok_ap_json s Hs).
  unfold wifi_manager_generate_acess_points_json, show_networks. prog_simpl. fold nets.
  unfold on_accessp_json. rewrite Hm, Hrec, Hnum. cbn [mbind option_bind].
  rewrite access_points_json_strcpy; [|rewrite length_app; lia|].
  2: { rewrite take_app_length. apply unique_aps_ok. by apply Forall_take. }
  rewrite take_app_length.
  assert (nonzero (ap_list_text nets)) as Hn by by apply ap_list_text_nonzero, unique_aps_ok, Forall_take.
  pose proof (strcpy_none m 0 (ap_list_text nets)) as Ho. rewrite Hl in Ho.
  destruct (strcpy m 0 (ap_list_text nets)) as [m1|] eqn:E; cbn [mbind option_bind run_world].
  - rewrite (proj2 (Nat.ltb_lt _ _)) by (apply Nat.nle_gt; intros Hx; by apply Ho in Hx).
    do 2 eexists. split; [done|]. pose proof (strcpy_length _ _ _ _ E) as Hm1. rewrite Hl in Hm1.
    eapply represents_aps; [done|done|]. by eapply strcpy_cstr.
  - rewrite (proj2 (Nat.ltb_ge _ _)) by by apply Ho. by do 2 eexists.
Qed.
End scan.

(** What the driver answers to the scan. *)
Lemma scan_answer w :
  wifi_answer d (esp_wifi_scan_get_ap_records (Z.of_nat MAX_AP_NUM)) w =
  (ret_aps ESP_OK (Z.of_nat (length found)) found, w).
Proof. by destruct w. Qed.

Lemma runs_update {X} f (k : unit -> wprog X) s w :
  runs (update f ≫= k) s w =
  match f s with Some s1 => runs (k tt) s1 w | None => (Stopped UB, s, w) end.
Proof. done. Qed.

Lemma sim_scan bits :
  Forall ap_ok (dr_records d) -> has bits WIFI_MANAGER_REQUEST_STA_CONNECT_BIT = false ->
  sim (serve_scan bits) (look_around d).
Proof.
  intros Hrec Hbits. unfold serve_scan, look_around. rewrite Hbits. cbn [negb].
  intros s w st Hr. unfold modify. cbn [mbind prog_bind bind run_world].
  set (s1 := set_ap_num (Z.of_nat MAX_AP_NUM) s).
  assert (wm_ok s1) as Hok1 by (destruct (rp_ok _ _ _ Hr); by split).
  fold found. apply (agree_bind _ (show_networks found));
    [|intros [] s2 w2 st2 _ Hr2; by apply sim_clear].
  unfold mbind at 1, prog_bind at 1. rewrite run_world_bind.
  assert (runs (check_ esp_wifi_scan_start) s1 w = (Done tt, s1, w)) as -> by (by destruct w).
  unfold esp_error_check. cbn [get mbind prog_bind bind run_world]. change (ap_num s1) with (Z.of_nat MAX_AP_NUM).
  rewrite scan_answer. cbn [a_ret ret_aps]. change (ESP_OK =? ESP_OK) with true. cbn [bind update run_world].
  rewrite runs_update, (store_records_found s1 Hok1).
  set (rest := drop _ (accessp_records s1)).
  unfold mbind at 1, prog_bind at 1. rewrite run_world_bind, lock_world by apply Hr. cbn [when].
  unfold mbind at 1, prog_bind at 1. rewrite run_world_bind.
  destruct (filter_records_world s1 rest w) as (rest' & Hl & ->).
  assert (length (nets ++ rest') = MAX_AP_NUM) as Hlen.
  { rewrite Hl. pose proof found_length. pose proof (ok_records s1 Hok1) as Hrs.
    unfold rest. rewrite length_app, length_drop. lia. }
  assert (represents (set_ap_num (Z.of_nat (length nets)) (set_accessp_records (nets ++ rest') s1)) w st)
    as Hr3 by by apply (represents_scan s).
  apply (agree_last _ _ (show_networks found)); [|apply sim_unlock].
  eapply sim_networks; [apply Hr3|done|done|done|done].
Qed.

(** *** The ping request *)

Lemma sim_clear_status : sim wifi_manager_clear_ip_info_json (now (with_status (lit "{}\n"))).
Proof.
  intros s w st Hr. destruct (represents_buffer _ _ _ Hr) as (m & Hm & Hl).
  unfold wifi_manager_clear_ip_info_json. prog_simpl. rewrite (on_ip_info_json_at _ m) by done.
  destruct (strcpy m 0 (lit "{}\n")) as [m1|] eqn:E; cbn [mbind option_bind].
  - do 2 eexists. split; [done|]. pose proof (strcpy_length _ _ _ _ E) as Hm1. rewrite Hl in Hm1.
    eapply represents_status; [done|done|]. eapply strcpy_cstr; [by apply nonzero_const|done].
  - apply strcpy_none in E. rewrite Hl in E. vm_compute in E. lia.
Qed.

Lemma sim_connect_async :
  sim wifi_manager_connect_async
    (now (with_status (lit "{}\n"));; now (with_bits (set_bits WIFI_MANAGER_REQUEST_STA_CONNECT_BIT))).
Proof.
  apply (sim_pure _ true); [apply sim_lock|]. apply sim_bind; [|intros _; apply sim_set].
  apply sim_last; [apply sim_clear_status|apply sim_unlock].
Qed.

(** The saved network is asked for when its name is not empty. *)
Lemma sim_saved_network :
  sim (config ← get config_sta;
       n ← try (c ← config; strlen (sta_memory c));
       when (Nat.ltb 0 n) wifi_manager_connect_async)
    (c ← see st_network;
     name ← (fun st => n ← name_of c; Some (n, st));
     if Nat.ltb 0 (length (name : list Z)) then
       now (with_status (lit "{}\n"));; now (with_bits (set_bits WIFI_MANAGER_REQUEST_STA_CONNECT_BIT))
     else mret tt).
Proof.
  intros s w st Hr. set (ask := now (with_status (lit "{}\n"));; _).
  assert (agree (match cstr (sta_memory (st_network st)) with
                 | Some name => runs (when (Nat.ltb 0 (length name)) wifi_manager_connect_async) s w
                 | None => (Stopped UB, s, w)
                 end)
                (match cstr (sta_memory (st_network st)) with
                 | Some name => (if Nat.ltb 0 (length name) then ask else mret tt) st
                 | None => None
                 end)) as Hx.
  { destruct (cstr _) as [name|]; [|by do 2 eexists]. unfold when.
    destruct (Nat.ltb 0 (length name)); [by apply sim_connect_async|by apply sim_ret]. }
  unfold see, name_of. unfold mbind at 4, act_bind at 1. cbn [mbind option_bind].
  unfold get. cbn [mbind prog_bind bind run_world]. rewrite (rp_network _ _ _ Hr). unfold strlen.
  cbn [mbind option_bind]. revert Hx. by destruct (cstr (sta_memory (st_network st))).
Qed.

Lemma sim_try_again : sim serve_ping (try_again d).
Proof.
  intros s w st Hr. unfold serve_ping, try_again.
  change ((see st_bits ≫= ?k) st) with (k (st_bits st) st). cbv beta.
  destruct (has (st_bits st) WIFI_MANAGER_WIFI_CONNECTED_BIT) eqn:Hc.
  - pose proof (sim_test s w st Hc Hr) as Ht. unfold mbind at 1, prog_bind at 1. rewrite run_world_bind.
    unfold mbind, act_bind in Ht |- *.
    destruct (test d st) as [[ok st1]|]; cbn [mbind option_bind agree mret act_ret] in Ht |- *.
    + destruct Ht as (s1 & w1 & -> & Hr1).
      assert (Z.eqb (if ok : bool then WIFI_MANAGER_HAVE_INTERNET_BIT else 0) ERR_WIFI_DISCONECTED = false) as ->
        by by destruct ok.
      by apply sim_clear.
    + destruct Ht as (s1 & w1 & ->). by do 2 eexists.
  - unfold mbind at 1, prog_bind at 1. rewrite run_world_bind.
    assert (runs wifi_manager_check_connection s w = (Done ERR_WIFI_DISCONECTED, s, w)) as ->.
    { unfold wifi_manager_check_connection, wifi_manager_connected_to_access_point. prog_simpl.
      destruct w as [b t n]. cbn [wifi_answer a_ret ret_].
      pose proof (rp_bits _ _ _ Hr) as Hb. cbn [w_bits] in Hb. by rewrite Hb, Hc. }
    change (when _ ?p) with p. apply agree_bind; [|intros [] s2 w2 st2 _ Hr2; by apply sim_clear].
    destruct sim_restore as [x Hx]. specialize (Hx s w st Hr).
    unfold mbind at 1, prog_bind at 1. rewrite run_world_bind. destruct Hx as (s1 & w1 & -> & Hr1).
    by apply sim_saved_network.
Qed.

(** *** The round *)

Lemma sim_show_internet : sim show_internet (mret tt).
Proof.
  intros s [b t n] st Hr. unfold show_internet. prog_simpl. cbn [wifi_answer a_ret ret_].
  destruct (Z.eqb _ _); [by apply sim_light|by apply sim_ret].
Qed.

Lemma sim_round : Forall ap_ok (dr_records d) -> sim wifi_manager_round (station_round ntoa d).
Proof.
  intros Hrec s [b t n] st Hr. unfold wifi_manager_round, station_round. unfold call.
  cbn [mbind prog_bind bind run_world wifi_answer].
  change (wait_bits d REQUESTS b) with b. change (wait_timer d REQUESTS t) with t.
  cbn [a_ret ret_]. change (@bind ext answer wm unit unit ?f ?p) with (p ≫= f).
  pose proof (rp_bits _ _ _ Hr) as Hb. cbn [w_bits] in Hb. rewrite Hb in Hr |- *. clear Hb b.
  change ((see st_bits ≫= ?k) st) with (k (st_bits st) st). cbv beta.
  set (bits := st_bits st) in *. clearbody bits.
  revert s st Hr. enough (sim (serve_requests bits;; show_internet) _) as Hx by (intros; by apply Hx).
  apply sim_last; [|apply sim_show_internet]. unfold serve_requests.
  apply sim_bind; [unfold when; apply sim_if; intros _; [apply sim_forget|apply sim_ret]|intros _].
  apply sim_if; [intros _; apply sim_join|intros Hcon].
  apply sim_if; [intros _; by apply sim_scan|intros _].
  unfold when. apply sim_if; intros _; [apply sim_try_again|apply sim_ret].
Qed.
End simulation.

(** ** The loop of the task

    Before each round other tasks set request bits; each round meets its
    driver. *)

Definition asked (req : Z) (w : world) : world := World (set_bits req (w_bits w)) (w_timer w) (w_nvs w).

Fixpoint wifi_rounds (l : list (Z * driver)) (s : wm) (w : world) : outcome unit * wm * world :=
  match l with
  | [] => (Done tt, s, w)
  | (req, d) :: l =>
      match run_world (wifi_answer d) wifi_manager_round s (asked req w) with
      | (Done _, s, w) => wifi_rounds l s w
      | r => r
      end
  end.

Lemma rounds_agree l s w st :
  Forall (fun r => driver_ok (snd r)) l -> represents s w st ->
  agree (wifi_rounds l s w) (station_rounds ntoa l st).
Proof.
  intros Hl. revert s w st. induction Hl as [|[req d] l Hd Hl IH]; intros s w st Hr.
  - by exists s, w.
  - destruct w as [b t n]. apply (represents_bits _ _ _ _ _ (set_bits req)) in Hr.
    cbn [wifi_rounds station_rounds]. unfold asked. cbn [w_bits w_timer w_nvs].
    change ((now ?f ≫= ?g) st) with (g tt (f st)). cbv beta.
    pose proof (sim_round d Hd _ _ _ Hr) as Hs. unfold mbind, act_bind.
    destruct (station_round ntoa d _) as [[[] st1]|]; cbn [agree mbind option_bind] in Hs |- *.
    + destruct Hs as (s1 & w1 & -> & Hr1). by apply IH.
    + destruct Hs as (s1 & w1 & ->). by do 2 eexists.
Qed.

End world.

(** ** Theorems *)

Section theorems.
Context {W : Type} `{StorageLaws W} (junk : answer) (ntoa : list Z -> list Z).

(** C2: The rounds of the Wi-Fi manager task refine those of the station. From
    variables that represent a station, whatever requests come before each
    round, and whatever address or refusal, networks and ping reply it meets,
    the rounds end in variables that represent the station after its rounds,
    and leave a buffer only where the station's document does not fit or its
    name is not a string. *)
Theorem wifi_rounds_refine l s w st :
  a_ret junk <> 0 -> (forall a, nonzero (ntoa a) /\ (length (ntoa a) <= 15)%nat) ->
  Forall (fun r => driver_ok (snd r)) l -> represents s w st ->
  match station_rounds ntoa l st with
  | Some (_, st') => exists s' w', wifi_rounds junk ntoa l s w = (Done tt, s', w') /\ represents s' w' st'
  | None => exists s' w', wifi_rounds junk ntoa l s w = (Stopped UB, s', w')
  end.
Proof.
  intros Hj Hn Hl Hr. pose proof (rounds_agree junk ntoa Hj Hn l s w st Hl Hr) as Ha.
  by destruct (station_rounds ntoa l st) as [[[] st']|].
Qed.

(** C3: A network the user left is not joined again. After a round that serves
    the disconnection and before which neither a connection nor a scan was
    requested, in a world whose calls succeed, however often the timer asks for
    the ping test and whatever address or refusal, networks and ping replies the
    driver has, the station is not connected, no connection is requested, and
    the network is empty in memory and in the storage. *)
Theorem left_network_not_rejoined d ds s w st :
  a_ret junk <> 0 -> (forall a, nonzero (ntoa a) /\ (length (ntoa a) <= 15)%nat) ->
  driver_ok d -> Forall driver_ok ds -> represents s w st ->
  has (w_bits w) WIFI_MANAGER_REQUEST_STA_CONNECT_BIT = false ->
  has (w_bits w) WIFI_MANAGER_REQUEST_WIFI_SCAN = false ->
  exists s' w' n settings,
    wifi_rounds junk ntoa ((WIFI_MANAGER_REQUEST_WIFI_DISCONNECT, d) ::
                           (pair WIFI_MANAGER_REQUEST_PING_TEST <$> ds)) s w = (Done tt, s', w') /\
    has (w_bits w') WIFI_MANAGER_WIFI_CONNECTED_BIT = false /\
    has (w_bits w') WIFI_MANAGER_REQUEST_STA_CONNECT_BIT = false /\
    config_sta s' = Some (StaConfig (replicate 32 0) (replicate 64 0) (replicate n 0)) /\
    saved (nvs_store (w_nvs w')) = Some (replicate 32 0, replicate 64 0, settings).
Proof.
  intros Hj Hn Hd Hds Hr B3 B5.
  rewrite request_connect_testbit, (rp_bits _ _ _ Hr) in B3. rewrite request_scan_testbit, (rp_bits _ _ _ Hr) in B5.
  destruct (left_network_forgotten ntoa d st B3 B5) as (st1 & E1 & Hf1).
  destruct (station_rounds_forgotten ntoa ds st1 Hf1) as (st2 & E2 & (B0 & B3' & _) & (n & Hnet) & settings & Hsaved).
  set (l := _ :: _). assert (station_rounds ntoa l st = Some (tt, st2)) as El.
  { unfold l. cbn [station_rounds]. rewrite now_bind. unfold mbind, act_bind. rewrite E1. exact E2. }
  assert (Forall (fun r => driver_ok (snd r)) l) as Hl.
  { constructor; [done|]. by apply Forall_fmap. }
  pose proof (rounds_agree junk ntoa Hj Hn l s w st Hl Hr) as Ha. rewrite El in Ha.
  destruct Ha as (s' & w' & E & Hr'). exists s', w', n, settings. split; [done|].
  rewrite connected_testbit, request_connect_testbit, (rp_bits _ _ _ Hr'), (rp_network _ _ _ Hr'), (rp_storage _ _ _ Hr').
  by rewrite Hnet.
Qed.
End theorems.

(** ** Instances *)

(** The variables after the start, the station connected, nothing saved. *)
Definition demo_world : world (W := gmap (list Z * list Z) (list Z)) := World 1 true demo_nvs.
Definition demo_station : station (W := gmap (list Z * list Z) (list Z)) :=
  Station 1 true (StaConfig (field 32 (lit "home")) (field 64 (lit "secret")) (replicate 40 0))
    (replicate sizeof_wifi_settings 0) ∅ [] [].
Definition demo_ntoa (addr : list Z) : list Z := lit "10.0.0.2".

Lemma demo_ntoa_text a : nonzero (demo_ntoa a) /\ (length (demo_ntoa a) <= 15)%nat.
Proof. split; [by apply nonzero_const|vm_compute; lia]. Qed.

Lemma demo_represents : represents demo_saved demo_world demo_station.
Proof.
  split; try done.
  - apply demo_saved_ok.
  - split_and!; [done..|]. apply (bool_decide_unpack _). by vm_compute.
  - by eexists _, _.
  - by eexists _, _.
  - by left.
Qed.

(** A network that gives an address, the internet behind it, two networks
    around; and one that does not answer. *)
Definition good_driver : driver :=
  Driver (Some (replicate 12 0)) 0 [ApRecord (lit "home") 6 (-50) 3 []; ApRecord (lit "cafe") 1 (-70) 0 []] true.
Definition bad_driver : driver := Driver None 201 [] false.

Lemma good_driver_ok : driver_ok good_driver.
Proof. apply (bool_decide_unpack _). by vm_compute. Qed.

Lemma bad_driver_ok : driver_ok bad_driver.
Proof. constructor. Qed.

Definition demo_rounds : list (Z * driver) :=
  [(WIFI_MANAGER_REQUEST_STA_CONNECT_BIT, good_driver); (WIFI_MANAGER_REQUEST_WIFI_SCAN, good_driver)].

Lemma demo_rounds_ok : Forall (fun r => driver_ok (snd r)) demo_rounds.
Proof. constructor; [apply good_driver_ok|]. constructor; [apply good_driver_ok|constructor]. Qed.

Lemma demo_rounds_result :
  match station_rounds demo_ntoa demo_rounds demo_station with
  | Some (_, st') =>
      st_status st' = status_text (lit "home") (lit "10.0.0.2") (lit "10.0.0.2") (lit "10.0.0.2") 0 /\
      st_aps st' = ap_list_text (dr_records good_driver)
  | None => False
  end.
Proof. vm_compute. split; reflexivity. Qed.

Lemma wifi_rounds_refine_witness :
  exists s' w', wifi_rounds (ret_ 4096) demo_ntoa demo_rounds
    demo_saved demo_world = (Done tt, s', w') /\
  holds (eq (status_text (lit "home") (lit "10.0.0.2") (lit "10.0.0.2") (lit "10.0.0.2") 0)) (ip_info_json s') /\
  holds (eq (ap_list_text (dr_records good_driver))) (accessp_json s').
Proof.
  pose proof (wifi_rounds_refine (ret_ 4096) demo_ntoa
    demo_rounds
    demo_saved demo_world demo_station ltac:(done) demo_ntoa_text
    demo_rounds_ok demo_represents) as Hx.
  pose proof demo_rounds_result as Hres.
  destruct (station_rounds demo_ntoa _ demo_station) as [[[] st']|]; [|done].
  destruct Hx as (s' & w' & Hrun & Hr), Hres as [<- <-]. exists s', w'.
  split; [exact Hrun|]. split; apply Hr.
Defined.

Lemma left_network_not_rejoined_witness :
  exists s' w', wifi_rounds (ret_ 4096) demo_ntoa
    ((WIFI_MANAGER_REQUEST_WIFI_DISCONNECT, good_driver) ::
     (pair WIFI_MANAGER_REQUEST_PING_TEST <$> [good_driver; bad_driver])) demo_saved demo_world = (Done tt, s', w') /\
  has (w_bits w') WIFI_MANAGER_REQUEST_STA_CONNECT_BIT = false.
Proof.
  destruct (left_network_not_rejoined (ret_ 4096) demo_ntoa good_driver [good_driver; bad_driver]
    demo_saved demo_world demo_station ltac:(done) demo_ntoa_text good_driver_ok
    (Forall_cons_2 _ _ _ good_driver_ok (Forall_cons_2 _ _ _ bad_driver_ok (Forall_nil_2 _))) demo_represents
    ltac:(reflexivity) ltac:(reflexivity)) as (s' & w' & _ & _ & E & _ & Hb & _).
  by exists s', w'.
Defined.
