(* ===== verification/WifiTasks.v ===== *)
(** * The tasks around the Wi-Fi manager, together

    The wifi_manager task, the HTTP server, the driver's event handler, the
    ping callback and the reconnect timer as a pool: they share the statics of
    wifi_manager.c and the mutex of the JSON buffers. *)

From S2P Require Import Prelude CMem Printf Json WifiScan WifiState WifiJson WifiNvs Led WifiManager HttpServer HttpSpec WifiTyped.
From S2P Require Export Pool.

Local Open Scope Z_scope.

(** ** The mutex and the outside *)

Definition json_takes (e : ext) (a : answer) : bool :=
  match e with xSemaphoreTake JSON_MUTEX _ => Z.eqb (a_ret a) pdTRUE | _ => false end.
Definition json_gives (e : ext) : bool :=
  match e with xSemaphoreGive JSON_MUTEX => true | _ => false end.

(** The request whose handler gives the mutex back twice. *)
Definition asks_registration (a : answer) : bool :=
  match t ← cstr (a_bytes a); strtok_line t with
  | Some (line, _) => starts line (lit "GET /register.json ")
  | None => false
  end.

(** The memory an answer points to holds bytes, a scanned network has a name
    and numbers of their width. *)
Definition answer_valid (_ : ext) (a : answer) : bool :=
  bool_decide (Forall is_byte (a_bytes a)) && bool_decide (Forall ap_ok (a_aps a)).

(** Nobody asks for /register.json. *)
Definition json_valid (e : ext) (a : answer) : bool :=
  answer_valid e a && match e with netconn_recv => negb (asks_registration a) | _ => true end.

(** ** The tasks *)

Inductive wifi_job :=
  | ManagerRound                       (* wifi_manager *)
  | Connection                         (* http_server *)
  | DriverEvent (e : system_event)     (* the event loop task *)
  | PingResult (recv_count : Z)        (* the ping task *)
  | ReconnectTimer.                    (* the timer task *)

Definition wifi_runs (i : nat) (j : wifi_job) : bool :=
  match i, j with
  | 0%nat, ManagerRound | 1%nat, Connection | 2%nat, DriverEvent _
  | 3%nat, PingResult _ | 4%nat, ReconnectTimer => true
  | _, _ => false
  end.

Definition wifi_body (files : embedded) (j : wifi_job) : wprog unit :=
  match j with
  | ManagerRound => wifi_manager_round
  | Connection => http_server_round files;; mret tt
  | DriverEvent e => wifi_manager_event_handler e;; mret tt
  | PingResult n => pingResults n;; mret tt
  | ReconnectTimer => vTimerCallback
  end.

Abbreviation wifi_pool := (pool (E := ext) (A := answer) (S := wm) (L := wifi_job)).
Abbreviation wifi_step files :=
  (pool_step json_takes json_gives json_valid wifi_runs (wifi_body files)).

(** The tasks at their start, on initialised variables. *)
Definition wifi_start (s : wm) : wifi_pool :=
  Pool s None [Task ManagerRound [] (Ret tt); Task Connection [] (Ret tt);
    Task (DriverEvent SYSTEM_EVENT_OTHER) [] (Ret tt); Task (PingResult 0) [] (Ret tt);
    Task ReconnectTimer [] (Ret tt)].

(** ** Tasks that respect the mutex *)

(** The calls allowed to the owner of the mutex: none waits for a mutex, an event,
    a queue or a delay.  ([netconn_write] and [esp_wifi_deinit] may wait for
    ESP-IDF's own tasks, which are outside.) *)
Definition prompt (e : ext) : bool :=
  match e with
  | xSemaphoreGive JSON_MUTEX | esp_wifi_deinit | tcpip_adapter_get_ip_info | ip4addr_ntoa _
  | netconn_write _ _ => true
  | _ => false
  end.

Definition wifi_calls (held : option (option (list Z) * option (list Z))) (_ : ctrace) (e : ext) : Prop :=
  held <> None -> prompt e = true.

Abbreviation wifi_lwp :=
  (lwp json_takes json_gives json_valid documents whole wm_typed wifi_calls).

(** From the mutex free to the mutex free, with a result that satisfies [Q]. *)
Definition keeps {X} (Q : X -> Prop) (p : wprog X) : Prop :=
  forall h, wifi_lwp (fun held _ x => held = None /\ Q x) p None h.

(** From the documents [d] held to documents and a result that satisfy [P]. *)
Definition owning {X} (d : option (list Z) * option (list Z))
    (P : option (list Z) * option (list Z) -> X -> Prop) (p : wprog X) : Prop :=
  forall h, wifi_lwp (fun held _ x => exists d', held = Some d' /\ P d' x) p (Some d) h.

(** From the documents [d] held to the mutex free. *)
Definition closing {X} (Q : X -> Prop) (d : option (list Z) * option (list Z)) (p : wprog X) : Prop :=
  forall h, wifi_lwp (fun held _ x => held = None /\ Q x) p (Some d) h.

Lemma json_valid_bytes e a : json_valid e a = true -> Forall is_byte (a_bytes a).
Proof. unfold json_valid, answer_valid. rewrite !andb_true_iff, !bool_decide_eq_true. by intros [[? _] _]. Qed.
Lemma json_valid_aps e a : json_valid e a = true -> Forall ap_ok (a_aps a).
Proof. unfold json_valid, answer_valid. rewrite !andb_true_iff, !bool_decide_eq_true. by intros [[_ ?] _]. Qed.

Lemma is_lock_takes e a : is_lock e = false -> json_takes e a = false /\ json_gives e = false.
Proof. destruct e; try done; by destruct m. Qed.

Lemma keeps_ret {X} (Q : X -> Prop) x : Q x -> keeps Q (Ret x).
Proof. by intros HQ h. Qed.
Lemma keeps_stop {X} (Q : X -> Prop) o : keeps Q (Stop o).
Proof. by intros h. Qed.
Lemma keeps_get {X} (Q : X -> Prop) k : (forall s, wm_typed s -> keeps Q (k s)) -> keeps Q (Get k).
Proof. intros Hk h s Hs _. by apply Hk. Qed.
Lemma keeps_upd {X} (Q : X -> Prop) f k : typed_update f -> keeps Q k -> keeps Q (Upd f k).
Proof. intros Hf Hk h s s' Hs _ E. destruct (Hf s s' Hs E). split; [done|]. split; [done|]. apply Hk. Qed.
Lemma keeps_call {X} (Q : X -> Prop) e k :
  is_lock e = false -> (forall a, json_valid e a = true -> keeps Q (k a)) -> keeps Q (Call e k).
Proof.
  intros He Hk h. cbn [lwp]. split; [by intros []|]. split.
  - intros Hg. by rewrite (proj2 (is_lock_takes e (ret_ 0) He)) in Hg.
  - intros a Ha. destruct (is_lock_takes e a He) as [-> ->]. by apply Hk.
Qed.
Lemma keeps_bind {X Y} (P : X -> Prop) (Q : Y -> Prop) f p :
  keeps P p -> (forall x, P x -> keeps Q (f x)) -> keeps Q (bind f p).
Proof.
  intros Hp Hf h. eapply lwp_seq; [apply Hp|]. intros d h' x [-> HP]. by apply Hf.
Qed.
Lemma keeps_mono {X} (P Q : X -> Prop) p : (forall x, P x -> Q x) -> keeps P p -> keeps Q p.
Proof.
  intros HPQ Hp h. eapply lwp_mono; [done| |apply Hp]. intros d h' x [-> HP]. split; auto.
Qed.

(** The lock: taken with whole documents, or not taken. *)
Lemma keeps_lock {X} (Q : X -> Prop) ticks (k : bool -> wprog X) :
  (forall d, whole d -> closing Q d (k true)) -> keeps Q (k false) -> keeps Q (bind k (wifi_manager_lock_json_buffer ticks)).
Proof.
  intros H1 H2 h. unfold wifi_manager_lock_json_buffer, mbind, prog_bind, call, get.
  cbn [bind lwp]. intros s Hs _. destruct (json_mutex s); cbn [bind lwp mret prog_ret]; [|apply H2].
  split; [by intros []|]. split; [done|]. intros a _. cbn [json_takes json_gives].
  destruct (Z.eqb (a_ret a) pdTRUE); [|apply H2]. intros _ d Hd. by apply H1.
Qed.

Lemma owning_upd {X} d P (P' : _ -> X -> Prop) f (k : wprog X) :
  document_update d P f -> (forall d', P d' -> owning d' P' k) -> owning d P' (Upd f k).
Proof.
  intros Hf Hk h s s' Hs Ha E. destruct (Hf s s' Hs (Ha d eq_refl) E) as [H1 H2].
  split; [done|]. by apply Hk.
Qed.
Lemma owning_get {X} d P (k : wm -> wprog X) :
  (forall s, wm_typed s -> documents s = d -> owning d P (k s)) -> owning d P (Get k).
Proof. intros Hk h s Hs Ha. apply Hk; auto. Qed.
Lemma owning_call {X} d P e (k : answer -> wprog X) :
  is_lock e = false -> prompt e = true -> (forall a, json_valid e a = true -> owning d P (k a)) ->
  owning d P (Call e k).
Proof.
  intros He Hp Hk h. cbn [lwp]. split; [by intros _|]. split.
  - intros Hg. by rewrite (proj2 (is_lock_takes e (ret_ 0) He)) in Hg.
  - intros a Ha. destruct (is_lock_takes e a He) as [-> ->]. by apply Hk.
Qed.
Lemma owning_ret {X} d P (x : X) : P d x -> owning d P (Ret x).
Proof. intros HP h. by exists d. Qed.
Lemma owning_stop {X} d P o : owning (X := X) d P (Stop o).
Proof. by intros h. Qed.
Lemma owning_bind {X Y} d P P' (f : X -> wprog Y) p :
  owning d P p -> (forall d' x, P d' x -> owning d' P' (f x)) -> owning d P' (bind f p).
Proof.
  intros Hp Hf h. eapply lwp_seq; [apply Hp|]. intros d1 h' x (d' & -> & HP). by apply Hf.
Qed.

(** The end of a critical section. *)
Lemma closing_unlock d : whole d -> closing any d wifi_manager_unlock_json_buffer.
Proof.
  intros Hd h. cbn [wifi_manager_unlock_json_buffer call_ lwp json_takes json_gives].
  split; [done|]. split; [intros _; by exists d|done].
Qed.
Lemma closing_bind {X Y} d P (Q : Y -> Prop) (f : X -> wprog Y) p :
  owning d P p -> (forall d' x, P d' x -> closing Q d' (f x)) -> closing Q d (bind f p).
Proof.
  intros Hp Hf h. eapply lwp_seq; [apply Hp|]. intros d1 h' x (d' & -> & HP). by apply Hf.
Qed.
Lemma closing_then {X Y} d P (Q : Y -> Prop) (f : X -> wprog Y) p :
  closing P d p -> (forall x, P x -> keeps Q (f x)) -> closing Q d (bind f p).
Proof. intros Hp Hf h. eapply lwp_seq; [apply Hp|]. intros d1 h' x [-> HP]. by apply Hf. Qed.
Lemma closing_release {X} d (p : wprog X) :
  owning d (fun d' _ => whole d') p -> closing any d (bind (fun _ => wifi_manager_unlock_json_buffer) p).
Proof. intros Hp. eapply closing_bind; [exact Hp|]. intros d' x. apply closing_unlock. Qed.

(** [solve_keeps]: symbolic execution with the mutex free; what is left are
    updates and results it does not know. *)
#[local] Hint Resolve typed_erase typed_erase_if_any typed_store_ssid typed_store_password
  typed_store_settings typed_store_field typed_store_registration typed_filter
  typed_store_records typed_wifi_settings typed_reg_info typed_reg_info_json
  json_valid_bytes json_valid_aps : airu.

Ltac keeps_step :=
  cbv beta iota;
  lazymatch goal with
  | |- any _ => exact I
  | |- forall _, _ => intros ?
  | |- keeps _ (Ret _) => apply keeps_ret; try exact I
  | |- keeps _ (Stop _) => apply keeps_stop
  | |- keeps _ (Get _) => apply keeps_get; intros ? ?
  | |- keeps _ (Upd _ _) => apply keeps_upd; [try solve [eauto 4 with airu]|]
  | |- keeps _ (Call _ _) => apply keeps_call; [reflexivity|intros ? ?]
  | |- keeps ?Q (bind ?f (call ?e)) => change (keeps Q (Call e f))
  | |- keeps ?Q (mbind ?f (call ?e)) => change (keeps Q (Call e f))
  | |- keeps _ (bind _ _) => apply (keeps_bind any); [|intros ? _]
  | |- keeps _ (mbind _ _) => apply (keeps_bind any); [|intros ? _]
  | |- keeps _ (match ?x with _ => _ end) => destruct x
  | |- keeps _ (let '_ := ?x in _) => destruct x
  | |- keeps ?Q ?p => let p' := eval red in p in change (keeps Q p')
  end.
Ltac solve_keeps := repeat first [solve [eauto 2 with airu nocore] | keeps_step].

(** ** The operations of the Wi-Fi manager *)

Lemma owning_ntoa d addr :
  owning d (fun d' t => d' = d /\ nonzero t /\ (length t <= 15)%nat) (ntoa_local addr).
Proof.
  unfold ntoa_local, call, mbind, prog_bind. cbn [bind]. apply owning_call; [done|done|]. intros a _.
  unfold try. case_match eqn:E; [|apply owning_stop]. apply owning_ret. split; [done|].
  destruct (strcpy _ 0 _) as [b|] eqn:Eb; [|done]. apply write_length in Eb. apply cstr_inv in E as [Hn [r ->]].
  split; [done|]. rewrite length_app in Eb. cbn in Eb. lia.
Qed.

(** Clearing the status document. *)
Lemma owning_clear_status d :
  whole d -> owning d (fun d' _ => whole d') wifi_manager_clear_ip_info_json.
Proof.
  destruct d as [b l]. intros [(b0 & t & Hb & _ & _) Hl]. cbn [fst snd] in *. subst b.
  eapply owning_upd; [apply status_start_update; auto with airu|].
  intros d' (b' & -> & Hb'). apply owning_ret. split; [|done]. eexists b', _. split_and!; [done..|constructor].
Qed.

(** Printing it: the last step makes it whole again. *)
Lemma owning_generate_status d code :
  whole d -> owning d (fun d' _ => whole d') (wifi_manager_generate_ip_info_json code).
Proof.
  intros Hd. unfold wifi_manager_generate_ip_info_json, mbind, prog_bind, get. cbn [bind].
  apply owning_get. intros s Hs _. destruct (config_sta s); [|by apply owning_clear_status].
  destruct d as [b l]. destruct Hd as [(b0 & t & Hb & _ & _) Hl]. cbn [fst snd] in *. subst b.
  unfold update at 1 2 3. cbn [bind].
  eapply owning_upd; [apply (status_update b0 l _ (fun _ => True)); [apply sized_write|done]|].
  intros d1 (b1 & -> & _).
  eapply owning_upd; [apply status_start_update; auto with airu|]. intros d2 (b2 & -> & H2).
  eapply owning_upd; [apply status_name_update, H2|]. intros d3 (b3 & ssid & -> & H3).
  assert (forall ip nm gw, nonzero ip -> nonzero nm -> nonzero gw -> (length ip <= 15)%nat ->
    (length nm <= 15)%nat -> (length gw <= 15)%nat -> owning (Some b3, l) (fun d' _ => whole d')
      (update (on_ip_info_json (ip_info_append (ip_info_text ip nm gw (update_reason_int code)))))) as Hend.
  { intros ip nm gw N1 N2 N3 L1 L2 L3. eapply owning_upd; [by apply (status_text_update b3 l ssid)|].
    intros d4 (b4 & -> & H4). apply owning_ret. split; [|done]. eexists b4, _. split_and!; [done..|constructor]. }
  destruct (decide (code = UPDATE_CONNECTION_OK)).
  - unfold esp_error_check. cbn [bind]. apply owning_call; [done..|]. intros info _.
    destruct (Z.eqb (a_ret info) ESP_OK); [|apply owning_stop]. cbn [bind].
    eapply owning_bind; [apply owning_ntoa|]. intros ? ip (-> & N1 & L1).
    eapply owning_bind; [apply owning_ntoa|]. intros ? nm (-> & N2 & L2).
    eapply owning_bind; [apply owning_ntoa|]. intros ? gw (-> & N3 & L3). by apply Hend.
  - apply Hend; auto with airu; lit_len; lia.
Qed.

Lemma keeps_status_update code : keeps any (wifi_manager_json_status_update code).
Proof.
  apply keeps_lock; [|apply keeps_stop]. intros d Hd. apply closing_release. by apply owning_generate_status.
Qed.

Lemma keeps_connect_async : keeps any wifi_manager_connect_async.
Proof.
  apply keeps_lock; [|unfold when; solve_keeps]. intros d Hd. unfold when.
  eapply (closing_then d any); [|intros; solve_keeps].
  apply closing_release. by apply owning_clear_status.
Qed.

Lemma owning_filter d : whole d -> owning d (fun d' _ => whole d') filter_records.
Proof.
  intros Hd. unfold filter_records, update, mbind, prog_bind. cbn [bind].
  eapply owning_upd; [apply typed_document, typed_filter|]. intros d' ->.
  apply owning_call; [done..|]. intros a _. by apply owning_ret.
Qed.

Lemma owning_generate_aps d : whole d -> owning d (fun d' _ => whole d') wifi_manager_generate_acess_points_json.
Proof.
  destruct d as [m b]. intros [Hm (b0 & t & Hb & _ & _)]. cbn [fst snd] in *. subst b.
  eapply owning_upd; [apply ap_list_update|]. intros d' (b' & -> & Hl). by apply owning_ret.
Qed.

#[local] Hint Resolve keeps_status_update keeps_connect_async : airu.

Lemma keeps_scan uxBits : keeps any (serve_scan uxBits).
Proof.
  unfold serve_scan. apply (keeps_bind any).
  { apply keeps_upd; [apply typed_set_num; unfold MAX_AP_NUM; lia|]. by apply keeps_ret. }
  intros _ _. apply (keeps_bind any); [|intros; solve_keeps].
  destruct (negb _); [|solve_keeps].
  apply (keeps_bind any); [solve_keeps|]. intros _ _.
  apply (keeps_bind any); [solve_keeps|]. intros num _.
  apply (keeps_bind (fun a => Forall ap_ok (a_aps a))); [unfold esp_error_check; solve_keeps|].
  intros a Ha. apply (keeps_bind any); [solve_keeps|]. intros _ _.
  apply keeps_lock; [|unfold when; solve_keeps]. intros d Hd. unfold when, mbind, prog_bind.
  eapply closing_bind; [by apply owning_filter|]. intros d' x Hd'. apply closing_release. by apply owning_generate_aps.
Qed.

Lemma keeps_heap_alloc n : keeps block_bytes (heap_alloc n : wprog heap_block).
Proof.
  apply keeps_call; [done|]. intros a Ha. apply keeps_ret. intros b. cbn [snd]. case_match; [done|].
  intros [= <-]. apply json_valid_bytes in Ha. auto with airu.
Qed.

Lemma keeps_fetch_reg : keeps any wifi_manager_fetch_reg_config.
Proof. unfold wifi_manager_fetch_reg_config, store. solve_keeps. Qed.

Lemma keeps_save_reg : keeps any wifi_manager_save_reg_config.
Proof. unfold wifi_manager_save_reg_config, checked. solve_keeps. Qed.

Lemma keeps_save_sta : keeps any wifi_manager_save_sta_config.
Proof. unfold wifi_manager_save_sta_config, checked, with_config. solve_keeps. Qed.

Lemma keeps_fetch_prepare config : keeps any (fetch_prepare config).
Proof.
  unfold fetch_prepare. apply (keeps_bind any).
  - destruct config; [solve_keeps|]. unfold call, modify, mbind, prog_bind. cbn [bind].
    apply keeps_call; [done|]. intros a Ha. apply keeps_upd; [|by apply keeps_ret].
    intros s s' Hs [= <-]. apply typed_set_config; [done|]. intros c'. apply config_fresh.
    by eapply json_valid_bytes.
  - intros _ _. unfold memset. solve_keeps.
Qed.

Lemma keeps_fetch_blobs handle buff : block_bytes buff -> keeps any (fetch_blobs handle buff).
Proof. intros Hb. unfold fetch_blobs. solve_keeps. Qed.

Lemma keeps_fetch_sta : keeps any wifi_manager_fetch_wifi_sta_config.
Proof.
  unfold wifi_manager_fetch_wifi_sta_config.
  apply (keeps_bind any); [solve_keeps|]. intros a _. destruct (Z.eqb _ _); [|solve_keeps].
  apply (keeps_bind any); [solve_keeps|]. intros config _.
  apply (keeps_bind any); [apply keeps_fetch_prepare|]. intros _ _.
  apply (keeps_bind block_bytes); [apply keeps_heap_alloc|]. intros block Hb.
  apply (keeps_bind (Forall is_byte)).
  - destruct (snd block) as [b|] eqn:Eb; cbn [mbind option_bind]; [|apply keeps_stop].
    destruct (memset b 0 0 sizeof_size_t) as [b'|] eqn:E; [|apply keeps_stop]. apply keeps_ret.
    eapply write_forall; [exact E|by apply Hb|auto with airu].
  - intros contents Hc. apply keeps_fetch_blobs. by intros b [= <-].
Qed.

#[local] Hint Resolve keeps_scan keeps_fetch_reg keeps_save_reg keeps_save_sta keeps_fetch_sta : airu.

(** ** The jobs *)

Lemma keeps_round : keeps any wifi_manager_round.
Proof. unfold wifi_manager_round, serve_requests, serve_ping, serve_disconnect, serve_connect. solve_keeps. Qed.

Lemma keeps_event e : keeps any (wifi_manager_event_handler e).
Proof. unfold wifi_manager_event_handler. solve_keeps. Qed.

Lemma keeps_ping_result n : keeps any (pingResults n).
Proof. unfold pingResults. solve_keeps. Qed.

Lemma keeps_timer : keeps any vTimerCallback.
Proof. solve_keeps. Qed.

(** ** The HTTP server *)

#[local] Hint Resolve keeps_connect_async : airu.

Lemma header_bytes request name ret len :
  Forall is_byte request -> http_server_get_header request name = (Some ret, len) -> Forall is_byte ret.
Proof.
  intros Hr. unfold http_server_get_header. case_match; [|done]. intros [= <- _]. by apply Forall_drop.
Qed.

Lemma keeps_post_connect request : Forall is_byte request -> keeps any (post_connect request).
Proof.
  intros Hr. unfold post_connect.
  destruct (http_server_get_header request (lit "x-custom-ssid: ")) as [[ssid|] lenS] eqn:E1;
    destruct (http_server_get_header request (lit "x-custom-pwd: ")) as [[pw|] lenP] eqn:E2; try solve_keeps.
  apply typed_store_credentials; by eapply header_bytes.
Qed.

Lemma keeps_post_register request : keeps any (post_register request).
Proof.
  unfold post_register. do 3 destruct (http_server_get_header request _) as [[?|] ?].
  all: solve_keeps.
Qed.

(** What is written while the mutex is given back. *)
Definition tells {X} (W : list piece -> Prop) (held : option (option (list Z) * option (list Z)))
    (p : wprog X) : Prop :=
  forall h, wifi_lwp (fun held h' _ => held = None /\ exists t, h' = h ++ t /\ W (writes t)) p held h.

Lemma tells_send W d : W [constant d] -> tells W None (send d).
Proof.
  intros HW h. cbn [send call_ lwp json_takes json_gives]. split; [done|]. split; [done|].
  intros a _. split; [done|]. by eexists.
Qed.

Lemma tells_call {X} W held e (k : answer -> wprog X) :
  is_lock e = false -> not_write e = true -> (held = None \/ prompt e = true) ->
  (forall a, json_valid e a = true -> tells W held (k a)) -> tells W held (Call e k).
Proof.
  intros He Hn Hp Hk h. cbn [lwp]. split; [by intros Hh; destruct Hp|]. split.
  - intros Hg. by rewrite (proj2 (is_lock_takes e (ret_ 0) He)) in Hg.
  - intros a Ha. destruct (is_lock_takes e a He) as [-> ->]. eapply lwp_mono; [done| |by apply Hk].
    intros d h' x [-> (t & -> & HW)]. split; [done|]. exists ((e, a) :: t). rewrite <- app_assoc.
    split; [done|]. change ((e, a) :: t) with ([(e, a)] ++ t). rewrite writes_app. by destruct e.
Qed.

Lemma tells_write {X} W held d flags (k : answer -> wprog X) :
  (forall a, tells (fun w => W (d :: w)) held (k a)) -> tells W held (Call (netconn_write d flags) k).
Proof.
  intros Hk h. cbn [lwp json_takes json_gives]. split; [done|]. split; [done|].
  intros a _. eapply lwp_mono; [done| |by apply Hk].
  intros d' h' x [-> (t & -> & HW)]. split; [done|]. exists ((netconn_write d flags, a) :: t). by rewrite <- app_assoc.
Qed.

Lemma tells_unlock d : whole d -> forall W : list piece -> Prop, W [] ->
  tells W (Some d) wifi_manager_unlock_json_buffer.
Proof.
  intros Hd W HW h. cbn [wifi_manager_unlock_json_buffer call_ lwp json_takes json_gives].
  split; [done|]. split; [intros _; by exists d|]. intros a _. split; [done|]. by eexists.
Qed.

Lemma tells_lock {X} W ticks (k : bool -> wprog X) :
  (forall d, whole d -> tells W (Some d) (k true)) -> tells W None (k false) ->
  tells W None (bind k (wifi_manager_lock_json_buffer ticks)).
Proof.
  intros H1 H2 h. unfold wifi_manager_lock_json_buffer, mbind, prog_bind, call, get.
  cbn [bind lwp]. intros s Hs _. destruct (json_mutex s); cbn [bind lwp mret prog_ret]; [|apply H2].
  split; [by intros []|]. split; [done|]. intros a _. cbn [json_takes json_gives].
  assert (forall held p, tells W held p -> wifi_lwp (fun held h' (_ : X) => held = None /\
    exists t, h' = h ++ t /\ W (writes t)) p held (h ++ [(xSemaphoreTake JSON_MUTEX ticks, a)])) as Hgo.
  { intros held p Hp. eapply lwp_mono; [done| |apply Hp]. intros d h' x [-> (t & -> & HW)].
    split; [done|]. exists ((xSemaphoreTake JSON_MUTEX ticks, a) :: t). by rewrite <- app_assoc. }
  destruct (Z.eqb (a_ret a) pdTRUE); [|by apply Hgo]. intros _ d Hd. by apply Hgo, H1.
Qed.

(** The response of a document route: refused, or the header and the document's
    buffer, which at the call holds a whole document. *)
Definition whole_response (d : json_document) (P : list Z -> Prop) (w : list piece) : Prop :=
  w = [constant http_503_hdr] \/
  exists text, w = [constant http_ok_json_no_cache_hdr; (Document d, text)] /\ P text.

Lemma tells_get {X} W held (k : wm -> wprog X) :
  (forall s, agrees documents held s -> tells W held (k s)) -> tells W held (Get k).
Proof. intros Hk h s _ Ha. by apply Hk. Qed.

(** Writing a document that is held. *)
Lemma tells_text {X} (W : list piece -> Prop) d k m text (f : unit -> wprog X) :
  cstr m = Some text -> tells (fun w => W ((Document k, text) :: w)) d (f tt) ->
  tells W d (bind f (send_string k (Some m))).
Proof.
  intros Ht Hf. unfold send_string, call_, mbind, prog_bind. cbn [bind option_bind]. rewrite Ht.
  cbn [try bind]. by apply tells_write.
Qed.

Lemma tells_status : tells (whole_response IpInfo status_document) None serve_status_json.
Proof.
  apply tells_lock; [|apply tells_send; by left]. intros d Hd.
  unfold wifi_manager_get_ip_info_json, get, mbind, prog_bind. cbn [bind]. apply tells_get. intros s Ha.
  specialize (Ha d eq_refl). pose proof Hd as [(m & text & Hm & Ht & HP) _].
  rewrite <- Ha in Hm. cbn [documents fst] in Hm. rewrite Hm. apply tells_write. intros _.
  apply (tells_text _ _ _ m text); [done|]. apply tells_unlock; [done|]. right. by exists text.
Qed.

(** A part that writes, then one that does not. *)
Lemma tells_then {X Y} W held (f : X -> wprog Y) p :
  tells W held p -> (forall x, tells (fun w => w = []) None (f x)) -> tells W held (bind f p).
Proof.
  intros Hp Hf h. eapply lwp_seq; [apply Hp|]. intros d h' x [-> (t & -> & HW)].
  eapply lwp_mono; [done| |apply Hf]. intros d h' y [-> (t' & -> & Ht)]. split; [done|].
  exists (t ++ t'). by rewrite app_assoc, writes_app, Ht, app_nil_r.
Qed.

Lemma tells_scan_async : tells (fun w => w = []) None (wifi_manager_scan_async : wprog unit).
Proof.
  apply tells_call; [done|done|by left|]. intros a _ h. split; [done|]. exists []. by rewrite app_nil_r.
Qed.

Lemma tells_aps : tells (whole_response AccessPoints ap_document) None serve_ap_json.
Proof.
  apply tells_lock; [intros d Hd|]; (apply tells_then; [|intros _; apply tells_scan_async]).
  - apply tells_write. intros _. cbn [bind]. apply tells_get. intros s Ha.
    specialize (Ha d eq_refl). pose proof Hd as [_ (m & text & Hm & Ht & HP)].
    rewrite <- Ha in Hm. cbn [documents snd] in Hm. cbn [prog_bind bind]. rewrite Hm.
    apply (tells_text _ _ _ m text); [done|]. apply tells_unlock; [done|]. right. by exists text.
  - apply tells_send. by left.
Qed.

(** A request of which [save_ptr] is given on. *)
Lemma keeps_posted {X} (Q : X -> Prop) (rest : option (list Z)) (f : list Z -> wprog X) :
  (forall t, rest = Some t -> keeps Q (f t)) -> keeps Q (t ← try rest; f t).
Proof. intros Hf. destruct rest as [t|]; [by apply Hf|apply keeps_stop]. Qed.

(** What is not looked at. *)
Lemma keeps_tells {X} (Q : X -> Prop) (p : wprog X) : keeps Q p -> tells (fun _ => True) None p.
Proof.
  intros Hp h. eapply lwp_mono; [done| |apply lwp_grows, Hp].
  intros d h' x [[-> _] (t & ->)]. split; [done|]. by exists t.
Qed.

(** The whole response the route promises. *)
Definition document_served (r : route) (w : list piece) : Prop :=
  match r with
  | Status => whole_response IpInfo status_document w
  | ApList => whole_response AccessPoints ap_document w
  | _ => True
  end.

Lemma tells_line files line rest :
  (forall t, rest = Some t -> Forall is_byte t) -> starts line (lit "GET /register.json ") = false ->
  tells (document_served (route_of files line)) None (serve_line files line rest).
Proof.
  intros Hr Hreg. unfold serve_line, route_of, routes. cbn [find fst]. rewrite Hreg.
  repeat (match goal with |- context [starts line ?r] => destruct (starts line r) end;
    [first [apply tells_aps | apply tells_status
           | apply (keeps_tells any), keeps_posted; intros t Ht;
             first [apply keeps_post_connect, Hr, Ht | apply keeps_post_register]
           | apply (keeps_tells any); solve_keeps]|]).
  apply (keeps_tells any). solve_keeps.
Qed.

Lemma strtok_line_forall (P : Z -> Prop) text line rest t :
  Forall P text -> strtok_line text = Some (line, rest) -> rest = Some t -> Forall P t.
Proof.
  intros Ht. unfold strtok_line. assert (Forall P (skip_newlines text)) as Hs.
  { induction Ht as [|c u Hc Ht IH]; [constructor|]. cbn [skip_newlines]. case_match; [done|by constructor]. }
  assert (forall s u, Forall P s -> snd (token s) = Some u -> Forall P u) as Htok.
  { intros s u. induction 1 as [|c s Hc H IH]; [done|]. cbn [token]. destruct (Z.eqb c 10); [by intros [= <-]|].
    by destruct (token s). }
  destruct (skip_newlines text) as [|c s] eqn:E; [done|]. intros [= Hl] ->. change (token (c :: s) = (line, Some t)) in Hl.
  apply (Htok _ _ Hs). by rewrite Hl.
Qed.

(** The line of a request. *)
Definition request_line (a : answer) : option (list Z) :=
  t ← cstr (a_bytes a); '(line, _) ← strtok_line t; Some line.

(** The calls [h] of one turn of the accept loop: if a request was received,
    the response of its route was written. *)
Definition served (files : embedded) (h : ctrace) : Prop :=
  forall x a t line, h = (netconn_accept, x) :: (netconn_recv, a) :: t ->
    a_ret a = ERR_OK -> request_line a = Some line ->
    document_served (route_of files line) (writes t).

Definition wifi_post (files : embedded) (j : wifi_job) (h : ctrace) : Prop :=
  match j with Connection => served files h | _ => True end.

Abbreviation wifi_ok files :=
  (pool_ok json_takes json_gives json_valid documents whole wm_typed
     (fun _ => wifi_calls) (wifi_post files)).

(** The response and the end of the connection. *)
Lemma tells_request files a line :
  json_valid netconn_recv a = true -> request_line a = Some line ->
  tells (document_served (route_of files line)) None
    (text ← try (cstr (a_bytes a));
     match strtok_line text with
     | Some (line, rest) => serve_line files line rest
     | None => send http_404_hdr
     end).
Proof.
  intros Hv Hl. unfold request_line in Hl. destruct (cstr (a_bytes a)) as [text|] eqn:Et; [|done].
  cbn [mbind option_bind] in Hl. destruct (strtok_line text) as [[line' rest]|] eqn:El; [|done].
  injection Hl as ->. unfold mbind, prog_bind. cbn [try bind]. rewrite El. apply tells_line.
  - intros t Hr. eapply strtok_line_forall; [|exact El|exact Hr]. clear Hr. pose proof (cstr_inv _ _ Et) as [_ [r Hr]].
    apply json_valid_bytes in Hv. rewrite Hr in Hv. by apply Forall_app in Hv as [? _].
  - unfold json_valid, asks_registration in Hv. rewrite Et in Hv. cbn [mbind option_bind] in Hv.
    rewrite El in Hv. apply andb_prop in Hv as [_ Hv]. by apply negb_true_iff in Hv.
Qed.

Lemma keeps_request files a :
  json_valid netconn_recv a = true ->
  keeps any (text ← try (cstr (a_bytes a));
     match strtok_line text with
     | Some (line, rest) => serve_line files line rest
     | None => send http_404_hdr
     end).
Proof.
  intros Hv. destruct (request_line a) as [line|] eqn:E.
  - intros h. eapply lwp_mono; [done| |by eapply tells_request]. by intros d h' x [-> _].
  - unfold request_line in E. destruct (cstr (a_bytes a)) as [text|]; [|apply keeps_stop].
    cbn [mbind option_bind] in E. unfold mbind, prog_bind. cbn [try bind].
    destruct (strtok_line text) as [[line rest]|]; [done|solve_keeps].
Qed.

Lemma served_without files x h :
  (forall a t line, h = (netconn_recv, a) :: t -> a_ret a = ERR_OK -> request_line a = Some line -> False) ->
  served files ((netconn_accept, x) :: h).
Proof. intros Hn x' a t line [= <- Hh] Ha Hl. by edestruct Hn. Qed.

Lemma served_with files x a line t :
  request_line a = Some line -> document_served (route_of files line) (writes t) ->
  served files ((netconn_accept, x) :: (netconn_recv, a) :: t).
Proof. intros Hl HW x' a' t' line' [= <- <- <-] _ Hl'. rewrite Hl in Hl'. by injection Hl' as <-. Qed.

(** One call with the mutex free. *)
Ltac free_call := cbn [call_ send bind lwp json_takes json_gives];
  split; [by intros []|]; split; [done|]; intros ? _.

Lemma connection_ok files :
  wifi_lwp (returns (wifi_post files) Connection) (wifi_body files Connection) None [].
Proof.
  unfold wifi_body, http_server_round, http_server_netconn_serve, mbind, prog_bind, call.
  cbn [bind]. free_call.
  destruct (Z.eqb (a_ret a) ERR_OK); cbn [when].
  2: { free_call. split; [done|]. by apply served_without. }
  cbn [bind lwp json_takes json_gives]. split; [by intros []|]. split; [done|]. intros q Hq. cbn [app].
  apply lwp_bind, lwp_bind. do 2 apply lwp_bind.
  eapply lwp_mono with (G := wifi_calls) (Q := fun held h (_ : unit) => held = None /\
    exists t, h = (netconn_accept, a) :: (netconn_recv, q) :: t /\
      forall t', writes t' = [] -> served files ((netconn_accept, a) :: (netconn_recv, q) :: t ++ t')); [done|..].
  - intros d h [] [-> (t & -> & Ht)]. free_call. free_call. free_call. split; [done|].
    cbn [wifi_post app]. rewrite <- !app_assoc. by apply Ht.
  - destruct (Z.eqb (a_ret q) ERR_OK) eqn:Eq; cbn [when].
    2: { split; [done|]. exists []. split; [done|]. intros t' _ x' a' t'' line [= <- <- <-] Ha.
         rewrite Ha in Eq. done. }
    destruct (request_line q) as [line|] eqn:El.
    + eapply lwp_mono; [done| |by eapply tells_request]. intros d h [] [-> (t & -> & HW)].
      split; [done|]. exists t. split; [done|]. intros t' Ht. eapply served_with; [exact El|].
      by rewrite writes_app, Ht, app_nil_r.
    + eapply lwp_mono; [done| |by eapply (keeps_tells any), keeps_request]. intros d h [] [-> (t & -> & _)].
      split; [done|]. exists t. split; [done|]. intros t' _ x' a' t'' line [= <- <- <-] _. by rewrite El.
Qed.

(** Every function of every task respects the mutex. *)
Lemma wifi_body_ok files i j :
  wifi_runs i j = true ->
  wifi_lwp (returns (wifi_post files) j) (wifi_body files j) None [].
Proof.
  intros _. assert (forall l p, keeps any p -> wifi_post files l = (fun _ => True) ->
    wifi_lwp (returns (wifi_post files) l) p None []) as Hk.
  { intros l p Hp Hl. eapply lwp_mono; [done| |apply Hp]. intros d h [] [-> _]. unfold returns. by rewrite Hl. }
  destruct j as [| |e|n|]; [|apply connection_ok|..]; apply Hk; try done.
  - apply keeps_round.
  - apply (keeps_bind any); [apply keeps_event|]. intros; by apply keeps_ret.
  - apply (keeps_bind any); [apply keeps_ping_result|]. intros; by apply keeps_ret.
  - apply keeps_timer.
Qed.

(** ** The start *)

(** What [wifi_manager_init] relies on: the answers are bytes, and there is
    memory for the scanned records (the code does not look). *)
Definition starts_valid (c : ext * answer) : Prop :=
  answer_valid (fst c) (snd c) = true /\ (fst c = malloc_ap_records -> a_ret (snd c) <> 0).

Lemma holds_clear (P : list Z -> Prop) b b' t : nonzero t -> P t -> strcpy b 0 t = Some b' -> holds P (Some b').
Proof. intros Hn HP E. exists b', t. split_and!; [done|by eapply strcpy_cstr|done]. Qed.

(** The variables as the linker leaves them. *)
Record wm_fresh (s : wm) : Prop := {
  fresh_ok : wm_ok s;
  fresh_num : 0 <= ap_num s;
  fresh_config_sta : config_sta s = None
}.

(** A run from there on that only keeps the variables typed. *)
Lemma keeps_exec {X} (p : wprog X) s tr x s' :
  keeps any p -> wm_typed s -> exec eq p s tr (Done x) s' ->
  Forall (fun c => answer_valid (fst c) (snd c) = true) tr ->
  Forall (fun c => is_lock (fst c) = false /\ fst c <> netconn_recv) tr ->
  wm_typed s' /\ documents s' = documents s.
Proof.
  intros Hp Hs He Hv Hl. destruct (lwp_exec json_takes json_gives json_valid documents whole wm_typed
    wifi_calls _ p [] s tr x s' (Hp []) Hs He) as (H1 & H2 & _); [|done].
  rewrite Forall_forall in *. intros [e a] Hc. destruct (Hl _ Hc) as [Hlk Hr]. cbn [fst snd] in *.
  destruct (is_lock_takes e a Hlk) as [-> ->]. split_and!; [|done..].
  specialize (Hv _ Hc). cbn [fst snd] in Hv. unfold json_valid. rewrite Hv. by destruct e.
Qed.

Ltac init_call He a t := apply exec_call_inv in He as (a & t & -> & He).
Ltac init_upd He s E := apply exec_upd_inv in He as (s & E & He).

Lemma fresh_records_scanned a :
  starts_valid (malloc_ap_records, a) -> scanned MAX_AP_NUM (fresh_records a).
Proof.
  intros [Hv Hn]. unfold fresh_records. specialize (Hn eq_refl). cbn [snd] in Hn.
  rewrite (proj2 (Z.eqb_neq _ _)) by done. split; [apply length_resize|].
  apply Forall_resize; [apply ap_ok_zero|]. unfold answer_valid in Hv. cbn [fst snd] in Hv.
  rewrite andb_true_iff, !bool_decide_eq_true in Hv. apply Hv.
Qed.

Lemma init_buffers_typed s tr s' :
  wm_fresh s -> exec eq init_buffers s tr (Done tt) s' -> Forall starts_valid tr ->
  wm_typed s' /\ whole (documents s').
Proof.
  intros [[] Hnum Hcfg] He Htr.
  assert (only (fun e => is_lock e = false /\ e <> netconn_recv) any init_buffers) as Ho by solve_only.
  apply (only_exec _ _ _ _ _ _ _ _ Ho) in He as Hl. destruct Hl as [Hl _]. clear Ho.
  unfold init_buffers, wifi_manager_clear_access_points_json, wifi_manager_clear_ip_info_json,
    wifi_manager_clear_reg_info_json, update, modify, heap_alloc, call, mbind, prog_bind in He. cbn [bind] in He.
  init_call He a t. init_upd He s1 E1. init_call He r t1. init_upd He s2 E2.
  init_call He b1 t2. init_upd He s3 E3. init_upd He s4 E4. init_call He b2 t3. init_upd He s5 E5.
  init_call He b3 t4. init_upd He s6 E6. init_upd He s7 E7.
  assert (scanned MAX_AP_NUM (fresh_records r)) as [Hr1 Hr2].
  { apply fresh_records_scanned. by apply Forall_cons in Htr as [_ [? _]%Forall_cons]. }
  injection E1 as <-. injection E2 as <-. injection E3 as <-. injection E5 as <-. injection E6 as <-.
  unfold on_accessp_json in E4. cbn [accessp_json set_accessp_json snd] in E4.
  destruct (Z.eqb (a_ret b1) 0); [done|]. cbn [mbind option_bind] in E4.
  destruct (strcpy _ 0 (lit "[]\n")) as [m1|] eqn:D1; [|done]. injection E4 as <-.
  unfold on_ip_info_json in E7. cbn [ip_info_json set_ip_info_json set_reg_info_json snd] in E7.
  destruct (Z.eqb (a_ret b2) 0); [done|]. cbn [mbind option_bind] in E7.
  destruct (strcpy _ 0 (lit "{}\n")) as [m2|] eqn:D2; [|done]. injection E7 as <-.
  lazymatch type of He with exec _ ?p ?s7 _ _ _ =>
    assert (wm_typed s7 /\ whole (documents s7)) as [Hs7 Hw]; [|assert (keeps any p) as Hk] end.
  - split; [|split; (eapply holds_clear; [..|first [exact D1 | exact D2]]; [auto with airu|constructor])].
    apply write_length in D1, D2. rewrite length_resize in D1, D2. split; try (cbn; by eauto).
    + split; cbn; try done; [by intros ? [= <-]..|]. intros b. case_match; [done|]. intros [= <-]. apply length_resize.
    + cbn. by rewrite Hcfg.
  - apply keeps_upd; [apply typed_reg_info_json, sized_write|].
    apply keeps_call; [done|]. intros c Hc. apply keeps_upd; [|unfold strcpy; solve_keeps].
    intros u u' Hu [= <-]. apply typed_set_config; [done|]. intros c'. apply config_fresh. by eapply json_valid_bytes.
  - destruct (keeps_exec _ _ _ _ _ Hk Hs7 He) as [H1 H2]; [| |by rewrite H2].
    + do 5 apply Forall_cons in Htr as [_ Htr]. eapply Forall_impl; [exact Htr|]. by intros c [? _].
    + by do 5 apply Forall_cons in Hl as [_ Hl].
Qed.

(** The variables the tasks find: those [wifi_manager_init] leaves. *)
Definition started (s : wm) : Prop :=
  exists s0 tr, wm_fresh s0 /\ exec eq wifi_manager_init s0 tr (Done tt) s /\ Forall starts_valid tr.

Lemma started_ok s : started s -> wm_typed s /\ whole (documents s).
Proof.
  intros (s0 & tr & Hf & He & Htr). unfold wifi_manager_init in He.
  apply exec_bind_done in He as (t1 & [] & s1 & t2 & -> & H1 & H2).
  apply Forall_app in Htr as [Ht1 Ht2]. destruct (init_buffers_typed _ _ _ Hf H1 Ht1) as [Hs1 Hw].
  assert (forall p : wprog unit, keeps any p -> only (fun e => is_lock e = false /\ e <> netconn_recv) any p ->
    exec eq p s1 t2 (Done tt) s -> wm_typed s /\ whole (documents s)) as Hrest.
  { intros p Hk Ho Hx. destruct (only_exec _ _ _ _ _ _ _ _ Ho Hx) as [Hl _].
    destruct (keeps_exec p s1 t2 tt s Hk Hs1 Hx) as [Ha Hb]; [|done|by rewrite Hb].
    eapply Forall_impl; [exact Ht2|]. by intros c [? _]. }
  eapply Hrest; [..|exact H2].
  - unfold init_saved_network, init_addresses, init_radio. solve_keeps.
  - solve_only.
Qed.

Lemma wifi_start_ok files s : started s -> wifi_ok files (wifi_start s).
Proof.
  intros [Hs Hd]%started_ok. apply pool_ok_start; [done|done|].
  repeat constructor. by intros x a t line [=].
Qed.

Lemma wifi_reachable files s P :
  started s -> rtc (wifi_step files) (wifi_start s) P -> wifi_ok files P.
Proof. intros Hs Hr. eapply pool_steps_ok; [apply wifi_body_ok|by apply wifi_start_ok|exact Hr]. Qed.

(** ** Theorems *)

(** C1: Whatever the order in which the tasks run and whatever the calls answer,
    as long as nobody asks for /register.json: what is handed to the network
    stack in answer to a request for /status.json or /ap.json is a refusal, or
    the header and the document's buffer, which at that moment holds one whole
    document, never one that another task is changing.  (With NETCONN_NOCOPY
    the stack may read the buffer again later:
    [WifiRaces.document_changes_under_stack].) *)
Theorem responses_whole files s P t :
  started s -> rtc (wifi_step files) (wifi_start s) P ->
  p_tasks P !! 1%nat = Some t -> t_job t = Connection -> t_rest t = Ret tt -> served files (t_calls t).
Proof.
  intros Hs Hr Ht Hj Hd. destruct (pool_ok_done _ _ _ _ _ _ _ _ _ 1 t (wifi_reachable files s P Hs Hr) Ht Hd) as [_ H].
  by rewrite Hj in H.
Qed.

(** C6: As long as nobody asks for /register.json the mutex does its work: while
    it is free the two documents are whole, and a step that changes one of them
    is a step of the task that owns it, which keeps it. *)
Theorem documents_owned files s P :
  started s -> rtc (wifi_step files) (wifi_start s) P ->
  (p_owner P = None -> whole (documents (p_statics P))) /\
  (forall P', wifi_step files P P' -> documents (p_statics P') <> documents (p_statics P) ->
    exists i, p_owner P = Some i /\ p_owner P' = Some i /\
      forall j, j <> i -> p_tasks P' !! j = p_tasks P !! j).
Proof.
  intros Hs Hr. pose proof (wifi_reachable files s P Hs Hr) as Hok.
  split; [by apply Hok|]. intros P' HP' Hn. by eapply pool_ok_changes.
Qed.

(** The variables keep their type, as long as nobody asks for /register.json: from the start of the firmware on, after
    every step of every task, each buffer has the size it was declared or
    allocated with, the two documents are allocated, the network's name and
    password are bytes, the scanned records are networks the driver can
    report, and their count is not negative. *)
Theorem variables_typed files s P :
  started s -> rtc (wifi_step files) (wifi_start s) P -> wm_typed (p_statics P).
Proof. intros Hs Hr. apply (wifi_reachable files s P Hs Hr). Qed.

(** C7: No deadlock on the mutex as long as nobody asks for /register.json: its
    owner waits for no mutex, event, queue or delay, and whatever its calls
    answer, after finitely many of its own steps it has given the mutex back,
    unless it stopped (an assert or an access outside a buffer). *)
Theorem mutex_given_back files s P i ans :
  started s -> rtc (wifi_step files) (wifi_start s) P -> p_owner P = Some i ->
  (forall h e, json_valid e (ans h e) = true) ->
  (forall t e k, p_tasks P !! i = Some t -> t_rest t = Call e k -> prompt e = true) /\
  exists P', rtc (moves json_takes json_gives json_valid wifi_runs (wifi_body files) i ans) P P' /\
    (p_owner P' = None \/ stopped i P').
Proof.
  intros Hs Hr Ho Ha. pose proof (wifi_reachable files s P Hs Hr) as Hok. split.
  - intros t e k Ht He. pose proof (pool_ok_calling _ _ _ _ _ _ _ _ _ i t e k Hok Ht He) as Hc.
    apply Hc. unfold held_by. by rewrite decide_True.
  - eapply pool_ok_released; [apply wifi_body_ok| |exact Ha|exact Hok|exact Ho].
    intros l d h e a Hc. specialize (Hc ltac:(done)). destruct e; try done; by destruct m.
Qed.

(** ** Instances *)

(** The start of a device without a saved network. *)
Definition fresh_wm : wm :=
  Wm false 15 (replicate MAX_AP_NUM ap_zero) None None None None
    (replicate sizeof_wifi_settings 0) (replicate sizeof_registration_info 0).

Definition boot_answers : list answer :=
  replicate 6 (ret_ 1) ++ [ret_bytes 0 [1; 2; 3; 4; 5; 6]; ret_ 0; ret_ 1; ret_ 0; ret_ ESP_ERR_NVS_NOT_FOUND]
  ++ replicate 16 (ret_ 0).

Definition boot_run := run wifi_manager_init fresh_wm boot_answers.
Definition boot_wm : wm := snd boot_run.

Definition starts_valid_dec (c : ext * answer) : bool :=
  answer_valid (fst c) (snd c) &&
  match fst c with malloc_ap_records => negb (Z.eqb (a_ret (snd c)) 0) | _ => true end.

Lemma starts_valid_dec_sound c : starts_valid_dec c = true -> starts_valid c.
Proof.
  unfold starts_valid_dec, starts_valid. intros [Ha Hb]%andb_prop. split; [done|]. intros E. rewrite E in Hb.
  by apply negb_true_iff, Z.eqb_neq in Hb.
Qed.

Lemma fresh_wm_fresh : wm_fresh fresh_wm.
Proof. split; [|done|done]. by split. Qed.

Lemma boot_started : started boot_wm.
Proof.
  exists fresh_wm, (fst (fst boot_run)). split; [|split].
  - apply fresh_wm_fresh.
  - apply (run_exec _ _ boot_answers). vm_compute. reflexivity.
  - assert (forallb starts_valid_dec (fst (fst boot_run)) = true) as H by (vm_compute; reflexivity).
    rewrite forallb_forall in H. apply Forall_forall. intros c Hc. by apply starts_valid_dec_sound, H, list_elem_of_In.
Qed.

Definition get_status : answer := ret_bytes 0 (lit "GET /status.json HTTP/1.1\r\n\r\n" ++ [0]).
Definition post_network : answer := ret_bytes 0
  (lit "POST /connect.json HTTP/1.1\r\nx-custom-ssid: home\r\nx-custom-pwd: secret\r\n\r\n" ++ [0]).

(** A network is chosen; the manager connects, is preempted while it prints the
    status; a browser asks for it meanwhile, and again when it is printed. *)
Definition demo_schedule : list (nat * turn (A := answer) (L := wifi_job)) := [
  (1%nat, Begin Connection);
  (1%nat, Go ([ret_ 0; post_network; ret_ pdTRUE] ++ replicate 6 (ret_ 0)));
  (0%nat, Begin ManagerRound);
  (0%nat, Go [ret_ 8; ret_ 0; ret_ 0; ret_ 0; ret_ 1; ret_ pdTRUE]);
  (1%nat, Begin Connection);
  (1%nat, Go ([ret_ 0; get_status; ret_ pdFALSE] ++ replicate 4 (ret_ 0)));
  (0%nat, Go ([ret_ 0] ++ replicate 3 (ret_bytes 0 (lit "10.0.0.2")) ++ [ret_ 0; ret_ 0]));
  (1%nat, Begin Connection);
  (1%nat, Go ([ret_ 0; get_status; ret_ pdTRUE] ++ replicate 6 (ret_ 0)))].

Definition wifi_run_on valid schedule (P : wifi_pool) : option wifi_pool :=
  pool_run json_takes json_gives valid wifi_runs (wifi_body demo_files) schedule P.

Definition demo_pool (n : nat) : wifi_pool :=
  default (wifi_start boot_wm) (wifi_run_on json_valid (take n demo_schedule) (wifi_start boot_wm)).

Definition task_writes (P : wifi_pool) : option (list piece) := t ← p_tasks P !! 1%nat; Some (writes (t_calls t)).

Example busy_meanwhile : task_writes (demo_pool 6) = Some [constant http_503_hdr].
Proof. vm_compute. reflexivity. Qed.

Example printed_after : task_writes (demo_pool 9) = Some [constant http_ok_json_no_cache_hdr;
  (Document IpInfo, status_text (lit "home") (lit "10.0.0.2") (lit "10.0.0.2") (lit "10.0.0.2") 0)].
Proof. vm_compute. reflexivity. Qed.

Lemma demo_reaches n :
  (if wifi_run_on json_valid (take n demo_schedule) (wifi_start boot_wm) is Some _ then true else false) = true ->
  rtc (wifi_step demo_files) (wifi_start boot_wm) (demo_pool n).
Proof.
  unfold demo_pool. destruct (wifi_run_on _ _ _) as [P|] eqn:Hr; [|done]. intros _. by eapply pool_run_steps.
Qed.

(** The task that has the JSON mutex after [n] turns, and the document. *)
Example printing_now : p_owner (demo_pool 4) = Some 0%nat /\
  (b ← ip_info_json (p_statics (demo_pool 4)); cstr b) = Some (lit "{'ssid':'home'").
Proof. vm_compute. by split. Qed.

Lemma responses_whole_witness :
  exists t, p_tasks (demo_pool 9) !! 1%nat = Some t /\ served demo_files (t_calls t).
Proof.
  destruct (p_tasks (demo_pool 9) !! 1%nat) as [t|] eqn:Ht; [|by vm_compute in Ht].
  exists t. split; [done|]. apply (responses_whole demo_files boot_wm (demo_pool 9) t).
  - exact boot_started.
  - apply demo_reaches. vm_compute. reflexivity.
  - exact Ht.
  - vm_compute in Ht. by injection Ht as <-.
  - vm_compute in Ht. by injection Ht as <-.
Defined.

Lemma documents_owned_witness :
  p_owner (demo_pool 9) = None /\ whole (documents (p_statics (demo_pool 9))).
Proof.
  split; [vm_compute; reflexivity|]. apply (documents_owned demo_files boot_wm (demo_pool 9)).
  - exact boot_started.
  - apply demo_reaches. vm_compute. reflexivity.
  - vm_compute. reflexivity.
Defined.

Lemma variables_typed_witness : wm_typed (p_statics (demo_pool 4)).
Proof.
  apply (variables_typed demo_files boot_wm (demo_pool 4) boot_started).
  apply demo_reaches. vm_compute. reflexivity.
Defined.

Lemma mutex_given_back_witness :
  exists P', rtc (moves json_takes json_gives json_valid wifi_runs (wifi_body demo_files) 0
    (fun _ _ => ret_ 0)) (demo_pool 4) P' /\ (p_owner P' = None \/ stopped 0 P').
Proof.
  apply (mutex_given_back demo_files boot_wm (demo_pool 4) 0 (fun _ _ => ret_ 0) boot_started).
  - apply demo_reaches. vm_compute. reflexivity.
  - vm_compute. reflexivity.
  - intros h e. unfold json_valid. by destruct e.
Defined.
