(* ===== verification/WifiBoot.v ===== *)
(** * A power cycle of the Wi-Fi manager (wifi_manager.c)

    Only the storage survives: the start of the task in the world of
    [WifiRound], and what it makes of a network a round has saved. *)

From S2P Require Import Prelude CMem Printf Json WifiScan WifiState WifiJson WifiNvs Led WifiManager HttpServer WifiTyped Station WifiRound WifiTasks.

Local Open Scope Z_scope.

Section start.
Context {W : Type} `{StorageLaws W}.
(** What answers an allocation, and the address of the device. *)
Variables (junk : answer) (mac : list Z).
Hypothesis junk_some : a_ret junk <> 0.
Hypothesis mac_bytes : Forall is_byte mac.

(** The calls of the start succeed; the access point starts while the task
    waits for it; the storage is that of the rounds. *)
Definition start_answer (e : ext) (w : world) : answer * world :=
  let '(World b t n) := w in
  match e with
  | xSemaphoreCreateMutex _ | malloc_ap_records => (ret_ 1, w)
  | esp_efuse_mac_get_default => (ret_bytes 0 mac, w)
  | xEventGroupCreate WIFI_EG => (ret_ 1, World 0 t n)
  | xEventGroupSetBits WIFI_EG m => (ret_ 0, World (set_bits m b) t n)
  | xEventGroupWaitBits WIFI_EG m _ _ _ => (ret_ (set_bits m b), World (set_bits m b) t n)
  | xTimerCreate _ _ => (ret_ 1, World b false n)
  | _ => let '(a, n) := nvs_answer junk e n in (a, World b t n)
  end.

Abbreviation starts p s w := (run_world start_answer p s w).

(** ** The buffers *)

Lemma fmt_X_byte_length b : is_byte b -> (length (pad0 2 (fmt_X b)) <= 2)%nat.
Proof.
  intros [H1 H2]. rewrite pad0_length. unfold fmt_X. rewrite length_fmap.
  pose proof (udigits_length 16 b 2 ltac:(lia) ltac:(lia)) as Hl. simpl in Hl. lia.
Qed.

Lemma ap_ssid_text_length : (length (ap_ssid_text mac) <= 9)%nat.
Proof.
  assert (forall i, is_byte (mac !!! i)) as Hb.
  { intros i. rewrite list_lookup_total_alt. destruct (mac !! i) as [c|] eqn:E; [|unfold is_byte; cbn; lia].
    by eapply Forall_lookup_1. }
  unfold ap_ssid_text. rewrite !length_app. pose proof (fmt_X_byte_length _ (Hb 4%nat)).
  pose proof (fmt_X_byte_length _ (Hb 5%nat)). lit_len. unfold DEFAULT_AP_SSID. lit_len. lia.
Qed.

(** A text in a fresh block. *)
Lemma strcpy_fresh n l t :
  nonzero t -> (length t < n)%nat ->
  exists b, strcpy (resize n 0 l) 0 t = Some b /\ cstr b = Some t /\ length b = n.
Proof.
  intros Ht Hn. destruct (strcpy (resize n 0 l) 0 t) as [b|] eqn:E.
  - exists b. split; [done|]. split; [by eapply strcpy_cstr|]. apply strcpy_length in E. by rewrite length_resize in E.
  - apply strcpy_none in E. rewrite length_resize in E. lia.
Qed.

(** The variables once the buffers are there. *)
Record buffers (s : wm) : Prop := {
  bf_ok : wm_ok s;
  bf_mutex : json_mutex s = true;
  bf_network : exists k, config_sta s = Some (StaConfig (replicate 32 0) (replicate 64 0) (replicate k 0));
  bf_status : holds (eq (lit "{}\n")) (ip_info_json s);
  bf_aps : holds (eq (lit "[]\n")) (accessp_json s)
}.

Lemma init_buffers_world s w :
  wm_fresh s -> exists s', starts init_buffers s w = (Done tt, s', w) /\ buffers s'.
Proof.
  intros [[] Hnum Hcfg]. destruct w as [b t n]. unfold init_buffers, heap_alloc,
    wifi_manager_clear_access_points_json, wifi_manager_clear_ip_info_json, wifi_manager_clear_reg_info_json.
  prog_simpl. cbn [start_answer nvs_answer run_world fst snd a_ret ret_].
  rewrite (proj2 (Z.eqb_neq _ _) junk_some).
  unfold on_accessp_json at 1. cbn [accessp_json set_accessp_json mbind option_bind].
  destruct (strcpy_fresh (MAX_AP_NUM * JSON_ONE_APP_SIZE + 4) (a_bytes junk) (lit "[]\n")) as (m1 & -> & T1 & L1);
    [by apply nonzero_const|vm_compute; lia|]. cbn [mbind option_bind].
  unfold on_ip_info_json at 1. cbn [ip_info_json set_ip_info_json set_reg_info_json mbind option_bind].
  destruct (strcpy_fresh JSON_IP_INFO_SIZE (a_bytes junk) (lit "{}\n")) as (m2 & -> & T2 & L2);
    [by apply nonzero_const|vm_compute; lia|]. cbn [mbind option_bind].
  unfold on_reg_info_json at 1. cbn [reg_info_json set_ip_info_json set_reg_info_json mbind option_bind].
  destruct (strcpy_fresh JSON_REG_INFO_SIZE (a_bytes junk) (lit "{}\n")) as (m3 & -> & T3 & L3);
    [by apply nonzero_const|vm_compute; lia|]. cbn [mbind option_bind].
  unfold fresh_config at 1, erase_config at 1. rewrite (proj2 (Z.eqb_neq _ _) junk_some).
  cbn [config_sta set_config_sta mbind option_bind]. unfold on_wifi_settings at 1.
  cbn [wifi_settings set_config_sta set_reg_info_json set_ip_info_json set_accessp_json set_accessp_records set_json_mutex].
  destruct (write (wifi_settings s) ws_sta_static_ip_config static_ip_info) as [v1|] eqn:E1.
  2: { apply write_none in E1. rewrite ok_settings in E1. vm_compute in E1. lia. }
  cbn [mbind option_bind]. unfold on_wifi_settings at 1. cbn [wifi_settings set_wifi_settings a_bytes ret_bytes].
  destruct (strcpy v1 ws_ap_ssid (ap_ssid_text mac)) as [v2|] eqn:E2.
  2: { apply strcpy_none in E2. rewrite (write_length _ _ _ _ E1), ok_settings in E2.
       pose proof ap_ssid_text_length. unfold sizeof_wifi_settings, ws_ap_ssid in E2. lia. }
  cbn [mbind option_bind]. eexists. split; [reflexivity|].
  apply strcpy_length in E2. rewrite (write_length _ _ _ _ E1), ok_settings in E2.
  split; [|done|by eexists|by eexists _, _|by eexists _, _].
  split; try done; cbn; try by intros ? [= <-].
Qed.

(** ** The saved network *)

Lemma start_nvs {X} (p : wprog X) s w :
  only nvs_call any p ->
  starts p s w = let '(o, s', n') := run_world (nvs_answer junk) p s (w_nvs w) in
                 (o, s', World (w_bits w) (w_timer w) n').
Proof.
  apply (run_world_part _ _ w_nvs (fun n w => World (w_bits w) (w_timer w) n)); try done.
  - by intros [].
  - intros [] [b' t' n']; by intros.
Qed.

(** The requests the start leaves. *)
Definition start_bits (found : bool) : Z :=
  set_bits WIFI_MANAGER_REQUEST_WIFI_SCAN (set_bits WIFI_MANAGER_AP_STARTED
    (if found then set_bits WIFI_MANAGER_REQUEST_STA_CONNECT_BIT 0 else 0)).

Lemma init_saved_world s w ssid password settings :
  buffers s -> saved (nvs_store (w_nvs w)) = Some (ssid, password, settings) ->
  length ssid = 32%nat -> length password = 64%nat -> length settings = sizeof_wifi_settings ->
  exists k n', (nvs_store n' = nvs_store (w_nvs w) /\ nvs_flash n' = nvs_flash (w_nvs w)) /\
  starts init_saved_network s w =
  (Done tt, set_wifi_settings settings (set_config_sta (Some (StaConfig ssid password (replicate k 0))) s),
   World (if negb (Z.eqb (ssid !!! 0%nat) 0) then set_bits WIFI_MANAGER_REQUEST_STA_CONNECT_BIT 0 else 0) (w_timer w) n').
Proof.
  intros Hs Hsaved H1 H2 H3. destruct w as [b t n]. unfold init_saved_network. unfold saved in Hsaved. cbv zeta in Hsaved.
  cbn [w_nvs] in Hsaved.
  destruct (st_get _ _ (lit "ssid")) as [v1|] eqn:E1; [|done]. cbn [mbind option_bind] in Hsaved.
  destruct (st_get _ _ (lit "password")) as [v2|] eqn:E2; [|done]. cbn [mbind option_bind] in Hsaved.
  destruct (st_get _ _ (lit "settings")) as [v3|] eqn:E3; [|done]. cbn [mbind option_bind] in Hsaved.
  injection Hsaved as -> -> ->.
  destruct (fetch_sta_found junk junk_some s n ssid password settings) as (k & _ & E); [apply Hs|done..|].
  exists k, (Nvs (nvs_flash n) (nvs_store n) wifi_manager_nvs_namespace false). split; [done|].
  unfold mbind, prog_bind, call_. cbn [bind run_world start_answer nvs_answer].
  rewrite run_world_bind. change (starts (check_ esp_event_loop_init) s ?w) with (Done tt, s, w).
  cbv beta iota. rewrite run_world_bind, start_nvs by apply fetch_calls. cbn [w_nvs w_bits w_timer]. rewrite E.
  by destruct (negb _).
Qed.

(** ** The rest of the start *)

Lemma settings_byte s i : wm_ok s -> (i < sizeof_wifi_settings)%nat -> exists c, wifi_settings s !! i = Some c.
Proof. intros Hs Hi. apply lookup_lt_is_Some. by rewrite (ok_settings s Hs). Qed.

Lemma starts_check {X} e (k : wprog X) s w :
  start_answer e w = (ret_ 0, w) -> starts (check_ e;; k) s w = starts k s w.
Proof. intros He. unfold check_, esp_error_check. cbn [mbind prog_bind bind run_world]. by rewrite He. Qed.

Lemma starts_check_last e (s : wm) w : start_answer e w = (ret_ 0, w) -> starts (check_ e) s w = (Done tt, s, w).
Proof. intros He. unfold check_, esp_error_check. cbn [mbind prog_bind bind run_world]. by rewrite He. Qed.

Lemma starts_get {X Y} (f : wm -> X) (k : X -> wprog Y) s w : starts (get f ≫= k) s w = starts (k (f s)) s w.
Proof. done. Qed.

Lemma starts_try {X Y} (x : X) (k : X -> wprog Y) s w : starts (try (Some x) ≫= k) s w = starts (k x) s w.
Proof. done. Qed.

(** [steady]: reads and successful calls only. *)
Ltac steady :=
  repeat first [rewrite starts_get | rewrite starts_check by done | rewrite starts_try];
  first [by apply starts_check_last | done].

Lemma init_addresses_world s w : wm_ok s -> starts init_addresses s w = (Done tt, s, w).
Proof.
  intros Hs. destruct (settings_byte s ws_sta_static_ip Hs) as [c Hc]; [vm_compute; lia|]. destruct w as [b t n].
  unfold init_addresses. do 3 (rewrite starts_check by done). rewrite starts_get, Hc, starts_try.
  destruct (negb (Z.eqb c 0)); [steady|]. unfold esp_error_check. cbn [mbind prog_bind bind run_world start_answer nvs_answer].
  change (a_ret (ret_ 0) =? ESP_OK) with true. cbn [bind a_val ret_]. change (negb (0 =? TCPIP_ADAPTER_DHCP_STARTED)) with true.
  cbn [when]. steady.
Qed.

Lemma init_radio_world s w : wm_ok s -> starts init_radio s w = (Done tt, s, w).
Proof.
  intros Hs. destruct (settings_byte s ws_ap_channel Hs) as [c Hc]; [vm_compute; lia|].
  destruct (settings_byte s ws_ap_ssid_hidden Hs) as [c2 Hc2]; [vm_compute; lia|]. destruct w as [b t n].
  unfold init_radio. do 3 (rewrite starts_check by done). rewrite starts_get, starts_check by done.
  rewrite starts_get, starts_check by done. rewrite starts_get, Hc, starts_try, Hc2, starts_try. steady.
Qed.

(** ** The start *)

(** A station after a power cycle: the saved network and settings, the
    documents empty, the timer off. *)
Definition station_start (n : W) : option (list Z -> station) :=
  '(ssid, password, settings) ← saved n;
  Some (fun rest => Station (start_bits (negb (Z.eqb (ssid !!! 0%nat) 0))) false
    (StaConfig ssid password rest) settings n (lit "{}\n") (lit "[]\n")).

Lemma init_world s w st0 :
  wm_fresh s -> nvs_flash (w_nvs w) = nvs_store (w_nvs w) -> storage_ok (nvs_store (w_nvs w)) ->
  station_start (nvs_store (w_nvs w)) = Some st0 ->
  exists s' w' k, starts wifi_manager_init s w = (Done tt, s', w') /\ represents s' w' (st0 (replicate k 0)).
Proof.
  intros Hf Hfl Hok Hst. unfold station_start in Hst.
  destruct (saved (nvs_store (w_nvs w))) as [[[ssid password] settings]|] eqn:Es; [|done].
  cbn [mbind option_bind] in Hst. injection Hst as <-.
  assert (length ssid = 32%nat /\ length password = 64%nat /\ length settings = sizeof_wifi_settings /\
          Forall is_byte (ssid ++ password)) as (L1 & L2 & L3 & HB).
  { unfold saved in Es. cbv zeta in Es. destruct Hok as [E|(v1 & v2 & v3 & E1 & E2 & E3 & ?)].
    - by rewrite E in Es.
    - rewrite E1, E2, E3 in Es. cbn [mbind option_bind] in Es. by injection Es as <- <- <-. }
  destruct (init_buffers_world s w Hf) as (s1 & R1 & Hs1).
  destruct (init_saved_world s1 w ssid password settings Hs1 Es L1 L2 L3) as (k & n' & [Hn Hn'] & R2).
  set (s2 := set_wifi_settings settings _) in *. set (w2 := World _ _ n') in *.
  assert (wm_ok s2) as Hok2.
  { destruct (bf_ok _ Hs1). split; try done. cbn. by intros c [= <-]. }
  unfold wifi_manager_init. unfold mbind, prog_bind.
  rewrite run_world_bind, R1. cbv beta iota. rewrite run_world_bind, R2. cbv beta iota.
  rewrite run_world_bind, init_addresses_world by done. cbv beta iota.
  rewrite run_world_bind, init_radio_world by done. cbv beta iota.
  unfold call_, wifi_set, http_server_set_event_start, w2. cbn [bind run_world start_answer nvs_answer].
  do 2 eexists. exists k. split; [reflexivity|].
  split; try done.
  - apply Hs1.
  - cbn. by rewrite Hn', Hfl.
  - by apply config_zero_rest.
  - apply Hs1.
  - apply Hs1.
Qed.
End start.

(** ** A network that was joined *)

Section joined.
Context {W : Type} `{StorageLaws W} (ntoa : list Z -> list Z) (junk : answer) (mac : list Z).

(** Only the flash is left. *)
Definition power_off (w : world (W := W)) : world := World 0 false (nvs_power_cycle (w_nvs w)).

(** C4: A network the station joined survives a power cycle. After a round that
    served a connection request, with no disconnection requested, got an address
    and printed a document that fits, in a world whose calls succeed, the task of
    a device that lost everything but its flash starts with the same name and
    password and the same settings, and requests the connection exactly when the
    name is not empty. *)
Theorem joined_network_survives d info s w st c s0 :
  a_ret junk <> 0 -> (forall a, nonzero (ntoa a) /\ (length (ntoa a) <= 15)%nat) -> Forall is_byte mac ->
  driver_ok d -> represents s w st -> config_sta s = Some c ->
  has (w_bits w) WIFI_MANAGER_REQUEST_WIFI_DISCONNECT = false ->
  dr_address d = Some info -> document_fits ntoa c info -> wm_fresh s0 ->
  exists s1 w1 s2 w2 k,
    wifi_rounds junk ntoa [(WIFI_MANAGER_REQUEST_STA_CONNECT_BIT, d)] s w = (Done tt, s1, w1) /\
    run_world (start_answer junk mac) wifi_manager_init s0 (power_off w1) = (Done tt, s2, w2) /\
    config_sta s2 = Some (StaConfig (sta_ssid c) (sta_password c) (replicate k 0)) /\
    wifi_settings s2 = wifi_settings s /\
    has (w_bits w2) WIFI_MANAGER_REQUEST_STA_CONNECT_BIT = negb (Z.eqb (sta_ssid c !!! 0%nat) 0).
Proof.
  intros Hj Hn Hm Hdrv Hr Hc Hbits Hd Hfit Hf.
  pose proof (rp_network _ _ _ Hr) as Hc'. rewrite Hc in Hc'. injection Hc' as ->.
  rewrite request_disconnect_testbit, (rp_bits _ _ _ Hr) in Hbits.
  destruct (joined_round ntoa d st info Hbits Hd Hfit) as (st1 & E1 & Hsaved).
  pose proof (rounds_agree junk ntoa Hj Hn [(WIFI_MANAGER_REQUEST_STA_CONNECT_BIT, d)] s w st
    (Forall_cons_2 (fun r => driver_ok (snd r)) (_, d) [] Hdrv (Forall_nil_2 _)) Hr) as Ha.
  rewrite E1 in Ha. destruct Ha as (s1 & w1 & Erun & Hr1).
  destruct (init_world junk mac Hj Hm s0 (power_off w1)
    (fun rest => Station (start_bits (negb (Z.eqb (sta_ssid (st_network st) !!! 0%nat) 0))) false
       (StaConfig (sta_ssid (st_network st)) (sta_password (st_network st)) rest) (st_settings st)
       (nvs_flash (w_nvs w1)) (lit "{}\n") (lit "[]\n"))) as (s2 & w2 & k & Est & Hr2); [done|done| | |].
  - cbn [w_nvs power_off nvs_power_cycle nvs_store]. rewrite (rp_flash _ _ _ Hr1). apply Hr1.
  - unfold station_start. cbn [w_nvs power_off nvs_power_cycle nvs_store]. rewrite (rp_flash _ _ _ Hr1), Hsaved. done.
  - exists s1, w1, s2, w2, k. split; [exact Erun|]. split; [exact Est|].
    rewrite (rp_network _ _ _ Hr2), (rp_settings _ _ _ Hr2), (rp_settings _ _ _ Hr), (rp_bits _ _ _ Hr2).
    split; [done|]. split; [done|]. cbn [st_bits]. rewrite request_connect_testbit. by destruct (negb _).
Qed.
End joined.

(** ** Instances *)

Lemma joined_network_survives_witness :
  exists s1 w1 s2 w2 k,
    wifi_rounds (ret_ 4096) demo_ntoa [(WIFI_MANAGER_REQUEST_STA_CONNECT_BIT, good_driver)] demo_saved demo_world
      = (Done tt, s1, w1) /\
    run_world (start_answer (ret_ 4096) [36; 10; 196; 1; 2; 3]) wifi_manager_init fresh_wm (power_off w1)
      = (Done tt, s2, w2) /\
    config_sta s2 = Some (StaConfig (field 32 (lit "home")) (field 64 (lit "secret")) (replicate k 0)) /\
    has (w_bits w2) WIFI_MANAGER_REQUEST_STA_CONNECT_BIT = true.
Proof.
  destruct (joined_network_survives demo_ntoa (ret_ 4096) [36; 10; 196; 1; 2; 3] good_driver (replicate 12 0)
    demo_saved demo_world demo_station (StaConfig (field 32 (lit "home")) (field 64 (lit "secret")) (replicate 40 0))
    fresh_wm ltac:(done) demo_ntoa_text ltac:(forall_list) good_driver_ok demo_represents eq_refl
    ltac:(reflexivity) eq_refl) as (s1 & w1 & s2 & w2 & k & E1 & E2 & E3 & _ & E5).
  - exists (lit "home"). split; [reflexivity|]. vm_compute. lia.
  - apply fresh_wm_fresh.
  - exists s1, w1, s2, w2, k. split; [exact E1|]. split; [exact E2|]. split; [exact E3|]. rewrite E5. reflexivity.
Defined.
