(* ===== verification/WifiRaces.v ===== *)
(** * Interleavings the Wi-Fi manager does not handle

    Runs of the pool of [WifiTasks] in which two tasks get in each other's
    way: a document served while it is printed, or changed after it was handed
    to the network stack; credentials that are erased after they were accepted;
    a saved network that nobody asked for. *)

From S2P Require Import Prelude CMem Printf Json WifiScan WifiState WifiJson WifiNvs Led WifiManager HttpServer HttpSpec WifiTyped WifiTasks.

Local Open Scope Z_scope.

(** ** Runs from the start of a device *)

(** The pool after a schedule. *)
Definition after valid schedule : option wifi_pool := wifi_run_on valid schedule (wifi_start boot_wm).

Abbreviation any_step files := (pool_step json_takes json_gives answer_valid wifi_runs (wifi_body files)).

Lemma after_reached valid schedule P : after valid schedule = Some P ->
  rtc (pool_step json_takes json_gives valid wifi_runs (wifi_body demo_files)) (wifi_start boot_wm) P.
Proof. apply pool_run_steps. Qed.

(** A request served from its acceptance on: [answers] are those of its route. *)
Definition request (a : answer) (answers : list answer) : list (nat * turn (A := answer) (L := wifi_job)) :=
  [(1%nat, Begin Connection); (1%nat, Go ([ret_ 0; a] ++ answers ++ [ret_ 0; ret_ 0; ret_ 0]))].

(** POST /connect.json: take, give, set the request bit, write the answer. *)
Definition post_connect_turns (a : answer) := request a [ret_ pdTRUE; ret_ 0; ret_ 0; ret_ 0].

(** The manager takes up the request, up to the outcome [bits] of the attempt,
    and takes the mutex to print it. *)
Definition attempt (bits : Z) : list (nat * turn (A := answer) (L := wifi_job)) :=
  [(0%nat, Begin ManagerRound); (0%nat, Go [ret_ 8; ret_ 0; ret_ 0; ret_ 0; ret_ bits; ret_ pdTRUE])].

Definition get_register : answer := ret_bytes 0 (lit "GET /register.json HTTP/1.1\r\n\r\n" ++ [0]).
Definition post_other : answer := ret_bytes 0
  (lit "POST /connect.json HTTP/1.1\r\nx-custom-ssid: cafe\r\nx-custom-pwd: espresso\r\n\r\n" ++ [0]).

(** ** The second release of GET /register.json *)

(** A network is chosen and joined; the manager prints its status. *)
Definition printing_schedule := post_connect_turns post_network ++ attempt 1.

Definition register_turns := request get_register [ret_ pdFALSE; ret_ 0].
Definition status_turns := request get_status [ret_ pdTRUE; ret_ 0; ret_ 0; ret_ 0].

(** ** A request during a failing attempt *)

(** The attempt on the first network fails; before the manager has erased it,
    another request is served to its end; then the manager goes on. *)
Definition failing_schedule := post_connect_turns post_network ++ attempt 16 ++ [(0%nat, Go [ret_ 0])].
Definition other_turns := post_connect_turns post_other.
Definition rest_of_failure : list (nat * turn (A := answer) (L := wifi_job)) :=
  [(0%nat, Go [ret_ 0; ret_ 0; ret_ 0; ret_ 0; ret_ 0])].

(** ** A request while the network is saved *)

Definition mixed_schedule :=
  post_connect_turns post_network ++ attempt 1 ++
  [(0%nat, Go ([ret_ 0] ++ replicate 3 (ret_bytes 0 (lit "10.0.0.2")) ++ [ret_ 0; ret_ 0; ret_val 0 1]))] ++
  post_connect_turns post_other ++ [(0%nat, Go [ret_ 0; ret_ 0; ret_ 0; ret_ 0; ret_ 0])].

(** ** Theorems *)

(** A whole status document ends with a closing brace and a line feed. *)
Lemma status_document_end t : status_document t -> exists r, t = r ++ lit "}\n".
Proof.
  destruct 1 as [|ssid ip netmask gw code]; [by exists (lit "{")|].
  unfold status_text, ip_info_text. eexists. by rewrite !app_assoc.
Qed.

(** Pools reached one after another. *)
Definition reach valid schedule (P : wifi_pool) : wifi_pool := default P (wifi_run_on valid schedule P).

Lemma reach_steps valid schedule P :
  (if wifi_run_on valid schedule P is Some _ then true else false) = true ->
  rtc (pool_step json_takes json_gives valid wifi_runs (wifi_body demo_files)) P (reach valid schedule P).
Proof.
  unfold reach. destruct (wifi_run_on valid schedule P) as [P'|] eqn:E; [|done]. intros _. by eapply pool_run_steps.
Qed.

(** Task 1 has answered the request [a] with the pieces [w]. *)
Definition has_answered (a : answer) (w : list piece) (P : wifi_pool) : Prop :=
  exists t, p_tasks P !! 1%nat = Some t /\ t_job t = Connection /\ t_rest t = Ret tt /\
    (exists x rest, t_calls t = (netconn_accept, x) :: (netconn_recv, a) :: rest) /\ writes (t_calls t) = w.

(** The run of task 1 that the pool has just ended. *)
Definition last_turn (P : wifi_pool) := default (Task Connection [] (Ret tt)) (p_tasks P !! 1%nat).

Lemma answered_of P a w x rest :
  (if p_tasks P !! 1%nat is Some _ then true else false) = true ->
  t_job (last_turn P) = Connection -> t_rest (last_turn P) = Ret tt ->
  t_calls (last_turn P) = (netconn_accept, x) :: (netconn_recv, a) :: rest -> writes (t_calls (last_turn P)) = w ->
  has_answered a w P.
Proof.
  unfold last_turn. destruct (p_tasks P !! 1%nat) as [t|] eqn:E; [|done]. intros _ H1 H2 H3 H4. exists t.
  split_and!; [done|done|done| |done]. by exists x, rest.
Qed.

Ltac answered := eapply answered_of; vm_compute; reflexivity.

(** The network in memory has this name and password. *)
Definition is_network (ssid password : list Z) (c : sta_config) : Prop :=
  sta_ssid c = field 32 ssid /\ sta_password c = field 64 password.

(** The text a shared buffer holds. *)
Definition text_at (d : json_document) (s : wm) : option (list Z) :=
  b ← match d with AccessPoints => accessp_json s | IpInfo => ip_info_json s | RegInfo => reg_info_json s end; cstr b.


(** C12: A request to connect that arrives while another attempt fails is lost,
    although it was answered with 200.  The manager has tried the first network
    and got the event that it failed, but has not erased it yet; the connection
    task stores the second network, sets the request bit and answers 200; then
    the manager, which ends its round without another attempt, erases the
    second network and clears the request bit. *)
Theorem accepted_request_is_lost :
  exists P1 P2 P t1 t2 c1 c2 tail, started boot_wm /\
    rtc (wifi_step demo_files) (wifi_start boot_wm) P1 /\
    p_tasks P1 !! 0%nat = Some t1 /\ t_job t1 = ManagerRound /\
    config_sta (p_statics P1) = Some c1 /\ is_network (lit "home") (lit "secret") c1 /\
    In (esp_wifi_set_config_sta (Some (sta_memory c1))) (map fst (t_calls t1)) /\
    In (esp_wifi_connect) (map fst (t_calls t1)) /\
    rtc (wifi_step demo_files) P1 P2 /\ p_tasks P2 !! 0%nat = Some t1 /\
    has_answered post_other [constant http_ok_json_no_cache_hdr] P2 /\
    In (xEventGroupSetBits WIFI_EG WIFI_MANAGER_REQUEST_STA_CONNECT_BIT) (map fst (t_calls (last_turn P2))) /\
    config_sta (p_statics P2) = Some c2 /\ is_network (lit "cafe") (lit "espresso") c2 /\
    rtc (wifi_step demo_files) P2 P /\ p_tasks P !! 1%nat = p_tasks P2 !! 1%nat /\
    p_tasks P !! 0%nat = Some t2 /\ t_job t2 = ManagerRound /\ t_rest t2 = Ret tt /\
    t_calls t2 = t_calls t1 ++ tail /\
    (forall c, ~ In (esp_wifi_set_config_sta c) (map fst tail)) /\
    In (xEventGroupClearBits WIFI_EG WIFI_MANAGER_REQUEST_STA_CONNECT_BIT) (map fst tail) /\
    exists c, config_sta (p_statics P) = Some c /\ is_network [] [] c.
Proof.
  set (P1 := reach json_valid failing_schedule (wifi_start boot_wm)).
  set (P2 := reach json_valid other_turns P1). set (P := reach json_valid rest_of_failure P2).
  set (manager (P : wifi_pool) := default (Task Connection [] (Ret tt)) (p_tasks P !! 0%nat)).
  set (network (P : wifi_pool) := default (StaConfig [] [] []) (config_sta (p_statics P))).
  exists P1, P2, P, (manager P1), (manager P), (network P1), (network P2),
    (drop (length (t_calls (manager P1))) (t_calls (manager P))).
  split; [exact boot_started|]. split_and!.
  - apply reach_steps. vm_compute. reflexivity.
  - vm_compute. reflexivity.
  - vm_compute. reflexivity.
  - vm_compute. reflexivity.
  - vm_compute. split; reflexivity.
  - vm_compute. tauto.
  - vm_compute. tauto.
  - apply reach_steps. vm_compute. reflexivity.
  - vm_compute. reflexivity.
  - answered.
  - vm_compute. tauto.
  - vm_compute. reflexivity.
  - vm_compute. split; reflexivity.
  - apply reach_steps. vm_compute. reflexivity.
  - vm_compute. reflexivity.
  - vm_compute. reflexivity.
  - vm_compute. reflexivity.
  - vm_compute. reflexivity.
  - vm_compute. reflexivity.
  - intros c. vm_compute. intuition congruence.
  - vm_compute. tauto.
  - exists (network P). split; [vm_compute; reflexivity|]. vm_compute. split; reflexivity.
Qed.



(** A request that arrives while the manager saves a network mixes the two: the
    name of the one and the password of the other are committed to the
    storage. *)
Theorem saved_network_mixed :
  exists P t handle v w, started boot_wm /\ rtc (wifi_step demo_files) (wifi_start boot_wm) P /\
    p_tasks P !! 0%nat = Some t /\
    In (nvs_set_blob handle (lit "ssid") (lit "home" ++ v)) (map fst (t_calls t)) /\
    In (nvs_set_blob handle (lit "password") (lit "espresso" ++ w)) (map fst (t_calls t)) /\
    In (nvs_commit handle) (map fst (t_calls t)).
Proof.
  destruct (after json_valid mixed_schedule) as [P|] eqn:HP; [|by vm_compute in HP].
  exists P, (default (Task Connection [] (Ret tt)) (p_tasks P !! 0%nat)), 1, (replicate 28 0), (replicate 56 0).
  split; [exact boot_started|]. split; [by apply (after_reached _ mixed_schedule)|].
  vm_compute in HP. injection HP as <-. split; [done|]. cbn. tauto.
Qed.
