(* ===== verification/Float32.v ===== *)
(** * Floating-point arithmetic

    The C types float and double, as IEEE 754 binary32 and binary64 with the
    operations of the Standard Library's specification of floats, and the facts
    the firmware relies on: whole numbers below 2^24 (2^53) are exact, so are
    their sums, their quotients when they divide, and their conversions. *)

From Stdlib Require Import SpecFloat.
From S2P Require Import Prelude.

Local Open Scope Z_scope.

Definition float32 : Type := spec_float.
Definition float64 : Type := spec_float.

Definition prec : Z := 24.
Definition emax : Z := 128.
Definition prec64 : Z := 53.
Definition emax64 : Z := 1024.

Definition f32_of_Z (n : Z) : float32 := binary_normalize prec emax n 0 false.
Definition f32_add : float32 -> float32 -> float32 := SFadd prec emax.
Definition f32_div : float32 -> float32 -> float32 := SFdiv prec emax.
Definition f32_mul : float32 -> float32 -> float32 := SFmul prec emax.
Definition f32_sub : float32 -> float32 -> float32 := SFsub prec emax.

Definition f64_of_Z (n : Z) : float64 := binary_normalize prec64 emax64 n 0 false.
Definition f64_div : float64 -> float64 -> float64 := SFdiv prec64 emax64.
Definition f64_mul : float64 -> float64 -> float64 := SFmul prec64 emax64.
Definition f64_sub : float64 -> float64 -> float64 := SFsub prec64 emax64.

(** Conversion of a value to another format. *)
Definition float_convert (p e : Z) (x : spec_float) : spec_float :=
  match x with S754_finite s m ex => binary_round p e s m ex | _ => x end.

Definition f32_of_f64 : float64 -> float32 := float_convert prec emax.
Definition f64_of_f32 : float32 -> float64 := float_convert prec64 emax64.

(** Conversion to an integer, towards zero; [None] for infinities and NaN. *)
Definition float_trunc (x : spec_float) : option Z :=
  match x with
  | S754_zero _ => Some 0
  | S754_finite s m e =>
      let a := if Z.leb 0 e then Zpos m * 2 ^ e else Zpos m / 2 ^ (- e) in
      Some (if s then - a else a)
  | _ => None
  end.

(** The conversions to C integer types: undefined when the truncated value is
    out of range. *)
Definition float_to_u32 (x : spec_float) : option Z :=
  n ← float_trunc x; if Z.leb 0 n && Z.ltb n (2 ^ 32) then Some n else None.

Definition float_to_s32 (x : spec_float) : option Z :=
  n ← float_trunc x; if Z.leb (- 2 ^ 31) n && Z.ltb n (2 ^ 31) then Some n else None.

#[export] Instance float32_eq_dec : EqDecision float32.
Proof. solve_decision. Defined.

(** ** Exact whole numbers *)

Lemma digits2_log2 p : Zpos (digits2_pos p) = Z.log2 (Zpos p) + 1.
Proof.
  induction p as [p IH|p IH|]; [| |done]; cbn [digits2_pos]; rewrite Pos2Z.inj_succ, IH.
  - rewrite Pos2Z.inj_xI. rewrite Z.log2_succ_double by lia. lia.
  - rewrite Pos2Z.inj_xO. rewrite Z.log2_double by lia. lia.
Qed.

Lemma Zdigits2_log2 m : 0 < m -> Zdigits2 m = Z.log2 m + 1.
Proof. destruct m as [|p|p]; try lia. intros _. apply digits2_log2. Qed.

(** Shifting out zeros. *)
Lemma iter_shr_exact p q : 0 < q ->
  SpecFloat.iter_pos shr_1 p (Build_shr_record (q * 2 ^ Zpos p) false false) = Build_shr_record q false false.
Proof.
  assert (forall q, 0 < q -> shr_1 (Build_shr_record (q * 2) false false)
    = Build_shr_record q false false) as H1.
  { intros [|r|r] Hr; try lia. by rewrite Z.mul_comm. }
  revert q. induction p as [p IH|p IH|]; intros q Hq; cbn [SpecFloat.iter_pos].
  - replace (q * 2 ^ Zpos p~1) with (q * 2 ^ Zpos p * 2 ^ Zpos p * 2).
    + rewrite H1 by nia. rewrite IH by nia. by apply IH.
    + rewrite (Pos2Z.inj_xI p), Z.pow_add_r, Z.pow_1_r by lia.
      replace (2 * Zpos p) with (Zpos p + Zpos p) by lia. rewrite Z.pow_add_r by lia. ring.
  - replace (q * 2 ^ Zpos p~0) with (q * 2 ^ Zpos p * 2 ^ Zpos p).
    + rewrite IH by nia. by apply IH.
    + rewrite (Pos2Z.inj_xO p). replace (2 * Zpos p) with (Zpos p + Zpos p) by lia.
      rewrite Z.pow_add_r by lia. ring.
  - by apply H1.
Qed.

Lemma shr_exact q e n : 0 < q -> 0 <= n ->
  shr (Build_shr_record (q * 2 ^ n) false false) e n = (Build_shr_record q false false, e + n).
Proof.
  intros Hq Hn. destruct n as [|p|p]; [|by cbn [shr]; rewrite iter_shr_exact|lia].
  cbn [shr]. by rewrite Z.pow_0_r, Z.mul_1_r, Z.add_0_r.
Qed.

Lemma log2_scale q n : 0 < q -> 0 <= n -> Z.log2 (q * 2 ^ n) = Z.log2 q + n.
Proof. intros. rewrite Z.log2_mul_pow2 by lia. lia. Qed.

Lemma pos_iter_xO m d : Zpos (Pos.iter xO m d) = Zpos m * 2 ^ Zpos d.
Proof.
  induction d as [|d IH] using Pos.peano_ind.
  - cbn. lia.
  - rewrite Pos.iter_succ. rewrite (Pos2Z.inj_xO (Pos.iter xO m d)), IH.
    rewrite Pos2Z.inj_succ, Z.pow_succ_r by lia. ring.
Qed.

(** Aligning a mantissa to a smaller exponent. *)
Lemma shl_align_spec m e e' : e' <= e ->
  Zpos (fst (shl_align m e e')) = Zpos m * 2 ^ (e - e') /\ snd (shl_align m e e') = e'.
Proof.
  intros He. unfold shl_align. destruct (e' - e) as [|p|p] eqn:E; cbn [fst snd].
  - replace (e - e') with 0 by lia. rewrite Z.pow_0_r. lia.
  - lia.
  - rewrite pos_iter_xO. replace (e - e') with (Zpos p) by lia. done.
Qed.

Section format.
Variables pr em : Z.
Hypothesis Hpr : 1 < pr < em.

(** A mantissa of full precision, scaled up, is rounded to itself. *)
Lemma round_exact s m n e : Z.log2 (Zpos m) = pr - 1 -> 0 <= n -> emin pr em <= e <= em - pr ->
  binary_round_aux pr em s (Zpos m * 2 ^ n) (e - n) loc_Exact = S754_finite s m e.
Proof.
  intros Hm Hn He. unfold binary_round_aux, shr_fexp. cbn [shr_record_of_loc].
  assert (fexp pr em (Zdigits2 (Zpos m * 2 ^ n) + (e - n)) - (e - n) = n) as ->.
  { rewrite Zdigits2_log2, log2_scale, Hm by lia. unfold fexp. lia. }
  rewrite shr_exact by lia. replace (e - n + n) with e by lia.
  cbn [shr_m loc_of_shr_record round_nearest_even].
  assert (fexp pr em (Zdigits2 (Zpos m) + e) - e = 0) as ->.
  { rewrite Zdigits2_log2, Hm by lia. unfold fexp. lia. }
  cbn [shr shr_m]. rewrite (proj2 (Z.leb_le _ _)) by lia. done.
Qed.

(** The normal form of a whole number: its mantissa has full precision. *)
Definition exact_in (k : Z) : spec_float :=
  S754_finite false (Z.to_pos (k * 2 ^ (pr - 1 - Z.log2 k))) (Z.log2 k - (pr - 1)).

Lemma log2_bounds k : 0 < k < 2 ^ pr -> 0 <= Z.log2 k <= pr - 1.
Proof.
  intros Hk. pose proof (Z.log2_nonneg k).
  assert (Z.log2 k < pr) by (apply Z.log2_lt_pow2; lia). lia.
Qed.

Lemma exact_mantissa k : 0 < k < 2 ^ pr ->
  Zpos (Z.to_pos (k * 2 ^ (pr - 1 - Z.log2 k))) = k * 2 ^ (pr - 1 - Z.log2 k) /\
  Z.log2 (k * 2 ^ (pr - 1 - Z.log2 k)) = pr - 1 /\ 0 <= Z.log2 k <= pr - 1.
Proof.
  intros Hk. pose proof (log2_bounds k Hk).
  split; [apply Z2Pos.id; nia|]. split; [|done]. rewrite log2_scale by lia. lia.
Qed.

(** The normal form of [k * 2 ^ e], with a sign. *)
Definition exact_at (s : bool) (k e : Z) : spec_float :=
  S754_finite s (Z.to_pos (k * 2 ^ (pr - 1 - Z.log2 k))) (e + Z.log2 k - (pr - 1)).

Definition exp_ok (k e : Z) : Prop := emin pr em <= e + Z.log2 k - (pr - 1) <= em - pr.

(** A scaled number is rounded to its normal form. *)
Lemma round_exact_at s k e n : 0 < k < 2 ^ pr -> pr - 1 - Z.log2 k <= n -> exp_ok k e ->
  binary_round_aux pr em s (k * 2 ^ n) (e - n) loc_Exact = exact_at s k e.
Proof.
  intros Hk Hn He. destruct (exact_mantissa k Hk) as (Hm & Hl & Hr).
  unfold exact_at. rewrite <- (round_exact s _ (n - (pr - 1 - Z.log2 k)) (e + Z.log2 k - (pr - 1))).
  - rewrite Hm, <- Z.mul_assoc, <- Z.pow_add_r by lia. f_equal; [|lia]. f_equal. f_equal. lia.
  - by rewrite Hm.
  - lia.
  - exact He.
Qed.

Lemma exp_ok_0 k : 0 < k < 2 ^ pr -> exp_ok k 0.
Proof. intros Hk. pose proof (log2_bounds k Hk). unfold exp_ok, emin. lia. Qed.

Lemma round_exact_in k n : 0 < k < 2 ^ pr -> pr - 1 - Z.log2 k <= n ->
  binary_round_aux pr em false (k * 2 ^ n) (- n) loc_Exact = exact_in k.
Proof. intros Hk Hn. exact (round_exact_at false k 0 n Hk Hn (exp_ok_0 k Hk)). Qed.

(** Any representation of a number has the same normal form. *)
Lemma normalize_exact_at s k e j : 0 < k < 2 ^ pr -> 0 <= j -> exp_ok k e ->
  binary_normalize pr em (cond_Zopp s (k * 2 ^ j)) (e - j) false = exact_at s k e.
Proof.
  intros Hk Hj He. pose proof (log2_bounds k Hk).
  destruct (k * 2 ^ j) as [|p|p] eqn:Ep; [nia| |nia].
  transitivity (binary_round pr em s p (e - j)); [by destruct s|].
  assert (Z.log2 (Zpos p) = Z.log2 k + j) as Hp by (rewrite <- Ep; apply log2_scale; lia).
  unfold binary_round.
  assert (fexp pr em (Zpos (digits2_pos p) + (e - j)) = e + Z.log2 k - (pr - 1)) as ->.
  { rewrite digits2_log2, Hp. unfold fexp. unfold exp_ok in He. lia. }
  set (e' := e + Z.log2 k - (pr - 1)). destruct (decide (e' <= e - j)) as [Hle|Hgt].
  - destruct (shl_align_spec p (e - j) e' Hle) as [H1 H2].
    destruct (shl_align p (e - j) e') as [mz ez]. cbn [fst snd] in H1, H2. subst ez.
    rewrite H1, <- Ep, <- Z.mul_assoc, <- Z.pow_add_r by lia.
    replace (j + (e - j - e')) with (e - e') by lia. replace e' with (e - (e - e')) at 2 by lia.
    apply round_exact_at; [done|lia|done].
  - assert (shl_align p (e - j) e' = (p, e - j)) as ->.
    { unfold shl_align. destruct (e' - (e - j)) eqn:E; [done|done|lia]. }
    rewrite <- Ep. apply round_exact_at; [done|lia|done].
Qed.

Lemma normalize_exact k j : 0 < k < 2 ^ pr -> 0 <= j ->
  binary_normalize pr em (k * 2 ^ j) (- j) false = exact_in k.
Proof. intros Hk Hj. exact (normalize_exact_at false k 0 j Hk Hj (exp_ok_0 k Hk)). Qed.

Lemma normalize_whole k : 0 < k < 2 ^ pr -> binary_normalize pr em k 0 false = exact_in k.
Proof. intros Hk. rewrite <- (normalize_exact k 0) by lia. by rewrite Z.pow_0_r, Z.mul_1_r. Qed.

(** A quotient that is a whole number is exact. *)
Lemma div_exact k d : 0 < k < 2 ^ pr ->
  SFdiv pr em (S754_finite false (Z.to_pos (k * Zpos d)) 0) (S754_finite false d 0) = exact_in k.
Proof.
  intros Hk. pose proof (log2_bounds k Hk) as Hl. unfold SFdiv, SFdiv_core_binary.
  rewrite Z2Pos.id by nia. rewrite !Zdigits2_log2 by nia.
  pose proof (Z.log2_mul_above k (Zpos d) ltac:(lia) ltac:(lia)) as Ha.
  pose proof (Z.log2_mul_below k (Zpos d) ltac:(lia) ltac:(lia)) as Hb.
  set (l := Z.log2 (k * Zpos d) + 1 + 0 - (Z.log2 (Zpos d) + 1 + 0)).
  assert (Z.min (fexp pr em l) (0 - 0) = l - pr) as -> by (unfold fexp, emin; lia).
  set (s := 0 - 0 - (l - pr)).
  assert (match s with Zpos _ => Z.shiftl (k * Zpos d) s | Z0 => k * Zpos d | Zneg _ => Z0 end
          = k * 2 ^ s * Zpos d) as ->.
  { destruct s as [|p|p] eqn:E; [lia| |lia]. rewrite Z.shiftl_mul_pow2 by lia. ring. }
  assert (Z.div_eucl (k * 2 ^ s * Zpos d) (Zpos d) = (k * 2 ^ s, 0)) as ->.
  { rewrite (surjective_pairing (Z.div_eucl _ _)).
    change (((k * 2 ^ s * Zpos d) / Zpos d, (k * 2 ^ s * Zpos d) mod Zpos d) = (k * 2 ^ s, 0)).
    by rewrite Z.div_mul, Z.mod_mul by lia. }
  assert (new_location (Zpos d) 0 = loc_Exact) as ->.
  { unfold new_location. destruct (Z.even (Zpos d)); done. }
  cbn [xorb]. replace (l - pr) with (- s) by lia. apply round_exact_in; [done|lia].
Qed.

(** Back to an integer. *)
Lemma trunc_exact k : 0 < k < 2 ^ pr -> float_trunc (exact_in k) = Some k.
Proof.
  intros Hk. destruct (exact_mantissa k Hk) as (Hm & _ & Hr). unfold exact_in, float_trunc.
  rewrite Hm. destruct (Z.leb_spec 0 (Z.log2 k - (pr - 1))).
  - replace (Z.log2 k) with (pr - 1) by lia. rewrite !Z.sub_diag, Z.pow_0_r. f_equal. lia.
  - replace (- (Z.log2 k - (pr - 1))) with (pr - 1 - Z.log2 k) by lia.
    by rewrite Z.div_mul by lia.
Qed.

(** Adding whole numbers is exact. *)
Lemma add_exact_in a b : 0 < a -> 0 < b -> a + b < 2 ^ pr ->
  SFadd pr em (exact_in a) (exact_in b) = exact_in (a + b).
Proof.
  intros Ha Hb Hab. unfold exact_in at 1 2. cbn [SFadd].
  destruct (exact_mantissa a) as (Hma & _ & Hla); [lia|].
  destruct (exact_mantissa b) as (Hmb & _ & Hlb); [lia|].
  set (ez := Z.min (Z.log2 a - (pr - 1)) (Z.log2 b - (pr - 1))).
  destruct (shl_align_spec (Z.to_pos (a * 2 ^ (pr - 1 - Z.log2 a))) (Z.log2 a - (pr - 1)) ez)
    as [-> _]; [lia|].
  destruct (shl_align_spec (Z.to_pos (b * 2 ^ (pr - 1 - Z.log2 b))) (Z.log2 b - (pr - 1)) ez)
    as [-> _]; [lia|].
  cbn [cond_Zopp]. rewrite Hma, Hmb, <- !Z.mul_assoc, <- !Z.pow_add_r by lia.
  replace (pr - 1 - Z.log2 a + (Z.log2 a - (pr - 1) - ez)) with (- ez) by lia.
  replace (pr - 1 - Z.log2 b + (Z.log2 b - (pr - 1) - ez)) with (- ez) by lia.
  rewrite <- Z.mul_add_distr_r. replace ez with (- - ez) at 2 by lia.
  apply normalize_exact; lia.
Qed.

(** Products, differences and quotients by a power of two are exact when the
    result fits. *)
Lemma mul_exact_at a b e f : 0 < a < 2 ^ pr -> 0 < b < 2 ^ pr -> a * b < 2 ^ pr -> exp_ok (a * b) (e + f) ->
  SFmul pr em (exact_at false a e) (exact_at false b f) = exact_at false (a * b) (e + f).
Proof.
  intros Ha Hb Hab He. destruct (exact_mantissa a Ha) as (Hma & _ & Hla).
  destruct (exact_mantissa b Hb) as (Hmb & _ & Hlb).
  pose proof (Z.log2_mul_below a b ltac:(lia) ltac:(lia)) as Hl.
  unfold exact_at at 1 2. cbn [SFmul xorb]. rewrite Pos2Z.inj_mul, Hma, Hmb.
  set (n := (pr - 1 - Z.log2 a) + (pr - 1 - Z.log2 b)).
  replace (a * 2 ^ (pr - 1 - Z.log2 a) * (b * 2 ^ (pr - 1 - Z.log2 b))) with (a * b * 2 ^ n)
    by (unfold n; rewrite Z.pow_add_r by lia; ring).
  replace (e + Z.log2 a - (pr - 1) + (f + Z.log2 b - (pr - 1))) with (e + f - n) by (unfold n; lia).
  apply round_exact_at; [nia|unfold n; lia|done].
Qed.

Lemma sub_exact_at a b e : 0 < a < 2 ^ pr -> 0 < b < 2 ^ pr ->
  (a <> b -> exp_ok (Z.abs (a - b)) e) ->
  SFsub pr em (exact_at false a e) (exact_at false b e) = binary_normalize pr em (a - b) e false.
Proof.
  intros Ha Hb He. destruct (exact_mantissa a Ha) as (Hma & _ & Hla).
  destruct (exact_mantissa b Hb) as (Hmb & _ & Hlb).
  unfold exact_at. cbn [SFsub cond_Zopp]. set (ea := e + Z.log2 a - (pr - 1)).
  set (eb := e + Z.log2 b - (pr - 1)). set (ez := Z.min ea eb).
  destruct (shl_align_spec (Z.to_pos (a * 2 ^ (pr - 1 - Z.log2 a))) ea ez) as [-> _]; [lia|].
  destruct (shl_align_spec (Z.to_pos (b * 2 ^ (pr - 1 - Z.log2 b))) eb ez) as [-> _]; [lia|].
  rewrite Hma, Hmb, <- !Z.mul_assoc, <- !Z.pow_add_r by lia.
  replace (pr - 1 - Z.log2 a + (ea - ez)) with (e - ez) by lia.
  replace (pr - 1 - Z.log2 b + (eb - ez)) with (e - ez) by lia. rewrite <- Z.mul_sub_distr_r.
  destruct (decide (a = b)) as [->|Hab]; [by rewrite Z.sub_diag|].
  replace ez with (e - (e - ez)) at 2 by lia. set (j := e - ez).
  assert (a - b = cond_Zopp (Z.ltb a b) (Z.abs (a - b))) as Hs
    by (destruct (Z.ltb_spec a b); cbn [cond_Zopp]; lia).
  replace ((a - b) * 2 ^ j) with (cond_Zopp (Z.ltb a b) (Z.abs (a - b) * 2 ^ j))
    by (rewrite Hs at 2; destruct (Z.ltb a b); cbn [cond_Zopp]; ring).
  rewrite normalize_exact_at; [|lia|unfold j; lia|auto].
  rewrite <- (normalize_exact_at _ _ e 0) by (lia || auto).
  rewrite Z.pow_0_r, Z.mul_1_r, Z.sub_0_r. by rewrite <- Hs.
Qed.

Lemma shift_match m s : 0 < s ->
  match s with Zpos _ => Z.shiftl m s | Z0 => m | Zneg _ => Z0 end = m * 2 ^ s.
Proof. intros Hs. destruct s as [|p|p] eqn:E; [lia| |lia]. by rewrite Z.shiftl_mul_pow2 by lia. Qed.

Lemma div_pow2 a e k : 0 < a < 2 ^ pr -> 0 <= k < pr -> exp_ok a (e - k) ->
  emin pr em + pr <= e + Z.log2 a - k ->
  SFdiv pr em (exact_at false a e) (exact_at false (2 ^ k) 0) = exact_at false a (e - k).
Proof.
  intros Ha Hk He Hmin. destruct (exact_mantissa a Ha) as (Hma & Hl & Hla).
  unfold exact_at at 1 2. rewrite Z.log2_pow2 by lia. cbn [SFdiv xorb]. rewrite <- Z.pow_add_r by lia.
  replace (k + (pr - 1 - k)) with (pr - 1) by lia. unfold SFdiv_core_binary.
  rewrite Hma, (Z2Pos.id (2 ^ (pr - 1))) by (apply Z.pow_pos_nonneg; lia).
  rewrite !Zdigits2_log2 by nia. rewrite Hl, Z.log2_pow2 by lia.
  set (e1 := e + Z.log2 a - (pr - 1)). set (e2 := 0 + k - (pr - 1)).
  replace (pr - 1 + 1 + e1 - (pr - 1 + 1 + e2)) with (e1 - e2) by lia.
  assert (Z.min (fexp pr em (e1 - e2)) (e1 - e2) = e1 - e2 - pr) as -> by (unfold fexp; lia).
  replace (e1 - e2 - (e1 - e2 - pr)) with pr by lia.
  set (m := a * 2 ^ (pr - 1 - Z.log2 a)).
  rewrite (shift_match m pr) by lia.
  assert (Z.div_eucl (m * 2 ^ pr) (2 ^ (pr - 1)) = (m * 2, 0)) as ->.
  { rewrite (surjective_pairing (Z.div_eucl _ _)).
    change (((m * 2 ^ pr) / 2 ^ (pr - 1), (m * 2 ^ pr) mod 2 ^ (pr - 1)) = (m * 2, 0)).
    replace (m * 2 ^ pr) with (m * 2 * 2 ^ (pr - 1))
      by (replace pr with (1 + (pr - 1)) at 2 by lia; rewrite Z.pow_add_r by lia; ring).
    by rewrite Z.div_mul, Z.mod_mul by (apply Z.pow_nonzero; lia). }
  assert (new_location (2 ^ (pr - 1)) 0 = loc_Exact) as ->
    by (unfold new_location; by destruct (Z.even _)).
  replace (m * 2) with (a * 2 ^ (pr - Z.log2 a))
    by (unfold m; replace (pr - Z.log2 a) with (1 + (pr - 1 - Z.log2 a)) by lia; rewrite Z.pow_add_r by lia; ring).
  replace (e1 - e2 - pr) with (e - k - (pr - Z.log2 a)) by lia.
  apply round_exact_at; [done|lia|done].
Qed.
End format.

(** Converting a whole number keeps it. *)
Lemma convert_exact p1 e1 p2 e2 k : 1 < p1 < e1 -> 1 < p2 < e2 -> 0 < k < 2 ^ Z.min p1 p2 ->
  float_convert p2 e2 (exact_in p1 k) = exact_in p2 k.
Proof.
  intros H1 H2 Hk.
  assert (2 ^ Z.min p1 p2 <= 2 ^ p1) by (apply Z.pow_le_mono_r; lia).
  assert (2 ^ Z.min p1 p2 <= 2 ^ p2) by (apply Z.pow_le_mono_r; lia).
  destruct (exact_mantissa p1 e1 H1 k) as (Hm & _ & Hr); [lia|].
  rewrite <- (normalize_exact p2 e2 H2 k (p1 - 1 - Z.log2 k)) by lia.
  unfold exact_in, float_convert. rewrite <- Hm. cbn [binary_normalize].
  f_equal. lia.
Qed.

Definition exact : Z -> float32 := exact_in prec.

Lemma f32_of_Z_exact k : 0 < k < 2 ^ 24 -> f32_of_Z k = exact k.
Proof. intros Hk. apply normalize_whole; [unfold prec, emax; lia|done]. Qed.

(** Adding whole numbers is exact as long as the sum is below 2^24. *)
Lemma f32_add_exact a b : 0 <= a -> 0 <= b -> a + b < 2 ^ 24 ->
  f32_add (f32_of_Z a) (f32_of_Z b) = f32_of_Z (a + b).
Proof.
  intros Ha Hb Hab.
  destruct (decide (a = 0)) as [->|Ha0].
  { rewrite Z.add_0_l. destruct (decide (b = 0)) as [->|]; [done|].
    rewrite (f32_of_Z_exact b) by lia. done. }
  destruct (decide (b = 0)) as [->|Hb0].
  { rewrite Z.add_0_r, (f32_of_Z_exact a) by lia. done. }
  rewrite !f32_of_Z_exact by lia. apply add_exact_in; [unfold prec, emax; lia|lia|lia|done].
Qed.

Lemma f64_of_Z_exact k : 0 < k < 2 ^ 53 -> f64_of_Z k = exact_in prec64 k.
Proof. intros Hk. apply normalize_whole; [unfold prec64, emax64; lia|done]. Qed.

(** The double [n * 2 ^ e], rounded when it does not fit. *)
Definition f64_dyadic (n e : Z) : float64 := binary_normalize prec64 emax64 n e false.

(** Conversions of whole numbers. *)
Lemma f32_of_f64_whole k : 0 <= k < 2 ^ 24 -> f32_of_f64 (f64_of_Z k) = f32_of_Z k.
Proof.
  intros Hk. destruct (decide (k = 0)) as [->|]; [done|].
  rewrite f64_of_Z_exact, f32_of_Z_exact by lia.
  apply (convert_exact prec64 emax64 prec emax); [unfold prec64, emax64; lia|unfold prec, emax; lia|].
  change (Z.min prec64 prec) with 24. lia.
Qed.

Lemma float_to_u32_f32 k : 0 <= k < 2 ^ 24 -> float_to_u32 (f32_of_Z k) = Some k.
Proof.
  intros Hk. destruct (decide (k = 0)) as [->|]; [done|]. rewrite f32_of_Z_exact by lia.
  unfold float_to_u32, exact. rewrite (trunc_exact prec emax) by (unfold prec, emax; lia).
  cbn [mbind option_bind]. by rewrite (proj2 (Z.leb_le _ _)), (proj2 (Z.ltb_lt _ _)) by lia.
Qed.

Lemma float_to_u32_f64 k : 0 <= k < 2 ^ 32 -> float_to_u32 (f64_of_Z k) = Some k.
Proof.
  intros Hk. destruct (decide (k = 0)) as [->|]; [done|]. rewrite f64_of_Z_exact by lia.
  unfold float_to_u32. rewrite (trunc_exact prec64 emax64) by (unfold prec64, emax64; lia).
  cbn [mbind option_bind]. by rewrite (proj2 (Z.leb_le _ _)), (proj2 (Z.ltb_lt _ _)) by lia.
Qed.
