(* ===== verification/Rounding.v ===== *)
(** * Rounding

    The operations of [Float32] against the real numbers: each one is the
    nearest float of its exact result, so within one part in 2^p of it, and
    never on the other side of a whole number.  [fl p x v]: the float [x], of
    [p] bits and neither negative nor near the ends of the range, is [v]. *)

From Stdlib Require Import SpecFloat Reals Lra.
From S2P Require Import Prelude Float32.

Local Open Scope Z_scope.

Definition pow2 (e : Z) : R := powerRZ 2 e.

Lemma pow2_pos e : (0 < pow2 e)%R.
Proof. apply powerRZ_lt. lra. Qed.

Lemma pow2_add a b : pow2 (a + b) = (pow2 a * pow2 b)%R.
Proof. apply powerRZ_add. lra. Qed.

Lemma pow2_Z n : 0 <= n -> pow2 n = IZR (2 ^ n).
Proof.
  intros Hn. unfold pow2. rewrite <- (Z2Nat.id n) at 1 by done. rewrite <- pow_powerRZ, pow_IZR.
  by rewrite Z2Nat.id.
Qed.

Lemma pow2_inv n : (pow2 (- n) * pow2 n = 1)%R.
Proof. rewrite <- pow2_add. by replace (- n + n) with 0 by lia. Qed.

Lemma pow2_half : pow2 (-1) = (/ 2)%R.
Proof. pose proof (pow2_inv 1) as H. change (- (1)) with (-1) in H. rewrite (pow2_Z 1) in H by lia. change (2 ^ 1) with 2 in H. lra. Qed.

Lemma pow2_le a b : a <= b -> (pow2 a <= pow2 b)%R.
Proof.
  intros H. replace b with (a + (b - a)) by lia. rewrite pow2_add, (pow2_Z (b - a)) by lia.
  pose proof (pow2_pos a). assert (1 <= IZR (2 ^ (b - a)))%R; [|nra].
  apply IZR_le. pose proof (Z.pow_pos_nonneg 2 (b - a)). lia.
Qed.

Lemma pow2_lt_inv a b : (pow2 a < pow2 b)%R -> a < b.
Proof. intros H. destruct (Z.lt_ge_cases a b) as [|Hc]; [done|]. apply pow2_le in Hc. lra. Qed.

Lemma IZR_log2 m : 0 < m -> (pow2 (Z.log2 m) <= IZR m < pow2 (Z.log2 m + 1))%R.
Proof.
  intros Hm. pose proof (Z.log2_spec m Hm) as [H1 H2]. pose proof (Z.log2_nonneg m).
  rewrite !pow2_Z by lia. split; [by apply IZR_le|by apply IZR_lt].
Qed.

Lemma shr_m_of_loc m l : shr_m (shr_record_of_loc m l) = m.
Proof. by destruct l as [|[]]. Qed.

(** ** Shifting *)

(** Where the exact number is, between [shr_m r] and the next one: on it, below
    the middle, in the middle or above it. *)
Definition lies (r : shr_record) (x : R) : Prop :=
  let m := IZR (shr_m r) in
  match shr_r r, shr_s r with
  | false, false => x = m
  | false, true => (m < x < m + / 2)%R
  | true, false => x = (m + / 2)%R
  | true, true => (m + / 2 < x < m + 1)%R
  end.

Lemma lies_floor r x : lies r x -> (IZR (shr_m r) <= x < IZR (shr_m r) + 1)%R.
Proof. unfold lies. destruct (shr_r r), (shr_s r); lra. Qed.

Lemma lies_shr_1 r x : 0 <= shr_m r -> lies r x ->
  lies (shr_1 r) (x * / 2)%R /\ shr_m (shr_1 r) = shr_m r / 2.
Proof.
  destruct r as [m b s]. cbn [shr_m]. intros Hm Hl.
  assert (exists c, m = 2 * (m / 2) + Z.b2z c /\
    shr_1 (Build_shr_record m b s) = Build_shr_record (m / 2) c (b || s)) as (c & E & ->).
  { rewrite <- Z.div2_div. destruct m as [|[p|p|]|]; try lia.
    - by exists false.
    - by exists true.
    - by exists false.
    - by exists true. }
  cbn [shr_m]. split; [|done]. unfold lies in *. cbn [shr_m shr_r shr_s] in *.
  apply (f_equal IZR) in E. rewrite plus_IZR, mult_IZR in E.
  cbn beta iota zeta in Hl |- *. destruct b, s, c; cbn [orb Z.b2z] in *; lra.
Qed.

Lemma lies_iter p r x : 0 <= shr_m r -> lies r x ->
  lies (SpecFloat.iter_pos shr_1 p r) (x * pow2 (- Zpos p)) /\
  shr_m (SpecFloat.iter_pos shr_1 p r) = shr_m r / 2 ^ Zpos p.
Proof.
  revert r x. induction p as [p IH|p IH|]; intros r x Hm Hl; cbn [SpecFloat.iter_pos].
  - destruct (lies_shr_1 r x Hm Hl) as [L1 E1].
    destruct (IH (shr_1 r) _ ltac:(rewrite E1; apply Z.div_pos; lia) L1) as [L2 E2].
    destruct (IH (SpecFloat.iter_pos shr_1 p (shr_1 r)) _
      ltac:(rewrite E2, E1; repeat apply Z.div_pos; lia) L2) as [L3 E3].
    rewrite E3, E2, E1, !Z.div_div by lia.
    replace (- Zpos p~1) with (-1 + (- Zpos p + - Zpos p)) by lia.
    replace (Zpos p~1) with (1 + (Zpos p + Zpos p)) by lia.
    rewrite !pow2_add, !Z.pow_add_r by lia. rewrite Z.pow_1_r. split; [|f_equal; ring].
    rewrite pow2_half. by rewrite <- !Rmult_assoc.
  - destruct (IH r _ Hm Hl) as [L2 E2].
    destruct (IH (SpecFloat.iter_pos shr_1 p r) _ ltac:(rewrite E2; apply Z.div_pos; lia) L2) as [L3 E3].
    rewrite E3, E2, !Z.div_div by lia.
    replace (- Zpos p~0) with (- Zpos p + - Zpos p) by lia.
    replace (Zpos p~0) with (Zpos p + Zpos p) by lia.
    rewrite !pow2_add, !Z.pow_add_r by lia. split; [|done]. by rewrite <- !Rmult_assoc.
  - destruct (lies_shr_1 r x Hm Hl) as [L1 E1]. rewrite E1, Z.pow_1_r. split; [|done].
    change (- (1)) with (-1). by rewrite pow2_half.
Qed.

Lemma lies_shr r x e n : 0 <= n -> 0 <= shr_m r -> lies r x ->
  exists r', shr r e n = (r', e + n) /\ lies r' (x * pow2 (- n)) /\ shr_m r' = shr_m r / 2 ^ n.
Proof.
  intros Hn Hm Hl. destruct n as [|p|p]; [| |lia]; cbn [shr].
  - exists r. rewrite Z.add_0_r, Z.pow_0_r, Z.div_1_r. split; [done|]. split; [|done].
    change (pow2 (- 0)) with 1%R. by rewrite Rmult_1_r.
  - eexists. split; [done|]. by apply lies_iter.
Qed.

(** The nearest whole number. *)
Lemma nearest_spec r x : lies r x ->
  let m := round_nearest_even (shr_m r) (loc_of_shr_record r) in
  (Rabs (IZR m - x) <= / 2)%R /\ shr_m r <= m <= shr_m r + 1.
Proof.
  destruct r as [m [] []]; unfold lies; cbn [shr_m shr_r shr_s loc_of_shr_record round_nearest_even];
    intros Hx; (split; [apply Rabs_le|lia || destruct (Z.even m); lia]);
    try destruct (Z.even m); rewrite ?plus_IZR; lra.
Qed.

(** ** Rounding *)

(** [w] is the nearest float of the number [y]. *)
Definition near (p : Z) (w y : R) : Prop :=
  (Rabs (w - y) <= pow2 (- p) * y)%R /\
  (forall k : Z, (IZR k <= y)%R -> (y < pow2 p)%R -> (IZR k <= w)%R).

Lemma near_same p y : (0 <= y)%R -> near p y y.
Proof.
  intros Hy. split; [|done]. rewrite Rminus_diag, Rabs_R0. pose proof (pow2_pos (- p)). nra.
Qed.

Section format.
Variables pr em : Z.
Hypothesis Hpr : 1 < pr < em.

Definition mantissa (q : Z) : Prop := 2 ^ (pr - 1) <= q < 2 ^ pr.

Lemma mantissa_log2 q : mantissa q -> Z.log2 q = pr - 1.
Proof. intros [H1 H2]. apply Z.log2_unique; [lia|]. by replace (Z.succ (pr - 1)) with pr by lia. Qed.

(** The second pass of [binary_round_aux]: the mantissa may have become
    [2 ^ pr]. *)
Lemma renormalize s q f : 2 ^ (pr - 1) <= q <= 2 ^ pr -> emin pr em <= f -> f + 1 <= em - pr ->
  exists q' f',
    (let '(r, e) := shr_fexp pr em q f loc_Exact in
     match shr_m r with
     | Z0 => S754_zero s
     | Zpos m => if Z.leb e (em - pr) then S754_finite s m e else S754_infinity s
     | _ => S754_nan
     end) = S754_finite s q' f' /\
    mantissa (Zpos q') /\ f <= f' <= f + 1 /\ (IZR (Zpos q') * pow2 f' = IZR q * pow2 f)%R.
Proof.
  intros Hq Hf1 Hf2. assert (0 < 2 ^ (pr - 1)) by (apply Z.pow_pos_nonneg; lia).
  assert (2 ^ pr = 2 * 2 ^ (pr - 1)) as Hp
    by (replace pr with (1 + (pr - 1)) at 1 by lia; rewrite Z.pow_add_r by lia; lia).
  unfold shr_fexp. cbn [shr_record_of_loc]. rewrite Zdigits2_log2 by lia.
  destruct (decide (q = 2 ^ pr)) as [->|Hne].
  - rewrite Z.log2_pow2 by lia.
    assert (fexp pr em (pr + 1 + f) - f = 1) as -> by (unfold fexp; lia).
    rewrite Hp. replace (2 * 2 ^ (pr - 1)) with (2 ^ (pr - 1) * 2 ^ 1) by lia.
    rewrite shr_exact by lia. cbn [shr_m].
    destruct (2 ^ (pr - 1)) as [|q'|] eqn:E; [lia| |lia]. exists q', (f + 1).
    rewrite (proj2 (Z.leb_le _ _)) by lia. split; [done|]. split; [unfold mantissa; lia|].
    split; [lia|]. rewrite pow2_add, mult_IZR. change (pow2 1) with (2 * 1)%R. change (2 ^ 1) with 2. lra.
  - assert (mantissa q) as Hm by (unfold mantissa; lia).
    rewrite (mantissa_log2 q Hm).
    assert (fexp pr em (pr - 1 + 1 + f) - f = 0) as -> by (unfold fexp; lia).
    cbn [shr shr_m]. destruct q as [|q'|]; [lia| |lia]. exists q', f.
    rewrite (proj2 (Z.leb_le _ _)) by lia. split; [done|]. split; [done|]. split; [lia|done].
Qed.

(** A mantissa with enough digits, and where the exact number is, rounded. *)
Lemma round_aux_near s m e l x :
  0 < m -> pr - 1 <= Z.log2 m -> lies (shr_record_of_loc m l) x ->
  emin pr em + pr <= Z.log2 m + 1 + e -> Z.log2 m + 2 + e <= em ->
  exists q f, binary_round_aux pr em s m e l = S754_finite s q f /\ mantissa (Zpos q) /\
    Z.log2 m + 1 + e - pr <= f <= Z.log2 m + 2 + e - pr /\
    near pr (IZR (Zpos q) * pow2 f) (x * pow2 e).
Proof.
  intros Hm Hlog Hx He1 He2. set (n := Z.log2 m + 1 - pr). set (f0 := e + n).
  pose proof (shr_m_of_loc m l) as Hsm.
  destruct (lies_shr (shr_record_of_loc m l) x e n) as (r & Er & Lr & Mr); [lia|lia|done|].
  rewrite Hsm in Mr. destruct (nearest_spec r _ Lr) as [Hn1 Hn2].
  set (q0 := round_nearest_even (shr_m r) (loc_of_shr_record r)) in *.
  assert (2 ^ (pr - 1) <= shr_m r < 2 ^ pr) as Hr.
  { rewrite Mr. pose proof (Z.log2_spec m Hm) as [H1 H2]. replace (Z.succ (Z.log2 m)) with (pr + n) in H2 by lia.
    replace (Z.log2 m) with (pr - 1 + n) in H1 by lia. rewrite Z.pow_add_r in H1, H2 by lia.
    assert (0 < 2 ^ n) by (apply Z.pow_pos_nonneg; lia).
    split; [apply Z.div_le_lower_bound; lia|apply Z.div_lt_upper_bound; lia]. }
  destruct (renormalize s q0 f0) as (q & f & Eq & Hq & Hf & Hv); [lia|lia|lia|].
  exists q, f. split.
  { unfold binary_round_aux. unfold shr_fexp at 1. rewrite Zdigits2_log2 by done.
    assert (fexp pr em (Z.log2 m + 1 + e) - e = n) as -> by (unfold fexp; lia).
    rewrite Er. exact Eq. }
  split; [done|]. split; [lia|]. rewrite Hv.
  set (y := (x * pow2 (- n))%R) in *.
  assert (x * pow2 e = y * pow2 f0)%R as ->.
  { unfold y, f0. replace e with (e + n + - n) at 1 by lia. rewrite (pow2_add (e + n)). ring. }
  pose proof (lies_floor _ _ Lr) as [Y1 Y2]. pose proof (pow2_pos f0) as Hf0. split.
  - rewrite <- Rmult_minus_distr_r, Rabs_mult, (Rabs_pos_eq (pow2 f0)) by lra.
    assert (/ 2 <= pow2 (- pr) * y)%R as H.
    { apply proj1, IZR_le in Hr. rewrite <- pow2_Z in Hr by lia.
      pose proof (pow2_pos (- pr)). assert (pow2 (- pr) * pow2 (pr - 1) = / 2)%R; [|nra].
      rewrite <- pow2_add. replace (- pr + (pr - 1)) with (-1) by lia.
      change (- (1)) with (-1). by rewrite pow2_half. }
    nra.
  - intros k Hk Hlt.
    assert (f0 <= 0) as Hf00.
    { cut (f0 + (pr - 1) < pr); [lia|]. apply pow2_lt_inv. rewrite pow2_add.
      apply proj1, IZR_le in Hr. rewrite <- pow2_Z in Hr by lia. nra. }
    assert (k * 2 ^ (- f0) <= shr_m r) as Hkq.
    { apply Z.lt_succ_r, lt_IZR. unfold Z.succ. rewrite plus_IZR, mult_IZR, <- pow2_Z by lia.
      apply Rle_lt_trans with (y * pow2 f0 * pow2 (- f0))%R.
      - apply Rmult_le_compat_r; [apply Rlt_le, pow2_pos|done].
      - rewrite Rmult_assoc, (Rmult_comm (pow2 f0)), pow2_inv. lra. }
    assert (k * 2 ^ (- f0) <= q0) as H%IZR_le by lia. rewrite mult_IZR, <- pow2_Z in H by lia.
    apply Rle_trans with (IZR k * pow2 (- f0) * pow2 f0)%R.
    + rewrite Rmult_assoc, pow2_inv. lra.
    + apply Rmult_le_compat_r; [lra|done].
Qed.

(** The same for a whole number times a power of two. *)
Lemma normalize_near m e : 0 < m -> emin pr em + pr <= Z.log2 m + 1 + e -> Z.log2 m + 2 + e <= em ->
  exists q f, binary_normalize pr em m e false = S754_finite false q f /\ mantissa (Zpos q) /\
    Z.log2 m + 1 + e - pr <= f <= Z.log2 m + 2 + e - pr /\
    near pr (IZR (Zpos q) * pow2 f) (IZR m * pow2 e).
Proof.
  intros Hm He1 He2. destruct m as [|p|]; [lia| |lia]. cbn [binary_normalize]. unfold binary_round.
  rewrite digits2_log2.
  assert (fexp pr em (Z.log2 (Zpos p) + 1 + e) = Z.log2 (Zpos p) + 1 + e - pr) as ->
    by (unfold fexp; lia).
  set (f0 := Z.log2 (Zpos p) + 1 + e - pr). destruct (Z.le_gt_cases f0 e) as [Hle|Hgt].
  - destruct (shl_align_spec p e f0 Hle) as [E1 E2]. destruct (shl_align p e f0) as [mz ez].
    cbn [fst snd] in *. subst ez.
    assert (Z.log2 (Zpos mz) = Z.log2 (Zpos p) + (e - f0)) as El by (rewrite E1; apply log2_scale; lia).
    destruct (round_aux_near false (Zpos mz) f0 loc_Exact (IZR (Zpos mz))) as (q & f & -> & Hq & Hf & Hn);
      [lia|lia|done|lia|lia|].
    exists q, f. split; [done|]. split; [done|]. split; [lia|].
    rewrite E1, mult_IZR, <- pow2_Z, Rmult_assoc, <- pow2_add in Hn by lia.
    by replace (e - f0 + f0) with e in Hn by lia.
  - assert (shl_align p e f0 = (p, e)) as ->.
    { unfold shl_align. destruct (f0 - e) eqn:E; [done|done|lia]. }
    apply round_aux_near; [done|lia|done|lia|lia].
Qed.

(** ** The operations *)

Hypothesis Hem : emin pr em + pr <= -125 /\ 128 <= em /\ pr <= 53.

(** The float [x] is the number [v], not negative and of ordinary size. *)
Definition fl (x : spec_float) (v : R) : Prop :=
  match x with
  | S754_zero false => v = 0%R
  | S754_finite false m e => mantissa (Zpos m) /\ -100 <= e <= 40 /\ v = (IZR (Zpos m) * pow2 e)%R
  | _ => False
  end.

Definition ordinary (y : R) : Prop := (pow2 (-40) <= y <= pow2 30)%R.

Lemma fl_nonneg x v : fl x v -> (0 <= v)%R.
Proof.
  destruct x as [[]| | |[] m e]; cbn [fl]; intros H; try done; [lra|].
  destruct H as (_ & _ & ->). pose proof (pow2_pos e). assert (0 < IZR (Zpos m))%R by by apply IZR_lt. nra.
Qed.

Lemma fl_det x v w : fl x v -> fl x w -> v = w.
Proof. destruct x as [[]| | |[] m e]; cbn [fl]; intros H1 H2; try done; [congruence|]. by destruct H1 as (_ & _ & ->), H2 as (_ & _ & ->). Qed.

Lemma pow2_le_inv a b : (pow2 a <= pow2 b)%R -> a <= b.
Proof.
  intros H. destruct (Z.le_gt_cases a b) as [|Hc]; [done|].
  assert (b + 1 <= a) as Hc'%pow2_le by lia. rewrite pow2_add in Hc'. pose proof (pow2_pos b).
  change (pow2 1) with (2 * 1)%R in Hc'. lra.
Qed.

(** An ordinary number has ordinary exponents. *)
Lemma ordinary_log2 m e : 0 < m -> ordinary (IZR m * pow2 e) -> -41 <= Z.log2 m + e <= 30.
Proof.
  intros Hm [H1 H2]. pose proof (IZR_log2 m Hm) as [L1 L2]. pose proof (pow2_pos e). split.
  - cut (-40 < Z.log2 m + 1 + e); [lia|]. apply pow2_lt_inv. rewrite pow2_add. nra.
  - apply pow2_le_inv. rewrite pow2_add. nra.
Qed.

Lemma fl_rounded x q f y : x = S754_finite false q f -> mantissa (Zpos q) -> -100 <= f <= 40 ->
  near pr (IZR (Zpos q) * pow2 f) y -> exists w, fl x w /\ near pr w y.
Proof. intros -> Hq Hf Hn. by eexists. Qed.

Lemma fl_zero : exists w, fl (S754_zero false) w /\ near pr w 0.
Proof. exists 0%R. split; [done|]. apply near_same. lra. Qed.

(** A whole number of powers of two. *)
Lemma fl_normalize m e : 0 <= m -> (m <> 0 -> ordinary (IZR m * pow2 e)) ->
  exists w, fl (binary_normalize pr em m e false) w /\ near pr w (IZR m * pow2 e).
Proof.
  intros Hm Ho. destruct (decide (m = 0)) as [->|Hne]; [rewrite Rmult_0_l; exact fl_zero|].
  pose proof (ordinary_log2 m e ltac:(lia) (Ho Hne)).
  destruct (normalize_near m e) as (q & f & E & Hq & Hf & Hn); [lia|lia|lia|].
  eapply fl_rounded; try done. lia.
Qed.

Lemma fl_mantissa_pos m : mantissa (Zpos m) -> Z.log2 (Zpos m) = pr - 1.
Proof. apply mantissa_log2. Qed.

Lemma fl_mul a b u v : fl a u -> fl b v -> (u <> 0 -> v <> 0 -> ordinary (u * v))%R ->
  exists w, fl (SFmul pr em a b) w /\ near pr w (u * v).
Proof.
  intros Ha Hb Ho.
  destruct a as [[]| | |[] ma ea]; try done; destruct b as [[]| | |[] mb eb]; try done; cbn [fl] in Ha, Hb.
  - subst. rewrite Rmult_0_l. exact fl_zero.
  - subst. rewrite Rmult_0_l. exact fl_zero.
  - subst. rewrite Rmult_0_r. exact fl_zero.
  - destruct Ha as (Ma & _ & Hu), Hb as (Mb & _ & Hv).
    assert (0 < u /\ 0 < v)%R as [Pu Pv].
    { pose proof (pow2_pos ea). pose proof (pow2_pos eb).
      assert (0 < IZR (Zpos ma))%R by by apply IZR_lt. assert (0 < IZR (Zpos mb))%R by by apply IZR_lt.
      subst. split; nra. }
    assert (u * v = IZR (Zpos (ma * mb)) * pow2 (ea + eb))%R as E.
    { rewrite Hu, Hv, Pos2Z.inj_mul, mult_IZR, pow2_add. ring. }
    specialize (Ho ltac:(lra) ltac:(lra)). rewrite E in Ho |- *.
    pose proof (ordinary_log2 (Zpos (ma * mb)) (ea + eb) ltac:(lia) Ho) as Hl.
    pose proof (Z.log2_mul_below (Zpos ma) (Zpos mb) ltac:(lia) ltac:(lia)) as Hlow.
    rewrite !mantissa_log2 in Hlow by done. rewrite <- Pos2Z.inj_mul in Hlow.
    cbn [SFmul xorb].
    destruct (round_aux_near false (Zpos (ma * mb)) (ea + eb) loc_Exact (IZR (Zpos (ma * mb))))
      as (q & f & E1 & Hq & Hf & Hn); [lia|lia|done|lia|lia|].
    eapply fl_rounded; try done. lia.
Qed.

(** Two floats with the same exponent. *)
Lemma fl_aligned m e ez : ez <= e ->
  (IZR (Zpos (fst (shl_align m e ez))) * pow2 ez = IZR (Zpos m) * pow2 e)%R.
Proof.
  intros H. destruct (shl_align_spec m e ez H) as [-> _]. rewrite mult_IZR, <- pow2_Z by lia.
  rewrite Rmult_assoc, <- pow2_add. by replace (e - ez + ez) with e by lia.
Qed.

Lemma fl_add a b u v : fl a u -> fl b v -> (u + v <> 0 -> ordinary (u + v))%R ->
  exists w, fl (SFadd pr em a b) w /\ near pr w (u + v).
Proof.
  intros Ha Hb Ho. pose proof (fl_nonneg _ _ Ha) as Nu. pose proof (fl_nonneg _ _ Hb) as Nv.
  destruct a as [[]| | |[] ma ea]; try done; destruct b as [[]| | |[] mb eb]; try done; cbn [SFadd].
  - cbn [fl] in Ha, Hb. subst. rewrite Rplus_0_l. exact fl_zero.
  - cbn [fl] in Ha. subst. rewrite Rplus_0_l. exists v. split; [done|by apply near_same].
  - cbn [fl] in Hb. subst. rewrite Rplus_0_r. exists u. split; [done|by apply near_same].
  - destruct Ha as (_ & _ & Hu), Hb as (_ & _ & Hv). cbn [cond_Zopp].
    set (ez := Z.min ea eb). pose proof (fl_aligned ma ea ez ltac:(lia)) as Ea.
    pose proof (fl_aligned mb eb ez ltac:(lia)) as Eb.
    set (m := fst (shl_align ma ea ez)) in *. set (n := fst (shl_align mb eb ez)) in *.
    assert (u + v = IZR (Zpos m + Zpos n) * pow2 ez)%R as E by (rewrite plus_IZR, Hu, Hv; lra).
    rewrite E in Ho |- *. apply fl_normalize; [lia|]. intros _. apply Ho. apply Rgt_not_eq.
    apply Rmult_lt_0_compat; [by apply IZR_lt|apply pow2_pos].
Qed.

Lemma fl_sub a b u v : fl a u -> fl b v -> (v <= u)%R -> (u - v <> 0 -> ordinary (u - v))%R ->
  exists w, fl (SFsub pr em a b) w /\ near pr w (u - v).
Proof.
  intros Ha Hb Hle Ho. pose proof (fl_nonneg _ _ Ha) as Nu. pose proof (fl_nonneg _ _ Hb) as Nv.
  destruct a as [[]| | |[] ma ea]; try done; destruct b as [[]| | |[] mb eb]; try done; cbn [SFsub].
  - cbn [fl] in Ha, Hb. subst. rewrite Rminus_0_r. exact fl_zero.
  - cbn [fl] in Ha. subst. destruct Hb as (_ & _ & ->). exfalso. pose proof (pow2_pos eb).
    assert (0 < IZR (Zpos mb))%R by by apply IZR_lt. nra.
  - cbn [fl] in Hb. subst. rewrite Rminus_0_r. exists u. split; [done|by apply near_same].
  - destruct Ha as (_ & _ & Hu), Hb as (_ & _ & Hv). cbn [cond_Zopp].
    set (ez := Z.min ea eb). pose proof (fl_aligned ma ea ez ltac:(lia)) as Ea.
    pose proof (fl_aligned mb eb ez ltac:(lia)) as Eb. pose proof (pow2_pos ez).
    set (m := fst (shl_align ma ea ez)) in *. set (n := fst (shl_align mb eb ez)) in *.
    assert (u - v = IZR (Zpos m - Zpos n) * pow2 ez)%R as E by (rewrite minus_IZR, Hu, Hv; lra).
    rewrite E in Ho |- *. apply fl_normalize.
    + apply le_IZR. rewrite minus_IZR. nra.
    + intros Hne. apply Ho. intros H0%Rmult_integral. destruct H0 as [H0|]; [|lra].
      by apply eq_IZR_R0 in H0.
Qed.

(** The remainder of a division says where the quotient is. *)
Lemma lies_quotient d q r : 0 <= r < d ->
  lies (shr_record_of_loc q (new_location d r)) (IZR q + IZR r / IZR d).
Proof.
  intros Hr. assert (0 < IZR d)%R as Hd by (apply IZR_lt; lia).
  assert (IZR r = IZR r / IZR d * IZR d)%R as Hx by (field; lra).
  set (x := (IZR r / IZR d)%R) in *.
  assert (exists c, new_location d r = (if Z.eqb r 0 then loc_Exact else loc_Inexact c) /\
    (r <> 0 -> c = (2 * r ?= d))) as (c & -> & Hc).
  { unfold new_location, new_location_even, new_location_odd. destruct (Z.even d) eqn:E.
    - exists (2 * r ?= d). by destruct (Z.eqb r 0).
    - eexists. split; [destruct (Z.eqb r 0); reflexivity|]. intros _.
      assert (2 * r <> d). { intros <-. by rewrite Z.even_mul in E. }
      destruct (Z.compare_spec (2 * r + 1) d), (Z.compare_spec (2 * r) d); try done; lia. }
  assert (0 <= IZR r < IZR d)%R as [R0 R1] by (split; [apply IZR_le|apply IZR_lt]; lia).
  destruct (Z.eqb_spec r 0) as [->|Hne]; cbn [shr_record_of_loc].
  - unfold lies. cbn [shr_m shr_r shr_s]. assert (x = 0)%R by nra. lra.
  - assert (0 < IZR r)%R as R2 by (apply IZR_lt; lia). specialize (Hc Hne). subst c.
    destruct (Z.compare_spec (2 * r) d) as [E|E|E]; unfold lies; cbn [shr_m shr_r shr_s].
    + apply (f_equal IZR) in E. rewrite mult_IZR in E. assert (x = / 2)%R by nra. lra.
    + apply IZR_lt in E. rewrite mult_IZR in E. assert (0 < x < / 2)%R by (split; nra). lra.
    + apply IZR_lt in E. rewrite mult_IZR in E. assert (/ 2 < x < 1)%R by (split; nra). lra.
Qed.

Lemma fl_quotient m1 e1 m2 e2 y : (y * (IZR (Zpos m2) * pow2 e2) = IZR (Zpos m1) * pow2 e1)%R ->
  ordinary y ->
  exists w, fl (SFdiv pr em (S754_finite false m1 e1) (S754_finite false m2 e2)) w /\ near pr w y.
Proof.
  intros Hy Ho. cbn [SFdiv xorb]. unfold SFdiv_core_binary. rewrite !Zdigits2_log2 by lia.
  pose proof (IZR_log2 (Zpos m1) ltac:(lia)) as [A1 A2].
  pose proof (IZR_log2 (Zpos m2) ltac:(lia)) as [B1 B2].
  set (l1 := Z.log2 (Zpos m1)) in *. set (l2 := Z.log2 (Zpos m2)) in *.
  pose proof (pow2_pos e1) as P1. pose proof (pow2_pos e2) as P2. destruct Ho as [O1 O2].
  pose proof (pow2_pos l2). pose proof (pow2_pos (-40)).
  set (L := l1 + 1 + e1 - (l2 + 1 + e2)).
  assert (-41 <= L <= 31) as HL.
  { split.
    - cut (-40 + (l2 + e2) < l1 + 1 + e1); [lia|]. apply pow2_lt_inv. rewrite !pow2_add in *.
      assert (pow2 (-40) * (pow2 l2 * pow2 e2) <= y * (IZR (Zpos m2) * pow2 e2))%R; [|nra].
      apply Rmult_le_compat; nra.
    - cut (l1 + e1 < 30 + (l2 + 1 + e2)); [lia|]. apply pow2_lt_inv. rewrite !pow2_add in *.
      assert (y * (IZR (Zpos m2) * pow2 e2) < pow2 30 * (pow2 l2 * pow2 1 * pow2 e2))%R; [|nra].
      apply Rle_lt_trans with (pow2 30 * (IZR (Zpos m2) * pow2 e2))%R; [apply Rmult_le_compat_r; nra|].
      apply Rmult_lt_compat_l; [apply pow2_pos|nra]. }
  assert (fexp pr em L = L - pr) as -> by (unfold fexp; lia).
  set (e' := Z.min (L - pr) (e1 - e2)). set (k := e1 - e2 - e').
  assert (match k with Zpos _ => Z.shiftl (Zpos m1) k | Z0 => Zpos m1 | Zneg _ => Z0 end
    = Zpos m1 * 2 ^ k) as ->.
  { destruct k as [|p|p] eqn:E; [lia| |lia]. by rewrite Z.shiftl_mul_pow2 by lia. }
  rewrite (surjective_pairing (Z.div_eucl _ _)).
  change (fst (Z.div_eucl (Zpos m1 * 2 ^ k) (Zpos m2))) with (Zpos m1 * 2 ^ k / Zpos m2).
  change (snd (Z.div_eucl (Zpos m1 * 2 ^ k) (Zpos m2))) with ((Zpos m1 * 2 ^ k) mod Zpos m2).
  set (q := Zpos m1 * 2 ^ k / Zpos m2). set (r := (Zpos m1 * 2 ^ k) mod Zpos m2).
  pose proof (Z.mod_pos_bound (Zpos m1 * 2 ^ k) (Zpos m2) ltac:(lia)) as Hr. fold r in Hr.
  pose proof (Z.div_mod (Zpos m1 * 2 ^ k) (Zpos m2) ltac:(lia)) as Hdm. fold q r in Hdm.
  pose proof (lies_quotient (Zpos m2) q r Hr) as Hlies.
  assert (2 ^ (pr - 1) <= q) as Hq.
  { apply Z.div_le_lower_bound; [lia|]. pose proof (Z.log2_spec (Zpos m1) ltac:(lia)) as [C1 _].
    pose proof (Z.log2_spec (Zpos m2) ltac:(lia)) as [_ C2]. fold l1 in C1. fold l2 in C2.
    assert (0 <= l1 /\ 0 <= l2) as [N1 N2] by (split; apply Z.log2_nonneg).
    assert (2 ^ (Z.succ l2 + (pr - 1)) <= 2 ^ (l1 + k)) as Hk by (apply Z.pow_le_mono_r; lia).
    rewrite !Z.pow_add_r in Hk by lia.
    assert (0 < 2 ^ (pr - 1)) by (apply Z.pow_pos_nonneg; lia).
    assert (0 < 2 ^ k) by (apply Z.pow_pos_nonneg; lia). nia. }
  assert (0 < q) as Hq0 by (pose proof (Z.pow_pos_nonneg 2 (pr - 1)); lia).
  assert (pr - 1 <= Z.log2 q) as Hlq by (apply Z.log2_le_pow2; lia).
  set (x := (IZR q + IZR r / IZR (Zpos m2))%R) in *.
  assert (x * pow2 e' = y)%R as Hxy.
  { assert (0 < IZR (Zpos m2))%R as M2 by by apply IZR_lt.
    apply (f_equal IZR) in Hdm. rewrite plus_IZR, !mult_IZR, <- pow2_Z in Hdm by lia.
    assert (x * IZR (Zpos m2) = IZR (Zpos m1) * pow2 k)%R as Hx by (unfold x; field_simplify; lra).
    apply (Rmult_eq_reg_r (IZR (Zpos m2) * pow2 e2)); [|nra]. rewrite Hy.
    transitivity (x * IZR (Zpos m2) * (pow2 e' * pow2 e2))%R; [ring|]. rewrite Hx, Rmult_assoc, <- !pow2_add.
    do 2 f_equal. lia. }
  pose proof (lies_floor _ _ Hlies) as Hfl. rewrite shr_m_of_loc in Hfl. pose proof (pow2_pos e') as Pe.
  pose proof (IZR_log2 q Hq0) as [D1 D2].
  assert (Z.log2 q + e' <= 30) by (apply pow2_le_inv; rewrite pow2_add; nra).
  assert (-41 < Z.log2 q + 1 + e').
  { apply pow2_lt_inv. rewrite pow2_add. change (-41) with (-1 + -40). rewrite (pow2_add (-1)), pow2_half.
    assert (IZR q + 1 <= 2 * IZR q)%R by (assert (1 <= IZR q)%R by (apply IZR_le; lia); lra). nra. }
  destruct (round_aux_near false q e' _ x Hq0 Hlq Hlies) as (q' & f & E & Mq & Hf & Hn); [lia|lia|].
  rewrite Hxy in Hn. eapply fl_rounded; try done. lia.
Qed.

Lemma fl_div a b u v y : fl a u -> fl b v -> (0 < v)%R -> (y * v = u)%R -> (u <> 0%R -> ordinary y) ->
  exists w, fl (SFdiv pr em a b) w /\ near pr w y.
Proof.
  intros Ha Hb Hv Hy Ho. pose proof (fl_nonneg _ _ Ha) as Nu.
  destruct b as [[]| | |[] mb eb]; try done; [cbn [fl] in Hb; lra|].
  destruct a as [[]| | |[] ma ea]; try done.
  - cbn [fl] in Ha. assert (y = 0)%R as -> by nra. exact fl_zero.
  - destruct Hb as (_ & _ & ->). destruct Ha as (_ & _ & Hu). subst u. apply fl_quotient; [done|].
    apply Ho. apply Rgt_not_eq, Rmult_lt_0_compat; [by apply IZR_lt|apply pow2_pos].
Qed.
End format.

(** A float of one format in another. *)
Lemma fl_convert p1 p2 e2 x v : 1 < p2 < e2 -> emin p2 e2 + p2 <= -125 /\ 128 <= e2 /\ p2 <= 53 ->
  fl p1 x v -> (v <> 0%R -> ordinary v) ->
  exists w, fl p2 (float_convert p2 e2 x) w /\ near p2 w v.
Proof.
  intros H2 He Hx Ho. destruct x as [[]| | |[] m e]; try done.
  - cbn [fl] in Hx. subst. apply fl_zero.
  - destruct Hx as (_ & _ & ->). cbn [float_convert].
    change (binary_round p2 e2 false m e) with (binary_normalize p2 e2 (Zpos m) e false).
    apply fl_normalize; [done|done|lia|]. intros _. apply Ho.
    apply Rgt_not_eq, Rmult_lt_0_compat; [by apply IZR_lt|apply pow2_pos].
Qed.

(** Truncation. *)
Lemma fl_trunc p x v n : fl p x v -> 0 <= n -> (IZR n <= v < IZR n + 1)%R -> float_trunc x = Some n.
Proof.
  intros Hx Hn [H1 H2]. destruct x as [[]| | |[] m e]; try done; cbn [fl float_trunc] in *.
  - subst. f_equal. apply le_IZR in H1. lia.
  - destruct Hx as (_ & _ & ->). f_equal. destruct (Z.leb_spec 0 e).
    + rewrite pow2_Z, <- mult_IZR in H1, H2 by lia. rewrite <- plus_IZR in H2.
      apply le_IZR in H1. apply lt_IZR in H2. lia.
    + symmetry. apply Z.div_unique_pos with (r := Zpos m - n * 2 ^ (- e)); [|lia].
      assert (pow2 (- e) * pow2 e = 1)%R as Hi by apply pow2_inv. pose proof (pow2_pos (- e)).
      rewrite (pow2_Z (- e)) in * by lia. assert (0 < 2 ^ (- e)) by (apply Z.pow_pos_nonneg; lia).
      set (a := IZR (2 ^ (- e))) in *.
      assert (IZR (Zpos m) * pow2 e * a = IZR (Zpos m))%R as Hm by (rewrite Rmult_assoc, (Rmult_comm (pow2 e)), Hi; lra).
      apply (Rmult_le_compat_r a) in H1; [|lra]. apply (Rmult_lt_compat_r a) in H2; [|done].
      rewrite Hm in H1, H2. unfold a in H1, H2. rewrite <- plus_IZR in H2. rewrite <- mult_IZR in H1, H2.
      apply le_IZR in H1. apply lt_IZR in H2. lia.
Qed.

(** ** float and double *)

Lemma format32 : 1 < prec < emax /\ emin prec emax + prec <= -125 /\ 128 <= emax /\ prec <= 53.
Proof. unfold emin, prec, emax. lia. Qed.

Lemma format64 : 1 < prec64 < emax64 /\ emin prec64 emax64 + prec64 <= -125 /\ 128 <= emax64 /\ prec64 <= 53.
Proof. unfold emin, prec64, emax64. lia. Qed.

(** Whole numbers are exact. *)
Lemma fl_exact p e k : 1 < p < e -> p <= 53 -> 0 < k < 2 ^ p -> fl p (exact_in p k) (IZR k).
Proof.
  intros Hp Hp3 Hk. destruct (exact_mantissa p e Hp k Hk) as (Hm & Hl & Hr).
  unfold exact_in. cbn [fl]. rewrite Hm. split.
  - unfold mantissa. rewrite <- Hl. pose proof (Z.log2_spec (k * 2 ^ (p - 1 - Z.log2 k))) as [H1 H2].
    { apply Z.mul_pos_pos; [lia|apply Z.pow_pos_nonneg; lia]. }
    rewrite Hl in H2. replace (Z.succ (p - 1)) with p in H2 by lia. by rewrite Hl in H1 |- *.
  - split; [lia|]. rewrite mult_IZR, <- pow2_Z, Rmult_assoc, <- pow2_add by lia.
    replace (p - 1 - Z.log2 k + (Z.log2 k - (p - 1))) with 0 by lia. change (pow2 0) with 1%R. ring.
Qed.

Lemma fl32_Z k : 0 <= k < 2 ^ 24 -> fl prec (f32_of_Z k) (IZR k).
Proof.
  intros Hk. destruct (decide (k = 0)) as [->|]; [done|]. rewrite f32_of_Z_exact by lia.
  apply (fl_exact prec emax); [apply format32|apply format32|unfold prec; lia].
Qed.

Lemma fl64_Z k : 0 <= k < 2 ^ 53 -> fl prec64 (f64_of_Z k) (IZR k).
Proof.
  intros Hk. destruct (decide (k = 0)) as [->|]; [done|]. rewrite f64_of_Z_exact by lia.
  apply (fl_exact prec64 emax64); [apply format64|apply format64|unfold prec64; lia].
Qed.

Lemma Rabs_between x b : (Rabs x <= b)%R -> (- b <= x <= b)%R.
Proof. intros H. pose proof (Rle_abs x). pose proof (Rle_abs (- x)) as Hx. rewrite Rabs_Ropp in Hx. lra. Qed.

(** The error in decimal. *)
Lemma near_between p w y : (0 <= y)%R -> 24 <= p -> near p w y ->
  (y - y * (6 / 100000000) <= w <= y + y * (6 / 100000000))%R.
Proof.
  intros Hy Hp [H _]. assert (- p <= -24) as Hp'%pow2_le by lia.
  assert (pow2 (-24) * 16777216 = 1)%R as Hc.
  { pose proof (pow2_inv 24) as Hi. rewrite (pow2_Z 24) in Hi by lia. exact Hi. }
  assert (pow2 (- p) * y <= y * (6 / 100000000))%R by nra.
  apply Rabs_between in H. lra.
Qed.

Lemma near_floor p w y (k : Z) : near p w y -> (IZR k <= y)%R -> (y < 16777216)%R -> 24 <= p ->
  (IZR k <= w)%R.
Proof.
  intros [_ H] Hk Hy Hp. apply H; [done|]. apply Rlt_le_trans with (pow2 24); [|by apply pow2_le].
  rewrite pow2_Z by lia. exact Hy.
Qed.

(** What is not too small or large for the lemmas above. *)
Lemma ordinary_between y : (/ 1000000000000 <= y <= 1000000000)%R -> ordinary y.
Proof.
  intros [H1 H2]. assert (pow2 30 = 1073741824)%R as E1 by by rewrite pow2_Z by lia.
  assert (pow2 (-40) * 1099511627776 = 1)%R as E2.
  { pose proof (pow2_inv 40) as Hi. rewrite (pow2_Z 40) in Hi by lia. exact Hi. }
  split; lra.
Qed.

(** A float of at least [2 ^ j] is a multiple of [2 ^ (j + 1 - p)]. *)
Lemma fl_grid p x v j : 1 < p -> fl p x v -> (pow2 j <= v)%R -> exists k, v = (IZR k * pow2 (j + 1 - p))%R.
Proof.
  intros Hp Hx Hj. destruct x as [[]| | |[] m e]; try done; cbn [fl] in Hx.
  - exists 0. rewrite Rmult_0_l. done.
  - destruct Hx as ([_ Hm] & _ & Hv). subst v.
    assert (j + 1 - p <= e) as He.
    { cut (j < p + e); [lia|]. apply pow2_lt_inv. rewrite pow2_add. apply IZR_lt in Hm.
      rewrite <- pow2_Z in Hm by lia. pose proof (pow2_pos e). nra. }
    exists (Zpos m * 2 ^ (e - (j + 1 - p))). rewrite mult_IZR, <- pow2_Z, Rmult_assoc, <- pow2_add by lia.
    do 2 f_equal. lia.
Qed.
