(* ===== verification/Atof.v ===== *)
(** * atof

    The C function [atof] as the conversion [strtod] does it: white space, a
    sign, then a decimal or hexadecimal number, an infinity or a NaN; the
    nearest double of the number read. *)

From Stdlib Require Import SpecFloat.
From S2P Require Import Prelude Printf Float32.

Local Open Scope Z_scope.

Definition lower (c : Z) : Z := if Z.leb 65 c && Z.leb c 90 then c + 32 else c.

(** The value of a digit in a base up to 16. *)
Definition digit_value (base c : Z) : option Z :=
  let c := lower c in
  let v := if is_digit c then c - 48 else if Z.leb 97 c && Z.leb c 102 then c - 87 else base in
  if Z.ltb v base then Some v else None.

(** The digits in front of [s]: their value after [acc], their number after
    [n] and the rest. *)
Fixpoint scan_digits (base acc : Z) (n : nat) (s : list Z) : Z * nat * list Z :=
  match s with
  | c :: s' =>
      match digit_value base c with
      | Some d => scan_digits base (acc * base + d) (S n) s'
      | None => (acc, n, s)
      end
  | [] => (acc, n, [])
  end.

(** Digits with an optional point: mantissa, digits after the point, rest. *)
Definition scan_mantissa (base : Z) (s : list Z) : option (Z * nat * list Z) :=
  let '(m, n, s1) := scan_digits base 0 0 s in
  let '(m, k, s2) :=
    match s1 with
    | c :: s' => if Z.eqb c 46 then scan_digits base m 0 s' else (m, 0%nat, s1)
    | [] => (m, 0%nat, [])
    end in
  if Nat.eqb (n + k) 0 then None else Some (m, k, s2).

(** A sign: does it negate, and the rest. *)
Definition scan_sign (s : list Z) : bool * list Z :=
  match s with
  | c :: s' => if Z.eqb c 45 then (true, s') else if Z.eqb c 43 then (false, s') else (false, s)
  | [] => (false, [])
  end.

(** An exponent after its mark ([e] or [p]); 0 when there is none. *)
Definition scan_exponent (mark : Z) (s : list Z) : Z :=
  match s with
  | c :: s' =>
      if Z.eqb (lower c) mark then
        let '(negative, s'') := scan_sign s' in
        let '(e, n, _) := scan_digits 10 0 0 s'' in
        if Nat.eqb n 0 then 0 else if negative then - e else e
      else 0
  | [] => 0
  end.

(** The double nearest to [m * 10 ^ e]. *)
Definition f64_decimal (m e : Z) : float64 :=
  match m with
  | Zpos p =>
      if Z.leb 0 e then f64_of_Z (m * 10 ^ e)
      else f64_div (S754_finite false p 0) (S754_finite false (Z.to_pos (10 ^ (- e))) 0)
  | _ => S754_zero false
  end.

Definition scan_decimal (s : list Z) : option float64 :=
  r ← scan_mantissa 10 s;
  let '(m, k, s') := r in
  Some (f64_decimal m (scan_exponent 101 s' - Z.of_nat k)).

Definition scan_hex (s : list Z) : option float64 :=
  match s with
  | z :: x :: s' =>
      if Z.eqb z 48 && Z.eqb (lower x) 120 then
        r ← scan_mantissa 16 s';
        let '(m, k, s'') := r in
        Some (binary_normalize prec64 emax64 m (scan_exponent 112 s'' - 4 * Z.of_nat k) false)
      else None
  | _ => None
  end.

Fixpoint begins (word s : list Z) : bool :=
  match word, s with
  | [], _ => true
  | w :: word', c :: s' => Z.eqb (lower c) w && begins word' s'
  | _, _ => false
  end.

Definition atof (s : list Z) : float64 :=
  let '(negative, s) := scan_sign (skip_space s) in
  let v :=
    if begins (lit "inf") s then S754_infinity false
    else if begins (lit "nan") s then S754_nan
    else match scan_hex s with
         | Some v => v
         | None => default (S754_zero false) (scan_decimal s)
         end in
  if negative then SFopp v else v.

Example atof_pi : atof (lit " 3.25,M") = f64_div (f64_of_Z 325) (f64_of_Z 100).
Proof. vm_compute. reflexivity. Qed.

Example atof_signed : atof (lit "-1.5e1x") = SFopp (f64_of_Z 15).
Proof. vm_compute. reflexivity. Qed.

Example atof_hex : atof (lit "0x1.8p4") = f64_of_Z 24.
Proof. vm_compute. reflexivity. Qed.

Example atof_none : atof (lit ",") = S754_zero false.
Proof. vm_compute. reflexivity. Qed.

(** ** Decimal numbers *)

(** The text after a number that ends it. *)
Definition number_end (rest : list Z) : Prop :=
  match rest with
  | c :: _ => is_digit c = false /\ c <> 46 /\ lower c <> 101 /\ lower c <> 120
  | [] => True
  end.

Lemma lower_digit c : is_digit c = true -> lower c = c.
Proof.
  unfold is_digit, lower. intros H. zify_bool.
  by rewrite (proj2 (Z.leb_gt 65 c)) by lia.
Qed.

Lemma digit_value_10 c : is_digit c = true -> digit_value 10 c = Some (c - 48).
Proof.
  intros H. unfold digit_value. rewrite lower_digit, H by done.
  unfold is_digit in H. zify_bool. by rewrite (proj2 (Z.ltb_lt _ _)) by lia.
Qed.

Lemma digit_value_none c : is_digit c = false -> digit_value 10 c = None.
Proof.
  unfold digit_value. destruct (is_digit (lower c)) eqn:E.
  - unfold is_digit, lower in *. destruct (Z.leb 65 c && Z.leb c 90) eqn:E2; [|congruence].
    zify_bool. lia.
  - intros _. destruct (Z.leb_spec 97 (lower c)), (Z.leb_spec (lower c) 102); cbn [andb];
      rewrite (proj2 (Z.ltb_ge _ _)) by lia; done.
Qed.

(** The number the digits [ds] spell after [acc]. *)
Definition spelled (acc : Z) (ds : list Z) : Z := foldl (fun a c => a * 10 + (c - 48)) acc ds.

Lemma scan_digits_spelled ds acc n rest :
  Forall (fun c => is_digit c = true) ds ->
  match rest with c :: _ => is_digit c = false | [] => True end ->
  scan_digits 10 acc n (ds ++ rest) = (spelled acc ds, (n + length ds)%nat, rest).
Proof.
  intros Hd Hr. revert acc n. induction Hd as [|c ds Hc _ IH]; intros acc n; cbn [app].
  - rewrite Nat.add_0_r. destruct rest as [|c r]; [done|]. cbn [scan_digits].
    by rewrite digit_value_none.
  - cbn [scan_digits]. rewrite digit_value_10, IH by done. f_equal. f_equal. cbn [length]. lia.
Qed.

Lemma scan_exponent_none rest : number_end rest -> scan_exponent 101 rest = 0.
Proof.
  destruct rest as [|c r]; [done|]. intros (_ & _ & He & _). cbn [scan_exponent].
  by rewrite (proj2 (Z.eqb_neq _ _)).
Qed.

(** What may follow the digits of a number: nothing, or a point and digits. *)
Definition fraction (o : option (list Z)) : list Z :=
  match o with Some fs => 46 :: fs | None => [] end.

Definition decimals (o : option (list Z)) : list Z := default [] o.

Definition all_digits (ds : list Z) : Prop := Forall (fun c => is_digit c = true) ds.

Lemma spelled_app acc a b : spelled acc (a ++ b) = spelled (spelled acc a) b.
Proof. apply foldl_app. Qed.

Lemma scan_mantissa_decimal ds o rest :
  all_digits ds -> ds <> [] -> all_digits (decimals o) -> number_end rest ->
  scan_mantissa 10 (ds ++ fraction o ++ rest) =
  Some (spelled 0 (ds ++ decimals o), length (decimals o), rest).
Proof.
  intros Hd Hne Ho Hr. unfold scan_mantissa.
  assert (match rest with c :: _ => is_digit c = false | [] => True end) as Hr1.
  { destruct rest; [done|]. by destruct Hr. }
  assert (length ds <> 0%nat) as Hl by (by destruct ds).
  destruct o as [fs|]; cbn [fraction decimals default app] in *.
  - rewrite scan_digits_spelled by done. cbn [Z.eqb Pos.eqb].
    rewrite scan_digits_spelled by done. rewrite spelled_app. cbn [Nat.add].
    by rewrite (proj2 (Nat.eqb_neq _ _)) by lia.
  - rewrite scan_digits_spelled, app_nil_r by done.
    destruct rest as [|c r]; [by rewrite (proj2 (Nat.eqb_neq _ _)) by lia|].
    destruct Hr as (_ & Hp & _). rewrite (proj2 (Z.eqb_neq c 46)) by done.
    by rewrite (proj2 (Nat.eqb_neq _ _)) by lia.
Qed.

Lemma scan_hex_none ds o rest : all_digits ds -> ds <> [] -> number_end rest ->
  scan_hex (ds ++ fraction o ++ rest) = None.
Proof.
  intros Hd Hne Hr. destruct ds as [|c ds]; [done|]. cbn [app].
  assert (forall x s, lower x <> 120 -> scan_hex (c :: x :: s) = None) as H.
  { intros x s Hx. cbn [scan_hex]. by rewrite (proj2 (Z.eqb_neq (lower x) 120)), andb_false_r. }
  inversion Hd as [|? ? _ Hd']; subst. destruct ds as [|d ds]; cbn [app].
  - destruct o as [fs|]; cbn [fraction app]; [by apply H|].
    destruct rest as [|x r]; [done|]. apply H. apply Hr.
  - apply H. inversion Hd'; subst. rewrite lower_digit by done.
    unfold is_digit in *. zify_bool. lia.
Qed.

(** [atof] of a number in digits is the double of those digits, scaled. *)
Lemma atof_decimal ds o rest : all_digits ds -> ds <> [] -> all_digits (decimals o) -> number_end rest ->
  atof (ds ++ fraction o ++ rest) =
  f64_decimal (spelled 0 (ds ++ decimals o)) (0 - Z.of_nat (length (decimals o))).
Proof.
  intros Hd Hne Ho Hr. pose proof (scan_mantissa_decimal ds o rest Hd Hne Ho Hr) as Hm.
  pose proof (scan_hex_none ds o rest Hd Hne Hr) as Hx.
  set (s := ds ++ fraction o ++ rest) in *.
  assert (exists c s', s = c :: s' /\ is_digit c = true) as (c & s' & Hs & Hc).
  { destruct ds as [|c ds]; [done|]. inversion Hd; subst. by eexists _, _. }
  unfold is_digit in Hc. zify_bool.
  assert (skip_space s = s) as Hsp.
  { rewrite Hs. cbn [skip_space]. unfold is_space.
    rewrite (proj2 (Z.eqb_neq c 32)), (proj2 (Z.leb_gt c 13)), andb_false_r by lia. done. }
  assert (scan_sign s = (false, s)) as Hsg.
  { rewrite Hs. cbn [scan_sign]. by rewrite !(proj2 (Z.eqb_neq _ _)) by lia. }
  assert (lower c = c) as Hlow.
  { unfold lower. by rewrite (proj2 (Z.leb_gt 65 c)) by lia. }
  unfold atof. rewrite Hsp, Hsg, Hx.
  assert (begins (lit "inf") s = false /\ begins (lit "nan") s = false) as [-> ->].
  { rewrite Hs. change (lit "inf") with [105; 110; 102]. change (lit "nan") with [110; 97; 110].
    cbn [begins]. rewrite Hlow. by rewrite !(proj2 (Z.eqb_neq c _)) by lia. }
  unfold scan_decimal. rewrite Hm. cbn [mbind option_bind default].
  by rewrite scan_exponent_none.
Qed.
