(* ===== verification/Pm.v ===== *)
(** * The particulate-matter sensor (pm_if.c)

    Packets from the UART are checked and added up; a poll returns the averages
    since the last one. The UART task, the timer and the polling task share the
    accumulator without a lock. *)

From S2P Require Import Prelude CMem Float32 Ext.
From Stdlib Require Import SpecFloat.

Local Open Scope Z_scope.

(** ** pm_if.h *)

Definition PM_UART_CH : Z := 2.
Definition PM_RXD_PIN : Z := 16.
Definition PM_TXD_PIN : Z := 17.
Definition BUF_SIZE : nat := 144.
Definition PM_PKT_LEN : nat := 24.
Definition PKT_PM1_HIGH : nat := 4.
Definition PKT_PM1_LOW : nat := 5.
Definition PKT_PM2_5_HIGH : nat := 6.
Definition PKT_PM2_5_LOW : nat := 7.
Definition PKT_PM10_HIGH : nat := 8.
Definition PKT_PM10_LOW : nat := 9.
Definition GPIO_PM_RESET : Z := 17.
Definition GPIO_PM_SET : Z := 5.
Definition GPIO_OUTPUT_PIN_SEL : Z := Z.lor (Z.shiftl 1 GPIO_PM_RESET) (Z.shiftl 1 GPIO_PM_SET).
Definition PM_TIMER_TIMEOUT_MS : Z := 5000.

Record pm_data := PmData {
  sample_count : Z;
  pm1 : float32;
  pm2_5 : float32;
  pm10 : float32
}.

(** The static variables. *)
Record pm := Pm {
  pm_accum : pm_data;
  pm_buf : list Z
}.

Abbreviation pprog := (cprog pm).

Definition set_accum (d : pm_data) (s : pm) : pm := Pm d (pm_buf s).
Definition set_buf (b : list Z) (s : pm) : pm := Pm (pm_accum s) b.

Definition zero : float32 := f32_of_Z 0.

Definition pm_empty : pm_data := PmData 0 zero zero zero.

(** ** Operations *)

(** One field of the accumulator at a time, as the code writes them. *)
Definition on_accum (f : pm_data -> pm_data) (s : pm) : pm := set_accum (f (pm_accum s)) s.

Definition put_pm1 (v : float32) (d : pm_data) : pm_data :=
  PmData (sample_count d) v (pm2_5 d) (pm10 d).
Definition put_pm2_5 (v : float32) (d : pm_data) : pm_data :=
  PmData (sample_count d) (pm1 d) v (pm10 d).
Definition put_pm10 (v : float32) (d : pm_data) : pm_data :=
  PmData (sample_count d) (pm1 d) (pm2_5 d) v.
Definition put_count (n : Z) (d : pm_data) : pm_data :=
  PmData n (pm1 d) (pm2_5 d) (pm10 d).

Definition _pm_accum_rst : pprog unit :=
  modify (on_accum (put_pm1 zero));;
  modify (on_accum (put_pm2_5 zero));;
  modify (on_accum (put_pm10 zero));;
  modify (on_accum (put_count 0)).

Definition vTimerCallback : pprog unit := call_ (xTimerStop PM_TIMER);; _pm_accum_rst.

Definition PMS_GPIOEnable : pprog unit := call_ (gpio_config GPIO_OUTPUT_PIN_SEL).
Definition PMS_RESET (level : Z) : pprog unit := call_ (gpio_set_level GPIO_PM_RESET level).
Definition PMS_SET (level : Z) : pprog unit := call_ (gpio_set_level GPIO_PM_SET level).

Local Open Scope airu_scope.

Definition PMS_Initialize : pprog Z :=
  (_ <-? uart_param_config PM_UART_CH 9600;
   _ <-? uart_set_pin PM_UART_CH PM_TXD_PIN PM_RXD_PIN;
   _ <-? uart_driver_install PM_UART_CH (Z.of_nat BUF_SIZE) 0 20;
   call_ (xTaskCreate (lit "vPM_task") 2048 12);;
   call_ (xTimerCreate PM_TIMER (PM_TIMER_TIMEOUT_MS / portTICK_PERIOD_MS));;
   _pm_accum_rst;;
   PMS_GPIOEnable;;
   PMS_SET 1;;
   PMS_RESET 1;;
   call_ (xTimerStart PM_TIMER);;
   mret ESP_OK).

(** What a poll without samples reports. *)
Definition minus_one : float32 := f32_of_Z (-1).

(** The returned error and the data filled in; its [sample_count] is left
    alone. *)
Definition PMS_Poll : pprog (Z * (float32 * float32 * float32)) :=
  count ← get (fun s => sample_count (pm_accum s));
  if Z.eqb count 0 then mret (ESP_FAIL, (minus_one, minus_one, minus_one)) else
  a1 ← get (fun s => f32_div (pm1 (pm_accum s)) (f32_of_Z (sample_count (pm_accum s))));
  a2 ← get (fun s => f32_div (pm2_5 (pm_accum s)) (f32_of_Z (sample_count (pm_accum s))));
  a3 ← get (fun s => f32_div (pm10 (pm_accum s)) (f32_of_Z (sample_count (pm_accum s))));
  _pm_accum_rst;;
  mret (ESP_OK, (a1, a2, a3)).

(** The sum of the first bytes, in uint16_t; [None]: an access outside. *)
Fixpoint pm_sum (b : list Z) (n i : nat) (sum : Z) : option Z :=
  match n with
  | O => Some sum
  | S n => c ← b !! i; pm_sum b n (i + 1) (u16 (sum + c))
  end.

Definition pm_checksum (b : list Z) : option bool :=
  h ← b !! (PM_PKT_LEN - 2)%nat;
  l ← b !! (PM_PKT_LEN - 1)%nat;
  let checksum := u16 (u16 (Z.shiftl h 8) + l) in
  sum ← pm_sum b (PM_PKT_LEN - 2) 0 0;
  Some (Z.eqb sum checksum).

(** [(float)((pm_buf\[high\] << 8) | pm_buf\[low\])] *)
Definition pm_value (b : list Z) (high low : nat) : option float32 :=
  h ← b !! high; l ← b !! low; Some (f32_of_Z (Z.lor (Z.shiftl h 8) l)).

(** [pm_accum.field += value] *)
Definition add_pm1 (v : float32) (d : pm_data) : pm_data := put_pm1 (f32_add (pm1 d) v) d.
Definition add_pm2_5 (v : float32) (d : pm_data) : pm_data := put_pm2_5 (f32_add (pm2_5 d) v) d.
Definition add_pm10 (v : float32) (d : pm_data) : pm_data := put_pm10 (f32_add (pm10 d) v) d.
Definition count_one (d : pm_data) : pm_data := put_count (u32 (sample_count d + 1)) d.

Definition pm_header (b : list Z) : option bool :=
  b0 ← b !! 0%nat; b1 ← b !! 1%nat; Some (Z.eqb b0 66 && Z.eqb b1 77).

Definition get_packet_from_buffer : pprog Z :=
  b ← get pm_buf;
  header ← try (pm_header b);
  if header : bool then
    good ← try (pm_checksum b);
    if good : bool then
      v ← try (pm_value b PKT_PM1_HIGH PKT_PM1_LOW); modify (on_accum (add_pm1 v));;
      v ← try (pm_value b PKT_PM2_5_HIGH PKT_PM2_5_LOW); modify (on_accum (add_pm2_5 v));;
      v ← try (pm_value b PKT_PM10_HIGH PKT_PM10_LOW); modify (on_accum (add_pm10 v));;
      modify (on_accum count_one);;
      call_ (xTimerReset PM_TIMER);;
      mret ESP_OK
    else mret ESP_FAIL
  else mret ESP_FAIL.

(** [tmp << sizeof (uint8_t) | tmp2], on uint16_t *)
Definition packet_word (high low : Z) : Z := Z.lor (u16 (Z.shiftl high 1)) low.

(** [get_data_from_packet], which nothing calls; [None] is a NULL packet. *)
Definition get_data_from_packet (packet : option (list Z)) : pprog Z :=
  match packet with
  | None => mret ESP_FAIL
  | Some p =>
      v ← try (h ← p !! PKT_PM1_HIGH; l ← p !! PKT_PM1_LOW; Some (packet_word h l));
      modify (on_accum (add_pm1 (f32_of_Z v)));;
      v ← try (h ← p !! PKT_PM2_5_HIGH; l ← p !! PKT_PM2_5_LOW; Some (packet_word h l));
      modify (on_accum (add_pm2_5 (f32_of_Z v)));;
      v ← try (h ← p !! PKT_PM10_HIGH; l ← p !! PKT_PM10_LOW;
               Some (packet_word (u16 (Z.shiftl h 8)) l));
      modify (on_accum (add_pm10 (f32_of_Z v)));;
      modify (on_accum count_one);;
      mret ESP_OK
  end.

(** ** The UART task *)

(** [uart_event_type_t] *)
Definition UART_DATA : Z := 0.
Definition UART_BREAK : Z := 1.
Definition UART_BUFFER_FULL : Z := 2.
Definition UART_FIFO_OVF : Z := 3.

(** An event: [a_val] is its type, the first of [a_bytes] its size. *)
Definition event_size (a : answer) : Z := default 0 (head (a_bytes a)).

(** One round of [uart_pm_event_mgr]. *)
Definition uart_pm_event_mgr_round : pprog unit :=
  a ← call (uart_queue_receive PM_UART_CH);
  when (negb (Z.eqb (a_ret a) 0))
    (if Z.eqb (a_val a) UART_DATA then
       when (Z.eqb (event_size a) 24)
         (data ← call (uart_read_bytes PM_UART_CH (event_size a) None);
          update (fun s => b ← write (pm_buf s) 0 (a_bytes data); Some (set_buf b s));;
          get_packet_from_buffer;; mret tt);;
       call_ (uart_flush_input PM_UART_CH)
     else if Z.eqb (a_val a) UART_FIFO_OVF || Z.eqb (a_val a) UART_BUFFER_FULL then
       call_ (uart_flush_input PM_UART_CH);; call_ (uart_queue_reset PM_UART_CH)
     else mret tt).

(** ** What a packet says *)

(** Big-endian words of a packet, as numbers. *)
Definition word (b : list Z) (high low : nat) : Z := 256 * (b !!! high) + b !!! low.

Definition byte_sum (b : list Z) : Z := foldr Z.add 0 b.

(** A packet of the sensor: 24 bytes, its header, and the sum of the first 22
    bytes in the last two. *)
Definition packet_ok (p : list Z) : Prop :=
  length p = PM_PKT_LEN /\ Forall is_byte p /\ p !!! 0%nat = 66 /\ p !!! 1%nat = 77 /\
  byte_sum (take 22 p) = word p 22 23.

Lemma pm_sum_spec b n i sum :
  Forall is_byte b -> (i + n <= length b)%nat -> 0 <= sum -> sum + 255 * Z.of_nat n < 2 ^ 16 ->
  pm_sum b n i sum = Some (sum + byte_sum (take n (drop i b))).
Proof.
  intros Hb. revert i sum. induction n as [|n IH]; intros i sum Hn Hs Hlt; cbn [pm_sum].
  - change (byte_sum (take 0 (drop i b))) with 0. f_equal. lia.
  - destruct (lookup_lt_is_Some_2 b i) as [c Hc]; [lia|]. rewrite Hc. cbn [mbind option_bind].
    assert (is_byte c) as Hbc by (eapply Forall_lookup; eauto). unfold is_byte in Hbc.
    rewrite uwrap_small by lia. rewrite IH by lia.
    rewrite (drop_S b c i Hc). cbn [take byte_sum foldr]. f_equal.
    replace (i + 1)%nat with (S i) by lia. fold (byte_sum (take n (drop (S i) b))). lia.
Qed.

Lemma lookup_byte (b : list Z) i : Forall is_byte b -> (i < length b)%nat ->
  b !! i = Some (b !!! i) /\ is_byte (b !!! i).
Proof.
  intros Hb Hi. destruct (lookup_lt_is_Some_2 b i Hi) as [c Hc].
  rewrite (list_lookup_total_correct _ _ _ Hc). split; [done|]. by eapply Forall_lookup_1.
Qed.

Definition packet_value (p : list Z) (high low : nat) : float32 := f32_of_Z (word p high low).

(** The accumulator with a packet added. *)
Definition accum_add (p : list Z) (d : pm_data) : pm_data :=
  PmData (u32 (sample_count d + 1))
    (f32_add (pm1 d) (packet_value p PKT_PM1_HIGH PKT_PM1_LOW))
    (f32_add (pm2_5 d) (packet_value p PKT_PM2_5_HIGH PKT_PM2_5_LOW))
    (f32_add (pm10 d) (packet_value p PKT_PM10_HIGH PKT_PM10_LOW)).

#[export] Instance packet_ok_dec p : Decision (packet_ok p).
Proof. unfold packet_ok. apply _. Defined.

Section packet.
Context (p rest : list Z) (Hlen : length p = PM_PKT_LEN) (Hbyte : Forall is_byte p).

Lemma packet_byte i : (i < 24)%nat -> (p ++ rest) !! i = Some (p !!! i) /\ is_byte (p !!! i).
Proof.
  intros Hi. destruct (lookup_byte p i Hbyte) as [H1 H2]; [by rewrite Hlen|].
  split; [|done]. rewrite lookup_app_l by (rewrite Hlen; done). done.
Qed.

Lemma pm_value_packet i j : (i < 24)%nat -> (j < 24)%nat ->
  pm_value (p ++ rest) i j = Some (packet_value p i j).
Proof.
  intros Hi Hj. unfold pm_value. destruct (packet_byte i Hi) as [-> Bi].
  destruct (packet_byte j Hj) as [-> Bj]. cbn [mbind option_bind].
  by rewrite lor_shiftl_byte by exact Bj.
Qed.

Lemma pm_header_packet :
  pm_header (p ++ rest) = Some (Z.eqb (p !!! 0%nat) 66 && Z.eqb (p !!! 1%nat) 77).
Proof.
  unfold pm_header. destruct (packet_byte 0) as [-> _]; [lia|].
  destruct (packet_byte 1) as [-> _]; [lia|]. done.
Qed.

Lemma pm_checksum_packet :
  pm_checksum (p ++ rest) = Some (Z.eqb (byte_sum (take 22 p)) (word p 22 23)).
Proof.
  unfold pm_checksum. change (PM_PKT_LEN - 2)%nat with 22%nat. change (PM_PKT_LEN - 1)%nat with 23%nat.
  destruct (packet_byte 22) as [-> B1]; [lia|]. destruct (packet_byte 23) as [-> B2]; [lia|].
  cbn [mbind option_bind]. unfold is_byte in *.
  assert (pm_sum (p ++ rest) 22 0 0 = pm_sum p 22 0 0) as ->.
  { assert (forall n i sum, (i + n <= 24)%nat -> pm_sum (p ++ rest) n i sum = pm_sum p n i sum) as H.
    { induction n as [|n IH]; intros i sum Hi; [done|]. cbn [pm_sum].
      rewrite lookup_app_l by (rewrite Hlen; unfold PM_PKT_LEN; lia).
      destruct (p !! i); cbn [mbind option_bind]; [|done]. apply IH. lia. }
    apply H. lia. }
  rewrite pm_sum_spec; [|done|rewrite Hlen; unfold PM_PKT_LEN; lia|lia|lia].
  cbn [mbind option_bind]. rewrite drop_0. unfold word.
  rewrite Z.shiftl_mul_pow2 by lia.
  rewrite (uwrap_small 16 (_ * _)) by lia. rewrite (uwrap_small 16) by lia.
  do 2 f_equal; lia.
Qed.
End packet.

(** [get_packet_from_buffer] accepts exactly the packets of the sensor's data
    sheet: it adds the three big-endian values, counts the sample, restarts the
    timer and returns ESP_OK; anything else changes nothing and returns
    ESP_FAIL. *)
Theorem get_packet_correct s p rest a :
  pm_buf s = p ++ rest -> length p = PM_PKT_LEN -> Forall is_byte p ->
  run get_packet_from_buffer s [a] =
  if decide (packet_ok p)
  then ([(xTimerReset PM_TIMER, a)], Done ESP_OK, set_accum (accum_add p (pm_accum s)) s)
  else ([], Done ESP_FAIL, s).
Proof.
  intros Hb Hl Hby. unfold get_packet_from_buffer. prog_simpl. rewrite Hb.
  rewrite pm_header_packet by done. cbn [try bind].
  destruct (Z.eqb (p !!! 0%nat) 66 && Z.eqb (p !!! 1%nat) 77) eqn:Eh.
  - rewrite pm_checksum_packet by done. cbn [try bind].
    destruct (Z.eqb (byte_sum (take 22 p)) (word p 22 23)) eqn:Ec.
    + rewrite !pm_value_packet by (done || (vm_compute; lia)). cbn [try bind run].
      rewrite decide_True; [done|]. zify_bool. by repeat split.
    + rewrite decide_False; [done|]. intros (_ & _ & _ & _ & H). apply Z.eqb_neq in Ec. done.
  - rewrite decide_False; [done|]. intros (_ & _ & H0 & H1 & _). rewrite H0, H1 in Eh. done.
Qed.

(** ** Averages *)

(** The accumulator after a series of packets. *)
Definition feed (ps : list (list Z)) (d : pm_data) : pm_data := foldl (fun d p => accum_add p d) d ps.

Definition total (i j : nat) (ps : list (list Z)) : Z := foldr (fun p n => word p i j + n) 0 ps.

(** The accumulator holds whole numbers. *)
Definition holds (d : pm_data) (n s1 s2 s3 : Z) : Prop :=
  sample_count d = n /\ pm1 d = f32_of_Z s1 /\ pm2_5 d = f32_of_Z s2 /\ pm10 d = f32_of_Z s3.

Lemma word_range p i j : length p = PM_PKT_LEN -> Forall is_byte p -> (i < 24)%nat -> (j < 24)%nat ->
  0 <= word p i j < 65536.
Proof.
  intros Hl Hb Hi Hj. destruct (lookup_byte p i Hb) as [_ H1]; [by rewrite Hl|].
  destruct (lookup_byte p j Hb) as [_ H2]; [by rewrite Hl|]. unfold word, is_byte in *. lia.
Qed.

Lemma total_cons i j p ps : total i j (p :: ps) = word p i j + total i j ps.
Proof. done. Qed.

Lemma total_nonneg i j ps : (i < 24)%nat -> (j < 24)%nat ->
  Forall (fun p => length p = PM_PKT_LEN /\ Forall is_byte p) ps -> 0 <= total i j ps.
Proof.
  intros Hi Hj. induction 1 as [|p ps [Hl Hb] _ IH]; [done|]. rewrite total_cons.
  pose proof (word_range p i j Hl Hb Hi Hj). lia.
Qed.

Lemma feed_holds ps d n s1 s2 s3 :
  Forall (fun p => length p = PM_PKT_LEN /\ Forall is_byte p) ps ->
  holds d n s1 s2 s3 -> 0 <= n -> 0 <= s1 -> 0 <= s2 -> 0 <= s3 ->
  n + Z.of_nat (length ps) <= 256 -> s1 <= n * 65535 -> s2 <= n * 65535 -> s3 <= n * 65535 ->
  holds (feed ps d) (n + Z.of_nat (length ps)) (s1 + total PKT_PM1_HIGH PKT_PM1_LOW ps)
    (s2 + total PKT_PM2_5_HIGH PKT_PM2_5_LOW ps) (s3 + total PKT_PM10_HIGH PKT_PM10_LOW ps).
Proof.
  intros Hps. revert d n s1 s2 s3.
  induction Hps as [|p ps [Hl Hb] _ IH]; intros d n s1 s2 s3 (Hc & H1 & H2 & H3) ? ? ? ? Hn ? ? ?.
  - cbn. rewrite !Z.add_0_r. by repeat split.
  - cbn [feed foldl]. fold (feed ps (accum_add p d)). rewrite !total_cons.
    pose proof (word_range p PKT_PM1_HIGH PKT_PM1_LOW Hl Hb) as W1.
    pose proof (word_range p PKT_PM2_5_HIGH PKT_PM2_5_LOW Hl Hb) as W2.
    pose proof (word_range p PKT_PM10_HIGH PKT_PM10_LOW Hl Hb) as W3.
    specialize (W1 ltac:(vm_compute; lia) ltac:(vm_compute; lia)).
    specialize (W2 ltac:(vm_compute; lia) ltac:(vm_compute; lia)).
    specialize (W3 ltac:(vm_compute; lia) ltac:(vm_compute; lia)).
    cbn [length] in Hn |- *. rewrite Nat2Z.inj_succ in Hn |- *.
    replace (n + Z.succ (Z.of_nat (length ps))) with (n + 1 + Z.of_nat (length ps)) by lia.
    rewrite !Z.add_assoc. apply IH; try lia.
    unfold accum_add, packet_value, holds. cbn [sample_count pm1 pm2_5 pm10].
    rewrite Hc, H1, H2, H3. rewrite uwrap_small by lia. rewrite !f32_add_exact by lia. done.
Qed.

(** A poll of an accumulator filled with good packets. *)
Lemma poll_run ps s : Forall packet_ok ps -> (0 < length ps <= 256)%nat -> pm_accum s = feed ps pm_empty ->
  let avg i j := f32_div (f32_of_Z (total i j ps)) (f32_of_Z (Z.of_nat (length ps))) in
  run PMS_Poll s [] =
  ([], Done (ESP_OK, (avg PKT_PM1_HIGH PKT_PM1_LOW, avg PKT_PM2_5_HIGH PKT_PM2_5_LOW,
                      avg PKT_PM10_HIGH PKT_PM10_LOW)), set_accum pm_empty s).
Proof.
  intros Hps Hn Hs avg.
  assert (holds (pm_accum s) (Z.of_nat (length ps)) (total PKT_PM1_HIGH PKT_PM1_LOW ps)
    (total PKT_PM2_5_HIGH PKT_PM2_5_LOW ps) (total PKT_PM10_HIGH PKT_PM10_LOW ps))
    as (Hc & H1 & H2 & H3).
  { rewrite Hs. apply (feed_holds ps pm_empty 0 0 0 0); try lia; [|done].
    eapply Forall_impl; [exact Hps|]. by intros p (? & ? & _). }
  unfold PMS_Poll, _pm_accum_rst. prog_simpl. rewrite Hc.
  rewrite (proj2 (Z.eqb_neq _ _)) by lia. prog_simpl. rewrite Hc, H1, H2, H3. done.
Qed.

(** With no packet since the last poll it fails with -1 for every size. *)
Theorem poll_without_data s :
  sample_count (pm_accum s) = 0 ->
  run PMS_Poll s [] = ([], Done (ESP_FAIL, (minus_one, minus_one, minus_one)), s).
Proof. intros Hc. unfold PMS_Poll. prog_simpl. by rewrite Hc. Qed.

(** ** Corrupted packets *)

Lemma byte_sum_cons x l : byte_sum (x :: l) = x + byte_sum l.
Proof. done. Qed.

Lemma byte_sum_app a b : byte_sum (a ++ b) = byte_sum a + byte_sum b.
Proof.
  induction a as [|x a IH]; [done|]. cbn [app]. rewrite !byte_sum_cons, IH. lia.
Qed.

Lemma byte_sum_insert (p : list Z) i c : (i < length p)%nat ->
  byte_sum (<[i := c]> p) = byte_sum p - (p !!! i) + c.
Proof.
  intros Hi. destruct (split_at p i) as (a & b & -> & Ha); [lia|].
  destruct b as [|x b]; [rewrite length_app in Hi; simpl in Hi; lia|].
  rewrite insert_app_exact by done.
  rewrite list_lookup_total_alt, lookup_app_exact by done. cbn [default].
  rewrite !byte_sum_app, !byte_sum_cons. unfold id. lia.
Qed.

(** Every packet with one wrong byte is rejected. *)
Theorem corrupted_byte_detected p i c :
  packet_ok p -> (i < PM_PKT_LEN)%nat -> is_byte c -> c <> p !!! i -> ~ packet_ok (<[i := c]> p).
Proof.
  intros (Hl & Hb & H0 & H1 & Hsum) Hi Hc Hne (_ & _ & H0' & H1' & Hsum').
  unfold PM_PKT_LEN in *. unfold word, is_byte in *.
  destruct (decide (i < 22)%nat) as [Hlt|Hge].
  - rewrite take_insert_lt in Hsum' by done.
    rewrite byte_sum_insert in Hsum' by (rewrite length_take; lia).
    rewrite !list_lookup_total_insert_ne in Hsum' by lia.
    rewrite lookup_total_take_lt in Hsum' by done. lia.
  - rewrite take_insert_ge in Hsum' by lia.
    destruct (decide (i = 22)%nat) as [->|].
    + rewrite list_lookup_total_insert_eq, list_lookup_total_insert_ne in Hsum' by lia. lia.
    + assert (i = 23)%nat as -> by lia.
      rewrite list_lookup_total_insert_eq, list_lookup_total_insert_ne in Hsum' by lia. lia.
Qed.

(** ** The UART task *)

Section round.
Context (p : list Z) (Hl : length p = PM_PKT_LEN) (Hp : Forall is_byte p).

(** The answers for a data event of 24 bytes: the event, the bytes, the restart
    of the timer if there is one, the emptying of the UART's buffer. *)
Definition delivered (ev a1 a2 : answer) : list answer :=
  [ev; ret_bytes 24 p] ++ (if decide (packet_ok p) then [a1] else []) ++ [a2].

Definition delivered_calls (ev a1 a2 : answer) : ctrace :=
  [(uart_queue_receive PM_UART_CH, ev); (uart_read_bytes PM_UART_CH 24 None, ret_bytes 24 p)] ++
  (if decide (packet_ok p) then [(xTimerReset PM_TIMER, a1)] else []) ++
  [(uart_flush_input PM_UART_CH, a2)].

Definition after_round (s : pm) : pm :=
  Pm (if decide (packet_ok p) then accum_add p (pm_accum s) else pm_accum s) (p ++ drop 24 (pm_buf s)).

Lemma round_run s ev a1 a2 : length (pm_buf s) = BUF_SIZE ->
  a_ret ev <> 0 -> a_val ev = UART_DATA -> event_size ev = 24 ->
  run uart_pm_event_mgr_round s (delivered ev a1 a2) =
  (delivered_calls ev a1 a2, Done tt, after_round s).
Proof.
  intros Hb Hr Hv Hs. unfold uart_pm_event_mgr_round, delivered, delivered_calls, after_round.
  assert (write (pm_buf s) 0 p = Some (p ++ drop 24 (pm_buf s))) as Hw.
  { rewrite write_some by (rewrite Hl, Hb; vm_compute; lia). by rewrite Hl. }
  set (s1 := set_buf (p ++ drop 24 (pm_buf s)) s).
  pose proof (get_packet_correct s1 p (drop 24 (pm_buf s)) a1 eq_refl Hl Hp) as Hg.
  cbn [app]. prog_simpl. rewrite (proj2 (Z.eqb_neq _ _)) by done. cbn [negb when].
  rewrite Hv, Hs. change (UART_DATA =? UART_DATA) with true. cbn [Z.eqb Pos.eqb when].
  unfold mbind, prog_bind, call, update. cbn [bind run a_bytes ret_bytes app].
  rewrite Hw. cbn [mbind option_bind]. fold s1.
  destruct (decide (packet_ok p)) as [Hok|Hno].
  - pose proof (run_bind (fun _ : Z => mret tt) _ _ _ _ _ _ [] Hg) as H1. cbn [app mret prog_ret run] in H1.
    pose proof (run_bind (fun _ : unit => call_ (uart_flush_input PM_UART_CH)) _ _ _ _ _ _ [a2] H1) as H2.
    cbn [app length drop call_ run] in H2 |- *. rewrite H2. done.
  - apply run_exec, exec_run in Hg. cbn [map] in Hg.
    pose proof (run_bind (fun _ : Z => mret tt) _ _ _ _ _ _ [] Hg) as H1. cbn [app mret prog_ret run] in H1.
    pose proof (run_bind (fun _ : unit => call_ (uart_flush_input PM_UART_CH)) _ _ _ _ _ _ [a2] H1) as H2.
    cbn [app length drop call_ run] in H2 |- *. rewrite H2. done.
Qed.

Lemma after_round_length s : length (pm_buf s) = BUF_SIZE -> length (pm_buf (after_round s)) = BUF_SIZE.
Proof. intros Hb. cbn. rewrite length_app, length_drop, Hl, Hb. done. Qed.
End round.

(** C21: A data event of 24 bytes, in a quiet machine: the task reads them into the
    start of the buffer, adds the three big-endian values to the sums and one to
    the count and restarts the timer exactly when the bytes are a packet of the
    sensor (24 bytes, "BM", the sum of the first 22 in the last two), and then
    empties the UART's buffer; these are all its calls. *)
Theorem uart_round_correct p s ev a1 a2 :
  length p = PM_PKT_LEN -> Forall is_byte p -> length (pm_buf s) = BUF_SIZE ->
  a_ret ev <> 0 -> a_val ev = UART_DATA -> event_size ev = 24 ->
  run uart_pm_event_mgr_round s
    ([ev; ret_bytes 24 p] ++ (if decide (packet_ok p) then [a1] else []) ++ [a2]) =
  ([(uart_queue_receive PM_UART_CH, ev); (uart_read_bytes PM_UART_CH 24 None, ret_bytes 24 p)] ++
     (if decide (packet_ok p) then [(xTimerReset PM_TIMER, a1)] else []) ++
     [(uart_flush_input PM_UART_CH, a2)],
   Done tt,
   Pm (if decide (packet_ok p) then accum_add p (pm_accum s) else pm_accum s) (p ++ drop 24 (pm_buf s))).
Proof. intros Hl Hp Hb. by apply (round_run p Hl Hp). Qed.

(** ** From the packets to the poll *)

(** Rounds of the UART task. *)
Fixpoint receive (n : nat) : pprog unit :=
  match n with
  | O => mret tt
  | S n => uart_pm_event_mgr_round;; receive n
  end.

Definition data_event : answer := Answer 1 UART_DATA [24] [].

Definition bytes_24 (p : list Z) : Prop := length p = PM_PKT_LEN /\ Forall is_byte p.

Definition deliveries (ps : list (list Z)) : list answer :=
  concat (map (fun p => delivered p data_event (ret_ 1) (ret_ 0)) ps).

Lemma receive_run ps s : Forall bytes_24 ps -> length (pm_buf s) = BUF_SIZE ->
  exists tr s', run (receive (length ps)) s (deliveries ps) = (tr, Done tt, s') /\
    pm_accum s' = feed (filter packet_ok ps) (pm_accum s).
Proof.
  intros Hps. revert s. induction Hps as [|p ps [Hl Hp] _ IH]; intros s Hb; [by eexists _, s|].
  destruct (IH (after_round p s)) as (tr & s' & Hrun & Hacc); [by apply after_round_length|].
  cbn [length receive deliveries map concat]. fold (deliveries ps). unfold mbind, prog_bind.
  pose proof (round_run p Hl Hp s data_event (ret_ 1) (ret_ 0) Hb ltac:(done) eq_refl eq_refl) as Hr.
  rewrite (run_bind _ _ _ _ _ _ _ (deliveries ps) Hr).
  rewrite drop_app_exact.
  2:{ unfold delivered, delivered_calls. by destruct (decide (packet_ok p)). }
  rewrite Hrun. eexists _, s'. split; [done|]. rewrite Hacc. unfold after_round. cbn [pm_accum].
  rewrite filter_cons. by destruct (decide (packet_ok p)).
Qed.

(** C35: From an empty accumulator the UART task receives any packets of 24 bytes,
    of which one to 256 are packets of the sensor (a minute at its rate has
    sixty), and then the poll runs, all in turn: it returns ESP_OK and, for each
    of the three sizes, the sum of the values of the good packets, which is
    exact, divided in single precision by their number; the accumulator is empty
    again.  (From 257 packets on the sums need not fit 24 bits and are
    rounded.) *)
Theorem poll_returns_averages ps s :
  Forall bytes_24 ps -> length (pm_buf s) = BUF_SIZE -> pm_accum s = pm_empty ->
  let good := filter packet_ok ps in
  (0 < length good <= 256)%nat ->
  let avg i j := f32_div (f32_of_Z (total i j good)) (f32_of_Z (Z.of_nat (length good))) in
  exists tr s', run (receive (length ps);; PMS_Poll) s (deliveries ps) =
    (tr, Done (ESP_OK, (avg 4%nat 5%nat, avg 6%nat 7%nat, avg 8%nat 9%nat)), s') /\
    pm_accum s' = pm_empty.
Proof.
  intros Hps Hb Hs good Hn avg. destruct (receive_run ps s Hps Hb) as (tr & s1 & Hr & Ha).
  rewrite Hs in Ha. fold good in Ha. unfold mbind, prog_bind.
  pose proof (poll_run good s1) as Hp. cbv zeta in Hp. rewrite Ha in Hp.
  assert (Forall packet_ok good) as Hgood.
  { apply Forall_forall. intros p Hin. by apply list_elem_of_filter in Hin as []. }
  specialize (Hp Hgood Hn eq_refl).
  pose proof (run_bind (fun _ : unit => PMS_Poll) _ _ _ _ _ _ [] Hr) as Hrb. rewrite app_nil_r in Hrb.
  rewrite Hrb. pose proof (run_more _ _ _ _ _ _ (drop (length tr) (deliveries ps)) Hp) as Hp2.
  cbn [app] in Hp2. rewrite Hp2. by eexists _, _.
Qed.

(** The other tasks may clear the accumulator at any moment: the timer's
    callback and the poll itself do. *)
Definition clears (s s' : pm) : Prop := s' = s \/ s' = set_accum pm_empty s.

(** There is no lock: a poll that has seen samples can return ESP_OK with three
    values that are not numbers, when the timer fires inside it. *)
Theorem poll_race s :
  sample_count (pm_accum s) <> 0 ->
  exists s', exec clears PMS_Poll s [] (Done (ESP_OK, (S754_nan, S754_nan, S754_nan))) s'.
Proof.
  intros Hc. eexists. unfold PMS_Poll, _pm_accum_rst. prog_simpl.
  eapply exec_get; [by left|]. rewrite (proj2 (Z.eqb_neq _ _)) by done. prog_simpl.
  eapply exec_get; [by right|]. eapply exec_get; [by left|]. eapply exec_get; [by left|].
  do 4 (eapply exec_upd; [by left|reflexivity|]).
  change (f32_div (pm1 (pm_accum (set_accum pm_empty s))) _) with S754_nan.
  change (f32_div (pm2_5 (pm_accum (set_accum pm_empty s))) _) with S754_nan.
  change (f32_div (pm10 (pm_accum (set_accum pm_empty s))) _) with S754_nan.
  constructor.
Qed.

(** The unused decoder shifts the high byte by [sizeof (uint8_t)], one bit: it
    disagrees with the one in use for every value of 256 and more. *)
Theorem unused_decoder_wrong h l :
  0 < h < 256 -> 0 <= l < 256 -> packet_word h l < 256 * h + l.
Proof.
  intros Hh Hl. unfold packet_word. rewrite Z.shiftl_mul_pow2 by lia.
  rewrite uwrap_small by lia. pose proof (Z.add_lor_land (h * 2 ^ 1) l).
  assert (0 <= Z.land (h * 2 ^ 1) l) by (apply Z.land_nonneg; lia). lia.
Qed.

(** ** Instances *)

Definition demo_packet (v : Z) : list Z :=
  [66; 77; 0; 20; 0; v; 1; 2; 0; 9] ++ replicate 12 0 ++ [0; 66 + 77 + 20 + v + 3 + 9].

Lemma demo_packet_ok : packet_ok (demo_packet 7).
Proof. apply (bool_decide_unpack _). by vm_compute. Qed.

Definition demo_pm : pm := Pm pm_empty (replicate BUF_SIZE 0).

Lemma get_packet_correct_witness :
  run get_packet_from_buffer (set_buf (demo_packet 7 ++ replicate 120 0) demo_pm) [ret_ 1]
  = ([(xTimerReset PM_TIMER, ret_ 1)], Done ESP_OK,
     Pm (PmData 1 (f32_of_Z 7) (f32_of_Z 258) (f32_of_Z 9)) (demo_packet 7 ++ replicate 120 0)).
Proof.
  rewrite (get_packet_correct (set_buf (demo_packet 7 ++ replicate 120 0) demo_pm) (demo_packet 7)
    (replicate 120 0)); [|done|done|forall_list].
  rewrite decide_True by exact demo_packet_ok. by vm_compute.
Defined.

(** Two packets and a spoiled one. *)
Definition demo_packets : list (list Z) := [demo_packet 7; <[5%nat := 8]> (demo_packet 7); demo_packet 9].

Lemma poll_returns_averages_witness :
  exists tr s', run (receive 3;; PMS_Poll) demo_pm (deliveries demo_packets) =
    (tr, Done (ESP_OK, (f32_of_Z 8, f32_of_Z 258, f32_of_Z 9)), s') /\ pm_accum s' = pm_empty.
Proof.
  assert (filter packet_ok demo_packets = [demo_packet 7; demo_packet 9]) as E by (vm_compute; reflexivity).
  pose proof (poll_returns_averages demo_packets demo_pm) as H. cbv zeta in H. rewrite E in H.
  destruct H as (tr & s' & H1 & H2); [|done|done|cbn; lia|].
  - repeat (apply Forall_cons_2; [split; [reflexivity|forall_list]|]). apply Forall_nil_2.
  - exists tr, s'. split; [|exact H2]. exact H1.
Defined.

Lemma poll_without_data_witness :
  run PMS_Poll demo_pm [] = ([], Done (ESP_FAIL, (minus_one, minus_one, minus_one)), demo_pm).
Proof. by apply poll_without_data. Defined.

Lemma corrupted_byte_detected_witness : ~ packet_ok (<[5%nat := 8]> (demo_packet 7)).
Proof.
  apply corrupted_byte_detected; [exact demo_packet_ok|vm_compute; lia|unfold is_byte; lia|done].
Defined.

Lemma uart_round_correct_witness :
  run uart_pm_event_mgr_round demo_pm [data_event; ret_bytes 24 (demo_packet 7); ret_ 1; ret_ 0] =
  ([(uart_queue_receive PM_UART_CH, data_event);
    (uart_read_bytes PM_UART_CH 24 None, ret_bytes 24 (demo_packet 7));
    (xTimerReset PM_TIMER, ret_ 1); (uart_flush_input PM_UART_CH, ret_ 0)], Done tt,
   Pm (PmData 1 (f32_of_Z 7) (f32_of_Z 258) (f32_of_Z 9)) (demo_packet 7 ++ replicate 120 0)).
Proof.
  pose proof (uart_round_correct (demo_packet 7) demo_pm data_event (ret_ 1) (ret_ 0)
    eq_refl ltac:(forall_list) eq_refl ltac:(done) eq_refl eq_refl) as H.
  rewrite decide_True in H by exact demo_packet_ok. exact H.
Defined.

Lemma poll_race_witness : exists s', exec clears PMS_Poll
  (set_accum (feed [demo_packet 7] pm_empty) demo_pm) []
  (Done (ESP_OK, (S754_nan, S754_nan, S754_nan))) s'.
Proof. apply poll_race. by vm_compute. Defined.

Lemma unused_decoder_wrong_witness : packet_word 1 0 = 2 /\ packet_word 1 0 < 256 * 1 + 0.
Proof. split; [by vm_compute|]. apply (unused_decoder_wrong 1 0); lia. Defined.
