(* ===== verification/Ota.v ===== *)
(** * Firmware updates over the air (ota_if.c)

    The MQTT task names a file and triggers the update; the OTA task downloads
    it into the inactive partition and makes that one boot. *)

From S2P Require Import Prelude CMem Ext.

Local Open Scope Z_scope.

Definition BUFFSIZE : nat := 1024.
Definition OTA_FILE_BN_LEN : nat := 64.
Definition OTA_TRIGGER_OTA_BIT : Z := BIT 0.

(** The static [ota_file_basename]. *)
Record ota := Ota { ota_file_basename : list Z }.

Abbreviation oprog := (cprog ota).

Definition ota_trigger : oprog unit := call_ (xEventGroupSetBits OTA_EG OTA_TRIGGER_OTA_BIT).

(** [fn] is the text passed. *)
Definition ota_set_filename (fn : list Z) : oprog unit :=
  update (fun s => b ← strcpy (ota_file_basename s) 0 fn; Some (Ota b)).

Definition _http_cleanup (client : Z) : oprog unit :=
  call_ (esp_http_client_close client);; call_ (esp_http_client_cleanup client).

Definition ota_url : list Z := lit "http://air.eng.utah.edu:80/files/updates/".

(** [sprintf (fn_path, "...%s", ota_file_basename)] *)
Definition ota_path (basename : list Z) : option (list Z) :=
  name ← cstr basename;
  b ← strcpy (replicate (64 + OTA_FILE_BN_LEN) 0) 0 (ota_url ++ name);
  cstr b.

(** The data of a read, as the buffer then holds it. *)
Definition read_data (a : answer) : list Z := resize (Z.to_nat (a_ret a)) 0 (a_bytes a).

(** The loop over the stream: was all of it received and written? *)
Fixpoint ota_receive (fuel : nat) (client update_handle : Z) : oprog bool :=
  match fuel with
  | O => Stop OutOfFuel
  | S fuel =>
      a ← call (esp_http_client_read client BUFFSIZE);
      if Z.ltb (a_ret a) 0 then mret false
      else if Z.ltb 0 (a_ret a) then
        w ← call (esp_ota_write update_handle (read_data a));
        if Z.eqb (a_ret w) ESP_OK then ota_receive fuel client update_handle else mret false
      else mret true
  end.

(** From a stored image to the restart. *)
Definition ota_activate (client update_partition : Z) : oprog Z :=
  running ← call esp_ota_get_running_partition;
  same ← call (esp_partition_check_identity (a_ret running) update_partition);
  if Z.eqb (a_ret same) 1 then mret ESP_FAIL
  else
    a ← call (esp_ota_set_boot_partition update_partition);
    if Z.eqb (a_ret a) ESP_OK then Stop Restart
    else _http_cleanup client;; mret ESP_FAIL.

Definition ota_download (fuel : nat) (client : Z) : oprog Z :=
  call_ (esp_http_client_fetch_headers client);;
  partition ← call esp_ota_get_next_update_partition;
  let update_partition := a_ret partition in
  if Z.eqb update_partition 0 then Stop UB       (* read before the assert *)
  else
    begun ← call (esp_ota_begin update_partition);
    if negb (Z.eqb (a_ret begun) ESP_OK) then _http_cleanup client;; mret ESP_FAIL
    else
      received ← ota_receive fuel client (a_val begun);
      if negb received then _http_cleanup client;; mret ESP_FAIL
      else
        ended ← call (esp_ota_end (a_val begun));
        if negb (Z.eqb (a_ret ended) ESP_OK) then _http_cleanup client;; mret ESP_FAIL
        else ota_activate client update_partition.

Definition _ota_commence (fuel : nat) : oprog Z :=
  name ← get (fun s => strlen (ota_file_basename s));
  len ← try name;
  if Nat.leb len 0 then mret ESP_FAIL
  else
    configured ← call esp_ota_get_boot_partition;
    running ← call esp_ota_get_running_partition;
    (if Z.eqb (a_ret running) 0 || Z.eqb (a_ret configured) 0 then Stop UB else mret tt);;   (* logged *)
    path ← get (fun s => ota_path (ota_file_basename s));
    fn_path ← try path;
    client ← call (esp_http_client_init fn_path);
    if Z.eqb (a_ret client) 0 then mret ESP_FAIL
    else
      opened ← call (esp_http_client_open (a_ret client));
      if negb (Z.eqb (a_ret opened) ESP_OK) then
        call_ (esp_http_client_cleanup (a_ret client));; mret ESP_FAIL
      else ota_download fuel (a_ret client).

Definition ota_task_start : oprog unit :=
  call_ (xEventGroupCreate OTA_EG);;
  update (fun s => b ← memset (ota_file_basename s) 0 0 OTA_FILE_BN_LEN; Some (Ota b));;
  call_ (xEventGroupClearBits OTA_EG OTA_TRIGGER_OTA_BIT).

Definition ota_task_round (fuel : nat) : oprog unit :=
  call_ (xEventGroupWaitBits OTA_EG OTA_TRIGGER_OTA_BIT true true None);;
  _ota_commence fuel;; mret tt.

(** ** The transfer *)

(** Chunks read and written, in order and without a failure. *)
Inductive transferring (client handle : Z) : ctrace -> Prop :=
  | transfer_start : transferring client handle []
  | transfer_chunk tr c w :
      transferring client handle tr -> 0 < a_ret c -> a_ret w = ESP_OK ->
      transferring client handle
        (tr ++ [(esp_http_client_read client BUFFSIZE, c);
                (esp_ota_write handle (read_data c), w)]).

(** A whole transfer: the stream ended after the last chunk. *)
Definition transfer_complete (client handle : Z) (tr : ctrace) : Prop :=
  exists t last, transferring client handle t /\ a_ret last = 0 /\
    tr = t ++ [(esp_http_client_read client BUFFSIZE, last)].

(** The calls so far stored an image in the partition [p]: it is the inactive
    one, it was opened for writing, a whole transfer was written to it, it was
    closed (which verifies the image) and it differs from the running one. *)
Definition image_stored (p : Z) (tr : ctrace) : Prop :=
  exists pre client next begun transfer ended running same,
    tr = pre ++ [(esp_ota_get_next_update_partition, next); (esp_ota_begin p, begun)] ++ transfer ++
         [(esp_ota_end (a_val begun), ended); (esp_ota_get_running_partition, running);
          (esp_partition_check_identity (a_ret running) p, same)] /\
    a_ret next = p /\ p <> 0 /\ a_ret begun = ESP_OK /\
    transfer_complete client (a_val begun) transfer /\
    a_ret ended = ESP_OK /\ a_ret same <> 1.

(** What every call must satisfy, and the end of a run. *)
Definition boot_discipline (h : ctrace) (e : ext) : Prop :=
  forall p, e = esp_ota_set_boot_partition p -> image_stored p h.

Definition restart_ok {X} (h : ctrace) (o : outcome X) : Prop :=
  o = Stopped Restart -> exists t p a, h = t ++ [(esp_ota_set_boot_partition p, a)] /\ a_ret a = ESP_OK.

Abbreviation boot_wp R p h s := (wp R (fun h _ e => boot_discipline h e) (fun h o _ => restart_ok h o) p h s).

Definition is_set_boot (e : ext) : bool :=
  match e with esp_ota_set_boot_partition _ => true | _ => false end.

Lemma boot_other h e : is_set_boot e = false -> boot_discipline h e.
Proof. intros He p ->. done. Qed.

Lemma restart_done {X} h (x : X) : restart_ok h (Done x).
Proof. by intros ?. Qed.

#[export] Hint Resolve boot_other restart_done : airu.

Lemma boot_cleanup R client (r : Z) h s :
  wp R (fun h _ e => boot_discipline h e) (fun h o _ => restart_ok h o)
    (_http_cleanup client;; mret r) h s.
Proof.
  unfold _http_cleanup, mbind, prog_bind, call_. cbn [bind wp].
  split; [auto with airu|]. intros a s1 _. split; [auto with airu|]. intros a2 s2 _.
  apply restart_done.
Qed.

Lemma boot_activate R client p pre c next begun transfer ended s :
  a_ret next = p -> p <> 0 -> a_ret begun = ESP_OK ->
  transfer_complete c (a_val begun) transfer -> a_ret ended = ESP_OK ->
  wp R (fun h _ e => boot_discipline h e) (fun h o _ => restart_ok h o) (ota_activate client p)
    (pre ++ [(esp_ota_get_next_update_partition, next); (esp_ota_begin p, begun)] ++ transfer ++
       [(esp_ota_end (a_val begun), ended)]) s.
Proof.
  intros Hn Hp Hb Ht He. unfold ota_activate, mbind, prog_bind, call. cbn [bind wp].
  split; [auto with airu|]. intros running s1 _. split; [auto with airu|]. intros same s2 _.
  destruct (Z.eqb_spec (a_ret same) 1) as [Hs|Hs]; [by apply restart_done|]. cbn [bind wp].
  split.
  - intros p' [= <-]. exists pre, c, next, begun, transfer, ended, running, same.
    split; [|done]. by rewrite <- !app_assoc.
  - intros a s3 _. destruct (Z.eqb_spec (a_ret a) ESP_OK) as [Ha|Ha].
    + intros _. by do 3 eexists.
    + apply boot_cleanup.
Qed.

Lemma boot_receive R fuel client handle t h0 s :
  transferring client handle t ->
  wp R (fun h _ e => boot_discipline h e)
    (fun h o _ => o <> Stopped Restart /\
       (o = Done true -> exists tr, h = h0 ++ tr /\ transfer_complete client handle tr))
    (ota_receive fuel client handle) (h0 ++ t) s.
Proof.
  revert t s. induction fuel as [|fuel IH]; intros t s Ht; [done|].
  cbn [ota_receive]. unfold mbind, prog_bind, call. cbn [bind wp].
  split; [auto with airu|]. intros a s1 _.
  destruct (Z.ltb_spec (a_ret a) 0) as [H1|H1]; [done|].
  destruct (Z.ltb_spec 0 (a_ret a)) as [H2|H2].
  - cbn [bind wp]. split; [auto with airu|]. intros w s2 _.
    destruct (Z.eqb_spec (a_ret w) ESP_OK) as [Hw|Hw]; [|done].
    rewrite <- !app_assoc. apply IH. by apply (transfer_chunk client handle t a w).
  - split; [done|]. intros _. exists (t ++ [(esp_http_client_read client BUFFSIZE, a)]).
    split; [by rewrite app_assoc|]. exists t, a. split_and!; [done|lia|done].
Qed.

Lemma boot_download R fuel client h s :
  wp R (fun h _ e => boot_discipline h e) (fun h o _ => restart_ok h o) (ota_download fuel client) h s.
Proof.
  unfold ota_download, mbind, prog_bind, call, call_. cbn [bind wp].
  split; [auto with airu|]. intros a0 s0 _. split; [auto with airu|]. intros next s1 _.
  destruct (Z.eqb_spec (a_ret next) 0) as [Hz|Hz]; [by intros ?|]. cbn [bind wp].
  split; [auto with airu|]. intros begun s2 _.
  destruct (Z.eqb_spec (a_ret begun) ESP_OK) as [Hb|Hb]; cbn [negb]; [|apply boot_cleanup].
  apply wp_bind. set (h1 := _ ++ [(esp_ota_begin _, begun)]). rewrite <- (app_nil_r h1).
  eapply wp_mono; [|apply boot_receive, transfer_start].
  intros h' [received|o|] s3 [Ho Hd]; cbn [wp_then]; [|intros [= ->]; by destruct Ho|done].
  destruct received; cbn [negb]; [|apply boot_cleanup].
  destruct (Hd eq_refl) as (tr & -> & Htr). cbn [bind wp].
  split; [auto with airu|]. intros ended s4 _.
  destruct (Z.eqb_spec (a_ret ended) ESP_OK) as [He|He]; cbn [negb]; [|apply boot_cleanup].
  assert (((h1 ++ tr) ++ [(esp_ota_end (a_val begun), ended)]) =
    (h ++ [(esp_http_client_fetch_headers client, a0)]) ++
    [(esp_ota_get_next_update_partition, next); (esp_ota_begin (a_ret next), begun)] ++ tr ++
    [(esp_ota_end (a_val begun), ended)]) as ->.
  { unfold h1. by rewrite <- !app_assoc. }
  by apply boot_activate with (c := client).
Qed.

Lemma boot_commence R fuel s :
  wp R (fun h _ e => boot_discipline h e) (fun h o _ => restart_ok h o) (_ota_commence fuel) [] s.
Proof.
  unfold _ota_commence, mbind, prog_bind, get, call, call_. cbn [bind wp]. intros s1 _.
  destruct (strlen (ota_file_basename s1)) as [n|]; cbn [try bind]; [|by intros ?].
  destruct (Nat.leb n 0); [apply restart_done|]. cbn [bind wp].
  split; [auto with airu|]. intros a1 s2 _. split; [auto with airu|]. intros a2 s3 _.
  destruct (_ || _); [by intros ?|]. cbn [mret prog_ret bind wp]. intros s4 _.
  destruct (ota_path (ota_file_basename s4)) as [path|]; cbn [try bind]; [|by intros ?]. cbn [wp].
  split; [auto with airu|]. intros client s5 _.
  destruct (Z.eqb_spec (a_ret client) 0) as [Hc|Hc]; [apply restart_done|]. cbn [bind wp].
  split; [auto with airu|]. intros opened s6 _.
  destruct (Z.eqb_spec (a_ret opened) ESP_OK) as [Ho|Ho]; cbn [negb]; [apply boot_download|].
  cbn [bind wp]. split; [auto with airu|]. intros a3 s7 _. apply restart_done.
Qed.

(** ** Theorems *)

(** C8: Whatever the network, the flash and the other tasks do: the boot partition
    is set only after a complete image was stored in it, and the device
    restarts only when that was accepted. *)
Theorem boot_only_complete_image R fuel s tr o s' :
  exec R (_ota_commence fuel) s tr o s' ->
  (forall t1 p a t2, tr = t1 ++ (esp_ota_set_boot_partition p, a) :: t2 -> image_stored p t1) /\
  (o = Stopped Restart -> exists t p a, tr = t ++ [(esp_ota_set_boot_partition p, a)] /\
     a_ret a = ESP_OK).
Proof.
  intros He. destruct (wp_exec _ _ _ _ _ _ _ _ _ (boot_commence R fuel s) He) as [HQ HG]. split.
  - intros t1 p a t2 Ht. destruct (HG _ _ _ _ Ht) as [_ H]. by apply H.
  - intros ->. by apply HQ.
Qed.

(** The answers of a stream: chunks and the results of their writes. *)
Definition stream (chunks : list (list Z)) : list answer :=
  chunks ≫= (fun c => [ret_bytes (Z.of_nat (length c)) c; ret_ ESP_OK]).

(** The data handed to the partition, in order. *)
Definition ota_written (tr : ctrace) : list Z :=
  tr ≫= (fun c => match fst c with esp_ota_write _ d => d | _ => [] end).

(** C36: A stream of chunks that ends is received to its end, with fuel for one more
    read than chunks, and exactly its bytes are written. *)
Theorem ota_receive_stream fuel client handle chunks s :
  Forall (fun c => c <> []) chunks -> (length chunks < fuel)%nat ->
  exists tr, run (ota_receive fuel client handle) s (stream chunks ++ [ret_ 0]) = (tr, Done true, s) /\
    ota_written tr = concat chunks.
Proof.
  intros Hc. revert fuel. induction Hc as [|c chunks Hne _ IH]; intros fuel Hf.
  - destruct fuel; [lia|]. cbn. by eexists.
  - destruct fuel as [|fuel]; [simpl in Hf; lia|]. simpl in Hf.
    destruct (IH fuel) as (tr & Hr & Hw); [lia|].
    cbn [ota_receive stream mbind list_bind app]. unfold mbind, prog_bind, call. cbn [bind run].
    cbn [a_ret ret_bytes]. assert (0 < Z.of_nat (length c)) as Hlen.
    { destruct c; [done|]. simpl. lia. }
    rewrite (proj2 (Z.ltb_ge _ _)), (proj2 (Z.ltb_lt _ _)) by lia. cbn [bind run a_ret ret_].
    change (ESP_OK =? ESP_OK) with true.
    change (list_bind _ _ _ chunks) with (stream chunks). cbv iota.
    rewrite Hr. eexists. split; [done|].
    unfold ota_written in *. cbn [mbind list_bind fst app]. unfold read_data at 1.
    cbn [a_ret a_bytes ret_bytes]. rewrite Nat2Z.id, resize_all.
    cbn [concat]. f_equal. done.
Qed.

(** An image equal to the running one ends the update without releasing the
    HTTP client, which every other way out of the download does. *)
Theorem same_image_keeps_client client p s running same :
  a_ret same = 1 ->
  run (ota_activate client p) s [running; same] =
  ([(esp_ota_get_running_partition, running);
    (esp_partition_check_identity (a_ret running) p, same)], Done ESP_FAIL, s).
Proof.
  intros Hs. unfold ota_activate, mbind, prog_bind, call. cbn [bind run]. by rewrite Hs.
Qed.

Lemma set_filename_run s fn : length (ota_file_basename s) = OTA_FILE_BN_LEN -> nonzero fn ->
  if Nat.ltb (length fn) OTA_FILE_BN_LEN
  then exists b, run (ota_set_filename fn) s [] = ([], Done tt, Ota b) /\ length b = OTA_FILE_BN_LEN /\
         ota_path b = Some (ota_url ++ fn)
  else run (ota_set_filename fn) s [] = ([], Stopped UB, s).
Proof.
  intros Hl Hn. unfold ota_set_filename. prog_simpl. destruct (Nat.ltb_spec (length fn) OTA_FILE_BN_LEN) as [Hf|Hf].
  - destruct (strcpy (ota_file_basename s) 0 fn) as [b|] eqn:E; [|apply strcpy_none in E; lia].
    exists b. split; [done|]. split; [by apply strcpy_length in E as ->|].
    apply strcpy_cstr in E; [|done]. unfold ota_path. rewrite E.
    cbn [mbind option_bind]. apply strcpy_room.
    + apply nonzero_app; [|done]. by apply nonzero_const.
    + rewrite length_app. change (length ota_url) with 41%nat. unfold OTA_FILE_BN_LEN in *. lia.
  - rewrite (proj2 (strcpy_none _ _ _)) by lia. done.
Qed.

(** A file name handed over by [ota_set_filename] that fits is the one the next
    update asks for; a longer one is written past the buffer. *)
Theorem ota_filename s fn :
  length (ota_file_basename s) = OTA_FILE_BN_LEN -> nonzero fn ->
  ((length fn < OTA_FILE_BN_LEN)%nat ->
     exists b, run (ota_set_filename fn) s [] = ([], Done tt, Ota b) /\
       ota_path b = Some (ota_url ++ fn)) /\
  ((OTA_FILE_BN_LEN <= length fn)%nat -> run (ota_set_filename fn) s [] = ([], Stopped UB, s)).
Proof.
  intros Hl Hn. pose proof (set_filename_run s fn Hl Hn) as H.
  split; intros Hf; destruct (Nat.ltb_spec (length fn) OTA_FILE_BN_LEN); try lia; [|done].
  destruct H as (b & Hr & _ & Hp). by exists b.
Qed.

(** ** Instances *)

Definition demo_ota : ota := Ota (lit "fw.bin" ++ replicate 58 0).

Definition update_answers : list answer :=
  [ret_ 4; ret_ 4; ret_ 1; ret_ ESP_OK; ret_ 0; ret_ 5; ret_val ESP_OK 9] ++
  stream [[233; 1]; [2]] ++ [ret_ 0; ret_ ESP_OK; ret_ 4; ret_ 0; ret_ ESP_OK].

Lemma boot_only_complete_image_witness :
  let '(tr, o, _) := run (_ota_commence 5) demo_ota update_answers in
  o = Stopped Restart /\ exists t p a, tr = t ++ [(esp_ota_set_boot_partition p, a)] /\ image_stored p t.
Proof.
  destruct (run (_ota_commence 5) demo_ota _) as [[tr o] s'] eqn:E.
  assert (o = Stopped Restart) as -> by (vm_compute in E; congruence). split; [done|].
  destruct (boot_only_complete_image eq 5 _ _ _ _ (run_exec _ _ _ _ _ _ E)) as [H1 H2].
  destruct (H2 eq_refl) as (t & p & a & -> & Ha). exists t, p, a. split; [done|].
  by apply (H1 t p a []).
Defined.

Lemma ota_receive_stream_witness :
  exists tr, run (ota_receive 3 1 9) demo_ota (stream [[233; 1]; [2]] ++ [ret_ 0]) = (tr, Done true, demo_ota)
    /\ ota_written tr = [233; 1; 2].
Proof.
  apply (ota_receive_stream 3 1 9 [[233; 1]; [2]] demo_ota); [by repeat constructor|cbn; lia].
Defined.

Lemma same_image_keeps_client_witness :
  run (ota_activate 1 5) demo_ota [ret_ 4; ret_ 1] =
  ([(esp_ota_get_running_partition, ret_ 4); (esp_partition_check_identity 4 5, ret_ 1)],
   Done ESP_FAIL, demo_ota).
Proof. by apply (same_image_keeps_client 1 5 demo_ota (ret_ 4) (ret_ 1)). Defined.

Lemma ota_filename_witness :
  exists b, run (ota_set_filename (lit "v2.bin")) demo_ota [] = ([], Done tt, Ota b) /\
    ota_path b = Some (lit "http://air.eng.utah.edu:80/files/updates/v2.bin").
Proof.
  apply (ota_filename demo_ota (lit "v2.bin")); [done|by apply nonzero_const|vm_compute; lia].
Defined.
