(* ===== verification/Gps.v ===== *)
(** * The GPS receiver (gps_if.c)

    The UART task hands every line of the receiver to [parse], which checks it
    and keeps the position of a GGA sentence and the date of an RMC sentence;
    the data task polls them.

    A [char *] into a sentence is the memory from there on, a [list Z].  [char]
    is unsigned, as on the ESP32.  The values the code computes and never uses
    (milliseconds, HDOP, speed, ...) are left out. *)

From Stdlib Require Import SpecFloat Reals Lra.
From S2P Require Import Prelude CMem Printf Ext Float32 Rounding Atof Led.

Local Open Scope Z_scope.

Definition GPS_UART_NUM : Z := 1.
Definition GPS_TX_GPIO : Z := 22.
Definition GPS_RX_GPIO : Z := 23.
Definition MAX_SENTENCE_LEN : nat := 1024.

Record esp_gps_t := EspGps {
  lat : float32; lon : float32; alt : float32;
  year : Z; month : Z; day : Z;
  hour : Z; min : Z; sec : Z
}.

(** The statics [esp_gps] and [nmea]. *)
Record gps := Gps { esp_gps : esp_gps_t; nmea : list Z }.

Abbreviation gprog := (cprog gps).

Definition gps_start : gps :=
  Gps (EspGps (f32_of_Z (-1)) (f32_of_Z (-1)) (f32_of_Z (-1)) 0 0 0 0 0 0)
    (replicate MAX_SENTENCE_LEN 0).

Definition on_fix (f : esp_gps_t -> esp_gps_t) (s : gps) : gps := Gps (f (esp_gps s)) (nmea s).
Definition set_nmea (b : list Z) (s : gps) : gps := Gps (esp_gps s) b.

Definition set_alt v g := EspGps (lat g) (lon g) v (year g) (month g) (day g) (hour g) (min g) (sec g).
Definition set_lat v g := EspGps v (lon g) (alt g) (year g) (month g) (day g) (hour g) (min g) (sec g).
Definition set_lon v g := EspGps (lat g) v (alt g) (year g) (month g) (day g) (hour g) (min g) (sec g).
Definition set_year v g := EspGps (lat g) (lon g) (alt g) v (month g) (day g) (hour g) (min g) (sec g).
Definition set_month v g := EspGps (lat g) (lon g) (alt g) (year g) v (day g) (hour g) (min g) (sec g).
Definition set_day v g := EspGps (lat g) (lon g) (alt g) (year g) (month g) v (hour g) (min g) (sec g).
Definition set_hour v g := EspGps (lat g) (lon g) (alt g) (year g) (month g) (day g) v (min g) (sec g).
Definition set_min v g := EspGps (lat g) (lon g) (alt g) (year g) (month g) (day g) (hour g) v (sec g).
Definition set_sec v g := EspGps (lat g) (lon g) (alt g) (year g) (month g) (day g) (hour g) (min g) v.

(** ** The checksum *)

Definition parseHex (c : Z) : Z :=
  if Z.ltb c 48 then 0
  else if Z.leb c 57 then c - 48
  else if Z.ltb c 65 then 0
  else if Z.leb c 70 then c - 65 + 10
  else 0.

(** [nmea\[strlen (nmea) - k\]]: before the array when the text is shorter. *)
Definition from_end (b : list Z) (k : nat) : option Z :=
  n ← strlen b; if Nat.ltb n k then None else b !! (n - k)%nat.

(** [for (uint8_t i = ...; i < bound; i++) sum ^= nmea\[i\];] *)
Fixpoint xor_loop (fuel : nat) (b : list Z) (bound i sum : Z) : gprog Z :=
  match fuel with
  | O => Stop OutOfFuel
  | S fuel =>
      if Z.ltb i bound then
        c ← try (b !! Z.to_nat i); xor_loop fuel b bound (u8 (i + 1)) (Z.lxor sum c)
      else mret sum
  end.

(** The first test of [parse]: may the sentence be used? *)
Definition checksum_passes (fuel : nat) (b : list Z) : gprog bool :=
  star ← try (from_end b 4);
  if Z.eqb star 42 then
    h1 ← try (from_end b 3);
    h2 ← try (from_end b 2);
    n ← try (strlen b);
    let sum := u16 (u16 (parseHex h1 * 16) + parseHex h2) in
    sum ← xor_loop fuel b (Z.of_nat n - 4) 2 sum;
    mret (Z.eqb sum 0)
  else mret true.

(** ** Fields *)

(** [strchr (p, ',') + 1]; without a comma the code dereferences NULL + 1. *)
Definition next_field (p : list Z) : option (list Z) :=
  s ← cstr p; n ← strchr s 44; Some (drop (S n) p).

(** A field the code only looks at. *)
Definition skip_field (p : list Z) : option (list Z) :=
  q ← next_field p; _ ← head q; Some q.

Definition float_field (p : list Z) : option float64 := atof <$> cstr p.

(** [timef], then hours, minutes and seconds *)
Definition parse_time (p : list Z) : option (Z * Z * Z) :=
  v ← float_field p;
  let timef := f32_of_f64 v in
  time ← float_to_u32 timef;
  Some (u8 (time / 10000), u8 ((time mod 10000) / 100), u8 (time mod 100)).

(** The constant 0.000006F. *)
Definition six_micro : float32 := f32_div (f32_of_Z 6) (f32_of_Z 1000000).

(** [degree] and [minutes] in 1e-7 degrees, to degrees. *)
Definition degrees_of (degree minutes : Z) : option float32 :=
  let latitude := f32_add (f32_of_Z (Z.quot degree 100000)) (f32_mul (f32_of_Z minutes) six_micro) in
  h ← float_to_s32 (f32_div latitude (f32_of_Z 100));
  let rest := f32_sub latitude (f32_of_Z (100 * h)) in
  let d := f32_of_f64 (f64_div (f64_of_f32 rest) (f64_of_Z 60)) in
  Some (f32_add d (f32_of_Z h)).

(** A coordinate with [w] digits of degrees: its degrees and where reading
    stopped. *)
Definition coordinate (w : nat) (p : list Z) : option (float32 * list Z) :=
  let degreebuff := replicate 10 0 in     (* never read before it is written *)
  degreebuff ← strncpy degreebuff 0 p w;
  let p := drop w p in
  degreebuff ← store degreebuff w 0;
  text ← cstr degreebuff;
  degree ← int32 (atol text * 10000000);
  degreebuff ← strncpy degreebuff 0 p 2;
  let p := drop 3 p in
  degreebuff ← strncpy degreebuff 2 p 4;
  degreebuff ← store degreebuff 6 0;
  text ← cstr degreebuff;
  fifty ← int32 (50 * atol text);
  let minutes := Z.quot fifty 3 in
  _ ← int32 (degree + minutes);
  d ← degrees_of degree minutes;
  Some (d, p).

(** The field may be empty: the value is then the initial 0. *)
Definition coordinate_field (w : nat) (p : list Z) : option (float32 * list Z) :=
  c ← head p;
  if Z.eqb c 44 then Some (f32_of_Z 0, p) else coordinate w p.

(** The hemisphere letter: [None] where the code returns ESP_FAIL. *)
Definition hemisphere (neg pos : Z) (p : list Z) (d : float32) : option (option float32) :=
  c ← head p;
  Some (if Z.eqb c 44 then Some d
        else if Z.eqb c neg then Some (SFopp d)
        else if Z.eqb c pos then Some d
        else None).

(** ** Sentences *)

Definition altitude_field (p : list Z) : option float32 :=
  c ← head p;
  if Z.eqb c 44 then Some (f32_of_Z 0) else f32_of_f64 <$> float_field p.

(** The fields of a GGA sentence after the longitude: the altitude. *)
Definition gga_altitude (p : list Z) : option float32 :=
  p ← skip_field p;          (* fix quality *)
  p ← skip_field p;          (* satellites *)
  p ← skip_field p;          (* HDOP *)
  p ← next_field p;
  altitude ← altitude_field p;
  p ← next_field p;
  _ ← skip_field p;          (* geoid height *)
  Some altitude.

(** Latitude and longitude with their hemispheres, from the field before them;
    the inner [None] is ESP_FAIL. *)
Definition position (p : list Z) : option (option (float32 * float32 * list Z)) :=
  p ← next_field p;
  '(latitudeDegrees, p) ← coordinate_field 2 p;
  p ← next_field p;
  ns ← hemisphere 83 78 p latitudeDegrees;
  if ns is Some latitudeDegrees then
    p ← next_field p;
    '(longitudeDegrees, p) ← coordinate_field 3 p;
    p ← next_field p;
    ew ← hemisphere 87 69 p longitudeDegrees;
    Some (if ew is Some longitudeDegrees then Some (latitudeDegrees, longitudeDegrees, p) else None)
  else Some None.

Definition parse_gga (b : list Z) : gprog Z :=
  p ← try (next_field b);
  t ← try (parse_time p);
  let '(hour, minute, seconds) := t in
  pos ← try (position p);
  match pos with
  | None => mret ESP_FAIL
  | Some (latitudeDegrees, longitudeDegrees, p) =>
      altitude ← try (gga_altitude p);
      modify (on_fix (set_alt altitude));;
      modify (on_fix (set_lat latitudeDegrees));;
      modify (on_fix (set_lon longitudeDegrees));;
      modify (on_fix (set_hour hour));;
      modify (on_fix (set_min minute));;
      modify (on_fix (set_sec seconds));;
      mret ESP_OK
  end.

(** The date field: day, month, year. *)
Definition rmc_date (p : list Z) : option (Z * Z * Z) :=
  p ← skip_field p;          (* speed *)
  p ← skip_field p;          (* angle *)
  p ← next_field p;
  c ← head p;
  if Z.eqb c 44 then Some (0, 0, 0)
  else
    v ← float_field p;
    fulldate ← float_to_u32 v;
    Some (u8 (fulldate / 10000), u8 ((fulldate mod 10000) / 100), u8 (fulldate mod 100)).

Definition parse_rmc (b : list Z) : gprog Z :=
  p ← try (next_field b);
  t ← try (parse_time p);
  let '(hour, minute, seconds) := t in
  p ← try (next_field p);
  c ← try (head p);
  if negb (Z.eqb c 65 || Z.eqb c 86) then mret ESP_FAIL
  else
    pos ← try (position p);
    match pos with
    | None => mret ESP_FAIL
    | Some (_, _, p) =>
        date ← try (rmc_date p);
        let '(day, month, year) := date in
        modify (on_fix (set_day day));;
        modify (on_fix (set_month month));;
        modify (on_fix (set_year year));;
        modify (on_fix (set_hour hour));;
        modify (on_fix (set_min minute));;
        modify (on_fix (set_sec seconds));;
        when (Z.ltb year 80) (LED_SetEventBit LED_EVENT_GPS_RTC_SET_BIT);;
        mret ESP_OK
    end.

(** [parse (nmea)]; the fuel is for the loop of the checksum. *)
Definition parse (fuel : nat) (b : list Z) : gprog Z :=
  ok ← checksum_passes fuel b;
  if negb ok then mret 0         (* false *)
  else
    text ← try (cstr b);
    if strstr text (lit "$GPGGA") is Some _ then parse_gga b
    else if strstr text (lit "$GPRMC") is Some _ then parse_rmc b
    else mret ESP_FAIL.

(** ** The UART task, the start and the poll *)

(** [uart_event_type_t] *)
Definition UART_BUFFER_FULL : Z := 2.
Definition UART_FIFO_OVF : Z := 3.
Definition UART_PATTERN_DET : Z := 7.

(** A line was seen: read it and parse it. *)
Definition read_sentence (fuel : nat) : gprog unit :=
  call_ (uart_get_buffered_data_len GPS_UART_NUM);;
  popped ← call (uart_pattern_pop_pos GPS_UART_NUM);
  let pos := a_ret popped in
  if negb (Z.eqb pos (-1)) then
    a ← call (uart_read_bytes GPS_UART_NUM (pos + 1) (Some (100 / portTICK_PERIOD_MS)));
    let read_len := a_ret a in
    update (fun s => b ← write (nmea s) 0 (a_bytes a); Some (set_nmea b s));;
    update (fun s => if Z.ltb read_len 0 then None
                     else b ← store (nmea s) (Z.to_nat read_len) 0; Some (set_nmea b s));;
    b ← get nmea;
    parse fuel b;; mret tt
  else call_ (uart_flush_input GPS_UART_NUM).

(** One round of [uart_gps_event_mgr]. *)
Definition uart_gps_event_mgr_round (fuel : nat) : gprog unit :=
  a ← call (uart_queue_receive GPS_UART_NUM);
  when (negb (Z.eqb (a_ret a) 0))
    (update (fun s => b ← memset (nmea s) 0 0 MAX_SENTENCE_LEN; Some (set_nmea b s));;
     if Z.eqb (a_val a) UART_FIFO_OVF || Z.eqb (a_val a) UART_BUFFER_FULL then
       call_ (uart_flush_input GPS_UART_NUM);; call_ (uart_queue_reset GPS_UART_NUM)
     else if Z.eqb (a_val a) UART_PATTERN_DET then read_sentence fuel
     else mret tt).

Local Open Scope airu_scope.

Definition GPS_Initialize : gprog Z :=
  (_ <-? uart_param_config GPS_UART_NUM 9600;
   _ <-? uart_set_pin GPS_UART_NUM GPS_TX_GPIO GPS_RX_GPIO;
   _ <-? uart_driver_install GPS_UART_NUM (Z.of_nat MAX_SENTENCE_LEN * 2) 0 20;
   call_ (uart_enable_pattern_det_intr GPS_UART_NUM 10);;
   call_ (uart_pattern_queue_reset GPS_UART_NUM 20);;
   call_ (uart_flush GPS_UART_NUM);;
   call_ (xTaskCreate (lit "uart_pms_event_task") 2048 12);;
   LED_SetEventBit LED_EVENT_GPS_RTC_NOT_SET_BIT;;
   mret ESP_OK).

Definition GPS_Tx (pmtk : list Z) : gprog unit := call_ (uart_write_bytes GPS_UART_NUM pmtk).

(** Field by field: the UART task may write in between. *)
Definition GPS_Poll : gprog esp_gps_t :=
  a ← get (fun s => alt (esp_gps s));
  la ← get (fun s => lat (esp_gps s));
  lo ← get (fun s => lon (esp_gps s));
  y ← get (fun s => year (esp_gps s));
  mo ← get (fun s => month (esp_gps s));
  d ← get (fun s => day (esp_gps s));
  h ← get (fun s => hour (esp_gps s));
  mi ← get (fun s => min (esp_gps s));
  se ← get (fun s => sec (esp_gps s));
  mret (EspGps la lo a y mo d h mi se).

Local Close Scope airu_scope.

(** ** Reading well-formed fields *)

(** The text of a field. *)
Definition field_text (f : list Z) : Prop := Forall (fun c => c <> 0 /\ c <> 44) f.

Lemma field_text_nonzero f : field_text f -> nonzero f.
Proof. intros H. eapply Forall_impl; [exact H|]. by intros c []. Qed.

Lemma field_text_comma f : field_text f -> Forall (fun c => c <> 44) f.
Proof. intros H. eapply Forall_impl; [exact H|]. by intros c []. Qed.

#[local] Hint Resolve field_text_nonzero : airu.

Lemma field_text_const f :
  forallb (fun c => negb (Z.eqb c 0) && negb (Z.eqb c 44)) f = true -> field_text f.
Proof.
  intros H. apply Forall_forall. intros c Hc. rewrite forallb_forall in H.
  apply list_elem_of_In, H in Hc. zify_bool. done.
Qed.

(** A pointer into a sentence: what is left of it, its NUL and what follows. *)
Definition at_text (t r : list Z) : list Z := t ++ 0 :: r.

(** The fields from a comma on. *)
Fixpoint fields (fs : list (list Z)) : list Z :=
  match fs with [] => [] | f :: fs => 44 :: f ++ fields fs end.

Lemma nonzero_fields fs : Forall field_text fs -> nonzero (fields fs).
Proof.
  induction 1 as [|f fs Hf _ IH]; cbn [fields]; [constructor|].
  constructor; [done|]. apply nonzero_app; auto with airu.
Qed.

Lemma next_field_at f g fs r : field_text f -> Forall field_text (g :: fs) ->
  next_field (at_text (f ++ fields (g :: fs)) r) = Some (at_text (g ++ fields fs) r).
Proof.
  intros Hf Hg. unfold next_field, at_text. rewrite cstr_app.
  - cbn [mbind option_bind fields]. rewrite strchr_app by by apply field_text_comma.
    cbn [mbind option_bind]. rewrite <- app_assoc. cbn [app]. f_equal.
    rewrite (app_assoc f [44] ((g ++ fields fs) ++ 0 :: r) : f ++ 44 :: _ = _).
    by apply drop_app_exact; rewrite length_app; cbn [length]; lia.
  - apply nonzero_app; [auto with airu|by apply nonzero_fields].
Qed.

Lemma head_at g fs r : head (at_text (g ++ fields fs) r) =
  Some match g with c :: _ => c | [] => match fs with [] => 0 | _ => 44 end end.
Proof. destruct g as [|c g]; [|done]. by destruct fs. Qed.

Lemma skip_field_at f g fs r : field_text f -> Forall field_text (g :: fs) ->
  skip_field (at_text (f ++ fields (g :: fs)) r) = Some (at_text (g ++ fields fs) r).
Proof.
  intros Hf Hg. unfold skip_field. rewrite next_field_at by done. cbn [mbind option_bind].
  by rewrite head_at.
Qed.

Lemma float_field_at g fs r : field_text g -> Forall field_text fs ->
  float_field (at_text (g ++ fields fs) r) = Some (atof (g ++ fields fs)).
Proof.
  intros Hg Hf. unfold float_field, at_text. rewrite cstr_app; [done|].
  apply nonzero_app; [auto with airu|by apply nonzero_fields].
Qed.

Lemma all_digits_text ds : all_digits ds -> field_text ds.
Proof.
  intros H. eapply Forall_impl; [exact H|]. intros c Hc. simpl in Hc. unfold is_digit in Hc.
  zify_bool. lia.
Qed.

#[local] Hint Resolve all_digits_text : airu.

Lemma field_text_app f g : field_text f -> field_text g -> field_text (f ++ g).
Proof. apply Forall_app_2. Qed.

Lemma spelled_range acc ds : all_digits ds -> 0 <= acc ->
  acc * 10 ^ Z.of_nat (length ds) <= spelled acc ds < (acc + 1) * 10 ^ Z.of_nat (length ds).
Proof.
  intros H. revert acc. induction H as [|c ds Hc _ IH]; intros acc Ha.
  - cbn. lia.
  - change (spelled acc (c :: ds)) with (spelled (acc * 10 + (c - 48)) ds).
    unfold is_digit in Hc. zify_bool. cbn [length]. rewrite Nat2Z.inj_succ, Z.pow_succ_r by lia.
    destruct (IH (acc * 10 + (c - 48))) as [H1 H2]; [lia|].
    pose proof (Z.pow_pos_nonneg 10 (Z.of_nat (length ds))). nia.
Qed.

Lemma spelled_split acc b : spelled acc b = acc * 10 ^ Z.of_nat (length b) + spelled 0 b.
Proof.
  revert acc. induction b as [|c b IH]; intros acc; [cbn; lia|].
  change (spelled acc (c :: b)) with (spelled (acc * 10 + (c - 48)) b).
  change (spelled 0 (c :: b)) with (spelled (0 * 10 + (c - 48)) b).
  rewrite IH, (IH (0 * 10 + (c - 48))). cbn [length].
  rewrite Nat2Z.inj_succ, Z.pow_succ_r by lia. ring.
Qed.

(** Six digits, two by two. *)
Lemma three_pairs a b c :
  all_digits a -> all_digits b -> all_digits c ->
  length a = 2%nat -> length b = 2%nat -> length c = 2%nat ->
  let n := spelled 0 (a ++ b ++ c) in
  0 <= n < 10 ^ 6 /\ n / 10000 = spelled 0 a /\ (n mod 10000) / 100 = spelled 0 b /\
  n mod 100 = spelled 0 c /\ 0 <= spelled 0 a < 100 /\ 0 <= spelled 0 b < 100 /\
  0 <= spelled 0 c < 100.
Proof.
  intros Ha Hb Hc La Lb Lc. cbv zeta.
  pose proof (spelled_range 0 a Ha) as Ra. pose proof (spelled_range 0 b Hb) as Rb.
  pose proof (spelled_range 0 c Hc) as Rc. rewrite La, Lb, Lc in *.
  change (10 ^ Z.of_nat 2) with 100 in *.
  assert (spelled 0 (a ++ b ++ c) = spelled 0 a * 10000 + (spelled 0 b * 100 + spelled 0 c)) as ->.
  { rewrite !spelled_app, (spelled_split (spelled _ b)), (spelled_split (spelled 0 a)), Lb, Lc.
    change (10 ^ Z.of_nat 2) with 100. ring. }
  set (x := spelled 0 a) in *. set (y := spelled 0 b) in *. set (z := spelled 0 c) in *.
  rewrite (Z.add_comm (x * 10000)).
  rewrite Z.div_add, Z_mod_plus_full by lia. rewrite (Z.mod_small (y * 100 + z) 10000) by lia.
  rewrite (Z.div_small (y * 100 + z) 10000) by lia.
  replace (y * 100 + z + x * 10000) with (z + (y + x * 100) * 100) by ring.
  rewrite Z_mod_plus_full, (Z.mod_small z 100) by lia.
  rewrite (Z.add_comm (y * 100) z), Z.div_add, (Z.div_small z 100) by lia. lia.
Qed.

(** Two digits each for the three parts. *)
Definition pairs_text (a b c : list Z) : Prop :=
  (all_digits a /\ length a = 2%nat) /\ (all_digits b /\ length b = 2%nat) /\
  (all_digits c /\ length c = 2%nat).

Lemma pairs_digits a b c : pairs_text a b c -> all_digits (a ++ b ++ c) /\ a ++ b ++ c <> [].
Proof.
  intros ([Ha La] & [Hb _] & [Hc _]). split; [by repeat apply Forall_app_2|]. by destruct a.
Qed.

Lemma u8_pair n : 0 <= n < 100 -> u8 n = n.
Proof. intros. apply uwrap_small. lia. Qed.

Lemma fields_number_end fs : number_end (fields fs).
Proof. by destruct fs. Qed.

(** A fraction below [97 / 100]: the single-precision time is then still in
    its second (see [second_sixty]). *)
Definition fraction_ok (o : option (list Z)) : Prop :=
  all_digits (decimals o) /\ (length (decimals o) <= 9)%nat /\
  100 * spelled 0 (decimals o) < 97 * 10 ^ Z.of_nat (length (decimals o)).

Lemma fraction_text o : fraction_ok o -> field_text (fraction o).
Proof.
  destruct o as [fs|]; [|constructor]. intros (H & _). constructor; [lia|by apply all_digits_text].
Qed.

(** The double nearest to [m] with [k] decimals. *)
Lemma f64_decimal_near m (k : nat) y : 0 <= m < 2 ^ 53 -> (k <= 9)%nat ->
  (y * IZR (10 ^ Z.of_nat k) = IZR m)%R -> (y <= 1000000000)%R ->
  exists w, fl prec64 (f64_decimal m (0 - Z.of_nat k)) w /\ near prec64 w y.
Proof.
  intros Hm Hk Hy Hy9. assert (0 < 10 ^ Z.of_nat k <= 10 ^ 9) as [P1 P2].
  { split; [apply Z.pow_pos_nonneg; lia|apply Z.pow_le_mono_r; lia]. }
  assert (0 < IZR (10 ^ Z.of_nat k) <= 1000000000)%R as [R1 R2].
  { split; [by apply IZR_lt|]. apply IZR_le. exact P2. }
  destruct m as [|p|p]; [| |lia].
  - assert (y = 0)%R as -> by nra. exists 0%R. split; [done|]. apply near_same. lra.
  - assert (1 <= IZR (Zpos p))%R as Hp by (apply IZR_le; lia). unfold f64_decimal.
    destruct k as [|k].
    + rewrite Z.mul_1_r. exists (IZR (Zpos p)). split; [by apply (fl64_Z (Zpos p))|].
      change (10 ^ Z.of_nat 0) with 1 in Hy. replace y with (IZR (Zpos p)) by lra. apply near_same. lra.
    + rewrite (proj2 (Z.leb_gt _ _)) by lia.
      replace (- (0 - Z.of_nat (S k))) with (Z.of_nat (S k)) by lia.
      apply fl_quotient; [apply format64|apply format64| |apply ordinary_between; split; nra].
      rewrite Z2Pos.id by done. change (pow2 0) with 1%R. lra.
Qed.

(** The number [n] with the decimals [o], as real numbers. *)
Lemma decimal_value n o : all_digits (decimals o) -> 0 <= n ->
  exists f, (0 <= f < 1)%R /\
    ((IZR n + f) * IZR (10 ^ Z.of_nat (length (decimals o))) =
       IZR (n * 10 ^ Z.of_nat (length (decimals o)) + spelled 0 (decimals o)))%R /\
    (fraction_ok o -> (f <= 97 / 100)%R /\ (f = 0 \/ / 1000000000 <= f)%R).
Proof.
  intros Ho Hn. pose proof (spelled_range 0 (decimals o) Ho ltac:(lia)) as Hr.
  set (k := 10 ^ Z.of_nat (length (decimals o))) in *. set (v := spelled 0 (decimals o)) in *.
  assert (0 < k) as Hk by (apply Z.pow_pos_nonneg; lia). assert (0 < IZR k)%R as Rk by by apply IZR_lt.
  assert (IZR v = IZR v / IZR k * IZR k)%R as E by (field; lra). set (f := (IZR v / IZR k)%R) in *.
  assert (0 <= IZR v < IZR k)%R as Rv by (split; [apply IZR_le|apply IZR_lt]; lia).
  exists f. split; [split; nra|]. split; [rewrite plus_IZR, mult_IZR; lra|].
  intros (_ & Hl & H). fold k v in H. apply IZR_lt in H. rewrite !mult_IZR in H. split; [nra|].
  assert (k <= 10 ^ 9) as Hk9%IZR_le by (apply Z.pow_le_mono_r; lia).
  destruct (decide (v = 0)) as [Ev|Hv].
  - left. rewrite Ev in E. nra.
  - right. assert (1 <= IZR v)%R by (apply IZR_le; lia). change (10 ^ 9) with 1000000000 in Hk9. nra.
Qed.

(** A number of six digits, with decimals, read as a double. *)
Lemma read_near ds o fs : all_digits ds -> length ds = 6%nat -> fraction_ok o ->
  exists w f, fl prec64 (atof ((ds ++ fraction o) ++ fields fs)) w /\ (0 <= f <= 97 / 100)%R /\
    (f = 0 \/ / 1000000000 <= f)%R /\ (o = None -> f = 0%R) /\
    near prec64 w (IZR (spelled 0 ds) + f).
Proof.
  intros Hd Hl Ho. pose proof Ho as (Hod & Hol & _).
  pose proof (spelled_range 0 ds Hd ltac:(lia)) as Hr. rewrite Hl in Hr.
  change (10 ^ Z.of_nat 6) with 1000000 in Hr.
  destruct (decimal_value (spelled 0 ds) o Hod ltac:(lia)) as (f & Hf & Hv & Hf97).
  specialize (Hf97 Ho) as [Hf97 Hf0].
  pose proof (spelled_range 0 (decimals o) Hod ltac:(lia)) as Hr2.
  assert (10 ^ Z.of_nat (length (decimals o)) <= 10 ^ 9) as Hk by (apply Z.pow_le_mono_r; lia).
  assert (0 < 10 ^ Z.of_nat (length (decimals o))) by (apply Z.pow_pos_nonneg; lia).
  rewrite <- app_assoc, atof_decimal; [|done|by destruct ds|done|apply fields_number_end].
  rewrite spelled_app, spelled_split.
  destruct (f64_decimal_near
    (spelled 0 ds * 10 ^ Z.of_nat (length (decimals o)) + spelled 0 (decimals o))
    (length (decimals o)) (IZR (spelled 0 ds) + f)%R) as (w & Hw & Nw).
  - nia.
  - done.
  - exact Hv.
  - assert (IZR (spelled 0 ds) <= 1000000)%R by (apply IZR_le; lia). lra.
  - exists w, f. split; [done|]. split; [lra|]. split; [done|]. split; [|done].
    intros ->. cbn [decimals default length] in Hv. change (10 ^ Z.of_nat 0) with 1 in Hv.
    rewrite Z.mul_1_r, plus_IZR in Hv. change (spelled 0 []) with 0 in Hv. lra.
Qed.

Lemma parse_time_at a b c o fs r : pairs_text a b c -> spelled 0 a < 24 -> fraction_ok o ->
  Forall field_text fs ->
  parse_time (at_text (((a ++ b ++ c) ++ fraction o) ++ fields fs) r) =
  Some (spelled 0 a, spelled 0 b, spelled 0 c).
Proof.
  intros Hp H24 Ho Hf. destruct (pairs_digits a b c Hp) as [Hd _].
  destruct Hp as ([Ha La] & [Hb Lb] & [Hc Lc]).
  pose proof (three_pairs a b c Ha Hb Hc La Lb Lc) as Hn. cbv zeta in Hn.
  destruct Hn as (Hn & H1 & H2 & H3 & Ra & Rb & Rc).
  assert (spelled 0 (a ++ b ++ c) < 240000) as Hlt.
  { pose proof (Z.div_mod (spelled 0 (a ++ b ++ c)) 10000 ltac:(lia)).
    pose proof (Z.mod_pos_bound (spelled 0 (a ++ b ++ c)) 10000). lia. }
  destruct (read_near (a ++ b ++ c) o fs Hd) as (w & f & Hw & F & F0 & _ & Nw);
    [rewrite !length_app; lia|done|].
  set (n := spelled 0 (a ++ b ++ c)) in *.
  assert (0 <= IZR n < 240000)%R as Rn by (split; [apply IZR_le|apply IZR_lt]; lia).
  destruct (near_between prec64 w (IZR n + f)%R) as [W1 W2]; [lra|unfold prec64; lia|done|].
  pose proof (near_floor prec64 w _ n Nw ltac:(lra) ltac:(lra) ltac:(unfold prec64; lia)) as W3.
  assert (w <> 0%R -> ordinary w) as Hord.
  { intros Hnz. apply ordinary_between. split; [|lra].
    destruct (decide (n = 0)) as [En|Hn0].
    - rewrite En in *. destruct F0; [exfalso; apply Hnz; lra|lra].
    - assert (1 <= IZR n)%R by (apply IZR_le; lia). lra. }
  destruct (fl_convert prec64 prec emax _ w (proj1 format32) (proj2 format32) Hw Hord) as (t & Ht & Nt).
  destruct (near_between prec t w) as [T1 T2]; [lra|unfold prec; lia|done|].
  pose proof (near_floor prec t _ n Nt ltac:(lra) ltac:(lra) ltac:(unfold prec; lia)) as T3.
  unfold parse_time. rewrite float_field_at;
    [|auto using field_text_app, fraction_text with airu|done].
  cbn [mbind option_bind]. unfold f32_of_f64, float_to_u32.
  rewrite (fl_trunc prec _ t n Ht) by (lia || lra). cbn [mbind option_bind].
  rewrite (proj2 (Z.leb_le _ _)), (proj2 (Z.ltb_lt _ _)) by lia. cbn [andb mbind option_bind].
  rewrite H1, H2, H3. by rewrite !u8_pair by done.
Qed.

(** A time of day, nothing or hours, minutes and seconds with decimals. *)
Record clock := Clock { k_hour : list Z; k_min : list Z; k_sec : list Z; k_frac : option (list Z) }.

Definition clock_field (o : option clock) : list Z :=
  match o with Some t => (k_hour t ++ k_min t ++ k_sec t) ++ fraction (k_frac t) | None => [] end.

Definition clock_ok (o : option clock) : Prop :=
  match o with
  | Some t => pairs_text (k_hour t) (k_min t) (k_sec t) /\ spelled 0 (k_hour t) < 24 /\ fraction_ok (k_frac t)
  | None => True
  end.

Definition clock_value (o : option clock) : Z * Z * Z :=
  match o with
  | Some t => (spelled 0 (k_hour t), spelled 0 (k_min t), spelled 0 (k_sec t))
  | None => (0, 0, 0)
  end.

Lemma clock_field_text o : clock_ok o -> field_text (clock_field o).
Proof.
  destruct o as [t|]; [|constructor]. intros (H & _ & Hf).
  apply field_text_app; [|by apply fraction_text]. apply all_digits_text. by apply pairs_digits.
Qed.

Lemma atof_comma l : atof (44 :: l) = S754_zero false.
Proof. by destruct l. Qed.

Lemma parse_clock_at o fs r : clock_ok o -> Forall field_text fs -> fs <> [] ->
  parse_time (at_text (clock_field o ++ fields fs) r) = Some (clock_value o).
Proof.
  intros Ho Hf Hne. destruct o as [t|]; [destruct Ho as (? & ? & ?); by apply parse_time_at|].
  destruct fs as [|f fs]; [done|].
  cbn [clock_field app fields]. unfold parse_time, float_field, at_text.
  rewrite cstr_app by (by apply (nonzero_fields (f :: fs))).
  cbn [fmap option_fmap option_map mbind option_bind]. by rewrite atof_comma.
Qed.

(** A date, nothing or day, month and year. *)
Record date := Date { t_day : list Z; t_month : list Z; t_year : list Z }.

Definition date_field (o : option date) : list Z :=
  match o with Some t => t_day t ++ t_month t ++ t_year t | None => [] end.

Definition date_ok (o : option date) : Prop :=
  match o with Some t => pairs_text (t_day t) (t_month t) (t_year t) | None => True end.

Definition date_value (o : option date) : Z * Z * Z :=
  match o with
  | Some t => (spelled 0 (t_day t), spelled 0 (t_month t), spelled 0 (t_year t))
  | None => (0, 0, 0)
  end.

Lemma date_field_text o : date_ok o -> field_text (date_field o).
Proof. destruct o as [t|]; [|constructor]. intros H. apply all_digits_text. by apply pairs_digits. Qed.

(** [atol] of digits. *)
Lemma read_digits_spelled acc ds rest : all_digits ds ->
  match rest with c :: _ => is_digit c = false | [] => True end ->
  read_digits acc (ds ++ rest) = spelled acc ds.
Proof.
  intros H Hr. revert acc. induction H as [|c ds Hc _ IH]; intros acc; cbn [app].
  - destruct rest; [done|]. cbn [read_digits]. by rewrite Hr.
  - cbn [read_digits]. by rewrite Hc, IH.
Qed.

Lemma atol_spelled ds : all_digits ds -> ds <> [] -> atol ds = spelled 0 ds.
Proof.
  intros H Hne. destruct H as [|c ds Hc Hd]; [done|].
  assert (48 <= c <= 57) by (unfold is_digit in Hc; zify_bool; lia).
  unfold atol. cbn [skip_space]. unfold is_space.
  rewrite (proj2 (Z.eqb_neq c 32)), (proj2 (Z.leb_gt c 13)), andb_false_r by lia. cbn [orb].
  rewrite !(proj2 (Z.eqb_neq _ _)) by lia.
  rewrite <- (app_nil_r (c :: ds)) at 1. apply read_digits_spelled; [by constructor|done].
Qed.

(** The numbers in a coordinate: degrees, and minutes in 1e-4 minutes. *)
Definition coordinate_text (w : nat) (ds ms fs more : list Z) : Prop :=
  (all_digits ds /\ length ds = w) /\ (all_digits ms /\ length ms = 2%nat) /\
  (all_digits fs /\ length fs = 4%nat) /\ field_text more.

(** degrees and minutes as the code computes them *)
Definition coordinate_value (ds ms fs : list Z) : option float32 :=
  degrees_of (spelled 0 ds * 10000000) (50 * spelled 0 (ms ++ fs) / 3).

Lemma coordinate_at w ds ms fs q d :
  (w = 2 \/ w = 3)%nat -> coordinate_text w ds ms fs [] -> spelled 0 ds <= 180 ->
  coordinate_value ds ms fs = Some d ->
  coordinate w (ds ++ ms ++ 46 :: fs ++ q) = Some (d, fs ++ q).
Proof.
  intros Hw ([Hd Ld] & [Hm Lm] & [Hf Lf] & _) Hdeg Hv. unfold coordinate.
  pose proof (spelled_range 0 ds Hd) as Rd.
  pose proof (spelled_range 0 (ms ++ fs) (Forall_app_2 _ _ _ Hm Hf)) as Rm.
  rewrite length_app, Lm, Lf in Rm. change (10 ^ Z.of_nat (2 + 4)) with 1000000 in Rm.
  assert (0 <= spelled 0 ds) by (pose proof (Z.pow_nonneg 10 (Z.of_nat (length ds))); lia).
  assert (forall s, all_digits s -> nonzero s) as Hnz by (intros; auto with airu).
  rewrite strncpy_text by auto.
  assert (exists b1, write (replicate 10 0) 0 ds = Some b1 /\
    exists b2, store b1 w 0 = Some b2 /\ cstr b2 = Some ds /\
    exists b3, write b2 0 ms = Some b3 /\ exists b4, write b3 2 fs = Some b4 /\
    exists b5, store b4 6 0 = Some b5 /\ cstr b5 = Some (ms ++ fs)) as
    (b1 & -> & b2 & E2 & C2 & b3 & E3 & b4 & E4 & b5 & E5 & C5).
  { destruct ms as [|m1 [|m2 [|]]]; try done. destruct fs as [|f1 [|f2 [|f3 [|f4 [|]]]]]; try done.
    destruct Hw as [-> | ->].
    - destruct ds as [|d1 [|d2 [|]]]; try done.
      eexists. split; [reflexivity|]. eexists. split; [reflexivity|].
      split; [apply (cstr_app [d1; d2] _); auto|].
      eexists. split; [reflexivity|]. eexists. split; [reflexivity|].
      eexists. split; [reflexivity|].
      apply (cstr_app [m1; m2; f1; f2; f3; f4] _). by apply nonzero_app with (s := [m1; m2]); auto.
    - destruct ds as [|d1 [|d2 [|d3 [|]]]]; try done.
      eexists. split; [reflexivity|]. eexists. split; [reflexivity|].
      split; [apply (cstr_app [d1; d2; d3] _); auto|].
      eexists. split; [reflexivity|]. eexists. split; [reflexivity|].
      eexists. split; [reflexivity|].
      apply (cstr_app [m1; m2; f1; f2; f3; f4] _). by apply nonzero_app with (s := [m1; m2]); auto. }
  rewrite drop_app_exact by done. cbn [mbind option_bind]. rewrite E2. cbn [mbind option_bind].
  rewrite C2. cbn [mbind option_bind]. rewrite atol_spelled by (done || by destruct ds, Hw; subst).
  rewrite int32_small by lia. cbn [mbind option_bind].
  rewrite strncpy_text by auto. rewrite E3. cbn [mbind option_bind].
  replace (drop 3 (ms ++ 46 :: fs ++ q)) with (fs ++ q)
    by (destruct ms as [|m1 [|m2 [|]]]; done).
  rewrite strncpy_text by auto. rewrite E4. cbn [mbind option_bind]. rewrite E5.
  cbn [mbind option_bind]. rewrite C5. cbn [mbind option_bind].
  rewrite atol_spelled; [|by apply Forall_app_2|by destruct ms].
  rewrite int32_small by lia. cbn [mbind option_bind]. rewrite Z.quot_div_nonneg by lia.
  assert (0 <= 50 * spelled 0 (ms ++ fs) / 3 <= 16666667) by
    (split; [apply Z.div_pos; lia|apply Z.div_le_upper_bound; lia]).
  rewrite int32_small by lia. cbn [mbind option_bind].
  unfold coordinate_value in Hv. by rewrite Hv.
Qed.

(** A coordinate as printed: degrees, minutes, four decimals, maybe more. *)
Record coord := Coord { c_deg : list Z; c_min : list Z; c_frac : list Z; c_more : list Z }.

Definition coord_text (c : coord) : list Z :=
  c_deg c ++ c_min c ++ 46 :: c_frac c ++ c_more c.

Definition coord_ok (w : nat) (c : coord) : Prop :=
  (w = 2 \/ w = 3)%nat /\ coordinate_text w (c_deg c) (c_min c) (c_frac c) (c_more c) /\
  spelled 0 (c_deg c) <= 180 /\ spelled 0 (c_min c) < 60.

Lemma coord_text_field w c : coord_ok w c -> field_text (coord_text c).
Proof.
  intros (_ & ([Hd _] & [Hm _] & [Hf _] & Hx) & _). unfold coord_text.
  repeat apply field_text_app; auto with airu. constructor; [lia|].
  apply field_text_app; auto with airu.
Qed.

Lemma coordinate_field_at w c v fs r : coord_ok w c ->
  coordinate_value (c_deg c) (c_min c) (c_frac c) = Some v ->
  coordinate_field w (at_text (coord_text c ++ fields fs) r) =
  Some (v, at_text ((c_frac c ++ c_more c) ++ fields fs) r).
Proof.
  intros (Hw & Ht & Hd & _) Hv. unfold coordinate_field.
  destruct Ht as ([Hd1 Ld] & Hm & Hf & Hx).
  assert (exists x ds, c_deg c = x :: ds /\ x <> 44) as (x & ds & E & Hx44).
  { destruct (c_deg c) as [|x ds]; [destruct Hw as [-> | ->]; done|]. exists x, ds.
    split; [done|]. inversion Hd1 as [|? ? Hxd]; subst. unfold is_digit in Hxd. zify_bool. lia. }
  assert (head (at_text (coord_text c ++ fields fs) r) = Some x) as ->.
  { unfold coord_text. by rewrite E. }
  cbn [mbind option_bind]. rewrite (proj2 (Z.eqb_neq x 44)) by done.
  unfold at_text, coord_text. rewrite <- !app_assoc. cbn [app]. rewrite <- !app_assoc.
  apply coordinate_at; try done. repeat split; try apply Hm; try apply Hf; try done. constructor.
Qed.

Definition side (neg pos : Z) (negative : bool) : list Z := [if negative then neg else pos].

Lemma hemisphere_at neg pos negative fs r d :
  neg <> 44 -> pos <> 44 -> neg <> pos ->
  hemisphere neg pos (at_text (side neg pos negative ++ fields fs) r) d =
  Some (Some (if negative then SFopp d else d)).
Proof.
  intros H1 H2 H3. unfold hemisphere. rewrite head_at. unfold side. cbn [mbind option_bind].
  destruct negative.
  - by rewrite (proj2 (Z.eqb_neq neg 44)), Z.eqb_refl.
  - by rewrite (proj2 (Z.eqb_neq pos 44)), (proj2 (Z.eqb_neq pos neg)), Z.eqb_refl by congruence.
Qed.

(** A coordinate and its side, possibly both empty. *)
Definition place := option (coord * bool).

Definition place_field (o : place) : list Z :=
  match o with Some (c, _) => coord_text c | None => [] end.

Definition place_side (neg pos : Z) (o : place) : list Z :=
  match o with Some (_, b) => side neg pos b | None => [] end.

Definition place_ok (w : nat) (o : place) : Prop :=
  match o with Some (c, _) => coord_ok w c | None => True end.

(** [d] are the degrees the place is reported at; 0 without a fix. *)
Definition place_value (o : place) (d : float32) : Prop :=
  match o with
  | Some (c, negative) =>
      exists v, coordinate_value (c_deg c) (c_min c) (c_frac c) = Some v /\
                d = if negative then SFopp v else v
  | None => d = f32_of_Z 0
  end.

Definition position_fields (la lo : place) (fs : list (list Z)) : list (list Z) :=
  place_field la :: place_side 83 78 la :: place_field lo :: place_side 87 69 lo :: fs.

Lemma side_text neg pos b : neg <> 0 -> neg <> 44 -> pos <> 0 -> pos <> 44 -> field_text (side neg pos b).
Proof. intros. by destruct b; constructor. Qed.

Lemma place_texts w neg pos o : place_ok w o ->
  neg <> 0 -> neg <> 44 -> pos <> 0 -> pos <> 44 ->
  field_text (place_field o) /\ field_text (place_side neg pos o).
Proof.
  destruct o as [[c b]|]; intros Ho **; [|split; constructor].
  split; [by eapply coord_text_field|by apply side_text].
Qed.

Lemma position_fields_text la lo fs :
  place_ok 2 la -> place_ok 3 lo -> Forall field_text fs ->
  Forall field_text (position_fields la lo fs).
Proof.
  intros Ha Ho Hf. destruct (place_texts 2 83 78 la) as [A1 A2]; try done.
  destruct (place_texts 3 87 69 lo) as [O1 O2]; try done.
  by do 4 (apply Forall_cons_2; [done|]).
Qed.

(** Reading a coordinate and its side. *)
Lemma place_at w neg pos o d f fs r : place_ok w o -> place_value o d ->
  Forall field_text (place_side neg pos o :: f :: fs) ->
  neg <> 44 -> pos <> 44 -> neg <> pos ->
  exists v q,
    coordinate_field w (at_text (place_field o ++ fields (place_side neg pos o :: f :: fs)) r) = Some (v, q) /\
    next_field q = Some (at_text (place_side neg pos o ++ fields (f :: fs)) r) /\
    hemisphere neg pos (at_text (place_side neg pos o ++ fields (f :: fs)) r) v = Some (Some d).
Proof.
  intros Ho Hv Hf H1 H2 H3. destruct o as [[c b]|]; cbn [place_field place_side place_ok place_value] in *.
  - destruct Hv as (v & Hv & ->). pose proof Ho as (_ & (_ & _ & [Hfr _] & Hm) & _).
    exists v. eexists. split; [by apply coordinate_field_at|]. split.
    + apply next_field_at; [|done]. apply field_text_app; auto with airu.
    + by apply hemisphere_at.
  - subst d. exists (f32_of_Z 0). eexists. split; [done|]. split.
    + by apply (next_field_at []); [constructor|].
    + done.
Qed.

Lemma position_at f la lo g fs r dla dlo :
  field_text f -> place_ok 2 la -> place_ok 3 lo -> Forall field_text (g :: fs) ->
  place_value la dla -> place_value lo dlo ->
  position (at_text (f ++ fields (position_fields la lo (g :: fs))) r) =
  Some (Some (dla, dlo, at_text (place_side 87 69 lo ++ fields (g :: fs)) r)).
Proof.
  intros Hf Ha Ho Hfs Va Vo. unfold position.
  pose proof (position_fields_text la lo (g :: fs) Ha Ho Hfs) as Hp.
  unfold position_fields in *. pose proof (Forall_inv_tail Hp) as Hp1.
  pose proof (Forall_inv_tail Hp1) as Hp2. pose proof (Forall_inv_tail Hp2) as Hp3.
  rewrite next_field_at by done. cbn [mbind option_bind].
  destruct (place_at 2 83 78 la dla (place_field lo) (place_side 87 69 lo :: g :: fs) r)
    as (va & qa & -> & E1 & E2); try done.
  cbn [mbind option_bind]. rewrite E1. cbn [mbind option_bind]. rewrite E2. cbn [mbind option_bind].
  rewrite next_field_at by (done || by apply (Forall_inv Hp1)). cbn [mbind option_bind].
  destruct (place_at 3 87 69 lo dlo g fs r) as (vo & qo & -> & E3 & E4); try done.
  cbn [mbind option_bind]. rewrite E3. cbn [mbind option_bind]. by rewrite E4.
Qed.

(** ** How near the degrees are *)

Lemma six_micro_near : exists c, fl prec six_micro c /\ (c <= 6000001 / 1000000000000)%R /\ (5999999 / 1000000000000 <= c)%R.
Proof.
  unfold six_micro, f32_div.
  destruct (fl_div prec emax (proj1 format32) (proj2 format32) (f32_of_Z 6) (f32_of_Z 1000000) 6 1000000
    (6 / 1000000)%R) as (c & Hc & Hn); [apply (fl32_Z 6); lia|apply (fl32_Z 1000000); lia|lra|lra| |].
  - intros _. apply ordinary_between. lra.
  - exists c. split; [done|]. destruct (near_between prec c (6 / 1000000)%R) as [H1 H2];
      [lra|unfold prec; lia|done|split; lra].
Qed.

(** The degrees the code computes for [D] degrees and [M] ten-thousandths of a
    minute are within three hundred-thousandths of a degree. *)
Section degrees_near.
Variables D M : Z.
Hypothesis HD : 0 <= D <= 180.
Hypothesis HM : 0 <= M < 600000.

Let HDR : (0 <= IZR D <= 180)%R.
Proof. split; apply IZR_le; lia. Qed.

(** the minutes *)
Lemma minutes_near : exists m, fl prec (f32_mul (f32_of_Z (50 * M / 3)) six_micro) m /\
  (Rabs (m - IZR M / 10000) <= 1 / 50000)%R /\ (m = 0 \/ 5 / 1000000 <= m)%R.
Proof.
  set (n := 50 * M / 3).
  assert (3 * n <= 50 * M < 3 * n + 3) as [L%IZR_le U%IZR_lt].
  { pose proof (Z.div_mod (50 * M) 3 ltac:(lia)). pose proof (Z.mod_pos_bound (50 * M) 3). unfold n. lia. }
  rewrite plus_IZR in U. rewrite !mult_IZR in L. rewrite !mult_IZR in U.
  assert (0 <= n <= 9999983) as Hn.
  { unfold n. split; [apply Z.div_pos; lia|]. apply Z.lt_succ_r, Z.div_lt_upper_bound; lia. }
  assert (0 <= IZR n <= 9999983)%R as HnB by (split; apply IZR_le; lia).
  destruct six_micro_near as (c & Hc & Hc2 & Hc1).
  assert (n <> 0 -> (1 <= IZR n)%R) as Hone by (intros; apply IZR_le; lia).
  destruct (fl_mul prec emax (proj1 format32) (proj2 format32) _ _ _ _ (fl32_Z n ltac:(lia)) Hc)
    as (m & Fm & Nm).
  { intros Hnz _. apply ordinary_between. assert (n <> 0) as H1%Hone by (intros E; by rewrite E in Hnz).
    split; nra. }
  exists m. split; [done|].
  destruct (near_between prec m (IZR n * c)%R) as [N1 N2]; [nra|unfold prec; lia|done|].
  split.
  - apply Rabs_le. assert (IZR n * c <= 60)%R by nra.
    assert (IZR n * (6 / 1000000) - 1 / 100000 <= IZR n * c <= IZR n * (6 / 1000000) + 1 / 100000)%R by nra.
    split; lra.
  - destruct (decide (n = 0)) as [E|H1%Hone]; [left; rewrite E in *; lra|right; nra].
Qed.

Lemma degrees_of_near : exists d v, degrees_of (D * 10000000) (50 * M / 3) = Some d /\ fl prec d v /\
  (Rabs (v - (IZR D + IZR M / 600000)) <= 3 / 100000)%R.
Proof.
  unfold degrees_of. rewrite Z.quot_div_nonneg by lia.
  replace (D * 10000000) with (100 * D * 100000) by ring. rewrite Z.div_mul by lia.
  assert (0 <= IZR M < 600000)%R as HMR by (split; [apply IZR_le|apply IZR_lt]; lia).
  assert (1 <= D -> (1 <= IZR D)%R) as HD1 by (intros; apply IZR_le; lia).
  assert (IZR (100 * D) = 100 * IZR D)%R as E100 by by rewrite mult_IZR.
  pose proof (fl32_Z (100 * D) ltac:(lia)) as FD.
  destruct minutes_near as (m & Fm & Nm & Zm). apply Rabs_between in Nm.
  assert (0 <= m)%R as Pm by by eapply fl_nonneg.
  (* the sum *)
  destruct (fl_add prec emax (proj1 format32) (proj2 format32) _ _ _ _ FD Fm) as (l & Fl & Nl).
  { intros Hnz. apply ordinary_between. rewrite E100 in *. destruct (Z.le_gt_cases 1 D) as [H|H].
    - specialize (HD1 H). lra.
    - replace D with 0 in * by lia. destruct Zm; lra. }
  rewrite E100 in *.
  destruct (near_between prec l (100 * IZR D + m)%R) as [L1 L2]; [lra|unfold prec; lia|done|].
  pose proof (near_floor prec l _ (100 * D) Nl ltac:(lra) ltac:(lra) ltac:(unfold prec; lia)) as L3.
  rewrite E100 in L3.
  (* its hundreds *)
  destruct (fl_div prec emax (proj1 format32) (proj2 format32) _ (f32_of_Z 100) _ 100 (l / 100) Fl)
    as (h & Fh & Nh); [apply (fl32_Z 100); lia|lra|lra| |].
  { intros Hnz. apply ordinary_between. destruct (Z.le_gt_cases 1 D) as [H|H].
    - specialize (HD1 H). lra.
    - replace D with 0 in * by lia. destruct Zm; lra. }
  destruct (near_between prec h (l / 100)%R) as [H1 H2]; [lra|unfold prec; lia|done|].
  pose proof (near_floor prec h _ D Nh ltac:(lra) ltac:(lra) ltac:(unfold prec; lia)) as H3.
  unfold f32_add, f32_mul, f32_div, f32_sub, float_to_s32 in *.
  rewrite (fl_trunc prec _ h D Fh) by (lia || lra). cbn [mbind option_bind].
  rewrite (proj2 (Z.leb_le _ _)), (proj2 (Z.ltb_lt _ _)) by lia. cbn [andb mbind option_bind].
  (* the rest *)
  assert (l - 100 * IZR D = 0 \/ / 1000000 <= l - 100 * IZR D)%R as Zr.
  { destruct (Z.le_gt_cases 1 D) as [H|H].
    - specialize (HD1 H). destruct (fl_grid prec _ l 6 ltac:(unfold prec; lia) Fl) as [k Hk].
      + rewrite pow2_Z by lia. change (2 ^ 6) with 64. lra.
      + change (6 + 1 - prec) with (-17) in Hk.
        assert (pow2 (-17) * 131072 = 1)%R as P17.
        { pose proof (pow2_inv 17) as Hi. rewrite (pow2_Z 17) in Hi by lia. exact Hi. }
        assert (l * 131072 = IZR k)%R as Hk2 by (rewrite Hk; nra).
        assert (IZR (k - 100 * D * 131072) = l * 131072 - 100 * IZR D * 131072)%R as Hk3
          by (rewrite minus_IZR, !mult_IZR; lra).
        destruct (Z.le_gt_cases 1 (k - 100 * D * 131072)) as [Hg%IZR_le|Hg]; [right; lra|left].
        assert (IZR (k - 100 * D * 131072) <= 0)%R by (apply IZR_le; lia). lra.
    - replace D with 0 in * by lia. destruct Zm; [left|right]; lra. }
  destruct (fl_sub prec emax (proj1 format32) (proj2 format32) _ _ _ _ Fl FD) as (r & Fr & Nr);
    [lra| |].
  { intros Hnz. apply ordinary_between. lra. }
  destruct (near_between prec r (l - 100 * IZR D)%R) as [R1 R2]; [lra|unfold prec; lia|done|].
  (* its sixtieth, in double *)
  destruct (fl_convert prec prec64 emax64 _ r (proj1 format64) (proj2 format64) Fr) as (r2 & Fr2 & Nr2).
  { intros Hnz. apply ordinary_between. lra. }
  destruct (near_between prec64 r2 r) as [S1 S2]; [lra|unfold prec64; lia|done|].
  destruct (fl_div prec64 emax64 (proj1 format64) (proj2 format64) _ (f64_of_Z 60) _ 60 (r2 / 60) Fr2)
    as (q & Fq & Nq); [apply (fl64_Z 60); lia|lra|lra| |].
  { intros Hnz. apply ordinary_between. lra. }
  destruct (near_between prec64 q (r2 / 60)%R) as [Q1 Q2]; [lra|unfold prec64; lia|done|].
  destruct (fl_convert prec64 prec emax _ q (proj1 format32) (proj2 format32) Fq) as (q2 & Fq2 & Nq2).
  { intros Hnz. apply ordinary_between. lra. }
  destruct (near_between prec q2 q) as [T1 T2]; [lra|unfold prec; lia|done|].
  destruct (fl_add prec emax (proj1 format32) (proj2 format32) _ _ _ _ Fq2 (fl32_Z D ltac:(lia)))
    as (d & Fd & Nd).
  { intros Hnz. apply ordinary_between. destruct (Z.le_gt_cases 1 D) as [H|H].
    - specialize (HD1 H). lra.
    - replace D with 0 in * by lia. lra. }
  destruct (near_between prec d (q2 + IZR D)%R) as [D1 D2]; [lra|unfold prec; lia|done|].
  eexists _, d. split; [done|]. split; [exact Fd|]. apply Rabs_le. split; lra.
Qed.
End degrees_near.

(** The degrees a coordinate prints. *)
Definition printed (c : coord) : R :=
  (IZR (spelled 0 (c_deg c)) + IZR (spelled 0 (c_min c ++ c_frac c)) / 600000)%R.

(** The float [d] is the place [o] to three hundred-thousandths of a degree,
    negative on the second side; 0 when the sentence has none. *)
Definition place_near (o : place) (d : float32) : Prop :=
  match o with
  | Some (c, negative) =>
      exists v, fl prec (if negative then SFopp d else d) v /\ (Rabs (v - printed c) <= 3 / 100000)%R
  | None => d = f32_of_Z 0
  end.

Lemma place_value_near w o : place_ok w o -> exists d, place_value o d /\ place_near o d.
Proof.
  destruct o as [[c negative]|]; [|by eexists]. intros (_ & ([Hd Ld] & [Hm Lm] & [Hf Lf] & _) & H180 & H60).
  pose proof (spelled_range 0 (c_deg c) Hd ltac:(lia)) as Rd.
  pose proof (Z.pow_nonneg 10 (Z.of_nat (length (c_deg c)))).
  pose proof (spelled_range 0 (c_frac c) Hf ltac:(lia)) as Rf. rewrite Lf in Rf.
  pose proof (spelled_range 0 (c_min c) Hm ltac:(lia)) as Rm. rewrite Lm in Rm.
  change (10 ^ Z.of_nat 4) with 10000 in Rf. change (10 ^ Z.of_nat 2) with 100 in Rm.
  assert (0 <= spelled 0 (c_min c ++ c_frac c) < 600000) as HM.
  { rewrite spelled_app, spelled_split, Lf. change (10 ^ Z.of_nat 4) with 10000. lia. }
  destruct (degrees_of_near (spelled 0 (c_deg c)) (spelled 0 (c_min c ++ c_frac c)) ltac:(lia) HM)
    as (d & v & Ed & Fd & Nd).
  exists (if negative then SFopp d else d). split; [by exists d|]. cbn [place_near].
  exists v. split; [|done]. destruct negative; [|done].
  destruct d as [[]| | |[] m e]; done.
Qed.

(** ** The checksum test *)

Lemma from_end_at x y c r k : nonzero (x ++ c :: y) -> k = S (length y) ->
  from_end (at_text (x ++ c :: y) r) k = Some c.
Proof.
  intros Hn ->. unfold from_end, at_text. rewrite strlen_app by done. cbn [mbind option_bind].
  rewrite length_app. cbn [length]. rewrite (proj2 (Nat.ltb_ge _ _)) by lia.
  rewrite <- app_assoc. cbn [app]. apply lookup_app_exact. lia.
Qed.

(** The end of a sentence as the receiver sends it: star, checksum, CR, LF. *)
Definition crlf_end (h1 h2 : Z) : list Z := [42; h1; h2; 13; 10].

Lemma crlf_passes fuel x h1 h2 r : nonzero (x ++ crlf_end h1 h2) -> h1 <> 42 ->
  checksum_passes fuel (at_text (x ++ crlf_end h1 h2) r) = Ret true.
Proof.
  assert (x ++ crlf_end h1 h2 = (x ++ [42]) ++ h1 :: [h2; 13; 10]) as -> by (by rewrite <- app_assoc).
  intros Hn H. unfold checksum_passes. rewrite (from_end_at _ [h2; 13; 10] h1 _ 4) by done.
  unfold mbind, prog_bind. cbn [try bind]. by rewrite (proj2 (Z.eqb_neq h1 42)).
Qed.

Lemma fields_app fs gs : fields (fs ++ gs) = fields fs ++ fields gs.
Proof. induction fs as [|f fs IH]; cbn [app fields]; [done|]. by rewrite IH, <- app_assoc. Qed.

(** ** GGA sentences *)

Record gga := Gga {
  gga_time : option clock; gga_lat : place; gga_lon : place;
  gga_quality : list Z; gga_satellites : list Z; gga_hdop : list Z;
  gga_alt : list Z; gga_unit : list Z; gga_geoid : list Z;
  gga_rest : list (list Z); gga_last : list Z; gga_h1 : Z; gga_h2 : Z
}.

Definition gga_tail (g : gga) : list (list Z) :=
  gga_unit g :: gga_geoid g :: gga_rest g ++ [gga_last g ++ crlf_end (gga_h1 g) (gga_h2 g)].

Definition gga_fields (g : gga) : list (list Z) :=
  clock_field (gga_time g) :: position_fields (gga_lat g) (gga_lon g)
    (gga_quality g :: gga_satellites g :: gga_hdop g :: gga_alt g :: gga_tail g).

(** The sentence in memory; [r] is what the buffer holds after its NUL. *)
Definition gga_sentence (g : gga) (r : list Z) : list Z :=
  at_text (lit "$GPGGA" ++ fields (gga_fields g)) r.

Definition gga_ok (g : gga) : Prop :=
  clock_ok (gga_time g) /\ place_ok 2 (gga_lat g) /\ place_ok 3 (gga_lon g) /\
  Forall field_text (gga_quality g :: gga_satellites g :: gga_hdop g :: gga_alt g :: gga_tail g) /\
  gga_h1 g <> 42.

(** The altitude the code reads: 0 when the field is empty. *)
Definition gga_altitude_value (g : gga) : float32 :=
  match gga_alt g with
  | [] => f32_of_Z 0
  | _ => f32_of_f64 (atof (gga_alt g ++ fields (gga_tail g)))
  end.

Lemma gga_altitude_at f q s h a u g fs r :
  field_text f -> Forall field_text (q :: s :: h :: a :: u :: g :: fs) ->
  gga_altitude (at_text (f ++ fields (q :: s :: h :: a :: u :: g :: fs)) r) =
  Some match a with
       | [] => f32_of_Z 0
       | _ => f32_of_f64 (atof (a ++ fields (u :: g :: fs)))
       end.
Proof.
  intros Hf H. unfold gga_altitude.
  pose proof (Forall_inv H) as Hq. pose proof (Forall_inv_tail H) as H1.
  pose proof (Forall_inv H1) as Hs. pose proof (Forall_inv_tail H1) as H2.
  pose proof (Forall_inv H2) as Hh. pose proof (Forall_inv_tail H2) as H3.
  pose proof (Forall_inv H3) as Ha. pose proof (Forall_inv_tail H3) as H4.
  pose proof (Forall_inv H4) as Hu. pose proof (Forall_inv_tail H4) as H5.
  rewrite skip_field_at by done. cbn [mbind option_bind].
  rewrite skip_field_at by done. cbn [mbind option_bind].
  rewrite skip_field_at by done. cbn [mbind option_bind].
  rewrite next_field_at by done. cbn [mbind option_bind].
  unfold altitude_field. rewrite head_at, float_field_at by done. cbn [mbind option_bind].
  rewrite next_field_at by done.
  destruct a as [|c a]; cbn [mbind option_bind].
  - rewrite Z.eqb_refl. cbn [mbind option_bind]. by rewrite skip_field_at.
  - inversion Ha as [|? ? [_ Hc] _]; subst. rewrite (proj2 (Z.eqb_neq c 44)) by done.
    cbn [fmap option_fmap option_map mbind option_bind]. by rewrite skip_field_at.
Qed.

Definition gga_result (g : gga) (dla dlo : float32) (s : gps) : gps :=
  let '(h, m, s') := clock_value (gga_time g) in
  Gps (EspGps dla dlo (gga_altitude_value g)
         (year (esp_gps s)) (month (esp_gps s)) (day (esp_gps s)) h m s') (nmea s).

Lemma gga_text_nonzero g : gga_ok g -> nonzero (lit "$GPGGA" ++ fields (gga_fields g)).
Proof.
  intros (Hp & Ha & Ho & Hf & _). apply nonzero_app; [auto with airu|]. apply nonzero_fields.
  apply Forall_cons_2; [by apply clock_field_text|by apply position_fields_text].
Qed.

(** The text of a list of fields ends as its last field does. *)
Lemma fields_end fs f e : exists x, fields (fs ++ [f ++ e]) = x ++ e.
Proof.
  rewrite fields_app. cbn [fields]. rewrite app_nil_r, app_comm_cons, !app_assoc. by eexists.
Qed.

Lemma gga_text_end g : exists x, lit "$GPGGA" ++ fields (gga_fields g) =
  x ++ crlf_end (gga_h1 g) (gga_h2 g).
Proof.
  unfold gga_fields, position_fields, gga_tail. rewrite !app_comm_cons.
  destruct (fields_end (clock_field (gga_time g) :: place_field (gga_lat g) ::
    place_side 83 78 (gga_lat g) :: place_field (gga_lon g) :: place_side 87 69 (gga_lon g) ::
    gga_quality g :: gga_satellites g :: gga_hdop g :: gga_alt g :: gga_unit g :: gga_geoid g ::
    gga_rest g) (gga_last g) (crlf_end (gga_h1 g) (gga_h2 g))) as [x ->].
  rewrite app_assoc. by eexists.
Qed.

Lemma parse_gga_at g r dla dlo s :
  gga_ok g -> place_value (gga_lat g) dla -> place_value (gga_lon g) dlo ->
  run (parse_gga (gga_sentence g r)) s [] = ([], Done ESP_OK, gga_result g dla dlo s).
Proof.
  intros (Hp & Ha & Ho & Hf & _) Hla Hlo.
  pose proof (position_fields_text _ _ _ Ha Ho Hf) as Hpf.
  pose proof (clock_field_text _ Hp) as Ht.
  unfold parse_gga, gga_sentence, gga_fields.
  rewrite next_field_at; [|by apply field_text_const|by apply Forall_cons_2].
  unfold mbind, prog_bind. cbn [try bind].
  rewrite parse_clock_at by done. cbn [try bind].
  rewrite (position_at _ _ _ _ _ _ dla dlo) by done. cbn [try bind].
  unfold gga_tail. rewrite gga_altitude_at by (done || by eapply (place_texts 3 87 69)).
  unfold gga_result. destruct (clock_value (gga_time g)) as [[h m] s']. done.
Qed.

(** C17: A GGA sentence that ends in a star, two characters (whichever they are:
    this end is never checked), CR and LF is kept whole.  Hours, minutes and
    seconds are those of its time, which has a fraction below 97 / 100 of a
    second; latitude and longitude are within 0.00003 degrees of the printed
    ones (two, or three, digits of degrees up to 180, two of minutes below 60,
    four decimals or more, of which four count) and negative in the south and
    the west; the altitude is the float of what atof reads.  What is empty
    becomes 0.  The date is not touched and nothing is called. *)
Theorem gga_correct fuel g r s :
  gga_ok g ->
  exists dla dlo, place_near (gga_lat g) dla /\ place_near (gga_lon g) dlo /\
    run (parse fuel (gga_sentence g r)) s [] = ([], Done ESP_OK, gga_result g dla dlo s).
Proof.
  intros Hg. pose proof Hg as (_ & Hpa & Hpo & _).
  destruct (place_value_near 2 _ Hpa) as (dla & Hla & Nla).
  destruct (place_value_near 3 _ Hpo) as (dlo & Hlo & Nlo).
  exists dla, dlo. split; [done|]. split; [done|]. pose proof (gga_text_nonzero g Hg) as Hn.
  destruct (gga_text_end g) as [x Hx]. unfold parse, gga_sentence. rewrite Hx at 1.
  rewrite crlf_passes; [|by rewrite <- Hx|by apply Hg].
  unfold mbind, prog_bind. cbn [bind negb].
  assert (cstr (at_text (lit "$GPGGA" ++ fields (gga_fields g)) r) =
    Some (lit "$GPGGA" ++ fields (gga_fields g))) as -> by (by apply cstr_app).
  cbn [try bind].
  destruct (strstr (lit "$GPGGA" ++ fields (gga_fields g)) (lit "$GPGGA")) as [n|] eqn:E.
  - by apply parse_gga_at.
  - exfalso. by apply (strstr_none _ _ [] (fields (gga_fields g)) E).
Qed.

(** ** RMC sentences *)

Record rmc := Rmc {
  rmc_time : option clock; rmc_valid : bool; rmc_lat : place; rmc_lon : place;
  rmc_speed : list Z; rmc_angle : list Z; rmc_day : option date;
  rmc_rest : list (list Z); rmc_last : list Z; rmc_h1 : Z; rmc_h2 : Z
}.

Definition rmc_tail (m : rmc) : list (list Z) :=
  rmc_rest m ++ [rmc_last m ++ crlf_end (rmc_h1 m) (rmc_h2 m)].

Definition rmc_status (m : rmc) : list Z := [if rmc_valid m then 65 else 86].

Definition rmc_fields (m : rmc) : list (list Z) :=
  clock_field (rmc_time m) :: rmc_status m :: position_fields (rmc_lat m) (rmc_lon m)
    (rmc_speed m :: rmc_angle m :: date_field (rmc_day m) :: rmc_tail m).

Definition rmc_sentence (m : rmc) (r : list Z) : list Z :=
  at_text (lit "$GPRMC" ++ fields (rmc_fields m)) r.

Definition rmc_ok (m : rmc) : Prop :=
  clock_ok (rmc_time m) /\ place_ok 2 (rmc_lat m) /\ place_ok 3 (rmc_lon m) /\
  date_ok (rmc_day m) /\ Forall field_text (rmc_speed m :: rmc_angle m :: rmc_tail m) /\
  Forall (fun c => c <> 36) (fields (rmc_fields m)) /\ rmc_h1 m <> 42.

Definition rmc_result (m : rmc) (s : gps) : gps :=
  let '(h, mi, se) := clock_value (rmc_time m) in
  let '(d, mo, y) := date_value (rmc_day m) in
  Gps (EspGps (lat (esp_gps s)) (lon (esp_gps s)) (alt (esp_gps s)) y mo d h mi se) (nmea s).

Lemma rmc_tail_nonempty m : rmc_tail m <> [].
Proof. unfold rmc_tail. by destruct (rmc_rest m). Qed.

Lemma rmc_text m : rmc_ok m -> Forall field_text (rmc_fields m) /\
  Forall field_text (rmc_speed m :: rmc_angle m :: date_field (rmc_day m) :: rmc_tail m).
Proof.
  intros (Ht & Ha & Ho & Hd & Hf & _).
  assert (Forall field_text (rmc_speed m :: rmc_angle m :: date_field (rmc_day m) :: rmc_tail m)) as Hs.
  { pose proof (Forall_inv_tail Hf) as H1. pose proof (Forall_inv_tail H1) as H2.
    apply Forall_cons_2; [exact (Forall_inv Hf)|]. apply Forall_cons_2; [exact (Forall_inv H1)|].
    apply Forall_cons_2; [by apply date_field_text|done]. }
  split; [|done]. apply Forall_cons_2; [by apply clock_field_text|].
  apply Forall_cons_2; [by unfold rmc_status; destruct (rmc_valid m); apply field_text_const|].
  by apply position_fields_text.
Qed.

Lemma rmc_text_end m : exists x, lit "$GPRMC" ++ fields (rmc_fields m) =
  x ++ crlf_end (rmc_h1 m) (rmc_h2 m).
Proof.
  unfold rmc_fields, position_fields, rmc_tail. rewrite !app_comm_cons.
  destruct (fields_end (clock_field (rmc_time m) :: rmc_status m :: place_field (rmc_lat m) ::
    place_side 83 78 (rmc_lat m) :: place_field (rmc_lon m) :: place_side 87 69 (rmc_lon m) ::
    rmc_speed m :: rmc_angle m :: date_field (rmc_day m) :: rmc_rest m) (rmc_last m)
    (crlf_end (rmc_h1 m) (rmc_h2 m))) as [x ->].
  rewrite app_assoc. by eexists.
Qed.

Lemma rmc_date_at f sp an d fs r :
  field_text f -> date_ok d -> Forall field_text (sp :: an :: date_field d :: fs) -> fs <> [] ->
  rmc_date (at_text (f ++ fields (sp :: an :: date_field d :: fs)) r) = Some (date_value d).
Proof.
  intros Hf Hd H Hne. unfold rmc_date.
  pose proof (Forall_inv_tail H) as H1. pose proof (Forall_inv_tail H1) as H2.
  rewrite skip_field_at by done. cbn [mbind option_bind].
  rewrite skip_field_at by (done || exact (Forall_inv H)). cbn [mbind option_bind].
  rewrite next_field_at by (done || exact (Forall_inv H1)). cbn [mbind option_bind].
  rewrite head_at. cbn [mbind option_bind]. destruct d as [t|]; [|by destruct fs].
  cbn [date_ok] in Hd. destruct (pairs_digits _ _ _ Hd) as [Hdg _].
  rewrite float_field_at by (exact (Forall_inv H2) || exact (Forall_inv_tail H2)).
  destruct Hd as ([Ha La] & [Hb Lb] & [Hc Lc]).
  pose proof (three_pairs _ _ _ Ha Hb Hc La Lb Lc) as Hn. cbv zeta in Hn.
  destruct Hn as (Hn & E1 & E2 & E3 & Ra & Rb & Rc).
  destruct (read_near _ None fs Hdg) as (w & x & Hw & _ & _ & Hf0 & Nw);
    [rewrite !length_app; lia|by repeat constructor|].
  cbn [fraction date_field date_value mbind option_bind] in *. rewrite app_nil_r in Hw.
  rewrite (Hf0 eq_refl), Rplus_0_r in Nw. set (n := spelled 0 (t_day t ++ t_month t ++ t_year t)) in *.
  assert (0 <= IZR n < 1000000)%R as Rn by (split; [apply IZR_le|apply IZR_lt]; lia).
  destruct (near_between prec64 w (IZR n)) as [W1 W2]; [lra|unfold prec64; lia|done|].
  pose proof (near_floor prec64 w _ n Nw ltac:(lra) ltac:(lra) ltac:(unfold prec64; lia)) as W3.
  assert (match t_day t ++ t_month t ++ t_year t with c :: _ => c | [] =>
    match fs with [] => 0 | _ => 44 end end <> 44) as Hc0.
  { destruct (t_day t) as [|c a]; [done|]. cbn [app].
    inversion Ha as [|? ? Hc0 _]; subst. unfold is_digit in Hc0. zify_bool. lia. }
  rewrite (proj2 (Z.eqb_neq _ 44)) by done. unfold float_to_u32.
  rewrite (fl_trunc prec64 _ w n Hw) by (lia || lra). cbn [mbind option_bind].
  rewrite (proj2 (Z.leb_le _ _)), (proj2 (Z.ltb_lt _ _)) by lia. cbn [andb mbind option_bind].
  rewrite E1, E2, E3. by rewrite !u8_pair by done.
Qed.

Lemma parse_rmc_at m r dla dlo s a :
  rmc_ok m -> place_value (rmc_lat m) dla -> place_value (rmc_lon m) dlo ->
  run (parse_rmc (rmc_sentence m r)) s [a] =
  (if Z.ltb (snd (date_value (rmc_day m))) 80
   then [(xEventGroupSetBits LED_EG LED_EVENT_GPS_RTC_SET_BIT, a)] else [],
   Done ESP_OK, rmc_result m s).
Proof.
  intros Hm Hla Hlo. destruct (rmc_text m Hm) as [Hfs Htl].
  destruct Hm as (Hp & Ha & Ho & Hd & Hf & _).
  unfold parse_rmc, rmc_sentence, rmc_fields in *.
  pose proof (Forall_inv_tail Hfs) as H1. pose proof (Forall_inv_tail H1) as H2.
  rewrite next_field_at; [|by apply field_text_const|done].
  unfold mbind, prog_bind. cbn [try bind]. rewrite parse_clock_at by done. cbn [try bind].
  destruct (clock_value (rmc_time m)) as [[h mi] se] eqn:Et.
  cbn [try bind]. rewrite next_field_at by (done || exact (Forall_inv Hfs)). cbn [try bind].
  rewrite head_at. cbn [try bind rmc_status].
  assert (negb (Z.eqb (if rmc_valid m then 65 else 86) 65 ||
    Z.eqb (if rmc_valid m then 65 else 86) 86) = false) as -> by by destruct (rmc_valid m).
  rewrite (position_at _ _ _ _ _ _ dla dlo) by (done || exact (Forall_inv H1)). cbn [try bind].
  rewrite rmc_date_at by (done || apply rmc_tail_nonempty || by eapply (place_texts 3 87 69)).
  unfold rmc_result. rewrite Et.
  destruct (date_value (rmc_day m)) as [[d mo] y]. cbn [snd try bind].
  unfold modify, when, LED_SetEventBit, call_. cbn [bind run].
  by destruct (Z.ltb y 80).
Qed.

(** C18: An RMC sentence, with the same end and the same bounds on its time and
    position, sets date and time of day to what it prints and nothing else; the
    LED task is told that the clock is set whenever the year is below 80, which
    is so without a fix and without a date (the date is then 0), too. *)
Theorem rmc_correct fuel m r s a :
  rmc_ok m ->
  run (parse fuel (rmc_sentence m r)) s [a] =
  (if Z.ltb (snd (date_value (rmc_day m))) 80
   then [(xEventGroupSetBits LED_EG LED_EVENT_GPS_RTC_SET_BIT, a)] else [],
   Done ESP_OK, rmc_result m s).
Proof.
  intros Hm. pose proof Hm as (_ & Hpa & Hpo & _).
  destruct (place_value_near 2 _ Hpa) as (dla & Hla & _).
  destruct (place_value_near 3 _ Hpo) as (dlo & Hlo & _).
  destruct (rmc_text_end m) as [x Hx]. destruct (rmc_text m Hm) as [Hfs _].
  assert (nonzero (lit "$GPRMC" ++ fields (rmc_fields m))) as Hn.
  { apply nonzero_app; [auto with airu|by apply nonzero_fields]. }
  unfold parse, rmc_sentence. rewrite Hx at 1.
  rewrite crlf_passes; [|by rewrite <- Hx|by apply Hm].
  unfold mbind, prog_bind. cbn [bind negb].
  assert (cstr (at_text (lit "$GPRMC" ++ fields (rmc_fields m)) r) =
    Some (lit "$GPRMC" ++ fields (rmc_fields m))) as -> by (by apply cstr_app).
  cbn [try bind].
  assert (strstr (lit "$GPRMC" ++ fields (rmc_fields m)) (lit "$GPGGA") = None) as ->.
  { change (lit "$GPRMC") with (36 :: [71; 80; 82; 77; 67]).
    change (lit "$GPGGA") with [36; 71; 80; 71; 71; 65]. cbn [app strstr is_prefix Z.eqb Pos.eqb andb].
    rewrite strstr_absent; [done|]. destruct Hm as (_ & _ & _ & _ & _ & Hd & _).
    exact Hd. }
  destruct (strstr (lit "$GPRMC" ++ fields (rmc_fields m)) (lit "$GPRMC")) as [n|] eqn:E.
  - by eapply parse_rmc_at.
  - exfalso. by apply (strstr_none _ _ [] (fields (rmc_fields m)) E).
Qed.

(** ** What the checksum covers *)

Definition xor_all (l : list Z) : Z := foldl Z.lxor 0 l.

Lemma foldl_lxor sum l : foldl Z.lxor sum l = Z.lxor sum (xor_all l).
Proof.
  unfold xor_all. revert sum. induction l as [|c l IH]; intros sum; cbn [foldl].
  - by rewrite Z.lxor_0_r.
  - by rewrite IH, (IH (Z.lxor 0 c)), Z.lxor_0_l, Z.lxor_assoc.
Qed.

Lemma xor_loop_spec fuel pre body post sum :
  (length body < fuel)%nat -> (length pre + length body <= 255)%nat ->
  xor_loop fuel (pre ++ body ++ post) (Z.of_nat (length pre + length body)) (Z.of_nat (length pre)) sum =
  Ret (Z.lxor sum (xor_all body)).
Proof.
  revert fuel pre sum. induction body as [|c body IH]; intros fuel pre sum Hf Hl.
  - destruct fuel as [|fuel]; [simpl in Hf; lia|]. cbn [xor_loop length]. rewrite Nat.add_0_r.
    rewrite (proj2 (Z.ltb_ge _ _)) by lia. cbn. by rewrite Z.lxor_0_r.
  - destruct fuel as [|fuel]; [simpl in Hf; lia|]. simpl in Hf, Hl. cbn [xor_loop].
    rewrite (proj2 (Z.ltb_lt _ _)) by (cbn [length]; lia).
    rewrite Nat2Z.id. cbn [app]. rewrite lookup_app_exact by done.
    unfold mbind, prog_bind. cbn [try bind].
    replace (u8 (Z.of_nat (length pre) + 1)) with (Z.of_nat (length (pre ++ [c]))).
    + replace (pre ++ c :: body ++ post) with ((pre ++ [c]) ++ body ++ post) by by rewrite <- app_assoc.
      replace (length pre + length (c :: body))%nat with (length (pre ++ [c]) + length body)%nat
        by (rewrite length_app; cbn [length]; lia).
      rewrite IH by (rewrite ?length_app; cbn [length]; lia). f_equal.
      rewrite Z.lxor_assoc. f_equal. change (xor_all (c :: body)) with (foldl Z.lxor (Z.lxor 0 c) body).
      by rewrite foldl_lxor, Z.lxor_0_l.
    + rewrite uwrap_small; rewrite ?length_app; cbn [length]; lia.
Qed.

(** The end of a sentence without a carriage return. *)
Definition lf_end (h1 h2 : Z) : list Z := [42; h1; h2; 10].

(** The value a valid sentence shows after its star: the exclusive or of
    everything between the dollar sign and the star. *)
Definition nmea_checksum (body : list Z) (h1 h2 : Z) : Prop :=
  xor_all body = 16 * parseHex h1 + parseHex h2.

Lemma parseHex_range c : 0 <= parseHex c < 16.
Proof. unfold parseHex. split_ifs; zify_bool; lia. Qed.

Lemma lf_checksum fuel c0 c1 body h1 h2 r :
  nonzero (c0 :: c1 :: body ++ lf_end h1 h2) -> (length body <= 253)%nat -> (256 <= fuel)%nat ->
  checksum_passes fuel (at_text (c0 :: c1 :: body ++ lf_end h1 h2) r) =
  Ret (Z.eqb (Z.lxor (16 * parseHex h1 + parseHex h2) (xor_all body)) 0).
Proof.
  intros Hn Hl Hf. unfold checksum_passes.
  pose proof (parseHex_range h1). pose proof (parseHex_range h2).
  replace (c0 :: c1 :: body ++ lf_end h1 h2) with (([c0; c1] ++ body) ++ 42 :: [h1; h2; 10]) in * by done.
  rewrite (from_end_at _ [h1; h2; 10] 42 _ 4) by done.
  unfold mbind, prog_bind. cbn [try bind Z.eqb Pos.eqb].
  replace (([c0; c1] ++ body) ++ 42 :: [h1; h2; 10])
    with (([c0; c1] ++ body ++ [42]) ++ h1 :: [h2; 10]) in * by by rewrite <- !app_assoc.
  rewrite (from_end_at _ [h2; 10] h1 _ 3) by done. cbn [try bind].
  replace (([c0; c1] ++ body ++ [42]) ++ h1 :: [h2; 10])
    with (([c0; c1] ++ body ++ [42; h1]) ++ h2 :: [10]) in * by by rewrite <- !app_assoc.
  rewrite (from_end_at _ [10] h2 _ 2) by done. cbn [try bind].
  unfold at_text. rewrite strlen_app by done. cbn [try bind].
  replace (Z.of_nat (length (([c0; c1] ++ body ++ [42; h1]) ++ [h2; 10])) - 4)
    with (Z.of_nat (length [c0; c1] + length body)) by (rewrite !length_app; cbn [length]; lia).
  replace ((([c0; c1] ++ body ++ [42; h1]) ++ [h2; 10]) ++ 0 :: r)
    with ([c0; c1] ++ body ++ ([42; h1; h2; 10] ++ 0 :: r)) by by rewrite <- !app_assoc.
  change 2 with (Z.of_nat (length [c0; c1])) at 1. rewrite xor_loop_spec by (cbn [length]; lia).
  cbn [bind]. rewrite (uwrap_small 16 (parseHex h1 * 16)) by lia.
  rewrite uwrap_small by lia. unfold mret, prog_ret. do 3 f_equal. lia.
Qed.

(** A sentence ending in CR LF is never checked, whatever its checksum digits
    say; one ending in LF alone is checked against everything but its second
    character, so a valid one is refused (and the code returns 0, ESP_OK). *)
Theorem checksum_looks_away fuel body h1 h2 r s :
  nonzero body -> h1 <> 0 -> h2 <> 0 -> (256 <= fuel)%nat ->
  (h1 <> 42 ->
   run (checksum_passes fuel (at_text (36 :: body ++ crlf_end h1 h2) r)) s [] = ([], Done true, s)) /\
  (body <> [] -> (length body <= 254)%nat -> nmea_checksum body h1 h2 ->
   run (parse fuel (at_text (36 :: body ++ lf_end h1 h2) r)) s [] = ([], Done 0, s)).
Proof.
  intros Hb H1 H2 Hf. split.
  - intros H42. rewrite (app_comm_cons body _ 36). rewrite crlf_passes; [done| |done].
    apply nonzero_app; [by constructor|]. unfold crlf_end. repeat (constructor; [done|]). constructor.
  - intros Hne Hl Hc. destruct body as [|c1 body]; [done|]. cbn [app length] in *.
    assert (nonzero (36 :: c1 :: body ++ lf_end h1 h2)) as Hn.
    { apply (nonzero_app (36 :: c1 :: body)); [by constructor|]. unfold lf_end.
      repeat (constructor; [done|]). constructor. }
    unfold parse. rewrite lf_checksum by (done || lia). unfold mbind, prog_bind. cbn [bind].
    unfold nmea_checksum in Hc. rewrite <- Hc.
    assert (xor_all (c1 :: body) = Z.lxor c1 (xor_all body)) as ->.
    { unfold xor_all at 1. cbn [foldl]. by rewrite foldl_lxor, Z.lxor_0_l. }
    rewrite Z.lxor_assoc, Z.lxor_nilpotent, Z.lxor_0_r.
    inversion_clear Hb as [|? ? Hc1 _]. rewrite (proj2 (Z.eqb_neq c1 0)) by done. done.
Qed.

(** ** A sentence that is too long *)

Lemma xor_loop_forever fuel b bound i sum s :
  256 <= bound -> (256 <= length b)%nat -> 0 <= i < 256 ->
  run (xor_loop fuel b bound i sum) s [] = ([], Stopped OutOfFuel, s).
Proof.
  intros Hb Hl. revert i sum. induction fuel as [|fuel IH]; intros i sum Hi; [done|].
  cbn [xor_loop]. rewrite (proj2 (Z.ltb_lt _ _)) by lia.
  destruct (lookup_lt_is_Some_2 b (Z.to_nat i)) as [c ->]; [lia|].
  unfold mbind, prog_bind. cbn [try bind]. apply IH. apply (uwrap_range 8). lia.
Qed.

(** C38: The loop counts in a uint8_t: a line of 260 characters or more with a star
    four from its end is never left. *)
Theorem checksum_never_ends fuel x y r s :
  nonzero (x ++ 42 :: y) -> length y = 3%nat -> (256 <= length x)%nat ->
  run (parse fuel (at_text (x ++ 42 :: y) r)) s [] = ([], Stopped OutOfFuel, s).
Proof.
  intros Hn Hy Hx. destruct y as [|h1 [|h2 [|e [|]]]]; try done.
  assert (from_end (at_text (x ++ [42; h1; h2; e]) r) 3 = Some h1) as E3.
  { replace (x ++ [42; h1; h2; e]) with ((x ++ [42]) ++ h1 :: [h2; e]) in * by by rewrite <- app_assoc.
    by apply from_end_at. }
  assert (from_end (at_text (x ++ [42; h1; h2; e]) r) 2 = Some h2) as E2.
  { replace (x ++ [42; h1; h2; e]) with ((x ++ [42; h1]) ++ h2 :: [e]) in * by by rewrite <- app_assoc.
    by apply from_end_at. }
  unfold parse. apply run_bind_stop. unfold checksum_passes.
  rewrite (from_end_at _ [h1; h2; e] 42 _ 4) by done. rewrite E3, E2.
  unfold mbind, prog_bind. cbn [try bind Z.eqb Pos.eqb]. unfold at_text. rewrite strlen_app by done.
  cbn [try bind]. apply run_bind_stop, xor_loop_forever; rewrite ?length_app; cbn [length]; lia.
Qed.

(** ** What a sentence can change *)

Definition same_date (s s' : gps) : Prop :=
  year (esp_gps s') = year (esp_gps s) /\ month (esp_gps s') = month (esp_gps s) /\
  day (esp_gps s') = day (esp_gps s).

Definition same_position (s s' : gps) : Prop :=
  lat (esp_gps s') = lat (esp_gps s) /\ lon (esp_gps s') = lon (esp_gps s) /\
  alt (esp_gps s') = alt (esp_gps s).

(** From [s], a parser that returned [r]: all or nothing. *)
Definition parsed (s : gps) (h : ctrace) (o : outcome Z) (s' : gps) : Prop :=
  match o with
  | Done r => nmea s' = nmea s /\ (r <> ESP_OK -> s' = s /\ h = []) /\
              (same_date s s' \/ same_position s s')
  | _ => True
  end.

Lemma parsed_same s r : parsed s [] (Done r) s.
Proof. split; [done|]. split; [done|]. by left. Qed.

Lemma parsed_gga b s : wp eq (fun _ _ _ => True) (parsed s) (parse_gga b) [] s.
Proof.
  unfold parse_gga, mbind, prog_bind.
  destruct (next_field b) as [p|]; cbn [try bind]; [|done].
  destruct (parse_time p) as [[[h m] se]|]; cbn [try bind]; [|done].
  destruct (position p) as [[[[la lo] q]|]|]; cbn [try bind]; [|apply parsed_same|done].
  destruct (gga_altitude q) as [a|]; cbn [try bind]; [|done].
  unfold modify. cbn [bind wp]. do 6 (intros ? <-). split; [done|]. split; [done|]. by left.
Qed.

Lemma parsed_rmc b s : wp eq (fun _ _ _ => True) (parsed s) (parse_rmc b) [] s.
Proof.
  unfold parse_rmc, mbind, prog_bind.
  destruct (next_field b) as [p|]; cbn [try bind]; [|done].
  destruct (parse_time p) as [[[h m] se]|]; cbn [try bind]; [|done].
  destruct (next_field p) as [p1|]; cbn [try bind]; [|done].
  destruct (head p1) as [c|]; cbn [try bind]; [|done].
  destruct (negb _); [apply parsed_same|].
  destruct (position p1) as [[[[la lo] q]|]|]; cbn [try bind]; [|apply parsed_same|done].
  destruct (rmc_date q) as [[[d mo] y]|]; cbn [try bind]; [|done].
  unfold modify, when, LED_SetEventBit, call_. cbn [bind wp]. do 6 (intros ? <-).
  destruct (Z.ltb y 80); cbn [bind wp].
  - split; [done|]. intros a ? <-. split; [done|]. split; [done|]. by right.
  - split; [done|]. split; [done|]. by right.
Qed.

(** The checksum test changes nothing and calls nothing. *)
Lemma pure_xor_loop fuel b bound i sum :
  reads_only (xor_loop fuel b bound i sum) /\ only (fun _ => False) any (xor_loop fuel b bound i sum).
Proof.
  revert i sum. induction fuel as [|fuel IH]; intros i sum; [done|]. cbn [xor_loop].
  destruct (Z.ltb i bound); [|done]. unfold mbind, prog_bind.
  destruct (b !! Z.to_nat i); cbn [try bind]; [apply IH|done].
Qed.

Lemma pure_checksum fuel b :
  reads_only (checksum_passes fuel b) /\ only (fun _ => False) any (checksum_passes fuel b).
Proof.
  unfold checksum_passes, mbind, prog_bind.
  destruct (from_end b 4) as [c|]; cbn [try bind]; [|done]. destruct (Z.eqb c 42); [|done].
  destruct (from_end b 3), (from_end b 2), (strlen b); cbn [try bind]; try done.
  split; [apply reads_only_bind|eapply only_bind]; try apply pure_xor_loop; done.
Qed.

Lemma no_calls {tr : ctrace} : Forall (fun c => False) tr -> tr = [].
Proof. destruct 1; [done|contradiction]. Qed.

(** C37: Whatever the memory holds, a sentence that fails the checksum test or that
    is refused (an error is returned) changes nothing and calls nothing; one
    that is accepted changes the position or the date, never both; none changes
    the line itself.  A failed test returns ESP_OK all the same. *)
Theorem parse_all_or_nothing fuel b s tr r s' :
  exec eq (parse fuel b) s tr (Done r) s' ->
  nmea s' = nmea s /\
  (run (checksum_passes fuel b) s [] = ([], Done false, s) -> s' = s /\ tr = [] /\ r = ESP_OK) /\
  (r <> ESP_OK -> s' = s /\ tr = []) /\
  (same_date s s' \/ same_position s s').
Proof.
  intros He. unfold parse in He. apply exec_bind_done in He as (t1 & ok & s1 & t2 & -> & H1 & H2).
  destruct (pure_checksum fuel b) as [Hr Ho].
  apply (reads_only_exec _ _ _ _ _ Hr) in H1 as E. subst s1.
  apply (only_exec _ _ _ _ _ _ _ _ Ho) in H1 as Ht. destruct Ht as [Ht _]. apply no_calls in Ht as ->.
  apply exec_run in H1. cbn [app map] in *. rewrite H1.
  destruct ok; cbn [negb] in H2; [|by inversion H2; subst; do 3 (split; [done|]); left].
  unfold mbind, prog_bind in H2. destruct (cstr b) as [text|]; cbn [try bind] in H2; [|inversion H2].
  assert (wp eq (fun _ _ _ => True) (parsed s)
    (match strstr text (lit "$GPGGA") with
     | Some _ => parse_gga b
     | None => match strstr text (lit "$GPRMC") with
               | Some _ => parse_rmc b | None => mret ESP_FAIL end
     end) [] s) as Hw.
  { destruct (strstr text (lit "$GPGGA")); [apply parsed_gga|].
    destruct (strstr text (lit "$GPRMC")); [apply parsed_rmc|apply parsed_same]. }
  destruct (wp_exec _ _ _ _ _ _ _ _ _ Hw H2) as [HQ _]. destruct (HQ ltac:(done)) as (Hn & Hf & Hs).
  split; [done|]. split; [done|]. by split.
Qed.

(** ** A line of the receiver *)

(** What is done with the bytes of a line. *)
Definition take_line (fuel : nat) (read_len : Z) (line : list Z) : gprog unit :=
  update (fun s => b ← write (nmea s) 0 line; Some (set_nmea b s));;
  update (fun s => if Z.ltb read_len 0 then None
                   else b ← store (nmea s) (Z.to_nat read_len) 0; Some (set_nmea b s));;
  b ← get nmea;
  parse fuel b;; mret tt.

Lemma line_run fuel s ev len p data ans :
  length (nmea s) = MAX_SENTENCE_LEN -> a_ret ev <> 0 -> a_val ev = UART_PATTERN_DET -> p <> -1 ->
  run (uart_gps_event_mgr_round fuel) s (ev :: len :: ret_ p :: data :: ans) =
  let '(tr, o, s') := run (take_line fuel (a_ret data) (a_bytes data))
    (set_nmea (replicate MAX_SENTENCE_LEN 0) s) ans in
  ([(uart_queue_receive GPS_UART_NUM, ev); (uart_get_buffered_data_len GPS_UART_NUM, len);
    (uart_pattern_pop_pos GPS_UART_NUM, ret_ p);
    (uart_read_bytes GPS_UART_NUM (p + 1) (Some 10), data)] ++ tr, o, s').
Proof.
  intros Hb Hr Hv Hp.
  unfold uart_gps_event_mgr_round, mbind, prog_bind, call. cbn [bind run].
  rewrite (proj2 (Z.eqb_neq (a_ret ev) 0)) by done. cbn [negb when].
  unfold update at 1. cbn [bind run].
  assert (memset (nmea s) 0 0 MAX_SENTENCE_LEN = Some (replicate MAX_SENTENCE_LEN 0)) as ->.
  { unfold memset. rewrite write_some by (rewrite length_replicate; lia). cbn [take app].
    rewrite length_replicate, drop_ge by lia. by rewrite app_nil_r. }
  cbn [mbind option_bind run]. rewrite Hv.
  cbn [Z.eqb Pos.eqb orb UART_PATTERN_DET UART_FIFO_OVF UART_BUFFER_FULL].
  unfold read_sentence, mbind, prog_bind, call, call_. cbn [bind run].
  cbn [a_ret ret_]. rewrite (proj2 (Z.eqb_neq p (-1))) by done. cbn [negb bind run].
  fold (take_line fuel (a_ret data) (a_bytes data)).
  match goal with |- context [run ?q ?st ans] =>
    change (run q st ans) with (run (take_line fuel (a_ret data) (a_bytes data)) st ans) end.
  by destruct (run (take_line fuel (a_ret data) (a_bytes data)) _ ans) as [[tr o] s'].
Qed.

Lemma write_whole (n : nat) (line : list Z) : (length line <= n)%nat ->
  write (replicate n 0) 0 line = Some (line ++ replicate (n - length line) 0).
Proof.
  intros H. rewrite write_some by (rewrite length_replicate; lia). cbn [take app].
  by rewrite drop_replicate.
Qed.

(** A line the driver found: it is parsed as it is when it is shorter than the
    buffer, and written past the buffer's end when it is not (the driver's
    buffer holds lines of up to 2047 characters). *)
Theorem line_round fuel s ev len line ans :
  length (nmea s) = MAX_SENTENCE_LEN -> a_ret ev <> 0 -> a_val ev = UART_PATTERN_DET ->
  line <> [] ->
  let pos := ret_ (Z.of_nat (length line) - 1) in
  let data := ret_bytes (Z.of_nat (length line)) line in
  let calls := [(uart_queue_receive GPS_UART_NUM, ev); (uart_get_buffered_data_len GPS_UART_NUM, len);
    (uart_pattern_pop_pos GPS_UART_NUM, pos);
    (uart_read_bytes GPS_UART_NUM (Z.of_nat (length line)) (Some 10), data)] in
  ((length line < MAX_SENTENCE_LEN)%nat ->
   let b := line ++ replicate (MAX_SENTENCE_LEN - length line) 0 in
   run (uart_gps_event_mgr_round fuel) s (ev :: len :: pos :: data :: ans) =
   let '(tr, o, s') := run (parse fuel b;; mret tt) (set_nmea b s) ans in (calls ++ tr, o, s')) /\
  ((MAX_SENTENCE_LEN <= length line)%nat ->
   exists s', run (uart_gps_event_mgr_round fuel) s (ev :: len :: pos :: data :: ans) =
              (calls, Stopped UB, s')).
Proof.
  intros Hb Hr Hv Hl pos data calls.
  assert (0 < length line)%nat by (destruct line; [done|cbn; lia]).
  unfold pos. rewrite line_run by (done || lia). fold pos.
  replace (Z.of_nat (length line) - 1 + 1) with (Z.of_nat (length line)) by lia. fold calls.
  unfold take_line, update, get, mbind, prog_bind. cbn [bind run nmea set_nmea].
  change (a_ret data) with (Z.of_nat (length line)). change (a_bytes data) with line.
  rewrite (proj2 (Z.ltb_ge (Z.of_nat (length line)) 0)), Nat2Z.id by lia.
  split; intros Hlen.
  - rewrite write_whole by lia. cbn [mbind option_bind run bind set_nmea nmea esp_gps].
    set (n := (MAX_SENTENCE_LEN - length line)%nat).
    assert (store (line ++ replicate n 0) (length line) 0 = Some (line ++ replicate n 0)) as ->.
    { destruct n as [|k] eqn:En; [lia|]. exact (write_spec line [0] (replicate k 0) [0] eq_refl). }
    done.
  - destruct (write (replicate MAX_SENTENCE_LEN 0) 0 line) as [b1|] eqn:Ew;
      cbn [mbind option_bind]; [|by eexists].
    assert (length b1 = length line) as Hb1.
    { pose proof (write_length _ _ _ _ Ew) as E. rewrite length_replicate in E.
      destruct (decide (length line = MAX_SENTENCE_LEN)) as [->|]; [done|].
      rewrite (proj2 (write_none _ _ _)) in Ew; [done|]. rewrite length_replicate. lia. }
    change (nmea (set_nmea b1 _)) with b1.
    assert (store b1 (length line) 0 = None) as -> by (apply write_none; cbn [length]; lia).
    cbn [mbind option_bind]. by eexists.
Qed.

(** ** Instances *)

Definition demo_lat : coord := Coord (lit "48") (lit "07") (lit "0380") [].
Definition demo_lon : coord := Coord (lit "011") (lit "31") (lit "0000") [].

(** 48 degrees 7.0380 minutes and 11 degrees 31 minutes, in single precision *)
Definition demo_lat_value : float32 := S754_finite false 12613662 (-18).
Definition demo_lon_value : float32 := S754_finite true 12076100 (-20).

Lemma demo_lat_ok : place_ok 2 (Some (demo_lat, false)).
Proof.
  split; [by left|]. split; [|by vm_compute]. repeat split; try reflexivity; repeat constructor.
Qed.

Lemma demo_lon_ok : place_ok 3 (Some (demo_lon, true)).
Proof.
  split; [by right|]. split; [|by vm_compute]. repeat split; try reflexivity; repeat constructor.
Qed.

Definition demo_time : clock := Clock (lit "12") (lit "35") (lit "19") (Some (lit "25")).
Definition demo_day : date := Date (lit "23") (lit "03") (lit "19").

Lemma demo_time_ok : clock_ok (Some demo_time) /\ date_ok (Some demo_day).
Proof.
  split; [split; [|split; [by vm_compute|split; [|split; [vm_compute; lia|by vm_compute]]]]|];
    repeat split; try reflexivity; repeat constructor.
Qed.

Definition demo_gga : gga :=
  Gga (Some demo_time) (Some (demo_lat, false)) (Some (demo_lon, true))
    (lit "1") (lit "08") (lit "0.9") (lit "545.4") (lit "M") (lit "46.9") [lit "M"; []] [] 52 55.

Example demo_gga_text : gga_sentence demo_gga [] =
  lit "$GPGGA,123519.25,4807.0380,N,01131.0000,W,1,08,0.9,545.4,M,46.9,M,,*47\r\n" ++ [0].
Proof. vm_compute. reflexivity. Qed.

Lemma gga_correct_witness :
  exists dla dlo, place_near (Some (demo_lat, false)) dla /\ place_near (Some (demo_lon, true)) dlo /\
    run (parse 256 (gga_sentence demo_gga [])) gps_start [] =
      ([], Done ESP_OK, gga_result demo_gga dla dlo gps_start).
Proof.
  apply (gga_correct 256 demo_gga [] gps_start).
  split; [apply demo_time_ok|]. split; [apply demo_lat_ok|]. split; [apply demo_lon_ok|].
  split; [|done]. repeat (apply Forall_cons_2; [by apply field_text_const|]). constructor.
Defined.

(** Without a fix: only the time, an empty date. *)
Definition nofix_rmc : rmc :=
  Rmc (Some demo_time) false None None [] [] None [[]; []] (lit "N") 53 51.

Example nofix_rmc_text : rmc_sentence nofix_rmc [] =
  lit "$GPRMC,123519.25,V,,,,,,,,,,N*53\r\n" ++ [0].
Proof. vm_compute. reflexivity. Qed.

Lemma rmc_correct_witness :
  run (parse 256 (rmc_sentence nofix_rmc [])) gps_start [ret_ 0] =
  ([(xEventGroupSetBits LED_EG LED_EVENT_GPS_RTC_SET_BIT, ret_ 0)], Done ESP_OK,
   rmc_result nofix_rmc gps_start).
Proof.
  apply (rmc_correct 256 nofix_rmc [] gps_start (ret_ 0)).
  split; [apply demo_time_ok|]. split; [done|]. split; [done|]. split; [done|].
  split; [repeat (apply Forall_cons_2; [by apply field_text_const|]); constructor|].
  split; [|done]. apply Forall_forall. intros c Hc.
  assert (forallb (fun c => negb (Z.eqb c 36)) (fields (rmc_fields nofix_rmc)) = true) as H
    by (vm_compute; reflexivity).
  rewrite forallb_forall in H. apply list_elem_of_In, H in Hc. by zify_bool.
Defined.

(** The time is a float of 24 bits: from 127 / 128 of a second on, in the second
    half of the day, it is rounded to the next number, and the seconds can be
    60. *)
Definition late_rmc : list Z := lit "$GPRMC,235959.999,V,,,,,,,230319,,,N*53\r\n" ++ [0].

Theorem second_sixty :
  run (parse 256 late_rmc) gps_start [ret_ 0] =
  ([(xEventGroupSetBits LED_EG LED_EVENT_GPS_RTC_SET_BIT, ret_ 0)], Done ESP_OK,
   Gps (EspGps (f32_of_Z (-1)) (f32_of_Z (-1)) (f32_of_Z (-1)) 19 3 23 23 59 60) (nmea gps_start)).
Proof. vm_compute. reflexivity. Qed.

Definition zda_body : list Z := lit "GPZDA,201530.00,04,07,2002,00,00".

Lemma checksum_looks_away_witness :
  run (checksum_passes 256 (at_text (36 :: zda_body ++ crlf_end 63 63) [])) gps_start [] =
    ([], Done true, gps_start) /\
  run (parse 256 (at_text (36 :: zda_body ++ lf_end 54 48) [])) gps_start [] = ([], Done 0, gps_start).
Proof.
  destruct (checksum_looks_away 256 zda_body 63 63 [] gps_start) as [H _];
    [by apply nonzero_const|done|done|lia|].
  destruct (checksum_looks_away 256 zda_body 54 48 [] gps_start) as [_ H2];
    [by apply nonzero_const|done|done|lia|].
  split; [by apply H|]. apply H2; [done|vm_compute; lia|vm_compute; reflexivity].
Defined.

Lemma checksum_never_ends_witness :
  run (parse 1000 (at_text (replicate 256 65 ++ 42 :: [65; 65; 10]) [])) gps_start [] =
  ([], Stopped OutOfFuel, gps_start).
Proof.
  apply (checksum_never_ends 1000 (replicate 256 65) [65; 65; 10] [] gps_start); [|done|].
  - by apply nonzero_const.
  - rewrite length_replicate. lia.
Defined.

Definition refused_line : list Z := at_text (36 :: zda_body ++ lf_end 54 48) [].

Lemma parse_all_or_nothing_witness :
  nmea (gga_result demo_gga demo_lat_value demo_lon_value gps_start) = nmea gps_start /\
  (same_date gps_start (gga_result demo_gga demo_lat_value demo_lon_value gps_start) \/
   same_position gps_start (gga_result demo_gga demo_lat_value demo_lon_value gps_start)) /\
  (run (checksum_passes 256 refused_line) gps_start [] = ([], Done false, gps_start) ->
   gps_start = gps_start /\ @nil (ext * answer) = [] /\ ESP_OK = ESP_OK).
Proof.
  destruct (parse_all_or_nothing 256 (gga_sentence demo_gga []) gps_start [] ESP_OK
    (gga_result demo_gga demo_lat_value demo_lon_value gps_start)) as (H1 & _ & _ & H2).
  - apply (run_exec _ _ []). vm_compute. reflexivity.
  - destruct (parse_all_or_nothing 256 refused_line gps_start [] ESP_OK gps_start) as (_ & H3 & _).
    + apply (run_exec _ _ []). vm_compute. reflexivity.
    + by split; [|split].
Defined.

Lemma line_round_witness :
  exists s', run (uart_gps_event_mgr_round 256) gps_start
    [ret_val 1 UART_PATTERN_DET; ret_ 0; ret_ 1023; ret_bytes 1024 (replicate 1024 65)] =
  ([(uart_queue_receive GPS_UART_NUM, ret_val 1 UART_PATTERN_DET);
    (uart_get_buffered_data_len GPS_UART_NUM, ret_ 0); (uart_pattern_pop_pos GPS_UART_NUM, ret_ 1023);
    (uart_read_bytes GPS_UART_NUM 1024 (Some 10), ret_bytes 1024 (replicate 1024 65))], Stopped UB, s').
Proof.
  destruct (line_round 256 gps_start (ret_val 1 UART_PATTERN_DET) (ret_ 0) (replicate 1024 65) [])
    as [_ H]; [done|done|done|done|]. rewrite length_replicate in H. apply H. unfold MAX_SENTENCE_LEN. lia.
Defined.
