(* ===== verification/IspInfo.v ===== *)
(** * The provider's description (http_get_isp_info of http_server_if.c)

    The device asks ip-api.com where it is and publishes the JSON object it
    gets, with a timestamp put in.  [json_buf] is the caller's buffer, threaded
    through the program. *)

From S2P Require Import Prelude CMem Printf Ext.

Local Open Scope Z_scope.

Definition isp_request : list Z :=
  lit "GET htt-://ip-api.com/json HTTP/1.0\r\nHost: ip-api.com\r\nUser-Agent: esp-idf/1.0 esp32\r\n\r\n".

Definition recv_size : nat := 64.

(** What the loop over a received piece leaves: it goes on, or the buffer was
    full. *)
Inductive scanned :=
  | ScanOn (waiting_for_json : bool) (ii : nat) (json_buf : list Z)
  | ScanFull (json_buf : list Z).

(** [for (i = 0; i < r; i++) ...] over the bytes received. *)
Fixpoint isp_scan (len : nat) (recv : list Z) (waiting : bool) (ii : nat) (buf : list Z) :
    option scanned :=
  match recv with
  | [] => Some (ScanOn waiting ii buf)
  | c :: recv =>
      let waiting := if Z.eqb c 123 then false else waiting in
      r ← (if waiting then Some (ii, buf) else b ← store buf ii c; Some (S ii, b));
      let '(ii, buf) := r in
      if Nat.leb len ii then
        match ii with
        | O => None
        | S i => b ← store buf i 0; Some (ScanFull b)
        end
      else isp_scan len recv waiting ii buf
  end.

Section isp.
Context {S : Type}.

(** The [do ... while (r > 0)] loop; [continue] goes to its condition. *)
Fixpoint isp_receive (fuel : nat) (sock : Z) (len : nat) (total : Z) (waiting : bool) (ii : nat)
    (buf : list Z) : cprog S scanned :=
  match fuel with
  | O => Stop OutOfFuel
  | Datatypes.S fuel =>
      a ← call (sock_read sock (Z.of_nat recv_size - 1));
      recv_buf ← try (write (replicate recv_size 0) 0 (a_bytes a));
      let r := a_ret a in
      total ← try (int32 (total + r));
      if Z.ltb total 100 then
        if Z.ltb 0 r then isp_receive fuel sock len total waiting ii buf
        else mret (ScanOn waiting ii buf)
      else
        s ← try (isp_scan len (take (Z.to_nat r) recv_buf) waiting ii buf);
        match s with
        | ScanOn waiting ii buf =>
            if Z.ltb 0 r then isp_receive fuel sock len total waiting ii buf
            else mret (ScanOn waiting ii buf)
        | ScanFull buf => mret (ScanFull buf)
        end
  end.

Definition utc_text (now : Z) : list Z := lit ",'utc':'" ++ fmt_u (u32 now) ++ lit "'}".

(** After the last read: terminate, and put the time over the last character. *)
Definition isp_finish (sock : Z) (len : nat) (ii : nat) (buf : list Z) : cprog S (Z * list Z) :=
  buf ← try (store buf ii 0);
  call_ (close sock);;
  now ← call time;
  n ← try (strlen buf);
  buf ← try (match ii with
             | O => None                     (* &json_buf[-1] *)
             | Datatypes.S i => snprintf buf i (len - n) (utc_text (a_ret now))
             end);
  mret (ESP_OK, buf).

(** [http_get_isp_info (json_buf, len)]: the error and the buffer.  [a_val] of
    getaddrinfo is the list it returns, 0 for none. *)
Definition http_get_isp_info (fuel : nat) (buf : list Z) (len : nat) : cprog S (Z * list Z) :=
  found ← call (getaddrinfo (lit "ip-api.com") (lit "80"));
  let err := a_ret found in
  if negb (Z.eqb err 0) || Z.eqb (a_val found) 0 then mret (err, buf)
  else
    s ← call socket;
    if Z.ltb (a_ret s) 0 then call_ freeaddrinfo;; mret (err, buf)
    else
      c ← call (connect (a_ret s));
      if negb (Z.eqb (a_ret c) 0) then
        call_ (close (a_ret s));; call_ freeaddrinfo;; mret (err, buf)
      else
        call_ freeaddrinfo;;
        w ← call (sock_write (a_ret s) isp_request);
        if Z.ltb (a_ret w) 0 then call_ (close (a_ret s));; mret (err, buf)
        else
          o ← call (setsockopt_rcvtimeo (a_ret s) 5);
          if Z.ltb (a_ret o) 0 then call_ (close (a_ret s));; mret (err, buf)
          else
            r ← isp_receive fuel (a_ret s) len 0 true 0 buf;
            match r with
            | ScanFull buf => call_ (close (a_ret s));; mret (-1, buf)
            | ScanOn _ ii buf => isp_finish (a_ret s) len ii buf
            end.
End isp.

(** ** What is kept of the stream *)

(** The pieces received once a hundred bytes have come. *)
Fixpoint kept (total : Z) (cs : list (list Z)) : list Z :=
  match cs with
  | [] => []
  | c :: cs =>
      let t := total + Z.of_nat (length c) in
      (if Z.ltb t 100 then [] else c) ++ kept t cs
  end.

(** The text from the first brace on. *)
Fixpoint from_brace (s : list Z) : list Z :=
  match s with
  | [] => []
  | c :: s' => if Z.eqb c 123 then s else from_brace s'
  end.

Definition wanted (waiting : bool) (s : list Z) : list Z := if waiting then from_brace s else s.

Definition still_waiting (waiting : bool) (s : list Z) : bool :=
  waiting && (if from_brace s is [] then true else false).

Lemma wanted_app waiting s t :
  wanted waiting (s ++ t) = wanted waiting s ++ wanted (still_waiting waiting s) t.
Proof.
  destruct waiting; [|done]. unfold wanted, still_waiting. cbn [andb].
  induction s as [|c s IH]; cbn [app from_brace]; [done|].
  destruct (Z.eqb c 123); [done|]. exact IH.
Qed.

Lemma still_waiting_app waiting s t :
  still_waiting waiting (s ++ t) = still_waiting (still_waiting waiting s) t.
Proof.
  destruct waiting; [|done]. unfold still_waiting. cbn [andb].
  induction s as [|c s IH]; cbn [app from_brace]; [done|].
  destruct (Z.eqb c 123); [done|exact IH].
Qed.

(** The buffer with [t] from [ii] on. *)
Definition put (buf : list Z) (ii : nat) (t : list Z) : list Z :=
  take ii buf ++ t ++ drop (ii + length t) buf.

Lemma put_nil buf ii : (ii <= length buf)%nat -> put buf ii [] = buf.
Proof. intros. unfold put. cbn [length app]. by rewrite Nat.add_0_r, take_drop. Qed.

Lemma put_length buf ii t : (ii + length t <= length buf)%nat -> length (put buf ii t) = length buf.
Proof. intros. unfold put. rewrite !length_app, length_take, length_drop. lia. Qed.

Lemma put_app p r t : put (p ++ r) (length p) t = p ++ t ++ drop (length t) r.
Proof.
  unfold put. rewrite take_app_length. do 2 f_equal.
  by rewrite <- drop_drop, drop_app_length.
Qed.

Lemma put_put buf ii t u : (ii + length t <= length buf)%nat ->
  put (put buf ii t) (ii + length t) u = put buf ii (t ++ u).
Proof.
  intros H. destruct (split_at buf ii) as (p & r & -> & <-); [lia|].
  rewrite !put_app, app_assoc, <- (length_app p t), put_app.
  by rewrite length_app, <- drop_drop, <- !app_assoc.
Qed.

Lemma store_put buf ii c : (ii < length buf)%nat -> store buf ii c = Some (put buf ii [c]).
Proof. intros. unfold store. by rewrite write_some by (cbn [length]; lia). Qed.

Lemma put_over buf ii c d : (ii < length buf)%nat -> put (put buf ii [c]) ii [d] = put buf ii [d].
Proof.
  intros H. destruct (split_at buf ii) as (p & r & -> & <-); [lia|]. rewrite !put_app.
  cbn [app length drop]. destruct r; [|done]. by rewrite length_app in H; cbn [length] in H; lia.
Qed.

Lemma isp_scan_spec len recv waiting ii buf :
  length buf = len -> (ii < len)%nat ->
  let t := wanted waiting recv in
  isp_scan len recv waiting ii buf =
  Some (if Nat.ltb (ii + length t) len
        then ScanOn (still_waiting waiting recv) (ii + length t) (put buf ii t)
        else ScanFull (put buf ii (take (len - 1 - ii) t ++ [0]))).
Proof.
  cbv zeta. revert waiting ii buf. induction recv as [|c recv IH]; intros waiting ii buf Hb Hi.
  - assert (wanted waiting [] = []) as -> by by destruct waiting. cbn [length].
    rewrite Nat.add_0_r, (proj2 (Nat.ltb_lt _ _)), put_nil by lia.
    unfold still_waiting. cbn [isp_scan from_brace]. by destruct waiting.
  - cbn [isp_scan]. set (w := if Z.eqb c 123 then false else waiting). destruct w eqn:Ew.
    + assert (waiting = true /\ Z.eqb c 123 = false) as [-> Hc] by (unfold w in Ew; by destruct (Z.eqb c 123)).
      cbn [mbind option_bind]. rewrite (proj2 (Nat.leb_gt _ _)) by lia. rewrite IH by done.
      unfold wanted, still_waiting. cbn [from_brace andb]. by rewrite Hc.
    + rewrite store_put by lia. cbn [mbind option_bind].
      assert (wanted waiting (c :: recv) = c :: recv /\ still_waiting waiting (c :: recv) = false) as [-> ->].
      { unfold wanted, still_waiting, w in *. destruct waiting; [|done]. cbn [from_brace andb].
        by destruct (Z.eqb c 123). }
      cbn [length]. destruct (Nat.leb_spec len (S ii)) as [Hf|Hf].
      * rewrite store_put by (rewrite put_length by (cbn [length]; lia); lia).
        cbn [mbind option_bind]. rewrite put_over by lia.
        rewrite (proj2 (Nat.ltb_ge _ _)) by lia. replace (len - 1 - ii)%nat with 0%nat by lia. done.
      * rewrite IH by (rewrite ?put_length; cbn [length]; lia). unfold wanted, still_waiting. cbn [andb].
        replace (ii + S (length recv))%nat with (S ii + length recv)%nat by lia.
        assert (forall u, put (put buf ii [c]) (S ii) u = put buf ii (c :: u)) as Hp.
        { intros u. replace (S ii) with (ii + length [c])%nat by (cbn [length]; lia).
          by rewrite put_put by (cbn [length]; lia). }
        rewrite !Hp. destruct (Nat.ltb _ len); [done|]. do 3 f_equal.
        replace (len - 1 - ii)%nat with (S (len - 1 - S ii)) by lia. done.
Qed.

(** ** The stream *)

(** The answers of a connection that delivers [cs] and is closed. *)
Definition pieces (cs : list (list Z)) : list answer :=
  ((fun c => ret_bytes (Z.of_nat (length c)) c) <$> cs) ++ [ret_ 0].

Definition piece_ok (c : list Z) : Prop := (0 < length c < recv_size)%nat.

Definition total_length (cs : list (list Z)) : Z := Z.of_nat (length (concat cs)).

Lemma recv_buf_read c : (length c <= recv_size)%nat ->
  exists b, write (replicate recv_size 0) 0 c = Some b /\ take (length c) b = c.
Proof.
  intros H. rewrite write_some by (rewrite length_replicate; lia). eexists. split; [done|].
  rewrite take_0. cbn [app]. apply take_app_length.
Qed.

(** What [isp_receive] makes of a stream, and how many reads it takes. *)
Lemma isp_receive_spec {S} fuel sock len cs total waiting ii buf (s : S) :
  Forall piece_ok cs -> (length cs < fuel)%nat -> 0 <= total -> total + total_length cs < 2 ^ 31 ->
  length buf = len -> (ii < len)%nat -> (waiting = false -> 100 <= total) ->
  let t := wanted waiting (kept total cs) in
  exists tr w,
    run (isp_receive fuel sock len total waiting ii buf) s (pieces cs) =
    (tr, Done (if Nat.ltb (ii + length t) len then ScanOn w (ii + length t) (put buf ii t)
               else ScanFull (put buf ii (take (len - 1 - ii) t ++ [0]))), s) /\
    (length tr <= length (pieces cs))%nat /\
    (Nat.ltb (ii + length t) len = true -> length tr = length (pieces cs)).
Proof.
  cbv zeta. intros Hc. revert fuel total waiting ii buf.
  induction Hc as [|c cs Hc _ IH]; intros fuel total waiting ii buf Hf Ht Hm Hb Hi Hw.
  - destruct fuel as [|fuel]; [simpl in Hf; lia|]. cbn [isp_receive kept pieces fmap list_fmap app].
    unfold mbind, prog_bind, call. cbn [bind run a_ret a_bytes ret_].
    destruct (recv_buf_read []) as (b & -> & Hb0); [cbn; lia|]. cbn [try bind].
    assert (wanted waiting [] = []) as -> by by destruct waiting. cbn [length].
    rewrite Nat.add_0_r, (proj2 (Nat.ltb_lt _ _)), put_nil by lia.
    unfold total_length in Hm. cbn in Hm. rewrite int32_small by lia. cbn [try bind].
    destruct (Z.ltb (total + 0) 100); [by do 2 eexists|].
    change (take (Z.to_nat 0) b) with (@nil Z). cbn [isp_scan try bind Z.ltb Z.compare]. by do 2 eexists.
  - destruct fuel as [|fuel]; [simpl in Hf; lia|]. simpl in Hf.
    cbn [isp_receive kept pieces fmap list_fmap app]. unfold mbind, prog_bind, call.
    cbn [bind run a_ret a_bytes ret_bytes]. unfold piece_ok in Hc.
    destruct (recv_buf_read c) as (b & -> & Hb0); [lia|]. cbn [try bind].
    assert (total_length (c :: cs) = Z.of_nat (length c) + total_length cs) as Htl.
    { unfold total_length. cbn [concat]. rewrite length_app. lia. }
    rewrite int32_small by (unfold total_length in *; lia). cbn [try bind].
    change ((_ <$> cs) ++ [ret_ 0]) with (pieces cs). rewrite Nat2Z.id, Hb0.
    rewrite (proj2 (Z.ltb_lt 0 _)) by lia.
    destruct (Z.ltb_spec (total + Z.of_nat (length c)) 100) as [H100|H100].
    + cbn [app]. edestruct (IH fuel (total + Z.of_nat (length c)) waiting ii buf) as (tr & w & -> & L1 & L2);
        try lia; [by intros Hwf; specialize (Hw Hwf); lia|]. do 2 eexists. split; [done|].
      cbn [length]. split; [lia|]. intros E. by rewrite L2.
    + rewrite isp_scan_spec by done. cbn [try bind]. rewrite wanted_app, length_app.
      destruct (Nat.ltb_spec (ii + length (wanted waiting c)) len) as [Hl|Hl].
      * edestruct (IH fuel (total + Z.of_nat (length c)) (still_waiting waiting c)
          (ii + length (wanted waiting c))%nat (put buf ii (wanted waiting c))) as (tr & w & -> & L1 & L2); try lia.
        { rewrite put_length; lia. }
        rewrite Nat.add_assoc. exists ((sock_read sock 63, ret_bytes (Z.of_nat (length c)) c) :: tr), w.
        split; [|cbn [length]; split; [lia|intros E; by rewrite L2]].
        rewrite !put_put by lia. destruct (Nat.ltb _ len) eqn:El; [done|].
        rewrite (take_app (wanted waiting c)), (take_ge (wanted waiting c)), <- app_assoc by lia.
        by replace (len - 1 - ii - length (wanted waiting c))%nat
          with (len - 1 - (ii + length (wanted waiting c)))%nat by lia.
      * rewrite (proj2 (Nat.ltb_ge _ _)) by lia. exists [(sock_read sock 63, ret_bytes (Z.of_nat (length c)) c)], true.
        split; [|cbn [length]; split; [lia|done]].
        rewrite (take_app (wanted waiting c)).
        replace (len - 1 - ii - length (wanted waiting c))%nat with 0%nat by lia.
        by rewrite take_0, app_nil_r.
Qed.

(** ** The whole request *)

(** The answers that lead to an open socket [sock], then a stream, then the
    answers to [close] and [time]. *)
Definition connected_answers (sock : Z) (cs : list (list Z)) (now : Z) : list answer :=
  [ret_val 0 1; ret_ sock; ret_ 0; ret_ 0; ret_ 0; ret_ 0] ++ pieces cs ++ [ret_ 0; ret_ now].

(** The text with the time put over its last character, as far as it fits. *)
Definition stamped (len : nat) (j : list Z) (now : Z) : list Z :=
  removelast j ++ take (len - length j - 1) (utc_text now).

Lemma removelast_firstn_len' (j : list Z) : removelast j = take (length j - 1) j.
Proof. rewrite removelast_firstn_len. f_equal. lia. Qed.

Lemma utc_text_nonzero now : nonzero (utc_text now).
Proof.
  unfold utc_text. apply nonzero_app; [auto with airu|]. apply nonzero_app; [|auto with airu].
  eapply Forall_impl; [apply fmt_u_digits|]. simpl. lia.
Qed.

Lemma isp_finish_spec {S} sock len j buf now (s : S) ans :
  length buf = len -> (length j < len)%nat -> nonzero j ->
  exists tr o, run (isp_finish sock len (length j) (put buf 0 j)) s (ret_ 0 :: ret_ now :: ans) = (tr, o, s) /\
    match j with
    | [] => o = Stopped UB
    | _ => exists b, o = Done (ESP_OK, b) /\ cstr b = Some (stamped len j now)
    end.
Proof.
  intros Hb Hj Hn. unfold isp_finish.
  assert (store (put buf 0 j) (length j) 0 = Some (j ++ 0 :: drop (length j + 1) buf)) as ->.
  { rewrite store_put by (rewrite put_length by lia; lia). change (length j) with (0 + length j)%nat at 1.
    rewrite put_put by lia. unfold put. rewrite take_0, length_app. cbn [app length Nat.add].
    by rewrite <- app_assoc. }
  unfold mbind, prog_bind, call, call_. cbn [try bind run]. rewrite strlen_app by done. cbn [try bind].
  destruct j as [|c j0]; [by do 2 eexists|]. set (j := c :: j0) in *.
  change (length j) with (Datatypes.S (length j0)). cbn [Nat.add a_ret ret_].
  assert (exists m, (len - Datatypes.S (length j0) = Datatypes.S m)%nat) as [m Hm].
  { exists (len - Datatypes.S (length j0) - 1)%nat. cbn [length j] in Hj. unfold j in Hj. cbn in Hj. lia. }
  rewrite Hm. cbn [snprintf]. unfold j in Hj. cbn [length] in Hj.
  rewrite write_some.
  - cbn [try bind run]. do 2 eexists. split; [done|]. eexists. split; [done|].
    unfold stamped. rewrite removelast_firstn_len'. unfold j. cbn [length].
    replace (len - Datatypes.S (length j0) - 1)%nat with m by lia.
    replace (Datatypes.S (length j0) - 1)%nat with (length j0) by lia.
    rewrite take_app_le by (cbn [length]; lia).
    rewrite <- app_assoc, app_assoc. apply (cstr_app _ _).
    apply nonzero_app; apply Forall_take; [done|apply utc_text_nonzero].
  - rewrite !length_app, length_take. unfold j. cbn [length]. rewrite length_drop. lia.
Qed.

(** From a connection that delivers a page: without a brace after its first
    hundred bytes, the time is written in front of the buffer; an object too
    long is cut and reported; any other is kept with the time put over its
    last character. *)
Theorem isp_info_correct {S} fuel buf len sock cs now (s : S) :
  Forall piece_ok cs -> (length cs < fuel)%nat -> total_length cs < 2 ^ 31 ->
  length buf = len -> (0 < len)%nat -> 0 <= sock -> Forall nonzero cs ->
  let j := from_brace (kept 0 cs) in
  exists tr o, run (http_get_isp_info fuel buf len) s (connected_answers sock cs now) = (tr, o, s) /\
    (j = [] -> o = Stopped UB) /\
    ((len <= length j)%nat -> exists b, o = Done (-1, b) /\ cstr b = Some (take (len - 1) j)) /\
    (j <> [] -> (length j < len)%nat -> exists b, o = Done (ESP_OK, b) /\ cstr b = Some (stamped len j now)).
Proof.
  intros Hc Hf Hm Hb Hl Hs Hn j.
  assert (nonzero j) as Hj.
  { assert (forall t, nonzero t -> nonzero (from_brace t)) as Hfb.
    { intros t Ht. induction Ht as [|c t Hct Ht IH]; [constructor|]. cbn [from_brace].
      destruct (Z.eqb c 123); [by constructor|done]. }
    apply Hfb. clear - Hn. generalize 0. induction Hn as [|c cs Hc _ IH]; intros z; [constructor|].
    cbn [kept]. apply nonzero_app; [by destruct (Z.ltb _ 100); [constructor|]|apply IH]. }
  unfold http_get_isp_info, connected_answers, mbind, prog_bind, call, call_. cbn [app bind run].
  cbn [a_ret a_val ret_val ret_ Z.eqb negb orb bind run]. rewrite (proj2 (Z.ltb_ge sock 0)) by done.
  cbn [bind run a_ret ret_ Z.eqb negb Z.ltb Z.compare].
  destruct (isp_receive_spec fuel sock len cs 0 true 0 buf s) as (tr & w & Hr & L1 & L2);
    try (done || lia).
  cbn [wanted Nat.add] in Hr, L2. fold j in Hr, L2.
  rewrite (run_bind _ _ _ _ _ _ _ [ret_ 0; ret_ now] Hr).
  destruct (Nat.ltb_spec (length j) len) as [Hlt|Hge].
  - rewrite drop_app_exact by (by apply L2).
    destruct (isp_finish_spec sock len j buf now s [] Hb Hlt Hj) as (tr2 & o & -> & Ho).
    do 2 eexists. split; [done|]. split; [|split; [lia|]].
    + intros ->. done.
    + intros Hne _. by destruct j.
  - assert (exists a rest, drop (length tr) (pieces cs ++ [ret_ 0; ret_ now]) = a :: rest) as (a & rest & ->).
    { destruct (drop (length tr) (pieces cs ++ [ret_ 0; ret_ now])) as [|a rest] eqn:E; [|by eexists _, _].
      apply (f_equal length) in E. rewrite length_drop, length_app in E. cbn [length] in E. lia. }
    cbn [bind run]. do 2 eexists. split; [done|]. split; [intros ->; cbn in Hge; lia|].
    split; [|lia]. intros _. eexists. split; [done|]. unfold put. rewrite take_0. cbn [app].
    replace (len - 1 - 0)%nat with (len - 1)%nat by lia. rewrite <- app_assoc. apply (cstr_app _ _).
    by apply Forall_take.
Qed.

(** A connection that fails after the address was found is reported as
    success, with nothing in the buffer. *)
Theorem isp_failure_reported_ok {S} fuel buf len sock (s : S) found a :
  a_ret found = 0 -> a_val found <> 0 ->
  (a_ret sock < 0 -> exists tr,
     run (http_get_isp_info fuel buf len) s [found; sock; a] = (tr, Done (ESP_OK, buf), s)) /\
  (0 <= a_ret sock -> forall refused b, a_ret refused <> 0 -> exists tr,
     run (http_get_isp_info fuel buf len) s [found; sock; refused; a; b] = (tr, Done (ESP_OK, buf), s)).
Proof.
  intros H1 H2. unfold http_get_isp_info, mbind, prog_bind, call, call_. cbn [bind run].
  rewrite H1, (proj2 (Z.eqb_neq (a_val found) 0)) by done. cbn [Z.eqb negb orb bind run].
  split; intros Hs.
  - rewrite (proj2 (Z.ltb_lt _ _)) by done. by eexists.
  - intros refused b Hr. rewrite (proj2 (Z.ltb_ge _ _)) by done. cbn [bind run].
    rewrite (proj2 (Z.eqb_neq (a_ret refused) 0)) by done. by eexists.
Qed.

(** ** Instances *)

Definition demo_head : list Z :=
  lit "HTTP/1.1 200 OK
Content-Type: application/json
Content-Length: 24
".
Definition demo_pieces : list (list Z) :=
  [take 63 demo_head; drop 63 demo_head ++ lit "X-Ttl: 60
X-Rl: 44

";
   lit "{'as':'AS17055',"; lit "'zip':'84112'}"].

Lemma isp_info_correct_witness :
  exists tr b, run (http_get_isp_info 9 (replicate 64 0) 64) tt (connected_answers 3 demo_pieces 1600000000) =
    (tr, Done (ESP_OK, b), tt) /\
    cstr b = Some (lit "{'as':'AS17055','zip':'84112','utc':'1600000000'}").
Proof.
  assert (Forall nonzero demo_pieces) as Hn.
  { repeat (apply Forall_cons_2; [apply nonzero_const; vm_compute; reflexivity|]). constructor. }
  assert (Forall piece_ok demo_pieces) as Hp.
  { repeat (apply Forall_cons_2; [split; vm_compute; lia|]). constructor. }
  assert (total_length demo_pieces < 2 ^ 31) as Ht by (vm_compute; reflexivity).
  assert ((length demo_pieces < 9)%nat) as Hl by (vm_compute; lia).
  destruct (isp_info_correct 9 (replicate 64 0) 64 3 demo_pieces 1600000000 tt Hp Hl Ht eq_refl
    ltac:(lia) ltac:(lia) Hn) as (tr & o & Hr & _ & _ & H).
  destruct H as (b & -> & Hb); [vm_compute; discriminate|vm_compute; lia|].
  exists tr, b. split; [exact Hr|]. rewrite Hb. vm_compute. reflexivity.
Defined.

Lemma isp_failure_reported_ok_witness :
  exists tr, run (http_get_isp_info 9 (replicate 64 0) 64) tt [ret_val 0 1; ret_ 3; ret_ (-1); ret_ 0; ret_ 0] =
    (tr, Done (ESP_OK, replicate 64 0), tt).
Proof.
  destruct (isp_failure_reported_ok 9 (replicate 64 0) 64 (ret_ 3) tt (ret_val 0 1) (ret_ 0)) as [_ H];
    [done|done|]. by apply (H ltac:(done) (ret_ (-1)) (ret_ 0)).
Defined.
