(* ===== verification/Sd.v ===== *)
(** * The SD card (sd_if.c)

    Mounting, the daily data file, the log file with its rotation, and the
    opening of files for the upload. *)

From S2P Require Import Prelude CMem Printf Ext.

Local Open Scope Z_scope.

Definition SD_LOG_FILE_NAME : list Z := lit "/sdcard/LOGGING-0.log".
Definition SD_LOG_FILE_MOST_RECENT_NAME : list Z := lit "/sdcard/LOGGING-15.log".
Definition MOUNT_CONFIG_MAXFILE : Z := 20.
Definition MOUNT_CONFIG_MAXLOGFILE : Z := 15.
Definition MAX_FILE_SIZE_MB : Z := 1.
Definition SD_FILENAME_LENGTH : nat := 25.

Definition SD_HDR : list Z :=
  lit "time,ID,topic,SecActive,Altitude,Latitude,Longitude,PM1,PM2.5,PM10,Temperature,Humidity,CO,NO\n".

Definition MAX_MUTEX_WAIT_MS : Z := 30.
Definition MAX_MUTEX_WAIT_TICKS : Z := (MAX_MUTEX_WAIT_MS + portTICK_PERIOD_MS - 1) / portTICK_PERIOD_MS.

(** The statics; a FILE pointer and the mutex are numbers, NULL is 0. *)
Record sd := Sd {
  fs_mounted : bool;
  s_log_mutex : Z;
  log_instance : Z;        (* _semaphoreLogFileInstance *)
  firstTime : bool;
  logFileCounting : Z
}.

Abbreviation sdprog := (cprog sd).

Definition sd_start : sd := Sd false 0 0 true 1.

Definition set_mounted b s := Sd b (s_log_mutex s) (log_instance s) (firstTime s) (logFileCounting s).
Definition set_mutex m s := Sd (fs_mounted s) m (log_instance s) (firstTime s) (logFileCounting s).
Definition set_instance f s := Sd (fs_mounted s) (s_log_mutex s) f (firstTime s) (logFileCounting s).
Definition set_first b s := Sd (fs_mounted s) (s_log_mutex s) (log_instance s) b (logFileCounting s).
Definition set_counting n s := Sd (fs_mounted s) (s_log_mutex s) (log_instance s) (firstTime s) n.

(** ** The log file *)

Definition releaseLogFileInstance : sdprog unit :=
  m ← get s_log_mutex;
  when (negb (Z.eqb m 0))
    (fp ← get log_instance;
     when (negb (Z.eqb fp 0)) (call_ (fclose fp);; modify (set_instance 0));;
     call_ (xSemaphoreGive LOG_MUTEX)).

Definition getLogFileInstance : sdprog Z :=
  m ← get s_log_mutex;
  when (Z.eqb m 0) (a ← call (xSemaphoreCreateMutex LOG_MUTEX); modify (set_mutex (a_ret a)));;
  taken ← call (xSemaphoreTake LOG_MUTEX (Some MAX_MUTEX_WAIT_TICKS));
  if Z.eqb (a_ret taken) pdFALSE then mret 0
  else
    fp ← get log_instance;
    if negb (Z.eqb fp 0) then mret fp
    else
      a ← call (fopen SD_LOG_FILE_NAME (lit "a"));
      modify (set_instance (a_ret a));;
      if Z.eqb (a_ret a) 0 then releaseLogFileInstance;; mret 0
      else get log_instance.

(** [esp_sd_log_write], for the formatted text. *)
Definition esp_sd_log_write (text : list Z) : sdprog Z :=
  loggingInstance ← getLogFileInstance;
  if Z.eqb loggingInstance 0 then mret ESP_FAIL
  else
    fp ← get log_instance; call_ (fprintf fp text);;
    fp ← get log_instance; call_ (fflush fp);;
    releaseLogFileInstance;;
    mret ESP_OK.

(** SD_LOG_FILE_FORMAT *)
Definition log_name (n : Z) : list Z := lit "/sdcard/LOGGING-" ++ pad0 2 (fmt_d n) ++ lit ".log".

Definition log_name_text (n : Z) : option (list Z) :=
  b ← strcpy (replicate SD_FILENAME_LENGTH 0) 0 (log_name n); cstr b.

(** A log that grew beyond its size is renamed. *)
Definition rotate_log : sdprog unit :=
  fp ← get log_instance;
  first ← get firstTime;
  when (negb (Z.eqb fp 0) && negb first)
    (call_ (fclose fp);;
     modify (set_instance 0);;
     n ← get logFileCounting;
     name ← try (log_name_text n);
     modify (fun s => set_counting (u8 (logFileCounting s + 1)) s);;
     call_ (remove name);;
     call_ (rename SD_LOG_FILE_NAME name)).

(** [for (uint8_t i = 1; i > MOUNT_CONFIG_MAXLOGFILE - 1; i++)] *)
Fixpoint shift_logs (fuel : nat) (i : Z) : sdprog unit :=
  match fuel with
  | O => Stop OutOfFuel
  | S fuel =>
      if Z.ltb (MOUNT_CONFIG_MAXLOGFILE - 1) i then
        name ← try (log_name_text i);
        call_ (remove name);;
        oldLogFileName ← try (log_name_text (i + 1));
        call_ (rename oldLogFileName name);;
        call_ (rename SD_LOG_FILE_NAME name);;
        shift_logs fuel (u8 (i + 1))
      else mret tt
  end.

Section config.
Variable CONFIG_SD_CARD_DEBUG : bool.

Definition periodic_timer_callback : sdprog unit :=
  when CONFIG_SD_CARD_DEBUG
    (first ← get firstTime;
     logFileInstance ← (if first : bool then mret 0 else getLogFileInstance);
     st ← call (stat_size SD_LOG_FILE_NAME);
     when (Z.ltb (MAX_FILE_SIZE_MB * 1024 * 1024) (a_val st)) rotate_log;;
     n ← get logFileCounting;
     when (Z.ltb MOUNT_CONFIG_MAXLOGFILE n)
       (shift_logs 256 1;;
        call_ (remove SD_LOG_FILE_MOST_RECENT_NAME);;
        modify (set_counting 15));;
     first ← get firstTime;
     (if first : bool then modify (set_first false)
      else when (negb (Z.eqb logFileInstance 0)) releaseLogFileInstance);;
     modify (set_instance logFileInstance)).

(** ** Mounting and files *)

Definition SD_Initialize : sdprog Z :=
  call_ (gpio_set_pull_mode 15);; call_ (gpio_set_pull_mode 2);; call_ (gpio_set_pull_mode 4);;
  call_ (gpio_set_pull_mode 12);; call_ (gpio_set_pull_mode 13);;
  ret ← call (esp_vfs_fat_sdmmc_mount MOUNT_CONFIG_MAXFILE (MAX_FILE_SIZE_MB * 1024 * 1024));
  if negb (Z.eqb (a_ret ret) ESP_OK) then mret (a_ret ret)
  else
    when CONFIG_SD_CARD_DEBUG (call_ esp_log_set_vprintf;; periodic_timer_callback);;
    modify (set_mounted true);;
    mret (a_ret ret).

Definition sd_deinit : sdprog Z := a ← call esp_vfs_fat_sdmmc_unmount; mret (a_ret a).

(** [snprintf (fn_full, SD_FILENAME_LENGTH, "/sdcard/%s", filename)]: the text
    in the buffer; the length returned is that of the whole text. *)
Definition sd_path (filename : list Z) : list Z := lit "/sdcard/" ++ filename.

Definition sd_fopen (filename : list Z) : sdprog Z :=
  mounted ← get fs_mounted;
  err ← (if mounted : bool then mret ESP_OK else SD_Initialize);
  if negb (Z.eqb err ESP_OK) then mret 0
  else
    b ← try (snprintf (replicate SD_FILENAME_LENGTH 0) 0 SD_FILENAME_LENGTH (sd_path filename));
    if Nat.ltb SD_FILENAME_LENGTH (length (sd_path filename)) then mret 0
    else
      fn_full ← try (cstr b);
      fp ← call (fopen fn_full (lit "r"));
      mret (a_ret fp).
End config.

(** ["/sdcard/%02d-%02d-%02d.csv"] *)
Definition data_name (year month day : Z) : list Z :=
  lit "/sdcard/" ++ pad0 2 (fmt_d year) ++ lit "-" ++ pad0 2 (fmt_d month) ++ lit "-" ++
  pad0 2 (fmt_d day) ++ lit ".csv".

Definition sd_write_data (pkt : list Z) (year month day : Z) : sdprog Z :=
  filename ← try (b ← strcpy (replicate 64 0) 0 (data_name year month day); cstr b);
  st ← call (stat_size filename);
  let exists_ := Z.eqb (a_ret st) 0 in
  f ← call (fopen filename (lit "a"));
  if Z.eqb (a_ret f) 0 then mret ESP_FAIL
  else
    when (negb exists_) (call_ (fprintf (a_ret f) SD_HDR));;
    call_ (fprintf (a_ret f) pkt);;
    call_ (fclose (a_ret f));;
    mret ESP_OK.

(** ** The daily data file *)

(** The packets of a day, one after another; the results. *)
Fixpoint write_packets (pkts : list (list Z)) (year month day : Z) : sdprog (list Z) :=
  match pkts with
  | [] => mret []
  | pkt :: pkts =>
      r ← sd_write_data pkt year month day;
      rs ← write_packets pkts year month day;
      mret (r :: rs)
  end.

(** The packets whose writing returned ESP_OK. *)
Fixpoint accepted {A} (rs : list Z) (pkts : list A) : list A :=
  match rs, pkts with
  | r :: rs, p :: pkts => if Z.eqb r ESP_OK then p :: accepted rs pkts else accepted rs pkts
  | _, _ => []
  end.

Lemma accepted_fmap {A B} (f : A -> B) rs xs : accepted rs (f <$> xs) = f <$> accepted rs xs.
Proof.
  revert xs. induction rs as [|r rs IH]; intros [|x xs]; [done..|]. cbn [fmap list_fmap accepted].
  destruct (Z.eqb r ESP_OK); [|by rewrite IH]. cbn [fmap list_fmap]. by rewrite IH.
Qed.

Lemma accepted_Forall {A} (P : A -> Prop) rs xs : Forall P xs -> Forall P (accepted rs xs).
Proof.
  intros H. revert rs. induction H as [|x xs Hx H IH]; intros [|r rs]; [constructor..|]. cbn [accepted].
  destruct (Z.eqb r ESP_OK); [constructor|]; auto.
Qed.

Definition csv (old : option (list Z)) (pkts : list (list Z)) : option (list Z) :=
  match pkts with
  | [] => old
  | _ => Some (default SD_HDR old ++ concat pkts)
  end.

Lemma pad_digits_length n : 0 <= n < 256 -> (length (pad0 2 (fmt_d n)) <= 3)%nat.
Proof.
  intros Hn. rewrite pad0_length. unfold fmt_d. rewrite (proj2 (Z.ltb_ge n 0)) by lia.
  pose proof (fmt_u_length n 3 ltac:(lia)). lia.
Qed.

Lemma pad_digits_nonzero n : nonzero (pad0 2 (fmt_d n)).
Proof.
  unfold pad0. apply nonzero_app; [by apply Forall_replicate|].
  eapply Forall_impl; [apply fmt_d_chars|]. simpl. lia.
Qed.

Lemma data_name_fits y m d : 0 <= y < 256 -> 0 <= m < 256 -> 0 <= d < 256 ->
  (b ← strcpy (replicate 64 0) 0 (data_name y m d); cstr b) = Some (data_name y m d).
Proof.
  intros Hy Hm Hd. unfold data_name. apply strcpy_room.
  - repeat (apply nonzero_app; [first [apply pad_digits_nonzero|auto with airu]|]). auto with airu.
  - pose proof (pad_digits_length y Hy). pose proof (pad_digits_length m Hm).
    pose proof (pad_digits_length d Hd). rewrite !length_app. lit_len. lia.
Qed.

Section files.
Context {W} `{FileSystemLaws W}.

Lemma same_files_trans (w1 w2 w3 : W) : same_files w1 w2 -> same_files w2 w3 -> same_files w1 w3.
Proof. intros H1 H2 p. by rewrite H2. Qed.

Lemma only_file_trans p c c' (w1 w2 w3 : W) : only_file p c w1 w2 -> only_file p c' w2 w3 -> only_file p c' w1 w3.
Proof. intros [_ H1] [H2 H3]. split; [done|]. intros q Hq. by rewrite H3, H1. Qed.

Lemma sd_write_data_spec pkt y m d s (w : W) :
  0 <= y < 256 -> 0 <= m < 256 -> 0 <= d < 256 ->
  exists r w', run_world fs_step (sd_write_data pkt y m d) s w = (Done r, s, w') /\
    ((r = ESP_OK /\ only_file (data_name y m d)
       (default SD_HDR (fs_file w (data_name y m d)) ++ pkt) w w') \/
     (r = ESP_FAIL /\ same_files w w')).
Proof.
  intros Hy Hm Hd. unfold sd_write_data. rewrite data_name_fits by done. set (p := data_name y m d).
  unfold mbind, prog_bind, call, call_. cbn [try bind run_world].
  pose proof (fs_stat_law w p) as Hs. destruct (fs_step (stat_size p) w) as [st w1].
  destruct Hs as [Hs1 Hs2].
  pose proof (fs_append_law w1 p) as Ha. destruct (fs_step (fopen p (lit "a")) w1) as [f w2].
  destruct Ha as [[Hf Ha]|(Hf & Ho & Ha)].
  { rewrite Hf. cbn [Z.eqb run_world]. do 2 eexists. split; [done|]. right.
    split; [done|by eapply same_files_trans]. }
  rewrite (proj2 (Z.eqb_neq (a_ret f) 0)) by done.
  assert (exists w3, run_world fs_step
    (bind (fun _ => bind (fun _ => bind (fun _ => Ret ESP_OK) (Call (fclose (a_ret f)) (fun _ => Ret tt)))
       (Call (fprintf (a_ret f) pkt) (fun _ => Ret tt)))
      (when (negb (a_ret st =? 0)) (Call (fprintf (a_ret f) SD_HDR) (fun _ => Ret tt)))) s w2 =
    (Done ESP_OK, s, w3) /\ only_file p (default SD_HDR (fs_file w p) ++ pkt) w2 w3) as (w3 & Hr & H3).
  { pose proof (proj1 Ha) as Hc. rewrite Hs1 in Hc.
    destruct (fs_file w p) as [c|] eqn:Ec; cbn [default from_option] in *.
    - rewrite (proj2 (Z.eqb_eq (a_ret st) 0)) by (apply Hs2; by eexists). cbn [negb when bind run_world].
      pose proof (fs_fprintf_law w2 (a_ret f) p c pkt Ho Hc) as Hp.
      destruct (fs_step (fprintf (a_ret f) pkt) w2) as [a3 w3]. destruct Hp as [_ Hp].
      pose proof (fs_fclose_law w3 (a_ret f)) as Hq. destruct (fs_step (fclose (a_ret f)) w3) as [a4 w4].
      eexists. split; [done|]. destruct Hp as [Hp1 Hp2]. split; [by rewrite Hq|].
      intros q Hne. by rewrite Hq, Hp2.
    - rewrite (proj2 (Z.eqb_neq (a_ret st) 0)) by (intros E; by destruct (proj1 Hs2 E)).
      cbn [negb when bind run_world].
      pose proof (fs_fprintf_law w2 (a_ret f) p [] SD_HDR Ho Hc) as Hp0.
      destruct (fs_step (fprintf (a_ret f) SD_HDR) w2) as [a5 w5]. destruct Hp0 as [Ho5 Hp0].
      rewrite app_nil_l in Hp0.
      pose proof (fs_fprintf_law w5 (a_ret f) p SD_HDR pkt Ho5 (proj1 Hp0)) as Hp.
      destruct (fs_step (fprintf (a_ret f) pkt) w5) as [a3 w3]. destruct Hp as [_ Hp].
      pose proof (fs_fclose_law w3 (a_ret f)) as Hq. destruct (fs_step (fclose (a_ret f)) w3) as [a4 w4].
      eexists. split; [done|]. destruct (only_file_trans _ _ _ _ _ _ Hp0 Hp) as [Hp1 Hp2].
      split; [by rewrite Hq|]. intros q Hne. by rewrite Hq, Hp2. }
  exists ESP_OK, w3. split; [exact Hr|]. left. split; [done|].
  eapply only_file_trans; [|exact H3]. destruct Ha as [Ha1 Ha2]. split; [exact Ha1|].
  intros q Hq. by rewrite Ha2, Hs1.
Qed.

(** The file of a day is its header, once, and the packets written that day
    in their order; no other file changes. *)
Theorem day_file pkts y m d s (w : W) :
  0 <= y < 256 -> 0 <= m < 256 -> 0 <= d < 256 ->
  exists rs w', run_world fs_step (write_packets pkts y m d) s w = (Done rs, s, w') /\
    length rs = length pkts /\
    fs_file w' (data_name y m d) = csv (fs_file w (data_name y m d)) (accepted rs pkts) /\
    forall q, q <> data_name y m d -> fs_file w' q = fs_file w q.
Proof.
  intros Hy Hm Hd. revert w. induction pkts as [|pkt pkts IH]; intros w.
  { exists [], w. done. }
  destruct (sd_write_data_spec pkt y m d s w Hy Hm Hd) as (r & w1 & Hr & Hw).
  destruct (IH w1) as (rs & w2 & Hrs & Hl & Hf & Hq).
  exists (r :: rs), w2. cbn [write_packets]. unfold mbind, prog_bind in *.
  rewrite run_world_bind, Hr. rewrite run_world_bind, Hrs. split; [done|].
  split; [cbn [length]; by rewrite Hl|]. cbn [accepted].
  destruct Hw as [[-> [Hw1 Hw2]]|[-> Hw]].
  - cbn [Z.eqb]. change (ESP_OK =? ESP_OK) with true. split.
    + rewrite Hf, Hw1. unfold csv. destruct (accepted rs pkts) as [|a l];
        cbn [concat from_option id]; [by rewrite app_nil_r|by rewrite <- (app_assoc _ pkt)].
    + intros q Hne. by rewrite Hq, Hw2.
  - change (ESP_FAIL =? ESP_OK) with false. split; [by rewrite Hf, Hw|]. intros q Hne. by rewrite Hq, Hw.
Qed.
End files.

(** ** Names of files to upload *)

Definition mounted (s : sd) : Prop := fs_mounted s = true.

Lemma snprintf_cstr b n t b1 : nonzero t -> (0 < n)%nat ->
  snprintf b 0 n t = Some b1 -> cstr b1 = Some (take (n - 1) t).
Proof.
  intros Ht Hn E. destruct n as [|n]; [lia|]. cbn [snprintf] in E.
  replace (S n - 1)%nat with n by lia. apply strcpy_cstr in E; [done|]. by apply Forall_take.
Qed.

(** A name of up to 16 bytes is opened as it is, one of 17 without its last
    byte (the test compares with the buffer's size, not with the last place in
    it), a longer one is refused. *)
Theorem sd_fopen_name debug filename s a :
  mounted s -> nonzero filename ->
  run (sd_fopen debug filename) s [a] =
  if Nat.leb (length filename) 17
  then ([(fopen (sd_path (take 16 filename)) (lit "r"), a)], Done (a_ret a), s)
  else ([], Done 0, s).
Proof.
  intros Hm Hn. unfold sd_fopen, mbind, prog_bind, get, call. cbn [bind run]. rewrite Hm.
  cbn [bind mret prog_ret]. change (negb (ESP_OK =? ESP_OK)) with false. cbv iota.
  assert (nonzero (sd_path filename)) as Hp by (apply nonzero_app; auto with airu).
  assert (length (sd_path filename) = (8 + length filename)%nat) as Hl
    by (unfold sd_path; rewrite length_app; lit_len; done).
  destruct (snprintf _ 0 SD_FILENAME_LENGTH (sd_path filename)) as [b|] eqn:E.
  - cbn [try bind run]. rewrite Hl. unfold SD_FILENAME_LENGTH in *.
    destruct (Nat.leb_spec (length filename) 17); test_simpl; [|done].
    apply snprintf_cstr in E as ->; [|done|lia]. cbn [try bind run].
    replace (take (25 - 1) (sd_path filename)) with (sd_path (take 16 filename)); [done|].
    unfold sd_path. rewrite take_app_ge by (lit_len; lia). lit_len. done.
  - exfalso. cbn [snprintf SD_FILENAME_LENGTH] in E. apply write_none in E.
    rewrite length_replicate, length_app, length_take in E. unfold SD_FILENAME_LENGTH in E.
    cbn [length] in E. lia.
Qed.

(** ** The log and its rotation *)

(** Runs a program on known answers, with the tests decided by hypotheses. *)
Ltac run_step :=
  cbn [when bind run try negb andb orb mret prog_ret fs_mounted s_log_mutex log_instance firstTime logFileCounting
       set_mounted set_mutex set_instance set_first set_counting].

Ltac run_tests :=
  run_step;
  repeat (first [ match goal with
                  | H : Z.eqb ?a ?b = _ |- context [Z.eqb ?a ?b] => rewrite H
                  | H : Z.ltb ?a ?b = _ |- context [Z.ltb ?a ?b] => rewrite H
                  end
                | progress change (Z.eqb 0 0) with true ]; run_step).

(** The log after the fifteenth rotation: it was just renamed to LOGGING-15,
    which is then removed, and so is every later one; the loop that should
    shift the old logs never runs. *)
Theorem newest_log_removed s take fp st close rm rn rm2 give :
  s_log_mutex s <> 0 -> log_instance s = 0 -> firstTime s = false -> logFileCounting s = 15 ->
  a_ret take <> pdFALSE -> a_ret fp <> 0 -> MAX_FILE_SIZE_MB * 1024 * 1024 < a_val st ->
  run (periodic_timer_callback true) s [take; fp; st; close; rm; rn; rm2; give] =
  ([(xSemaphoreTake LOG_MUTEX (Some MAX_MUTEX_WAIT_TICKS), take);
    (fopen SD_LOG_FILE_NAME (lit "a"), fp); (stat_size SD_LOG_FILE_NAME, st);
    (fclose (a_ret fp), close); (remove SD_LOG_FILE_MOST_RECENT_NAME, rm);
    (rename SD_LOG_FILE_NAME SD_LOG_FILE_MOST_RECENT_NAME, rn);
    (remove SD_LOG_FILE_MOST_RECENT_NAME, rm2); (xSemaphoreGive LOG_MUTEX, give)],
   Done tt, set_instance (a_ret fp) s).
Proof.
  intros Hm Hi Hf Hc Ht Hfp Hst. destruct s as [mnt mtx ins first cnt]. cbn in Hm, Hi, Hf, Hc. subst.
  apply Z.eqb_neq in Hm, Ht, Hfp. apply Z.ltb_lt in Hst.
  assert (log_name_text 15 = Some SD_LOG_FILE_MOST_RECENT_NAME) as Hn by (vm_compute; reflexivity).
  assert (Z.ltb MOUNT_CONFIG_MAXLOGFILE (u8 (15 + 1)) = true) as Hc by reflexivity.
  unfold periodic_timer_callback, getLogFileInstance, rotate_log, releaseLogFileInstance,
    mbind, prog_bind, get, call, call_, modify.
  run_tests.
  rewrite Hn. run_tests.
  change (shift_logs 256 1) with (@Ret ext answer sd unit tt). run_tests. done.
Qed.

(** After a regular call of the timer's callback the log's FILE pointer is that
    of the file just closed; the next message is written through it. *)
Theorem log_written_after_close text s take fp st close give take2 wr fl close2 give2 :
  s_log_mutex s <> 0 -> log_instance s = 0 -> firstTime s = false -> logFileCounting s <= 15 ->
  a_ret take <> pdFALSE -> a_ret fp <> 0 -> a_val st <= MAX_FILE_SIZE_MB * 1024 * 1024 ->
  a_ret take2 <> pdFALSE ->
  run (periodic_timer_callback true;; esp_sd_log_write text) s
    [take; fp; st; close; give; take2; wr; fl; close2; give2] =
  ([(xSemaphoreTake LOG_MUTEX (Some MAX_MUTEX_WAIT_TICKS), take);
    (fopen SD_LOG_FILE_NAME (lit "a"), fp); (stat_size SD_LOG_FILE_NAME, st);
    (fclose (a_ret fp), close); (xSemaphoreGive LOG_MUTEX, give);
    (xSemaphoreTake LOG_MUTEX (Some MAX_MUTEX_WAIT_TICKS), take2);
    (fprintf (a_ret fp) text, wr); (fflush (a_ret fp), fl); (fclose (a_ret fp), close2);
    (xSemaphoreGive LOG_MUTEX, give2)], Done ESP_OK, s).
Proof.
  intros Hm Hi Hf Hc Ht Hfp Hst Ht2. destruct s as [mnt mtx ins first cnt]. cbn in Hm, Hi, Hf, Hc. subst.
  apply Z.eqb_neq in Hm, Ht, Hfp, Ht2. apply Z.ltb_ge in Hst.
  assert (Z.ltb MOUNT_CONFIG_MAXLOGFILE cnt = false) as Hc2 by by apply Z.ltb_ge.
  unfold periodic_timer_callback, esp_sd_log_write, getLogFileInstance, releaseLogFileInstance,
    mbind, prog_bind, get, call, call_, modify.
  run_tests. done.
Qed.

(** ** Memory safety *)

Definition sd_ok (s : sd) : Prop := 0 <= logFileCounting s < 256.

Lemma log_name_some n : 0 <= n < 256 -> exists name, log_name_text n = Some name.
Proof.
  intros Hn. unfold log_name_text. exists (log_name n). apply strcpy_room.
  - unfold log_name. apply nonzero_app; [auto with airu|].
    apply nonzero_app; [apply pad_digits_nonzero|auto with airu].
  - unfold log_name. pose proof (pad_digits_length n Hn). rewrite !length_app. lit_len.
    unfold SD_FILENAME_LENGTH. lia.
Qed.

Lemma sd_ok_u8 z s : sd_ok (set_counting (u8 z) s).
Proof. unfold sd_ok. cbn. by apply uwrap_range. Qed.

Abbreviation anyA := (fun (_ : ext) (_ : answer) => True).

Lemma release_ends h s : sd_ok s ->
  wpa anyA (ends (fun _ s => sd_ok s)) releaseLogFileInstance h s.
Proof.
  intros Hs. unfold releaseLogFileInstance, mbind, prog_bind, get, call_, modify. cbn [bind wpa].
  destruct (negb _); cbn [when bind wpa]; [|done].
  destruct (negb _); cbn [when bind wpa]; intros; done.
Qed.

Lemma get_instance_ends h s : sd_ok s ->
  wpa anyA (ends (fun _ s => sd_ok s)) getLogFileInstance h s.
Proof.
  intros Hs. unfold getLogFileInstance, mbind, prog_bind, get, call, modify. cbn [bind wpa].
  apply (ends_bind _ (fun _ s => sd_ok s)).
  { destruct (Z.eqb _ 0); cbn [when bind wpa]; [|done]. by intros. }
  clear h s Hs. intros h _ s Hs. cbn [bind wpa]. intros a _. destruct (Z.eqb _ _); [done|].
  cbn [bind wpa]. destruct (negb _); [done|]. cbn [bind wpa]. intros f _.
  destruct (Z.eqb (a_ret f) 0); [|done]. apply (ends_bind _ (fun _ s => sd_ok s)); [|done].
  by apply release_ends.
Qed.

Lemma callback_ends debug h s : sd_ok s ->
  wpa anyA (ends (fun _ s => sd_ok s)) (periodic_timer_callback debug) h s.
Proof.
  intros Hs. unfold periodic_timer_callback. destruct debug; cbn [when]; [|done].
  unfold mbind, prog_bind, get, call, call_, modify. cbn [bind wpa].
  apply (ends_bind _ (fun _ s => sd_ok s)); [destruct (firstTime s); [done|by apply get_instance_ends]|].
  clear h s Hs. intros h f s Hs. cbn [bind wpa]. intros st _.
  apply (ends_bind _ (fun _ s => sd_ok s)).
  { destruct (Z.ltb _ _); cbn [when]; [|done]. unfold rotate_log, mbind, prog_bind, get, call_, modify.
    cbn [bind wpa]. destruct (_ && _); cbn [when bind wpa]; [|done]. intros c _.
    destruct (log_name_some (logFileCounting s) Hs) as [name Hname]. cbn [logFileCounting set_instance].
    rewrite Hname. cbn [try bind wpa]. intros; apply sd_ok_u8. }
  clear h s Hs. intros h _ s Hs. cbn [bind wpa]. apply (ends_bind _ (fun _ s => sd_ok s)).
  { destruct (Z.ltb _ _); cbn [when]; [|done].
    change (shift_logs 256 1) with (@Ret ext answer sd unit tt). cbn [bind wpa]. by intros. }
  clear h s Hs. intros h _ s Hs. cbn [bind wpa]. apply (ends_bind _ (fun _ s => sd_ok s)); [|done].
  destruct (firstTime s); [done|]. destruct (negb _); cbn [when]; [by apply release_ends|done].
Qed.

(** Opening a file touches no byte outside its buffers, whatever the card
    answers. *)
Lemma sd_fopen_ends debug filename h s : nonzero filename -> sd_ok s ->
  wpa anyA (ends (fun _ s => sd_ok s)) (sd_fopen debug filename) h s.
Proof.
  intros Hn Hs. unfold sd_fopen, mbind, prog_bind, get, call. cbn [bind wpa].
  apply (ends_bind _ (fun _ s => sd_ok s)).
  { destruct (fs_mounted s); [done|]. unfold SD_Initialize, mbind, prog_bind, call, call_, modify.
    cbn [bind wpa]. intros a1 _ a2 _ a3 _ a4 _ a5 _ ret _. destruct (negb _); [done|].
    apply (ends_bind _ (fun _ s => sd_ok s)); [|done]. destruct debug; cbn [when bind wpa]; [|done].
    intros v _. by apply callback_ends. }
  clear h Hs. intros h err s1 Hs. destruct (negb _); [done|].
  destruct (snprintf _ 0 SD_FILENAME_LENGTH (sd_path filename)) as [b|] eqn:E.
  - cbn [try bind wpa]. destruct (Nat.ltb _ _); [done|].
    apply snprintf_cstr in E as ->; [|apply nonzero_app; auto with airu|unfold SD_FILENAME_LENGTH; lia].
    cbn [try bind wpa]. by intros.
  - exfalso. cbn [snprintf SD_FILENAME_LENGTH] in E. apply write_none in E.
    rewrite length_replicate, length_app, length_take in E. unfold SD_FILENAME_LENGTH in E.
    cbn [length] in E. lia.
Qed.

(** Opening a file writes to no socket and reads no file. *)
Definition local_call (e : ext) : Prop :=
  match e with sock_write _ _ | sock_read _ _ | fread _ _ => False | _ => True end.

Lemma shift_logs_local fuel i : only local_call any (shift_logs fuel i).
Proof. revert i. induction fuel; intros i; [done|]. cbn [shift_logs]. solve_only. Qed.

#[local] Hint Resolve shift_logs_local : airu.

Lemma sd_fopen_local debug filename : only local_call any (sd_fopen debug filename).
Proof. solve_only. Qed.

(** ** Instances *)

Definition empty_card : card := Card ∅ ∅ 1 2.

Lemma day_file_witness :
  exists rs w', run_world fs_step (write_packets [lit "a\n"; lit "b\n"] 21 3 4) sd_start empty_card =
    (Done rs, sd_start, w') /\ length rs = 2%nat /\
    fs_file w' (data_name 21 3 4) =
      csv (fs_file empty_card (data_name 21 3 4)) (accepted rs [lit "a\n"; lit "b\n"]) /\
    forall q, q <> data_name 21 3 4 -> fs_file w' q = fs_file empty_card q.
Proof. apply (day_file [lit "a\n"; lit "b\n"] 21 3 4 sd_start empty_card); lia. Defined.

Lemma sd_fopen_name_witness :
  run (sd_fopen false (lit "21-03-04.csvABCDE")) (set_mounted true sd_start) [ret_ 9] =
  ([(fopen (lit "/sdcard/21-03-04.csvABCD") (lit "r"), ret_ 9)], Done 9, set_mounted true sd_start).
Proof.
  assert (nonzero (lit "21-03-04.csvABCDE")) as Hn by by apply nonzero_const.
  pose proof (sd_fopen_name false (lit "21-03-04.csvABCDE") (set_mounted true sd_start) (ret_ 9)
    eq_refl Hn) as H.
  vm_compute in H. vm_compute. exact H.
Defined.

Definition full_log : sd := Sd true 5 0 false 15.

Lemma newest_log_removed_witness :
  snd (run (periodic_timer_callback true) full_log
    [ret_ 1; ret_ 7; ret_val 0 2000000; ret_ 0; ret_ 0; ret_ 0; ret_ 0; ret_ 1]) = set_instance 7 full_log.
Proof.
  rewrite (newest_log_removed full_log (ret_ 1) (ret_ 7) (ret_val 0 2000000) (ret_ 0) (ret_ 0) (ret_ 0)
    (ret_ 0) (ret_ 1)); done.
Defined.

Lemma log_written_after_close_witness :
  snd (run (periodic_timer_callback true;; esp_sd_log_write (lit "x")) full_log
    [ret_ 1; ret_ 7; ret_val 0 1000; ret_ 0; ret_ 1; ret_ 1; ret_ 1; ret_ 0; ret_ 0; ret_ 1]) = full_log.
Proof.
  rewrite (log_written_after_close (lit "x") full_log (ret_ 1) (ret_ 7) (ret_val 0 1000) (ret_ 0) (ret_ 1)
    (ret_ 1) (ret_ 1) (ret_ 0) (ret_ 0) (ret_ 1)); done.
Defined.
