(* ===== verification/HttpUpload.v ===== *)
(** * The upload of a file (http_file_upload.c)

    A file of the SD card is sent to a web server as the one part of a
    multipart/form-data body, in chunked transfer encoding.  The functions
    receive a pointer to one [http_poster_t] of the caller; here it is threaded
    through them.  The file is opened by [Sd.sd_fopen], run on the SD card's
    part of the statics. *)

From S2P Require Import Prelude CMem Printf Ext Sd.

Local Open Scope Z_scope.

Definition SERVER_FILENAME_LEN : nat := 64.
Definition CHUNK_SZ_STR_LEN : nat := 16.
Definition HOSTNAME : list Z := lit "192.168.1.169".
Definition PORT : list Z := lit "80".
Definition ROUTE : list Z := lit "/".
Definition WEB_URL : list Z := lit "http://" ++ HOSTNAME ++ lit ":" ++ PORT ++ ROUTE.
Definition BOUNDARY : list Z := lit "-----z9Y6ivbmznZNE23n-----".

Definition MULTIPART_REQUEST : list Z :=
  lit "POST " ++ WEB_URL ++ lit " HTTP/1.0\r\nHost:" ++ HOSTNAME ++
  lit "\r\nUser-Agent: esp-idf/3.0 esp32\r\nContent-Type:multipart/form-data; boundary=" ++ BOUNDARY ++
  lit "\r\nTransfer-Encoding:chunked\r\n\r\n".

(** MULTIPART_BODY_HEADER_TEMPLATE around its "%s". *)
Definition header_before : list Z :=
  lit "--" ++ BOUNDARY ++ lit "\r\nContent-Disposition: form-data; name='file'; filename='".
Definition header_after : list Z := lit "'\r\nContent-Type: text/csv\r\n\r\n".
Definition MULTIPART_BODY_HEADER (name : list Z) : list Z := header_before ++ name ++ header_after.

Definition NO_SD_FILE_FOUND : Z := -2.
Definition ZERO_LENGTH_FILE : Z := -3.

(** The statics, with those of the SD card. *)
Record upload := Upload { CHUNK_SZ : Z; CHUNK_DATA_SZ : Z; up_sd : sd }.

Abbreviation uprog := (cprog upload).

Definition set_chunks (size data : Z) (s : upload) : upload := Upload size data (up_sd s).
Definition set_up_sd (d : sd) (s : upload) : upload := Upload (CHUNK_SZ s) (CHUNK_DATA_SZ s) d.

Definition upload_start : upload := Upload 4096 0 sd_start.

(** FILE pointers and heap addresses are numbers, NULL is 0. *)
Record http_poster_t := HttpPoster {
  hostname : list Z; port : list Z; fn_base : list Z;
  fn_src : list Z; fn_dst : list Z;
  fp : Z; st_size : Z; sock : Z;
  sz_buf : heap_block; tx_buf : heap_block; slen : Z
}.

(** What the initialiser of [http_upload_file_from_sd] leaves. *)
Definition new_poster (filename : list Z) : http_poster_t :=
  HttpPoster HOSTNAME PORT filename (replicate SD_FILENAME_LENGTH 0) (replicate SERVER_FILENAME_LEN 0)
    0 0 0 (0, None) (0, None) 0.

Definition set_names src dst p :=
  HttpPoster (hostname p) (port p) (fn_base p) src dst (fp p) (st_size p) (sock p) (sz_buf p) (tx_buf p) (slen p).
Definition set_fp v p :=
  HttpPoster (hostname p) (port p) (fn_base p) (fn_src p) (fn_dst p) v (st_size p) (sock p) (sz_buf p) (tx_buf p) (slen p).
Definition set_size v p :=
  HttpPoster (hostname p) (port p) (fn_base p) (fn_src p) (fn_dst p) (fp p) v (sock p) (sz_buf p) (tx_buf p) (slen p).
Definition set_sock v p :=
  HttpPoster (hostname p) (port p) (fn_base p) (fn_src p) (fn_dst p) (fp p) (st_size p) v (sz_buf p) (tx_buf p) (slen p).
Definition set_sz v p :=
  HttpPoster (hostname p) (port p) (fn_base p) (fn_src p) (fn_dst p) (fp p) (st_size p) (sock p) v (tx_buf p) (slen p).
Definition set_tx v p :=
  HttpPoster (hostname p) (port p) (fn_base p) (fn_src p) (fn_dst p) (fp p) (st_size p) (sock p) (sz_buf p) v (slen p).
Definition set_slen v p :=
  HttpPoster (hostname p) (port p) (fn_base p) (fn_src p) (fn_dst p) (fp p) (st_size p) (sock p) (sz_buf p) (tx_buf p) v.

(** New contents of a buffer; the old ones must be there. *)
Definition put_tx (b : list Z) (p : http_poster_t) : http_poster_t := set_tx (fst (tx_buf p), Some b) p.
Definition put_sz (b : list Z) (p : http_poster_t) : http_poster_t := set_sz (fst (sz_buf p), Some b) p.

(** ** Sizes of chunks *)

Definition min_size : Z :=
  Z.of_nat (length (MULTIPART_BODY_HEADER (lit "%s"))) + Z.of_nat SERVER_FILENAME_LEN - 2 - 2 - 1.

Definition set_chunk_size (chunk_size : Z) : uprog unit :=
  a ← call heap_caps_get_largest_free_block;
  let heap := u32 (a_ret a) in
  let chunk_size := if Z.eqb chunk_size 0 then heap else chunk_size in
  let chunk_size := if Z.ltb heap chunk_size then heap else chunk_size in
  if Z.ltb heap min_size then mret tt
  else
    let chunk_size := if Z.ltb chunk_size min_size then min_size else chunk_size in
    modify (set_chunks chunk_size (u32 (chunk_size - 3))).

(** ** Preparing *)

Definition alloc_chunk : uprog heap_block :=
  size ← get CHUNK_SZ; heap_alloc (Z.to_nat size).

Definition http_buffers (p : http_poster_t) : uprog (Z * http_poster_t) :=
  tx ← alloc_chunk;
  tx ← (if Z.eqb (fst tx) 0 then set_chunk_size 0;; alloc_chunk else mret tx);
  let p := set_tx tx p in
  if Z.eqb (fst tx) 0 then mret (ESP_FAIL, p)
  else
    sz ← heap_alloc CHUNK_SZ_STR_LEN;
    let p := set_sz sz p in
    if Z.eqb (fst sz) 0 then mret (ESP_FAIL, p) else mret (ESP_OK, set_slen 0 p).

Definition fn_dst_text (name : list Z) : list Z := lit "AABBCCDDEEFF" ++ lit "_" ++ name.

Definition http_init (p : http_poster_t) : uprog (Z * http_poster_t) :=
  size ← get CHUNK_SZ;
  set_chunk_size size;;
  let p := set_sock 0 (set_fp 0 p) in
  src ← try (snprintf (fn_src p) 0 SD_FILENAME_LENGTH (sd_path (fn_base p)));
  let p := set_names src (fn_dst p) p in
  if Nat.ltb SD_FILENAME_LENGTH (length (sd_path (fn_base p))) then mret (ESP_FAIL, p)
  else
    dst ← try (snprintf (fn_dst p) 0 SERVER_FILENAME_LEN (fn_dst_text (fn_base p)));
    let p := set_names (fn_src p) dst p in
    path ← try (cstr (fn_src p));
    st ← call (stat_size path);
    if negb (Z.eqb (a_ret st) ESP_OK) then mret (NO_SD_FILE_FOUND, p)
    else
      let p := set_size (a_val st) p in
      if Z.eqb (st_size p) 0 then mret (ZERO_LENGTH_FILE, p) else http_buffers p.

(** [a_val] of getaddrinfo is the list it returns, 0 for none. *)
Definition http_connect (p : http_poster_t) : uprog (Z * http_poster_t) :=
  found ← call (getaddrinfo (hostname p) (port p));
  if negb (Z.eqb (a_ret found) ESP_OK) || Z.eqb (a_val found) 0 then mret (ESP_FAIL, p)
  else
    s ← call socket;
    if Z.ltb (a_ret s) 0 then call_ freeaddrinfo;; mret (ESP_FAIL, p)
    else
      c ← call (connect (a_ret s));
      if negb (Z.eqb (a_ret c) 0) then
        call_ (close (a_ret s));; call_ freeaddrinfo;; mret (ESP_FAIL, p)
      else
        call_ freeaddrinfo;;
        mret (ESP_OK, set_sock (a_ret s) p).

Definition http_write_request (p : http_poster_t) : uprog Z :=
  wlen ← call (sock_write (sock p) MULTIPART_REQUEST);
  mret (if Z.eqb (a_ret wlen) (Z.of_nat (length MULTIPART_REQUEST)) then ESP_OK else ESP_FAIL).

(** ** Chunks *)

Definition _http_write_chunk_size (p : http_poster_t) : uprog (Z * http_poster_t) :=
  let text := fmt_x (slen p) ++ lit "\r\n" in
  let wlen := length text in
  b ← try (b ← snd (sz_buf p); snprintf b 0 CHUNK_SZ_STR_LEN text);
  let p := put_sz b p in
  r ← call (sock_write (sock p) (take wlen b));
  mret (if Z.eqb (a_ret r) (Z.of_nat wlen) then ESP_OK else ESP_FAIL, p).

Definition _http_write_chunk_data (p : http_poster_t) : uprog (Z * http_poster_t) :=
  b ← try (b ← snd (tx_buf p); strcpy b (Z.to_nat (slen p)) (lit "\r\n"));
  let p := set_slen (u32 (slen p + 2)) (put_tx b p) in
  r ← call (sock_write (sock p) (take (Z.to_nat (slen p)) b));
  if Z.ltb (a_ret r) 0 then mret (ESP_FAIL, p) else mret (ESP_OK, set_slen 0 p).

Definition http_write_chunk (p : http_poster_t) : uprog (Z * http_poster_t) :=
  '(err, p) ← _http_write_chunk_size p;
  if negb (Z.eqb err ESP_OK) then mret (err, p) else _http_write_chunk_data p.

(** [poster->slen = snprintf (poster->tx_buf, CHUNK_DATA_SZ, ...)] *)
Definition print_tx (text : list Z) (p : http_poster_t) : uprog http_poster_t :=
  data_size ← get CHUNK_DATA_SZ;
  b ← try (b ← snd (tx_buf p); snprintf b 0 (Z.to_nat data_size) text);
  mret (set_slen (Z.of_nat (length text)) (put_tx b p)).

Definition _http_write_body_closer (p : http_poster_t) : uprog (Z * http_poster_t) :=
  p ← print_tx (lit "--" ++ BOUNDARY ++ lit "--\n\r") p;
  '(err, p) ← http_write_chunk p;
  if negb (Z.eqb err 0) then mret (ESP_FAIL, p)
  else
    b ← try (b ← snd (tx_buf p); store b 0 0);
    n ← try (strlen b);
    '(err, p) ← http_write_chunk (set_slen (Z.of_nat n) (put_tx b p));
    mret (if negb (Z.eqb err 0) then ESP_FAIL else ESP_OK, p).

Definition http_post_cleanup (p : http_poster_t) : uprog unit :=
  call_ (fclose (fp p));; call_ (close (sock p));;
  call_ (free (fst (tx_buf p)));; call_ (free (fst (sz_buf p))).

(** [fread (tx_buf, 1, size, fp)]: the bytes read. *)
Definition fread_data (size : Z) (a : answer) : list Z := take (Z.to_nat size) (a_bytes a).

Fixpoint file_chunks (fuel : nat) (flen : Z) (p : http_poster_t) : uprog (Z * http_poster_t) :=
  match fuel with
  | O => Stop OutOfFuel
  | S fuel =>
      size ← get CHUNK_DATA_SZ;
      a ← call (fread (fp p) size);
      b ← try (b ← snd (tx_buf p);
               b ← write b 0 (fread_data size a);
               store b (Z.to_nat (a_ret a)) 0);
      let p := set_slen (a_ret a) (put_tx b p) in
      let flen := flen - slen p in
      '(err, p) ← http_write_chunk p;
      if negb (Z.eqb err ESP_OK) then mret (ESP_FAIL, p)
      else if Z.ltb 0 flen then file_chunks fuel flen p
      else mret (ESP_OK, p)
  end.

Section config.
Variable CONFIG_SD_CARD_DEBUG : bool.

Definition http_write_file_chunked (fuel : nat) (p : http_poster_t) : uprog (Z * http_poster_t) :=
  let flen := st_size p in
  if Z.leb flen 0 then http_post_cleanup p;; mret (ESP_FAIL, p)
  else
    f ← zoom up_sd set_up_sd (sd_fopen CONFIG_SD_CARD_DEBUG (fn_base p));
    let p := set_fp f p in
    if Z.eqb f 0 then mret (ESP_FAIL, p) else file_chunks fuel flen p.

Definition http_write_body (fuel : nat) (p : http_poster_t) : uprog (Z * http_poster_t) :=
  dst ← try (cstr (fn_dst p));
  p ← print_tx (MULTIPART_BODY_HEADER dst) p;
  _ ← try (b ← snd (tx_buf p); cstr b);           (* printed *)
  '(err, p) ← http_write_chunk p;
  if negb (Z.eqb err 0) then mret (ESP_FAIL, p)
  else
    '(err, p) ← http_write_file_chunked fuel p;
    if negb (Z.eqb err ESP_OK) then mret (ESP_FAIL, p)
    else
      '(err, p) ← _http_write_body_closer p;
      mret (if negb (Z.eqb err ESP_OK) then ESP_FAIL else ESP_OK, p).

(** ** The response *)

(** [read (sock, tx_buf, size)]: the number returned. *)
Definition read_tx (size : Z) (p : http_poster_t) : uprog (Z * http_poster_t) :=
  a ← call (sock_read (sock p) size);
  b ← try (b ← snd (tx_buf p); write b 0 (take (Z.to_nat size) (a_bytes a)));
  mret (a_ret a, put_tx b p).

Fixpoint drain (fuel : nat) (p : http_poster_t) : uprog http_poster_t :=
  match fuel with
  | O => Stop OutOfFuel
  | S fuel =>
      size ← get CHUNK_SZ;
      '(r, p) ← read_tx size p;
      if Z.ltb 0 r then drain fuel p else mret p
  end.

Definition status_code (a : answer) : option Z :=
  resp ← write (replicate 4 0) 0 (take 3 (a_bytes a));
  atol <$> cstr resp.

Definition read_http_response (fuel : nat) (p : http_poster_t) : uprog (Z * http_poster_t) :=
  o ← call (setsockopt_rcvtimeo (sock p) 5);
  if Z.ltb (a_ret o) 0 then mret (ESP_FAIL, p)
  else
    '(_, p) ← read_tx 9 p;
    a ← call (sock_read (sock p) 3);
    rcode ← try (status_code a);
    p ← drain fuel p;
    mret (rcode, p).

Definition http_upload_file_from_sd (fuel : nat) (filename : list Z) : uprog Z :=
  '(err, p) ← http_init (new_poster filename);
  if negb (Z.eqb err ESP_OK) then http_post_cleanup p;; mret err
  else
    '(err, p) ← http_connect p;
    if negb (Z.eqb err ESP_OK) then http_post_cleanup p;; mret ESP_FAIL
    else
      err ← http_write_request p;
      if negb (Z.eqb err ESP_OK) then http_post_cleanup p;; mret ESP_FAIL
      else
        '(err, p) ← http_write_body fuel p;
        if negb (Z.eqb err ESP_OK) then http_post_cleanup p;; mret ESP_FAIL
        else
          '(err, p) ← read_http_response fuel p;
          if negb (Z.eqb err ESP_OK) then http_post_cleanup p;; mret ESP_FAIL
          else mret ESP_OK.
End config.

(** ** What a receiver decodes

    The chunked transfer coding of HTTP: the size in hexadecimal, the bytes,
    and a chunk of size 0 at the end. *)

Definition crlf : list Z := lit "\r\n".

Definition chunk (t : list Z) : list Z := fmt_x (Z.of_nat (length t)) ++ crlf ++ t ++ crlf.

Definition after_crlf (s : list Z) : option (list Z) :=
  match s with 13 :: 10 :: s => Some s | _ => None end.

(** The body carried by the chunks, and the bytes after the last one. *)
Fixpoint dechunk (fuel : nat) (s : list Z) : option (list Z * list Z) :=
  match fuel with
  | O => None
  | S fuel =>
      let '(n, s) := read_hex 0 s in
      s ← after_crlf s;
      let d := take (Z.to_nat n) s in
      rest ← after_crlf (drop (Z.to_nat n) s);
      if Z.eqb n 0 then Some ([], rest)
      else '(body, rest) ← dechunk fuel rest; Some (d ++ body, rest)
  end.

Lemma dechunk_chunk fuel t r : t <> [] ->
  dechunk (S fuel) (chunk t ++ r) = ('(body, rest) ← dechunk fuel r; Some (t ++ body, rest)).
Proof.
  intros Ht. cbn [dechunk]. unfold chunk. rewrite <- app_assoc, read_hex_fmt_x by (done || lia).
  change (crlf ++ t ++ crlf) with (13 :: 10 :: t ++ crlf). cbn [app after_crlf mbind option_bind].
  rewrite Nat2Z.id, <- app_assoc, take_app_length, drop_app_length. cbn [crlf].
  change (after_crlf (crlf ++ r)) with (Some r). cbn [mbind option_bind].
  destruct t as [|c t]; [done|]. by rewrite (proj2 (Z.eqb_neq _ 0)) by (cbn [length]; lia).
Qed.

Lemma dechunk_end fuel r : dechunk (S fuel) (chunk [] ++ r) = Some ([], r).
Proof. done. Qed.

Lemma dechunk_chunks ts fuel r : Forall (fun t => t <> []) ts ->
  dechunk (length ts + fuel) (concat (chunk <$> ts) ++ r) =
  ('(body, rest) ← dechunk fuel r; Some (concat ts ++ body, rest)).
Proof.
  induction 1 as [|t ts Ht _ IH].
  - cbn [fmap list_fmap concat app length Nat.add]. by destruct (dechunk fuel r) as [[? ?]|].
  - rewrite fmap_cons. cbn [concat length Nat.add].
    rewrite <- app_assoc, dechunk_chunk, IH by done.
    destruct (dechunk fuel r) as [[body rest]|]; cbn [mbind option_bind]; [|done]. by rewrite app_assoc.
Qed.

(** ** The buffers *)

(** All of a poster but the bytes of its buffers and [slen]. *)
Definition shape (p : http_poster_t) :=
  (hostname p, port p, fn_base p, fn_src p, fn_dst p, fp p, st_size p, sock p,
   (fst (sz_buf p), length <$> snd (sz_buf p)), (fst (tx_buf p), length <$> snd (tx_buf p))).

Definition buffers (n : nat) (p : http_poster_t) : Prop :=
  length <$> snd (tx_buf p) = Some n /\ length <$> snd (sz_buf p) = Some CHUNK_SZ_STR_LEN.

(** The bytes [t] are ready to be sent. *)
Definition loaded (t : list Z) (p : http_poster_t) : Prop :=
  slen p = Z.of_nat (length t) /\ exists b, snd (tx_buf p) = Some b /\ take (length t) b = t.

(** The chunk sizes are set and the buffer has that size. *)
Definition chunks_ok (n : nat) (s : upload) : Prop :=
  CHUNK_SZ s = Z.of_nat n /\ CHUNK_DATA_SZ s = CHUNK_SZ s - 3 /\ min_size <= CHUNK_SZ s < 2 ^ 32.

(** The bytes handed to the socket's writes, and the pieces read from the
    file. *)
Definition sent (h : ctrace) : list Z :=
  concat ((fun c => match fst c with sock_write _ d => d | _ => [] end) <$> h).

Definition reads (h : ctrace) : list (list Z) :=
  omap (fun c => match fst c with fread _ n => Some (fread_data n (snd c)) | _ => None end) h.

Lemma sent_app h1 h2 : sent (h1 ++ h2) = sent h1 ++ sent h2.
Proof. unfold sent. by rewrite fmap_app, concat_app. Qed.

Lemma reads_app h1 h2 : reads (h1 ++ h2) = reads h1 ++ reads h2.
Proof. apply omap_app. Qed.

Lemma local_silent t : Forall (fun c => local_call (fst c)) t -> sent t = [] /\ reads t = [].
Proof.
  induction 1 as [|[e a] t He _ [IH1 IH2]]; [done|].
  change ((e, a) :: t) with ([(e, a)] ++ t). rewrite sent_app, reads_app, IH1, IH2.
  by destruct e.
Qed.

Lemma shape_buffers n p p' : shape p' = shape p -> buffers n p -> buffers n p'.
Proof. unfold shape, buffers. intros [=]. intuition congruence. Qed.

Lemma shape_file p p' : shape p' = shape p -> fn_base p' = fn_base p /\ st_size p' = st_size p.
Proof. by intros [=]. Qed.

Lemma buffers_inv n p : buffers n p ->
  exists b z, snd (tx_buf p) = Some b /\ snd (sz_buf p) = Some z /\ length b = n /\ length z = CHUNK_SZ_STR_LEN.
Proof.
  intros [H1 H2]. destruct (snd (tx_buf p)) as [b|], (snd (sz_buf p)) as [z|]; try done.
  injection H1 as H1. injection H2 as H2. by exists b, z.
Qed.

Lemma shape_put_tx b b' p : snd (tx_buf p) = Some b -> length b' = length b -> shape (put_tx b' p) = shape p.
Proof. intros Hb Hl. unfold shape. cbn. rewrite Hb. cbn. by rewrite Hl. Qed.

Lemma shape_put_sz z z' p : snd (sz_buf p) = Some z -> length z' = length z -> shape (put_sz z' p) = shape p.
Proof. intros Hb Hl. unfold shape. cbn. rewrite Hb. cbn. by rewrite Hl. Qed.

Lemma shape_slen v p : shape (set_slen v p) = shape p.
Proof. done. Qed.

(** ** Sending a chunk *)

Lemma size_line z n : length z = CHUNK_SZ_STR_LEN -> 0 <= n < 2 ^ 32 ->
  let text := fmt_x n ++ lit "\r\n" in
  exists z', snprintf z 0 CHUNK_SZ_STR_LEN text = Some z' /\ take (length text) z' = text /\ length z' = length z.
Proof.
  intros Hz Hn text.
  assert (length (fmt_x n) <= 8)%nat
    by (apply fmt_x_length; [lia|change (16 ^ Z.of_nat 8) with (2 ^ 32); lia]).
  assert (length text <= 10)%nat by (unfold text; rewrite length_app; lit_len; lia).
  unfold CHUNK_SZ_STR_LEN in *. rewrite snprintf_fits by lia. unfold strcpy.
  rewrite write_some by (rewrite length_app; cbn [length]; lia). eexists. split; [done|].
  rewrite take_0. cbn [app]. rewrite <- app_assoc, take_app_length. split; [done|].
  rewrite !length_app, length_drop. cbn [length]. lia.
Qed.

Lemma append_crlf b t : (length t + 3 <= length b)%nat -> take (length t) b = t ->
  exists b', strcpy b (length t) (lit "\r\n") = Some b' /\
    take (length t + 2) b' = t ++ crlf /\ length b' = length b.
Proof.
  intros Hl Ht. destruct (strcpy_end t (lit "\r\n") b) as (r & -> & Hr); [lit_len; lia|done|].
  eexists. split; [done|]. split; [|done]. rewrite app_assoc. apply take_app_exact.
  rewrite length_app. lit_len. done.
Qed.

Section upload.
Variable A : ext -> answer -> Prop.

(** What the code relies on when it reads files. *)
Hypothesis A_fread : forall f n a, A (fread f n) a ->
  0 <= a_ret a <= n /\ length (a_bytes a) = Z.to_nat (a_ret a).

(** [h'] is [h] with more sent and read. *)
Definition passed (h h' : ctrace) (out : list Z) (ins : list (list Z)) : Prop :=
  sent h' = sent h ++ out /\ reads h' = reads h ++ ins.

Lemma passed_trans h1 h2 h3 o1 o2 i1 i2 :
  passed h1 h2 o1 i1 -> passed h2 h3 o2 i2 -> passed h1 h3 (o1 ++ o2) (i1 ++ i2).
Proof.
  intros [H1 R1] [H2 R2]. split.
  - by rewrite H2, H1, app_assoc.
  - by rewrite R2, R1, app_assoc.
Qed.

Lemma chunk_wpa t n p h s : buffers n p -> loaded t p -> (length t + 3 <= n)%nat -> Z.of_nat n < 2 ^ 32 ->
  wpa A (ending (fun h' '(err, p') s' => s' = s /\ shape p' = shape p /\
                   (err = ESP_OK -> passed h h' (chunk t) []))) (http_write_chunk p) h s.
Proof.
  intros Hb [Hl (b & Eb & Ht)] Hn Hmax. destruct (buffers_inv n p Hb) as (b0 & z & E0 & Ez & Lb & Lz).
  rewrite Eb in E0. injection E0 as <-.
  destruct (size_line z (slen p)) as (z' & Ez' & Tz & Lz'); [done|lia|].
  destruct (append_crlf b t) as (b' & Eb' & Tb & Lb'); [lia|done|].
  set (text := fmt_x (slen p) ++ lit "\r\n") in *.
  unfold http_write_chunk, _http_write_chunk_size, _http_write_chunk_data, mbind, prog_bind, call.
  change (fmt_x (slen p) ++ lit _) with text. rewrite Ez. cbn [option_bind mbind]. rewrite Ez'. cbn [try bind wpa]. rewrite Tz. intros r1 Hr1.
  destruct (Z.eqb_spec (a_ret r1) (Z.of_nat (length text))) as [E1|E1]; cbn [mret prog_ret bind].
  2:{ cbn [negb Z.eqb]. change (negb (ESP_FAIL =? ESP_OK)) with true. cbn [wpa ending].
      split; [done|]. split; [by apply (shape_put_sz z)|done]. }
  change (negb (ESP_OK =? ESP_OK)) with false. cbv iota.
  change (snd (tx_buf (put_sz z' p))) with (snd (tx_buf p)). change (slen (put_sz z' p)) with (slen p).
  rewrite Eb. cbn [option_bind mbind]. rewrite Hl, Nat2Z.id, Eb'. cbn [try bind wpa slen set_slen put_tx set_tx sock].
  rewrite uwrap_small by lia. replace (Z.to_nat (Z.of_nat (length t) + 2)) with (length t + 2)%nat by lia.
  rewrite Tb. intros r2 Hr2.
  assert (forall v, shape (set_slen v (put_tx b' (put_sz z' p))) = shape p) as Hshape.
  { intros v. rewrite shape_slen, (shape_put_tx b) by (done || by cbn).
    by apply (shape_put_sz z). }
  assert (forall e1 e2, e1 = (sock_write (sock p) text, r1) -> e2 = (sock_write (sock p) (t ++ crlf), r2) ->
    passed h ((h ++ [e1]) ++ [e2]) (chunk t) []) as Hpass.
  { intros e1 e2 -> ->. split; [|rewrite !reads_app; by rewrite !app_nil_r].
    rewrite !sent_app, <- app_assoc. f_equal. unfold sent at 1 2. cbn [fmap list_fmap concat fst snd].
    rewrite !app_nil_r. unfold chunk, text. rewrite Hl. by rewrite <- app_assoc. }
  destruct (Z.ltb_spec (a_ret r2) 0); cbn [wpa ending]; (split; [done|]; split; [apply Hshape|]); [done|].
  intros _. by apply Hpass.
Qed.

Lemma print_tx_wpa t n p h s : buffers n p -> chunks_ok n s ->
  Z.of_nat (length t) < CHUNK_DATA_SZ s -> nonzero t ->
  wpa A (ending (fun h' p' s' => s' = s /\ h' = h /\ shape p' = shape p /\ loaded t p' /\
                   (b ← snd (tx_buf p'); cstr b) = Some t)) (print_tx t p) h s.
Proof.
  intros Hb (Hn & Hd & Hm) Ht Hz. destruct (buffers_inv n p Hb) as (b & z & Eb & _ & Lb & _).
  unfold print_tx, mbind, prog_bind, get. cbn [bind wpa]. rewrite Eb. cbn [option_bind mbind].
  rewrite snprintf_fits by lia. unfold strcpy. rewrite write_some by (rewrite length_app; cbn [length]; lia).
  cbn [try bind mret prog_ret wpa ending]. rewrite take_0. cbn [app].
  split; [done|]. split; [done|]. split; [|split; [split; [done|]|]].
  - rewrite shape_slen. apply (shape_put_tx b); [done|].
    rewrite !length_app, length_drop. cbn [length]. lia.
  - eexists. split; [done|]. rewrite <- app_assoc. apply take_app_length.
  - cbn. rewrite <- app_assoc. by apply cstr_app.
Qed.

(** The end of the body: the closing boundary and the empty chunk. *)
Definition closer : list Z := lit "--" ++ BOUNDARY ++ lit "--\n\r".

Lemma closer_nonzero : nonzero closer.
Proof. by apply nonzero_const. Qed.

Lemma min_size_value : min_size = 175.
Proof. reflexivity. Qed.

Lemma closer_wpa n p h s : buffers n p -> chunks_ok n s ->
  wpa A (ending (fun h' '(err, p') s' => s' = s /\ shape p' = shape p /\
                   (err = ESP_OK -> passed h h' (chunk closer ++ chunk []) []))) (_http_write_body_closer p) h s.
Proof.
  intros Hb Hs. assert (175 <= CHUNK_SZ s < 2 ^ 32 /\ CHUNK_SZ s = Z.of_nat n /\ CHUNK_DATA_SZ s = CHUNK_SZ s - 3)
    as (Hm & Hn & Hd) by (destruct Hs as (? & ? & ?); by rewrite <- min_size_value).
  assert (length closer = 32%nat) as Hl by reflexivity.
  unfold _http_write_body_closer, mbind, prog_bind. fold closer.
  eapply ending_bind; [apply (print_tx_wpa closer n p h s); [done..| |apply closer_nonzero]; rewrite Hl; lia|].
  intros h1 p1 s1 (-> & -> & Hsh & Hload & _).
  pose proof (shape_buffers n p p1 Hsh Hb) as Hb1.
  eapply ending_bind; [apply (chunk_wpa closer n p1 h s); [done..| |]; lia|].
  intros h2 [err p2] s2 (-> & Hsh2 & Hp). destruct (Z.eqb_spec err 0) as [->|]; cbn [negb].
  2:{ cbn [mret prog_ret wpa ending]. split; [reflexivity|]. split; [congruence|discriminate]. }
  destruct (buffers_inv n p2) as (b & z & Eb & _ & Lb & _); [by eapply shape_buffers|]. rewrite Eb.
  cbn [option_bind mbind]. unfold store. rewrite write_some by (cbn [length]; lia). cbn [try bind].
  rewrite take_0. cbn [app length Nat.add]. cbn [strlen cstr Z.eqb fmap option_fmap option_map try bind length].
  set (p3 := set_slen _ _).
  assert (shape p3 = shape p2) as Hsh3.
  { unfold p3. rewrite shape_slen. apply (shape_put_tx b); [done|]. cbn [length]. rewrite length_drop. lia. }
  eapply ending_bind; [apply (chunk_wpa [] n p3 h2 s)|].
  - eapply shape_buffers; [|exact Hb]. congruence.
  - split; [done|]. by eexists.
  - cbn [length]. lia.
  - lia.
  - intros h3 [err p4] s3 (-> & Hsh4 & Hp4). cbn [mret prog_ret wpa ending].
    split; [done|]. split; [congruence|].
    destruct (Z.eqb_spec err 0) as [->|]; cbn [negb]; [|done]. intros _.
    change (@nil (list Z)) with (@nil (list Z) ++ []). eapply passed_trans; [by apply Hp|by apply Hp4].
Qed.

(** ** The file *)

(** What [fread] leaves, with the terminator the code puts behind it. *)
Lemma load_bytes b d : (length d < length b)%nat ->
  exists b1, (b ← write b 0 d; store b (length d) 0) = Some b1 /\ length b1 = length b /\ take (length d) b1 = d.
Proof.
  intros Hl. rewrite write_some by lia. cbn [option_bind mbind Nat.add]. rewrite take_0. cbn [app].
  destruct (drop (length d) b) as [|c r] eqn:E; [apply (f_equal length) in E; rewrite length_drop in E; cbn in E; lia|].
  unfold store. change (c :: r) with ([c] ++ r). rewrite write_spec by done.
  eexists. split; [done|]. split; [|by apply take_app_exact].
  apply (f_equal length) in E. rewrite length_drop in E. rewrite !length_app. cbn in *. lia.
Qed.

Lemma file_chunks_wpa fuel flen n p h s : buffers n p -> chunks_ok n s ->
  wpa A (ending (fun h' '(err, p') s' => s' = s /\ shape p' = shape p /\
    (err = ESP_OK -> exists pieces, passed h h' (concat (chunk <$> pieces)) pieces /\
                       flen <= Z.of_nat (length (concat pieces))))) (file_chunks fuel flen p) h s.
Proof.
  intros Hb Hs. assert (175 <= CHUNK_SZ s < 2 ^ 32 /\ CHUNK_SZ s = Z.of_nat n /\ CHUNK_DATA_SZ s = CHUNK_SZ s - 3)
    as (Hm & Hn & Hd) by (destruct Hs as (? & ? & ?); by rewrite <- min_size_value).
  revert flen p h Hb. induction fuel as [|fuel IH]; intros flen p h Hb; [done|].
  cbn [file_chunks]. unfold mbind, prog_bind, get, call. cbn [bind wpa]. intros a Ha.
  destruct (A_fread _ _ _ Ha) as [Hr Hla].
  destruct (buffers_inv n p Hb) as (b & z & Eb & _ & Lb & _). rewrite Eb. cbn [option_bind mbind].
  assert (fread_data (CHUNK_DATA_SZ s) a = a_bytes a) as Hdata
    by (unfold fread_data; apply take_ge; lia).
  destruct (load_bytes b (a_bytes a)) as (b1 & Eb1 & Hl1 & Ht1); [lia|].
  rewrite Hdata, <- Hla. unfold mbind in Eb1. rewrite Eb1. cbn [try bind].
  set (p1 := set_slen (a_ret a) (put_tx b1 p)).
  assert (shape p1 = shape p) as Hsh1 by (unfold p1; rewrite shape_slen; by apply (shape_put_tx b)).
  eapply ending_bind; [apply (chunk_wpa (a_bytes a) n p1); [by eapply shape_buffers| |lia|lia]|].
  { split; [cbn; lia|]. by exists b1. }
  intros h2 [err p2] s2 (-> & Hsh2 & Hp).
  assert (err = ESP_OK -> passed h h2 (chunk (a_bytes a)) [a_bytes a]) as Hpass.
  { intros E. destruct (Hp E) as [P1 P2]. split.
    - rewrite P1, sent_app. unfold sent at 2. cbn. by rewrite app_nil_r.
    - rewrite P2, reads_app. unfold reads at 2. cbn. by rewrite Hdata, app_nil_r. }
  change (slen p1) with (a_ret a).
  destruct (Z.eqb_spec err ESP_OK) as [->|]; cbn [negb].
  2:{ cbn [mret prog_ret wpa ending]. split; [reflexivity|]. split; [congruence|discriminate]. }
  destruct (Z.ltb_spec 0 (flen - a_ret a)) as [Hmore|Hdone].
  - eapply ending_mono; [|apply IH; eapply shape_buffers; [|exact Hb]; congruence].
    intros h3 [err p3] s3 (-> & Hsh3 & Hf). split; [done|]. split; [congruence|]. intros E.
    destruct (Hf E) as (pieces & Hpp & Hlen). exists (a_bytes a :: pieces). split.
    + rewrite fmap_cons. cbn [concat]. change (a_bytes a :: pieces) with ([a_bytes a] ++ pieces).
      eapply passed_trans; [by apply Hpass|exact Hpp].
    + cbn [concat]. rewrite length_app. lia.
  - cbn [mret prog_ret wpa ending]. split; [reflexivity|]. split; [congruence|]. intros _. exists [a_bytes a]. split.
    + cbn. rewrite app_nil_r. by apply Hpass.
    + cbn. rewrite app_nil_r. lia.
Qed.
Lemma passed_local h t : Forall (fun c => local_call (fst c)) t -> passed h (h ++ t) [] [].
Proof.
  intros Ht. destruct (local_silent t Ht) as [E1 E2]. split; [by rewrite sent_app, E1|].
  by rewrite reads_app, E2.
Qed.

(** The state between the steps of an upload. *)
Definition running_ok (n : nat) (s : upload) : Prop := chunks_ok n s /\ sd_ok (up_sd s).

Lemma sd_fopen_wpa debug n name h s : nonzero name -> running_ok n s ->
  wpa A (ending (fun h' f s' => running_ok n s' /\ passed h h' [] []))
    (zoom up_sd set_up_sd (sd_fopen debug name)) h s.
Proof.
  intros Hn [Hc Hs]. apply zoom_wpa; [done|by intros []|done|].
  eapply wpa_mono; [|apply wpa_and;
    [eapply wpa_answers; [|by apply sd_fopen_ends]; done|apply (wpa_only _ _ _ _ _ _ (sd_fopen_local debug name))]].
  intros h' [f|[]|] t; cbn [ending ends]; try tauto. intros [Ht [(u & -> & Hu) _]].
  split; [by split|by apply passed_local].
Qed.

Lemma write_file_wpa debug fuel n p h s : buffers n p -> running_ok n s -> nonzero (fn_base p) ->
  wpa A (ending (fun h' '(err, p') s' => running_ok n s' /\ buffers n p' /\
    (err = ESP_OK -> exists pieces, passed h h' (concat (chunk <$> pieces)) pieces /\
                       st_size p <= Z.of_nat (length (concat pieces)))))
    (http_write_file_chunked debug fuel p) h s.
Proof.
  intros Hb Hs Hn. unfold http_write_file_chunked, mbind, prog_bind. destruct (Z.leb _ 0).
  { unfold http_post_cleanup, mbind, prog_bind, call_. cbn [bind wpa]. intros a1 _ a2 _ a3 _ a4 _.
    split; [exact Hs|]. split; [exact Hb|discriminate]. }
  eapply ending_bind; [by apply sd_fopen_wpa|]. intros h1 f s1 [Hs1 Hp1].
  assert (buffers n (set_fp f p)) as Hb1 by exact Hb.
  destruct (Z.eqb f 0); [split; [exact Hs1|]; split; [exact Hb1|discriminate]|].
  eapply ending_mono; [|apply (file_chunks_wpa fuel (st_size p) n); [done|apply Hs1]].
  intros h2 [err p2] s2 (-> & Hsh & Hf). split; [done|]. split; [by eapply shape_buffers|].
  intros E. destruct (Hf E) as (pieces & Hpp & Hlen). exists pieces. split; [|done].
  exact (passed_trans _ _ _ _ _ _ _ Hp1 Hpp).
Qed.

(** ** The body *)

Lemma header_length name : length (MULTIPART_BODY_HEADER name) = (114 + length name)%nat.
Proof.
  unfold MULTIPART_BODY_HEADER. rewrite !length_app. change (length header_before) with 85%nat.
  change (length header_after) with 29%nat. lia.
Qed.

Lemma header_nonzero name : nonzero name -> nonzero (MULTIPART_BODY_HEADER name).
Proof.
  intros Hn. apply nonzero_app; [by apply nonzero_const|]. apply nonzero_app; [done|by apply nonzero_const].
Qed.

(** All the bytes of a body, and of the request before it. *)
Definition body_bytes (dst : list Z) (pieces : list (list Z)) : list Z :=
  chunk (MULTIPART_BODY_HEADER dst) ++ concat (chunk <$> pieces) ++ chunk closer ++ chunk [].

Lemma body_wpa debug fuel n dst p h s : buffers n p -> running_ok n s -> nonzero (fn_base p) ->
  cstr (fn_dst p) = Some dst -> (length dst <= 57)%nat ->
  wpa A (ending (fun h' '(err, p') s' => running_ok n s' /\ buffers n p' /\
    (err = ESP_OK -> exists pieces, passed h h' (body_bytes dst pieces) pieces /\
                       st_size p <= Z.of_nat (length (concat pieces)))))
    (http_write_body debug fuel p) h s.
Proof.
  intros Hb Hs Hn Hd Hl. destruct (cstr_inv _ _ Hd) as [Hdn _]. pose proof (header_length dst) as Hh.
  assert (175 <= CHUNK_SZ s < 2 ^ 32 /\ CHUNK_SZ s = Z.of_nat n /\ CHUNK_DATA_SZ s = CHUNK_SZ s - 3)
    as (Hm & Hsz & Hdz) by (destruct Hs as ((? & ? & ?) & ?); by rewrite <- min_size_value).
  unfold http_write_body, mbind, prog_bind. rewrite Hd. cbn [try bind].
  eapply ending_bind; [apply (print_tx_wpa _ n); [done|apply Hs|rewrite Hh; lia|by apply header_nonzero]|].
  intros h1 p1 s1 (-> & -> & Hsh1 & Hload & Hc). unfold mbind in Hc. rewrite Hc. cbn [try bind].
  eapply ending_bind; [apply (chunk_wpa (MULTIPART_BODY_HEADER dst) n p1);
    [by eapply shape_buffers|done|rewrite Hh; lia|lia]|].
  intros h2 [err p2] s2 (-> & Hsh2 & Hp2). assert (shape p2 = shape p) as Hsh by congruence.
  assert (buffers n p2) as Hb2 by by eapply shape_buffers.
  destruct (Z.eqb_spec err 0) as [->|]; cbn [negb]; [|split; [exact Hs|]; split; [exact Hb2|discriminate]].
  destruct (shape_file _ _ Hsh) as [Hbase Hsize].
  eapply ending_bind; [apply (write_file_wpa debug fuel n p2 h2 s); [done|done|by rewrite Hbase]|].
  intros h3 [err p3] s3 (Hs3 & Hb3 & Hf).
  destruct (Z.eqb_spec err ESP_OK) as [->|]; cbn [negb]; [|split; [exact Hs3|]; split; [exact Hb3|discriminate]].
  eapply ending_bind; [apply (closer_wpa n p3 h3 s3); [done|apply Hs3]|].
  intros h4 [err p4] s4 (-> & Hsh4 & Hp4). cbn [mret prog_ret wpa ending].
  split; [exact Hs3|]. split; [by eapply shape_buffers|].
  destruct (Z.eqb_spec err ESP_OK) as [->|]; cbn [negb]; [|discriminate]. intros _.
  destruct (Hf eq_refl) as (pieces & Hpp & Hlen). exists pieces. rewrite <- Hsize. split; [|exact Hlen].
  pose proof (passed_trans _ _ _ _ _ _ _ (Hp2 eq_refl) (passed_trans _ _ _ _ _ _ _ Hpp (Hp4 eq_refl))) as Hall.
  rewrite app_nil_r in Hall. exact Hall.
Qed.
End upload.

(** ** Preparing an upload *)

(** The chunk size chosen: what was asked for, 0 for all, within the largest
    free block and the space the part's header needs. *)
Definition chosen_size (heap chunk_size : Z) : Z :=
  Z.max min_size (if Z.eqb chunk_size 0 then heap else Z.min heap chunk_size).

Lemma set_chunk_size_eq k s a ans :
  run (set_chunk_size k) s (a :: ans) =
  ([(heap_caps_get_largest_free_block, a)], Done tt,
   if Z.ltb (u32 (a_ret a)) min_size then s
   else set_chunks (chosen_size (u32 (a_ret a)) k) (u32 (chosen_size (u32 (a_ret a)) k - 3)) s).
Proof.
  unfold set_chunk_size, mbind, prog_bind, call, modify. cbn [bind run].
  set (heap := u32 (a_ret a)). destruct (Z.ltb_spec heap min_size) as [H|H]; cbn [run]; [done|].
  assert (forall x y : Z, x = y -> ([(heap_caps_get_largest_free_block, a)], @Done unit tt, set_chunks x (u32 (x - 3)) s) =
    ([(heap_caps_get_largest_free_block, a)], Done tt, set_chunks y (u32 (y - 3)) s)) as Hcong by by intros x y ->.
  apply Hcong. unfold chosen_size. rewrite min_size_value in *. destruct (Z.eqb k 0).
  - rewrite Z.ltb_irrefl, (proj2 (Z.ltb_ge _ _)) by done. lia.
  - destruct (Z.ltb_spec heap k); [destruct (Z.ltb_spec heap 175)|destruct (Z.ltb_spec k 175)]; lia.
Qed.

Section preparing.
Variable A : ext -> answer -> Prop.

(** The heap has room for the header of the part. *)
Definition heap_has_room : Prop :=
  forall a, A heap_caps_get_largest_free_block a -> min_size <= u32 (a_ret a).

(** A chunk size has been set. *)
Definition sizes_ok (s : upload) : Prop :=
  CHUNK_DATA_SZ s = CHUNK_SZ s - 3 /\ min_size <= CHUNK_SZ s < 2 ^ 32.

Lemma set_chunk_size_wpa k h s : 0 <= k < 2 ^ 32 -> sizes_ok s \/ heap_has_room ->
  wpa A (ending (fun _ _ s' => sizes_ok s' /\ up_sd s' = up_sd s)) (set_chunk_size k) h s.
Proof.
  intros Hk Hor. unfold set_chunk_size, mbind, prog_bind, call, modify. cbn [bind wpa]. intros a Ha.
  pose proof (uwrap_range 32 (a_ret a) ltac:(lia)) as Hr.
  destruct (Z.ltb_spec (u32 (a_ret a)) min_size) as [Hsmall|Hroom].
  { destruct Hor as [Hs|Hheap]; [done|]. apply Hheap in Ha. lia. }
  cbn [wpa bind ending set_chunks up_sd]. split; [|done].
  set (size := if Z.ltb _ min_size then _ else _).
  assert (min_size <= size < 2 ^ 32) as Hs.
  { unfold size. clear size. rewrite min_size_value in *. set (heap := u32 (a_ret a)) in *.
    destruct (Z.eqb k 0); [rewrite Z.ltb_irrefl; destruct (Z.ltb_spec heap 175); lia|].
    destruct (Z.ltb_spec heap k); [destruct (Z.ltb_spec heap 175)|destruct (Z.ltb_spec k 175)]; lia. }
  unfold sizes_ok. cbn. rewrite uwrap_small by (rewrite min_size_value in *; lia). split; [done|exact Hs].
Qed.
(** What [http_init] leaves when it succeeds. *)
Definition ready (name : list Z) (p : http_poster_t) (s : upload) : Prop :=
  exists n dst, buffers n p /\ running_ok n s /\ fn_base p = name /\ cstr (fn_dst p) = Some dst /\
    (length dst <= 57)%nat.

Lemma alloc_wpa size h (s : upload) :
  wpa A (ending (fun _ (b : heap_block) s' => s' = s /\ (fst b <> 0 -> length <$> snd b = Some size))) (heap_alloc size) h s.
Proof.
  intros a _. cbn. split; [done|]. intros Ha. rewrite (proj2 (Z.eqb_neq _ 0)) by done. cbn.
  by rewrite length_resize.
Qed.

Lemma buffers_ready name p h s :
  sizes_ok s -> sd_ok (up_sd s) -> fn_base p = name ->
  (exists dst, cstr (fn_dst p) = Some dst /\ (length dst <= 57)%nat) ->
  wpa A (ending (fun _ '(err, p') s' => err = ESP_OK -> ready name p' s')) (http_buffers p) h s.
Proof.
  intros Hs Hd Hname (dst & Hdst & Hl). unfold http_buffers, alloc_chunk, mbind, prog_bind, get.
  cbn [bind wpa]. eapply ending_bind; [apply alloc_wpa|]. intros h1 tx s1 [-> Htx].
  apply (ending_bind _ (fun _ (b : heap_block) s' => sizes_ok s' /\ sd_ok (up_sd s') /\
    (fst b <> 0 -> length <$> snd b = Some (Z.to_nat (CHUNK_SZ s'))))).
  { destruct (Z.eqb (fst tx) 0); [|done]. eapply ending_bind; [apply set_chunk_size_wpa; [lia|by left]|].
    intros h2 _ s2 [Hs2 Hu]. cbn [bind wpa]. eapply ending_mono; [|apply alloc_wpa].
    intros h3 b s3 [-> Hb]. rewrite Hu. done. }
  clear tx Htx Hs Hd s. intros h2 tx s (Hs & Hd & Htx).
  destruct (Z.eqb_spec (fst tx) 0) as [E|E]; [intros [=]|].
  eapply ending_bind; [apply alloc_wpa|]. intros h3 sz s3 [-> Hsz].
  destruct (Z.eqb_spec (fst sz) 0) as [E2|E2]; [intros [=]|]. intros _.
  exists (Z.to_nat (CHUNK_SZ s)), dst. destruct Hs as (Hs1 & Hs2).
  split; [split; [by apply Htx|by apply Hsz]|]. split; [|done].
  split; [|done]. split; [rewrite min_size_value in *; lia|done].
Qed.

Lemma names_fit name : nonzero name -> (length name <= 17)%nat ->
  exists d, snprintf (replicate SERVER_FILENAME_LEN 0) 0 SERVER_FILENAME_LEN (fn_dst_text name) = Some d /\
    cstr d = Some (fn_dst_text name) /\ (length (fn_dst_text name) <= 57)%nat.
Proof.
  intros Hn Hl. assert (nonzero (fn_dst_text name)) as Hnt.
  { unfold fn_dst_text. apply nonzero_app; [by apply nonzero_const|]. apply nonzero_app; [by apply nonzero_const|done]. }
  assert (length (fn_dst_text name) = (13 + length name)%nat) as Hlt
    by (unfold fn_dst_text; rewrite !length_app; lit_len; lia).
  destruct (snprintf _ 0 SERVER_FILENAME_LEN (fn_dst_text name)) as [d|] eqn:E.
  - exists d. split; [done|]. split; [|lia]. rewrite snprintf_fits in E by (unfold SERVER_FILENAME_LEN; lia).
    by eapply strcpy_cstr.
  - exfalso. rewrite snprintf_fits in E by (unfold SERVER_FILENAME_LEN; lia). apply strcpy_none in E.
    rewrite length_replicate in E. unfold SERVER_FILENAME_LEN in E. lia.
Qed.

Lemma init_ready name h s : nonzero name -> 0 <= CHUNK_SZ s < 2 ^ 32 -> sizes_ok s \/ heap_has_room ->
  sd_ok (up_sd s) ->
  wpa A (ending (fun _ '(err, p) s' => err = ESP_OK -> ready name p s')) (http_init (new_poster name)) h s.
Proof.
  intros Hn Hs Hor Hd. unfold http_init, mbind, prog_bind, get, call. cbn [bind wpa].
  eapply ending_bind; [by apply set_chunk_size_wpa|]. intros h1 _ s1 [Hs1 Hu].
  change (fn_src (set_sock 0 (set_fp 0 (new_poster name)))) with (replicate SD_FILENAME_LENGTH 0).
  change (fn_base (set_sock 0 (set_fp 0 (new_poster name)))) with name.
  assert (length (sd_path name) = (8 + length name)%nat) as Hlen
    by (unfold sd_path; rewrite length_app; lit_len; done).
  destruct (snprintf (replicate SD_FILENAME_LENGTH 0) 0 SD_FILENAME_LENGTH (sd_path name)) as [src|] eqn:Esrc.
  2:{ exfalso. cbn [snprintf SD_FILENAME_LENGTH] in Esrc. apply write_none in Esrc.
      rewrite length_replicate, length_app, length_take in Esrc. unfold SD_FILENAME_LENGTH in Esrc.
      cbn [length] in Esrc. lia. }
  cbn [try bind]. change (fn_base (set_names _ _ _)) with name.
  destruct (Nat.ltb_spec SD_FILENAME_LENGTH (length (sd_path name))) as [Hlong|Hfit]; [intros [=]|].
  unfold SD_FILENAME_LENGTH in Hfit. destruct (names_fit name Hn) as (d & Ed & Hd2 & Hl2); [lia|].
  change (fn_dst (set_names _ _ _)) with (replicate SERVER_FILENAME_LEN 0). rewrite Ed. cbn [try bind].
  apply snprintf_cstr in Esrc; [|apply nonzero_app; auto with airu|unfold SD_FILENAME_LENGTH; lia].
  cbn [fn_src set_names]. rewrite Esrc. cbn [try bind wpa]. intros st _.
  destruct (negb (Z.eqb (a_ret st) ESP_OK)); [intros [=]|]. cbn [st_size set_size].
  destruct (Z.eqb (a_val st) 0); [intros [=]|].
  apply buffers_ready; [done|by rewrite Hu|done|]. exists (fn_dst_text name). done.
Qed.

(** ** The response *)

Lemma status_some a : exists c, status_code a = Some c.
Proof.
  unfold status_code. rewrite write_some by (rewrite length_replicate, length_take; lia).
  cbn [option_bind mbind]. destruct (cstr _) as [t|] eqn:E; cbn; [by eexists|]. exfalso.
  apply cstr_none in E. rewrite !Forall_app in E. destruct E as (_ & _ & E).
  rewrite length_take in E. destruct (drop (0 + _) (replicate 4 0)) as [|x l] eqn:Ed.
  - apply (f_equal length) in Ed. rewrite length_drop, length_replicate in Ed. cbn [length] in Ed. lia.
  - assert (x ∈ replicate 4 0) as Hx.
    { rewrite <- (take_drop (0 + min 3 (length (a_bytes a))) (replicate 4 0)), Ed. set_solver. }
    apply elem_of_replicate in Hx as [-> _]. by inversion E.
Qed.

Lemma read_tx_wpa size n p h s : buffers n p -> (Z.to_nat size <= n)%nat ->
  wpa A (ending (fun h' '(_, p') s' => s' = s /\ shape p' = shape p /\ exists t, h' = h ++ t)) (read_tx size p) h s.
Proof.
  intros Hb Hn. destruct (buffers_inv n p Hb) as (b & z & Eb & _ & Lb & _).
  unfold read_tx, mbind, prog_bind, call. cbn [bind wpa]. intros a _. rewrite Eb. cbn [option_bind mbind].
  rewrite write_some by (rewrite length_take; lia). cbn [try bind mret prog_ret wpa ending].
  split; [done|]. split; [|by eexists]. apply (shape_put_tx b); [done|].
  rewrite !length_app, !length_take, length_drop, ?length_take. lia.
Qed.

Lemma drain_wpa fuel n p h s : buffers n p -> chunks_ok n s ->
  wpa A (ending (fun h' _ s' => s' = s /\ exists t, h' = h ++ t)) (drain fuel p) h s.
Proof.
  intros Hb Hs. revert p h Hb. induction fuel as [|fuel IH]; intros p h Hb; [done|].
  cbn [drain]. unfold mbind, prog_bind, get. cbn [bind wpa].
  eapply ending_bind; [apply (read_tx_wpa _ n); [done|destruct Hs; lia]|].
  intros h1 [r p1] s1 (-> & Hsh & t & ->). destruct (Z.ltb 0 r).
  - eapply ending_mono; [|apply IH; by eapply shape_buffers].
    intros h2 p2 s2 (-> & t2 & ->). split; [done|]. exists (t ++ t2). by rewrite app_assoc.
  - split; [done|]. by exists t.
Qed.

(** The three bytes of the status, read as a number. *)
Definition status_read (code : Z) (h : ctrace) : Prop :=
  exists k a, In (sock_read k 3, a) h /\ status_code a = Some code.

Lemma response_wpa fuel n p h s : buffers n p -> chunks_ok n s ->
  wpa A (ending (fun h' '(code, _) _ => code <> ESP_FAIL -> status_read code h')) (read_http_response fuel p) h s.
Proof.
  intros Hb Hs. unfold read_http_response, mbind, prog_bind, call. cbn [bind wpa]. intros o _.
  destruct (Z.ltb (a_ret o) 0); [by intros []|].
  eapply ending_bind; [apply (read_tx_wpa 9 n); [done|destruct Hs as (? & ? & Hm); rewrite min_size_value in Hm; lia]|].
  intros h1 [r p1] s1 (-> & Hsh & t & ->). cbn [bind wpa]. intros a _.
  destruct (status_some a) as [c Hc]. rewrite Hc. cbn [try bind].
  eapply ending_bind; [apply (drain_wpa fuel n); [by eapply shape_buffers|done]|].
  intros h2 p2 s2 (-> & t2 & ->). cbn [mret prog_ret wpa ending]. intros _.
  exists (sock p1), a. split; [|done]. apply in_or_app. left. apply in_or_app. right. by left.
Qed.
End preparing.

(** ** The whole upload *)

(** What the code relies on: [fread] returns no more than it was asked for, and
    as many bytes as it says. *)
Definition reliable (e : ext) (a : answer) : Prop :=
  match e with
  | fread _ n => 0 <= a_ret a <= n /\ length (a_bytes a) = Z.to_nat (a_ret a)
  | _ => True
  end.

(** The heap has a block for the header of the part. *)
Definition roomy (e : ext) (a : answer) : Prop :=
  match e with heap_caps_get_largest_free_block => min_size <= u32 (a_ret a) | _ => True end.

Definition answered (P : ext -> answer -> Prop) (tr : ctrace) : Prop := Forall (fun c => P (fst c) (snd c)) tr.

Definition upload_ok (s : upload) : Prop := 0 <= CHUNK_SZ s < 2 ^ 32 /\ sd_ok (up_sd s).

Lemma cleanup_wpa {X} P (K : trace ext answer -> X -> upload -> Prop) p (r : X) h s :
  (forall h, K h r s) -> wpa P (ending K) (http_post_cleanup p;; mret r) h s.
Proof.
  intros HK. unfold http_post_cleanup, mbind, prog_bind, call_. cbn [bind wpa]. intros. apply HK.
Qed.

Lemma upload_wpa P debug fuel name h s : nonzero name -> upload_ok s ->
  (forall f n a, P (fread f n) a -> 0 <= a_ret a <= n /\ length (a_bytes a) = Z.to_nat (a_ret a)) ->
  sizes_ok s \/ heap_has_room P ->
  wpa P (ending (fun h' r _ => r = ESP_OK -> status_read ESP_OK h'))
    (http_upload_file_from_sd debug fuel name) h s.
Proof.
  intros Hn [Hs Hd] Hread Hor.
  unfold http_upload_file_from_sd, mbind, prog_bind.
  eapply ending_bind; [by apply init_ready|]. intros h1 [err p1] s1 Hr.
  destruct (Z.eqb_spec err ESP_OK) as [->|E1]; cbn [negb]; [|by apply cleanup_wpa].
  destruct (Hr eq_refl) as (n & dst & Hb & Hs1 & Hbase & Hdst & Hl). clear Hr.
  apply (ending_bind _ (fun _ '(err, p') s' => s' = s1 /\ buffers n p' /\ fn_base p' = name /\ cstr (fn_dst p') = Some dst)).
  { unfold http_connect, mbind, prog_bind, call, call_. cbn [bind wpa]. intros a1 _.
    destruct (_ || _); [done|]. cbn [bind wpa]. intros a2 _. destruct (Z.ltb _ 0); cbn [bind wpa]; [done|].
    intros a3 _. destruct (negb _); cbn [bind wpa]; done. }
  intros h2 [err p2] s2 (-> & Hb2 & Hbase2 & Hdst2).
  destruct (negb _); [by apply cleanup_wpa|].
  unfold http_write_request, mbind, prog_bind, call. cbn [bind wpa]. intros w _. cbn [mret prog_ret bind].
  destruct (negb _); [by apply cleanup_wpa|].
  eapply ending_bind; [by apply (body_wpa P Hread debug fuel n dst); rewrite ?Hbase2|].
  intros h3 [err3 p3] s3 (Hs3 & Hb3 & _). destruct (negb _); [by apply cleanup_wpa|].
  eapply ending_bind; [by apply (response_wpa P fuel n); [|apply Hs3]|].
  intros h4 [code p4] s4 Hcode. destruct (Z.eqb_spec code ESP_OK) as [->|E4]; cbn [negb].
  - cbn [mret prog_ret wpa ending]. intros _. by apply Hcode.
  - by apply cleanup_wpa.
Qed.

Lemma upload_exec debug fuel name s tr o s' : nonzero name -> upload_ok s ->
  exec eq (http_upload_file_from_sd debug fuel name) s tr o s' -> answered reliable tr ->
  sizes_ok s \/ answered roomy tr ->
  o <> Stopped UB /\ (o = Done ESP_OK -> status_read ESP_OK tr).
Proof.
  intros Hn Hs He Ha Hor.
  assert (exists P : ext -> answer -> Prop,
    (forall f n a, P (fread f n) a -> 0 <= a_ret a <= n /\ length (a_bytes a) = Z.to_nat (a_ret a)) /\
    (sizes_ok s \/ heap_has_room P) /\ answered P tr) as (P & Hread & Hroom & HP).
  { destruct Hor as [Hsz|Hr]; [exists reliable; split; [done|]; by split; [left|]|].
    exists (fun e a => reliable e a /\ roomy e a). split; [by intros ? ? ? []|].
    split; [right; by intros ? []|]. unfold answered in *. rewrite Forall_forall in Ha, Hr |- *. split; auto. }
  pose proof (wpa_exec _ _ _ _ _ _ _ _ (upload_wpa P debug fuel name [] s Hn Hs Hread Hroom) He HP) as Hend.
  split; intros ->; by apply Hend.
Qed.

(** C24: Whatever the card and the network answer, no upload reads or writes
    outside its buffers, provided [fread] keeps to its bounds and either a
    chunk size has been set by an earlier upload (then whatever the heap
    answers) or the heap's largest free block is at least [min_size] = 175
    bytes when it is asked for.  [first_upload_small_heap] is the other case. *)
Theorem upload_memory_safe debug fuel name s tr o s' : nonzero name -> upload_ok s ->
  exec eq (http_upload_file_from_sd debug fuel name) s tr o s' -> answered reliable tr ->
  sizes_ok s \/ answered roomy tr -> o <> Stopped UB.
Proof. intros. by eapply upload_exec. Qed.

(** No upload that the server answered with a status is reported as a success:
    the status is compared with ESP_OK, which is 0. *)
Theorem upload_never_succeeds debug fuel name s tr o s' : nonzero name -> upload_ok s ->
  exec eq (http_upload_file_from_sd debug fuel name) s tr o s' -> answered reliable tr ->
  sizes_ok s \/ answered roomy tr ->
  (forall k a, In (sock_read k 3, a) tr -> status_code a <> Some 0) -> o <> Done ESP_OK.
Proof.
  intros Hn Hs He Ha Hor Hcode ->.
  destruct (proj2 (upload_exec _ _ _ _ _ _ _ Hn Hs He Ha Hor) eq_refl) as (k & a & Hin & Hc).
  by eapply Hcode.
Qed.

(** C20: The bytes handed to the socket for a body reported as sent, from the
    state [http_init] leaves: decoded as chunked coding they are the part's
    header, all that was read of the file, at least its size, and the closing
    boundary.  [fread] keeps to its bounds and no read comes back empty (see
    [short_file_never_ends]); whether the socket takes all the bytes of a write
    is not assumed, and not looked at by the code for the data of a chunk. *)
Theorem body_decodes debug fuel n dst p s tr p' s' : buffers n p -> running_ok n s -> nonzero (fn_base p) ->
  cstr (fn_dst p) = Some dst -> (length dst <= 57)%nat ->
  exec eq (http_write_body debug fuel p) s tr (Done (ESP_OK, p')) s' -> answered reliable tr ->
  Forall (fun t => t <> []) (reads tr) ->
  dechunk (length (reads tr) + 3) (sent tr) =
    Some (MULTIPART_BODY_HEADER dst ++ concat (reads tr) ++ closer, []) /\
  st_size p <= Z.of_nat (length (concat (reads tr))).
Proof.
  intros Hb Hs Hn Hd Hl He Ha Hne.
  pose proof (wpa_exec _ _ _ _ _ _ _ _ (body_wpa reliable ltac:(done) debug fuel n dst p [] s Hb Hs Hn Hd Hl) He Ha
    ltac:(done)) as (_ & _ & Hf).
  destruct (Hf eq_refl) as (pieces & [Hsent Hreads] & Hlen). change ([] ++ tr) with tr in *.
  change (reads tr = pieces) in Hreads. subst pieces.
  rewrite Hsent. split; [|exact Hlen]. change (sent []) with (@nil Z). cbn [app].
  unfold body_bytes. replace (length (reads tr) + 3)%nat with (S (length (reads tr) + 2)) by lia.
  rewrite dechunk_chunk by done. rewrite dechunk_chunks by done.
  change (chunk []) with (chunk [] ++ []). rewrite dechunk_chunk, dechunk_end by done.
  cbn [mbind option_bind]. by rewrite app_nil_r.
Qed.

(** ** A file shorter than its size *)

Lemma empty_chunk_run n p (s : upload) a1 a2 ans : buffers n p -> (3 <= n)%nat -> slen p = 0 ->
  a_ret a1 = 3 -> 0 <= a_ret a2 ->
  exists p', shape p' = shape p /\
    run (http_write_chunk p) s (a1 :: a2 :: ans) =
    ([(sock_write (sock p) (lit "0\r\n"), a1); (sock_write (sock p) crlf, a2)], Done (ESP_OK, p'), s).
Proof.
  intros Hb Hn Hl H1 H2. destruct (buffers_inv n p Hb) as (b & z & Eb & Ez & Lb & Lz).
  destruct (size_line z 0 Lz) as (z' & Ez' & Tz & Lz'); [lia|].
  destruct (append_crlf b []) as (b' & Eb' & Tb & Lb'); [cbn; lia|done|].
  exists (set_slen 0 (set_slen (u32 (0 + 2)) (put_tx b' (put_sz z' p)))). split.
  { rewrite !shape_slen, (shape_put_tx b) by (done || by cbn). by apply (shape_put_sz z). }
  unfold http_write_chunk, _http_write_chunk_size, _http_write_chunk_data, mbind, prog_bind, call.
  rewrite Ez, Hl. cbn [option_bind mbind]. rewrite Ez'. cbn [try bind run]. rewrite Tz.
  change (Z.of_nat (length (fmt_x 0 ++ lit "\r\n"))) with 3. rewrite H1, Z.eqb_refl.
  cbn [mret prog_ret bind]. change (negb (ESP_OK =? ESP_OK)) with false. cbv iota.
  change (snd (tx_buf (put_sz z' p))) with (snd (tx_buf p)). change (slen (put_sz z' p)) with (slen p).
  rewrite Eb, Hl. cbn [option_bind mbind]. change (length []) with (Z.to_nat 0) in Eb'. rewrite Eb'.
  cbn [try bind run slen set_slen]. change (Z.to_nat (u32 (0 + 2))) with (length (@nil Z) + 2)%nat. rewrite Tb.
  rewrite (proj2 (Z.ltb_ge (a_ret a2) 0)) by done. reflexivity.
Qed.

(** When the file ends before the size [stat] gave (it was cut, or reading
    fails), the loop goes on for ever, and sends the end mark of the body in
    every round. *)
Theorem short_file_never_ends fuel flen n p s rd w1 w2 :
  buffers n p -> chunks_ok n s -> 0 < flen ->
  a_ret rd = 0 -> a_bytes rd = [] -> a_ret w1 = 3 -> a_ret w2 = 2 ->
  exists tr, run (file_chunks fuel flen p) s (concat (replicate fuel [rd; w1; w2])) = (tr, Stopped OutOfFuel, s) /\
    sent tr = concat (replicate fuel (chunk [])).
Proof.
  intros Hb Hs Hf Hr Hrb H1 H2. revert p Hb. induction fuel as [|fuel IH]; intros p Hb; [by eexists|].
  destruct (buffers_inv n p Hb) as (b & z & Eb & _ & Lb & _).
  assert (175 <= Z.of_nat n) as Hn
    by (destruct Hs as (? & _ & ?); rewrite min_size_value in *; lia).
  destruct (load_bytes b []) as (b1 & Eb1 & Hl1 & _); [cbn; lia|].
  cbn [file_chunks replicate concat app]. unfold mbind, prog_bind, get, call. cbn [bind run].
  rewrite Eb, Hr. unfold fread_data. rewrite Hrb, take_nil. cbn [option_bind mbind].
  change (Z.to_nat 0) with (length (@nil Z)). unfold mbind in Eb1. rewrite Eb1. cbn [try bind].
  set (p1 := set_slen 0 (put_tx b1 p)).
  assert (shape p1 = shape p) as Hsh by (unfold p1; rewrite shape_slen; by apply (shape_put_tx b)).
  destruct (empty_chunk_run n p1 s w1 w2 []) as (p2 & Hsh2 & Hrun);
    [by eapply shape_buffers|lia|done|done|lia|].
  rewrite (run_bind _ _ _ _ _ _ _ (concat (replicate fuel [rd; w1; w2])) Hrun). cbn [length app drop].
  change (negb (ESP_OK =? ESP_OK)) with false. cbv iota. change (slen p1) with 0. rewrite Z.sub_0_r.
  rewrite (proj2 (Z.ltb_lt 0 flen)) by done. rewrite drop_0.
  destruct (IH p2) as (tr & -> & Htr); [eapply shape_buffers; [|exact Hb]; congruence|].
  eexists. split; [reflexivity|]. rewrite <- Htr. unfold sent. cbn [fmap list_fmap concat fst snd app].
  reflexivity.
Qed.

(** ** Instances *)

Definition demo_state : upload := Upload 4096 4093 (set_mounted true sd_start).

Definition demo_name : list Z := lit "21-03-04.csv".
Definition demo_file : list Z := lit "time,ID\n1,a\n".

Definition whole (t : list Z) : answer := ret_ (Z.of_nat (length t)).
Definition chunk_answers (t : list Z) : list answer :=
  [whole (fmt_x (Z.of_nat (length t)) ++ crlf); whole (t ++ crlf)].

(** The answers of a body whose file comes in two pieces. *)
Definition body_answers : list answer :=
  chunk_answers (MULTIPART_BODY_HEADER (fn_dst_text demo_name)) ++ [ret_ 5] ++
  [ret_bytes 8 (take 8 demo_file)] ++ chunk_answers (take 8 demo_file) ++
  [ret_bytes 4 (drop 8 demo_file)] ++ chunk_answers (drop 8 demo_file) ++
  chunk_answers closer ++ chunk_answers [].

(** Those of an upload that the server answers with 200. *)
Definition upload_answers : list answer :=
  [ret_ 100000; ret_val 0 12; ret_ 64; ret_ 8192; ret_val 0 1; ret_ 3; ret_ 0; ret_ 0; whole MULTIPART_REQUEST] ++
  body_answers ++
  [ret_ 0; ret_bytes 9 (lit "HTTP/1.0 "); ret_bytes 3 (lit "200"); ret_ 0; ret_ 0; ret_ 0; ret_ 0; ret_ 0].

Definition upload_trace : ctrace :=
  fst (fst (run (http_upload_file_from_sd false 10 demo_name) demo_state upload_answers)).

Lemma demo_upload_run :
  run (http_upload_file_from_sd false 10 demo_name) demo_state upload_answers =
  (upload_trace, Done ESP_FAIL, demo_state).
Proof. vm_compute. reflexivity. Qed.

Lemma demo_name_nonzero : nonzero demo_name.
Proof. by apply nonzero_const. Qed.

Lemma demo_upload_ok : upload_ok demo_state.
Proof. split; unfold sd_ok; cbn; lia. Qed.

#[export] Instance reliable_dec e a : Decision (reliable e a).
Proof. unfold reliable. destruct e; apply _. Defined.

#[export] Instance roomy_dec e a : Decision (roomy e a).
Proof. unfold roomy. destruct e; apply _. Defined.

#[export] Instance answered_dec P `{forall e a, Decision (P e a)} tr : Decision (answered P tr).
Proof. unfold answered. apply _. Defined.

Lemma demo_answered : answered reliable upload_trace.
Proof. apply (bool_decide_unpack (answered reliable upload_trace)). vm_compute. exact I. Qed.

Lemma demo_roomy : answered roomy upload_trace.
Proof. apply (bool_decide_unpack (answered roomy upload_trace)). vm_compute. exact I. Qed.

(** The first upload, on a heap whose largest block is too small for the header
    of the part: the sizes stay as they are at the start, no byte of the header
    is printed into the buffer, and what malloc left in it is then printed as a
    text (here it holds no NUL). *)
Theorem first_upload_small_heap :
  snd (fst (run (http_upload_file_from_sd false 10 demo_name) (Upload 4096 0 (set_mounted true sd_start))
    ([ret_ 100; ret_val 0 12; ret_bytes 64 (replicate 4096 255)] ++ drop 3 upload_answers))) = Stopped UB.
Proof. vm_compute. reflexivity. Qed.

Lemma upload_memory_safe_witness : @Done Z ESP_FAIL <> Stopped UB.
Proof.
  apply (upload_memory_safe false 10 demo_name demo_state upload_trace _ demo_state);
    [apply demo_name_nonzero|apply demo_upload_ok|exact (run_exec _ _ _ _ _ _ demo_upload_run)|apply demo_answered
    |right; apply demo_roomy].
Defined.

Lemma demo_status k a : In (sock_read k 3, a) upload_trace -> status_code a <> Some 0.
Proof.
  assert (Forall (fun c => match fst c with sock_read _ 3 => status_code (snd c) = Some 200 | _ => True end) upload_trace) as H
    by (vm_compute; repeat constructor).
  intros Hin. rewrite Forall_forall in H. apply list_elem_of_In, H in Hin. cbn in Hin. by rewrite Hin.
Qed.

Lemma upload_never_succeeds_witness : @Done Z ESP_FAIL <> Done ESP_OK.
Proof.
  apply (upload_never_succeeds false 10 demo_name demo_state upload_trace _ demo_state);
    [apply demo_name_nonzero|apply demo_upload_ok|exact (run_exec _ _ _ _ _ _ demo_upload_run)|apply demo_answered
    |right; apply demo_roomy|exact demo_status].
Defined.

Definition demo_poster : http_poster_t :=
  HttpPoster HOSTNAME PORT demo_name (resize SD_FILENAME_LENGTH 0 (sd_path demo_name))
    (resize SERVER_FILENAME_LEN 0 (fn_dst_text demo_name)) 0 12 3
    (8192, Some (replicate CHUNK_SZ_STR_LEN 0)) (64, Some (replicate 4096 0)) 0.

Definition body_run := run (http_write_body false 10 demo_poster) demo_state body_answers.
Definition body_trace : ctrace := fst (fst body_run).
Definition body_end : http_poster_t :=
  match snd (fst body_run) with Done (_, p) => p | _ => demo_poster end.

Lemma body_run_eq :
  run (http_write_body false 10 demo_poster) demo_state body_answers = (body_trace, Done (ESP_OK, body_end), demo_state).
Proof. vm_compute. reflexivity. Qed.

Lemma demo_poster_ok : buffers 4096 demo_poster /\ running_ok 4096 demo_state.
Proof. repeat split; vm_compute; congruence. Qed.

Lemma body_answered : answered reliable body_trace.
Proof. apply (bool_decide_unpack (answered reliable body_trace)). vm_compute. exact I. Qed.

Lemma body_reads : reads body_trace = [take 8 demo_file; drop 8 demo_file].
Proof. vm_compute. reflexivity. Qed.

Lemma demo_dst : cstr (fn_dst demo_poster) = Some (fn_dst_text demo_name) /\
  (length (fn_dst_text demo_name) <= 57)%nat.
Proof. split; [vm_compute; reflexivity|apply Nat.leb_le; vm_compute; reflexivity]. Qed.

Lemma body_exec :
  exec eq (http_write_body false 10 demo_poster) demo_state body_trace (Done (ESP_OK, body_end)) demo_state.
Proof. exact (run_exec _ _ _ _ _ _ body_run_eq). Qed.

Lemma body_reads_ok : Forall (fun t => t <> []) (reads body_trace).
Proof.
  rewrite body_reads. apply Forall_cons_2; [vm_compute; discriminate|].
  apply Forall_cons_2; [vm_compute; discriminate|apply Forall_nil_2].
Qed.

Lemma body_decodes_witness :
  dechunk (2 + 3) (sent body_trace) =
    Some (MULTIPART_BODY_HEADER (fn_dst_text demo_name) ++ concat [take 8 demo_file; drop 8 demo_file] ++ closer, []).
Proof.
  pose proof (body_decodes false 10 4096 (fn_dst_text demo_name) demo_poster demo_state body_trace body_end demo_state
    (proj1 demo_poster_ok) (proj2 demo_poster_ok) demo_name_nonzero (proj1 demo_dst) (proj2 demo_dst)
    body_exec body_answered body_reads_ok) as [H _].
  rewrite body_reads in H. exact H.
Defined.

Lemma short_file_never_ends_witness :
  exists tr, run (file_chunks 3 12 demo_poster) demo_state
      (concat (replicate 3 [ret_ 0; ret_ 3; ret_ 2])) = (tr, Stopped OutOfFuel, demo_state) /\
    sent tr = concat (replicate 3 (chunk [])).
Proof.
  apply (short_file_never_ends 3 12 4096 demo_poster demo_state (ret_ 0) (ret_ 3) (ret_ 2)
    (proj1 demo_poster_ok) (proj1 (proj2 demo_poster_ok))); reflexivity.
Defined.
