(* ===== verification/TimeIf.v ===== *)
(** * The clock (time_if.c)

    The wall clock comes from the SNTP client of lwIP through [time]; between
    two queries it is kept up with the processor's [clock].  On the ESP32
    [time_t] is a signed and [clock_t] an unsigned number of 32 bits. *)

From S2P Require Import Prelude CMem Ext WifiManager.

Local Open Scope Z_scope.

Definition NTP_WIFI_CONNECTED_BIT : Z := BIT 0.     (* WIFI_CONNECTED_BIT *)
Definition GOT_TS_BIT : Z := BIT 1.
Definition MS_BETWEEN_NTP_UPDATE : Z := 600000.
Definition SEC_JAN1_2018 : Z := 1514764800.
Definition retry_count : Z := 25.

Record clocks := Clocks { utc_time : Z; ms_active : Z }.

Abbreviation tprog := (cprog clocks).

Definition clocks_start : clocks := Clocks 0 0.
Definition set_utc v s := Clocks v (ms_active s).
Definition set_ms v s := Clocks (utc_time s) v.

Definition SNTP_time_is_set : tprog unit :=
  call_ (xEventGroupWaitBits NTP_EG GOT_TS_BIT false true None).

(** [while (now < SEC_JAN1_2018 && ++retry < retry_count)] *)
Fixpoint sntp_tries (fuel : nat) (wait_seconds now retry : Z) : tprog Z :=
  match fuel with
  | O => Stop OutOfFuel
  | S fuel =>
      if Z.ltb now SEC_JAN1_2018 then
        let retry := retry + 1 in
        if Z.ltb retry retry_count then
          call_ (vTaskDelay (wait_seconds * 1000 / portTICK_PERIOD_MS));;
          a ← call time;
          sntp_tries fuel wait_seconds (s32 (a_ret a)) retry
        else mret now
      else mret now
  end.

(** [now] is compared as an unsigned number after the loop. *)
Definition _sntp_obtain_time (wait_seconds : Z) : tprog Z :=
  now ← sntp_tries 26 wait_seconds 0 0;
  when (Z.ltb SEC_JAN1_2018 (u32 now)) (call_ (xEventGroupSetBits NTP_EG GOT_TS_BIT));;
  mret now.

Definition time_gmtime : tprog Z :=
  a ← call clock;
  let current_ms := u32 (a_ret a) in
  ms ← get ms_active;
  utc ← get utc_time;
  if Z.ltb MS_BETWEEN_NTP_UPDATE (u32 (current_ms - ms)) || Z.ltb (u32 utc) SEC_JAN1_2018 then
    t ← _sntp_obtain_time 2;
    modify (set_utc t);;
    a ← call clock;
    modify (set_ms (u32 (a_ret a)));;
    utc ← get utc_time;
    if Z.ltb utc 0 then ms ← get ms_active; mret (s32 ms) else mret utc
  else mret (s32 (u32 utc + u32 (current_ms - ms) / 1000)).

Definition sntp_wifi_connected : tprog unit := call_ (xEventGroupSetBits NTP_EG NTP_WIFI_CONNECTED_BIT).

Definition SNTP_Initialize : tprog Z :=
  call_ (xEventGroupCreate NTP_EG);;
  call_ (xEventGroupClearBits NTP_EG (Z.lor NTP_WIFI_CONNECTED_BIT GOT_TS_BIT));;
  wifi_manager_wait_internet_access;;
  call_ sntp_stop;; call_ sntp_setoperatingmode_poll;;
  call_ (sntp_setservername 0 (lit "pool.ntp.org"));;
  call_ (sntp_setservername 1 (lit "north-america.pool.ntp.org"));;
  call_ (sntp_setservername 2 (lit "us.pool.ntp.org"));;
  call_ (sntp_setservername 3 (lit "time-a-g-nist.gov"));;
  call_ (sntp_setservername 4 (lit "129.6.15.29"));;
  call_ sntp_init;;
  call_ (setenv_tz (lit "Etc/GMT"));; call_ tzset;;
  now ← call time;
  call_ (localtime_r (s32 (a_ret now)));;
  now ← _sntp_obtain_time 2;
  mret (if Z.ltb (u32 now) SEC_JAN1_2018 then -1 else 0).

(** ** Asking for the time *)

(** The times answered by a sequence of tries, as [time_t]. *)
Definition answered_times (tries : list (answer * answer)) : list Z := (fun c => s32 (a_ret (snd c))) <$> tries.

Definition tries_trace (wait_seconds : Z) (tries : list (answer * answer)) : ctrace :=
  concat ((fun c => [(vTaskDelay (wait_seconds * 1000 / portTICK_PERIOD_MS), fst c); (time, snd c)]) <$> tries).

Definition unset (t : Z) : Prop := t < SEC_JAN1_2018.

(** The tries end at the first time that is set, after 24 in any case. *)
Definition tried (tries : list (answer * answer)) (now : Z) : Prop :=
  (length tries <= 24)%nat /\
  now = default 0 (last (answered_times tries)) /\
  Forall unset (removelast (answered_times tries)) /\
  (unset now -> length tries = 24%nat).

Lemma answered_times_snoc tries a b :
  answered_times (tries ++ [(a, b)]) = answered_times tries ++ [s32 (a_ret b)].
Proof. unfold answered_times. by rewrite fmap_app. Qed.

Lemma sntp_tries_wpa fuel wait P past h s :
  let now := default 0 (last (answered_times past)) in
  (fuel + length past = 26)%nat -> (length past <= 24)%nat ->
  Forall unset (removelast (answered_times past)) ->
  wpa P (fun h' o s' => exists tries now', o = Done now' /\ s' = s /\
           h' = h ++ tries_trace wait tries /\ tried (past ++ tries) now')
    (sntp_tries fuel wait now (Z.of_nat (length past))) h s.
Proof.
  cbv zeta. revert past h. induction fuel as [|fuel IH]; intros past h Hf Hl Hu; [lia|].
  cbn [sntp_tries]. set (now := default 0 _). destruct (Z.ltb_spec now SEC_JAN1_2018) as [Hn|Hn].
  - destruct (Z.ltb_spec (Z.of_nat (length past) + 1) retry_count) as [Hr|Hr]; unfold retry_count in Hr.
    + unfold mbind, prog_bind, call_, call. cbn [bind wpa]. intros a _ b _.
      assert (s32 (a_ret b) = default 0 (last (answered_times (past ++ [(a, b)])))) as ->
        by by rewrite answered_times_snoc, last_snoc.
      replace (Z.of_nat (length past) + 1) with (Z.of_nat (length (past ++ [(a, b)])))
        by (rewrite length_app; cbn [length]; lia).
      eapply wpa_mono; [|apply IH; rewrite ?length_app; cbn [length]; try lia].
      * intros h' o s' (tries & now' & -> & -> & -> & Ht). exists ((a, b) :: tries), now'.
        split; [done|]. split; [done|]. split; [|by rewrite <- app_assoc in Ht].
        unfold tries_trace. rewrite fmap_cons. cbn [concat fst snd]. by rewrite <- !app_assoc.
      * rewrite answered_times_snoc, removelast_last.
        unfold now in Hn. clear - Hu Hn. induction (answered_times past) as [|x l _] using rev_ind; [constructor|].
        rewrite removelast_last in Hu. rewrite last_snoc in Hn. apply Forall_app. auto.
    + exists [], now. split; [done|]. split; [done|]. split; [by rewrite app_nil_r|].
      rewrite app_nil_r. repeat split; auto; lia.
  - exists [], now. split; [done|]. split; [done|]. split; [by rewrite app_nil_r|].
    rewrite app_nil_r. repeat split; auto; unfold unset; lia.
Qed.

(** C39: Asking for the time ends: at the first time answered that is not before
    1514764800 (the first second of 2018), or after 24 tries with the last one
    (the comment of the function says 10).  The others are told that the time is
    set exactly when it is later than that second, or negative, as after 2038;
    for that second itself the loop ends and nobody is told. *)
Theorem obtain_time_ends wait s tr o s' :
  exec eq (_sntp_obtain_time wait) s tr o s' -> o <> Running ->
  exists tries now, o = Done now /\ s' = s /\ tried tries now /\
    exists a, tr = tries_trace wait tries ++
      (if Z.ltb SEC_JAN1_2018 (u32 now) then [(xEventGroupSetBits NTP_EG GOT_TS_BIT, a)] else []).
Proof.
  intros He Ho.
  assert (wpa (fun _ _ => True) (fun h' o s' => exists tries now, o = Done now /\ s' = s /\ tried tries now /\
    exists a, h' = tries_trace wait tries ++
      (if Z.ltb SEC_JAN1_2018 (u32 now) then [(xEventGroupSetBits NTP_EG GOT_TS_BIT, a)] else []))
    (_sntp_obtain_time wait) [] s) as Hw.
  { unfold _sntp_obtain_time, mbind, prog_bind. apply wpa_bind.
    eapply wpa_mono; [|apply (sntp_tries_wpa 26 wait _ [] [] s); [done|cbn; lia|constructor]].
    intros h [now'|r|] s1 (tries & now & [=] & -> & -> & Ht). subst now'. cbn [app] in *. apply wpa_bind.
    destruct (Z.ltb _ (u32 now)) eqn:E; cbn [when call_ wpa mret prog_ret].
    - intros a _. exists tries, now. rewrite E. split; [done|]. split; [done|]. split; [exact Ht|]. by exists a.
    - exists tries, now. rewrite E. split; [done|]. split; [done|]. split; [exact Ht|]. exists (ret_ 0). by rewrite app_nil_r. }
  exact (wpa_exec _ _ _ _ _ _ _ _ Hw He ltac:(by apply Forall_true) Ho).
Qed.

(** Within ten minutes of an update the time is the stored one and the seconds
    the processor counted since, also across the wrap of its counter, and
    nobody is asked. *)
Theorem gmtime_between_updates s a e ans :
  SEC_JAN1_2018 <= utc_time s -> utc_time s + 600 < 2 ^ 31 ->
  0 <= e <= MS_BETWEEN_NTP_UPDATE -> u32 (a_ret a) = u32 (ms_active s + e) ->
  run time_gmtime s (a :: ans) = ([(clock, a)], Done (utc_time s + e / 1000), s).
Proof.
  intros Hu Hu2 He Ha. unfold MS_BETWEEN_NTP_UPDATE in *.
  unfold time_gmtime, mbind, prog_bind, call, get. cbn [bind run]. rewrite Ha.
  assert (u32 (u32 (ms_active s + e) - ms_active s) = e) as ->.
  { unfold uwrap. rewrite Zminus_mod_idemp_l. replace (ms_active s + e - ms_active s) with e by lia.
    apply Z.mod_small. lia. }
  unfold SEC_JAN1_2018 in *. rewrite (uwrap_small 32 (utc_time s)) by lia. unfold MS_BETWEEN_NTP_UPDATE.
  rewrite (proj2 (Z.ltb_ge _ _)) by lia. rewrite (proj2 (Z.ltb_ge _ _)) by lia. cbn [orb run mret prog_ret].
  assert (0 <= e / 1000 <= 600) by (split; [apply Z.div_pos; lia|apply Z.div_le_upper_bound; lia]).
  by rewrite swrap_small by lia.
Qed.

(** ** Instances *)

(** The server answers at the third try. *)
Definition demo_tries : list (answer * answer) :=
  [(ret_ 0, ret_ 5); (ret_ 0, ret_ 7); (ret_ 0, ret_ 1600000000)].

Definition demo_tries_trace : ctrace :=
  tries_trace 2 demo_tries ++ [(xEventGroupSetBits NTP_EG GOT_TS_BIT, ret_ 2)].

Lemma obtain_time_ends_witness :
  exists tries now, @Done Z 1600000000 = Done now /\ clocks_start = clocks_start /\ tried tries now /\
    exists a, demo_tries_trace = tries_trace 2 tries ++
      (if Z.ltb SEC_JAN1_2018 (u32 now) then [(xEventGroupSetBits NTP_EG GOT_TS_BIT, a)] else []).
Proof.
  apply (obtain_time_ends 2 clocks_start demo_tries_trace _ clocks_start); [|done].
  apply (run_exec _ _ (concat ((fun c => [fst c; snd c]) <$> demo_tries) ++ [ret_ 2])). vm_compute. reflexivity.
Defined.

(** The counter wrapped a second before the call. *)
Lemma gmtime_between_updates_witness :
  run time_gmtime (Clocks 1600000000 (2 ^ 32 - 1000)) [ret_ 1500] =
  ([(clock, ret_ 1500)], Done 1600000002, Clocks 1600000000 (2 ^ 32 - 1000)).
Proof.
  apply (gmtime_between_updates (Clocks 1600000000 (2 ^ 32 - 1000)) (ret_ 1500) 2500); cbn;
    [unfold SEC_JAN1_2018; lia|lia|unfold MS_BETWEEN_NTP_UPDATE; lia|reflexivity].
Defined.
