(* ===== verification/Sensors.v ===== *)
(** * The humidity and gas sensors (hdc1080_if.c, mics4514_if.c)

    The HDC1080 is read over I2C; its raw numbers become degrees and percent in
    double precision.  The MICS4514 is read through the ADC, 64 samples for
    each of its two channels. *)

From Stdlib Require Import SpecFloat.
From S2P Require Import Prelude CMem Ext Float32.

Local Open Scope Z_scope.

Section sensors.
Context {S : Type}.

(** ** HDC1080 *)

Definition I2C_NUM_1 : Z := 1.
Definition I2C_MASTER_SCL_GPIO : Z := 27.
Definition I2C_MASTER_SDA_GPIO : Z := 26.
Definition I2C_MASTER_FREQ_HZ : Z := 100000.
Definition HDC1080_CONF_COMB : Z := Z.shiftl 1 12.
Definition HDC1080_DEV_ADDR : Z := 64.
Definition HDC1080_CONF_ADDR : Z := 2.
Definition HDC1080_TEMP_REG : Z := 0.
Definition ACK_CHECK_EN : Z := 1.
Definition ACK_VAL : Z := 0.
Definition NACK_VAL : Z := 1.
Definition I2C_MASTER_WRITE : Z := 0.
Definition I2C_MASTER_READ : Z := 1.

Definition i2c_ticks : Z := 1000 / portTICK_PERIOD_MS.

Definition HDC1080_Initialize : cprog S Z :=
  let hdc1080_conf := Z.lor 0 HDC1080_CONF_COMB in
  call_ (i2c_param_config I2C_NUM_1 I2C_MASTER_SDA_GPIO I2C_MASTER_SCL_GPIO I2C_MASTER_FREQ_HZ);;
  call_ (i2c_driver_install I2C_NUM_1);;
  c ← call i2c_cmd_link_create;
  let cmd := a_ret c in
  call_ (i2c_master_start cmd);;
  call_ (i2c_master_write_byte cmd (Z.lor (Z.shiftl HDC1080_DEV_ADDR 1) I2C_MASTER_WRITE) ACK_CHECK_EN);;
  call_ (i2c_master_write_byte cmd HDC1080_CONF_ADDR ACK_CHECK_EN);;
  call_ (i2c_master_write_byte cmd (Z.shiftr hdc1080_conf 8) ACK_CHECK_EN);;
  call_ (i2c_master_write_byte cmd (Z.land hdc1080_conf 255) ACK_CHECK_EN);;
  call_ (i2c_master_stop cmd);;
  ret ← call (i2c_master_cmd_begin I2C_NUM_1 cmd i2c_ticks);
  call_ (i2c_cmd_link_delete cmd);;
  mret (a_ret ret).

(** [((double) (msb * 256 + lsb) / 0x10000) * 165 - 40], [... * 100] *)
Definition fraction (msb lsb : Z) : float64 := f64_div (f64_of_Z (msb * 256 + lsb)) (f64_of_Z 65536).
Definition hdc_temp (msb lsb : Z) : float64 :=
  f64_sub (f64_mul (fraction msb lsb) (f64_of_Z 165)) (f64_of_Z 40).
Definition hdc_hum (msb lsb : Z) : float64 := f64_mul (fraction msb lsb) (f64_of_Z 100).

(** The four bytes read; what is not answered is whatever the array held. *)
Definition data_byte (a : answer) (i : nat) : Z := u8 (nth i (a_bytes a) 0).

(** [HDC1080_Poll (&temp, &hum)]: the error and what the two variables hold
    then; [vars] is what they held before. *)
Definition HDC1080_Poll (vars : float64 * float64) : cprog S (Z * (float64 * float64)) :=
  c ← call i2c_cmd_link_create;
  let cmd := a_ret c in
  call_ (i2c_master_start cmd);;
  call_ (i2c_master_write_byte cmd (Z.lor (Z.shiftl HDC1080_DEV_ADDR 1) I2C_MASTER_WRITE) ACK_CHECK_EN);;
  call_ (i2c_master_write_byte cmd HDC1080_TEMP_REG ACK_CHECK_EN);;
  call_ (i2c_master_stop cmd);;
  ret ← call (i2c_master_cmd_begin I2C_NUM_1 cmd i2c_ticks);
  if negb (Z.eqb (a_ret ret) ESP_OK) then mret (a_ret ret, vars)
  else
    call_ (i2c_cmd_link_delete cmd);;
    call_ (vTaskDelay (100 / portTICK_PERIOD_MS));;
    c ← call i2c_cmd_link_create;
    let cmd := a_ret c in
    call_ (i2c_master_start cmd);;
    call_ (i2c_master_write_byte cmd (Z.lor (Z.shiftl HDC1080_DEV_ADDR 1) I2C_MASTER_READ) ACK_CHECK_EN);;
    call_ (i2c_master_read_byte cmd ACK_VAL);; call_ (i2c_master_read_byte cmd ACK_VAL);;
    call_ (i2c_master_read_byte cmd ACK_VAL);; call_ (i2c_master_read_byte cmd NACK_VAL);;
    call_ (i2c_master_stop cmd);;
    ret ← call (i2c_master_cmd_begin I2C_NUM_1 cmd i2c_ticks);
    call_ (i2c_cmd_link_delete cmd);;
    if negb (Z.eqb (a_ret ret) ESP_OK) then mret (a_ret ret, vars)
    else
      mret (a_ret ret, (hdc_temp (data_byte ret 0) (data_byte ret 1), hdc_hum (data_byte ret 2) (data_byte ret 3))).

(** ** MICS4514 *)

Definition GPIO_MICS_ENABLE : Z := 33.
Definition GPIO_MICS_HEATER : Z := 32.
Definition MICS_GPIO_OUTPUT_PIN_SEL : Z := Z.lor (Z.shiftl 1 GPIO_MICS_ENABLE) (Z.shiftl 1 GPIO_MICS_HEATER).
Definition NO_OF_SAMPLES : nat := 64.
Definition DEFAULT_VREF : Z := 1100.
Definition ADC_CHANNEL_6 : Z := 6.
Definition ADC_CHANNEL_7 : Z := 7.
Definition ESP_ADC_CAL_VAL_EFUSE_VREF : Z := 0.
Definition ESP_ADC_CAL_VAL_EFUSE_TP : Z := 1.

Definition check_efuse : cprog S unit :=
  call_ (esp_adc_cal_check_efuse ESP_ADC_CAL_VAL_EFUSE_TP);;
  call_ (esp_adc_cal_check_efuse ESP_ADC_CAL_VAL_EFUSE_VREF).

Definition MICS4514_GPIOEnable : cprog S unit := call_ (gpio_config MICS_GPIO_OUTPUT_PIN_SEL).
Definition MICS4514_Enable : cprog S unit := call_ (gpio_set_level GPIO_MICS_ENABLE 0).
Definition MICS4514_Disable : cprog S unit := call_ (gpio_set_level GPIO_MICS_ENABLE 1).
Definition MICS4514_HeaterEnable : cprog S unit := call_ (gpio_set_level GPIO_MICS_HEATER 1).
Definition MICS4514_HeaterDisable : cprog S unit := call_ (gpio_set_level GPIO_MICS_HEATER 0).

Definition MICS4514_Initialize : cprog S unit :=
  check_efuse;;
  call_ adc1_config_width;;
  call_ (adc1_config_channel_atten ADC_CHANNEL_6);;
  call_ (adc1_config_channel_atten ADC_CHANNEL_7);;
  call_ calloc_adc_chars;;
  call_ (esp_adc_cal_characterize DEFAULT_VREF);;
  MICS4514_GPIOEnable;;
  MICS4514_Disable.

(** The sums are 64-bit numbers, which 64 readings of [int] cannot exceed. *)
Fixpoint mics_samples (n : nat) (ch6 ch7 : Z) : cprog S (Z * Z) :=
  match n with
  | O => mret (ch6, ch7)
  | Datatypes.S n =>
      a ← call (adc1_get_raw ADC_CHANNEL_6);
      b ← call (adc1_get_raw ADC_CHANNEL_7);
      mics_samples n (ch6 + a_ret a) (ch7 + a_ret b)
  end.

(** [MICS4514_Poll (&ox_val, &red_val)] *)
Definition MICS4514_Poll : cprog S (Z * Z) :=
  '(ch6, ch7) ← mics_samples NO_OF_SAMPLES 0 0;
  mret (s32 (Z.quot ch6 (Z.of_nat NO_OF_SAMPLES)), s32 (Z.quot ch7 (Z.of_nat NO_OF_SAMPLES))).

End sensors.

(** ** The conversion to degrees and percent *)

Lemma f64_format : 1 < prec64 < emax64.
Proof. unfold prec64, emax64. lia. Qed.

Lemma log2_range n k : 0 < n < 2 ^ k -> 0 < k -> 0 <= Z.log2 n < k.
Proof. intros Hn Hk. split; [apply Z.log2_nonneg|]. apply Z.log2_lt_pow2; lia. Qed.

Lemma exp_ok_64 n : 0 < n < 2 ^ 53 -> exp_ok prec64 emax64 n (-16).
Proof.
  intros Hn. pose proof (log2_range n 53 Hn). unfold exp_ok, SpecFloat.emin, prec64, emax64. lia.
Qed.

(** A raw number over 65536, times a whole number. *)
Lemma scaled_exact raw k : 0 < raw < 65536 -> 0 < k < 256 ->
  f64_mul (f64_div (f64_of_Z raw) (f64_of_Z 65536)) (f64_of_Z k) = exact_at prec64 false (raw * k) (-16).
Proof.
  intros Hr Hk. change 65536 with (2 ^ 16) in *.
  rewrite (f64_of_Z_exact raw), (f64_of_Z_exact k) by lia.
  assert (f64_of_Z (2 ^ 16) = exact_at prec64 false (2 ^ 16) 0) as -> by reflexivity.
  pose proof (log2_range raw 16 Hr). change (exact_in prec64 raw) with (exact_at prec64 false raw 0).
  unfold f64_div. rewrite (div_pow2 _ _ f64_format raw 0 16);
    [|change (2 ^ prec64) with (2 ^ 53); lia|unfold prec64; lia|apply exp_ok_64; lia
     |unfold SpecFloat.emin, prec64, emax64; lia].
  change (exact_in prec64 k) with (exact_at prec64 false k 0). unfold f64_mul.
  apply (mul_exact_at _ _ f64_format raw k (0 - 16) 0); change (2 ^ prec64) with (2 ^ 53); [lia|lia|nia|].
  apply exp_ok_64. nia.
Qed.

(** The conversions make no rounding error: the temperature is exactly
    raw * 165 / 65536 - 40, the humidity raw * 100 / 65536. *)
Lemma readings_exact msb lsb : 0 <= msb < 256 -> 0 <= lsb < 256 ->
  let raw := msb * 256 + lsb in
  hdc_temp msb lsb = f64_dyadic (raw * 165 - 40 * 65536) (-16) /\
  hdc_hum msb lsb = f64_dyadic (raw * 100) (-16).
Proof.
  intros Hm Hl raw. unfold hdc_temp, hdc_hum, fraction. fold raw.
  destruct (decide (raw = 0)) as [->|Hr]; [split; vm_compute; reflexivity|].
  assert (0 < raw < 65536) as Hraw by (unfold raw in *; lia).
  rewrite !scaled_exact by lia. split.
  - assert (f64_of_Z 40 = exact_at prec64 false (40 * 65536) (-16)) as -> by reflexivity.
    apply (sub_exact_at _ _ f64_format); change (2 ^ prec64) with (2 ^ 53); [lia|lia|].
    intros Hne. apply exp_ok_64. lia.
  - unfold f64_dyadic. rewrite <- (Z.mul_1_r (raw * 100)) at 2. rewrite <- (Z.pow_0_r 2).
    symmetry. apply (normalize_exact_at _ _ f64_format false (raw * 100) (-16) 0); change (2 ^ prec64) with (2 ^ 53); [lia|lia|].
    apply exp_ok_64. lia.
Qed.

Lemma data_byte_range a i : 0 <= data_byte a i < 256.
Proof. by apply uwrap_range. Qed.

(** C40: A measurement that returns ESP_OK gives exactly the temperature and
    humidity of the four bytes read; any other leaves the caller's variables as
    they were. *)
Theorem hdc_poll_correct {S} vars (s : S) tr r v s' :
  exec eq (HDC1080_Poll vars) s tr (Done (r, v)) s' ->
  (r <> ESP_OK /\ v = vars) \/
  (r = ESP_OK /\ exists cmd a, In (i2c_master_cmd_begin I2C_NUM_1 cmd i2c_ticks, a) tr /\
     v = (f64_dyadic ((data_byte a 0 * 256 + data_byte a 1) * 165 - 40 * 65536) (-16),
          f64_dyadic ((data_byte a 2 * 256 + data_byte a 3) * 100) (-16))).
Proof.
  intros He.
  assert (wpa (fun _ _ => True) (ending (fun h '(r, v) (_ : S) =>
    (r <> ESP_OK /\ v = vars) \/
    (r = ESP_OK /\ exists cmd a, In (i2c_master_cmd_begin I2C_NUM_1 cmd i2c_ticks, a) h /\
       v = (f64_dyadic ((data_byte a 0 * 256 + data_byte a 1) * 165 - 40 * 65536) (-16),
            f64_dyadic ((data_byte a 2 * 256 + data_byte a 3) * 100) (-16))))) (HDC1080_Poll vars) [] s) as Hw.
  { unfold HDC1080_Poll, mbind, prog_bind, call, call_. cbn [bind wpa].
    intros a1 _ a2 _ a3 _ a4 _ a5 _ a6 _. destruct (Z.eqb_spec (a_ret a6) ESP_OK) as [_|E6]; cbn [negb].
    2:{ left. done. }
    cbn [bind wpa]. intros a7 _ a8 _ a9 _ a10 _ a11 _ a12 _ a13 _ a14 _ a15 _ a16 _ a17 _ a18 _.
    destruct (Z.eqb_spec (a_ret a17) ESP_OK) as [E17|E17]; cbn [negb]; [|left; done].
    right. split; [exact E17|]. exists (a_ret a9), a17. split.
    - apply in_or_app. left. apply in_or_app. right. by left.
    - destruct (readings_exact (data_byte a17 0) (data_byte a17 1)) as [-> _]; [apply data_byte_range..|].
      destruct (readings_exact (data_byte a17 2) (data_byte a17 3)) as [_ ->]; [apply data_byte_range..|]. done. }
  exact (wpa_exec _ _ _ _ _ _ _ _ Hw He ltac:(by apply Forall_true) ltac:(done)).
Qed.

(** A measurement that cannot be started keeps its I2C command list. *)
Theorem hdc_failure_leaks {S} vars (s : S) c a1 a2 a3 a4 ret :
  a_ret ret <> ESP_OK ->
  exists tr, run (HDC1080_Poll vars) s [c; a1; a2; a3; a4; ret] = (tr, Done (a_ret ret, vars), s) /\
    In (i2c_cmd_link_create, c) tr /\ forall cmd a, ~ In (i2c_cmd_link_delete cmd, a) tr.
Proof.
  intros Hr. eexists. unfold HDC1080_Poll, mbind, prog_bind, call, call_. cbn [bind run].
  rewrite (proj2 (Z.eqb_neq _ _)) by done. cbn [negb run mret prog_ret]. split; [done|].
  split; [by left|]. intros cmd a. cbn [In]. intuition discriminate.
Qed.

(** ** The gas sensor *)

Lemma mics_samples_run {S} l6 l7 c6 c7 (s : S) ans : length l6 = length l7 ->
  exists tr, run (mics_samples (length l6) c6 c7) s (concat (zip_with (fun a b => [ret_ a; ret_ b]) l6 l7) ++ ans) =
    (tr, Done (c6 + foldr Z.add 0 l6, c7 + foldr Z.add 0 l7), s) /\
    length tr = length (concat (zip_with (fun a b => [ret_ a; ret_ b]) l6 l7)).
Proof.
  revert l7 c6 c7. induction l6 as [|x l6 IH]; intros [|y l7] c6 c7 Hl; try done.
  - exists []. cbn. by rewrite !Z.add_0_r.
  - injection Hl as Hl. destruct (IH l7 (c6 + x) (c7 + y) Hl) as (tr & Hrun & Htr).
    cbn [length mics_samples zip_with concat app]. unfold mbind, prog_bind, call. cbn [bind run a_ret ret_].
    rewrite Hrun. eexists. split; [by rewrite <- !Z.add_assoc|]. cbn [length]. by rewrite Htr.
Qed.

Lemma average_range l lo hi : Forall (fun x => lo <= x <= hi) l -> (0 < length l)%nat -> 0 <= lo ->
  lo <= Z.quot (foldr Z.add 0 l) (Z.of_nat (length l)) <= hi.
Proof.
  intros Hl Hn Hlo.
  assert (lo * Z.of_nat (length l) <= foldr Z.add 0 l <= hi * Z.of_nat (length l)) as Hs.
  { clear Hn. induction Hl as [|x l Hx _ IH]; [cbn; lia|]. cbn [foldr length]. lia. }
  rewrite Z.quot_div_nonneg by nia.
  split; [apply Z.div_le_lower_bound; lia|apply Z.div_le_upper_bound; lia].
Qed.

(** Polling the gas sensor gives the averages of 64 samples of each channel,
    rounded down; they lie between the smallest and the largest sample. *)
Theorem mics_poll_average {S} l6 l7 lo hi (s : S) :
  length l6 = NO_OF_SAMPLES -> length l7 = NO_OF_SAMPLES -> 0 <= lo -> hi < 4096 ->
  Forall (fun x => lo <= x <= hi) l6 -> Forall (fun x => lo <= x <= hi) l7 ->
  let ox := foldr Z.add 0 l6 / 64 in let red := foldr Z.add 0 l7 / 64 in
  (exists tr, run MICS4514_Poll s (concat (zip_with (fun a b => [ret_ a; ret_ b]) l6 l7)) = (tr, Done (ox, red), s)) /\
  lo <= ox <= hi /\ lo <= red <= hi.
Proof.
  intros H6 H7 Hlo Hhi F6 F7. unfold NO_OF_SAMPLES in *.
  pose proof (average_range l6 lo hi F6 ltac:(lia) Hlo) as A6.
  pose proof (average_range l7 lo hi F7 ltac:(lia) Hlo) as A7.
  rewrite H6 in A6. rewrite H7 in A7. change (Z.of_nat 64) with 64 in *.
  assert (forall l, Forall (fun x => lo <= x <= hi) l -> 0 <= foldr Z.add 0 l) as Hpos.
  { intros l Hl. induction Hl; cbn; lia. }
  rewrite Z.quot_div_nonneg in A6, A7 by (lia || by apply Hpos). cbv zeta. split; [|done].
  destruct (mics_samples_run l6 l7 0 0 s []) as (tr & Hrun & Htr); [lia|]. exists tr.
  rewrite app_nil_r, H6 in Hrun. unfold MICS4514_Poll, NO_OF_SAMPLES, mbind, prog_bind.
  pose proof (run_bind (fun '(ch6, ch7) => mret (s32 (Z.quot ch6 (Z.of_nat 64)), s32 (Z.quot ch7 (Z.of_nat 64))))
    _ _ _ _ _ _ [] Hrun) as Hb.
  rewrite app_nil_r in Hb. rewrite Hb. cbn [mret prog_ret run]. rewrite app_nil_r, !Z.add_0_l.
  change (Z.of_nat 64) with 64. rewrite !Z.quot_div_nonneg by (lia || by apply Hpos).
  by rewrite !swrap_small by lia.
Qed.

(** ** Instances *)

Definition hdc_answers : list answer :=
  repeat (ret_ 0) 16 ++ [ret_bytes 0 [102; 102; 128; 0]; ret_ 0].

Definition hdc_run := run (HDC1080_Poll (S := unit) (f64_of_Z 0, f64_of_Z 0)) tt hdc_answers.

(** The raw temperature 0x6666 is 25.9997..., the humidity 50 percent. *)
Lemma hdc_poll_correct_witness :
  exists v, snd (fst hdc_run) = Done (ESP_OK, v) /\
  ((ESP_OK <> ESP_OK /\ v = (f64_of_Z 0, f64_of_Z 0)) \/
   (ESP_OK = ESP_OK /\ exists cmd a, In (i2c_master_cmd_begin I2C_NUM_1 cmd i2c_ticks, a) (fst (fst hdc_run)) /\
     v = (f64_dyadic ((data_byte a 0 * 256 + data_byte a 1) * 165 - 40 * 65536) (-16),
          f64_dyadic ((data_byte a 2 * 256 + data_byte a 3) * 100) (-16)))).
Proof.
  eexists. split; [vm_compute; reflexivity|].
  apply (hdc_poll_correct (S := unit) (f64_of_Z 0, f64_of_Z 0) tt (fst (fst hdc_run)) _ _ tt).
  apply (run_exec _ _ hdc_answers). vm_compute. reflexivity.
Defined.

Lemma hdc_failure_leaks_witness :
  exists tr, run (HDC1080_Poll (S := unit) (f64_of_Z 0, f64_of_Z 0)) tt
      [ret_ 9; ret_ 0; ret_ 0; ret_ 0; ret_ 0; ret_ 263] = (tr, Done (263, (f64_of_Z 0, f64_of_Z 0)), tt) /\
    In (i2c_cmd_link_create, ret_ 9) tr /\ forall cmd a, ~ In (i2c_cmd_link_delete cmd, a) tr.
Proof.
  apply (hdc_failure_leaks (S := unit) (f64_of_Z 0, f64_of_Z 0) tt (ret_ 9) (ret_ 0) (ret_ 0) (ret_ 0) (ret_ 0) (ret_ 263)).
  discriminate.
Defined.

Lemma mics_poll_average_witness :
  let l6 := repeat 100 63 ++ [163] in let l7 := repeat 200 64 in
  let ox := foldr Z.add 0 l6 / 64 in let red := foldr Z.add 0 l7 / 64 in
  (exists tr, run MICS4514_Poll tt (concat (zip_with (fun a b => [ret_ a; ret_ b]) l6 l7)) = (tr, Done (ox, red), tt)) /\
  100 <= ox <= 200 /\ 100 <= red <= 200.
Proof.
  apply (mics_poll_average (repeat 100 63 ++ [163]) (repeat 200 64) 100 200 tt); try reflexivity; try lia;
    apply Forall_forall; intros x Hx; apply list_elem_of_In in Hx; cbn in Hx; intuition lia.
Defined.
