(* ===== verification/AppUtils.v ===== *)
(** * Application utilities (app_utils.c)

    The device's name, which is its MAC address in hexadecimal, the start of
    the non-volatile storage and the printing of a digest. *)

From S2P Require Import Prelude CMem Printf Ext.

Local Open Scope Z_scope.

Definition SHA256_HASH_LEN : nat := 32.

(** Error codes of nvs.h *)
Definition ESP_ERR_NVS_NO_FREE_PAGES : Z := 4365.      (* 0x110d *)
Definition ESP_ERR_NVS_NEW_VERSION_FOUND : Z := 4368.  (* 0x1110 *)

Record app_vars := App { DEVICE_MAC : list Z }.

Definition app_start : app_vars := App (replicate 13 0).

Abbreviation aprog := (cprog app_vars).

(** ["%02X"] or ["%02x"] for every byte. *)
Definition hex_text (upper : bool) (bytes : list Z) : list Z :=
  concat ((fun b => pad0 2 (if upper then fmt_X b else fmt_x b)) <$> bytes).

(** [vTaskDelete] of the calling task; it does not return. *)
Definition task_fatal_error : aprog unit := call_ vTaskDelete;; Stop OutOfFuel.

Definition mac_bytes (a : answer) : list Z := u8 <$> resize 6 0 (a_bytes a).

Definition APP_Setmac : aprog unit :=
  tmp ← call esp_efuse_mac_get_default;
  update (fun s => b ← strcpy (DEVICE_MAC s) 0 (hex_text true (mac_bytes tmp)); Some (App b)).

Definition APP_Initialize : aprog unit :=
  APP_Setmac;;
  app_desc ← call esp_ota_get_app_description;
  (if Z.eqb (a_ret app_desc) 0 then Stop UB else mret tt);;      (* its version is logged *)
  err ← call nvs_flash_init;
  err ← (if Z.eqb (a_ret err) ESP_ERR_NVS_NO_FREE_PAGES || Z.eqb (a_ret err) ESP_ERR_NVS_NEW_VERSION_FOUND then
           esp_error_check nvs_flash_erase;; call nvs_flash_init
         else mret err);
  if Z.eqb (a_ret err) ESP_OK then mret tt else Stop Abort.

(** The loop of [print_sha256] from its [i]-th byte. *)
Fixpoint print_bytes (i : nat) (image_hash hash_print : list Z) : option (list Z) :=
  match image_hash with
  | [] => Some hash_print
  | b :: image_hash =>
      hash_print ← strcpy hash_print (i * 2) (pad0 2 (fmt_x b));
      print_bytes (S i) image_hash hash_print
  end.

(** The text [print_sha256] logs; the contents of a fresh array do not
    matter. *)
Definition print_sha256 (image_hash : list Z) : option (list Z) :=
  hash_print ← store (replicate (SHA256_HASH_LEN * 2 + 1) 0) (SHA256_HASH_LEN * 2) 0;
  hash_print ← print_bytes 0 (take SHA256_HASH_LEN image_hash) hash_print;
  cstr hash_print.

(** ** Hexadecimal texts *)

(** The bytes a hexadecimal text stands for. *)
Fixpoint unhex (s : list Z) : option (list Z) :=
  match s with
  | [] => Some []
  | [_] => None
  | h :: l :: s =>
      hi ← hex_value h; lo ← hex_value l; bytes ← unhex s; Some ((hi * 16 + lo) :: bytes)
  end.

(** Two digits for a byte. *)
Definition two_digits (upper : bool) (b : Z) : list Z := [digit_char upper (b / 16); digit_char upper (b mod 16)].

Lemma pad_byte (upper : bool) b : 0 <= b < 256 -> pad0 2 (if upper then fmt_X b else fmt_x b) = two_digits upper b.
Proof.
  intros Hb.
  assert (forallb (fun i => let b := Z.of_nat i in
    bool_decide (pad0 2 (fmt_X b) = two_digits true b) && bool_decide (pad0 2 (fmt_x b) = two_digits false b))
    (seq 0 256) = true) as H by (vm_compute; reflexivity).
  rewrite forallb_forall in H. specialize (H (Z.to_nat b)).
  rewrite Z2Nat.id in H by lia. cbv zeta in H. zify_bool.
  assert (In (Z.to_nat b) (seq 0 256)) as Hin by (apply in_seq; lia). apply H, andb_prop in Hin as [H1 H2].
  apply bool_decide_eq_true in H1, H2. by destruct upper.
Qed.

Lemma hex_digit_upper d : 0 <= d < 16 -> hex_value (digit_char true d) = Some d.
Proof.
  intros Hd. unfold hex_value, is_digit, digit_char. destruct (Z.ltb_spec d 10); test_simpl; f_equal; lia.
Qed.

Lemma hex_text_cons upper b bytes : 0 <= b < 256 -> hex_text upper (b :: bytes) = two_digits upper b ++ hex_text upper bytes.
Proof. intros Hb. unfold hex_text. rewrite fmap_cons. cbn [concat]. by rewrite pad_byte. Qed.

(** Reading back the text of bytes. *)
Lemma unhex_hex_text upper bytes : Forall is_byte bytes -> unhex (hex_text upper bytes) = Some bytes.
Proof.
  induction 1 as [|b bytes Hb _ IH]; [done|]. unfold is_byte in Hb. rewrite hex_text_cons by done.
  cbn [two_digits app unhex].
  assert (0 <= b / 16 < 16 /\ 0 <= b mod 16 < 16) as [H1 H2]
    by (split; [split; [apply Z.div_pos; lia|apply Z.div_lt_upper_bound; lia]|apply Z.mod_pos_bound; lia]).
  assert (forall d, 0 <= d < 16 -> hex_value (digit_char upper d) = Some d) as Hd
    by (intros; destruct upper; [by apply hex_digit_upper|by apply hex_digit]).
  rewrite !Hd by done. cbn [mbind option_bind]. rewrite IH. cbn [mbind option_bind]. f_equal. f_equal. pose proof (Z.div_mod b 16 ltac:(lia)). lia.
Qed.

Lemma hex_text_length upper bytes : Forall is_byte bytes -> length (hex_text upper bytes) = (2 * length bytes)%nat.
Proof.
  induction 1 as [|b bytes Hb _ IH]; [done|]. rewrite hex_text_cons by done. rewrite length_app, IH.
  cbn [two_digits length]. lia.
Qed.

Lemma hex_text_nonzero upper bytes : Forall is_byte bytes -> nonzero (hex_text upper bytes).
Proof.
  induction 1 as [|b bytes Hb _ IH]; [constructor|]. unfold is_byte in Hb. rewrite hex_text_cons by done.
  pose proof (digit_char_byte upper (b / 16)) as H1. pose proof (digit_char_byte upper (b mod 16)) as H2.
  assert (0 <= b / 16 < 16 /\ 0 <= b mod 16 < 16) as [? ?]
    by (split; [split; [apply Z.div_pos; lia|apply Z.div_lt_upper_bound; lia]|apply Z.mod_pos_bound; lia]).
  apply nonzero_app; [|done]. constructor; [lia|]. constructor; [lia|constructor].
Qed.

Lemma mac_bytes_ok a : Forall is_byte (mac_bytes a) /\ length (mac_bytes a) = 6%nat.
Proof.
  unfold mac_bytes. split; [|by rewrite length_fmap, length_resize].
  apply Forall_fmap, Forall_true. intros z. by apply (uwrap_range 8).
Qed.

(** ** The device's name *)

(** The name fills its 13 bytes, and the MAC address can be read back from it:
    devices with different addresses have different names. *)
Theorem mac_name_roundtrip s a : length (DEVICE_MAC s) = 13%nat ->
  exists name, run APP_Setmac s [a] = ([(esp_efuse_mac_get_default, a)], Done tt, App (name ++ [0])) /\
    nonzero name /\ unhex name = Some (mac_bytes a).
Proof.
  intros Hl. destruct (mac_bytes_ok a) as [Hb Hn]. exists (hex_text true (mac_bytes a)).
  unfold APP_Setmac, mbind, prog_bind, call, update. cbn [bind run]. unfold strcpy.
  assert (length (hex_text true (mac_bytes a)) = 12%nat) as Ht by by rewrite hex_text_length, Hn.
  rewrite write_some by (rewrite length_app, Ht, Hl; cbn; lia). cbn [option_bind].
  split; [|split; [by apply hex_text_nonzero|by apply unhex_hex_text]].
  rewrite take_0, drop_ge by (rewrite length_app, Ht, Hl; cbn; lia). cbn [app]. by rewrite app_nil_r.
Qed.

(** ** Starting the storage *)

(** The start returns only when the storage is ready, and erases it only when
    its format is not the one of this firmware. *)
Theorem storage_start s tr s' :
  length (DEVICE_MAC s) = 13%nat -> exec eq APP_Initialize s tr (Done tt) s' ->
  exists pre last, tr = pre ++ [(nvs_flash_init, last)] /\ a_ret last = ESP_OK /\
    (forall a, In (nvs_flash_erase, a) tr -> exists b, In (nvs_flash_init, b) pre /\
       (a_ret b = ESP_ERR_NVS_NO_FREE_PAGES \/ a_ret b = ESP_ERR_NVS_NEW_VERSION_FOUND)).
Proof.
  intros Hl He.
  assert (wpa (fun _ _ => True) (fun h o (_ : app_vars) => o = Done tt ->
    exists pre last, h = pre ++ [(nvs_flash_init, last)] /\ a_ret last = ESP_OK /\
      (forall a, In (nvs_flash_erase, a) h -> exists b, In (nvs_flash_init, b) pre /\
         (a_ret b = ESP_ERR_NVS_NO_FREE_PAGES \/ a_ret b = ESP_ERR_NVS_NEW_VERSION_FOUND))) APP_Initialize [] s) as Hw.
  { unfold APP_Initialize, APP_Setmac, esp_error_check, mbind, prog_bind, call, update. cbn [bind wpa].
    intros mac _. destruct (option_bind _ _ _ _) as [s1|]; [|done]. cbn [bind wpa]. intros d _.
    destruct (Z.eqb (a_ret d) 0); cbn [bind wpa mret prog_ret]; [done|]. intros e _.
    destruct (Z.eqb_spec (a_ret e) ESP_ERR_NVS_NO_FREE_PAGES) as [E1|E1];
      [|destruct (Z.eqb_spec (a_ret e) ESP_ERR_NVS_NEW_VERSION_FOUND) as [E2|E2]]; cbn [orb mret prog_ret bind wpa].
    3:{ destruct (Z.eqb_spec (a_ret e) ESP_OK); cbn [mret prog_ret wpa]; [|done]. intros _. eexists. exists e.
        split; [reflexivity|]. split; [done|]. intros a Hin. cbn [app In] in Hin. intuition discriminate. }
    all: intros er _; destruct (Z.eqb (a_ret er) ESP_OK); cbn [bind wpa]; [|done]; intros e2 _;
      destruct (Z.eqb_spec (a_ret e2) ESP_OK); cbn [mret prog_ret wpa]; [|done]; intros _; eexists; exists e2;
      (split; [reflexivity|]); (split; [done|]); intros ? _; exists e;
      (split; [|auto]); apply in_or_app; left; apply in_or_app; right; by left. }
  exact (wpa_exec _ _ _ _ _ _ _ _ Hw He ltac:(by apply Forall_true) ltac:(done) eq_refl).
Qed.

(** ** Printing a digest *)

Lemma print_bytes_spec l i p r : Forall is_byte l -> length p = (i * 2)%nat -> length r = (2 * length l)%nat ->
  print_bytes i l (p ++ r ++ [0]) = Some (p ++ hex_text false l ++ [0]).
Proof.
  intros Hl. revert i p r. induction Hl as [|b l Hb _ IH]; intros i p r Hp Hr.
  - destruct r; [done|discriminate].
  - destruct r as [|c1 [|c2 r]]; cbn [length] in Hr; try lia. unfold is_byte in Hb.
    cbn [print_bytes]. change (fmt_x b) with (if false then fmt_X b else fmt_x b).
    rewrite pad_byte, hex_text_cons by done. unfold strcpy. rewrite <- Hp.
    assert (exists c t, r ++ [0] = c :: t /\ exists r', 0 :: t = r' ++ [0] /\ length r' = length r) as (c & t & Et & r' & Er & Hr').
    { destruct r as [|c r]; cbn [app]; [by exists 0, []; split; [done|exists []]|].
      exists c, (r ++ [0]). split; [done|]. by exists (0 :: r). }
    replace (p ++ (c1 :: c2 :: r) ++ [0]) with (p ++ [c1; c2; c] ++ t) by (cbn [app]; by rewrite Et).
    rewrite write_spec by done. cbn [mbind option_bind].
    replace (p ++ (two_digits false b ++ [0]) ++ t) with ((p ++ two_digits false b) ++ r' ++ [0])
      by (rewrite <- Er, <- !app_assoc; done).
    rewrite IH; [by rewrite <- !app_assoc|rewrite length_app; cbn [two_digits length]; lia|lia].
Qed.

(** A digest is printed as the hexadecimal text of its 32 bytes, within the
    array, and can be read back from it. *)
Theorem sha256_printed hash : Forall is_byte hash -> length hash = SHA256_HASH_LEN ->
  exists text, print_sha256 hash = Some text /\ unhex text = Some hash.
Proof.
  intros Hb Hl. exists (hex_text false hash). split; [|by apply unhex_hex_text]. unfold print_sha256.
  change (store (replicate (SHA256_HASH_LEN * 2 + 1) 0) (SHA256_HASH_LEN * 2) 0)
    with (Some ([] ++ replicate 64 0 ++ [0])). cbn [mbind option_bind].
  rewrite take_ge by lia. rewrite print_bytes_spec; [|done|done|by rewrite Hl].
  cbn [mbind option_bind app]. apply cstr_app. by apply hex_text_nonzero.
Qed.

(** ** Instances *)

Definition demo_mac : answer := ret_bytes 0 [36; 10; 196; 0; 1; 255].

Lemma mac_name_roundtrip_witness :
  exists name, run APP_Setmac app_start [demo_mac] =
    ([(esp_efuse_mac_get_default, demo_mac)], Done tt, App (name ++ [0])) /\
    nonzero name /\ unhex name = Some (mac_bytes demo_mac).
Proof. apply (mac_name_roundtrip app_start demo_mac). reflexivity. Defined.

(** The storage has an old format: it is erased and started again. *)
Definition start_answers : list answer :=
  [demo_mac; ret_ 4096; ret_ ESP_ERR_NVS_NO_FREE_PAGES; ret_ ESP_OK; ret_ ESP_OK].

Definition start_run := run APP_Initialize app_start start_answers.

Lemma storage_start_witness :
  exists pre last, fst (fst start_run) = pre ++ [(nvs_flash_init, last)] /\ a_ret last = ESP_OK /\
    (forall a, In (nvs_flash_erase, a) (fst (fst start_run)) -> exists b, In (nvs_flash_init, b) pre /\
       (a_ret b = ESP_ERR_NVS_NO_FREE_PAGES \/ a_ret b = ESP_ERR_NVS_NEW_VERSION_FOUND)).
Proof.
  apply (storage_start app_start (fst (fst start_run)) (snd start_run)); [reflexivity|].
  apply (run_exec _ _ start_answers). vm_compute. reflexivity.
Defined.

Definition demo_hash : list Z := Z.of_nat <$> seq 100 32.

Lemma sha256_printed_witness : exists text, print_sha256 demo_hash = Some text /\ unhex text = Some demo_hash.
Proof.
  apply (sha256_printed demo_hash); [|reflexivity].
  apply (bool_decide_unpack (Forall is_byte demo_hash)). vm_compute. exact I.
Defined.
