(* ===== verification/Mqtt.v ===== *)
(** * The MQTT client (mqtt_if.c)

    The task connects whenever there is internet; the client library calls the
    event handler: on a connection the device subscribes and publishes where it
    is, a message may start a firmware update or ask for a sign of life.
    Topics, host and the size of the library's buffer are configuration. *)

From S2P Require Import Prelude CMem Ext WifiManager Ota IspInfo AppUtils.

Local Open Scope Z_scope.

(** The statics, with those of the update and the device's name; a client
    handle and a task handle are numbers. *)
Record mqtt := Mqtt {
  client_connected : bool;
  client : Z;
  task_mqtt : Z;
  mq_app : app_vars;
  mq_ota : ota
}.

Abbreviation mprog := (cprog mqtt).

Definition mqtt_start : mqtt := Mqtt false 0 0 app_start (Ota (replicate OTA_FILE_BN_LEN 0)).

Definition set_connected b s := Mqtt b (client s) (task_mqtt s) (mq_app s) (mq_ota s).
Definition set_client c s := Mqtt (client_connected s) c (task_mqtt s) (mq_app s) (mq_ota s).
Definition set_mq_ota o s := Mqtt (client_connected s) (client s) (task_mqtt s) (mq_app s) o.

(** [event->event_id] with the data of the event that is used: the memory
    [topic] and [data] point to, and their lengths. *)
Inductive mqtt_event :=
  | MQTT_EVENT_CONNECTED
  | MQTT_EVENT_DISCONNECTED
  | MQTT_EVENT_SUBSCRIBED
  | MQTT_EVENT_UNSUBSCRIBED
  | MQTT_EVENT_PUBLISHED
  | MQTT_EVENT_DATA (topic : list Z) (topic_len : nat) (data : list Z) (data_len : nat)
  | MQTT_EVENT_ERROR
  | MQTT_EVENT_OTHER.

(** [strtok (s, " ")] on a text: the word and the text after it. *)
Fixpoint skip_blanks (s : list Z) : list Z :=
  match s with
  | c :: s' => if Z.eqb c 32 then skip_blanks s' else s
  | [] => []
  end.

Fixpoint word (s : list Z) : list Z * list Z :=
  match s with
  | [] => ([], [])
  | c :: s' => if Z.eqb c 32 then ([], s') else let '(t, r) := word s' in (c :: t, r)
  end.

Definition strtok_blank (s : list Z) : option (list Z * list Z) :=
  match skip_blanks s with
  | [] => None
  | s' => Some (word s')
  end.

Definition MQTT_Publish_General (topic msg : list Z) (qos : Z) : mprog Z :=
  online ← get client_connected;
  if online : bool then
    c ← get client;
    msg_id ← call (esp_mqtt_client_publish c topic msg qos);
    mret (a_ret msg_id)
  else mret ESP_FAIL.

Definition MQTT_Connect : mprog unit :=
  c ← call esp_mqtt_client_init;
  modify (set_client (a_ret c));;
  c ← get client;
  call_ (esp_mqtt_client_start c);;
  modify (set_connected false).

Section config.
Variables CONFIG_MQTT_ROOT_TOPIC CONFIG_MQTT_DATA_PUB_TOPIC CONFIG_MQTT_SUB_ALL_TOPIC : list Z.
Variable MQTT_BUFFER_SIZE_BYTE : nat.

Definition MQTT_DATA_PUB_TOPIC : list Z := CONFIG_MQTT_ROOT_TOPIC ++ lit "/" ++ CONFIG_MQTT_DATA_PUB_TOPIC.
Definition MQTT_SUB_ALL_TOPIC : list Z := CONFIG_MQTT_ROOT_TOPIC ++ lit "/" ++ CONFIG_MQTT_SUB_ALL_TOPIC.
Definition MQTT_ACK_TOPIC (mac : list Z) : list Z := CONFIG_MQTT_ROOT_TOPIC ++ lit "/ack/" ++ mac.

(** [sprintf] of a topic with the device's name into an array of 64 bytes. *)
Definition topic_text (topic : list Z -> list Z) : mprog (list Z) :=
  dev ← get (fun s => cstr (DEVICE_MAC (mq_app s)));
  mac ← try dev;
  try (b ← strcpy (replicate 64 0) 0 (topic mac); cstr b).

Definition MQTT_Publish_Data (msg : list Z) : mprog Z := MQTT_Publish_General MQTT_DATA_PUB_TOPIC msg 2.

(** The case MQTT_EVENT_CONNECTED; the fuel is for the reception of the page. *)
Definition mqtt_connected (fuel : nat) (this_client : Z) : mprog unit :=
  modify (set_connected true);;
  call_ (esp_mqtt_client_subscribe this_client MQTT_SUB_ALL_TOPIC 2);;
  tmp ← topic_text (fun mac => CONFIG_MQTT_ROOT_TOPIC ++ lit "/" ++ mac);
  call_ (esp_mqtt_client_subscribe this_client tmp 2);;
  tpc ← topic_text MQTT_ACK_TOPIC;
  json_buf ← heap_alloc 512;
  b ← try (b ← snd json_buf; store b 0 0);
  '(_, b) ← http_get_isp_info fuel b 512;
  msg ← try (cstr b);
  MQTT_Publish_General tpc msg 2;;
  call_ (free (fst json_buf)).

(** A message: its first word is the command. *)
Definition mqtt_command (pld : list Z) : mprog unit :=
  match strtok_blank pld with
  | None => mret tt
  | Some (tok, rest) =>
      if Z.eqb (strcmp tok (lit "ota")) 0 then
        match strtok_blank rest with
        | Some (tok, _) =>
            if strstr tok (lit ".bin") is Some _ then
              tmp ← topic_text MQTT_ACK_TOPIC;
              MQTT_Publish_General tmp (lit "ota") 2;;
              zoom mq_ota set_mq_ota (ota_set_filename tok);;
              zoom mq_ota set_mq_ota ota_trigger
            else mret tt
        | None => mret tt
        end
      else if Z.eqb (strcmp tok (lit "ping")) 0 then
        tmp ← topic_text MQTT_ACK_TOPIC;
        MQTT_Publish_General tmp (lit "pong") 2;;
        mret tt
      else mret tt
  end.

Definition mqtt_event_handler (fuel : nat) (this_client : Z) (event : mqtt_event) : mprog Z :=
  (match event with
   | MQTT_EVENT_CONNECTED => mqtt_connected fuel this_client
   | MQTT_EVENT_DISCONNECTED =>
       modify (set_connected false);;
       c ← get client; call_ (esp_mqtt_client_destroy c);;
       wifi_manager_check_connection_async
   | MQTT_EVENT_DATA topic topic_len data data_len =>
       _ ← try (strncpy (replicate 64 0) 0 topic topic_len);
       pld ← try (b ← strncpy (replicate MQTT_BUFFER_SIZE_BYTE 0) 0 data data_len; cstr b);
       mqtt_command pld
   | MQTT_EVENT_ERROR => wifi_manager_check_connection_async
   | _ => mret tt
   end);;
  mret ESP_OK.

(** ** The task *)

Definition mqtt_task_start : mprog unit := wifi_manager_wait_internet_access;; MQTT_Connect.

Definition mqtt_task_round : mprog unit :=
  wifi_manager_wait_disconnect;; wifi_manager_wait_internet_access;; MQTT_Connect.

(** [xTaskCreate] is given the value of [task_mqtt], NULL, not its address. *)
Definition MQTT_Initialize : mprog unit :=
  t ← get task_mqtt;
  when (negb (Z.eqb t 0)) (call_ vTaskDelete);;
  call_ (xTaskCreate (lit "task_mqtt") 4096 1).
End config.

(** ** Words *)

Definition blankless (s : list Z) : Prop := Forall (fun c => c <> 32) s.

Lemma word_blankless w r : blankless w -> word (w ++ 32 :: r) = (w, r) /\ word w = (w, []).
Proof.
  induction 1 as [|c w Hc _ [IH1 IH2]]; [done|]. cbn [app word].
  rewrite (proj2 (Z.eqb_neq c 32)) by done. by rewrite IH1, IH2.
Qed.

Lemma strtok_word w r : blankless w -> w <> [] ->
  strtok_blank (w ++ 32 :: r) = Some (w, r) /\ strtok_blank w = Some (w, []).
Proof.
  intros Hw Hne. destruct (word_blankless w r Hw) as [W1 W2]. destruct w as [|c w]; [done|].
  inversion Hw; subst. unfold strtok_blank. cbn [app skip_blanks].
  rewrite (proj2 (Z.eqb_neq c 32)) by done. by rewrite <- W1, <- W2.
Qed.

(** ** A message that starts an update *)

Section messages.
Variables CONFIG_MQTT_ROOT_TOPIC CONFIG_MQTT_DATA_PUB_TOPIC CONFIG_MQTT_SUB_ALL_TOPIC : list Z.
Variable MQTT_BUFFER_SIZE_BYTE : nat.

Local Abbreviation handler := (mqtt_event_handler CONFIG_MQTT_ROOT_TOPIC CONFIG_MQTT_SUB_ALL_TOPIC MQTT_BUFFER_SIZE_BYTE).
Local Abbreviation ack := (MQTT_ACK_TOPIC CONFIG_MQTT_ROOT_TOPIC).

(** The device has a name, and the topic with it fits. *)
Definition named (mac : list Z) (s : mqtt) : Prop :=
  cstr (DEVICE_MAC (mq_app s)) = Some mac /\ nonzero (ack mac) /\ (length (ack mac) < 64)%nat.

(** The answers of a publication, which is made only when connected. *)
Definition publication (s : mqtt) (topic msg : list Z) (a : answer) : ctrace :=
  if client_connected s then [(esp_mqtt_client_publish (client s) topic msg 2, a)] else [].

Lemma publish_run s topic msg a ans :
  exists r, run (MQTT_Publish_General topic msg 2) s ((snd <$> publication s topic msg a) ++ ans) =
    (publication s topic msg a, Done r, s).
Proof.
  unfold MQTT_Publish_General, publication, mbind, prog_bind, get, call. cbn [bind run].
  destruct (client_connected s); cbn; by eexists.
Qed.

Lemma topic_text_run s mac topic ans : cstr (DEVICE_MAC (mq_app s)) = Some mac ->
  nonzero (topic mac) -> (length (topic mac) < 64)%nat ->
  run (topic_text topic) s ans = ([], Done (topic mac), s).
Proof.
  intros Hm Hn Hl. unfold topic_text, mbind, prog_bind, get. cbn [bind run]. rewrite Hm. cbn [try bind run].
  pose proof (strcpy_room 64 (topic mac) Hn Hl) as E. unfold mbind in E. by rewrite E.
Qed.

(** C31: A message "ota <name>.bin" is acknowledged when connected, and makes the
    name the file of the next update and triggers it; a name that does not fit
    is written past its buffer. *)
Theorem ota_message fuel cl topic topic_len name more mac s pub trig :
  named mac s -> (topic_len <= 64)%nat -> (topic_len <= length topic)%nat ->
  nonzero name -> blankless name -> is_Some (strstr name (lit ".bin")) ->
  (4 + length name < MQTT_BUFFER_SIZE_BYTE)%nat -> length (ota_file_basename (mq_ota s)) = OTA_FILE_BN_LEN ->
  let event := MQTT_EVENT_DATA topic topic_len ((lit "ota " ++ name) ++ more) (4 + length name) in
  let acked := publication s (ack mac) (lit "ota") pub in
  if Nat.ltb (length name) OTA_FILE_BN_LEN then
    exists b, run (handler fuel cl event) s ((snd <$> acked) ++ [trig]) =
      (acked ++ [(xEventGroupSetBits OTA_EG OTA_TRIGGER_OTA_BIT, trig)], Done ESP_OK, set_mq_ota (Ota b) s) /\
      ota_path b = Some (ota_url ++ name)
  else run (handler fuel cl event) s ((snd <$> acked) ++ [trig]) = (acked, Stopped UB, s).
Proof.
  intros (Hm & Hn & Hl) Ht1 Ht2 Hnz Hb Hbin Hbuf Hfile event acked.
  unfold mqtt_event_handler, event.
  destruct (strncpy_some (replicate 64 0) 0 topic topic_len) as [t Et]; [rewrite length_replicate; lia|done|].
  assert (nonzero (lit "ota " ++ name)) as Hpn by (apply nonzero_app; [by apply nonzero_const|done]).
  assert ((b ← strncpy (replicate MQTT_BUFFER_SIZE_BYTE 0) 0 ((lit "ota " ++ name) ++ more) (4 + length name); cstr b)
    = Some (lit "ota " ++ name)) as Ep.
  { replace (4 + length name)%nat with (length (lit "ota " ++ name)) by (rewrite length_app; lit_len; lia).
    apply strncpy_zeros; [done|]. rewrite length_app. lit_len. lia. }
  rewrite Et, Ep. unfold mqtt_command, mbind, prog_bind. cbn [try bind].
  assert (name <> []) as Hne by (intros ->; by destruct Hbin).
  change (lit "ota " ++ name) with (lit "ota" ++ 32 :: name).
  destruct (strtok_word (lit "ota") name) as [-> _]; [apply (bool_decide_unpack (blankless (lit "ota"))); vm_compute; exact I|done|].
  change (Z.eqb (strcmp (lit "ota") (lit "ota")) 0) with true. cbv iota.
  destruct (strtok_word name [] Hb Hne) as [_ ->]. destruct Hbin as [n ->].
  pose proof (topic_text_run s mac ack ((snd <$> acked) ++ [trig]) Hm Hn Hl) as Htt.
  destruct (publish_run s (ack mac) (lit "ota") pub [trig]) as [r Hp]. fold acked in Hp.
  rewrite run_bind_assoc, (run_bind_nil _ _ _ _ _ _ Htt).
  rewrite run_bind_assoc, (run_bind_app _ _ _ _ _ _ _ Hp). rewrite run_bind_assoc.
  pose proof (set_filename_run (mq_ota s) name Hfile Hnz) as Hset.
  assert (forall ans, run (zoom mq_ota set_mq_ota (ota_set_filename name)) s ans =
    let '(tr, o, t) := run (ota_set_filename name) (mq_ota s) ans in (tr, o, set_mq_ota t s)) as Hz
    by (intros ans; by apply zoom_run; [|intros []|]).
  destruct (Nat.ltb (length name) OTA_FILE_BN_LEN).
  - destruct Hset as (b & Hset & _ & Hpath). exists b. split; [|exact Hpath].
    rewrite (run_bind_nil _ _ s [trig] tt (set_mq_ota (Ota b) s)); [reflexivity|].
    rewrite Hz. revert Hset. unfold ota_set_filename, update. cbn [run].
    destruct (_ : option ota); [|done]. by intros [= ->].
  - assert (run (zoom mq_ota set_mq_ota (ota_set_filename name)) s [trig] = ([], Stopped UB, s)) as Hub.
    { rewrite Hz. revert Hset. unfold ota_set_filename, update. cbn [run].
      destruct (_ : option ota); [done|]. intros _. by destruct s. }
    rewrite (run_bind_stop _ _ _ _ _ _ _ Hub). cbv iota. by rewrite app_nil_r.
Qed.

(** ** Publishing *)

(** What the tasks of the device do with the client. *)
Inductive mqtt_step :=
  | Handle (this_client : Z) (event : mqtt_event)
  | Connect
  | Publish (topic msg : list Z).

Definition do_step (fuel : nat) (st : mqtt_step) : mprog Z :=
  match st with
  | Handle c e => handler fuel c e
  | Connect => MQTT_Connect;; mret 0
  | Publish t m => MQTT_Publish_General t m 2
  end.

Fixpoint do_steps (fuel : nat) (sts : list mqtt_step) : mprog unit :=
  match sts with
  | [] => mret tt
  | st :: sts => do_step fuel st;; do_steps fuel sts
  end.

Definition is_publish (e : ext) : bool :=
  match e with esp_mqtt_client_publish _ _ _ _ => true | _ => false end.

Definition no_connection (st : mqtt_step) : Prop :=
  match st with Handle _ MQTT_EVENT_CONNECTED => False | _ => True end.

Section offline.
(** What other tasks do in between: no connection is reported. *)
Variable R : mqtt -> mqtt -> Prop.
Hypothesis R_offline : forall s s', R s s' -> client_connected s = false -> client_connected s' = false.

Definition offline_wp {X} (p : mprog X) : Prop :=
  forall h s, client_connected s = false ->
  wp R (fun _ _ e => is_publish e = false)
    (fun _ o s => match o with Done _ => client_connected s = false | _ => True end) p h s.

Lemma offline_bind {X Y} (f : X -> mprog Y) p : offline_wp p -> (forall x, offline_wp (f x)) -> offline_wp (bind f p).
Proof.
  intros Hp Hf h s Hs. apply wp_bind. eapply wp_mono; [|by apply Hp].
  intros h' [x|o|] s' Hx; cbn [wp_then]; [by apply Hf|done|done].
Qed.

Lemma offline_ret {X} (x : X) : offline_wp (Ret x).
Proof. intros h s Hs. exact Hs. Qed.

Lemma offline_call {X} e (k : answer -> mprog X) : is_publish e = false -> (forall a, offline_wp (k a)) -> offline_wp (Call e k).
Proof.
  intros He Hk h s Hs. cbn [wp]. split; [exact He|]. intros a s1 HR. apply Hk. by apply (R_offline s).
Qed.

Lemma offline_get {X} (k : mqtt -> mprog X) : (forall s, client_connected s = false -> offline_wp (k s)) -> offline_wp (Get k).
Proof. intros Hk h s Hs s1 HR. apply Hk; by apply (R_offline s). Qed.

Lemma offline_upd {X} f (k : mprog X) :
  (forall s s', client_connected s = false -> f s = Some s' -> client_connected s' = false) ->
  offline_wp k -> offline_wp (Upd f k).
Proof.
  intros Hf Hk h s Hs. cbn [wp]. intros s1 HR. destruct (f s1) as [s2|] eqn:E; [|done].
  apply Hk. eapply Hf; [|exact E]. by apply (R_offline s).
Qed.

Lemma offline_try {X} (o : option X) : offline_wp (try o).
Proof. destruct o; [apply offline_ret|]. by intros h s _. Qed.

Lemma offline_publish topic msg qos : offline_wp (MQTT_Publish_General topic msg qos).
Proof.
  unfold MQTT_Publish_General, mbind, prog_bind, get. cbn [bind]. apply offline_get. intros s ->. apply offline_ret.
Qed.

Lemma offline_topic f : offline_wp (topic_text f).
Proof.
  unfold topic_text, mbind, prog_bind, get. cbn [bind]. apply offline_get. intros s _.
  apply offline_bind; [apply offline_try|]. intros mac. apply offline_try.
Qed.

Lemma offline_connect : offline_wp MQTT_Connect.
Proof.
  unfold MQTT_Connect, mbind, prog_bind, call, call_, get, modify. cbn [bind].
  apply offline_call; [done|]. intros a. apply offline_upd; [by intros s s' Hs [= <-]|].
  apply offline_get. intros s _. apply offline_call; [done|]. intros b.
  apply offline_upd; [by intros s1 s' _ [= <-]|]. apply offline_ret.
Qed.

Lemma offline_ota {X} (p : cprog ota X) : only (fun e => is_publish e = false) any p -> offline_wp (zoom mq_ota set_mq_ota p).
Proof.
  induction p as [x|o|k IH|f k IH|e k IH]; cbn [only zoom]; intros Ho.
  - apply offline_ret.
  - by intros h s _.
  - apply offline_get. intros s _. apply IH. apply Ho.
  - apply offline_upd; [|by apply IH]. intros s s' Hs. cbn. destruct (f (mq_ota s)); [|done]. by intros [= <-].
  - destruct Ho as [He Hk]. apply offline_call; [exact He|]. intros a. by apply IH.
Qed.

Lemma offline_command pld : offline_wp (mqtt_command CONFIG_MQTT_ROOT_TOPIC pld).
Proof.
  unfold mqtt_command, mbind, prog_bind. destruct (strtok_blank pld) as [[tok rest]|]; [|apply offline_ret].
  destruct (Z.eqb _ 0).
  - destruct (strtok_blank rest) as [[name r]|]; [|apply offline_ret].
    destruct (strstr name _); [|apply offline_ret]. apply offline_bind; [apply offline_topic|]. intros t.
    apply offline_bind; [apply offline_publish|]. intros _.
    apply offline_bind; [|intros _]; apply offline_ota; solve_only.
  - destruct (Z.eqb _ 0); [|apply offline_ret]. apply offline_bind; [apply offline_topic|]. intros t.
    apply offline_bind; [apply offline_publish|]. intros _. apply offline_ret.
Qed.

Lemma offline_step fuel st : no_connection st -> offline_wp (do_step fuel st).
Proof.
  destruct st as [c e| |t m]; cbn [do_step no_connection]; intros Hn.
  - unfold mqtt_event_handler, mbind, prog_bind. apply offline_bind; [|intros _; apply offline_ret].
    destruct e; try done; try apply offline_ret.
    + unfold modify, get, call_. cbn [bind]. apply offline_upd; [by intros s s' _ [= <-]|].
      apply offline_get. intros s _. apply offline_call; [done|]. intros _.
      apply offline_call; [done|]. intros _. apply offline_ret.
    + apply offline_bind; [apply offline_try|]. intros _. apply offline_bind; [apply offline_try|].
      intros pld. apply offline_command.
    + apply offline_call; [done|]. intros _. apply offline_ret.
  - apply offline_bind; [apply offline_connect|]. intros _. apply offline_ret.
  - apply offline_publish.
Qed.

Lemma offline_steps fuel sts : Forall no_connection sts -> offline_wp (do_steps fuel sts).
Proof.
  induction 1 as [|st sts Hst _ IH]; cbn [do_steps]; [apply offline_ret|].
  apply offline_bind; [by apply offline_step|]. intros _. exact IH.
Qed.
End offline.

(** C29: Steps (events, publications, a new connection of the task) that begin after
    a disconnection and follow each other, without a connection event among
    them: nothing is handed to the client to publish and the mark stays
    cleared, as long as nothing else sets it.  A publication that read the mark
    before the disconnection is not among them: it still goes out
    ([MqttTasks.publish_on_destroyed_client]). *)
Theorem no_publish_offline R fuel sts s tr o s' :
  (forall s s', R s s' -> client_connected s = false -> client_connected s' = false) ->
  Forall no_connection sts -> client_connected s = false ->
  exec R (do_steps fuel sts) s tr o s' ->
  Forall (fun c => is_publish (fst c) = false) tr /\
  (forall r, o = Done r -> client_connected s' = false).
Proof.
  intros HR Hs Hoff He. destruct (wp_exec _ _ _ _ _ _ _ _ _ (offline_steps R HR fuel sts Hs [] s Hoff) He) as [HQ HG].
  split; [|intros r ->; by apply HQ]. apply Forall_forall. intros [e a] Hin.
  apply list_elem_of_split in Hin as (t1 & t2 & ->). by destruct (HG t1 e a t2 eq_refl).
Qed.

(** The task clears the mark of the connection after it started the client: a
    connection that was reported before is forgotten, and nothing is published
    until the next one. *)
Theorem early_connection_forgotten R s tr s1 topic msg qos ans :
  exec R MQTT_Connect s tr (Done tt) s1 ->
  run (MQTT_Publish_General topic msg qos) s1 ans = ([], Done ESP_FAIL, s1).
Proof.
  intros He. assert (client_connected s1 = false) as Hc.
  { unfold MQTT_Connect, mbind, prog_bind, call, call_, get, modify in He. cbn [bind] in He.
    inversion He as [| | | | | |? ? ? a1 s2 t1 ? ? H1 He1]; subst.
    inversion He1 as [| | | |? ? ? s3 s4 t2 ? ? H2 Hf2 He2| |]; subst.
    inversion He2 as [| | |? ? s5 t3 ? ? H3 He3| | |]; subst.
    inversion He3 as [| | | | | |? ? ? a2 s6 t4 ? ? H4 He4]; subst.
    inversion He4 as [| | | |? ? ? s7 s8 t5 ? ? H5 Hf5 He5| |]; subst.
    inversion He5; subst. injection Hf5 as <-. reflexivity. }
  unfold MQTT_Publish_General, mbind, prog_bind, get. cbn [bind run]. by rewrite Hc.
Qed.
End messages.

(** ** Instances *)

Definition demo_mqtt : mqtt :=
  Mqtt true 9 0 (App (lit "240AC40001FF" ++ [0])) (Ota (replicate OTA_FILE_BN_LEN 0)).

Lemma demo_named : named (lit "airu") (lit "240AC40001FF") demo_mqtt.
Proof.
  split; [vm_compute; reflexivity|]. split; [by apply nonzero_const|].
  apply Nat.ltb_lt. vm_compute. reflexivity.
Qed.

Lemma demo_name_ok : nonzero (lit "v2.bin") /\ blankless (lit "v2.bin") /\ is_Some (strstr (lit "v2.bin") (lit ".bin")).
Proof.
  split; [by apply nonzero_const|].
  split; [apply (bool_decide_unpack (blankless (lit "v2.bin"))); vm_compute; exact I|by exists 2%nat].
Qed.

Lemma ota_message_witness :
  let event := MQTT_EVENT_DATA (lit "airu/x") 6 ((lit "ota " ++ lit "v2.bin") ++ [0]) (4 + length (lit "v2.bin")) in
  let acked := publication demo_mqtt (MQTT_ACK_TOPIC (lit "airu") (lit "240AC40001FF")) (lit "ota") (ret_ 1) in
  exists b, run (mqtt_event_handler (lit "airu") (lit "all/v2") 1024 0 9 event) demo_mqtt ((snd <$> acked) ++ [ret_ 1]) =
    (acked ++ [(xEventGroupSetBits OTA_EG OTA_TRIGGER_OTA_BIT, ret_ 1)], Done ESP_OK, set_mq_ota (Ota b) demo_mqtt) /\
    ota_path b = Some (ota_url ++ lit "v2.bin").
Proof.
  pose proof (ota_message (lit "airu") (lit "all/v2") 1024 0 9 (lit "airu/x") 6 (lit "v2.bin") [0]
    (lit "240AC40001FF") demo_mqtt (ret_ 1) (ret_ 1) demo_named) as H.
  specialize (H ltac:(lia) ltac:(apply Nat.leb_le; vm_compute; reflexivity) (proj1 demo_name_ok)
    (proj1 (proj2 demo_name_ok)) (proj2 (proj2 demo_name_ok)) ltac:(apply Nat.ltb_lt; vm_compute; reflexivity) eq_refl).
  exact H.
Defined.

Definition offline_step_list : list mqtt_step :=
  [Publish (lit "t") (lit "m"); Handle 9 MQTT_EVENT_DISCONNECTED; Connect; Publish (lit "t") (lit "m")].

Definition offline_run :=
  run (do_steps (lit "airu") (lit "all/v2") 1024 0 offline_step_list) (set_connected false demo_mqtt) (repeat (ret_ 1) 4).

Lemma no_publish_offline_witness :
  snd (fst offline_run) = Done tt /\ Forall (fun c => is_publish (fst c) = false) (fst (fst offline_run)).
Proof.
  split; [vm_compute; reflexivity|].
  apply (no_publish_offline (lit "airu") (lit "all/v2") 1024 eq 0 offline_step_list (set_connected false demo_mqtt)
    (fst (fst offline_run)) (snd (fst offline_run)) (snd offline_run)); [by intros s s' <-| |reflexivity|].
  - repeat constructor.
  - apply (run_exec _ _ (repeat (ret_ 1) 4)). vm_compute. reflexivity.
Defined.

(** The library reports the connection before the task gets on. *)
Definition reported (s s' : mqtt) : Prop := s' = s \/ s' = set_connected true s.

Lemma early_connection_exec :
  exec reported MQTT_Connect mqtt_start [(esp_mqtt_client_init, ret_ 9); (esp_mqtt_client_start 9, ret_ 0)]
    (Done tt) (Mqtt false 9 0 app_start (Ota (replicate OTA_FILE_BN_LEN 0))).
Proof.
  unfold MQTT_Connect, mbind, prog_bind, call, call_, get, modify. cbn [bind].
  eapply (exec_call _ _ _ _ (ret_ 9)); [by left|]. eapply exec_upd; [by left|done|].
  eapply exec_get; [by left|]. cbn [bind client set_client a_ret ret_].
  eapply (exec_call _ _ _ _ (ret_ 0)); [by left|]. eapply exec_upd; [right; reflexivity|reflexivity|].
  apply exec_ret.
Qed.

Lemma early_connection_forgotten_witness :
  run (MQTT_Publish_General (lit "t") (lit "m") 2) (Mqtt false 9 0 app_start (Ota (replicate OTA_FILE_BN_LEN 0))) [] =
  ([], Done ESP_FAIL, Mqtt false 9 0 app_start (Ota (replicate OTA_FILE_BN_LEN 0))).
Proof. exact (early_connection_forgotten reported _ _ _ (lit "t") (lit "m") 2 [] early_connection_exec). Defined.
