(* ===== verification/MqttTasks.v ===== *)
(** * The tasks around the MQTT client, together

    The MQTT task, the client library's task, which runs the event handler, and
    the data task share the statics of mqtt_if.c without a lock. *)

From S2P Require Import Prelude CMem Ext WifiManager Ota IspInfo AppUtils Mqtt.
From S2P Require Export Pool.

Local Open Scope Z_scope.

(** ** The pool *)

Inductive mqtt_job :=
  | TaskStart                                        (* mqtt_task up to its loop *)
  | TaskRound
  | Event (this_client : Z) (event : mqtt_event)     (* mqtt_event_handler *)
  | PublishData (msg : list Z).                      (* data_task *)

Definition mqtt_runs (i : nat) (j : mqtt_job) : bool :=
  match i, j with
  | 0%nat, TaskStart | 0%nat, TaskRound | 1%nat, Event _ _ | 2%nat, PublishData _ => true
  | _, _ => false
  end.

Section tasks.
Variables CONFIG_MQTT_ROOT_TOPIC CONFIG_MQTT_DATA_PUB_TOPIC CONFIG_MQTT_SUB_ALL_TOPIC : list Z.
Variable MQTT_BUFFER_SIZE_BYTE : nat.

Definition mqtt_body (fuel : nat) (j : mqtt_job) : mprog unit :=
  match j with
  | TaskStart => mqtt_task_start
  | TaskRound => mqtt_task_round
  | Event c e =>
      mqtt_event_handler CONFIG_MQTT_ROOT_TOPIC CONFIG_MQTT_SUB_ALL_TOPIC MQTT_BUFFER_SIZE_BYTE fuel c e;; mret tt
  | PublishData msg => MQTT_Publish_Data CONFIG_MQTT_ROOT_TOPIC CONFIG_MQTT_DATA_PUB_TOPIC msg;; mret tt
  end.

(** There is no mutex, and any answer is possible. *)
Definition mqtt_pool_step (fuel : nat) :=
  pool_step (fun (_ : ext) (_ : answer) => false) (fun _ => false) (fun _ _ => true) mqtt_runs (mqtt_body fuel).

Definition mqtt_run_on (fuel : nat) :=
  pool_run (fun (_ : ext) (_ : answer) => false) (fun _ => false) (fun _ _ => true) mqtt_runs (mqtt_body fuel).
End tasks.

Definition mqtt_pool_start (s : mqtt) : pool (E := ext) (A := answer) (L := mqtt_job) :=
  Pool s None [Task TaskStart [] (Ret tt); Task (Event 0 MQTT_EVENT_OTHER) [] (Ret tt);
    Task (PublishData []) [] (Ret tt)].

(** ** Which client a disconnection destroys *)

Section disconnection.
Variables CONFIG_MQTT_ROOT_TOPIC CONFIG_MQTT_SUB_ALL_TOPIC : list Z.
Variable MQTT_BUFFER_SIZE_BYTE : nat.
Local Abbreviation handler := (mqtt_event_handler CONFIG_MQTT_ROOT_TOPIC CONFIG_MQTT_SUB_ALL_TOPIC MQTT_BUFFER_SIZE_BYTE).

(** The handler of a disconnection marks the device as disconnected, destroys
    the client the static variable holds, whichever client reported it, and
    asks for a connection test; it changes nothing else. *)
Theorem disconnection_destroys_current fuel this_client s tr r s' :
  exec eq (handler fuel this_client MQTT_EVENT_DISCONNECTED) s tr (Done r) s' ->
  r = ESP_OK /\ s' = set_connected false s /\
  map fst tr = [esp_mqtt_client_destroy (client s);
    xEventGroupSetBits WIFI_EG WIFI_MANAGER_REQUEST_PING_TEST].
Proof.
  intros He. unfold mqtt_event_handler, wifi_manager_check_connection_async, wifi_set, modify, get, call_,
    mbind, prog_bind in He. cbn [bind mret prog_ret] in He.
  apply exec_upd_inv in He as (s1 & [= <-] & He). apply exec_get_inv in He.
  apply exec_call_inv in He as (a & t & -> & He). apply exec_call_inv in He as (b & t' & -> & He).
  by apply exec_ret_inv in He as (-> & -> & ->).
Qed.
End disconnection.

(** ** Runs *)

Definition demo_mqtt_start : mqtt :=
  Mqtt false 0 0 (App (lit "240AC40001FF" ++ [0])) (Ota (replicate OTA_FILE_BN_LEN 0)).

Abbreviation demo_step := (mqtt_pool_step (lit "airu") (lit "data") (lit "all/v2") 1024 0).
Abbreviation demo_run := (mqtt_run_on (lit "airu") (lit "data") (lit "all/v2") 1024 0).

Lemma demo_run_steps schedule P P' : demo_run schedule P = Some P' -> rtc demo_step P P'.
Proof. apply pool_run_steps. Qed.

(** The task connects with the client 9, which reports the connection. *)
Definition connected_schedule : list (nat * turn (A := answer) (L := mqtt_job)) := [
  (0%nat, Begin TaskStart); (0%nat, Go [ret_ 256; ret_ 9; ret_ 0]);
  (1%nat, Begin (Event 9 MQTT_EVENT_CONNECTED));
  (1%nat, Go [ret_ 1; ret_ 2; ret_ 1; ret_ 202; ret_ 3; ret_ 0])].

(** The data task is about to publish when the server ends the connection. *)
Definition destroyed_schedule := connected_schedule ++ [
  (2%nat, Begin (PublishData (lit "airQuality PM1=1")));
  (2%nat, Go []);
  (1%nat, Begin (Event 9 MQTT_EVENT_DISCONNECTED));
  (1%nat, Go [ret_ 0; ret_ 0])].

(** The Wi-Fi was lost and is back: a second client, 10.  The disconnection of
    the first is reported after that. *)
Definition stale_schedule := connected_schedule ++ [
  (0%nat, Begin TaskRound); (0%nat, Go [ret_ 16; ret_ 256; ret_ 10; ret_ 0]);
  (1%nat, Begin (Event 9 MQTT_EVENT_DISCONNECTED));
  (1%nat, Go [ret_ 0; ret_ 0])].

Definition calls_by (i : nat) (P : pool (E := ext) (A := answer) (S := mqtt) (L := mqtt_job)) : list ext :=
  from_option (fun t => map fst (t_calls t)) [] (p_tasks P !! i).

(** ** Theorems on the runs *)

(** C30: The mark of the connection is no protection: a reachable pool has the data
    task about to publish on a client the event handler has already destroyed. *)
Theorem publish_on_destroyed_client :
  exists P t1 t2 k topic msg, rtc demo_step (mqtt_pool_start demo_mqtt_start) P /\
    p_tasks P !! 1%nat = Some t1 /\ In (esp_mqtt_client_destroy 9) (map fst (t_calls t1)) /\
    p_tasks P !! 2%nat = Some t2 /\ t_rest t2 = Call (esp_mqtt_client_publish 9 topic msg 2) k /\
    client_connected (p_statics P) = false.
Proof.
  destruct (demo_run destroyed_schedule (mqtt_pool_start demo_mqtt_start)) as [P|] eqn:HP; [|vm_compute in HP; discriminate HP].
  pose proof (demo_run_steps _ _ _ HP) as Hr.
  vm_compute in HP. injection HP as <-. do 6 eexists. split; [exact Hr|]. split; [reflexivity|]. split; [by left|]. split; [reflexivity|].
  split; [reflexivity|]. reflexivity.
Qed.

(** A client that is replaced is not destroyed; its late disconnection destroys
    the one that replaced it. *)
Theorem stale_disconnection_destroys_new_client :
  exists P t0 t1, rtc demo_step (mqtt_pool_start demo_mqtt_start) P /\
    p_tasks P !! 0%nat = Some t0 /\ In (esp_mqtt_client_start 10) (map fst (t_calls t0)) /\
    p_tasks P !! 1%nat = Some t1 /\ t_job t1 = Event 9 MQTT_EVENT_DISCONNECTED /\
    In (esp_mqtt_client_destroy 10) (map fst (t_calls t1)).
Proof.
  destruct (demo_run stale_schedule (mqtt_pool_start demo_mqtt_start)) as [P|] eqn:HP; [|vm_compute in HP; discriminate HP].
  pose proof (demo_run_steps _ _ _ HP) as Hr.
  vm_compute in HP. injection HP as <-. do 3 eexists. split; [exact Hr|]. split; [reflexivity|]. split; [do 3 right; by left|]. split; [reflexivity|]. split; [reflexivity|]. by left.
Qed.

Lemma disconnection_destroys_current_witness :
  map fst (fst (fst (run (mqtt_event_handler (lit "airu") (lit "all/v2") 1024 0 9 MQTT_EVENT_DISCONNECTED)
    (set_client 10 demo_mqtt) [ret_ 0; ret_ 0]))) =
  [esp_mqtt_client_destroy 10; xEventGroupSetBits WIFI_EG WIFI_MANAGER_REQUEST_PING_TEST].
Proof.
  apply (disconnection_destroys_current (lit "airu") (lit "all/v2") 1024 0 9 (set_client 10 demo_mqtt) _ ESP_OK
    (set_connected false (set_client 10 demo_mqtt))).
  apply (run_exec _ _ [ret_ 0; ret_ 0]). vm_compute. reflexivity.
Defined.
