(* ===== verification/HttpClient.v ===== *)
(** * The client's trials (http_client_if.c)

    A form posted to a test server, and the first two commands of an FTP
    login.  No other file calls them. *)

From S2P Require Import Prelude CMem Ext.

Local Open Scope Z_scope.

Definition FTP_BUFFER : nat := 128.

(** [evt->event_id] of the HTTP client. *)
Inductive http_event :=
  | HTTP_EVENT_ERROR
  | HTTP_EVENT_ON_CONNECTED
  | HTTP_EVENT_HEADER_SENT
  | HTTP_EVENT_ON_HEADER
  | HTTP_EVENT_ON_DATA (client : Z)
  | HTTP_EVENT_ON_FINISH
  | HTTP_EVENT_DISCONNECTED.

Section client.
Context {S : Type}.

Definition _http_event_handler (evt : http_event) : cprog S Z :=
  (match evt with
   | HTTP_EVENT_ON_DATA client => call_ (esp_http_client_is_chunked_response client)
   | _ => mret tt
   end);;
  mret ESP_OK.

Definition http_post_multipart : cprog S unit :=
  c ← call (esp_http_client_init (lit "http://httpbin.org/get"));
  let client := a_ret c in
  call_ (esp_http_client_set_post_field client (lit "field1=value1&field2=value2"));;
  call_ (esp_http_client_perform client);;
  call_ (esp_http_client_cleanup client).

Definition ftp_send_cmd (sock : Z) (cmd : list Z) : cprog S Z := a ← call (sock_send sock cmd); mret (a_ret a).

(** [recv] into the buffer: as many bytes as it returned. *)
Definition received (a : answer) (size : nat) (buf : list Z) : option (list Z) :=
  write buf 0 (resize (Nat.min size (Z.to_nat (a_ret a))) 0 (a_bytes a)).

(** [sizeof (rx_buffer) - 1] is that of a pointer. *)
Definition rx_size : nat := 3.

(** One [recv] of [rcv]; the buffer is then logged as a string. *)
Definition rcv_step (sock : Z) (rx_buffer : list Z) (peek : bool) : cprog S (Z * list Z) :=
  a ← call (sock_recv sock (Z.of_nat rx_size) peek);
  rx_buffer ← try (received a rx_size rx_buffer);
  _ ← try (cstr rx_buffer);
  mret (a_ret a, rx_buffer).

(** [while (len > 0)] *)
Fixpoint rcv_loop (fuel : nat) (sock len : Z) (rx_buffer : list Z) : cprog S (list Z) :=
  match fuel with
  | O => Stop OutOfFuel
  | Datatypes.S fuel =>
      if Z.ltb 0 len then
        '(len, rx_buffer) ← rcv_step sock rx_buffer false;
        rcv_loop fuel sock len rx_buffer
      else mret rx_buffer
  end.

(** [do ... while (len > 0)] of [efail] *)
Fixpoint efail_loop (fuel : nat) (sock : Z) : cprog S unit :=
  match fuel with
  | O => Stop OutOfFuel
  | Datatypes.S fuel =>
      a ← call (sock_recv sock 1 false);
      if Z.ltb 0 (a_ret a) then efail_loop fuel sock else mret tt
  end.

Definition efail (fuel : nat) (sock : Z) : cprog S unit :=
  a ← call (sock_send sock (lit "QUIT"));
  if Z.ltb (a_ret a) 0 then mret tt
  else efail_loop fuel sock;; call_ (close sock).

Definition rcv (fuel : nat) (sock : Z) (rx_buffer : list Z) : cprog S (Z * list Z) :=
  '(len, rx_buffer) ← rcv_step sock rx_buffer true;
  respCode ← try (head rx_buffer);
  rx_buffer ← rcv_loop fuel sock len rx_buffer;
  if Z.leb 52 (u8 respCode) then efail fuel sock;; mret (ESP_FAIL, rx_buffer)
  else mret (0, rx_buffer).

(** [rx_buffer] is what the array happens to hold. *)
Definition ftp_put (fuel : nat) (rx_buffer : list Z) : cprog S Z :=
  s ← call socket;
  let sock := a_ret s in
  if Z.ltb sock 0 then mret ESP_FAIL
  else
    err ← call (connect sock);
    if negb (Z.eqb (a_ret err) 0) then mret ESP_FAIL
    else
      ftp_send_cmd sock (lit "USER becnel");;
      '(_, rx_buffer) ← rcv fuel sock rx_buffer;
      ftp_send_cmd sock (lit "PASS nitroT1");;
      '(_, rx_buffer) ← rcv fuel sock rx_buffer;
      call_ (close sock);;
      mret ESP_OK.
End client.

(** ** The password is sent too late *)

(** The server has closed the connection, or receiving failed. *)
Definition ended (h : ctrace) : Prop := exists sock n peek a, In (sock_recv sock n peek, a) h /\ a_ret a <= 0.

Definition password_after_end (h : ctrace) (e : ext) : Prop :=
  forall sock, e = sock_send sock (lit "PASS nitroT1") -> ended h.

Definition after_end {X} (h : ctrace) (o : outcome X) : Prop :=
  match o with Done _ => ended h | _ => True end.

Lemma ended_app h t : ended h -> ended (h ++ t).
Proof. intros (sock & n & p & a & Hin & Ha). exists sock, n, p, a. split; [|done]. apply in_or_app. by left. Qed.

Lemma other_call h e : (forall sock, e <> sock_send sock (lit "PASS nitroT1")) -> password_after_end h e.
Proof. intros H sock Hs. by destruct (H sock). Qed.

Section password.
Context {S : Type}.
Variable R : S -> S -> Prop.

Local Abbreviation waits p h s := (wp R (fun h _ e => password_after_end h e) (fun h o _ => after_end h o) p h s).

Lemma rcv_step_ends {X} sock b peek (f : Z * list Z -> cprog S X) h s :
  (forall len b h s, (len <= 0 -> ended h) -> waits (f (len, b)) h s) -> waits (bind f (rcv_step sock b peek)) h s.
Proof.
  intros Hf. unfold rcv_step, mbind, prog_bind, call. cbn [bind wp]. split; [by apply other_call|]. intros a s1 _.
  destruct (received _ _ _) as [b1|]; cbn [try bind wp]; [|done].
  destruct (cstr b1); cbn [try bind wp mret prog_ret]; [|done]. apply Hf.
  intros Ha. exists sock, (Z.of_nat rx_size), peek, a. split; [|done]. apply in_or_app. right. by left.
Qed.

Lemma rcv_loop_ends fuel sock len b h s : (len <= 0 -> ended h) -> waits (rcv_loop fuel sock len b) h s.
Proof.
  revert len b h s. induction fuel as [|fuel IH]; intros len b h s Hlen; [done|]. cbn [rcv_loop].
  destruct (Z.ltb_spec 0 len); [|by apply Hlen]. apply rcv_step_ends. intros len' b' h' s' H'. by apply IH.
Qed.

Lemma efail_ends fuel sock h s : ended h -> waits (efail fuel sock) h s.
Proof.
  intros He. unfold efail, mbind, prog_bind, call, call_. cbn [bind wp].
  assert (forall fuel h s, ended h -> waits (efail_loop fuel sock) h s) as Hloop.
  { clear. induction fuel as [|fuel IH]; intros h s He; [done|]. cbn [efail_loop]. unfold mbind, prog_bind, call.
    cbn [bind wp]. split; [by apply other_call|]. intros a s1 _.
    destruct (Z.ltb 0 (a_ret a)); [apply IH|]; by apply ended_app. }
  split; [by apply other_call|]. intros a s1 _. destruct (Z.ltb (a_ret a) 0); [by apply ended_app|].
  apply wp_bind. eapply wp_mono; [|by apply Hloop, ended_app].
  intros h' [[]|o|] s' Hh; [|done|done]. split; [by apply other_call|]. intros c s2 _. by apply ended_app.
Qed.

Lemma rcv_ends fuel sock b h s : waits (rcv fuel sock b) h s.
Proof.
  unfold rcv, mbind, prog_bind. apply rcv_step_ends. intros len b1 h1 s1 H1.
  destruct (head b1) as [c|]; cbn [try bind]; [|done]. apply wp_bind. eapply wp_mono; [|by apply rcv_loop_ends].
  intros h2 [b2|o|] s2 H2; [|done|done]. unfold wp_then. destruct (Z.leb 52 (u8 c)); [|exact H2].
  apply wp_bind. eapply wp_mono; [|by apply efail_ends]. by intros h3 [[]|o|] s3 H3.
Qed.

(** The code takes every reply to be the whole session: the password is sent
    only after the server closed the connection, or receiving failed. *)
Theorem password_too_late fuel b s tr o s' : exec R (ftp_put fuel b) s tr o s' ->
  forall t1 sock a t2, tr = t1 ++ (sock_send sock (lit "PASS nitroT1"), a) :: t2 -> ended t1.
Proof.
  intros He. assert (wp R (fun h _ e => password_after_end h e) (fun _ _ _ => True) (ftp_put fuel b) [] s) as Hw.
  2:{ destruct (wp_exec _ _ _ _ _ _ _ _ _ Hw He) as [_ HG]. intros t1 sock a t2 Ht.
      destruct (HG t1 _ a t2 Ht) as [_ H]. by apply (H sock). }
  unfold ftp_put, ftp_send_cmd, mbind, prog_bind, call, call_. cbn [bind wp mret prog_ret].
  split; [by apply other_call|]. intros sk s1 _. destruct (Z.ltb _ _); [done|]. cbn [bind wp].
  split; [by apply other_call|]. intros cn s2 _. destruct (negb _); [done|]. cbn [bind wp mret prog_ret].
  split; [by apply other_call|]. intros us s3 _.
  apply wp_bind. eapply wp_mono; [|apply rcv_ends]. intros h [[r b1]|o1|] s4 Hh; [|done|done].
  cbn [wp_then bind wp mret prog_ret]. split; [intros ? _; exact Hh|]. intros ps s5 _.
  apply wp_bind. eapply wp_mono; [|apply rcv_ends]. intros h1 [[r1 b2]|o1|] s6 _; [|done|done].
  cbn [wp_then bind wp mret prog_ret]. split; [by apply other_call|done].
Qed.
End password.

(** ** A refused user *)

Lemma cstr_some d1 d2 : is_Some (cstr (d1 ++ 0 :: d2)).
Proof.
  apply not_eq_None_Some. intros H%cstr_none. apply Forall_app in H as [_ H]. by inversion H.
Qed.

Lemma received_none a n b : a_ret a <= 0 -> received a n b = Some b.
Proof.
  intros Ha. unfold received. replace (Z.to_nat (a_ret a)) with 0%nat by lia. rewrite Nat.min_0_r.
  assert (resize 0 0 (a_bytes a) = []) as -> by (by destruct (a_bytes a)). rewrite write_some by (cbn; lia).
  by rewrite Nat.add_0_r, take_0, drop_0.
Qed.

Lemma received_three a b : a_ret a = 3 -> (3 <= length b)%nat -> received a 3 b = Some (resize 3 0 (a_bytes a) ++ drop 3 b).
Proof.
  intros Ha Hl. unfold received. rewrite Ha. change (Nat.min 3 (Z.to_nat 3)) with 3%nat.
  rewrite write_some by (rewrite length_resize; lia). by rewrite length_resize.
Qed.

Lemma rcv_step_bind {S X} sock b b1 t peek a (f : Z * list Z -> cprog S X) s ans :
  received a rx_size b = Some b1 -> cstr b1 = Some t ->
  run (bind f (rcv_step sock b peek)) s (a :: ans) =
  let '(tr, o, s') := run (f (a_ret a, b1)) s ans in ((sock_recv sock 3 peek, a) :: tr, o, s').
Proof.
  intros Hr Ht. unfold rcv_step, mbind, prog_bind, call. cbn [bind run]. rewrite Hr. cbn [try bind run].
  rewrite Ht. cbn [try bind run]. reflexivity.
Qed.

(** What a text of which the first byte says "refused" leads to: QUIT is sent,
    and the socket closed when the server closed. *)
Lemma refused_run {S X} n m sock b c len (f : Z * list Z -> cprog S X) s quit eof cl ans :
  52 <= u8 c -> 0 <= a_ret quit -> a_ret eof <= 0 -> len <= 0 ->
  run (bind (fun b => bind f (if Z.leb 52 (u8 c) then bind (fun _ => mret (ESP_FAIL, b)) (efail (Datatypes.S n) sock)
    else mret (0, b))) (rcv_loop (Datatypes.S m) sock len b)) s (quit :: eof :: cl :: ans) =
  let '(tr, o, s') := run (f (ESP_FAIL, b)) s ans in
  ((sock_send sock (lit "QUIT"), quit) :: (sock_recv sock 1 false, eof) :: (close sock, cl) :: tr, o, s').
Proof.
  intros Hc Hq He Hl. cbn [rcv_loop]. rewrite (proj2 (Z.ltb_ge 0 len)) by done. cbn [bind mret prog_ret].
  rewrite (proj2 (Z.leb_le _ _)) by done. unfold efail, mbind, prog_bind, call, call_. cbn [bind run efail_loop].
  rewrite (proj2 (Z.ltb_ge (a_ret quit) 0)) by done. unfold mbind, prog_bind, call. cbn [bind run].
  rewrite (proj2 (Z.ltb_ge 0 (a_ret eof))) by done. cbn [bind run mret prog_ret].
  by destruct (run (f (ESP_FAIL, b)) s ans) as [[tr o] s'].
Qed.

(** The server refuses the user with a code of 400 or more and closes: the
    socket is closed, the password is sent on it all the same, it is closed
    again and the result is ESP_OK. *)
Theorem refused_user {S} fuel b d1 d2 c0 rest sk cn us peek eof quit eof2 cl ps peek2 quit2 cl2 (s : S) :
  b = d1 ++ 0 :: d2 -> (3 <= length d1)%nat -> 0 <= a_ret sk -> a_ret cn = 0 ->
  a_ret peek = 3 -> a_bytes peek = c0 :: rest -> 52 <= c0 < 256 -> length rest = 2%nat ->
  a_ret eof <= 0 -> 0 <= a_ret quit -> a_ret eof2 <= 0 -> a_ret peek2 <= 0 -> a_ret quit2 < 0 ->
  let k := a_ret sk in
  run (ftp_put (Datatypes.S (Datatypes.S fuel)) b) s [sk; cn; us; peek; eof; quit; eof2; cl; ps; peek2; quit2; cl2] =
  ([(socket, sk); (connect k, cn); (sock_send k (lit "USER becnel"), us); (sock_recv k 3 true, peek);
    (sock_recv k 3 false, eof); (sock_send k (lit "QUIT"), quit); (sock_recv k 1 false, eof2); (close k, cl);
    (sock_send k (lit "PASS nitroT1"), ps); (sock_recv k 3 true, peek2); (sock_send k (lit "QUIT"), quit2);
    (close k, cl2)], Done ESP_OK, s).
Proof.
  intros -> Hd Hsk Hcn Hpk Hb Hc Hr Heof Hq Heof2 Hpk2 Hq2 k.
  assert (exists d, drop 3 (d1 ++ 0 :: d2) = d ++ 0 :: d2) as [d Ed].
  { exists (drop 3 d1). by rewrite drop_app_le. }
  set (b1 := (c0 :: rest ++ d) ++ 0 :: d2).
  assert (received peek rx_size (d1 ++ 0 :: d2) = Some b1) as E1.
  { unfold rx_size. rewrite received_three; [|done|rewrite length_app; lia]. rewrite Ed, Hb, resize_all_alt by (cbn; lia).
    unfold b1. cbn [app]. by rewrite <- app_assoc. }
  assert (forall a, a_ret a <= 0 -> received a rx_size b1 = Some b1) as E2 by (intros a Ha; by apply received_none).
  destruct (cstr_some (c0 :: rest ++ d) d2) as [t Et]. fold b1 in Et.
  unfold ftp_put, ftp_send_cmd, mbind, prog_bind, call, call_. cbn [bind run mret prog_ret].
  rewrite (proj2 (Z.ltb_ge _ _)) by done. cbn [bind run]. rewrite Hcn. cbn [Z.eqb negb bind run].
  assert (52 <= u8 c0) as Hc8 by (rewrite uwrap_small; lia).
  unfold rcv at 2, mbind, prog_bind. rewrite run_bind_assoc, (rcv_step_bind _ _ _ _ _ _ _ _ _ E1 Et).
  change (head b1) with (Some c0). cbn [try bind]. rewrite Hpk.
  change (rcv_loop (Datatypes.S (Datatypes.S fuel)) (a_ret sk) 3 b1) with
    (bind (fun '(len, b) => rcv_loop (Datatypes.S fuel) (a_ret sk) len b) (rcv_step (S := S) (a_ret sk) b1 false)).
  rewrite !run_bind_assoc, (rcv_step_bind _ _ _ _ _ _ _ _ _ (E2 _ Heof) Et), refused_run by done.
  cbn [bind run]. unfold rcv, mbind, prog_bind.
  rewrite run_bind_assoc, (rcv_step_bind _ _ _ _ _ _ _ _ _ (E2 _ Hpk2) Et).
  change (head b1) with (Some c0). cbn [try bind rcv_loop]. rewrite (proj2 (Z.ltb_ge 0 (a_ret peek2))) by done.
  cbn [bind mret prog_ret]. rewrite (proj2 (Z.leb_le _ _) Hc8). unfold efail, mbind, prog_bind, call, call_.
  cbn [bind run]. rewrite (proj2 (Z.ltb_lt (a_ret quit2) 0)) by done. reflexivity.
Qed.

(** ** Instances *)

Definition rx_garbage : list Z := replicate 100 7 ++ 0 :: replicate 27 7.

Definition refusing : list answer :=
  [ret_ 5; ret_ 0; ret_ 11; ret_bytes 3 (lit "530"); ret_ 0; ret_ 4; ret_ 0; ret_ 0; ret_ 11; ret_ (-1); ret_ (-1); ret_ 0].

Definition refused_login := run (ftp_put (S := unit) 2 rx_garbage) tt refusing.

Lemma password_too_late_witness : exists t1 a t2,
  fst (fst refused_login) = t1 ++ (sock_send 5 (lit "PASS nitroT1"), a) :: t2 /\ ended t1.
Proof.
  exists (take 8 (fst (fst refused_login))), (ret_ 11), (drop 9 (fst (fst refused_login))).
  assert (fst (fst refused_login) = take 8 (fst (fst refused_login)) ++
    (sock_send 5 (lit "PASS nitroT1"), ret_ 11) :: drop 9 (fst (fst refused_login))) as E by (vm_compute; reflexivity).
  split; [exact E|].
  refine (password_too_late eq 2 rx_garbage tt (fst (fst refused_login)) (snd (fst refused_login)) tt _ _ 5 _ _ E).
  apply (run_exec _ _ refusing). vm_compute. reflexivity.
Defined.

Lemma refused_user_witness : snd (fst refused_login) = Done ESP_OK.
Proof.
  unfold refused_login, refusing.
  rewrite (refused_user 0 rx_garbage (replicate 100 7) (replicate 27 7) 53 [51; 48]
    (ret_ 5) (ret_ 0) (ret_ 11) (ret_bytes 3 (lit "530")) (ret_ 0) (ret_ 4) (ret_ 0) (ret_ 0) (ret_ 11) (ret_ (-1))
    (ret_ (-1)) (ret_ 0)); try reflexivity; cbn [a_ret ret_ ret_bytes length replicate]; lia.
Defined.
