(* ===== verification/FmtFloat.v ===== *)
(** * Printing floating-point numbers

    [printf]'s "%.<p>f" of a double, as the C library prints it: the number
    rounded to [p] decimals, to the even one in the middle. *)

From Stdlib Require Import SpecFloat.
From S2P Require Import Prelude CMem Printf Float32.

Local Open Scope Z_scope.

(** [num / den] rounded to a whole number, ties to even. *)
Definition round_even (num den : Z) : Z :=
  let q := num / den in
  match Z.compare (2 * (num mod den)) den with
  | Lt => q
  | Gt => q + 1
  | Eq => if Z.even q then q else q + 1
  end.

(** [m * 2 ^ e * 10 ^ p], rounded. *)
Definition scaled (p m e : Z) : Z :=
  if Z.leb 0 e then m * 2 ^ e * 10 ^ p else round_even (m * 10 ^ p) (2 ^ (- e)).

Definition fmt_decimals (p : nat) (n : Z) : list Z :=
  fmt_u (n / 10 ^ Z.of_nat p) ++ lit "." ++ pad0 p (fmt_u (n mod 10 ^ Z.of_nat p)).

Definition sign_text (s : bool) : list Z := if s then lit "-" else [].

Definition fmt_f (p : nat) (x : float64) : list Z :=
  match x with
  | S754_zero s => sign_text s ++ fmt_decimals p 0
  | S754_infinity s => sign_text s ++ lit "inf"
  | S754_nan => lit "nan"
  | S754_finite s m e => sign_text s ++ fmt_decimals p (scaled (Z.of_nat p) (Zpos m) e)
  end.

Example print_25_5 : fmt_f 2 (f64_div (f64_of_Z 51) (f64_of_Z 2)) = lit "25.50".
Proof. vm_compute. reflexivity. Qed.
Example print_minus_third : fmt_f 4 (f64_div (f64_of_Z (-1)) (f64_of_Z 3)) = lit "-0.3333".
Proof. vm_compute. reflexivity. Qed.
Example print_tie : fmt_f 2 (f64_div (f64_of_Z 1) (f64_of_Z 8)) = lit "0.12".
Proof. vm_compute. reflexivity. Qed.

(** ** Lengths *)

(** [x] is a number with |x| <= k. *)
Definition at_most (k : Z) (x : float64) : Prop :=
  match x with
  | S754_zero _ => 0 <= k
  | S754_finite _ m e => if Z.leb 0 e then Zpos m * 2 ^ e <= k else Zpos m <= k * 2 ^ (- e)
  | _ => False
  end.

#[export] Instance at_most_dec k x : Decision (at_most k x).
Proof. destruct x; cbn; try apply _. destruct (Z.leb 0 e); apply _. Defined.

Lemma round_even_le num den k : 0 < den -> num <= k * den -> round_even num den <= k.
Proof.
  intros Hd Hn. unfold round_even.
  pose proof (Z.div_mod num den ltac:(lia)). pose proof (Z.mod_pos_bound num den Hd).
  assert (num / den <= k) by (apply Z.div_le_upper_bound; lia).
  destruct (Z.compare_spec (2 * (num mod den)) den); [destruct (Z.even _)| |]; nia.
Qed.

Lemma round_even_nonneg num den : 0 < den -> 0 <= num -> 0 <= round_even num den.
Proof.
  intros Hd Hn. unfold round_even. assert (0 <= num / den) by (apply Z.div_pos; lia).
  destruct (Z.compare _ _); [destruct (Z.even _)| |]; lia.
Qed.

Lemma scaled_range p m e k : 0 <= p -> 0 < m ->
  (if Z.leb 0 e then m * 2 ^ e <= k else m <= k * 2 ^ (- e)) -> 0 <= scaled p m e <= k * 10 ^ p.
Proof.
  intros Hp Hm Hk. unfold scaled. assert (0 < 10 ^ p) by (apply Z.pow_pos_nonneg; lia).
  destruct (Z.leb_spec 0 e) as [He|He].
  - assert (0 < 2 ^ e) by (apply Z.pow_pos_nonneg; lia). nia.
  - assert (0 < 2 ^ (- e)) by (apply Z.pow_pos_nonneg; lia).
    split; [apply round_even_nonneg; nia|]. apply round_even_le; nia.
Qed.

Lemma fmt_decimals_length p n d : (0 < p)%nat -> (0 < d)%nat -> 0 <= n < 10 ^ Z.of_nat d * 10 ^ Z.of_nat p ->
  (length (fmt_decimals p n) <= d + 1 + p)%nat.
Proof.
  intros Hp Hd Hn. unfold fmt_decimals. rewrite !length_app, pad0_length. lit_len.
  assert (0 < 10 ^ Z.of_nat p) by (apply Z.pow_pos_nonneg; lia).
  pose proof (fmt_u_length (n / 10 ^ Z.of_nat p) d Hd) as H1.
  pose proof (fmt_u_length (n mod 10 ^ Z.of_nat p) p Hp) as H2.
  specialize (H1 ltac:(split; [apply Z.div_pos; lia|apply Z.div_lt_upper_bound; lia])).
  specialize (H2 ltac:(apply Z.mod_pos_bound; lia)). lia.
Qed.

(** A number below 10^d prints in d digits, a point, its decimals and a sign. *)
Lemma fmt_f_length p d x : (0 < p)%nat -> (0 < d)%nat -> at_most (10 ^ Z.of_nat d - 1) x ->
  (length (fmt_f p x) <= d + 2 + p)%nat.
Proof.
  intros Hp Hd Hx. assert (0 < 10 ^ Z.of_nat p) as Hten by (apply Z.pow_pos_nonneg; lia).
  assert (forall n s, 0 <= n <= (10 ^ Z.of_nat d - 1) * 10 ^ Z.of_nat p ->
    (length (sign_text s ++ fmt_decimals p n) <= d + 2 + p)%nat) as Hl.
  { intros n s Hn. rewrite Z.mul_sub_distr_r in Hn.
    pose proof (fmt_decimals_length p n d Hp Hd) as Hn'. specialize (Hn' ltac:(lia)).
    rewrite length_app. assert (length (sign_text s) <= 1)%nat by (destruct s; vm_compute; lia). lia. }
  destruct x as [s|s| |s m e]; cbn [at_most fmt_f] in *; try done.
  - apply Hl. nia.
  - apply Hl. apply scaled_range; [lia|lia|done].
Qed.

Lemma fmt_decimals_nonzero p n : nonzero (fmt_decimals p n).
Proof.
  assert (forall m, nonzero (fmt_u m)) as Hu
    by (intros m; eapply Forall_impl; [apply fmt_u_digits|]; cbn; lia).
  unfold fmt_decimals. apply nonzero_app; [apply Hu|]. apply nonzero_app; [auto with airu|].
  unfold pad0. apply nonzero_app; [by apply Forall_replicate|apply Hu].
Qed.

Lemma sign_text_nonzero s : nonzero (sign_text s).
Proof. destruct s; [by apply nonzero_const|constructor]. Qed.

Lemma fmt_f_nonzero p x : nonzero (fmt_f p x).
Proof.
  destruct x; cbn [fmt_f]; try (apply nonzero_app; [apply sign_text_nonzero|]);
    try apply fmt_decimals_nonzero; by apply nonzero_const.
Qed.

(** ** Bounds of exact numbers *)

Lemma at_most_exact s k e K : 0 < k < 2 ^ prec64 -> e <= 0 -> k <= K * 2 ^ (- e) ->
  at_most K (exact_at prec64 s k e).
Proof.
  intros Hk He HK. assert (1 < prec64 < emax64) as Hf by (unfold prec64, emax64; lia).
  destruct (exact_mantissa _ _ Hf k Hk) as (Hm & _ & _). pose proof (log2_bounds prec64 k Hk) as Hl.
  unfold exact_at. cbn [at_most]. rewrite Hm. set (j := prec64 - 1 - Z.log2 k) in *.
  replace (e + Z.log2 k - (prec64 - 1)) with (e - j) by lia.
  assert (0 < 2 ^ j) by (apply Z.pow_pos_nonneg; lia).
  destruct (Z.leb_spec 0 (e - j)).
  - assert (e = 0 /\ j = 0) as [-> ->] by lia. rewrite Z.pow_0_r in *. cbn in HK. lia.
  - replace (- (e - j)) with (- e + j) by lia. rewrite Z.pow_add_r by lia. nia.
Qed.

Lemma at_most_dyadic n K : Z.abs n <= K * 2 ^ 16 -> Z.abs n < 2 ^ 53 -> at_most K (f64_dyadic n (-16)).
Proof.
  intros HK Hn. destruct (decide (n = 0)) as [->|Hz]; [cbn; lia|].
  assert (1 < prec64 < emax64) as Hf by (unfold prec64, emax64; lia).
  assert (0 < Z.abs n < 2 ^ prec64) as Ha by (change (2 ^ prec64) with (2 ^ 53); lia).
  pose proof (normalize_exact_at _ _ Hf (Z.ltb n 0) (Z.abs n) (-16) 0 Ha ltac:(lia)) as Hex.
  unfold f64_dyadic. replace n with (cond_Zopp (Z.ltb n 0) (Z.abs n * 2 ^ 0)) at 1
    by (rewrite Z.pow_0_r; destruct (Z.ltb_spec n 0); cbn; lia).
  change (-16) with (-16 - 0) at 1. rewrite Hex.
  - by apply at_most_exact.
  - pose proof (log2_bounds prec64 _ Ha). unfold exp_ok, SpecFloat.emin. unfold prec64, emax64 in *. lia.
Qed.
