(* ===== verification/Main.v ===== *)
(** * The start and the data task (main.c)

    [app_main] initialises the drivers and starts the tasks.  The data task
    polls the sensors once per period, publishes what they report and stores it
    on the card; the packets are the texts of mqtt_if.h and sd_if.h. *)

From Stdlib Require Import SpecFloat.
From S2P Require Import Prelude CMem Printf Ext WifiState WifiManager.
From S2P Require Import Gps.
From S2P Require Import Pm.
From S2P Require Import Float32 Led Ota HttpServer Sd IspInfo TimeIf Sensors AppUtils Mqtt FmtFloat.

Local Open Scope Z_scope.

Definition MQTT_PKT_LEN : nat := 256.

(** The statics of the components the two functions use. *)
Record device := Device {
  dv_pm : Pm.pm;
  dv_gps : Gps.gps;
  dv_sd : Sd.sd;
  dv_mqtt : mqtt;
  dv_clocks : clocks;
  last_publish : Z
}.

Abbreviation dprog := (cprog device).

Definition set_dv_pm v s := Device v (dv_gps s) (dv_sd s) (dv_mqtt s) (dv_clocks s) (last_publish s).
Definition set_dv_gps v s := Device (dv_pm s) v (dv_sd s) (dv_mqtt s) (dv_clocks s) (last_publish s).
Definition set_dv_sd v s := Device (dv_pm s) (dv_gps s) v (dv_mqtt s) (dv_clocks s) (last_publish s).
Definition set_dv_mqtt v s := Device (dv_pm s) (dv_gps s) (dv_sd s) v (dv_clocks s) (last_publish s).
Definition set_dv_clocks v s := Device (dv_pm s) (dv_gps s) (dv_sd s) (dv_mqtt s) v (last_publish s).
Definition set_last_publish v s := Device (dv_pm s) (dv_gps s) (dv_sd s) (dv_mqtt s) (dv_clocks s) v.

Definition dv_app (s : device) : app_vars := mq_app (dv_mqtt s).
Definition set_dv_app v s :=
  let m := dv_mqtt s in set_dv_mqtt (Mqtt (client_connected m) (client m) (task_mqtt m) v (mq_ota m)) s.

Abbreviation in_pm p := (zoom dv_pm set_dv_pm p).
Abbreviation in_gps p := (zoom dv_gps set_dv_gps p).
Abbreviation in_sd p := (zoom dv_sd set_dv_sd p).
Abbreviation in_mqtt p := (zoom dv_mqtt set_dv_mqtt p).
Abbreviation in_clocks p := (zoom dv_clocks set_dv_clocks p).
Abbreviation in_app p := (zoom dv_app set_dv_app p).

(** ** The packets *)

(** The values of one round; [rd_temp] and [rd_hum] are the variables of the
    task, which a failed measurement leaves as they were. *)
Record readings := Readings {
  rd_pm1 : float32; rd_pm2_5 : float32; rd_pm10 : float32;
  rd_temp : float64; rd_hum : float64;
  rd_co : Z; rd_nox : Z;
  rd_gps : esp_gps_t;
  rd_uptime : Z
}.

(** A float given to [printf] is a double. *)
Definition float_text (p : nat) (x : float32) : list Z := fmt_f p (f64_of_f32 x).

(** MQTT_PKT: the escapes before a comma, an equals sign and a space stand for
    these characters; "%zu" prints an [int] as an unsigned number. *)
Definition mqtt_packet (measurement mac version : list Z) (r : readings) : list Z :=
  measurement ++ lit ",ID=" ++ mac ++ lit ",SensorModel=H2+" ++ version ++
  lit " SecActive=" ++ fmt_u (rd_uptime r) ++
  lit ",Altitude=" ++ float_text 2 (alt (rd_gps r)) ++
  lit ",Latitude=" ++ float_text 4 (lat (rd_gps r)) ++
  lit ",Longitude=" ++ float_text 4 (lon (rd_gps r)) ++
  lit ",PM1=" ++ float_text 2 (rd_pm1 r) ++ lit ",PM2.5=" ++ float_text 2 (rd_pm2_5 r) ++
  lit ",PM10=" ++ float_text 2 (rd_pm10 r) ++
  lit ",Temperature=" ++ fmt_f 2 (rd_temp r) ++ lit ",Humidity=" ++ fmt_f 2 (rd_hum r) ++
  lit ",CO=" ++ fmt_u (u32 (rd_co r)) ++ lit ",NO=" ++ fmt_u (u32 (rd_nox r)).

(** SD_PKT *)
Definition sd_packet (stamp mac topic : list Z) (r : readings) : list Z :=
  stamp ++ lit "," ++ mac ++ lit "," ++ topic ++ lit "," ++ fmt_u (rd_uptime r) ++
  lit "," ++ float_text 2 (alt (rd_gps r)) ++ lit "," ++ float_text 4 (lat (rd_gps r)) ++
  lit "," ++ float_text 4 (lon (rd_gps r)) ++ lit "," ++ float_text 2 (rd_pm1 r) ++
  lit "," ++ float_text 2 (rd_pm2_5 r) ++ lit "," ++ float_text 2 (rd_pm10 r) ++
  lit "," ++ fmt_f 2 (rd_temp r) ++ lit "," ++ fmt_f 2 (rd_hum r) ++
  lit "," ++ fmt_d (rd_co r) ++ lit "," ++ fmt_d (rd_nox r) ++ lit "\n".

Definition two (n : Z) : list Z := pad0 2 (fmt_d n).

(** The time in the file: of the GPS when its year is in range, of the
    processor otherwise. *)
Definition time_stamp (r : readings) : list Z :=
  let g := rd_gps r in
  if Z.leb (year g) 18 || Z.leb 80 (year g) then
    let hr := rd_uptime r / 3600 in
    let rm := rd_uptime r mod 3600 in
    fmt_u hr ++ lit ":" ++ two (u8 (rm / 60)) ++ lit ":" ++ two (u8 (rm mod 60))
  else two (hour g) ++ lit ":" ++ two (Gps.min g) ++ lit ":" ++ two (sec g).

(** [app_desc->version]: the text in the description [app_desc] points to. *)
Definition app_version (app_desc : answer) : option (list Z) :=
  if Z.eqb (a_ret app_desc) 0 then None else cstr (a_bytes app_desc).

(** ** The data task *)

Section config.
Variables CONFIG_INFLUX_MEASUREMENT_NAME CONFIG_MQTT_ROOT_TOPIC CONFIG_MQTT_DATA_PUB_TOPIC : list Z.
Variable CONFIG_DATA_UPLOAD_PERIOD : Z.
Variables CONFIG_SD_DATA_STORE CONFIG_SD_CARD_DEBUG : bool.

Local Abbreviation data_topic := (MQTT_DATA_PUB_TOPIC CONFIG_MQTT_ROOT_TOPIC CONFIG_MQTT_DATA_PUB_TOPIC).

Definition poll_sensors (vars : float64 * float64) : dprog readings :=
  '(_, (a1, a2, a3)) ← in_pm PMS_Poll;
  '(_, (temp, hum)) ← HDC1080_Poll vars;
  '(nox, co) ← MICS4514_Poll;
  g ← in_gps GPS_Poll;
  t ← call esp_timer_get_time;
  mret (Readings a1 a2 a3 temp hum co nox g (uwrap 64 (Z.quot (a_ret t) 1000000))).

(** [mac] is DEVICE_MAC, which only the start writes. *)
Definition store_packet (pkt mac : list Z) (r : readings) : dprog unit :=
  now ← call time;
  call_ (localtime_r (s32 (a_ret now)));;
  call_ strftime_c;;
  stamp ← try (b ← strcpy (replicate 64 0) 0 (time_stamp r); cstr b);
  text ← try (b ← strcpy pkt 0 (sd_packet stamp mac data_topic r); cstr b);
  in_sd (sd_write_data text (year (rd_gps r)) (month (rd_gps r)) (day (rd_gps r)));;
  in_sd (periodic_timer_callback CONFIG_SD_CARD_DEBUG).

Definition send_packet (app_desc : answer) (r : readings) : dprog unit :=
  pkt ← heap_alloc MQTT_PKT_LEN;
  dev ← get (fun s => cstr (DEVICE_MAC (dv_app s)));
  mac ← try dev;
  version ← try (app_version app_desc);
  buf ← try (b ← snd pkt; strcpy b 0 (mqtt_packet CONFIG_INFLUX_MEASUREMENT_NAME mac version r));
  msg ← try (cstr buf);
  err ← in_mqtt (MQTT_Publish_Data CONFIG_MQTT_ROOT_TOPIC CONFIG_MQTT_DATA_PUB_TOPIC msg);
  (if Z.leb ESP_OK err then modify (set_last_publish (s32 (rd_uptime r)))
   else wifi_manager_check_connection_async);;
  when CONFIG_SD_DATA_STORE (store_packet buf mac r);;
  call_ (free (fst pkt)).

Definition data_task_round (app_desc : answer) (vars : float64 * float64) : dprog (float64 * float64) :=
  call_ (vTaskDelay (CONFIG_DATA_UPLOAD_PERIOD * 1000 / portTICK_PERIOD_MS));;
  r ← poll_sensors vars;
  send_packet app_desc r;;
  mret (rd_temp r, rd_hum r).

(** The loop for [n] rounds; [vars] is what [temp] and [hum] happen to hold
    when the task starts. *)
Fixpoint data_task_rounds (n : nat) (app_desc : answer) (vars : float64 * float64) : dprog unit :=
  match n with
  | O => Stop OutOfFuel
  | S n => vars ← data_task_round app_desc vars; data_task_rounds n app_desc vars
  end.

Definition data_task (n : nat) (vars : float64 * float64) : dprog unit :=
  app_desc ← call esp_ota_get_app_description;
  data_task_rounds n app_desc vars.

(** [panic_task]: an hour, then a restart. *)
Definition panic_task : dprog unit :=
  call_ (vTaskDelay (60 * 60 * 1000 / portTICK_PERIOD_MS));;
  Stop Abort.

(** ** The start *)

Definition start_tasks : dprog unit :=
  call_ (xTaskCreate (lit "led_task") 2048 3);;
  call_ (xTaskCreate (lit "Data_task") 4096 1);;
  call_ (xTaskCreate (lit "http_server") 4096 5);;
  call_ (xTaskCreate (lit "wifi_manager") 6000 4);;
  call_ (xTaskCreate (lit "ota_task") 4096 10);;
  call_ (xTaskCreate (lit "panic") 2096 10).

Definition app_main : dprog unit :=
  in_app APP_Initialize;;
  LED_Initialize;;
  in_gps GPS_Initialize;;
  in_pm PMS_Initialize;;
  HDC1080_Initialize;;
  MICS4514_Initialize;;
  in_sd (SD_Initialize CONFIG_SD_CARD_DEBUG);;
  start_tasks;;
  call_ (vTaskDelay (1000 / portTICK_PERIOD_MS));;
  in_clocks SNTP_Initialize;;
  in_mqtt MQTT_Initialize.
End config.

(** ** The length of a packet *)

(** What the sensors can report: metres, degrees, micrograms, celsius and
    percent, raw gas readings; an uptime below three centuries. *)
Definition fix_ok (g : esp_gps_t) : Prop :=
  at_most 99999 (f64_of_f32 (alt g)) /\ at_most 9999 (f64_of_f32 (lat g)) /\ at_most 9999 (f64_of_f32 (lon g)) /\
  is_byte (year g) /\ is_byte (month g) /\ is_byte (day g) /\
  is_byte (hour g) /\ is_byte (Gps.min g) /\ is_byte (sec g).

Definition dust_ok (x : float32) : Prop := at_most 99999 (f64_of_f32 x).
Definition climate_ok (v : float64 * float64) : Prop := at_most 999 (fst v) /\ at_most 999 (snd v).
Definition raw_ok (n : Z) : Prop := 0 <= n < 4096.

Definition readings_ok (r : readings) : Prop :=
  dust_ok (rd_pm1 r) /\ dust_ok (rd_pm2_5 r) /\ dust_ok (rd_pm10 r) /\
  climate_ok (rd_temp r, rd_hum r) /\ raw_ok (rd_co r) /\ raw_ok (rd_nox r) /\
  fix_ok (rd_gps r) /\ 0 <= rd_uptime r < 10 ^ 10.

#[export] Instance fix_ok_dec g : Decision (fix_ok g).
Proof. unfold fix_ok, is_byte. apply _. Defined.
#[export] Instance readings_ok_dec r : Decision (readings_ok r).
Proof. unfold readings_ok, dust_ok, climate_ok, raw_ok. apply _. Defined.

Lemma float_length p d x : (0 < p)%nat -> (0 < d)%nat -> at_most (10 ^ Z.of_nat d - 1) (f64_of_f32 x) ->
  (length (float_text p x) <= d + 2 + p)%nat.
Proof. apply fmt_f_length. Qed.

Lemma raw_length n : raw_ok n -> (length (fmt_u (u32 n)) <= 4)%nat /\ (length (fmt_d n) <= 4)%nat.
Proof.
  unfold raw_ok. intros Hn. unfold fmt_d. rewrite (proj2 (Z.ltb_ge n 0)), uwrap_small by lia.
  split; apply fmt_u_length; lia.
Qed.

(** The lengths of the numbers of a packet. *)
Record number_lengths (r : readings) : Prop := {
  nl_alt : (length (float_text 2 (alt (rd_gps r))) <= 9)%nat;
  nl_lat : (length (float_text 4 (lat (rd_gps r))) <= 10)%nat;
  nl_lon : (length (float_text 4 (lon (rd_gps r))) <= 10)%nat;
  nl_pm1 : (length (float_text 2 (rd_pm1 r)) <= 9)%nat;
  nl_pm2_5 : (length (float_text 2 (rd_pm2_5 r)) <= 9)%nat;
  nl_pm10 : (length (float_text 2 (rd_pm10 r)) <= 9)%nat;
  nl_temp : (length (fmt_f 2 (rd_temp r)) <= 7)%nat;
  nl_hum : (length (fmt_f 2 (rd_hum r)) <= 7)%nat;
  nl_uptime : (length (fmt_u (rd_uptime r)) <= 10)%nat
}.

Lemma readings_lengths r : readings_ok r -> number_lengths r.
Proof.
  intros (H1 & H2 & H3 & [H4 H5] & _ & _ & (H6 & H7 & H8 & _) & H9). split.
  - apply (float_length 2 5); [lia|lia|exact H6].
  - apply (float_length 4 4); [lia|lia|exact H7].
  - apply (float_length 4 4); [lia|lia|exact H8].
  - apply (float_length 2 5); [lia|lia|exact H1].
  - apply (float_length 2 5); [lia|lia|exact H2].
  - apply (float_length 2 5); [lia|lia|exact H3].
  - apply (fmt_f_length 2 3); [lia|lia|exact H4].
  - apply (fmt_f_length 2 3); [lia|lia|exact H5].
  - apply fmt_u_length; [lia|exact H9].
Qed.

Lemma packet_length measurement mac version r :
  readings_ok r -> (length measurement <= 10)%nat -> length mac = 12%nat -> (length version <= 31)%nat ->
  (length (mqtt_packet measurement mac version r) <= 252)%nat.
Proof.
  intros Hr Hm Hmac Hv. pose proof (readings_lengths r Hr) as [].
  destruct Hr as (_ & _ & _ & _ & Hco & Hnox & _).
  destruct (raw_length _ Hco) as [? _]. destruct (raw_length _ Hnox) as [? _].
  unfold mqtt_packet. rewrite !length_app. lit_len. lia.
Qed.

Lemma two_length n : is_byte n -> (length (two n) <= 3)%nat.
Proof. apply pad_digits_length. Qed.

Lemma two_u8 n : (length (two (u8 n)) <= 3)%nat.
Proof. apply two_length. unfold is_byte. by apply (uwrap_range 8). Qed.

Lemma stamp_length r : readings_ok r -> (length (time_stamp r) <= 17)%nat.
Proof.
  intros (_ & _ & _ & _ & _ & _ & (_ & _ & _ & _ & _ & _ & Hh & Hmi & Hs) & Hu). unfold time_stamp.
  destruct (_ || _); cbv zeta; rewrite !length_app; lit_len.
  - pose proof (two_u8 (rd_uptime r mod 3600 / 60)). pose proof (two_u8 ((rd_uptime r mod 3600) mod 60)).
    assert (length (fmt_u (rd_uptime r / 3600)) <= 7)%nat; [|lia].
    apply fmt_u_length; [lia|]. split; [apply Z.div_pos; lia|apply Z.div_lt_upper_bound; lia].
  - pose proof (two_length _ Hh). pose proof (two_length _ Hmi). pose proof (two_length _ Hs). lia.
Qed.

Lemma sd_packet_length mac topic r :
  readings_ok r -> length mac = 12%nat -> (length topic <= 100)%nat ->
  (length (sd_packet (time_stamp r) mac topic r) <= 233)%nat.
Proof.
  intros Hr Hmac Ht. pose proof (readings_lengths r Hr) as []. pose proof (stamp_length r Hr).
  destruct Hr as (_ & _ & _ & _ & Hco & Hnox & _).
  destruct (raw_length _ Hco) as [_ ?]. destruct (raw_length _ Hnox) as [_ ?].
  unfold sd_packet. rewrite !length_app. lit_len. lia.
Qed.

Lemma fmt_u_nonzero n : nonzero (fmt_u n).
Proof. eapply Forall_impl; [apply fmt_u_digits|]. cbn. lia. Qed.

Lemma fmt_d_nonzero n : nonzero (fmt_d n).
Proof. eapply Forall_impl; [apply fmt_d_chars|]. cbn. lia. Qed.

Lemma float_text_nonzero p x : nonzero (float_text p x).
Proof. apply fmt_f_nonzero. Qed.

Ltac solve_nonzero :=
  repeat lazymatch goal with |- nonzero (_ ++ _) => apply nonzero_app end;
  auto using fmt_u_nonzero, fmt_d_nonzero, float_text_nonzero, fmt_f_nonzero,
    pad_digits_nonzero with airu.

Lemma mqtt_packet_nonzero measurement mac version r :
  nonzero measurement -> nonzero mac -> nonzero version -> nonzero (mqtt_packet measurement mac version r).
Proof. intros. unfold mqtt_packet. solve_nonzero. Qed.

Lemma time_stamp_nonzero r : nonzero (time_stamp r).
Proof. unfold time_stamp, two. destruct (_ || _); cbv zeta; solve_nonzero. Qed.

Lemma sd_packet_nonzero stamp mac topic r :
  nonzero stamp -> nonzero mac -> nonzero topic -> nonzero (sd_packet stamp mac topic r).
Proof. intros. unfold sd_packet. solve_nonzero. Qed.

(** ** Polling *)

(** What the task relies on: malloc succeeds, the gas sensor's converter has 12
    bits, the uptime is below three centuries (10^16 microseconds).  Nothing is
    asked of the other calls. *)
Definition relied (e : ext) (a : answer) : Prop :=
  match e with
  | malloc _ => a_ret a <> 0
  | adc1_get_raw _ => raw_ok (a_ret a)
  | esp_timer_get_time => 0 <= a_ret a < 10 ^ 16
  | _ => True
  end.

Lemma mics_samples_ends {S} n c6 c7 h (s : S) :
  wpa relied (fun _ o s' => exists d6 d7, o = Done (c6 + d6, c7 + d7) /\ s' = s /\
    0 <= d6 <= 4095 * Z.of_nat n /\ 0 <= d7 <= 4095 * Z.of_nat n) (mics_samples n c6 c7) h s.
Proof.
  revert c6 c7 h. induction n as [|n IH]; intros c6 c7 h.
  - exists 0, 0. rewrite !Z.add_0_r. repeat split; lia.
  - cbn [mics_samples]. unfold mbind, prog_bind, call. cbn [bind wpa relied]. unfold raw_ok. intros a Ha b Hb.
    eapply wpa_mono; [|apply IH]. intros h' o s' (d6 & d7 & -> & -> & H6 & H7).
    exists (a_ret a + d6), (a_ret b + d7). rewrite !Z.add_assoc. repeat split; lia.
Qed.

Lemma mics_poll_ends {S} h (s : S) :
  wpa relied (ends (fun '(a, b) s' => raw_ok a /\ raw_ok b /\ s' = s)) MICS4514_Poll h s.
Proof.
  unfold MICS4514_Poll, mbind, prog_bind. apply wpa_bind.
  eapply wpa_mono; [|apply mics_samples_ends]. intros h' o s' (d6 & d7 & -> & -> & H6 & H7).
  cbn [mret prog_ret wpa ends ending]. rewrite !Z.add_0_l. unfold NO_OF_SAMPLES, raw_ok in *.
  change (Z.of_nat 64) with 64 in *. rewrite !Z.quot_div_nonneg by lia.
  assert (forall d, 0 <= d <= 4095 * 64 -> 0 <= d / 64 < 4096) as Hd
    by (intros d Hd; split; [apply Z.div_pos; lia|apply Z.div_lt_upper_bound; lia]).
  pose proof (Hd d6 H6). pose proof (Hd d7 H7). rewrite !swrap_small by lia. done.
Qed.

Lemma hdc_values_ok m1 l1 m2 l2 :
  0 <= m1 < 256 -> 0 <= l1 < 256 -> 0 <= m2 < 256 -> 0 <= l2 < 256 -> climate_ok (hdc_temp m1 l1, hdc_hum m2 l2).
Proof.
  intros. destruct (readings_exact m1 l1) as [Ht _]; [done..|]. destruct (readings_exact m2 l2) as [_ Hh]; [done..|].
  cbv zeta in *. split; cbn [fst snd]; [rewrite Ht|rewrite Hh]; apply at_most_dyadic; lia.
Qed.

Lemma hdc_poll_ends {S} vars h (s : S) : climate_ok vars ->
  wpa relied (ends (fun '(_, v) s' => climate_ok v /\ s' = s)) (HDC1080_Poll vars) h s.
Proof.
  intros Hv. unfold HDC1080_Poll, mbind, prog_bind, call, call_. cbn [bind wpa].
  intros a1 _ a2 _ a3 _ a4 _ a5 _ a6 _. destruct (negb _); [done|].
  cbn [bind wpa]. intros a7 _ a8 _ a9 _ a10 _ a11 _ a12 _ a13 _ a14 _ a15 _ a16 _ a17 _ a18 _.
  destruct (negb _); [done|]. split; [|done]. apply hdc_values_ok; apply data_byte_range.
Qed.

(** The averages a poll reports are in range, if there are samples. *)
Definition dust_averages_ok (d : pm_data) : Prop :=
  sample_count d = 0 \/
  let n := f32_of_Z (sample_count d) in
  dust_ok (f32_div (pm1 d) n) /\ dust_ok (f32_div (pm2_5 d) n) /\ dust_ok (f32_div (pm10 d) n).

#[export] Instance dust_averages_ok_dec d : Decision (dust_averages_ok d).
Proof. unfold dust_averages_ok, dust_ok. cbv zeta. apply _. Defined.

Lemma pms_poll_ends h (s : Pm.pm) : dust_averages_ok (pm_accum s) ->
  wpa relied (ends (fun '(_, (a1, a2, a3)) s' => dust_ok a1 /\ dust_ok a2 /\ dust_ok a3 /\
    sample_count (pm_accum s') = 0)) PMS_Poll h s.
Proof.
  intros Hs. unfold PMS_Poll, mbind, prog_bind, get. cbn [bind wpa].
  destruct (Z.eqb_spec (sample_count (pm_accum s)) 0) as [E|E].
  - cbn [mret prog_ret wpa ends ending]. assert (dust_ok minus_one) by (vm_compute; discriminate). done.
  - destruct Hs as [|(H1 & H2 & H3)]; [done|].
    cbn [bind wpa]. unfold _pm_accum_rst, mbind, prog_bind, modify. cbn [bind wpa]. done.
Qed.

(** ** A round never leaves its buffers *)

Definition device_ok (mac : list Z) (s : device) : Prop :=
  cstr (DEVICE_MAC (dv_app s)) = Some mac /\ length mac = 12%nat /\ sd_ok (dv_sd s) /\
  fix_ok (esp_gps (dv_gps s)) /\ dust_averages_ok (pm_accum (dv_pm s)).

(** What each part does to the whole. *)
Lemma in_pm_wpa {X} (p : pprog X) Q h s :
  wpa relied (fun h o t => Q h o (set_dv_pm t s)) p h (dv_pm s) -> wpa relied Q (in_pm p) h s.
Proof. by apply zoom_wpa; [|intros []|]. Qed.

Lemma in_gps_wpa {X} (p : gprog X) Q h s :
  wpa relied (fun h o t => Q h o (set_dv_gps t s)) p h (dv_gps s) -> wpa relied Q (in_gps p) h s.
Proof. by apply zoom_wpa; [|intros []|]. Qed.

Lemma in_sd_wpa {X} (p : sdprog X) Q h s :
  wpa relied (fun h o t => Q h o (set_dv_sd t s)) p h (dv_sd s) -> wpa relied Q (in_sd p) h s.
Proof. by apply zoom_wpa; [|intros []|]. Qed.

Lemma in_mqtt_wpa {X} (p : mprog X) Q h s :
  wpa relied (fun h o t => Q h o (set_dv_mqtt t s)) p h (dv_mqtt s) -> wpa relied Q (in_mqtt p) h s.
Proof. by apply zoom_wpa; [|intros []|]. Qed.

Lemma poll_sensors_ends vars mac h s : device_ok mac s -> climate_ok vars ->
  wpa relied (ends (fun r s' => device_ok mac s' /\ readings_ok r)) (poll_sensors vars) h s.
Proof.
  intros (Hm & Hl & Hsd & Hfix & Hd) Hv. unfold poll_sensors, mbind, prog_bind.
  apply (ends_bind _ (fun '(_, (a1, a2, a3)) s' => (dust_ok a1 /\ dust_ok a2 /\ dust_ok a3) /\
    dv_app s' = dv_app s /\ dv_sd s' = dv_sd s /\ dv_gps s' = dv_gps s /\ sample_count (pm_accum (dv_pm s')) = 0)).
  { apply in_pm_wpa. eapply wpa_mono; [|by apply pms_poll_ends].
    intros h' [[e [[a1 a2] a3]]|[]|] t; cbn [ends ending]; try done. intros (? & ? & ? & ?). done. }
  intros h1 [e [[a1 a2] a3]] s1 ((Ha1 & Ha2 & Ha3) & Happ & Es & Eg & Hc).
  apply (ends_bind _ (fun '(_, v) s' => climate_ok v /\ s' = s1)); [by apply hdc_poll_ends|].
  intros h2 [e2 [temp hum]] s2 [Hv2 ->].
  apply (ends_bind _ (fun '(a, b) s' => raw_ok a /\ raw_ok b /\ s' = s1)); [by apply mics_poll_ends|].
  intros h3 [nox co] s3 (Hnox & Hco & ->).
  apply (ends_bind _ (fun g s' => g = esp_gps (dv_gps s) /\ s' = s1)).
  { apply in_gps_wpa. rewrite Eg. unfold GPS_Poll, mbind, prog_bind, get. cbn [bind wpa mret prog_ret ends ending].
    split; [by destruct (esp_gps (dv_gps s))|]. rewrite <- Eg. by destruct s1. }
  intros h4 g s4 [-> ->]. unfold call. cbn [bind wpa relied]. intros t Ht.
  cbn [mret prog_ret wpa ends ending]. split.
  - split; [by rewrite Happ|]. split; [done|]. rewrite Es, Eg. split; [done|]. split; [done|]. by left.
  - assert (0 <= Z.quot (a_ret t) 1000000 < 10 ^ 10).
    { rewrite Z.quot_div_nonneg by lia. split; [apply Z.div_pos; lia|apply Z.div_lt_upper_bound; lia]. }
    unfold readings_ok. cbn [rd_pm1 rd_pm2_5 rd_pm10 rd_temp rd_hum rd_co rd_nox rd_gps rd_uptime].
    rewrite uwrap_small by lia. done.
Qed.

Section safety.
Variables CONFIG_INFLUX_MEASUREMENT_NAME CONFIG_MQTT_ROOT_TOPIC CONFIG_MQTT_DATA_PUB_TOPIC : list Z.
Variable CONFIG_DATA_UPLOAD_PERIOD : Z.
Variables CONFIG_SD_DATA_STORE CONFIG_SD_CARD_DEBUG : bool.

Local Abbreviation data_topic := (MQTT_DATA_PUB_TOPIC CONFIG_MQTT_ROOT_TOPIC CONFIG_MQTT_DATA_PUB_TOPIC).
Local Abbreviation send := (send_packet CONFIG_INFLUX_MEASUREMENT_NAME CONFIG_MQTT_ROOT_TOPIC CONFIG_MQTT_DATA_PUB_TOPIC
  CONFIG_SD_DATA_STORE CONFIG_SD_CARD_DEBUG).
Local Abbreviation round := (data_task_round CONFIG_INFLUX_MEASUREMENT_NAME CONFIG_MQTT_ROOT_TOPIC CONFIG_MQTT_DATA_PUB_TOPIC
  CONFIG_DATA_UPLOAD_PERIOD CONFIG_SD_DATA_STORE CONFIG_SD_CARD_DEBUG).
Local Abbreviation packet := (mqtt_packet CONFIG_INFLUX_MEASUREMENT_NAME).

(** The configured texts leave the numbers their room. *)
Definition config_ok : Prop :=
  nonzero CONFIG_INFLUX_MEASUREMENT_NAME /\ (length CONFIG_INFLUX_MEASUREMENT_NAME <= 10)%nat /\
  nonzero data_topic /\ (length data_topic <= 100)%nat.

Lemma write_fits b t : nonzero t -> (length t < length b)%nat ->
  exists b', strcpy b 0 t = Some b' /\ length b' = length b /\ cstr b' = Some t.
Proof.
  intros Ht Hl. unfold strcpy. rewrite write_some by (rewrite length_app; cbn [length]; lia).
  eexists. split; [reflexivity|]. rewrite Nat.add_0_l, take_0. cbn [app]. split.
  - rewrite !length_app, length_drop. cbn [length]. lia.
  - rewrite <- app_assoc. by apply cstr_app.
Qed.

Lemma store_packet_ends pkt mac r h s : config_ok ->
  length pkt = MQTT_PKT_LEN -> nonzero mac -> device_ok mac s -> readings_ok r ->
  wpa relied (ends (fun _ s' => device_ok mac s'))
    (store_packet CONFIG_MQTT_ROOT_TOPIC CONFIG_MQTT_DATA_PUB_TOPIC CONFIG_SD_CARD_DEBUG pkt mac r) h s.
Proof.
  intros (_ & _ & Ht & Htl) Hp Hmac (Hm & Hl & Hsd & Hfix & Hd) Hr.
  unfold store_packet, mbind, prog_bind, call, call_. cbn [bind wpa]. intros a1 _ a2 _ a3 _.
  pose proof (strcpy_room 64 (time_stamp r) (time_stamp_nonzero r)) as Estamp.
  unfold mbind in Estamp. rewrite Estamp by (pose proof (stamp_length r Hr); lia). cbn [try bind].
  destruct (write_fits pkt (sd_packet (time_stamp r) mac data_topic r)) as (b & Eb & _ & Ec).
  { by apply sd_packet_nonzero; [apply time_stamp_nonzero| |]. }
  { pose proof (sd_packet_length mac data_topic r Hr Hl Htl). rewrite Hp. unfold MQTT_PKT_LEN. lia. }
  rewrite Eb. cbn [option_bind]. rewrite Ec. cbn [try bind].
  apply (ends_bind _ (fun _ s' => device_ok mac s')).
  - apply in_sd_wpa. destruct Hr as (_ & _ & _ & _ & _ & _ & (_ & _ & _ & Hy & Hmo & Hda & _) & _).
    unfold sd_write_data, mbind, prog_bind. pose proof (data_name_fits _ _ _ Hy Hmo Hda) as En. unfold mbind in En.
    rewrite En. unfold call, call_. cbn [try bind wpa]. intros st _ f _.
    destruct (Z.eqb (a_ret f) 0); [done|]. destruct (negb _); cbn [when bind wpa]; by intros.
  - intros h' _ s' (Hm' & Hl' & Hsd' & Hrest). apply in_sd_wpa.
    eapply wpa_answers; [|eapply wpa_mono; [|apply (callback_ends _ _ _ Hsd')]]; [done|].
    intros h2 [x|[]|] t; cbn [ends ending]; done.
Qed.

Lemma send_packet_ends app_desc version mac r h s : config_ok ->
  app_version app_desc = Some version -> (length version <= 31)%nat -> device_ok mac s -> readings_ok r ->
  wpa relied (ends (fun _ s' => device_ok mac s')) (send app_desc r) h s.
Proof.
  intros Hcfg Hv Hvl Hs Hr. pose proof Hcfg as (Hn & Hnl & _). pose proof Hs as (Hm & Hl & _).
  assert (nonzero mac) as Hmac by (by apply cstr_inv in Hm as [? _]).
  assert (nonzero version) as Hvn.
  { unfold app_version in Hv. destruct (Z.eqb _ 0); [done|]. by apply cstr_inv in Hv as [? _]. }
  unfold send_packet, heap_alloc, mbind, prog_bind, get. cbn [bind wpa relied]. intros m Hm0.
  rewrite (proj2 (Z.eqb_neq (a_ret m) 0)) by done. cbn [snd fst]. rewrite Hm, Hv. cbn [try bind option_bind].
  destruct (write_fits (resize MQTT_PKT_LEN 0 (a_bytes m)) (packet mac version r)) as (b & Eb & Hb & Ec).
  { by apply mqtt_packet_nonzero. }
  { pose proof (packet_length _ mac version r Hr Hnl Hl Hvl). rewrite length_resize. unfold MQTT_PKT_LEN. lia. }
  rewrite Eb. cbn [try bind]. rewrite Ec. cbn [try bind]. rewrite length_resize in Hb.
  apply (ends_bind _ (fun _ s' => device_ok mac s')).
  { apply in_mqtt_wpa. unfold MQTT_Publish_Data, MQTT_Publish_General, mbind, prog_bind, get, call. cbn [bind wpa].
    destruct (client_connected _); cbn [bind wpa mret prog_ret]; by destruct s. }
  clear h s Hs Hm. intros h err s Hs. apply (ends_bind _ (fun _ s' => device_ok mac s')).
  { destruct (Z.leb _ err); [done|]. by intros a _. }
  clear h s Hs. intros h _ s Hs. apply (ends_bind _ (fun _ s' => device_ok mac s')).
  { destruct CONFIG_SD_DATA_STORE; cbn [when]; [|done]. by apply store_packet_ends. }
  clear h s Hs. intros h _ s Hs. by intros a _.
Qed.

(** C25: A round, without interference of the other tasks, writes no byte outside the
    packet and the other buffers and leaves the device and the task's variables
    fit for the next round, under these assumptions: the measurement's name has
    at most 10 characters and the data topic at most 100 ([config_ok]), the
    version at most 31 and the MAC's text 12; the last fix, the averages of the
    dust and the variables of temperature and humidity are in range
    ([device_ok], [climate_ok]); malloc succeeds, the converter has 12 bits and
    the timer is below 10^16 ([relied]).  The other calls, those of the I2C bus,
    the card and the client among them, answer what they like. *)
Theorem data_round_safe app_desc version vars mac s tr o s' : config_ok ->
  app_version app_desc = Some version -> (length version <= 31)%nat ->
  device_ok mac s -> climate_ok vars ->
  exec eq (round app_desc vars) s tr o s' -> Forall (fun c => relied (fst c) (snd c)) tr ->
  o <> Stopped UB /\ forall v, o = Done v -> device_ok mac s' /\ climate_ok v.
Proof.
  intros Hcfg Hv Hvl Hs Hvars He HA.
  assert (wpa relied (ends (fun v s' => device_ok mac s' /\ climate_ok v)) (round app_desc vars) [] s) as Hw.
  { unfold data_task_round, mbind, prog_bind, call_. cbn [bind wpa]. intros d _.
    eapply ends_bind; [by apply (poll_sensors_ends vars mac)|].
    intros h r s1 [Hs1 Hr]. cbv beta. apply (ends_bind _ (fun _ s' => device_ok mac s')).
    - by eapply send_packet_ends.
    - intros h1 _ s2 Hs2. cbn [mret prog_ret wpa ends ending]. split; [done|]. by destruct Hr as (_ & _ & _ & Hc & _). }
  destruct o as [v|e|]; [| |done].
  - pose proof (wpa_exec _ _ _ _ _ _ _ _ Hw He HA ltac:(done)) as [H1 H2]. split; [done|]. by intros ? [= <-].
  - pose proof (wpa_exec _ _ _ _ _ _ _ _ Hw He HA ltac:(done)) as H. split; [|done]. intros [= ->]. exact H.
Qed.

(** ** What a round publishes *)

Definition text_fits (m : answer) (text : list Z) : bool :=
  negb (Z.eqb (a_ret m) 0) && Nat.ltb (length text) MQTT_PKT_LEN.

(** The message was handed to the client, which took it. *)
Definition accepted (s : device) (pub : answer) : bool :=
  client_connected (dv_mqtt s) && Z.leb ESP_OK (a_ret pub).

Definition asks_for_ping (b : answer) : ctrace := [(xEventGroupSetBits WIFI_EG WIFI_MANAGER_REQUEST_PING_TEST, b)].

Lemma shift_logs_quiet fuel i : only (fun e => is_publish e = false) any (shift_logs fuel i).
Proof. revert i. induction fuel; intros i; [done|]. cbn [shift_logs]. solve_only. Qed.

#[local] Hint Resolve shift_logs_quiet : airu.

Lemma store_packet_quiet pkt mac r : only (fun e => is_publish e = false) any
  (store_packet CONFIG_MQTT_ROOT_TOPIC CONFIG_MQTT_DATA_PUB_TOPIC CONFIG_SD_CARD_DEBUG pkt mac r).
Proof.
  unfold store_packet, mbind, prog_bind, call, call_. cbn [bind only].
  repeat (split; [done|]; intros ?). do 2 (apply (only_bind _ any); [by destruct (_ : option _)|]; intros ? _).
  apply (only_bind _ any); [|intros ? _]; apply zoom_only; solve_only.
Qed.

Lemma in_sd_keeps {X} (p : sdprog X) h s n : last_publish s = n ->
  wpa (fun _ _ => True) (fun _ _ s' => last_publish s' = n) (in_sd p) h s.
Proof. intros <-. by apply zoom_wpa; [|intros []| |apply wpa_always]. Qed.

Lemma store_packet_keeps pkt mac r h s :
  wpa (fun _ _ => True) (fun _ _ s' => last_publish s' = last_publish s)
  (store_packet CONFIG_MQTT_ROOT_TOPIC CONFIG_MQTT_DATA_PUB_TOPIC CONFIG_SD_CARD_DEBUG pkt mac r) h s.
Proof.
  unfold store_packet, mbind, prog_bind, call, call_. cbn [bind wpa]. intros a1 _ a2 _ a3 _.
  destruct (option_bind _ _ _ _) as [stamp|]; cbn [try bind wpa]; [|done].
  destruct (option_bind _ _ _ _) as [text|]; cbn [try bind wpa]; [|done].
  apply wpa_bind. eapply wpa_mono; [|by apply in_sd_keeps].
  intros h' [x|e|] s' Hs; [by apply in_sd_keeps|exact Hs|done].
Qed.

(** What is left of a round after the publication. *)
Lemma rest_of_round buf mac r m h s :
  wpa (fun _ _ => True) (fun h' _ s' => exists rest, h' = h ++ rest /\ last_publish s' = last_publish s /\
      Forall (fun c => is_publish (fst c) = false) rest)
    (bind (fun _ => call_ (free (a_ret m))) (when CONFIG_SD_DATA_STORE
      (store_packet CONFIG_MQTT_ROOT_TOPIC CONFIG_MQTT_DATA_PUB_TOPIC CONFIG_SD_CARD_DEBUG buf mac r))) h s.
Proof.
  eapply wpa_mono; [|apply (wpa_and _ (fun h' _ _ => exists t, h' = h ++ t /\ Forall (fun c => is_publish (fst c) = false) t)
    (fun _ _ s' => last_publish s' = last_publish s))].
  - intros h' o s' [(t & -> & Ht) Hs]. by exists t.
  - eapply wpa_mono; [|apply (wpa_only _ (fun e => is_publish e = false) any)]; [by intros h' o s' [H _]|].
    apply (only_bind _ any); [|by intros ? _]. destruct CONFIG_SD_DATA_STORE; [apply store_packet_quiet|done].
  - apply wpa_bind. destruct CONFIG_SD_DATA_STORE; cbn [when wpa call_]; [|by intros].
    eapply wpa_mono; [|apply store_packet_keeps]. intros h' [x|e|] s' Hs; cbn [call_ wpa]; [by intros|exact Hs|done].
Qed.

Lemma publish_then_rest buf text mac r m h s :
  wpa (fun _ _ => True) (fun h' _ s' => exists pub b rest,
      h' = h ++ publication (dv_mqtt s) data_topic text pub ++ (if accepted s pub then [] else asks_for_ping b) ++ rest /\
      last_publish s' = (if accepted s pub then s32 (rd_uptime r) else last_publish s) /\
      Forall (fun c => is_publish (fst c) = false) rest)
    (bind (fun err => bind (fun _ => bind (fun _ => call_ (free (a_ret m))) (when CONFIG_SD_DATA_STORE
        (store_packet CONFIG_MQTT_ROOT_TOPIC CONFIG_MQTT_DATA_PUB_TOPIC CONFIG_SD_CARD_DEBUG buf mac r)))
      (if Z.leb ESP_OK err then modify (set_last_publish (s32 (rd_uptime r))) else wifi_manager_check_connection_async))
     (in_mqtt (MQTT_Publish_Data CONFIG_MQTT_ROOT_TOPIC CONFIG_MQTT_DATA_PUB_TOPIC text))) h s.
Proof.
  unfold MQTT_Publish_Data, MQTT_Publish_General, wifi_manager_check_connection_async, wifi_set, modify,
    mbind, prog_bind, get, call, call_, accepted, publication, asks_for_ping. cbn [bind zoom wpa].
  destruct (client_connected (dv_mqtt s)); cbn [bind zoom wpa mret prog_ret andb].
  - intros pub _. destruct (Z.leb ESP_OK (a_ret pub)) eqn:E; cbn [bind wpa].
    + eapply wpa_mono; [|apply rest_of_round]. intros h' o s' (rest & -> & Hp & Hr).
      exists pub, pub, rest. rewrite E, <- app_assoc. done.
    + intros b _. eapply wpa_mono; [|apply rest_of_round]. intros h' o s' (rest & -> & Hp & Hr).
      exists pub, b, rest. rewrite E, <- !app_assoc. done.
  - change (Z.leb ESP_OK ESP_FAIL) with false. cbn [bind wpa].
    intros b _. eapply wpa_mono; [|apply rest_of_round]. intros h' o s' (rest & -> & Hp & Hr).
    exists b, b, rest. rewrite <- !app_assoc. done.
Qed.

(** C27: Every round that sends its readings publishes exactly their packet, when
    there is a connection; when the client does not take it the Wi-Fi manager
    is asked to look at the connection, and the time of the last publication
    stays.  A packet that does not fit the block of 256 bytes, or no block,
    makes the task write outside. *)
Theorem packet_sent app_desc version mac r s tr o s' :
  cstr (DEVICE_MAC (dv_app s)) = Some mac -> app_version app_desc = Some version ->
  nonzero CONFIG_INFLUX_MEASUREMENT_NAME ->
  exec eq (send app_desc r) s tr o s' -> o <> Running ->
  let text := packet mac version r in
  exists m, if text_fits m text then
    exists pub b rest, tr = (malloc 256, m) :: publication (dv_mqtt s) data_topic text pub ++
      (if accepted s pub then [] else asks_for_ping b) ++ rest /\
      last_publish s' = (if accepted s pub then s32 (rd_uptime r) else last_publish s) /\
      Forall (fun c => is_publish (fst c) = false) rest
  else tr = [(malloc 256, m)] /\ o = Stopped UB /\ s' = s.
Proof.
  intros Hm Hv Hn He Ho text.
  assert (nonzero mac) as Hmac by (by apply cstr_inv in Hm as [? _]).
  assert (nonzero version) as Hvn.
  { unfold app_version in Hv. destruct (Z.eqb _ 0); [done|]. by apply cstr_inv in Hv as [? _]. }
  assert (nonzero text) as Htn by by apply mqtt_packet_nonzero.
  refine (wpa_exec (fun _ _ => True) (fun h o s' => exists m, if text_fits m text then
    exists pub b rest, h = (malloc 256, m) :: publication (dv_mqtt s) data_topic text pub ++
      (if accepted s pub then [] else asks_for_ping b) ++ rest /\
      last_publish s' = (if accepted s pub then s32 (rd_uptime r) else last_publish s) /\
      Forall (fun c => is_publish (fst c) = false) rest
    else h = [(malloc 256, m)] /\ o = Stopped UB /\ s' = s) _ [] s tr o s' _ He ltac:(by apply Forall_true) Ho).
  unfold send_packet, heap_alloc, mbind, prog_bind, get. cbn [bind wpa]. intros m _.
  cbn [snd fst]. rewrite Hm, Hv. cbn [try bind]. fold text.
  destruct (Z.eqb (a_ret m) 0) eqn:Em.
  { cbn [option_bind try bind wpa]. exists m. unfold text_fits. by rewrite Em. }
  cbn [option_bind]. destruct (Nat.ltb_spec (length text) MQTT_PKT_LEN) as [Hl|Hl].
  - destruct (write_fits (resize MQTT_PKT_LEN 0 (a_bytes m)) text) as (buf & Eb & _ & Ec); [done|by rewrite length_resize|].
    rewrite Eb. cbn [try bind]. rewrite Ec. cbn [try bind].
    assert (text_fits m text = true) as Hfit by (unfold text_fits; rewrite Em; by apply Nat.ltb_lt).
    apply (wpa_mono _ (fun h _ s' => exists pub b rest,
      h = (malloc 256, m) :: publication (dv_mqtt s) data_topic text pub ++
        (if accepted s pub then [] else asks_for_ping b) ++ rest /\
      last_publish s' = (if accepted s pub then s32 (rd_uptime r) else last_publish s) /\
      Forall (fun c => is_publish (fst c) = false) rest)).
    { intros h o' t H. exists m. by rewrite Hfit. }
    exact (publish_then_rest buf text mac r m ([] ++ [(malloc (Z.of_nat MQTT_PKT_LEN), m)]) s).
  - assert (strcpy (resize MQTT_PKT_LEN 0 (a_bytes m)) 0 text = None) as ->.
    { unfold strcpy. apply write_none. rewrite length_resize, length_app. cbn [length]. lia. }
    cbn [try bind wpa]. exists m. unfold text_fits. rewrite (proj2 (Nat.ltb_ge _ _)) by done.
    by rewrite andb_false_r.
Qed.

(** ** A sensor that never answered *)

(** The humidity sensor fails; memory is there. *)
Definition hdc_fails (e : ext) (a : answer) : Prop :=
  match e with
  | i2c_master_cmd_begin _ _ _ => a_ret a <> ESP_OK
  | malloc _ => a_ret a <> 0
  | _ => True
  end.

(** [p] returns, whatever the statics, a value with [P]. *)
Definition returns {S X} (P : X -> Prop) : ctrace -> outcome X -> S -> Prop := fun _ o _ => exists x, o = Done x /\ P x.

Lemma returns_bind {S X Y} A0 (P : X -> Prop) Q (f : X -> cprog S Y) p h s :
  wpa A0 (returns P) p h s -> (forall h x s, P x -> wpa A0 Q (f x) h s) -> wpa A0 Q (bind f p) h s.
Proof. intros Hp Hf. apply wpa_bind. eapply wpa_mono; [|exact Hp]. intros h' o s' (x & -> & Hx). by apply Hf. Qed.

Lemma mics_samples_returns {S} n c6 c7 h (s : S) : wpa hdc_fails (returns any) (mics_samples n c6 c7) h s.
Proof.
  revert c6 c7 h. induction n as [|n IH]; intros c6 c7 h; [by eexists|].
  cbn [mics_samples]. unfold mbind, prog_bind, call. cbn [bind wpa]. intros a Ha b Hb. apply IH.
Qed.

Lemma poll_without_hdc vars h s : wpa hdc_fails (returns (fun r => rd_temp r = fst vars)) (poll_sensors vars) h s.
Proof.
  unfold poll_sensors, mbind, prog_bind. apply (returns_bind _ any).
  { unfold PMS_Poll, _pm_accum_rst, mbind, prog_bind, get, modify. cbn [bind zoom wpa].
    destruct (Z.eqb _ 0); cbn; by eexists. }
  intros h1 [e [[a1 a2] a3]] s1 _. apply (returns_bind _ (fun v => snd v = vars)).
  { unfold HDC1080_Poll, mbind, prog_bind, call, call_. cbn [bind wpa hdc_fails].
    intros b1 _ b2 _ b3 _ b4 _ b5 _ b6 H6. rewrite (proj2 (Z.eqb_neq _ _) H6). by eexists. }
  intros h2 [e2 [temp hum]] s2 Hv. cbn [snd] in Hv. apply (returns_bind _ any).
  { unfold MICS4514_Poll, mbind, prog_bind. apply (returns_bind _ any); [apply mics_samples_returns|].
    intros h3 [c6 c7] s3 _. by eexists. }
  intros h3 [nox co] s3 _. apply (returns_bind _ any).
  { unfold GPS_Poll, mbind, prog_bind, get. cbn [bind zoom wpa mret prog_ret]. by eexists. }
  intros h4 g s4 _. unfold call. cbn [bind wpa]. intros t _. eexists. split; [reflexivity|]. by rewrite <- Hv.
Qed.

Lemma overlong_packet_stops app_desc r h s :
  (256 <= length (fmt_f 2 (rd_temp r)))%nat -> wpa hdc_fails (fun _ o _ => o = Stopped UB) (send app_desc r) h s.
Proof.
  intros Hl. unfold send_packet, heap_alloc, mbind, prog_bind, get. cbn [bind wpa hdc_fails]. intros m Hm0.
  rewrite (proj2 (Z.eqb_neq (a_ret m) 0)) by done. cbn [snd fst].
  destruct (cstr _) as [mac|]; cbn [try bind wpa]; [|done].
  destruct (app_version app_desc) as [version|]; cbn [try bind wpa]; [|done].
  cbn [option_bind]. assert (strcpy (resize MQTT_PKT_LEN 0 (a_bytes m)) 0 (packet mac version r) = None) as ->; [|done].
  unfold strcpy. apply write_none. unfold mqtt_packet. rewrite length_resize, !length_app.
  change (length [0]) with 1%nat. unfold MQTT_PKT_LEN. lia.
Qed.

(** The variables of the temperature and the humidity have no initial value.
    When the first measurement fails, what happens to be in them is printed;
    a number of a large magnitude is longer than the whole packet's block. *)
Theorem failed_sensor_overflow app_desc vars s tr o s' :
  (256 <= length (fmt_f 2 (fst vars)))%nat ->
  exec eq (round app_desc vars) s tr o s' -> Forall (fun c => hdc_fails (fst c) (snd c)) tr ->
  o <> Running -> o = Stopped UB.
Proof.
  intros Hl He HA Ho. refine (wpa_exec hdc_fails (fun _ o _ => o = Stopped UB) _ [] s tr o s' _ He HA Ho).
  unfold data_task_round, mbind, prog_bind, call_. cbn [bind wpa]. intros d _.
  eapply returns_bind; [apply poll_without_hdc|]. intros h r s1 Hr. cbv beta in Hr.
  apply wpa_bind. eapply wpa_mono; [|apply overlong_packet_stops; by rewrite Hr]. by intros h1 o1 s2 ->.
Qed.
End safety.

(** ** The order of the start *)

Definition eg_use (e : ext) : option event_group :=
  match e with
  | xEventGroupSetBits g _ | xEventGroupClearBits g _ | xEventGroupGetBits g
  | xEventGroupWaitBits g _ _ _ _ => Some g
  | _ => None
  end.

Definition made (g : event_group) (h : ctrace) : Prop := In (xEventGroupCreate g) (map fst h).

(** The Wi-Fi manager's task was created, and a delay of a second called since.
    Whether the task has run is not said: it is not part of the start. *)
Definition manager_had_a_second (h : ctrace) : Prop :=
  exists h1 h2, h = h1 ++ h2 /\ In (xTaskCreate (lit "wifi_manager") 6000 4) (map fst h1) /\
    In (vTaskDelay (1000 / portTICK_PERIOD_MS)) (map fst h2).

(** What holds of the calls [h] before a call [e]: a task is created when the
    group of the LEDs exists; the groups the start makes itself are used when
    they exist; the group of the Wi-Fi manager, which that task makes, only
    after the task was created and a second was waited. *)
Definition start_discipline (h : ctrace) (e : ext) : Prop :=
  match e with
  | xTaskCreate _ _ _ => made LED_EG h
  | _ => match eg_use e with
         | Some WIFI_EG => manager_had_a_second h
         | Some g => made g h
         | None => True
         end
  end.

Lemma made_app g h t : made g h -> made g (h ++ t).
Proof. unfold made. rewrite map_app. intros H. apply in_or_app. by left. Qed.

Lemma made_now g a h : made g (h ++ [(xEventGroupCreate g, a)]).
Proof. unfold made. rewrite map_app. apply in_or_app. right. by left. Qed.

Lemma manager_app h t : manager_had_a_second h -> manager_had_a_second (h ++ t).
Proof.
  intros (h1 & h2 & -> & H1 & H2). exists h1, (h2 ++ t). rewrite <- app_assoc, map_app. split; [done|].
  split; [done|]. apply in_or_app. by left.
Qed.

(** Calls that use no group and start no task; calls that may start one, or
    use the group of the LEDs. *)
Definition neutral (e : ext) : Prop := match e with xTaskCreate _ _ _ => False | _ => eg_use e = None end.
Definition driver_call (e : ext) : Prop := eg_use e = None \/ eg_use e = Some LED_EG.
Definition clock_call (e : ext) : Prop := match e with xTaskCreate _ _ _ => False | _ => eg_use e = None \/ eg_use e = Some NTP_EG end.

Lemma neutral_start h e : neutral e -> start_discipline h e.
Proof. by destruct e. Qed.

Lemma driver_start h e : made LED_EG h -> driver_call e -> start_discipline h e.
Proof. intros Hm [He|He]; destruct e; simplify_eq/=; done. Qed.

Lemma clock_start h e : made NTP_EG h -> clock_call e -> start_discipline h e.
Proof. intros Hm He. destruct e; try done; destruct He; simplify_eq/=; done. Qed.

Lemma sntp_tries_clock fuel w now retry : only clock_call any (sntp_tries fuel w now retry).
Proof.
  revert now retry. induction fuel as [|fuel IH]; intros now retry; [done|]. cbn [sntp_tries].
  destruct (Z.ltb _ _); [|done]. cbv zeta. destruct (Z.ltb _ _); [|done].
  unfold mbind, prog_bind, call_, call. cbn [bind only]. split; [by left|]. intros _. split; [by left|]. auto.
Qed.

Section start.
Variable CONFIG_SD_CARD_DEBUG : bool.

Lemma shift_logs_driver fuel i : only driver_call any (shift_logs fuel i).
Proof.
  revert i. induction fuel as [|fuel IH]; intros i; [done|]. cbn [shift_logs]. destruct (Z.ltb _ _); [|done].
  unfold mbind, prog_bind, call_. destruct (log_name_text i); [|done]. cbn [try bind only].
  split; [by left|]. intros _. destruct (log_name_text (i + 1)); [|done]. cbn [try bind only].
  split; [by left|]. intros _. split; [by left|]. intros _. apply IH.
Qed.

#[local] Hint Resolve shift_logs_driver : airu.
#[local] Hint Extern 1 (driver_call _) => first [by left | by right] : airu.
#[local] Hint Extern 1 (clock_call _) => first [by left | by right] : airu.

Lemma app_initialize_neutral : only neutral any APP_Initialize.
Proof. solve_only. Qed.

Lemma gps_initialize_driver : only driver_call any GPS_Initialize.
Proof. solve_only. Qed.

Lemma pms_initialize_driver : only driver_call any PMS_Initialize.
Proof. solve_only. Qed.

Lemma sd_initialize_driver : only driver_call any (SD_Initialize CONFIG_SD_CARD_DEBUG).
Proof. solve_only. Qed.

Lemma sntp_rest_clock : only clock_call any (bind (fun now => mret (if Z.ltb (u32 now) SEC_JAN1_2018 then -1 else 0))
  (_sntp_obtain_time 2)).
Proof.
  apply (only_bind _ any); [|done]. unfold _sntp_obtain_time, mbind, prog_bind.
  apply (only_bind _ any); [apply sntp_tries_clock|]. intros now _. destruct (Z.ltb _ _); [|done].
  split; [by right|done].
Qed.

Lemma mqtt_initialize_driver : only driver_call any MQTT_Initialize.
Proof. solve_only. Qed.

Lemma drivers_only {X} (p : dprog X) (f : X -> dprog unit) R h s :
  only driver_call any p -> made LED_EG h ->
  (forall x t s, made LED_EG (h ++ t) -> wp R (fun h _ e => start_discipline h e) (fun _ _ _ => True) (f x) (h ++ t) s) ->
  wp R (fun h _ e => start_discipline h e) (fun _ _ _ => True) (bind f p) h s.
Proof.
  intros Hp Hm Hf. eapply wp_only_bind; [exact Hp| | |].
  - intros t s' e _ He. apply driver_start; [by apply made_app|exact He].
  - done.
  - intros t x s' _ _. apply Hf. by apply made_app.
Qed.

(** C28: The calls of the start, whatever they answer and whatever the other tasks do
    to the statics meanwhile: every task is created after the group of the LEDs
    was made; the groups of the LEDs and of the clock are used after they were
    made; the group of the Wi-Fi manager, which its task makes, is used only
    after that task was created and the start called a delay of one second.
    That the task has made the group by then is hoped for by the code, and not
    claimed here. *)
Theorem start_order R s tr o s' : exec R (app_main CONFIG_SD_CARD_DEBUG) s tr o s' ->
  forall t1 e a t2, tr = t1 ++ (e, a) :: t2 -> start_discipline t1 e.
Proof.
  intros He. assert (wp R (fun h _ e => start_discipline h e) (fun _ _ _ => True) (app_main CONFIG_SD_CARD_DEBUG) [] s) as Hw.
  2:{ destruct (wp_exec _ _ _ _ _ _ _ _ _ Hw He) as [_ HG]. intros t1 e a t2 Ht. by destruct (HG t1 e a t2 Ht). }
  unfold app_main, mbind, prog_bind. eapply wp_only_bind; [apply zoom_only, app_initialize_neutral| | |].
  { intros t s1 e _. apply neutral_start. }
  { done. }
  intros t1 _ s1 _ _. unfold LED_Initialize, led_configure, ledc_channel, mbind, prog_bind, call_. cbn [bind wp mret prog_ret].
  do 4 (split; [exact I|]; intros ? ? _). split; [exact I|]. intros made_a u1 _. split; [apply (made_now LED_EG)|].
  intros clr u2 _. apply drivers_only; [apply zoom_only, gps_initialize_driver|apply made_app, made_now|].
  intros e1 t2 u3 Hm. apply drivers_only; [apply zoom_only, pms_initialize_driver|exact Hm|]. clear Hm.
  intros e2 t3 u4 Hm. apply drivers_only; [solve_only|exact Hm|]. clear Hm.
  intros e3 t4 u5 Hm. apply drivers_only; [solve_only|exact Hm|]. clear Hm.
  intros e4 t5 u6 Hm. apply drivers_only; [apply zoom_only, sd_initialize_driver|exact Hm|]. clear Hm.
  intros e5 t6 u7 Hm. set (h := _ ++ t6) in *. clearbody h.
  unfold start_tasks, mbind, prog_bind, call_. cbn [bind wp].
  do 6 (split; [by repeat apply made_app|]; intros ? ? _). split; [exact I|]. intros delay u8 _.
  match goal with |- wp _ _ _ _ ?h1 _ => assert (manager_had_a_second h1) as Hw end.
  { eexists _, [_]. split; [reflexivity|]. split; [|by left].
    rewrite !map_app. cbn [map fst app]. rewrite !in_app_iff. cbn [In]. intuition. }
  match goal with |- wp _ _ _ _ ?h1 _ => assert (made LED_EG h1) as Hm1 by (repeat apply made_app; exact Hm) end.
  match goal with |- wp _ _ _ _ ?h1 _ => set (h1' := h1) in *; clearbody h1' end.
  unfold SNTP_Initialize, wifi_manager_wait_internet_access, mbind, prog_bind, call_, call. cbn [bind zoom wp].
  split; [exact I|]. intros ntp u9 _. split; [apply (made_now NTP_EG)|].
  intros clr2 u10 _. split; [by repeat apply manager_app|]. intros inet u11 _.
  cbn [mret prog_ret bind zoom wp]. do 12 (split; [exact I|]; intros ? ? _).
  match goal with |- wp _ _ _ _ ?h _ => assert (made NTP_EG h) as Hntp by (do 14 apply made_app; apply made_now) end.
  match goal with |- wp _ _ _ _ ?h _ => assert (made LED_EG h) as Hled by (do 15 apply made_app; exact Hm1) end.
  match goal with |- wp _ _ _ _ ?h _ => set (h2 := h) in *; clearbody h2 end.
  eapply wp_only_bind; [apply zoom_only, sntp_rest_clock| | |].
  { intros t u12 e _ Hc. by apply clock_start; [apply made_app|]. }
  { done. }
  intros t z u13 _ _. eapply wp_only; [apply zoom_only, mqtt_initialize_driver| |done].
  intros t2' u14 e _ Hc. apply driver_start; [by do 2 apply made_app|exact Hc].
Qed.
End start.

(** ** Instances *)

#[export] Instance relied_dec e a : Decision (relied e a).
Proof. unfold relied, raw_ok. destruct e; apply _. Defined.
#[export] Instance hdc_fails_dec e a : Decision (hdc_fails e a).
Proof. unfold hdc_fails. destruct e; apply _. Defined.

Definition demo_device : device := Device demo_pm gps_start sd_start demo_mqtt clocks_start 0.
Definition demo_desc : answer := ret_bytes 4096 (lit "2.1.0" ++ [0; 0]).

(** 25.9997 degrees, raw gas readings of 300 and 500, up for an hour. *)
Definition polling (hdc : list answer) : list answer :=
  [ret_ 0] ++ hdc ++ concat (replicate 64 [ret_ 300; ret_ 500]) ++ [ret_ 3600000000].

Definition demo_round := data_task_round (lit "airQuality") (lit "airu") (lit "influx") 60 true false.

Definition round_run := run (demo_round demo_desc (f64_of_Z 0, f64_of_Z 0)) demo_device
  (polling hdc_answers ++ [ret_ 8192; ret_ 1; ret_ 0; ret_ 0; ret_ 0; ret_ (-1); ret_ 7; ret_ 0; ret_ 0; ret_ 0; ret_ 0]).

Example published_text : nth_error (map fst (fst (fst round_run))) 149 = Some (esp_mqtt_client_publish 9 (lit "airu/influx")
  (lit "airQuality,ID=240AC40001FF,SensorModel=H2+2.1.0 SecActive=3600,Altitude=-1.00,Latitude=-1.0000,Longitude=-1.0000,PM1=-1.00,PM2.5=-1.00,PM10=-1.00,Temperature=26.00,Humidity=50.00,CO=500,NO=300") 2).
Proof. vm_compute. reflexivity. Qed.

Example stored_text : nth_error (map fst (fst (fst round_run))) 156 = Some (fprintf 7
  (lit "1:00:00,240AC40001FF,airu/influx,3600,-1.00,-1.0000,-1.0000,-1.00,-1.00,-1.00,26.00,50.00,500,300\n")).
Proof. vm_compute. reflexivity. Qed.

Lemma demo_device_ok : device_ok (lit "240AC40001FF") demo_device.
Proof.
  split; [vm_compute; reflexivity|]. split; [reflexivity|]. split; [split; cbn; lia|].
  split; [|by left].
  apply (bool_decide_unpack (fix_ok (esp_gps gps_start))). vm_compute. exact I.
Qed.

Lemma demo_config_ok : config_ok (lit "airQuality") (lit "airu") (lit "influx").
Proof.
  split; [by apply nonzero_const|]. split; [apply Nat.leb_le; vm_compute; reflexivity|].
  split; [by apply nonzero_const|apply Nat.leb_le; vm_compute; reflexivity].
Qed.

Lemma run_self {X} (p : dprog X) s ans : let r := run p s ans in exec eq p s (fst (fst r)) (snd (fst r)) (snd r).
Proof. cbv zeta. apply (run_exec _ _ ans). by destruct (run p s ans) as [[? ?] ?]. Qed.

Lemma round_run_exec : exec eq (demo_round demo_desc (f64_of_Z 0, f64_of_Z 0)) demo_device
  (fst (fst round_run)) (snd (fst round_run)) (snd round_run).
Proof. apply run_self. Qed.

Lemma round_run_relied : Forall (fun c => relied (fst c) (snd c)) (fst (fst round_run)).
Proof. apply (bool_decide_unpack (Forall _ _)). vm_compute. exact I. Qed.

Lemma round_run_not_running : snd (fst round_run) <> Running.
Proof. vm_compute. discriminate. Qed.

Lemma demo_version : app_version demo_desc = Some (lit "2.1.0").
Proof. vm_compute. reflexivity. Qed.

Lemma short_version : (length (lit "2.1.0") <= 31)%nat.
Proof. apply Nat.leb_le. vm_compute. reflexivity. Qed.

Lemma climate_zero : climate_ok (f64_of_Z 0, f64_of_Z 0).
Proof. split; vm_compute; discriminate. Qed.

Lemma data_round_safe_witness : snd (fst round_run) <> Stopped UB /\
  forall v, snd (fst round_run) = Done v -> device_ok (lit "240AC40001FF") (snd round_run) /\ climate_ok v.
Proof.
  exact (data_round_safe (lit "airQuality") (lit "airu") (lit "influx") 60 true false demo_desc (lit "2.1.0")
    (f64_of_Z 0, f64_of_Z 0) (lit "240AC40001FF") demo_device _ _ _
    demo_config_ok demo_version short_version demo_device_ok climate_zero round_run_exec round_run_relied).
Defined.

Definition demo_readings : readings :=
  Readings minus_one minus_one minus_one (f64_of_Z 26) (f64_of_Z 50) 500 300 (esp_gps gps_start) 3600.

Definition demo_send := send_packet (lit "airQuality") (lit "airu") (lit "influx") false false demo_desc demo_readings.

(** The client refuses the message. *)
Definition send_run := run demo_send demo_device [ret_ 8192; ret_ (-1); ret_ 0; ret_ 0].

Lemma send_run_exec : exec eq demo_send demo_device (fst (fst send_run)) (snd (fst send_run)) (snd send_run).
Proof. exact (run_self demo_send demo_device [ret_ 8192; ret_ (-1); ret_ 0; ret_ 0]). Qed.

Lemma packet_sent_witness : let text := mqtt_packet (lit "airQuality") (lit "240AC40001FF") (lit "2.1.0") demo_readings in
  exists m, if text_fits m text then
    exists pub b rest, fst (fst send_run) = (malloc 256, m) ::
      publication (dv_mqtt demo_device) (MQTT_DATA_PUB_TOPIC (lit "airu") (lit "influx")) text pub ++
      (if accepted demo_device pub then [] else asks_for_ping b) ++ rest /\
      last_publish (snd send_run) = (if accepted demo_device pub then s32 (rd_uptime demo_readings) else last_publish demo_device) /\
      Forall (fun c => is_publish (fst c) = false) rest
  else fst (fst send_run) = [(malloc 256, m)] /\ snd (fst send_run) = Stopped UB /\ snd send_run = demo_device.
Proof.
  apply (packet_sent (lit "airQuality") (lit "airu") (lit "influx") false false demo_desc (lit "2.1.0")
    (lit "240AC40001FF") demo_readings demo_device (fst (fst send_run)) (snd (fst send_run)) (snd send_run)).
  - vm_compute. reflexivity.
  - exact demo_version.
  - by apply nonzero_const.
  - exact send_run_exec.
  - vm_compute. discriminate.
Defined.

(** The largest double in the place of the temperature. *)
Definition garbage : float64 := S754_finite false 9007199254740991 971.

Definition failed_answers : list answer :=
  polling [ret_ 1; ret_ 0; ret_ 0; ret_ 0; ret_ 0; ret_ (-1)] ++ [ret_ 8192].

Definition failed_run := run (demo_round demo_desc (garbage, f64_of_Z 0)) demo_device failed_answers.

Lemma failed_run_exec : exec eq (demo_round demo_desc (garbage, f64_of_Z 0)) demo_device
  (fst (fst failed_run)) (snd (fst failed_run)) (snd failed_run).
Proof. exact (run_self (demo_round demo_desc (garbage, f64_of_Z 0)) demo_device failed_answers). Qed.

Lemma garbage_length : (256 <= length (fmt_f 2 garbage))%nat.
Proof. apply Nat.leb_le. vm_compute. reflexivity. Qed.

Lemma failed_sensor_overflow_witness : snd (fst failed_run) = Stopped UB.
Proof.
  apply (failed_sensor_overflow (lit "airQuality") (lit "airu") (lit "influx") 60 true false demo_desc
    (garbage, f64_of_Z 0) demo_device (fst (fst failed_run)) (snd (fst failed_run)) (snd failed_run)).
  - exact garbage_length.
  - exact failed_run_exec.
  - apply (bool_decide_unpack (Forall _ _)). vm_compute. exact I.
  - vm_compute. discriminate.
Defined.

Definition main_run := run (app_main false) (set_dv_app app_start demo_device)
  ([demo_mac; ret_ 4096] ++ replicate 200 (ret_ 0)).

Lemma start_order_witness : snd (fst main_run) = Done tt /\
  forall t1 e a t2, fst (fst main_run) = t1 ++ (e, a) :: t2 -> start_discipline t1 e.
Proof.
  split; [vm_compute; reflexivity|].
  apply (start_order false eq (set_dv_app app_start demo_device) (fst (fst main_run)) (snd (fst main_run)) (snd main_run)).
  apply run_self.
Defined.
