(* ===== verification/Packets.v ===== *)
(** * The packets as their readers see them (mqtt_if.h, sd_if.h)

    A reader of comma-separated rows and one of the line protocol of InfluxDB;
    the daily file of the card and the packet sent over MQTT read back as the
    readings they were printed from, the decimals rounded to the nearest. *)

From Stdlib Require Import SpecFloat.
From S2P Require Import Prelude CMem Printf Ext Float32 FmtFloat Sd Main.
From S2P Require Import Gps.

Local Open Scope Z_scope.

(** ** Decimals *)

(** [z / 10^p] is a number with [p] decimals nearest to [x]. *)
Definition nearest (p : nat) (x : float64) (z : Z) : Prop :=
  match x with
  | S754_zero _ => z = 0
  | S754_finite s m e =>
      let v := cond_Zopp s (Zpos m) in
      if Z.leb 0 e then z = v * 2 ^ e * 10 ^ Z.of_nat p
      else 2 * Z.abs (z * 2 ^ (- e) - v * 10 ^ Z.of_nat p) <= 2 ^ (- e)
  | _ => False
  end.

Definition is_number (x : float64) : Prop :=
  match x with S754_zero _ | S754_finite _ _ _ => True | _ => False end.

Lemma round_even_nearest num den : 0 < den -> 2 * Z.abs (round_even num den * den - num) <= den.
Proof.
  intros Hd. unfold round_even.
  pose proof (Z.div_mod num den ltac:(lia)). pose proof (Z.mod_pos_bound num den Hd).
  destruct (Z.compare_spec (2 * (num mod den)) den); [destruct (Z.even _)| |]; nia.
Qed.

Lemma of_digits_zeros k ds : of_digits 10 (replicate k 0 ++ ds) = of_digits 10 ds.
Proof. unfold of_digits. induction k as [|k IH]; [done|]. cbn [replicate app foldl]. exact IH. Qed.

(** The digits of a padded number. *)
Lemma pad0_digits p n : (0 < p)%nat -> 0 <= n < 10 ^ Z.of_nat p ->
  exists ds, pad0 p (fmt_u n) = digit_char false <$> ds /\ Forall (fun d => 0 <= d < 10) ds /\
    length ds = p /\ of_digits 10 ds = n.
Proof.
  intros Hp Hn. exists (replicate (p - length (fmt_u n)) 0 ++ udigits 10 n). split_and!.
  - unfold pad0. rewrite fmap_app, fmap_replicate. done.
  - apply Forall_app. split; [by apply Forall_replicate|by apply udigits_bounds].
  - pose proof (fmt_u_length n p Hp Hn) as Hl. rewrite length_app, length_replicate.
    unfold fmt_u in *. rewrite length_fmap in *. lia.
  - rewrite of_digits_zeros. apply udigits_value; lia.
Qed.

(** ** Numbers in a text *)

(** The characters of a number. *)
Definition number_chars (t : list Z) : Prop := Forall (fun c => 45 <= c < 58) t.

Lemma fmt_u_chars n : number_chars (fmt_u n).
Proof. eapply Forall_impl; [apply fmt_u_digits|]. cbn. lia. Qed.

Lemma fmt_f_chars p x : is_number x -> number_chars (fmt_f p x).
Proof.
  assert (forall s n, number_chars (sign_text s ++ fmt_decimals p n)) as H.
  { intros s n. unfold number_chars, fmt_decimals, pad0.
    repeat apply Forall_app_2; try apply fmt_u_chars.
    - destruct s; repeat constructor; vm_compute; congruence.
    - repeat constructor; vm_compute; congruence.
    - by apply Forall_replicate. }
  destruct x; try done; intros _; apply H.
Qed.

(** The sign of a number, and the rest of the text. *)
Definition read_sign (t : list Z) : bool * list Z :=
  match t with
  | c :: t' => if Z.eqb c 45 then (true, t') else (false, t)
  | [] => (false, [])
  end.

(** [t] as a whole number. *)
Definition read_whole (t : list Z) : option Z :=
  let '(neg, t) := read_sign t in
  match span_digits t with
  | ((_ :: _) as whole, []) => Some (cond_Zopp neg (of_digits 10 whole))
  | _ => None
  end.

(** [t] as a number with [p] decimals, times 10^[p]. *)
Definition read_decimal (p : nat) (t : list Z) : option Z :=
  let '(neg, t) := read_sign t in
  match span_digits t with
  | ((_ :: _) as whole, point :: t) =>
      match span_digits t with
      | (decimals, []) =>
          if Z.eqb point 46 && Nat.eqb (length decimals) p then
            Some (cond_Zopp neg (of_digits 10 whole * 10 ^ Z.of_nat p + of_digits 10 decimals))
          else None
      | _ => None
      end
  | _ => None
  end.

Lemma read_sign_fmt_u n t : 0 <= n -> read_sign (fmt_u n ++ t) = (false, fmt_u n ++ t).
Proof.
  intros Hn. destruct (fmt_u_head n Hn) as (c & u & E & Hc). rewrite E. cbn [app read_sign].
  by rewrite (proj2 (Z.eqb_neq c 45)) by lia.
Qed.

Lemma span_fmt_u n t : 0 <= n -> no_digit t -> exists d ds,
  span_digits (fmt_u n ++ t) = (d :: ds, t) /\ of_digits 10 (d :: ds) = n.
Proof.
  intros Hn Ht. destruct (udigits_head n Hn) as (d & ds & E & _). exists d, ds. unfold fmt_u. split.
  - rewrite span_digits_fmt; [by rewrite E|by apply udigits_bounds|done].
  - rewrite <- E. by apply udigits_value.
Qed.

Lemma read_whole_fmt n : read_whole (fmt_d n) = Some n.
Proof.
  assert (forall m, 0 <= m -> exists d ds, span_digits (fmt_u m) = (d :: ds, []) /\ of_digits 10 (d :: ds) = m) as H.
  { intros m Hm. rewrite <- (app_nil_r (fmt_u m)). apply span_fmt_u; [done|]. by intros c r. }
  unfold read_whole, fmt_d. destruct (Z.ltb_spec n 0).
  - destruct (H (- n)) as (d & ds & E & Hv); [lia|]. change (read_sign (45 :: fmt_u (- n))) with (true, fmt_u (- n)).
    cbv beta iota. rewrite E. cbv beta iota. rewrite Hv. cbn [cond_Zopp]. f_equal. lia.
  - destruct (H n) as (d & ds & E & Hv); [lia|]. rewrite <- (app_nil_r (fmt_u n)), read_sign_fmt_u by lia.
    rewrite app_nil_r. cbv beta iota. rewrite E. cbv beta iota. by rewrite Hv.
Qed.

Lemma read_decimals p s n : (0 < p)%nat -> 0 <= n ->
  read_decimal p (sign_text s ++ fmt_decimals p n) = Some (cond_Zopp s n).
Proof.
  intros Hp Hn. assert (0 < 10 ^ Z.of_nat p) as Hten by (apply Z.pow_pos_nonneg; lia).
  pose proof (Z.div_pos n (10 ^ Z.of_nat p)) as Hq. pose proof (Z.mod_pos_bound n (10 ^ Z.of_nat p)) as Hm.
  set (frac := pad0 p (fmt_u (n mod 10 ^ Z.of_nat p))).
  assert (read_sign (sign_text s ++ fmt_decimals p n) = (s, fmt_u (n / 10 ^ Z.of_nat p) ++ 46 :: frac)) as Hs.
  { destruct s; [reflexivity|]. apply read_sign_fmt_u. lia. }
  unfold read_decimal. rewrite Hs.
  destruct (span_fmt_u (n / 10 ^ Z.of_nat p) (46 :: frac)) as (d & ds & E & Hv); [lia| |].
  { by intros c r [= <- <-]. }
  cbv beta iota. rewrite E. unfold frac. cbv beta iota.
  destruct (pad0_digits p (n mod 10 ^ Z.of_nat p) Hp) as (fs & Ef & Hb & Hl & Hf); [lia|].
  rewrite Ef, <- (app_nil_r (digit_char false <$> fs)), span_digits_fmt by (done || by intros ? ?).
  cbv beta iota. rewrite Hl, Nat.eqb_refl. change (46 =? 46) with true. cbv beta iota delta [andb]. rewrite Hv, Hf.
  rewrite Z.mul_comm, <- Z.div_mod by lia. done.
Qed.

(** What is printed with [p] decimals reads as a nearest number. *)
Lemma read_fmt_f p x : (0 < p)%nat -> is_number x ->
  exists z, read_decimal p (fmt_f p x) = Some z /\ nearest p x z.
Proof.
  intros Hp. destruct x as [s|s| |s m e]; try done; intros _; cbn [fmt_f nearest].
  - exists (cond_Zopp s 0). split; [by apply read_decimals|by destruct s].
  - assert (0 < 10 ^ Z.of_nat p) by (apply Z.pow_pos_nonneg; lia).
    exists (cond_Zopp s (scaled (Z.of_nat p) (Z.pos m) e)). split.
    + apply read_decimals; [done|]. unfold scaled. destruct (Z.leb_spec 0 e).
      * assert (0 < 2 ^ e) by (apply Z.pow_pos_nonneg; lia). nia.
      * apply round_even_nonneg; [apply Z.pow_pos_nonneg|]; lia.
    + unfold scaled. destruct (Z.leb_spec 0 e); [destruct s; cbn [cond_Zopp]; lia|].
      assert (0 < 2 ^ (- e)) as Hd by (apply Z.pow_pos_nonneg; lia).
      pose proof (round_even_nearest (Z.pos m * 10 ^ Z.of_nat p) _ Hd). destruct s; cbn [cond_Zopp]; lia.
Qed.

(** ** Rows and fields *)

(** The parts of a text between the separators. *)
Fixpoint split (sep : Z) (t : list Z) : list (list Z) :=
  match t with
  | [] => [[]]
  | c :: t =>
      if Z.eqb c sep then [] :: split sep t
      else match split sep t with f :: fs => (c :: f) :: fs | [] => [[c]] end
  end.

(** The lines of a text, each ended by a newline. *)
Fixpoint lines (t : list Z) : option (list (list Z)) :=
  match t with
  | [] => Some []
  | c :: t =>
      if Z.eqb c 10 then ls ← lines t; Some ([] :: ls)
      else match lines t with Some (l :: ls) => Some ((c :: l) :: ls) | _ => None end
  end.

Definition read_csv (t : list Z) : option (list (list (list Z))) := ls ← lines t; Some (map (split 44) ls).

Fixpoint join (sep : Z) (fs : list (list Z)) : list Z :=
  match fs with
  | [] => []
  | [f] => f
  | f :: fs => f ++ sep :: join sep fs
  end.

(** No character of [cs] in the text. *)
Definition free (cs t : list Z) : Prop := Forall (fun c => c ∉ cs) t.

Lemma free_app cs t u : free cs t -> free cs u -> free cs (t ++ u).
Proof. apply Forall_app_2. Qed.

Lemma free_mono cs ds t : ds ⊆ cs -> free cs t -> free ds t.
Proof. intros Hd Ht. eapply Forall_impl; [exact Ht|]. intros c Hc Hin. by apply Hc, Hd. Qed.

Lemma free_const cs t : forallb (fun c => bool_decide (c ∉ cs)) t = true -> free cs t.
Proof.
  intros H. apply Forall_forall. intros c Hc. rewrite forallb_forall in H.
  apply list_elem_of_In, H in Hc. by apply bool_decide_eq_true in Hc.
Qed.

Lemma number_free t : number_chars t -> free [10; 32; 44; 61] t.
Proof. intros Ht. eapply Forall_impl; [exact Ht|]. cbn. intros c Hc. rewrite !elem_of_cons, elem_of_nil. lia. Qed.

Lemma number_plain t : number_chars t -> free [10; 44] t.
Proof. intros Ht. apply (free_mono [10; 32; 44; 61]); [|by apply number_free]. intros c. rewrite !elem_of_cons. tauto. Qed.

Lemma split_app sep t u : sep ∉ t -> split sep (t ++ sep :: u) = t :: split sep u.
Proof.
  induction t as [|c t IH]; intros Ht; cbn [app split]; [by rewrite Z.eqb_refl|].
  rewrite not_elem_of_cons in Ht. destruct Ht as [Hc Ht].
  rewrite (proj2 (Z.eqb_neq c sep)) by congruence. by rewrite IH.
Qed.

Lemma split_single sep t : sep ∉ t -> split sep t = [t].
Proof.
  induction t as [|c t IH]; intros Ht; cbn [split]; [done|].
  rewrite not_elem_of_cons in Ht. destruct Ht as [Hc Ht].
  rewrite (proj2 (Z.eqb_neq c sep)) by congruence. by rewrite IH.
Qed.

Lemma split_join sep fs : fs <> [] -> Forall (fun f => sep ∉ f) fs -> split sep (join sep fs) = fs.
Proof.
  intros Hn Hf. induction Hf as [|f fs H Hf IH]; [done|]. destruct fs as [|g fs]; [by apply split_single|].
  cbn [join] in *. rewrite split_app by done. by rewrite IH.
Qed.

Lemma free_not_in cs c t : c ∈ cs -> free cs t -> c ∉ t.
Proof. intros Hc Ht Hin. by apply (proj1 (Forall_forall _ _) Ht c Hin). Qed.

Lemma lines_line l : 10 ∉ l -> lines (l ++ [10]) = Some [l].
Proof.
  induction l as [|c l IH]; intros Hl; [done|]. rewrite not_elem_of_cons in Hl. destruct Hl as [Hc Hl].
  cbn [app lines]. rewrite (proj2 (Z.eqb_neq c 10)) by congruence. by rewrite IH.
Qed.

Lemma lines_app t u ls ls' : lines t = Some ls -> lines u = Some ls' -> lines (t ++ u) = Some (ls ++ ls').
Proof.
  intros Ht Hu. revert ls Ht. induction t as [|c t IH]; intros ls Ht; [by injection Ht as <-|].
  cbn [app lines] in *. destruct (lines t) as [ls0|]; [|by destruct (Z.eqb c 10)].
  rewrite (IH ls0 eq_refl). destruct (Z.eqb c 10); [by injection Ht as <-|].
  destruct ls0 as [|l ls0]; [done|]. by injection Ht as <-.
Qed.

Lemma read_csv_app t u T U : read_csv t = Some T -> read_csv u = Some U -> read_csv (t ++ u) = Some (T ++ U).
Proof.
  unfold read_csv. intros (ls & El & [= <-])%bind_Some (ls' & El' & [= <-])%bind_Some.
  rewrite (lines_app t u ls ls') by done. cbn [mbind option_bind]. by rewrite map_app.
Qed.

Lemma read_csv_row fs : fs <> [] -> Forall (free [10; 44]) fs -> read_csv (join 44 fs ++ [10]) = Some [fs].
Proof.
  intros Hn Hf. unfold read_csv. rewrite lines_line.
  - cbn [mbind option_bind map]. rewrite split_join; [done..|].
    eapply Forall_impl; [exact Hf|]. intros f. apply free_not_in. set_solver.
  - clear Hn. induction Hf as [|f fs H Hf IH]; [by apply not_elem_of_nil|].
    assert (10 ∉ f) by (apply (free_not_in [10; 44]); [set_solver|done]). destruct fs as [|g fs]; [done|].
    cbn [join] in *. rewrite not_elem_of_app, not_elem_of_cons. done.
Qed.

(** What a field holds. *)
Inductive cell := Text (t : list Z) | Whole (n : Z) | Decimal (p : nat) (x : float64).

Definition cell_text (c : cell) : list Z :=
  match c with Text t => t | Whole n => fmt_d n | Decimal p x => fmt_f p x end.

Definition cell_ok (c : cell) : Prop :=
  match c with Text t => free [10; 44] t | Whole _ => True | Decimal p x => (0 < p)%nat /\ is_number x end.

(** The field [t] is [c], its decimals rounded. *)
Definition cell_reads (c : cell) (t : list Z) : Prop :=
  match c with
  | Text s => t = s
  | Whole n => read_whole t = Some n
  | Decimal p x => exists z, read_decimal p t = Some z /\ nearest p x z
  end.

Lemma cell_text_reads c : cell_ok c -> cell_reads c (cell_text c).
Proof. destruct c; cbn [cell_ok cell_reads cell_text]; [done|intros _; apply read_whole_fmt|intros []; by apply read_fmt_f]. Qed.

Lemma cell_text_free c : cell_ok c -> free [10; 44] (cell_text c).
Proof.
  destruct c as [t|n|p x]; cbn [cell_ok cell_text]; [done|intros _|intros [_ Hx]].
  - apply number_plain, fmt_d_chars.
  - by apply number_plain, fmt_f_chars.
Qed.

(** ** The two packets *)

(** What both packets say of a round, by the names of the columns; [co] and
    [nox] are the gas readings as printed. *)
Definition measured (r : readings) (co nox : Z) : list (list Z * cell) :=
  [(lit "SecActive", Whole (rd_uptime r));
   (lit "Altitude", Decimal 2 (f64_of_f32 (alt (rd_gps r))));
   (lit "Latitude", Decimal 4 (f64_of_f32 (lat (rd_gps r))));
   (lit "Longitude", Decimal 4 (f64_of_f32 (lon (rd_gps r))));
   (lit "PM1", Decimal 2 (f64_of_f32 (rd_pm1 r)));
   (lit "PM2.5", Decimal 2 (f64_of_f32 (rd_pm2_5 r)));
   (lit "PM10", Decimal 2 (f64_of_f32 (rd_pm10 r)));
   (lit "Temperature", Decimal 2 (rd_temp r));
   (lit "Humidity", Decimal 2 (rd_hum r));
   (lit "CO", Whole co); (lit "NO", Whole nox)].

Definition sd_record (mac topic : list Z) (r : readings) : list (list Z * cell) :=
  (lit "time", Text (time_stamp r)) :: (lit "ID", Text mac) :: (lit "topic", Text topic) ::
  measured r (rd_co r) (rd_nox r).

(** The measured values are numbers. *)
Definition numbers (r : readings) : Prop :=
  is_number (f64_of_f32 (alt (rd_gps r))) /\ is_number (f64_of_f32 (lat (rd_gps r))) /\
  is_number (f64_of_f32 (lon (rd_gps r))) /\ is_number (f64_of_f32 (rd_pm1 r)) /\
  is_number (f64_of_f32 (rd_pm2_5 r)) /\ is_number (f64_of_f32 (rd_pm10 r)) /\
  is_number (rd_temp r) /\ is_number (rd_hum r) /\ 0 <= rd_uptime r.

Lemma fmt_d_natural n : 0 <= n -> fmt_d n = fmt_u n.
Proof. intros Hn. unfold fmt_d. by rewrite (proj2 (Z.ltb_ge n 0)). Qed.

Definition texts (cs : list (list Z * cell)) : list (list Z) := map (fun c => cell_text (snd c)) cs.

Lemma sd_packet_row mac topic r : 0 <= rd_uptime r ->
  sd_packet (time_stamp r) mac topic r = join 44 (texts (sd_record mac topic r)) ++ [10].
Proof.
  intros Hu. unfold sd_packet, sd_record, measured, texts. cbn [map snd cell_text join].
  rewrite (fmt_d_natural _ Hu). repeat (rewrite <- app_assoc; cbn [app]). reflexivity.
Qed.

Definition sd_columns : list (list Z) :=
  [lit "time"; lit "ID"; lit "topic"; lit "SecActive"; lit "Altitude"; lit "Latitude"; lit "Longitude";
   lit "PM1"; lit "PM2.5"; lit "PM10"; lit "Temperature"; lit "Humidity"; lit "CO"; lit "NO"].

Lemma SD_HDR_read : read_csv SD_HDR = Some [sd_columns].
Proof. vm_compute. reflexivity. Qed.

(** The fields are the cells, and the cells are those the columns name. *)
Definition row_reads (columns : list (list Z)) (cs : list (list Z * cell)) (fields : list (list Z)) : Prop :=
  map fst cs = columns /\ Forall2 cell_reads (map snd cs) fields.

Definition cells_ok (cs : list (list Z * cell)) : Prop := Forall cell_ok (map snd cs).

Lemma texts_read cs : cells_ok cs -> Forall2 cell_reads (map snd cs) (texts cs).
Proof.
  intros Hc. unfold cells_ok, texts in *. induction cs as [|c cs IH]; [constructor|].
  apply Forall_cons_1 in Hc as [H Hc]. constructor; [by apply cell_text_reads|by apply IH].
Qed.

Lemma texts_free cs : cells_ok cs -> Forall (free [10; 44]) (texts cs).
Proof.
  intros Hc. unfold cells_ok, texts in *. induction cs as [|c cs IH]; [constructor|].
  apply Forall_cons_1 in Hc as [H Hc]. constructor; [by apply cell_text_free|by apply IH].
Qed.

Lemma measured_ok r co nox : numbers r -> cells_ok (measured r co nox).
Proof.
  intros (? & ? & ? & ? & ? & ? & ? & ? & ?). unfold cells_ok, measured. cbn [map snd].
  repeat (constructor; [cbn [cell_ok]; first [exact I|split; [lia|done]]|]). constructor.
Qed.

Lemma time_stamp_free r : free [10; 44] (time_stamp r).
Proof.
  assert (free [10; 44] (lit ":")) as Hc by by apply free_const.
  assert (forall n, free [10; 44] (two n)) as Ht.
  { intros n. apply number_plain, Forall_app_2; [by apply Forall_replicate|apply fmt_d_chars]. }
  unfold time_stamp. destruct (_ || _); cbv zeta; repeat first
    [assumption|apply Ht|apply number_plain, fmt_u_chars|apply free_app].
Qed.

Lemma sd_record_ok mac topic r : free [10; 44] mac -> free [10; 44] topic -> numbers r ->
  cells_ok (sd_record mac topic r).
Proof.
  intros Hm Ht Hr. unfold cells_ok, sd_record. cbn [map snd].
  constructor; [apply time_stamp_free|]. constructor; [exact Hm|]. constructor; [exact Ht|].
  by apply measured_ok.
Qed.

Lemma sd_packet_read mac topic r : free [10; 44] mac -> free [10; 44] topic -> numbers r ->
  exists fields, read_csv (sd_packet (time_stamp r) mac topic r) = Some [fields] /\
    row_reads sd_columns (sd_record mac topic r) fields.
Proof.
  intros Hm Ht Hr. pose proof (sd_record_ok mac topic r Hm Ht Hr) as Hok. exists (texts (sd_record mac topic r)).
  rewrite sd_packet_row by (by destruct Hr as (_ & _ & _ & _ & _ & _ & _ & _ & ?)). split.
  - apply read_csv_row; [done|by apply texts_free].
  - split; [reflexivity|by apply texts_read].
Qed.

Section day.
Context {W} `{FileSystemLaws W}.
Variables mac topic : list Z.

(** The file holds the rows under the header; one that is not there holds none. *)
Definition holds (file : option (list Z)) (rows : list (list (list Z))) : Prop :=
  match file with None => rows = [] | Some text => read_csv text = Some (sd_columns :: rows) end.

Lemma rows_read rs : free [10; 44] mac -> free [10; 44] topic -> Forall numbers rs ->
  exists rows, read_csv (concat ((fun r => sd_packet (time_stamp r) mac topic r) <$> rs)) = Some rows /\
    Forall2 (fun r => row_reads sd_columns (sd_record mac topic r)) rs rows.
Proof.
  intros Hm Ht. induction 1 as [|r rs Hr _ (rows & Er & Hrows)]; [by exists []|].
  destruct (sd_packet_read mac topic r Hm Ht Hr) as (fields & Ef & Hf). exists (fields :: rows). split.
  - exact (read_csv_app _ _ _ _ Ef Er).
  - by constructor.
Qed.

End day.

(** ** The line protocol *)

Definition key_value (t : list Z) : option (list Z * list Z) :=
  match split 61 t with [k; v] => Some (k, v) | _ => None end.

Fixpoint key_values (ts : list (list Z)) : option (list (list Z * list Z)) :=
  match ts with
  | [] => Some []
  | t :: ts => kv ← key_value t; kvs ← key_values ts; Some (kv :: kvs)
  end.

(** A point: its measurement, its tags and its fields; no time, so the server
    takes its own. *)
Definition read_point (t : list Z) : option (list Z * list (list Z * list Z) * list (list Z * list Z)) :=
  match split 32 t with
  | [head; fields] =>
      match split 44 head with
      | name :: tags => tags ← key_values tags; fields ← key_values (split 44 fields); Some (name, tags, fields)
      | [] => None
      end
  | _ => None
  end.

Definition pair_text (kv : list Z * list Z) : list Z := fst kv ++ 61 :: snd kv.

(** No separator of the protocol. *)
Abbreviation word := (free [32; 44; 61]).

Definition word_pair (kv : list Z * list Z) : Prop := word (fst kv) /\ word (snd kv).

Lemma key_values_text kvs : Forall word_pair kvs -> key_values (map pair_text kvs) = Some kvs.
Proof.
  induction 1 as [|[k v] kvs [Hk Hv] _ IH]; [done|]. cbn [map key_values]. rewrite IH. unfold key_value, pair_text.
  cbn [fst snd] in *. rewrite split_app, split_single; [done|..]; apply (free_not_in [32; 44; 61]); try done;
    rewrite !elem_of_cons; auto.
Qed.

Lemma pair_text_free kv : word_pair kv -> free [32; 44] (pair_text kv).
Proof.
  assert (forall t, word t -> free [32; 44] t) as H.
  { intros t. apply free_mono. intros c. rewrite !elem_of_cons. tauto. }
  intros [Hk Hv]. apply free_app; [by apply H|]. constructor; [|by apply H].
  rewrite !elem_of_cons, elem_of_nil. lia.
Qed.

Lemma join_not_in c sep fs : c <> sep -> Forall (fun f => c ∉ f) fs -> c ∉ join sep fs.
Proof.
  intros Hc. induction 1 as [|f fs H Hf IH]; [by apply not_elem_of_nil|]. destruct fs as [|g fs]; [done|].
  cbn [join] in *. rewrite not_elem_of_app, not_elem_of_cons. done.
Qed.

Lemma read_point_text name tags fields : word name -> fields <> [] -> Forall word_pair tags -> Forall word_pair fields ->
  read_point (join 44 (name :: map pair_text tags) ++ 32 :: join 44 (map pair_text fields)) = Some (name, tags, fields).
Proof.
  intros Hn Hf Ht Hfs.
  assert (forall kvs, Forall word_pair kvs -> Forall (free [32; 44]) (map pair_text kvs)) as Hp.
  { intros kvs Hk. induction Hk; constructor; [by apply pair_text_free|done]. }
  assert (Forall (free [32; 44]) (name :: map pair_text tags)) as Hhead.
  { constructor; [|by apply Hp]. eapply free_mono; [|exact Hn]. intros c. rewrite !elem_of_cons. tauto. }
  assert (forall c ts, c ∈ [32; 44] -> Forall (free [32; 44]) ts -> Forall (fun t => c ∉ t) ts) as Hc.
  { intros c ts Hc Hts. eapply Forall_impl; [exact Hts|]. intros t. by apply free_not_in. }
  assert (32 ∈ [32; 44] /\ 44 ∈ [32; 44]) as [H32 H44] by (rewrite !elem_of_cons; auto).
  unfold read_point. rewrite split_app, split_single by (apply join_not_in; [lia|]; apply Hc; auto).
  rewrite !split_join; [|by destruct fields|apply Hc; auto|done|apply Hc; auto].
  rewrite !key_values_text by done. done.
Qed.

Definition named_texts (cs : list (list Z * cell)) : list (list Z * list Z) :=
  map (fun c => (fst c, cell_text (snd c))) cs.

Definition packet_tags (mac version : list Z) : list (list Z * list Z) :=
  [(lit "ID", mac); (lit "SensorModel", lit "H2+" ++ version)].

Lemma mqtt_packet_point measurement mac version r : 0 <= rd_uptime r ->
  mqtt_packet measurement mac version r =
  join 44 (measurement :: map pair_text (packet_tags mac version)) ++
  32 :: join 44 (map pair_text (named_texts (measured r (u32 (rd_co r)) (u32 (rd_nox r))))).
Proof.
  intros Hu. assert (forall n, 0 <= u32 n) as H32 by (intros n; apply (uwrap_range 32); lia).
  unfold mqtt_packet, measured, packet_tags, named_texts, pair_text. cbn [map fst snd cell_text join].
  rewrite !fmt_d_natural by done. repeat (rewrite <- app_assoc; cbn [app]). reflexivity.
Qed.

Lemma named_texts_words r co nox : numbers r -> Forall word_pair (named_texts (measured r co nox)).
Proof.
  intros Hr. assert (forall t, number_chars t -> word t) as Hw.
  { intros t Ht. apply (free_mono [10; 32; 44; 61]); [|by apply number_free]. intros c. rewrite !elem_of_cons. tauto. }
  destruct Hr as (? & ? & ? & ? & ? & ? & ? & ? & ?). unfold named_texts, measured. cbn [map fst snd cell_text].
  repeat (constructor; [split; cbn [fst snd]; [by apply free_const|
    apply Hw; first [apply fmt_d_chars|by apply fmt_f_chars]]|]). constructor.
Qed.

Lemma named_texts_read cs : cells_ok cs -> row_reads (map fst (named_texts cs)) cs (map snd (named_texts cs)).
Proof.
  intros Hc. split; unfold named_texts; rewrite map_map; [done|]. cbn [snd]. by apply texts_read.
Qed.

(** The packet sent over MQTT is a point of the line protocol: its measurement,
    the sensor and its model as tags, and as fields what the round measured,
    each under its name, its decimals the nearest ones. *)
Theorem mqtt_packet_read measurement mac version r :
  word measurement -> word mac -> word version -> numbers r ->
  exists fields, read_point (mqtt_packet measurement mac version r) = Some (measurement, packet_tags mac version, fields) /\
    row_reads (map fst fields) (measured r (u32 (rd_co r)) (u32 (rd_nox r))) (map snd fields).
Proof.
  intros Hm Hmac Hv Hr. exists (named_texts (measured r (u32 (rd_co r)) (u32 (rd_nox r)))). split.
  - rewrite mqtt_packet_point by (by destruct Hr as (_ & _ & _ & _ & _ & _ & _ & _ & ?)).
    apply read_point_text; [done|done| |by apply named_texts_words].
    constructor; [split; [by apply free_const|exact Hmac]|].
    constructor; [split; [by apply free_const|apply free_app; [by apply free_const|exact Hv]]|constructor].
  - by apply named_texts_read, measured_ok.
Qed.

(** ** Instances *)

Lemma demo_numbers : numbers demo_readings.
Proof. unfold numbers. split_and!; vm_compute; done. Qed.


Lemma mqtt_packet_read_witness :
  exists fields, read_point (mqtt_packet (lit "airQuality") (lit "240AC40001FF") (lit "2.1.0") demo_readings) =
      Some (lit "airQuality", packet_tags (lit "240AC40001FF") (lit "2.1.0"), fields) /\
    row_reads (map fst fields) (measured demo_readings (u32 500) (u32 300)) (map snd fields).
Proof.
  apply (mqtt_packet_read (lit "airQuality") (lit "240AC40001FF") (lit "2.1.0") demo_readings);
    [by apply free_const|by apply free_const|by apply free_const|exact demo_numbers].
Defined.
