(* ===== verification/Telemetry.v ===== *)
(** * From the sensors to the readers of the packets

    A whole round of the data task: what it polls, what it hands to the MQTT
    client and what it prints to the card, as the server and the table's reader
    see it. *)

From Stdlib Require Import SpecFloat.
From S2P Require Import Prelude CMem Printf Ext Float32 FmtFloat Sd Sensors AppUtils Mqtt Main Packets.
From S2P Require Pm Gps.

Local Open Scope Z_scope.

(** ** Programs that return *)

(** What a program returns, and with which calls and statics. *)
Definition returning {S X} (P : ctrace -> X -> S -> Prop) : ctrace -> outcome X -> S -> Prop :=
  fun h o s => forall x, o = Done x -> P h x s.

Lemma returning_bind {S X Y} A0 P P' (f : X -> cprog S Y) p h s :
  wpa A0 (returning P) p h s -> (forall h x s, P h x s -> wpa A0 (returning P') (f x) h s) ->
  wpa A0 (returning P') (bind f p) h s.
Proof.
  intros Hp Hf. apply wpa_bind. eapply wpa_mono; [|exact Hp].
  intros h' [x|r|] s' H; [by apply Hf, H|by intros ?|done].
Qed.

Lemma returning_only {S X} A0 (C : ext -> Prop) Q0 (p : cprog S X) h s :
  only C Q0 p -> wpa A0 (returning (fun h' x _ => (exists t, h' = h ++ t /\ Forall (fun c => C (fst c)) t) /\ Q0 x)) p h s.
Proof.
  intros Hp. eapply wpa_mono; [|by apply wpa_only]. intros h' o s' [Ht HQ] x ->. by split; [|apply HQ].
Qed.

(** ** Polling is silent *)

(** Neither a message nor a line of a file. *)
Definition silent (e : ext) : Prop :=
  match e with esp_mqtt_client_publish _ _ _ _ | fprintf _ _ => False | _ => True end.

Lemma mics_samples_silent {S} n c6 c7 : only silent any (mics_samples (S := S) n c6 c7).
Proof. revert c6 c7. induction n as [|n IH]; intros c6 c7; [done|]. cbn [mics_samples]. solve_only. Qed.

#[local] Hint Resolve mics_samples_silent : airu.

Lemma poll_sensors_silent vars : only silent any (poll_sensors vars).
Proof.
  unfold poll_sensors. apply (only_bind _ any); [apply zoom_only; solve_only|intros [e [[a1 a2] a3]] _].
  apply (only_bind _ any); [solve_only|intros [e2 [temp hum]] _].
  apply (only_bind _ any); [unfold MICS4514_Poll; apply (only_bind _ any); [auto with airu|intros [c6 c7] _; done]|].
  intros [nox co] _. apply (only_bind _ any); [apply zoom_only; solve_only|]. intros g _. solve_only.
Qed.

(** ** What the sensors reported

    Read off the trace of a round, without the code: the answers to the I2C
    transactions, the samples of a channel of the converter, the timer. *)

Definition transactions (h : ctrace) : list answer :=
  omap (fun c => match fst c with i2c_master_cmd_begin _ _ _ => Some (snd c) | _ => None end) h.

Definition samples (channel : Z) (h : ctrace) : list Z :=
  omap (fun c => match fst c with
                 | adc1_get_raw k => if Z.eqb k channel then Some (a_ret (snd c)) else None
                 | _ => None end) h.

Definition timers (h : ctrace) : list Z :=
  omap (fun c => match fst c with esp_timer_get_time => Some (a_ret (snd c)) | _ => None end) h.

Definition sum (l : list Z) : Z := foldr Z.add 0 l.

(** The dust since the last poll: averages, or -1 without a packet. *)
Definition dust_reported (d : Pm.pm_data) : float32 * float32 * float32 :=
  let avg x := f32_div x (f32_of_Z (Pm.sample_count d)) in
  if decide (Pm.sample_count d = 0) then (f32_of_Z (-1), f32_of_Z (-1), f32_of_Z (-1))
  else (avg (Pm.pm1 d), avg (Pm.pm2_5 d), avg (Pm.pm10 d)).

(** The temperature and humidity of the two transactions, when both succeed;
    what the variables held otherwise. *)
Definition climate_reported (vars : float64 * float64) (l : list answer) : float64 * float64 :=
  match l with
  | [asked; read] =>
      if decide (a_ret asked = ESP_OK /\ a_ret read = ESP_OK) then
        (f64_dyadic ((data_byte read 0 * 256 + data_byte read 1) * 165 - 40 * 65536) (-16),
         f64_dyadic ((data_byte read 2 * 256 + data_byte read 3) * 100) (-16))
      else vars
  | _ => vars
  end.

(** The readings [r] are what the sensors reported in the round [h] begun in
    [s]: NO on channel 6 and CO on channel 7, 64 samples each; whole seconds of
    the timer. *)
Record sensed (vars : float64 * float64) (s : device) (h : ctrace) (r : readings) : Prop := {
  se_dust : (rd_pm1 r, rd_pm2_5 r, rd_pm10 r) = dust_reported (Pm.pm_accum (dv_pm s));
  se_climate : (rd_temp r, rd_hum r) = climate_reported vars (transactions h);
  se_no : length (samples 6 h) = 64%nat /\ rd_nox r = sum (samples 6 h) / 64;
  se_co : length (samples 7 h) = 64%nat /\ rd_co r = sum (samples 7 h) / 64;
  se_fix : rd_gps r = Gps.esp_gps (dv_gps s);
  se_uptime : exists t, timers h = [t] /\ rd_uptime r = t / 1000000
}.

Lemma transactions_app a b : transactions (a ++ b) = transactions a ++ transactions b.
Proof. apply omap_app. Qed.
Lemma samples_app k a b : samples k (a ++ b) = samples k a ++ samples k b.
Proof. apply omap_app. Qed.
Lemma timers_app a b : timers (a ++ b) = timers a ++ timers b.
Proof. apply omap_app. Qed.

(** No sensor is asked. *)
Definition senses_nothing (e : ext) : Prop :=
  match e with i2c_master_cmd_begin _ _ _ | adc1_get_raw _ | esp_timer_get_time => False | _ => True end.

Lemma senses_nothing_app h t : Forall (fun c => senses_nothing (fst c)) t ->
  transactions (h ++ t) = transactions h /\ (forall k, samples k (h ++ t) = samples k h) /\ timers (h ++ t) = timers h.
Proof.
  intros Ht. rewrite transactions_app, timers_app.
  assert (transactions t = [] /\ (forall k, samples k t = []) /\ timers t = []) as (-> & H & ->).
  { induction Ht as [|[e a] t He _ (IH1 & IH2 & IH3)]; [done|].
    destruct e; cbn [fst senses_nothing] in He; try contradiction; by split_and!. }
  rewrite !app_nil_r. split; [done|]. split; [|done]. intros k. by rewrite samples_app, H, app_nil_r.
Qed.

Lemma sensed_app vars s h t r : Forall (fun c => senses_nothing (fst c)) t ->
  sensed vars s h r -> sensed vars s (h ++ t) r.
Proof.
  intros Ht []. destruct (senses_nothing_app h t Ht) as (E1 & E2 & E3).
  split; rewrite ?E1, ?E2, ?E3; done.
Qed.

Lemma mics_senses {S} n c6 c7 h (s : S) :
  wpa relied (returning (fun h' '(x6, x7) s' => s' = s /\ exists t, h' = h ++ t /\
    transactions t = [] /\ timers t = [] /\ length (samples 6 t) = n /\ length (samples 7 t) = n /\
    x6 = c6 + sum (samples 6 t) /\ x7 = c7 + sum (samples 7 t) /\
    0 <= sum (samples 6 t) <= 4095 * Z.of_nat n /\ 0 <= sum (samples 7 t) <= 4095 * Z.of_nat n))
    (mics_samples n c6 c7) h s.
Proof.
  revert c6 c7 h. induction n as [|n IH]; intros c6 c7 h.
  - intros x [= <-]. split; [done|]. exists []. rewrite app_nil_r. cbn. split_and!; lia || done.
  - cbn [mics_samples]. unfold mbind, prog_bind, call. cbn [bind wpa relied]. unfold raw_ok. intros a Ha b Hb.
    eapply wpa_mono; [|apply IH]. intros h' o s' H [x6 x7] Ho.
    destruct (H _ Ho) as (-> & t & -> & E1 & E2 & L6 & L7 & -> & -> & B6 & B7). split; [done|].
    exists ((adc1_get_raw ADC_CHANNEL_6, a) :: (adc1_get_raw ADC_CHANNEL_7, b) :: t).
    rewrite <- !app_assoc. split; [done|].
    change (samples 6 (_ :: _ :: t)) with (a_ret a :: samples 6 t).
    change (samples 7 (_ :: _ :: t)) with (a_ret b :: samples 7 t).
    unfold sum in *. cbn [length foldr]. split_and!; try done; lia.
Qed.

Lemma hdc_senses {S} vars h (s : S) :
  wpa relied (returning (fun h' '(_, v) s' => s' = s /\ exists t, h' = h ++ t /\
    v = climate_reported vars (transactions t) /\ (forall k, samples k t = []) /\ timers t = []))
    (HDC1080_Poll vars) h s.
Proof.
  unfold HDC1080_Poll, mbind, prog_bind, call, call_. cbn [bind wpa].
  intros a1 _ a2 _ a3 _ a4 _ a5 _ a6 _. destruct (Z.eqb_spec (a_ret a6) ESP_OK) as [E6|E6]; cbn [negb].
  2:{ intros x [= <-]. split; [done|]. rewrite <- !app_assoc. by eexists. }
  cbn [bind wpa]. intros a7 _ a8 _ a9 _ a10 _ a11 _ a12 _ a13 _ a14 _ a15 _ a16 _ a17 _ a18 _.
  destruct (Z.eqb_spec (a_ret a17) ESP_OK) as [E17|E17]; cbn [negb];
    intros x [= <-]; (split; [done|]); rewrite <- !app_assoc; eexists; (split; [reflexivity|]);
    (split; [|done]).
  - change (transactions _) with [a6; a17]. cbn [climate_reported]. rewrite decide_True by done.
    destruct (readings_exact (data_byte a17 0) (data_byte a17 1)) as [-> _]; [apply data_byte_range..|].
    destruct (readings_exact (data_byte a17 2) (data_byte a17 3)) as [_ ->]; [apply data_byte_range..|]. done.
  - change (transactions _) with [a6; a17]. cbn [climate_reported]. by rewrite decide_False by by intros [].
Qed.

Lemma poll_sensors_senses vars h s :
  wpa relied (returning (fun h' r s' => exists t, h' = h ++ t /\ sensed vars s t r)) (poll_sensors vars) h s.
Proof.
  unfold poll_sensors, mbind, prog_bind.
  apply (returning_bind _ (fun h' '(_, d) s' => h' = h /\ d = dust_reported (Pm.pm_accum (dv_pm s)) /\
    dv_gps s' = dv_gps s)).
  { apply in_pm_wpa. unfold Pm.PMS_Poll, mbind, prog_bind, get. cbn [bind wpa]. unfold dust_reported.
    destruct (Z.eqb_spec (Pm.sample_count (Pm.pm_accum (dv_pm s))) 0) as [E|E].
    - rewrite decide_True by done. by intros x [= <-].
    - rewrite decide_False by done. cbn [bind wpa].
      unfold Pm._pm_accum_rst, mbind, prog_bind, modify. cbn [bind wpa]. by intros x [= <-]. }
  intros h1 [e [[a1 a2] a3]] s1 (-> & Hd & Eg). eapply returning_bind; [apply hdc_senses|].
  intros h2 [e2 [temp hum]] s2 (-> & t2 & -> & Hc & S2 & T2).
  apply (returning_bind _ (fun h' '(nox, co) s' => s' = s1 /\ exists t, h' = (h ++ t2) ++ t /\
    transactions t = [] /\ timers t = [] /\ length (samples 6 t) = 64%nat /\ length (samples 7 t) = 64%nat /\
    nox = sum (samples 6 t) / 64 /\ co = sum (samples 7 t) / 64)).
  { unfold MICS4514_Poll, mbind, prog_bind. eapply returning_bind; [apply mics_senses|].
    intros h3 [x6 x7] s3 (-> & t & -> & E1 & E2 & L6 & L7 & -> & -> & B6 & B7).
    cbn [mret prog_ret wpa]. intros x [= <-]. split; [done|]. exists t.
    unfold NO_OF_SAMPLES in *. change (Z.of_nat 64) with 64 in *. rewrite !Z.add_0_l, !Z.quot_div_nonneg by lia.
    assert (forall d, 0 <= d <= 4095 * 64 -> 0 <= d / 64 < 4096) as Hdiv
      by (intros d Hdd; split; [apply Z.div_pos; lia|apply Z.div_lt_upper_bound; lia]).
    pose proof (Hdiv _ B6). pose proof (Hdiv _ B7). rewrite !swrap_small by lia. done. }
  intros h3 [nox co] s3 (-> & t3 & -> & E3 & T3 & L6 & L7 & -> & ->).
  apply (returning_bind _ (fun h' g s' => h' = (h ++ t2) ++ t3 /\ g = Gps.esp_gps (dv_gps s))).
  { apply in_gps_wpa. rewrite Eg. unfold Gps.GPS_Poll, mbind, prog_bind, get. cbn [bind wpa mret prog_ret].
    intros x [= <-]. split; [done|]. by destruct (Gps.esp_gps (dv_gps s)). }
  intros h4 g s4 [-> ->]. unfold call. cbn [bind wpa relied]. intros t Ht x [= <-].
  exists (t2 ++ t3 ++ [(esp_timer_get_time, t)]). split; [by rewrite <- !app_assoc|].
  assert (forall k, samples k (t2 ++ t3 ++ [(esp_timer_get_time, t)]) = samples k t3) as Es.
  { intros k. by rewrite !samples_app, S2, app_nil_r. }
  split; cbn [rd_pm1 rd_pm2_5 rd_pm10 rd_temp rd_hum rd_co rd_nox rd_gps rd_uptime];
    rewrite ?Es, ?transactions_app, ?timers_app, ?E3, ?T2, ?T3; try done.
  - by rewrite app_nil_r.
  - exists (a_ret t). split; [done|]. rewrite Z.quot_div_nonneg by lia. apply uwrap_small.
    split; [apply Z.div_pos; lia|]. apply Z.div_lt_upper_bound; lia.
Qed.

Section config.
Variables CONFIG_INFLUX_MEASUREMENT_NAME CONFIG_MQTT_ROOT_TOPIC CONFIG_MQTT_DATA_PUB_TOPIC : list Z.
Variable CONFIG_DATA_UPLOAD_PERIOD : Z.
Variables CONFIG_SD_DATA_STORE CONFIG_SD_CARD_DEBUG : bool.

Local Abbreviation measurement := CONFIG_INFLUX_MEASUREMENT_NAME.
Local Abbreviation data_topic := (MQTT_DATA_PUB_TOPIC CONFIG_MQTT_ROOT_TOPIC CONFIG_MQTT_DATA_PUB_TOPIC).

(** What is published and what is printed is the packet of [r]; the header of
    the table is printed too. *)
Definition says (mac version : list Z) (r : readings) (e : ext) : Prop :=
  match e with
  | esp_mqtt_client_publish _ topic text _ => topic = data_topic /\ text = mqtt_packet measurement mac version r
  | fprintf _ text => text = SD_HDR \/ text = sd_packet (time_stamp r) mac data_topic r
  | _ => True
  end.

Lemma silent_says mac version r e : silent e -> says mac version r e.
Proof. by destruct e. Qed.

Lemma publish_says mac version r :
  only (says mac version r) any (MQTT_Publish_Data CONFIG_MQTT_ROOT_TOPIC CONFIG_MQTT_DATA_PUB_TOPIC
    (mqtt_packet measurement mac version r)).
Proof. solve_only. Qed.

Lemma write_data_says mac version r y m d :
  only (says mac version r) any (sd_write_data (sd_packet (time_stamp r) mac data_topic r) y m d).
Proof. solve_only; cbn [says]; auto. Qed.

Lemma shift_logs_silent fuel i : only silent any (shift_logs fuel i).
Proof. revert i. induction fuel as [|fuel IH]; intros i; [done|]. cbn [shift_logs]. solve_only. Qed.

#[local] Hint Resolve shift_logs_silent : airu.

Lemma callback_silent : only silent any (periodic_timer_callback CONFIG_SD_CARD_DEBUG).
Proof. solve_only. Qed.

Lemma store_packet_says version pkt mac r : nonzero mac -> nonzero data_topic ->
  only (says mac version r) any
    (store_packet CONFIG_MQTT_ROOT_TOPIC CONFIG_MQTT_DATA_PUB_TOPIC CONFIG_SD_CARD_DEBUG pkt mac r).
Proof.
  intros Hm Ht. unfold store_packet, mbind, prog_bind, call, call_. cbn [bind only].
  repeat (split; [exact I|]; intros ?).
  destruct (strcpy _ _ (time_stamp r)) as [b|] eqn:Es; cbn [option_bind]; [|done].
  rewrite (strcpy_cstr _ _ _ (time_stamp_nonzero r) Es). cbn [try bind].
  destruct (strcpy pkt 0 _) as [b2|] eqn:E2; cbn [option_bind]; [|done].
  apply strcpy_cstr in E2; [|by apply sd_packet_nonzero; [apply time_stamp_nonzero|..]].
  rewrite E2. cbn [try bind]. apply (only_bind _ any); [apply zoom_only, write_data_says|intros ? _].
  apply zoom_only. eapply only_mono; [apply silent_says|done|apply callback_silent].
Qed.

Lemma shift_logs_senses fuel i : only senses_nothing any (shift_logs fuel i).
Proof. revert i. induction fuel as [|fuel IH]; intros i; [done|]. cbn [shift_logs]. solve_only. Qed.

#[local] Hint Resolve shift_logs_senses : airu.

Lemma store_packet_senses pkt mac r : only senses_nothing any
  (store_packet CONFIG_MQTT_ROOT_TOPIC CONFIG_MQTT_DATA_PUB_TOPIC CONFIG_SD_CARD_DEBUG pkt mac r).
Proof.
  unfold store_packet, mbind, prog_bind, call, call_. cbn [bind only].
  repeat (split; [done|]; intros ?). do 2 (apply (only_bind _ any); [by destruct (_ : option _)|]; intros ? _).
  apply (only_bind _ any); [|intros ? _]; apply zoom_only; solve_only.
Qed.

Lemma send_packet_senses app_desc r : only senses_nothing any
  (send_packet measurement CONFIG_MQTT_ROOT_TOPIC CONFIG_MQTT_DATA_PUB_TOPIC CONFIG_SD_DATA_STORE
    CONFIG_SD_CARD_DEBUG app_desc r).
Proof.
  unfold send_packet, heap_alloc, mbind, prog_bind, get. cbn [bind only]. split; [done|]. intros m s.
  do 4 (apply (only_bind _ any); [by destruct (_ : option _)|]; intros ? _).
  apply (only_bind _ any); [apply zoom_only; solve_only|intros err _].
  apply (only_bind _ any); [destruct (Z.leb _ err); [done|]; solve_only; done|intros ? _].
  apply (only_bind _ any); [destruct CONFIG_SD_DATA_STORE; [apply store_packet_senses|done]|intros ? _].
  by split.
Qed.

Lemma send_packet_says app_desc mac version r h s :
  cstr (DEVICE_MAC (dv_app s)) = Some mac -> app_version app_desc = Some version ->
  nonzero measurement -> nonzero data_topic ->
  wpa relied (returning (fun h' _ _ => exists t, h' = h ++ t /\ Forall (fun c => says mac version r (fst c)) t))
    (send_packet measurement CONFIG_MQTT_ROOT_TOPIC CONFIG_MQTT_DATA_PUB_TOPIC CONFIG_SD_DATA_STORE
      CONFIG_SD_CARD_DEBUG app_desc r) h s.
Proof.
  intros Hm Hv Hn Ht. assert (nonzero mac) as Hmac by (by apply cstr_inv in Hm as [? _]).
  assert (nonzero version) as Hvn.
  { unfold app_version in Hv. destruct (Z.eqb _ 0); [done|]. by apply cstr_inv in Hv as [? _]. }
  unfold send_packet, heap_alloc, mbind, prog_bind, get. cbn [bind wpa]. intros m _.
  cbn [snd fst]. rewrite Hm, Hv. cbn [try bind].
  destruct (if Z.eqb (a_ret m) 0 then None else _) as [b|]; cbn [option_bind try bind wpa]; [|done].
  destruct (strcpy b 0 _) as [buf|] eqn:Eb; cbn [try bind wpa]; [|done].
  rewrite (strcpy_cstr _ _ _ (mqtt_packet_nonzero _ _ _ r Hn Hmac Hvn) Eb). cbn [try bind].
  eapply wpa_mono; [|apply (returning_only _ (says mac version r) any)].
  - intros h' o s' H x Ho. destruct (H x Ho) as [(t & -> & Hs) _]. rewrite <- app_assoc.
    eexists. split; [reflexivity|]. by constructor.
  - apply (only_bind _ any); [apply zoom_only, publish_says|intros err _].
    apply (only_bind _ any); [destruct (Z.leb _ err); solve_only; done|intros ? _].
    apply (only_bind _ any); [|intros ? _; solve_only].
    destruct CONFIG_SD_DATA_STORE; [by apply store_packet_says|done].
Qed.

(** A server reads the message as a point of the readings [r]; a reader of the
    table reads what is printed as its header or the row of [r]. *)
Definition tells (mac version : list Z) (r : readings) (e : ext) : Prop :=
  match e with
  | esp_mqtt_client_publish _ topic text _ => topic = data_topic /\
      exists fields, read_point text = Some (measurement, packet_tags mac version, fields) /\
        row_reads (map fst fields) (measured r (u32 (rd_co r)) (u32 (rd_nox r))) (map snd fields)
  | fprintf _ text => read_csv text = Some [sd_columns] \/
      exists fields, read_csv text = Some [fields] /\ row_reads sd_columns (sd_record mac data_topic r) fields
  | _ => True
  end.

(** Values a reader can tell apart from the separators. *)
Definition plain (t : list Z) : Prop := free [10; 32; 44; 61] t.

Lemma plain_word t : plain t -> word t.
Proof. apply free_mono. intros c. rewrite !elem_of_cons. tauto. Qed.

Lemma plain_field t : plain t -> free [10; 44] t.
Proof. apply free_mono. intros c. rewrite !elem_of_cons. tauto. Qed.

Lemma at_most_number k x : at_most k x -> is_number x.
Proof. by destruct x. Qed.

Lemma readings_ok_numbers r : readings_ok r -> numbers r.
Proof.
  intros (H1 & H2 & H3 & [H4 H5] & _ & _ & (H6 & H7 & H8 & _) & H9).
  unfold numbers. split_and!; try lia; eapply at_most_number; eauto.
Qed.

Lemma says_tells mac version r e : plain measurement -> plain mac -> plain version -> plain data_topic ->
  numbers r -> says mac version r e -> tells mac version r e.
Proof.
  intros Hn Hm Hv Ht Hr. destruct e; try done; cbn [says tells].
  - intros [-> ->]. split; [done|]. by apply mqtt_packet_read; [apply plain_word..|].
  - intros [->| ->]; [left; exact SD_HDR_read|right]. by apply sd_packet_read; [apply plain_field..|].
Qed.

Lemma poll_sensors_returns vars mac h s : device_ok mac s -> climate_ok vars ->
  wpa relied (returning (fun h' r s' =>
    (exists t, h' = h ++ t /\ Forall (fun c => silent (fst c)) t /\ sensed vars s t r) /\
    device_ok mac s' /\ readings_ok r)) (poll_sensors vars) h s.
Proof.
  intros Hs Hv. eapply wpa_mono; [|apply wpa_and; [apply (returning_only _ silent any), poll_sensors_silent|
    apply wpa_and; [by apply (poll_sensors_ends vars mac)|apply poll_sensors_senses]]].
  intros h' o s' [H1 [H2 H3]] x Ho. destruct (H1 x Ho) as [(t & Ht & Hq) _].
  destruct (H3 x Ho) as (t' & Ht' & Hse). subst o. split; [|exact H2].
  rewrite Ht in Ht'. apply app_inv_head in Ht' as <-. by exists t.
Qed.

End config.

(** ** Instances *)

Definition demo_result : float64 * float64 := match snd (fst round_run) with Done v => v | _ => (S754_nan, S754_nan) end.

Lemma round_run_done : snd (fst round_run) = Done demo_result.
Proof. vm_compute. reflexivity. Qed.

